(* ===== verification/_CoqProject ===== *)
-Q . S2P
Prelude.v
Interfaces.v
Monad.v
Ring.v
Str.v
Bytes.v
Pmm.v
Vmm.v
Elf.v
Heap.v
Pipe.v
Process.v
Serial.v
Log.v
Display.v
Tty.v
Acpi.v
Pci.v
Ip.v
Net.v
Dns.v
Http.v
Mmio.v
Https.v
Pit.v
Rtc.v
Ext2Clock.v
Ext2Types.v
Ext2.v
Ext2Demo.v
Ext2Spec.v
Ext2Alloc.v
Ext2Dir.v
Gdt.v
Idt.v
Ps2.v
Apic.v
Smp.v
Nvme.v
Netdev.v
Xhci.v
Usb.v
UsbHid.v
Wifi.v
Syscalls.v
SyscallSpec.v
ElfLog.v
RtcIrq.v
Boot.v
Kmain.v
