(* ===== verification/Prelude.v ===== *)
(** * A verification development for the AlephOS kernel

    AlephOS is a 64-bit kernel in C ([src/kernel/src]).  The boot loader (Limine)
    enters [kmain] ([main.c]), which brings up memory, tables, interrupt
    controllers, devices, file system, network and processes and then loops.
    After that the kernel runs from interrupts and from system calls.  This
    library translates the C files into Rocq definitions, one file per component,
    and proves what the components keep and compute.  A definition has the name of
    the C function it models; a block of a function that has a definition of its
    own is named after what it does.

    ** Conventions

    - A w-bit unsigned integer is a [Z]; every place where C reduces it is written
      with [u8], [u16], [u32] or [u64] below, signed readings with [s8] and [s32].
    - A stateful function is a program of the monad [M S] of [Monad.v] (or a
      function [S -> option S] in [Pmm.v], [Vmm.v], [Heap.v], [Pipe.v] and
      [Process.v]).  [None] is a memory fault (NULL, a freed or foreign object, an
      access outside a buffer), a division by zero, or a run that does not come
      back.  [wp] is total correctness: the run ends, without a fault, in a
      result and a state with the stated property.
    - Objects on the heap are stores indexed by address; an object that is freed
      leaves its store, so that a later use is a fault (except in [Process.v], where
      a control block keeps its contents until its address is handed out again).
      Objects that share an address share their contents.  Buffers are lists of
      bytes or, where aliasing matters ([memcpy], [memmove], the frame buffer, the
      heap), bytes of an addressed memory.
    - What the C code calls but does not contain is a class or a parameter: I/O
      ports ([Interfaces.Ports]), device memory ([Mmio.Bus]), configuration space
      ([Pci.PciBus]), special registers ([Mmio.Apicpu], [Syscalls.Msr],
      [Idt.Cpu]), what an event handler does ([invoke]), the contents of memory that
      was never written ([junk]).  Laws of a device are subclasses
      ([Rtc.RtcChip], [Serial.SerialPort], [Ps2.Ps2Mouse], [Apic.IoApicChip],
      [Smp.LockCell], [Pci.PciConfig]), stated only where a theorem needs them,
      each with an instance on which the theorems are applied.

    ** Shared files

    [Prelude.v] machine integers, automation and list lemmas; [Monad.v] programs
    and their rules; [Interfaces.v] what the components promise one another
    ([PageAlloc], [Paging], [Malloc], [BlockDev], [Ports]); [Ring.v] circular
    buffers; [Bytes.v] little-endian fields and packed structures, whose
    [_layout] is the list of the sizes of their members; [Mmio.v] device
    memory.

    ** Memory

    - [Pmm.v] ([mm/pmm.c]): bitmap of physical pages.  Allocation takes the lowest
      free page; no sequence of calls hands out a page twice; the ranges that
      [pmm_init] frees.  Instance of [PageAlloc].
    - [Vmm.v] ([mm/vmm.c]): four-level page tables on any [PageAlloc].  Abstract
      state: the partial function from page numbers to entries; mapping is
      insertion, unmapping deletion, translation lookup.  Instance of [Paging].
    - [Heap.v] ([mm/heap.c], [malloc], [free], [realloc] of [utils/mem.c]): linked
      blocks on any [Paging].  Abstract state: the list of blocks in address order;
      first fit, splitting and coalescing act on that list, live blocks stay
      disjoint and keep their bytes, [heap_check] succeeds.  Instance of [Malloc].
    - [Boot.v], first part: the three on one another, as [kmain] starts them.
      Distinct live heap bytes are distinct bytes of physical memory.
    - [Str.v] ([utils/str.h], [utils/mem.c]): C strings and block copies.
    - [Elf.v], [ElfLog.v] ([core/elf.c]): the loader on [Vmm.v] and physical
      memory; what is loaded, what is rejected, what is drawn on failure.

    ** Processes, interrupts, processors

    - [Process.v] ([core/process.c]): process list and ready queue, which share one
      link field; the queue is first-in first-out and starves nobody.
    - [Gdt.v], [Idt.v] ([core/gdt.c], [core/idt.c]): descriptor bytes, handlers.
    - [Apic.v] ([core/drivers/lapic.c], [ioapic.c]), [Acpi.v] ([core/acpi.c]), [Smp.v]
      ([core/smp.c]): firmware tables, interrupt controllers, start of the other
      processors and the spin lock.
    - [Serial.v] ([serial.c], [core/drivers/pic.c]), [Pit.v] ([core/pit.c]), [Rtc.v] and
      [RtcIrq.v] ([rtc.c]): ports, timers and clock; the timestamp is Unix time.

    ** Files, devices, network

    - [Ext2Types.v], [Ext2.v] ([fs/ext2.c], [fs/ext2.h]): all of the driver;
      [Ext2Clock.v] its clock; [Ext2Demo.v] a small disk; [Ext2Spec.v] blocks,
      inodes, reading and writing of files; [Ext2Alloc.v] the inode bitmap;
      [Ext2Dir.v] directories.  The device is any [BlockDev].
    - [Nvme.v] ([nvme.c]): the driver.  It does not give what [BlockDev] asks for:
      its initialisation calls itself without end ([nvme_init_loops]), so the
      theorems about the file system speak about the file system on a device
      that keeps the contract.
    - [Pipe.v], [Tty.v] ([pipe.c], [tty.c]), [Ps2.v], [UsbHid.v] ([ps2/*.c],
      [usb/keyboard.c], [usb/mouse.c]), [Usb.v], [Xhci.v] ([usb.c], [xhci.c]): character
      devices; each byte queue is related to a list by [Ring.v].
    - [Display.v], [Log.v] ([graphics/*.c], [utils/log.c]): drawing and formatted output.
    - [Pci.v], [Netdev.v], [Wifi.v] ([pci.c], [netdev.c], [e1000.c], [net/wifi.c]):
      enumeration and adapters.
    - [Ip.v], [Net.v], [Dns.v], [Http.v], [Https.v] ([ip.c], [net/*.c],
      [net/http/*.c]): protocol stack.  A datagram that is built passes the checks
      of the receiver; names round-trip; requests fit their buffer; neither a
      socket nor a TLS session is ever established by the code as it is.

    ** Calls and start

    - [Syscalls.v] ([core/syscalls.c]): every call, on one state that joins the
      components: one heap and one page allocator, handed to a component before
      it runs and taken back afterwards.  [SyscallSpec.v]: the descriptor table
      stays well formed; pipes behave as queues.
    - [Boot.v], second part, and [Kmain.v] ([main.c]): [kmain] as the composition of
      all of the above, in the order of the code.  [kmain] starts the interrupt
      controllers before it reads the ACPI tables they are listed in, so no I/O
      APIC is recorded; a machine with an NVMe controller does not get past
      [nvme_init].

    The theorems with a number in their comment are the main statements; the
    other lemmas carry them.  A theorem that ends in [_witness] applies the one
    before it to a concrete state.

    ** Fuel

    A loop that is structural in C ([for] with a fixed bound) is a structural
    recursion.  A loop over a linked list has as fuel the number of objects in
    the store plus one ([Heap.list_fuel], [Process.walk_fuel]); the invariants
    show that it suffices, so the theorems about these operations have no fuel.
    A loop over a buffer has fuel from its length ([Dns.name_fuel],
    [Ext2.directory_fuel]), one over the digits of a number their largest count.  Busy
    waiting takes a [fuel] argument: the number of polls after which the run
    counts as one that does not come back.  Theorems about such functions hold
    for every positive fuel where the device answers at once, and for every
    fuel where they state that a call never returns.

    ** Not modelled

    - The assembly files ([core/*.asm]): the switch of contexts is recorded in a log,
      the entry stubs are addresses, the trampoline is memory.
    - [core/attributes.c] and [core/attributes.h] (requests to the boot loader, data only; the
      answers are arguments), [utils/asm.h] (one instruction per macro),
      [core/shared_defs.h] (types the modelled files declare too).
    - Functions that are declared and defined nowhere: [netdev_receive] and
      [broadcast_addr] are parameters of [Wifi.v]; [ip_int_to_string], which
      [net_ip_to_string] forwards to, has no definition.
    - Constants, structures and prototypes of the headers that no function uses
      (colours, key codes, system call numbers without a handler, section headers
      of ELF files, completion codes of xHCI).
    - Preemption inside a function: interrupts and other processors act between
      the steps of the model, on device memory ([Bus]) between any two accesses.
    - In [Syscalls.v] and [Kmain.v] the heap and the page allocator are separate
      abstract parts, although the kernel's heap takes its pages from that
      allocator; [Boot.v] composes the concrete ones.  Heap headers, heap bytes and
      page tables are separate maps of one memory: [Boot.boot_memory_correct]
      shows that they do not overlap. *)
From stdpp Require Export base tactics numbers list gmap option relations.
From Stdlib Require Export ZArith Lia.

#[global] Open Scope Z_scope.
#[global] Arguments seqZ : simpl never.

(** ** Machine integers

    A w-bit unsigned integer of the C code is a [Z] in [0, 2^w); every place
    where the C arithmetic can leave that range is written with one of these
    reductions. *)
Definition u8 (x : Z) : Z := x mod 256.
Definition u16 (x : Z) : Z := x mod 65536.
Definition u32 (x : Z) : Z := x mod 4294967296.
Definition u64 (x : Z) : Z := x mod 18446744073709551616.

(** Two's complement reading of a 32-bit and of an 8-bit pattern. *)
Definition s32 (x : Z) : Z := (x + 2147483648) mod 4294967296 - 2147483648.
Definition s8 (x : Z) : Z := (x + 128) mod 256 - 128.

Definition is_u8 (x : Z) : Prop := 0 <= x < 256.
Definition is_u16 (x : Z) : Prop := 0 <= x < 65536.
Definition is_u32 (x : Z) : Prop := 0 <= x < 4294967296.
Definition is_u64 (x : Z) : Prop := 0 <= x < 18446744073709551616.

Create HintDb alephos.

Lemma u8_range x : is_u8 (u8 x).
Proof. apply Z.mod_pos_bound; lia. Qed.
Lemma u16_range x : is_u16 (u16 x).
Proof. apply Z.mod_pos_bound; lia. Qed.
Lemma u32_range x : is_u32 (u32 x).
Proof. apply Z.mod_pos_bound; lia. Qed.
Lemma u64_range x : is_u64 (u64 x).
Proof. apply Z.mod_pos_bound; lia. Qed.
#[export] Hint Resolve u8_range u16_range u32_range u64_range : alephos.

Lemma u8_small x : is_u8 x → u8 x = x.
Proof. apply Z.mod_small. Qed.
Lemma u16_small x : is_u16 x → u16 x = x.
Proof. apply Z.mod_small. Qed.
Lemma u32_small x : is_u32 x → u32 x = x.
Proof. apply Z.mod_small. Qed.
Lemma u64_small x : is_u64 x → u64 x = x.
Proof. apply Z.mod_small. Qed.

(** [lia] over the reductions above: unfold them and replace division and
    modulus by their defining equations. *)
Ltac ulia :=
  unfold is_u8, is_u16, is_u32, is_u64, u8, u16, u32, u64, s32, s8 in *;
  Z.to_euclidean_division_equations; lia.

(** Rewrite away reductions whose argument is in range. *)
Ltac usmall :=
  repeat first
    [ rewrite u64_small by ulia | rewrite u32_small by ulia
    | rewrite u16_small by ulia | rewrite u8_small by ulia ].

(** Boolean comparisons of [Z] turned into propositions, with case splits. *)
Ltac zbool :=
  repeat match goal with
  | H : (_ && _)%bool = true |- _ => apply andb_true_iff in H as [? ?]
  | H : (_ || _)%bool = false |- _ => apply orb_false_iff in H as [? ?]
  | H : negb _ = true |- _ => apply negb_true_iff in H
  | H : negb _ = false |- _ => apply negb_false_iff in H
  | H : (_ =? _) = true |- _ => apply Z.eqb_eq in H
  | H : (_ =? _) = false |- _ => apply Z.eqb_neq in H
  | H : (_ <? _) = true |- _ => apply Z.ltb_lt in H
  | H : (_ <? _) = false |- _ => apply Z.ltb_ge in H
  | H : (_ <=? _) = true |- _ => apply Z.leb_le in H
  | H : (_ <=? _) = false |- _ => apply Z.leb_gt in H
  end.

(** Case analysis on the condition of the outermost [if] or [match] of the goal. *)
Ltac casesplit :=
  match goal with
  | |- context [match ?x with _ => _ end] =>
      lazymatch x with
      | context [match _ with _ => _ end] => fail
      | _ => destruct x eqn:?
      end
  end; zbool; simplify_eq/=.

(** ** Bit patterns *)

(** Single-bit masks: [x & (1 << i)], [x | (1 << i)] and [x & ~(1 << i)]. *)
Lemma land_bit x i : 0 <= i → Z.land x (Z.shiftl 1 i) = if Z.testbit x i then 2 ^ i else 0.
Proof.
  intros Hi. rewrite Z.shiftl_1_l. apply Z.bits_inj'; intros n Hn.
  rewrite Z.land_spec, Z.pow2_bits_eqb by done.
  destruct (Z.eqb_spec i n) as [->|].
  - destruct (Z.testbit x n); [by rewrite Z.pow2_bits_true|by rewrite Z.bits_0].
  - rewrite andb_false_r. destruct (Z.testbit x i); [by rewrite Z.pow2_bits_false|by rewrite Z.bits_0].
Qed.

Lemma land_bit_zero x i : 0 <= i → (Z.land x (Z.shiftl 1 i) =? 0) = negb (Z.testbit x i).
Proof.
  intros Hi. rewrite land_bit by done. destruct (Z.testbit x i); [|done].
  apply Z.eqb_neq. pose proof (Z.pow_pos_nonneg 2 i). lia.
Qed.

Lemma testbit_set x i j :
  0 <= i → 0 <= j → Z.testbit (Z.lor x (Z.shiftl 1 i)) j = (Z.testbit x j || (i =? j))%bool.
Proof. intros. by rewrite Z.lor_spec, Z.shiftl_1_l, Z.pow2_bits_eqb. Qed.

Lemma testbit_clear x i j :
  0 <= i → 0 <= j →
  Z.testbit (Z.land x (Z.lnot (Z.shiftl 1 i))) j = (Z.testbit x j && negb (i =? j))%bool.
Proof. intros. by rewrite Z.land_spec, Z.lnot_spec, Z.shiftl_1_l, Z.pow2_bits_eqb. Qed.

(** A non-negative number fits in [w] bits when its bits from [w] on are clear. *)
Lemma fits_bits x w :
  0 <= w → 0 <= x → (∀ i, w <= i → Z.testbit x i = false) → x < 2 ^ w.
Proof.
  intros Hw Hx Hb. destruct (decide (x = 0)) as [->|Hne]; [by apply Z.pow_pos_nonneg|].
  destruct (decide (x < 2 ^ w)); [done|exfalso].
  assert (w <= Z.log2 x) by (apply Z.log2_le_pow2; lia).
  pose proof (Z.bit_log2 x ltac:(lia)). specialize (Hb (Z.log2 x) ltac:(done)). congruence.
Qed.

Lemma bits_above x w i : 0 <= x < 2 ^ w → 0 <= w → w <= i → Z.testbit x i = false.
Proof.
  intros Hx Hw Hi. destruct (decide (x = 0)) as [->|]; [apply Z.bits_0|].
  apply Z.bits_above_log2; [lia|]. apply Z.log2_lt_pow2; [lia|].
  pose proof (Z.pow_le_mono_r 2 w i). lia.
Qed.

Lemma set_bit_fits x i w : 0 <= i < w → 0 <= x < 2 ^ w → 0 <= Z.lor x (Z.shiftl 1 i) < 2 ^ w.
Proof.
  intros Hi Hx. assert (0 <= Z.lor x (Z.shiftl 1 i)).
  { apply Z.lor_nonneg; split; [lia|]. apply Z.shiftl_nonneg; lia. }
  split; [done|]. apply fits_bits; [lia|done|]. intros j Hj.
  rewrite testbit_set by lia. rewrite (bits_above x w) by lia.
  simpl. apply Z.eqb_neq. lia.
Qed.

Lemma clear_bit_fits x i w :
  0 <= i → 0 <= w → 0 <= x < 2 ^ w → 0 <= Z.land x (Z.lnot (Z.shiftl 1 i)) < 2 ^ w.
Proof.
  intros Hi Hw Hx. assert (0 <= Z.land x (Z.lnot (Z.shiftl 1 i))) by (apply Z.land_nonneg; lia).
  split; [done|]. apply fits_bits; [done|done|]. intros j Hj.
  rewrite testbit_clear by lia. by rewrite (bits_above x w) by lia.
Qed.

(** [x & (2^k - 1)] is [x mod 2^k]. *)
Lemma land_mask x k : 0 <= k → Z.land x (2 ^ k - 1) = x mod 2 ^ k.
Proof. intros. replace (2 ^ k - 1) with (Z.ones k) by (rewrite Z.ones_equiv; lia). by apply Z.land_ones. Qed.

(** [x & ~(2^k - 1)] on [w]-bit words rounds down to a multiple of [2^k]. *)
Lemma land_high_mask x k w :
  0 <= k <= w → 0 <= x < 2 ^ w → Z.land x (2 ^ w - 2 ^ k) = x / 2 ^ k * 2 ^ k.
Proof.
  intros Hk Hx. replace (2 ^ w - 2 ^ k) with (Z.shiftl (Z.ones (w - k)) k).
  2:{ rewrite Z.shiftl_mul_pow2, Z.ones_equiv by lia. rewrite <- Z.sub_1_r, Z.mul_sub_distr_r, <- Z.pow_add_r by lia.
      rewrite Z.mul_1_l. do 2 f_equal. lia. }
  rewrite <- Z.shiftl_mul_pow2, <- Z.shiftr_div_pow2 by lia. apply Z.bits_inj'; intros n Hn.
  rewrite Z.land_spec, !Z.shiftl_spec by lia. destruct (decide (n < k)).
  - rewrite !(Z.testbit_neg_r _ (n - k)) by lia. apply andb_false_r.
  - rewrite Z.shiftr_spec by lia. rewrite Z.sub_add, Z.testbit_ones_nonneg by lia.
    destruct (n - k <? w - k) eqn:?; zbool; [apply andb_true_r|].
    rewrite andb_false_r. symmetry. apply bits_above with w; lia.
Qed.

(** ** Lists indexed by [Z] *)

(** Array access: the C code reads [a[i]].  Outside the array the total lookup
    yields the inhabitant; every theorem that relies on a read shows the index
    to be in range. *)
Definition aget {A} `{Inhabited A} (l : list A) (i : Z) : A := l !!! Z.to_nat i.
Definition aset {A} (l : list A) (i : Z) (x : A) : list A := <[Z.to_nat i := x]> l.

Section arrays.
Context {A : Type} `{Inhabited A}.
Implicit Types (l : list A) (x : A).

Lemma aget_aset_eq l i x : 0 <= i < Z.of_nat (length l) → aget (aset l i x) i = x.
Proof.
  intros. unfold aget, aset. apply list_lookup_total_insert_eq. lia.
Qed.

Lemma aget_aset_ne l i j x : 0 <= i → 0 <= j → i ≠ j → aget (aset l i x) j = aget l j.
Proof. intros. unfold aget, aset. apply list_lookup_total_insert_ne. lia. Qed.

Lemma length_aset l i x : length (aset l i x) = length l.
Proof. apply length_insert. Qed.
End arrays.

(** ** Counting *)

Definition count {A} (f : A → bool) (l : list A) : Z := Z.of_nat (length (List.filter f l)).

Section counting.
Context {A : Type}.
Implicit Types (f g : A → bool) (l : list A).

Lemma count_nonneg f l : 0 <= count f l.
Proof. unfold count; lia. Qed.

Lemma count_cons f x l : count f (x :: l) = (if f x then 1 else 0) + count f l.
Proof. unfold count; simpl. destruct (f x); simpl; lia. Qed.

Lemma count_app f l1 l2 : count f (l1 ++ l2) = count f l1 + count f l2.
Proof. unfold count. rewrite List.filter_app, length_app. lia. Qed.

Lemma count_length f l : count f l <= Z.of_nat (length l).
Proof. unfold count. pose proof (filter_length_le f l). lia. Qed.

Lemma count_ext f g l : (∀ x, x ∈ l → f x = g x) → count f l = count g l.
Proof.
  induction l as [|x l IH]; intros Hfg; [done|].
  rewrite !count_cons, (Hfg x), IH; [done|..]; set_solver.
Qed.

(** Changing the predicate at one element of a duplicate-free list. *)
Lemma count_flip f g l x :
  NoDup l → x ∈ l → f x = true → g x = false →
  (∀ y, y ∈ l → y ≠ x → f y = g y) → count f l = count g l + 1.
Proof.
  induction l as [|y l IH]; intros Hnd Hx Hf Hg Hfg; [set_solver|].
  apply NoDup_cons in Hnd as [Hy Hnd]. rewrite !count_cons.
  apply elem_of_cons in Hx as [<-|Hx].
  - rewrite Hf, Hg, (count_ext f g l); [lia|]. intros z Hz; apply Hfg; set_solver.
  - assert (y ≠ x) by set_solver. rewrite (Hfg y), IH; [lia|..]; set_solver.
Qed.

Lemma count_none f l : (∀ x, x ∈ l → f x = false) → count f l = 0.
Proof.
  induction l as [|x l IH]; intros Hf; [done|].
  rewrite count_cons, (Hf x), IH; [done|..]; set_solver.
Qed.

Lemma count_zero f l x : count f l = 0 → x ∈ l → f x = false.
Proof.
  induction l as [|y l IH]; intros Hc Hx; [set_solver|].
  rewrite count_cons in Hc. pose proof (count_nonneg f l).
  destruct (f y) eqn:Hy; [lia|].
  apply elem_of_cons in Hx as [->|Hx]; [done|]. apply IH; [lia|done].
Qed.
End counting.

(** ** Concatenation *)

Lemma elem_of_concat_fmap {A B} (f : A → list B) (l : list A) (y : B) :
  y ∈ concat (f <$> l) ↔ ∃ x, x ∈ l ∧ y ∈ f x.
Proof.
  induction l as [|x l IH]; simpl; [set_solver|]. rewrite elem_of_app, IH. set_solver.
Qed.

(** ** Loops *)

(** A C loop over the indices of a list, each step acting on the state. *)
Definition for_each {S} (l : list Z) (f : Z → S → S) (s : S) : S := foldl (λ s i, f i s) s l.

Lemma for_each_inv {S} (P : S → Prop) l f (s : S) :
  P s → (∀ i s, i ∈ l → P s → P (f i s)) → P (for_each l f s).
Proof.
  unfold for_each. revert s. induction l as [|i l IH]; intros s Hs Hf; simpl; [done|].
  apply IH; [apply Hf; [left|done]|]. intros j s' ?. apply Hf. by right.
Qed.
