(* ===== verification/Interfaces.v ===== *)
(** * Interfaces between the kernel's components

    Each class states what one component promises its clients.  The clients
    (page tables, heap, file system, ...) are verified against the class; the
    component that implements it discharges the laws in its own file. *)
From S2P Require Import Prelude.

(** Addresses of physical pages: 4 KiB aligned, not NULL, below the 4 GiB the
    allocator manages. *)
Definition page_addr (p : Z) : Prop := 0 < p < 4294967296 ∧ p mod 4096 = 0.

(** ** Physical pages: [pmm_alloc_page] and [pmm_free_page] *)
Class PageAlloc (A : Type) := {
  alloc_page : A → Z * A;
  free_page : Z → A → A;
  (** representation invariant, and which page addresses are available *)
  pa_ok : A → Prop;
  pa_free : A → Z → Prop;
  alloc_page_spec a :
    pa_ok a →
    let '(p, a') := alloc_page a in
    pa_ok a' ∧
    ((p = 0 ∧ a' = a) ∨
     (page_addr p ∧ pa_free a p ∧ ¬ pa_free a' p ∧
      ∀ q, page_addr q → q ≠ p → pa_free a' q ↔ pa_free a q));
  free_page_spec a p :
    pa_ok a → page_addr p →
    let a' := free_page p a in
    pa_ok a' ∧ ∀ q, page_addr q → q ≠ p → pa_free a' q ↔ pa_free a q;
}.

(** ** Address spaces: [vmm_map_page], [vmm_unmap_page] and the pages behind them

    Two addresses with the same page number [vpn] share a page-table entry.
    [pg_pte v va] is the present entry for [va], [pg_held v p] says that the
    physical page [p] belongs to a client: it is neither free nor used as a page
    table. *)
Definition vpn (va : Z) : Z := va / 4096 mod 68719476736.

(** The physical address that a present entry gives for [va]; 0 when there is none. *)
Definition pte_phys (e : option Z) (va : Z) : Z :=
  match e with Some e => Z.lor (Z.land e 18446744073709547520) (Z.land va 4095) | None => 0 end.

Class Paging (V : Type) := {
  pg_alloc : V → Z * V;
  pg_free : Z → V → V;
  pg_map : Z → Z → Z → V → bool * V;
  pg_unmap : Z → V → bool * V;
  pg_phys : V → Z → Z;
  pg_ok : V → Prop;
  pg_pte : V → Z → option Z;
  pg_held : V → Z → Prop;
  pg_alloc_spec v :
    pg_ok v →
    let '(p, v') := pg_alloc v in
    pg_ok v' ∧ (∀ va, pg_pte v' va = pg_pte v va) ∧
    (∀ q, pg_held v q → pg_held v' q ∧ q ≠ p) ∧
    (p = 0 ∨ (page_addr p ∧ pg_held v' p));
  pg_free_spec v p :
    pg_ok v → pg_held v p →
    pg_ok (pg_free p v) ∧ (∀ va, pg_pte (pg_free p v) va = pg_pte v va) ∧
    (∀ q, pg_held v q → q ≠ p → pg_held (pg_free p v) q);
  pg_map_spec v virt phys flags :
    pg_ok v → 0 <= flags < 4096 →
    let '(ok, v') := pg_map virt phys flags v in
    pg_ok v' ∧ (∀ q, pg_held v q → pg_held v' q) ∧
    if ok then
      ∀ va, pg_pte v' va =
        if vpn va =? vpn virt then Some (Z.lor (Z.lor phys flags) 1) else pg_pte v va
    else ∀ va, pg_pte v' va = pg_pte v va;
  pg_unmap_spec v virt :
    pg_ok v →
    let '(ok, v') := pg_unmap virt v in
    pg_ok v' ∧ (∀ q, pg_held v q → pg_held v' q) ∧
    (∀ va, pg_pte v' va = if vpn va =? vpn virt then None else pg_pte v va) ∧
    (ok = true ↔ pg_pte v virt ≠ None);
  pg_phys_spec v va : pg_ok v → pg_phys v va = pte_phys (pg_pte v va) va;
}.

(** ** Kernel heap: [malloc] and [free] of [utils/mem.c]

    [ml_live h p n] says that [p] is a live block of the heap state [h] with
    room for [n] bytes.  A fresh block does not overlap any live one. *)
Class Malloc (H : Type) := {
  malloc : Z → H → Z * H;
  mfree : Z → H → H;
  ml_ok : H → Prop;
  ml_live : H → Z → Z → Prop;
  malloc_spec h n :
    ml_ok h → 0 < n < 1073741824 →
    let '(p, h') := malloc n h in
    ml_ok h' ∧ (∀ q m, ml_live h q m → ml_live h' q m) ∧
    (p = 0 ∨
     (0 < p ∧ ml_live h' p n ∧ ∀ q m, ml_live h q m → p + n <= q ∨ q + m <= p));
  mfree_spec h p n :
    ml_ok h → ml_live h p n →
    ml_ok (mfree p h) ∧ ∀ q m, ml_live h q m → q ≠ p → ml_live (mfree p h) q m;
  mfree_null h : mfree 0 h = h;
}.

(** A heap that never reuses memory has these laws; the examples of the clients
    run on it. *)
#[export] Program Instance bump_heap : Malloc nat := {
  malloc n h := (Z.of_nat (S h), (h + Z.to_nat n)%nat);
  mfree p h := h;
  ml_ok h := True;
  ml_live h p n := p + n <= Z.of_nat (S h);
}.
Next Obligation. intros h n _ Hn. cbn. split; [done|]. split; [intros; lia|]. right. split_and!; [lia|lia|]. intros. lia. Qed.
Next Obligation. done. Qed.
Next Obligation. done. Qed.

(** ** Block storage: [nvme_read] and [nvme_write] of namespace 1

    The device is an array of 512-byte sectors [bd_sector].  A read returns the
    sectors or fails; a failed write may have changed the sectors it was asked
    to write, and no others.  Nothing is said about transfers of 0 sectors. *)
Class BlockDev (D : Type) := {
  nvme_read : Z → Z → D → option (list Z) * D;
  nvme_write : Z → Z → list Z → D → bool * D;
  bd_ok : D → Prop;
  bd_sector : D → Z → list Z;
  bd_sector_ok d k : bd_ok d → length (bd_sector d k) = 512%nat ∧ Forall (λ b, 0 <= b < 256) (bd_sector d k);
  nvme_read_spec d lba n :
    bd_ok d → 0 < n →
    let '(r, d') := nvme_read lba n d in
    bd_ok d' ∧ (∀ k, bd_sector d' k = bd_sector d k) ∧
    match r with Some l => l = concat (bd_sector d <$> seqZ lba n) | None => True end;
  nvme_write_spec d lba n data :
    bd_ok d → 0 < n → Z.of_nat (length data) = 512 * n → Forall (λ b, 0 <= b < 256) data →
    let '(ok, d') := nvme_write lba n data d in
    bd_ok d' ∧ (∀ k, k < lba ∨ lba + n <= k → bd_sector d' k = bd_sector d k) ∧
    (ok = true → concat (bd_sector d' <$> seqZ lba n) = data);
}.

(** ** I/O ports: [inb] and [outb] of [utils/io.h] *)
Class Ports (W : Type) := {
  outb : Z → Z → W → W;
  inb : Z → W → Z * W;
}.
