(* ===== verification/Monad.v ===== *)
(** * Stateful programs

    The drivers with a state and error paths are programs of the monad [M S]:
    functions from a state to a result and a new state, or to [None] for a memory
    fault (a NULL or out-of-bounds access, a division by zero) or for a loop that
    does not end.  [wp] is total correctness of a run: it ends without a fault in
    a result and a state that satisfy the postcondition. *)
From S2P Require Import Prelude.

Definition M (S A : Type) : Type := S → option (A * S).

Section monad.
Context {S : Type}.

#[export] Instance M_ret : MRet (M S) := λ A x s, Some (x, s).
#[export] Instance M_bind : MBind (M S) := λ A B f m s,
  match m s with Some (x, s') => f x s' | None => None end.

Definition fault {A} : M S A := λ _, None.
Definition lift {A} (o : option A) : M S A := λ s, match o with Some x => Some (x, s) | None => None end.
Definition gets {A} (f : S → A) : M S A := λ s, Some (f s, s).
Definition modify (f : S → S) : M S () := λ s, Some ((), f s).
(** A call of a function that changes the state. *)
Definition call {A} (f : S → A * S) : M S A := λ s, Some (f s).

(** Integer division: by zero it faults. *)
Definition div (a b : Z) : M S Z := if b =? 0 then fault else mret (a / b).
Definition modulo (a b : Z) : M S Z := if b =? 0 then fault else mret (a mod b).

(** A loop over the elements of a list. *)
Fixpoint for_list {A} (l : list A) (f : A → M S ()) : M S () :=
  match l with [] => mret () | x :: l => f x;; for_list l f end.

(** ** Total correctness *)

Definition wp {A} (m : M S A) (Q : A → S → Prop) (s : S) : Prop :=
  match m s with Some (x, s') => Q x s' | None => False end.

Lemma wp_bind {A B} (m : M S A) (f : A → M S B) Q s : wp m (λ x, wp (f x) Q) s → wp (m ≫= f) Q s.
Proof. unfold wp, mbind, M_bind. by destruct (m s) as [[x s']|]. Qed.

Lemma wp_mono {A} (m : M S A) (P Q : A → S → Prop) s : wp m P s → (∀ x s', P x s' → Q x s') → wp m Q s.
Proof. unfold wp. destruct (m s) as [[x s']|]; auto. Qed.

Lemma wp_ret {A} (x : A) (Q : A → S → Prop) s : Q x s → wp (mret x) Q s.
Proof. done. Qed.

Lemma wp_gets {A} (f : S → A) (Q : A → S → Prop) s : Q (f s) s → wp (gets f) Q s.
Proof. done. Qed.

Lemma wp_lift {A} (o : option A) x (Q : A → S → Prop) s : o = Some x → Q x s → wp (lift o) Q s.
Proof. by intros ->. Qed.

Lemma wp_modify (f : S → S) (Q : () → S → Prop) s : Q () (f s) → wp (modify f) Q s.
Proof. done. Qed.

Lemma wp_call {A} (f : S → A * S) (Q : A → S → Prop) s : Q (f s).1 (f s).2 → wp (call f) Q s.
Proof. unfold wp, call. by destruct (f s). Qed.

Lemma wp_div a b (Q : Z → S → Prop) s : b ≠ 0 → Q (a / b) s → wp (div a b) Q s.
Proof. intros Hb HQ. unfold div. by rewrite (proj2 (Z.eqb_neq b 0) Hb). Qed.

Lemma wp_modulo a b (Q : Z → S → Prop) s : b ≠ 0 → Q (a mod b) s → wp (modulo a b) Q s.
Proof. intros Hb HQ. unfold modulo. by rewrite (proj2 (Z.eqb_neq b 0) Hb). Qed.

Lemma wp_for_list {A} (l : list A) (f : A → M S ()) (I : list A → S → Prop) s :
  I [] s → (∀ done x s, done ++ [x] `prefix_of` l → I done s → wp (f x) (λ _, I (done ++ [x])) s) →
  wp (for_list l f) (λ _, I l) s.
Proof.
  intros Hs Hf. enough (∀ pre suf s, pre ++ suf = l → I pre s → wp (for_list suf f) (λ _, I l) s) as HH
    by (by apply (HH [])).
  clear s Hs. intros pre suf. revert pre. induction suf as [|x suf IH]; intros pre s Hl Hs.
  - apply wp_ret. by rewrite app_nil_r in Hl; subst.
  - simpl. apply wp_bind. eapply wp_mono; [apply (Hf pre)|].
    + exists suf. by rewrite <- app_assoc.
    + done.
    + intros [] s' Hs'. apply (IH (pre ++ [x])); [by rewrite <- app_assoc|done].
Qed.

(** A run that returned. *)
Lemma run_bind {A B} (m : M S A) (f : A → M S B) s r :
  (m ≫= f) s = Some r ↔ ∃ x s', m s = Some (x, s') ∧ f x s' = Some r.
Proof.
  unfold mbind, M_bind. destruct (m s) as [[x s']|]; split.
  - intros H. by exists x, s'.
  - by intros (? & ? & [= <- <-] & ?).
  - done.
  - by intros (? & ? & ? & _).
Qed.

Lemma wp_run {A} (m : M S A) Q s : wp m Q s → ∃ x s', m s = Some (x, s') ∧ Q x s'.
Proof. unfold wp. destruct (m s) as [[x s']|]; [eauto|done]. Qed.

Lemma wp_elim {A} (m : M S A) (Q : A → S → Prop) s x s' : wp m Q s → m s = Some (x, s') → Q x s'.
Proof. unfold wp. intros Hw Hm. by rewrite Hm in Hw. Qed.
End monad.

(** A program on a part of the state. *)
Definition on_fst {S T A} (m : M S A) : M (S * T) A := λ s,
  match m s.1 with Some (x, s') => Some (x, (s', s.2)) | None => None end.
Definition on_snd {S T A} (m : M T A) : M (S * T) A := λ s,
  match m s.2 with Some (x, s') => Some (x, (s.1, s')) | None => None end.

Lemma wp_on_fst {S T A} (m : M S A) (Q : A → S * T → Prop) s : wp m (λ x s', Q x (s', s.2)) s.1 → wp (on_fst m) Q s.
Proof. unfold wp, on_fst. by destruct (m s.1) as [[x s']|]. Qed.

Lemma wp_on_snd {S T A} (m : M T A) (Q : A → S * T → Prop) s : wp m (λ x s', Q x (s.1, s')) s.2 → wp (on_snd m) Q s.
Proof. unfold wp, on_snd. by destruct (m s.2) as [[x s']|]. Qed.

(** One step of a [wp] proof. *)
Ltac wp_step :=
  lazymatch goal with
  | |- wp (_ ≫= _) _ _ => apply wp_bind
  | |- wp (mret _) _ _ => apply wp_ret
  | |- wp (gets _) _ _ => apply wp_gets
  | |- wp (modify _) _ _ => apply wp_modify
  | |- wp (call _) _ _ => apply wp_call
  | |- wp (lift (Some _)) _ _ => eapply wp_lift; [reflexivity|]
  end.
Ltac wp_steps := repeat (wp_step; cbn beta iota).

(** [arr[i]] on an array of which the list holds the elements. *)
Definition index {A} (l : list A) (i : Z) : option A := if i <? 0 then None else l !! Z.to_nat i.

Lemma index_some {A} (l : list A) i : 0 <= i < Z.of_nat (length l) → is_Some (index l i).
Proof. intros. unfold index. rewrite (proj2 (Z.ltb_ge i 0)) by lia. apply lookup_lt_is_Some. lia. Qed.

(** Programs that differ in what follows only. *)
Lemma bind_ext {S A B} (m : M S A) (f g : A → M S B) s : (∀ x s', f x s' = g x s') → (m ≫= f) s = (m ≫= g) s.
Proof. intros Hfg. unfold mbind, M_bind. destruct (m s) as [[x s']|]; auto. Qed.

(** ** Invariants: what every run of a program keeps *)

Definition keeps {S A} (P : S → Prop) (m : M S A) : Prop := ∀ s x s', m s = Some (x, s') → P s → P s'.

Section keeps.
Context {S : Type} (P : S → Prop).

Lemma keeps_ret {A} (x : A) : keeps P (mret x).
Proof. by intros s y s' [= _ <-]. Qed.
Lemma keeps_fault {A} : keeps P (fault (A := A)).
Proof. by intros s y s'. Qed.
Lemma keeps_lift {A} (o : option A) : keeps P (lift o).
Proof. intros s y s' Hl. unfold lift in Hl. destruct o; [by injection Hl as _ <-|done]. Qed.
Lemma keeps_gets {A} (f : S → A) : keeps P (gets f).
Proof. by intros s y s' [= _ <-]. Qed.
Lemma keeps_modify (f : S → S) : (∀ s, P s → P (f s)) → keeps P (modify f).
Proof. intros Hf s y s' [= _ <-]. apply Hf. Qed.
Lemma keeps_bind {A B} (m : M S A) (f : A → M S B) : keeps P m → (∀ x, keeps P (f x)) → keeps P (m ≫= f).
Proof. intros Hm Hf s y s' (x & s1 & Hx & Hy)%run_bind Hs. eapply Hf; [exact Hy|]. by eapply Hm. Qed.
Lemma keeps_for_list {A} (l : list A) (f : A → M S ()) : (∀ x, keeps P (f x)) → keeps P (for_list l f).
Proof. intros Hf. induction l; [apply keeps_ret|]. by apply keeps_bind. Qed.
End keeps.

Create HintDb keeps.
#[export] Hint Resolve keeps_ret keeps_fault keeps_lift keeps_gets keeps_modify : keeps.

(** One case at a time: binds, matches and the lemmas of the database. *)
Ltac keeps :=
  repeat first
    [ progress intros
    | match goal with |- keeps _ (_ ≫= _) => apply keeps_bind end
    | match goal with |- keeps _ (for_list _ _) => apply keeps_for_list end
    | match goal with |- keeps _ (match ?x with _ => _ end) => destruct x end
    | match goal with |- keeps _ (if ?x then _ else _) => destruct x end
    | solve [auto with keeps] ].
