(* ===== verification/Ring.v ===== *)
(** * Ring buffers

    Pipes, terminal queues and the keyboard queue all keep bytes in a circular
    array.  This file relates the array, the read position and the number of
    stored bytes to the list of bytes in arrival order; the components use it
    with their own capacity. *)
From S2P Require Import Prelude.

Section ring.
Context {A : Type} `{Inhabited A}.
Implicit Types (buf l : list A) (x : A).

(** The [n] elements stored from position [start] on, oldest first. *)
Definition ring_contents buf (cap start n : Z) : list A :=
  (λ i, aget buf ((start + i) mod cap)) <$> seqZ 0 n.

Lemma ring_contents_length buf cap start n :
  0 <= n → Z.of_nat (length (ring_contents buf cap start n)) = n.
Proof. intros. unfold ring_contents. rewrite length_fmap, length_seqZ. lia. Qed.

Lemma ring_contents_nil buf cap start : ring_contents buf cap start 0 = [].
Proof. done. Qed.

(** Storing at the write position appends. *)
Lemma ring_put buf cap start n x :
  Z.of_nat (length buf) = cap → 0 <= start < cap → 0 <= n < cap →
  ring_contents (aset buf ((start + n) mod cap) x) cap start (n + 1) =
  ring_contents buf cap start n ++ [x].
Proof.
  intros Hlen Hs Hn. unfold ring_contents. rewrite seqZ_app, fmap_app by lia. simpl. f_equal.
  - apply list_fmap_ext. intros k i Hk. apply lookup_seqZ in Hk as [-> Hk].
    apply aget_aset_ne; [apply Z.mod_pos_bound; lia..|]. intros Heq.
    assert ((start + n) mod cap - (start + (0 + Z.of_nat k)) mod cap = 0) as Hd by lia.
    rewrite !Z.mod_eq in Hd by lia.
    assert (n - Z.of_nat k = cap * ((start + n) / cap - (start + (0 + Z.of_nat k)) / cap)) as Hk2
      by (rewrite Z.mul_sub_distr_l; lia).
    set (d := (start + n) / cap - (start + (0 + Z.of_nat k)) / cap) in *. clearbody d.
    destruct (decide (d <= 0)); nia.
  - f_equal. rewrite !Z.add_0_l, aget_aset_eq; [done|].
    rewrite Hlen. apply Z.mod_pos_bound. lia.
Qed.

(** Reading at the read position takes the oldest element. *)
Lemma ring_get buf cap start n :
  0 < cap → 0 <= start < cap → 0 < n →
  ring_contents buf cap start n =
  aget buf start :: ring_contents buf cap ((start + 1) mod cap) (n - 1).
Proof.
  intros Hc Hs Hn. unfold ring_contents. rewrite seqZ_cons by lia. simpl. f_equal.
  - rewrite Z.add_0_r, Z.mod_small by lia. done.
  - change (Z.succ 0) with (1 + 0). rewrite <- (fmap_add_seqZ 1 0 (Z.pred n)), <- list_fmap_compose.
    apply list_fmap_ext. intros k i Hk. simpl. f_equal.
    rewrite Zplus_mod_idemp_l. f_equal. lia.
Qed.

(** Positions move modulo the capacity. *)
Lemma ring_pos_succ cap start n :
  0 < cap → ((start + n) mod cap + 1) mod cap = (start + (n + 1)) mod cap.
Proof. intros. rewrite Zplus_mod_idemp_l. f_equal. lia. Qed.

Lemma ring_pos_shift cap start n :
  0 < cap → ((start + 1) mod cap + (n - 1)) mod cap = (start + n) mod cap.
Proof. intros. rewrite Zplus_mod_idemp_l. f_equal. lia. Qed.

End ring.
