(* ===== verification/Str.v ===== *)
(** * C strings and memory blocks ([kernel/src/utils/str.h], [utils/mem.c])

    A C string is the list of its bytes up to, and without, the terminating
    NUL: reading the NUL is reaching the end of the list.  A pointer into a
    string is the suffix it points to.  [memmove] and [memcpy], whose result
    depends on how source and destination overlap, work on a byte-addressed
    memory. *)
From S2P Require Import Prelude.

(** ** Strings *)

Fixpoint strlen (str : list Z) : Z :=
  match str with [] => 0 | _ :: s => strlen s + 1 end.

(** The value of the byte a pointer points to (0 at the terminator). *)
Definition deref (s : list Z) : Z := match s with [] => 0 | c :: _ => c end.

Fixpoint strcmp (s1 s2 : list Z) : Z :=
  match s1, s2 with
  | c1 :: r1, c2 :: r2 => if c1 =? c2 then strcmp r1 r2 else c1 - c2
  | _, _ => deref s1 - deref s2
  end.

Fixpoint strchr (str : list Z) (c : Z) : option (list Z) :=
  match str with
  | [] => None
  | x :: rest => if x =? c then Some str else strchr rest c
  end.

(** The inner loop of [strstr]: is [needle] a prefix of [h]? *)
Fixpoint match_here (h needle : list Z) : bool :=
  match h, needle with
  | _, [] => true
  | [], _ :: _ => false
  | x :: h, y :: needle => if x =? y then match_here h needle else false
  end.

Fixpoint strstr_scan (haystack needle : list Z) : option (list Z) :=
  match haystack with
  | [] => None
  | _ :: rest => if match_here haystack needle then Some haystack else strstr_scan rest needle
  end.

Definition strstr (haystack needle : list Z) : option (list Z) :=
  match needle with [] => Some haystack | _ => strstr_scan haystack needle end.

(** [strncpy] into the first [n] bytes of [dest]: copy up to [n] bytes, then
    pad with NULs. *)
Fixpoint strncpy_bytes (src : list Z) (n : nat) : list Z :=
  match n with
  | O => []
  | S n =>
      match src with
      | [] => 0 :: strncpy_bytes [] n
      | c :: src => c :: strncpy_bytes src n
      end
  end.

Definition strncpy (dest src : list Z) (n : Z) : list Z :=
  strncpy_bytes src (Z.to_nat n) ++ drop (Z.to_nat n) dest.

(** ** Memory *)

Definition rd (m : gmap Z Z) (a : Z) : Z := default 0 (m !! a).

Fixpoint copy_up (m : gmap Z Z) (dest src : Z) (n : nat) : gmap Z Z :=
  match n with
  | O => m
  | S n => copy_up (<[dest := rd m src]> m) (dest + 1) (src + 1) n
  end.

Fixpoint copy_down (m : gmap Z Z) (dest src : Z) (n : nat) : gmap Z Z :=
  match n with
  | O => m
  | S n => copy_down (<[dest + Z.of_nat n := rd m (src + Z.of_nat n)]> m) dest src n
  end.

Definition memcpy (dest src n : Z) (m : gmap Z Z) : gmap Z Z := copy_up m dest src (Z.to_nat n).

Definition memmove (dest src n : Z) (m : gmap Z Z) : gmap Z Z :=
  if dest <? src then copy_up m dest src (Z.to_nat n)
  else if src <? dest then copy_down m dest src (Z.to_nat n)
  else m.

Fixpoint fill (m : gmap Z Z) (s c : Z) (n : nat) : gmap Z Z :=
  match n with
  | O => m
  | S n => fill (<[s := u8 c]> m) (s + 1) c n
  end.

Definition memset (s c n : Z) (m : gmap Z Z) : gmap Z Z := fill m s c (Z.to_nat n).

(** [memcmp] on two blocks given by their bytes. *)
Fixpoint memcmp (s1 s2 : list Z) (n : nat) : Z :=
  match n, s1, s2 with
  | S n, a :: s1, b :: s2 => if a =? b then memcmp s1 s2 n else if a <? b then -1 else 1
  | _, _, _ => 0
  end.

(** ** Facts about strings *)

Lemma strlen_length s : strlen s = Z.of_nat (length s).
Proof. induction s; simpl; lia. Qed.

Definition no_nul (s : list Z) : Prop := Forall (λ c, 0 < c) s.

Lemma strcmp_eq s1 s2 : no_nul s1 → no_nul s2 → strcmp s1 s2 = 0 ↔ s1 = s2.
Proof.
  intros H1. revert s2. induction H1 as [|c1 r1 Hc1 H1 IH]; intros s2 H2.
  - destruct H2 as [|c2 r2 Hc2 _]; simpl; [done|]. split; [lia|done].
  - destruct H2 as [|c2 r2 Hc2 H2]; simpl; [split; [lia|done]|].
    destruct (c1 =? c2) eqn:He; zbool.
    + subst. rewrite IH by done. naive_solver.
    + split; [lia|intros [= ? ?]; lia].
Qed.

Lemma strchr_spec str c :
  match strchr str c with
  | Some p => ∃ pre, str = pre ++ p ∧ head p = Some c ∧ c ∉ pre
  | None => c ∉ str
  end.
Proof.
  induction str as [|x str IH]; simpl; [set_solver|].
  destruct (x =? c) eqn:He; zbool; [exists []; subst; set_solver|].
  destruct (strchr str c) as [p|].
  - destruct IH as (pre & -> & ? & ?). exists (x :: pre). set_solver.
  - set_solver.
Qed.

Lemma match_here_prefix h n : match_here h n = true ↔ n `prefix_of` h.
Proof.
  revert n. induction h as [|x h IH]; intros [|y n]; simpl; try (split; [|done]; intros; apply prefix_nil).
  - split; [done|]. by intros ?%prefix_nil_not.
  - destruct (x =? y) eqn:He; zbool.
    + subst. rewrite IH. split; [apply prefix_cons|apply prefix_cons_inv_2].
    + split; [done|]. intros ?%prefix_cons_inv_1. congruence.
Qed.

Lemma strstr_scan_cons x h n :
  strstr_scan (x :: h) n = if match_here (x :: h) n then Some (x :: h) else strstr_scan h n.
Proof. done. Qed.

(** [memcmp] answers 0 exactly when the first [n] bytes agree. *)
Lemma memcmp_eq n s1 s2 :
  (n <= length s1)%nat → (n <= length s2)%nat → memcmp s1 s2 n = 0 ↔ take n s1 = take n s2.
Proof.
  revert s1 s2. induction n as [|n IH]; intros [|a s1] [|b s2] H1 H2; simpl in *; try done; try lia.
  destruct (a =? b) eqn:He; zbool.
  - subst. rewrite IH by lia. split; [by intros ->|by intros [= ?]].
  - split; [destruct (a <? b); done|congruence].
Qed.

Lemma strncpy_bytes_length src n : length (strncpy_bytes src n) = n.
Proof. revert src. induction n; intros [|c src]; simpl; auto. Qed.

Lemma strncpy_bytes_spec src n :
  strncpy_bytes src n = take n src ++ replicate (n - length src) 0.
Proof.
  revert src. induction n as [|n IH]; intros [|c src]; simpl; try done; rewrite IH; [|done].
  by rewrite take_nil, Nat.sub_0_r.
Qed.

(** ** Facts about memory *)

Lemma rd_insert m a v b : rd (<[a := v]> m) b = if decide (a = b) then v else rd m b.
Proof. unfold rd. rewrite lookup_insert. by case_decide. Qed.

Definition in_block (b n a : Z) : bool := (b <=? a) && (a <? b + n).

Lemma in_block_spec b n a : in_block b n a = true ↔ b <= a < b + n.
Proof. unfold in_block. rewrite andb_true_iff, Z.leb_le, Z.ltb_lt. done. Qed.

(** A copy that reads each source byte before overwriting it. *)
Lemma copy_up_spec n m dest src a :
  dest <= src ∨ src + Z.of_nat n <= dest →
  rd (copy_up m dest src n) a =
    if in_block dest (Z.of_nat n) a then rd m (src + (a - dest)) else rd m a.
Proof.
  revert m dest src. induction n as [|n IH]; intros m dest src Hov; simpl copy_up.
  { destruct (in_block _ _ a) eqn:Hb; [apply in_block_spec in Hb; lia|done]. }
  rewrite IH by lia. destruct (in_block (dest + 1) _ a) eqn:Hb; rewrite rd_insert.
  - apply in_block_spec in Hb. rewrite (proj2 (in_block_spec _ _ _)) by lia.
    case_decide; [lia|]. f_equal. lia.
  - apply not_true_iff_false in Hb. rewrite in_block_spec in Hb. case_decide as Ha.
    + subst. rewrite (proj2 (in_block_spec _ _ _)) by lia. f_equal. lia.
    + destruct (in_block dest _ a) eqn:Hb'; [apply in_block_spec in Hb'; lia|done].
Qed.

Lemma copy_down_spec n m dest src a :
  src <= dest →
  rd (copy_down m dest src n) a =
    if in_block dest (Z.of_nat n) a then rd m (src + (a - dest)) else rd m a.
Proof.
  revert m. induction n as [|n IH]; intros m Hov; simpl copy_down.
  { destruct (in_block _ _ a) eqn:Hb; [apply in_block_spec in Hb; lia|done]. }
  rewrite IH by lia. destruct (in_block dest (Z.of_nat n) a) eqn:Hb; rewrite rd_insert.
  - apply in_block_spec in Hb. rewrite (proj2 (in_block_spec _ _ _)) by lia.
    case_decide; [lia|done].
  - apply not_true_iff_false in Hb. rewrite in_block_spec in Hb. case_decide as Ha.
    + subst. rewrite (proj2 (in_block_spec _ _ _)) by lia. f_equal. lia.
    + destruct (in_block dest _ a) eqn:Hb'; [apply in_block_spec in Hb'; lia|done].
Qed.

Lemma memmove_spec dest src n m a :
  0 <= n →
  rd (memmove dest src n m) a = if in_block dest n a then rd m (src + (a - dest)) else rd m a.
Proof.
  intros Hn. unfold memmove. destruct (dest <? src) eqn:H1; zbool; [|destruct (src <? dest) eqn:H2; zbool].
  - rewrite copy_up_spec by lia. by rewrite Z2Nat.id.
  - rewrite copy_down_spec by lia. by rewrite Z2Nat.id.
  - assert (src = dest) as -> by lia. destruct (in_block dest n a); [f_equal; lia|done].
Qed.

Lemma fill_spec n m s c a : rd (fill m s c n) a = if in_block s (Z.of_nat n) a then u8 c else rd m a.
Proof.
  revert m s. induction n as [|n IH]; intros m s; simpl fill.
  { destruct (in_block _ _ a) eqn:Hb; [apply in_block_spec in Hb; lia|done]. }
  rewrite IH. destruct (in_block (s + 1) _ a) eqn:Hb.
  - apply in_block_spec in Hb. by rewrite (proj2 (in_block_spec _ _ _)) by lia.
  - apply not_true_iff_false in Hb. rewrite in_block_spec in Hb. rewrite rd_insert. case_decide as Ha.
    + subst. by rewrite (proj2 (in_block_spec _ _ _)) by lia.
    + destruct (in_block s _ a) eqn:Hb'; [apply in_block_spec in Hb'; lia|done].
Qed.

Lemma memset_spec s c n m a : 0 <= n → rd (memset s c n m) a = if in_block s n a then u8 c else rd m a.
Proof. intros Hn. unfold memset. rewrite fill_spec. by rewrite Z2Nat.id. Qed.

(** ** Properties *)

(** C12: [memmove] copies as if through a temporary buffer: whatever the overlap,
    every byte of the destination receives the byte the source held before the
    call, and no other byte changes. *)
Theorem memmove_correct dest src n m a :
  0 <= n →
  rd (memmove dest src n m) a = if in_block dest n a then rd m (src + (a - dest)) else rd m a.
Proof. apply memmove_spec. Qed.

(** [strstr] returns the suffix that starts at the first occurrence of the
    needle, and NULL exactly when the needle does not occur (a non-empty needle;
    the empty one is found at the start). *)
Theorem strstr_correct haystack needle :
  needle ≠ [] →
  match strstr haystack needle with
  | Some p => ∃ pre, haystack = pre ++ p ∧ needle `prefix_of` p ∧
                     ∀ pre' q, haystack = pre' ++ q → needle `prefix_of` q →
                               (length pre <= length pre')%nat
  | None => ∀ pre q, haystack = pre ++ q → ¬ needle `prefix_of` q
  end.
Proof.
  intros Hne. unfold strstr. destruct needle as [|y n]; [done|]. set (nd := y :: n) in *. clearbody nd.
  induction haystack as [|x h IH]; [cbn [strstr_scan]|rewrite strstr_scan_cons].
  - intros pre q Hq. symmetry in Hq. apply app_nil in Hq as [-> ->].
    intros [k Hk]. destruct nd; done.
  - destruct (match_here (x :: h) nd) eqn:Hm.
    + apply match_here_prefix in Hm. exists []. split; [done|split; [done|]]. intros; simpl; lia.
    + assert (¬ nd `prefix_of` x :: h) as Hnot by (rewrite <- match_here_prefix; congruence).
      destruct (strstr_scan h nd) as [p|].
      * destruct IH as (pre & -> & Hp & Hmin). exists (x :: pre). split; [done|split; [done|]].
        intros [|x' pre'] q Hq Hpre; simpl in Hq; [by destruct Hnot; rewrite Hq|].
        injection Hq as _ Hq. apply le_n_S. by eapply Hmin.
      * intros [|x' pre] q Hq; simpl in Hq; [by rewrite <- Hq|].
        injection Hq as _ Hq. by eapply IH.
Qed.

(** ** Witnesses *)

Lemma memmove_correct_witness :
  rd (memmove 101 100 3 (list_to_map [(100, 7); (101, 8); (102, 9)])) 103 = 9.
Proof. rewrite (memmove_correct 101 100 3 _ 103) by lia. reflexivity. Defined.

Lemma strstr_correct_witness :
  ∃ pre, [13; 97; 13; 10; 13; 10; 98] = pre ++ [13; 10; 13; 10; 98] ∧ length pre = 2%nat.
Proof.
  pose proof (strstr_correct [13; 97; 13; 10; 13; 10; 98] [13; 10; 13; 10] ltac:(done)) as H.
  change (strstr _ _) with (Some [13; 10; 13; 10; 98]) in H. cbv iota beta in H.
  destruct H as (pre & Hpre & _). exists pre. split; [exact Hpre|].
  apply (f_equal length) in Hpre. rewrite length_app in Hpre. simpl in Hpre. lia.
Defined.
