(* ===== verification/Bytes.v ===== *)
(** * Bytes in memory buffers

    Little-endian fields, packed structs and sub-ranges of byte buffers, as the
    file system, the ELF loader and the network code read and write them. *)
From S2P Require Import Prelude.

(** ** Little-endian numbers *)

Fixpoint le_dec (l : list Z) : Z :=
  match l with [] => 0 | b :: l => b + 256 * le_dec l end.

Fixpoint le_enc (n : nat) (x : Z) : list Z :=
  match n with O => [] | S n => x mod 256 :: le_enc n (x / 256) end.

Definition is_byte (b : Z) : Prop := 0 <= b < 256.

Lemma le_enc_length n x : length (le_enc n x) = n.
Proof. revert x. induction n; intros; simpl; auto. Qed.

Lemma le_enc_bytes n x : Forall is_byte (le_enc n x).
Proof.
  revert x. induction n as [|n IH]; intros x; simpl; constructor; [|apply IH].
  apply Z.mod_pos_bound. lia.
Qed.

Lemma le_dec_enc n x : 0 <= x < 256 ^ Z.of_nat n → le_dec (le_enc n x) = x.
Proof.
  revert x. induction n as [|n IH]; intros x Hx; [simpl in *; lia|].
  rewrite Nat2Z.inj_succ, Z.pow_succ_r in Hx by lia. simpl.
  rewrite IH; Z.to_euclidean_division_equations; nia.
Qed.

Lemma le_dec_range l : Forall is_byte l → 0 <= le_dec l < 256 ^ Z.of_nat (length l).
Proof.
  induction 1 as [|b l Hb _ IH]; [simpl; lia|]. cbn [le_dec length]. rewrite Nat2Z.inj_succ, Z.pow_succ_r by lia.
  unfold is_byte in Hb. lia.
Qed.

Lemma le_enc_dec l : Forall is_byte l → le_enc (length l) (le_dec l) = l.
Proof.
  induction 1 as [|b l Hb _ IH]; [done|]. cbn [le_dec length le_enc]. unfold is_byte in Hb.
  assert ((b + 256 * le_dec l) mod 256 = b) as -> by (Z.to_euclidean_division_equations; lia).
  assert ((b + 256 * le_dec l) / 256 = le_dec l) as -> by (Z.to_euclidean_division_equations; lia).
  by rewrite IH.
Qed.

(** ** Packed structs: a list of field sizes and the list of field values *)

Fixpoint pack (sizes : list nat) (vals : list Z) : list Z :=
  match sizes, vals with
  | n :: sizes, v :: vals => le_enc n v ++ pack sizes vals
  | _, _ => []
  end.

Fixpoint unpack (sizes : list nat) (l : list Z) : list Z :=
  match sizes with [] => [] | n :: sizes => le_dec (take n l) :: unpack sizes (drop n l) end.

(** Where the field with index [k] starts, and the size of the whole. *)
Definition offset_of (sizes : list nat) (k : nat) : Z := Z.of_nat (sum_list (take k sizes)).
Definition size_of (sizes : list nat) : Z := Z.of_nat (sum_list sizes).

Definition fits (sizes : list nat) (vals : list Z) : Prop :=
  Forall2 (λ n v, 0 <= v < 256 ^ Z.of_nat n) sizes vals.

(** Offsets of known layouts as numbers. *)
Ltac offsets :=
  repeat match goal with |- context [offset_of ?l ?k] => let v := eval vm_compute in (offset_of l k) in change (offset_of l k) with v end;
  rewrite ?Z.add_0_r.

Lemma unpack_pack sizes vals rest : fits sizes vals → unpack sizes (pack sizes vals ++ rest) = vals.
Proof.
  induction 1 as [|n v sizes vals Hv _ IH]; [done|]. simpl. rewrite <- app_assoc.
  rewrite take_app_length' by by rewrite le_enc_length. rewrite drop_app_length' by by rewrite le_enc_length.
  by rewrite le_dec_enc, IH.
Qed.

Lemma pack_length sizes vals : length vals = length sizes → length (pack sizes vals) = sum_list sizes.
Proof.
  revert vals. induction sizes as [|n sizes IH]; intros [|v vals]; simpl; try done; intros [= Hl].
  by rewrite length_app, le_enc_length, IH.
Qed.

Lemma pack_bytes sizes vals : Forall is_byte (pack sizes vals).
Proof.
  revert vals. induction sizes as [|n sizes IH]; intros [|v vals]; simpl; try constructor.
  apply Forall_app. split; [apply le_enc_bytes|apply IH].
Qed.

Lemma unpack_fits sizes l : Forall is_byte l → sum_list sizes = length l → fits sizes (unpack sizes l).
Proof.
  revert l. induction sizes as [|n sizes IH]; intros l Hb Hl; simpl; constructor.
  - pose proof (le_dec_range (take n l) ltac:(by apply Forall_take)) as Hr. simpl in Hl.
    rewrite length_take, Nat.min_l in Hr by lia. done.
  - apply IH; [by apply Forall_drop|]. rewrite length_drop. simpl in Hl. lia.
Qed.

Lemma unpack_length sizes l : length (unpack sizes l) = length sizes.
Proof. revert l. induction sizes; intros; simpl; auto. Qed.

(** ** Parts of a buffer *)

(** [n] bytes at offset [off]; [None] outside the buffer. *)
Definition slice (buf : list Z) (off n : Z) : option (list Z) :=
  if (0 <=? off) && (0 <=? n) && (off + n <=? Z.of_nat (length buf))
  then Some (take (Z.to_nat n) (drop (Z.to_nat off) buf)) else None.

(** Storing [data] at offset [off]. *)
Definition splice (buf : list Z) (off : Z) (data : list Z) : option (list Z) :=
  if (0 <=? off) && (off + Z.of_nat (length data) <=? Z.of_nat (length buf))
  then Some (take (Z.to_nat off) buf ++ data ++ drop (Z.to_nat off + length data) buf) else None.

Definition get_le (n : nat) (buf : list Z) (off : Z) : option Z := le_dec <$> slice buf off (Z.of_nat n).
Definition put_le (n : nat) (buf : list Z) (off x : Z) : option (list Z) := splice buf off (le_enc n x).

Lemma slice_length buf off n l : slice buf off n = Some l → Z.of_nat (length l) = n.
Proof.
  unfold slice. destruct (_ && _)%bool eqn:Hc; [|done]. intros [= <-]. zbool.
  rewrite length_take, length_drop. lia.
Qed.

Lemma slice_some buf off n : 0 <= off → 0 <= n → off + n <= Z.of_nat (length buf) → is_Some (slice buf off n).
Proof. intros. unfold slice. rewrite !(proj2 (Z.leb_le _ _)) by lia. simpl. by eexists. Qed.

Lemma splice_some buf off data :
  0 <= off → off + Z.of_nat (length data) <= Z.of_nat (length buf) → is_Some (splice buf off data).
Proof. intros. unfold splice. rewrite !(proj2 (Z.leb_le _ _)) by lia. simpl. by eexists. Qed.

Lemma splice_length buf off data buf' : splice buf off data = Some buf' → length buf' = length buf.
Proof.
  unfold splice. destruct (_ && _)%bool eqn:Hc; [|done]. intros [= <-]. zbool.
  rewrite !length_app, length_take, length_drop. lia.
Qed.

(** Reading back what was stored, and reading elsewhere. *)
Lemma slice_splice_same buf off data buf' :
  splice buf off data = Some buf' → slice buf' off (Z.of_nat (length data)) = Some data.
Proof.
  intros Hs. pose proof (splice_length _ _ _ _ Hs) as Hlen. revert Hs. unfold splice.
  destruct (_ && _)%bool eqn:Hc; [|done]. intros [= <-]. zbool. unfold slice.
  rewrite Hlen, !(proj2 (Z.leb_le _ _)) by lia. simpl. f_equal. rewrite Nat2Z.id.
  rewrite drop_app_length' by (rewrite length_take; lia). by rewrite take_app_length'.
Qed.

Lemma slice_lookup buf off n l i :
  slice buf off n = Some l → 0 <= i < n → l !! Z.to_nat i = buf !! Z.to_nat (off + i).
Proof.
  unfold slice. destruct (_ && _)%bool eqn:Hc; [|done]. intros [= <-] Hi. zbool.
  rewrite lookup_take_lt by lia. rewrite lookup_drop. f_equal. lia.
Qed.

Lemma splice_lookup buf off data buf' i :
  splice buf off data = Some buf' → 0 <= i →
  buf' !! Z.to_nat i =
    if (off <=? i) && (i <? off + Z.of_nat (length data)) then data !! Z.to_nat (i - off) else buf !! Z.to_nat i.
Proof.
  unfold splice. destruct (_ && _)%bool eqn:Hc; [|done]. intros [= <-] Hi. zbool.
  destruct (decide (i < off)).
  { rewrite lookup_app_l by (rewrite length_take; lia). rewrite lookup_take_lt by lia.
    by rewrite (proj2 (Z.leb_gt off i)) by lia. }
  rewrite lookup_app_r by (rewrite length_take; lia). rewrite length_take, Nat.min_l by lia.
  rewrite (proj2 (Z.leb_le off i)) by lia. simpl. destruct (i <? off + _) eqn:Hlt; zbool.
  - rewrite lookup_app_l by lia. f_equal. lia.
  - rewrite lookup_app_r, lookup_drop by lia. f_equal. lia.
Qed.

Lemma slice_ext buf buf' off n :
  length buf' = length buf → (∀ i, off <= i < off + n → buf' !! Z.to_nat i = buf !! Z.to_nat i) →
  slice buf' off n = slice buf off n.
Proof.
  intros Hlen Hext. unfold slice. rewrite Hlen. destruct (_ && _)%bool eqn:Hc; [|done]. zbool. f_equal.
  apply list_eq. intros i. destruct (decide (i < Z.to_nat n)%nat).
  - rewrite !lookup_take_lt, !lookup_drop by done. specialize (Hext (off + Z.of_nat i) ltac:(lia)).
    by replace (Z.to_nat (off + Z.of_nat i)) with (Z.to_nat off + i)%nat in Hext by lia.
  - rewrite !lookup_take_ge; [done|lia..].
Qed.

Lemma slice_splice_other buf off data buf' off' n :
  splice buf off data = Some buf' → off' + n <= off ∨ off + Z.of_nat (length data) <= off' → 0 <= off' →
  slice buf' off' n = slice buf off' n.
Proof.
  intros Hs Hdis H0. apply slice_ext; [by eapply splice_length|]. intros i Hi.
  rewrite (splice_lookup _ _ _ _ _ Hs) by lia.
  destruct (_ && _)%bool eqn:Hc; [|done]. zbool. lia.
Qed.

Lemma splice_bytes buf off data buf' :
  splice buf off data = Some buf' → Forall is_byte buf → Forall is_byte data → Forall is_byte buf'.
Proof.
  unfold splice. destruct (_ && _)%bool; [|done]. intros [= <-] Hb Hd.
  apply Forall_app. split; [by apply Forall_take|]. apply Forall_app. split; [done|by apply Forall_drop].
Qed.

Lemma slice_bytes buf off n l : slice buf off n = Some l → Forall is_byte buf → Forall is_byte l.
Proof. unfold slice. destruct (_ && _)%bool; [|done]. intros [= <-] Hb. by apply Forall_take, Forall_drop. Qed.

Lemma get_put_same n buf off x buf' :
  put_le n buf off x = Some buf' → 0 <= x < 256 ^ Z.of_nat n → get_le n buf' off = Some x.
Proof.
  intros Hp Hx. unfold get_le. apply slice_splice_same in Hp. rewrite le_enc_length in Hp. rewrite Hp. simpl.
  by rewrite le_dec_enc.
Qed.

Lemma get_put_other n m buf off off' x buf' :
  put_le n buf off x = Some buf' → off' + Z.of_nat m <= off ∨ off + Z.of_nat n <= off' → 0 <= off' →
  get_le m buf' off' = get_le m buf off'.
Proof.
  intros Hp Hd H0. unfold get_le. f_equal. eapply slice_splice_other; [exact Hp|by rewrite le_enc_length|done].
Qed.
