(* ===== verification/Pmm.v ===== *)
(** * Physical page allocator ([kernel/src/mm/pmm.c])

    The allocator keeps one bit per 4 KiB page of the first
    [MAX_MEMORY_GB] gigabytes in an array of 64-bit words; a set bit means the
    page is in use.  [pmm] is the file's static state, and every function of
    the file is the definition of the same name.  Section [Allocator] states
    the representation invariant and the behaviour of allocation and release;
    the last section shows that no sequence of operations hands out a page
    twice. *)
From S2P Require Import Prelude Interfaces.

Definition PAGE_SIZE : Z := 4096.
Definition BITS_PER_ENTRY : Z := 64.
Definition MAX_MEMORY_GB : Z := 4.
Definition ENTRY_FULL : Z := 18446744073709551615.

(** [struct limine_memmap_entry], as far as [pmm_init] uses it. *)
Record memmap_entry := mk_entry { me_base : Z; me_length : Z; me_type : Z }.

Record pmm := mk_pmm {
  bitmap_ptr : Z;          (* virtual address of the bitmap, 0 for NULL *)
  bitmap : list Z;         (* its contents, one 64-bit word per entry *)
  bitmap_size : Z;
  total_pages : Z;
  free_pages : Z;
}.

Definition set_bitmap (s : pmm) (b : list Z) : pmm :=
  mk_pmm (bitmap_ptr s) b (bitmap_size s) (total_pages s) (free_pages s).
Definition set_free_pages (s : pmm) (n : Z) : pmm :=
  mk_pmm (bitmap_ptr s) (bitmap s) (bitmap_size s) (total_pages s) n.

Definition bit_mask (page : Z) : Z := Z.shiftl 1 (page mod BITS_PER_ENTRY).

Definition bitmap_set (s : pmm) (page : Z) : pmm :=
  let i := page / BITS_PER_ENTRY in
  set_bitmap s (aset (bitmap s) i (Z.lor (aget (bitmap s) i) (bit_mask page))).

Definition bitmap_clear (s : pmm) (page : Z) : pmm :=
  let i := page / BITS_PER_ENTRY in
  set_bitmap s (aset (bitmap s) i (Z.land (aget (bitmap s) i) (Z.lnot (bit_mask page)))).

Definition bitmap_test (s : pmm) (page : Z) : bool :=
  negb (Z.land (aget (bitmap s) (page / BITS_PER_ENTRY)) (bit_mask page) =? 0).

(** ** Initialisation *)

Section init.
(** The memory-map type tag of usable memory and the HHDM offset come from
    the Limine boot protocol, which is not part of this repository. *)
Variable LIMINE_MEMMAP_USABLE : Z.
Variable hhdm_offset : Z.

Definition phys_to_virt (phys : Z) : Z := u64 (phys + hhdm_offset).

(** First loop: take the bitmap from the first usable region that is large
    enough, and shrink that region. *)
Fixpoint place_bitmap (required_size : Z) (mm : list memmap_entry)
    : option Z * list memmap_entry :=
  match mm with
  | [] => (None, [])
  | e :: rest =>
      if negb (me_type e =? LIMINE_MEMMAP_USABLE) || (me_length e <? required_size) then
        let '(p, rest') := place_bitmap required_size rest in (p, e :: rest')
      else
        (Some (phys_to_virt (me_base e)),
         mk_entry (u64 (me_base e + required_size))
                  (me_length e - required_size) (me_type e) :: rest)
  end.

(** Body of the second loop for one page; [None] is the store through a NULL
    bitmap pointer. *)
Definition release_page (s : pmm) (page : Z) : option pmm :=
  if bitmap_ptr s =? 0 then None
  else let s := bitmap_clear s page in Some (set_free_pages s (u64 (free_pages s + 1))).

Fixpoint release_range (s : pmm) (pages : list Z) : option pmm :=
  match pages with
  | [] => Some s
  | p :: rest => s ← release_page s p; release_range s rest
  end.

(** The pages [start_page, end_page) that the second loop releases for a
    region. *)
Definition region_pages (total : Z) (e : memmap_entry) : list Z :=
  if negb (me_type e =? LIMINE_MEMMAP_USABLE) then []
  else
    let start_page := u64 (me_base e + PAGE_SIZE - 1) / PAGE_SIZE in
    let end_page := me_length e / PAGE_SIZE in
    if total <=? start_page then []
    else
      let end_page := if total <? end_page then total else end_page in
      seqZ start_page (end_page - start_page).

Fixpoint release_regions (s : pmm) (mm : list memmap_entry) : option pmm :=
  match mm with
  | [] => Some s
  | e :: rest => s ← release_range s (region_pages (total_pages s) e); release_regions s rest
  end.

Definition pmm_init (mm : list memmap_entry) : option pmm :=
  let max_addr := MAX_MEMORY_GB * 1024 * 1024 * 1024 in
  let total := max_addr / PAGE_SIZE in
  let size := (total + BITS_PER_ENTRY - 1) / BITS_PER_ENTRY in
  let '(p, mm') := place_bitmap (size * 8) mm in
  let s := match p with
           | Some ptr => mk_pmm ptr (replicate (Z.to_nat size) ENTRY_FULL) size total 0
           | None => mk_pmm 0 [] size total 0
           end in
  release_regions s mm'.
End init.

(** ** Allocation and release *)

Fixpoint find_free_bit (entry : Z) (bits : list Z) : option Z :=
  match bits with
  | [] => None
  | b :: rest => if Z.land entry (Z.shiftl 1 b) =? 0 then Some b else find_free_bit entry rest
  end.

Fixpoint alloc_scan (s : pmm) (idxs : list Z) : Z * pmm :=
  match idxs with
  | [] => (0, s)
  | idx :: rest =>
      let entry := aget (bitmap s) idx in
      if entry =? ENTRY_FULL then alloc_scan s rest
      else
        match find_free_bit entry (seqZ 0 BITS_PER_ENTRY) with
        | Some bit =>
            let page := idx * BITS_PER_ENTRY + bit in
            if total_pages s <=? page then (0, s)
            else
              let s := bitmap_set s page in
              (page * PAGE_SIZE, set_free_pages s (u64 (free_pages s - 1)))
        | None => alloc_scan s rest
        end
  end.

Definition pmm_alloc_page (s : pmm) : Z * pmm :=
  if free_pages s =? 0 then (0, s)
  else alloc_scan s (seqZ 1 (bitmap_size s - 1)).

Definition pmm_free_page (addr : Z) (s : pmm) : pmm :=
  let page := addr / PAGE_SIZE in
  if total_pages s <=? page then s
  else if bitmap_test s page then
    let s := bitmap_clear s page in set_free_pages s (u64 (free_pages s + 1))
  else s.

Fixpoint free_loop (n : nat) (page : Z) (s : pmm) : pmm :=
  match n with
  | O => s
  | S n =>
      if total_pages s <=? page then s
      else free_loop n (page + 1) (pmm_free_page (page * PAGE_SIZE) s)
  end.

Definition pmm_free_pages (addr count : Z) (s : pmm) : pmm :=
  let start_page := addr / PAGE_SIZE in
  if total_pages s <=? start_page then s
  else free_loop (Z.to_nat count) start_page s.

Definition pmm_get_free_pages (s : pmm) : Z := free_pages s.

(** ** Representation invariant *)

(** [used s p] reads the bit of page [p]. *)
Definition used (s : pmm) (p : Z) : bool := Z.testbit (aget (bitmap s) (p / 64)) (p mod 64).
Definition free_count (s : pmm) : Z := count (λ p, negb (used s p)) (seqZ 0 (total_pages s)).

Record pmm_inv (s : pmm) : Prop := {
  inv_len : Z.of_nat (length (bitmap s)) = bitmap_size s;
  inv_size : bitmap_size s = (total_pages s + 63) / 64;
  inv_total : 0 <= total_pages s <= 1048576;
  inv_words : ∀ i, is_u64 (aget (bitmap s) i);
  inv_count : free_pages s = free_count s;
}.

(** Two states that agree on everything but the bit of one page. *)
Definition bit_change (s s' : pmm) (p : Z) (b : bool) : Prop :=
  used s' p = b ∧ (∀ q, 0 <= q → q ≠ p → used s' q = used s q) ∧
  total_pages s' = total_pages s ∧ bitmap_size s' = bitmap_size s.

Lemma bitmap_test_used s p : 0 <= p → bitmap_test s p = used s p.
Proof.
  intros. unfold bitmap_test, used, bit_mask, BITS_PER_ENTRY.
  rewrite land_bit_zero by (apply Z.mod_pos_bound; lia). apply negb_involutive.
Qed.

(** Storing a word that differs from the old one in bit [p mod 64] only. *)
Lemma store_word_bit s p w b :
  0 <= p → p / 64 < Z.of_nat (length (bitmap s)) →
  (∀ j, 0 <= j → Z.testbit w j =
     if j =? p mod 64 then b else Z.testbit (aget (bitmap s) (p / 64)) j) →
  bit_change s (set_bitmap s (aset (bitmap s) (p / 64) w)) p b.
Proof.
  intros Hp Hlen Hw. split; [|split; [|done]]; unfold used; simpl.
  - rewrite aget_aset_eq by (split; [apply Z.div_pos; lia|done]).
    rewrite Hw by (apply Z.mod_pos_bound; lia). by rewrite Z.eqb_refl.
  - intros q Hq Hne. destruct (decide (q / 64 = p / 64)) as [He|He].
    + rewrite He, aget_aset_eq by (split; [apply Z.div_pos; lia|done]).
      rewrite Hw by (apply Z.mod_pos_bound; lia).
      destruct (Z.eqb_spec (q mod 64) (p mod 64)); [exfalso|done].
      rewrite (Z.div_mod q 64), (Z.div_mod p 64) in Hne by lia. congruence.
    + by rewrite aget_aset_ne by (try apply Z.div_pos; lia).
Qed.

Lemma bitmap_set_change s p :
  0 <= p → p / 64 < Z.of_nat (length (bitmap s)) → bit_change s (bitmap_set s p) p true.
Proof.
  intros Hp Hl. apply store_word_bit; [done..|]. intros j Hj. unfold bit_mask, BITS_PER_ENTRY.
  rewrite testbit_set by (try apply Z.mod_pos_bound; lia). rewrite (Z.eqb_sym (p mod 64)).
  destruct (j =? p mod 64); [apply orb_true_r|apply orb_false_r].
Qed.

Lemma bitmap_clear_change s p :
  0 <= p → p / 64 < Z.of_nat (length (bitmap s)) → bit_change s (bitmap_clear s p) p false.
Proof.
  intros Hp Hl. apply store_word_bit; [done..|]. intros j Hj. unfold bit_mask, BITS_PER_ENTRY.
  rewrite testbit_clear by (try apply Z.mod_pos_bound; lia). rewrite (Z.eqb_sym (p mod 64)).
  destruct (j =? p mod 64); [apply andb_false_r|apply andb_true_r].
Qed.

(** A page number below [total_pages] indexes the bitmap. *)
Lemma page_in_bitmap s p : pmm_inv s → 0 <= p < total_pages s → p / 64 < Z.of_nat (length (bitmap s)).
Proof. intros [-> -> ? _ _] ?. Z.to_euclidean_division_equations; lia. Qed.

Lemma free_count_take s s' p :
  0 <= p < total_pages s → used s p = false → bit_change s s' p true →
  free_count s = free_count s' + 1.
Proof.
  intros Hp Hu (Ht & Hother & Htot & _). unfold free_count. rewrite Htot.
  apply count_flip with p; [apply NoDup_seqZ|by apply elem_of_seqZ|by rewrite Hu|by rewrite Ht|].
  intros q Hq Hne. apply elem_of_seqZ in Hq. by rewrite Hother by lia.
Qed.

Lemma free_count_give s s' p :
  0 <= p < total_pages s → used s p = true → bit_change s s' p false →
  free_count s' = free_count s + 1.
Proof.
  intros Hp Hu (Ht & Hother & Htot & _). unfold free_count. rewrite Htot.
  apply count_flip with p; [apply NoDup_seqZ|by apply elem_of_seqZ|by rewrite Ht|by rewrite Hu|].
  intros q Hq Hne. apply elem_of_seqZ in Hq. by rewrite Hother by lia.
Qed.

Lemma free_count_bound s : 0 <= total_pages s → 0 <= free_count s <= total_pages s.
Proof.
  intros. split; [apply count_nonneg|]. unfold free_count, count.
  pose proof (filter_length_le (λ p, negb (used s p)) (seqZ 0 (total_pages s))) as Hle.
  rewrite length_seqZ in Hle. lia.
Qed.

Lemma words_aset s i w :
  (∀ j, is_u64 (aget (bitmap s) j)) → is_u64 w → ∀ j, is_u64 (aget (aset (bitmap s) i w) j).
Proof.
  intros Hws Hw j. unfold aget, aset.
  destruct (decide (Z.to_nat i = Z.to_nat j)) as [<-|].
  - destruct (decide (Z.to_nat i < length (bitmap s))%nat).
    + by rewrite list_lookup_total_insert_eq.
    + rewrite list_insert_ge by lia. apply Hws.
  - rewrite list_lookup_total_insert_ne by done. apply Hws.
Qed.

Lemma words_set s p : (∀ j, is_u64 (aget (bitmap s) j)) → ∀ j, is_u64 (aget (bitmap (bitmap_set s p)) j).
Proof.
  intros Hws. apply words_aset; [done|].
  apply (set_bit_fits _ _ 64); [apply Z.mod_pos_bound; unfold BITS_PER_ENTRY; lia|apply Hws].
Qed.

Lemma words_clear s p : (∀ j, is_u64 (aget (bitmap s) j)) → ∀ j, is_u64 (aget (bitmap (bitmap_clear s p)) j).
Proof.
  intros Hws. apply words_aset; [done|].
  apply (clear_bit_fits _ _ 64); [apply Z.mod_pos_bound; unfold BITS_PER_ENTRY; lia|lia|apply Hws].
Qed.

(** Taking a free page and giving back a used one keep the invariant. *)
Lemma inv_take s p :
  pmm_inv s → 0 <= p < total_pages s → used s p = false →
  let s' := set_free_pages (bitmap_set s p) (u64 (free_pages s - 1)) in
  pmm_inv s' ∧ bit_change s s' p true ∧ free_pages s' = free_pages s - 1.
Proof.
  intros Hinv Hp Hu s'. pose proof (page_in_bitmap s p Hinv Hp) as Hin.
  assert (Hbc : bit_change s s' p true) by (apply bitmap_set_change; [lia|done]).
  pose proof (free_count_take s s' p Hp Hu Hbc) as Hcnt.
  destruct Hinv as [Hlen Hsize Htot Hws Hfree].
  pose proof (free_count_bound s ltac:(lia)). pose proof (free_count_bound s' ltac:(unfold s'; simpl; lia)).
  assert (free_pages s' = free_pages s - 1) as Hf'.
  { unfold s'; simpl. apply u64_small. unfold is_u64. lia. }
  split; [|done]. split; [..|unfold s' in *; lia]; try done.
  - unfold s', bitmap_set; simpl. by rewrite length_aset.
  - by apply words_set.
Qed.

Lemma inv_give s p :
  pmm_inv s → 0 <= p < total_pages s → used s p = true →
  let s' := set_free_pages (bitmap_clear s p) (u64 (free_pages s + 1)) in
  pmm_inv s' ∧ bit_change s s' p false ∧ free_pages s' = free_pages s + 1.
Proof.
  intros Hinv Hp Hu s'. pose proof (page_in_bitmap s p Hinv Hp) as Hin.
  assert (Hbc : bit_change s s' p false) by (apply bitmap_clear_change; [lia|done]).
  pose proof (free_count_give s s' p Hp Hu Hbc) as Hcnt.
  destruct Hinv as [Hlen Hsize Htot Hws Hfree].
  pose proof (free_count_bound s ltac:(lia)). pose proof (free_count_bound s' ltac:(unfold s'; simpl; lia)) as Hb.
  unfold s' in Hb at 2; simpl in Hb.
  assert (free_pages s' = free_pages s + 1) as Hf'.
  { unfold s'; simpl. apply u64_small. unfold is_u64. unfold s' in *. lia. }
  split; [|done]. split; [..|unfold s' in *; lia]; try done.
  - unfold s', bitmap_clear; simpl. by rewrite length_aset.
  - by apply words_clear.
Qed.

(** ** The search for a free page *)

Lemma find_free_bit_spec e a n :
  0 <= a →
  match find_free_bit e (seqZ a n) with
  | Some b => a <= b < a + n ∧ Z.testbit e b = false ∧ ∀ j, a <= j < b → Z.testbit e j = true
  | None => ∀ j, a <= j < a + n → Z.testbit e j = true
  end.
Proof.
  destruct (decide (0 <= n)) as [Hn|]; [|intros; rewrite seqZ_nil by lia; simpl; lia].
  revert a. pattern n. apply natlike_ind; [..|done]; clear n Hn.
  - intros a Ha. rewrite seqZ_nil by lia. simpl. lia.
  - intros n Hn IH a Ha. rewrite seqZ_cons by lia. simpl. rewrite land_bit_zero by lia.
    rewrite Z.pred_succ. destruct (Z.testbit e a) eqn:Hb; simpl.
    + specialize (IH (Z.succ a) ltac:(lia)).
      destruct (find_free_bit e (seqZ (Z.succ a) n)) as [b|].
      * destruct IH as (? & ? & IH). split; [lia|split; [done|]]. intros j Hj.
        destruct (decide (j = a)) as [->|]; [done|]. apply IH. lia.
      * intros j Hj. destruct (decide (j = a)) as [->|]; [done|]. apply IH. lia.
    + split; [lia|split; [done|]]. intros j Hj; lia.
Qed.

(** A word without clear bits is the full word. *)
Lemma full_word e : is_u64 e → (∀ j, 0 <= j < 64 → Z.testbit e j = true) → e = ENTRY_FULL.
Proof.
  intros He Hall. change ENTRY_FULL with (Z.ones 64). apply Z.bits_inj'; intros j Hj.
  destruct (decide (j < 64)).
  - by rewrite Hall, Z.ones_spec_low by lia.
  - rewrite Z.ones_spec_high by lia. apply bits_above with 64; [exact He|lia..].
Qed.

Lemma full_word_bits j : 0 <= j < 64 → Z.testbit ENTRY_FULL j = true.
Proof. intros. change ENTRY_FULL with (Z.ones 64). apply Z.ones_spec_low. lia. Qed.

(** What [alloc_scan] did: either nothing was free among the words it looked
    at, or it took the lowest free page of them. *)
Definition scan_result (s : pmm) (lo hi : Z) (r : Z * pmm) : Prop :=
  (r = (0, s) ∧ ∀ q, lo <= q < hi → q < total_pages s → used s q = true) ∨
  (∃ p, r = (p * PAGE_SIZE, set_free_pages (bitmap_set s p) (u64 (free_pages s - 1))) ∧
        lo <= p < total_pages s ∧ used s p = false ∧
        ∀ q, lo <= q < p → used s q = true).

Lemma used_split s i b : 0 <= b < 64 → used s (i * 64 + b) = Z.testbit (aget (bitmap s) i) b.
Proof.
  intros. unfold used. replace ((i * 64 + b) / 64) with i by ulia.
  by replace ((i * 64 + b) mod 64) with b by ulia.
Qed.

Lemma used_word s i q :
  (∀ j, 0 <= j < 64 → Z.testbit (aget (bitmap s) i) j = true) → i * 64 <= q < i * 64 + 64 → used s q = true.
Proof.
  intros Hall Hq. replace q with (i * 64 + (q - i * 64)) by lia.
  rewrite used_split by lia. apply Hall. lia.
Qed.

Lemma scan_result_skip s i hi r :
  (∀ j, 0 <= j < 64 → Z.testbit (aget (bitmap s) i) j = true) →
  scan_result s ((i + 1) * 64) hi r → scan_result s (i * 64) hi r.
Proof.
  intros Hfull [(-> & Hq)|(p & -> & Hp & Hu & Hq)].
  - left. split; [done|]. intros q Hq1 Hq2. destruct (decide (q < (i + 1) * 64)).
    + apply used_word with i; [done|lia].
    + apply Hq; lia.
  - right. exists p. repeat split; try done; try lia. intros q Hq1.
    destruct (decide (q < (i + 1) * 64)); [apply used_word with i; [done|lia]|apply Hq; lia].
Qed.

(** One iteration of the scan over the bitmap words. *)
Lemma alloc_scan_cons s idx rest :
  alloc_scan s (idx :: rest) =
    if aget (bitmap s) idx =? ENTRY_FULL then alloc_scan s rest
    else
      match find_free_bit (aget (bitmap s) idx) (seqZ 0 64) with
      | Some bit =>
          if total_pages s <=? idx * 64 + bit then (0, s)
          else ((idx * 64 + bit) * PAGE_SIZE,
                set_free_pages (bitmap_set s (idx * 64 + bit)) (u64 (free_pages s - 1)))
      | None => alloc_scan s rest
      end.
Proof. reflexivity. Qed.

Lemma alloc_scan_spec s i n :
  (∀ j, is_u64 (aget (bitmap s) j)) → 0 <= i → 0 <= n →
  scan_result s (i * 64) ((i + n) * 64) (alloc_scan s (seqZ i n)).
Proof.
  intros Hws Hi Hn. revert i Hi. pattern n. apply natlike_ind; [..|done]; clear n Hn.
  - intros i Hi. rewrite seqZ_nil by lia. left. split; [done|]. intros; lia.
  - intros n Hn IH i Hi. rewrite seqZ_cons, Z.pred_succ, alloc_scan_cons by lia.
    replace (i + Z.succ n) with (Z.succ i + n) by lia.
    specialize (IH (Z.succ i) ltac:(lia)). rewrite <- Z.add_1_r in *.
    destruct (aget (bitmap s) i =? ENTRY_FULL) eqn:Hfull; zbool.
    + apply scan_result_skip; [|done]. intros j Hj. rewrite Hfull. by apply full_word_bits.
    + pose proof (find_free_bit_spec (aget (bitmap s) i) 0 64 ltac:(lia)) as Hfb.
      destruct (find_free_bit _ _) as [b|].
      * destruct Hfb as (Hb & Hclear & Hbelow).
        assert (∀ q, i * 64 <= q < i * 64 + b → used s q = true) as Hprev.
        { intros q Hq. replace q with (i * 64 + (q - i * 64)) by lia.
          rewrite used_split by lia. apply Hbelow. lia. }
        destruct (total_pages s <=? i * 64 + b) eqn:Ht; zbool.
        -- left. split; [done|]. intros; apply Hprev; lia.
        -- right. exists (i * 64 + b). repeat split; try lia; [|done].
           rewrite used_split by lia. done.
      * exfalso. apply Hfull, full_word; [apply Hws|exact Hfb].
Qed.

(** [pmm_alloc_page] returns the lowest free page from page 64 on, marks exactly
    that page and decrements the counter; it returns NULL, leaving the state
    alone, exactly when no such page is free. *)
Lemma alloc_page_result s :
  pmm_inv s →
  let '(a, s') := pmm_alloc_page s in
  pmm_inv s' ∧
  ((a = 0 ∧ s' = s ∧ ∀ q, 64 <= q < total_pages s → used s q = true) ∨
   (∃ p, a = p * PAGE_SIZE ∧ 64 <= p < total_pages s ∧ used s p = false ∧
         (∀ q, 64 <= q < p → used s q = true) ∧
         bit_change s s' p true ∧ free_pages s' = free_pages s - 1)).
Proof.
  intros Hinv. unfold pmm_alloc_page. destruct (free_pages s =? 0) eqn:Hz; zbool.
  - split; [done|]. left. repeat split; try done. intros q Hq.
    rewrite (inv_count s Hinv) in Hz.
    pose proof (count_zero _ _ q Hz) as Hc. apply negb_false_iff, Hc, elem_of_seqZ. lia.
  - assert (0 <= bitmap_size s - 1 ∨ bitmap_size s = 0) as [Hb|Hb].
    { rewrite (inv_size s Hinv). pose proof (inv_total s Hinv). ulia. }
    + pose proof (alloc_scan_spec s 1 (bitmap_size s - 1) (inv_words s Hinv) ltac:(lia) Hb) as Hscan.
      destruct Hscan as [(-> & Hq)|(p & -> & Hp & Hu & Hq)].
      * split; [done|]. left. repeat split; try done. intros q Hq'. apply Hq; [|lia].
        pose proof (inv_size s Hinv). ulia.
      * destruct (inv_take s p Hinv ltac:(lia) Hu) as (Hinv' & Hbc & Hf).
        split; [done|]. right. exists p. repeat split; try done; try lia; try apply Hbc.
    + rewrite seqZ_nil by lia. simpl. split; [done|]. left. repeat split; try done.
      intros q Hq. pose proof (inv_size s Hinv). ulia.
Qed.

Lemma free_page_result s a :
  pmm_inv s → 0 <= a →
  let s' := pmm_free_page a s in
  let p := a / PAGE_SIZE in
  pmm_inv s' ∧
  ((p < total_pages s ∧ used s p = true ∧ bit_change s s' p false ∧
    free_pages s' = free_pages s + 1) ∨
   ((total_pages s <= p ∨ used s p = false) ∧ s' = s)).
Proof.
  intros Hinv Ha s' p. unfold s', pmm_free_page. fold p.
  assert (0 <= p) by (apply Z.div_pos; unfold PAGE_SIZE; lia).
  destruct (total_pages s <=? p) eqn:Ht; zbool; [by eauto|].
  rewrite bitmap_test_used by done. destruct (used s p) eqn:Hu; [|by eauto].
  destruct (inv_give s p Hinv ltac:(lia) Hu) as (? & ? & ?). split; [done|]. left. done.
Qed.

(** ** Initialisation *)

Definition shape_eq (s s' : pmm) : Prop :=
  bitmap_ptr s' = bitmap_ptr s ∧ total_pages s' = total_pages s ∧
  bitmap_size s' = bitmap_size s ∧ length (bitmap s') = length (bitmap s).

Lemma release_range_used s ps s' :
  release_range s ps = Some s' →
  (∀ p, p ∈ ps → 0 <= p ∧ p / 64 < Z.of_nat (length (bitmap s))) →
  shape_eq s s' ∧
  ∀ q, 0 <= q → used s' q = (used s q && negb (bool_decide (q ∈ ps)))%bool.
Proof.
  revert s. induction ps as [|p ps IH]; intros s Hrel Hps; simpl in Hrel.
  { simplify_eq. split; [done|]. intros q Hq.
    rewrite bool_decide_eq_false_2 by set_solver. by rewrite andb_true_r. }
  unfold release_page in Hrel. destruct (bitmap_ptr s =? 0) eqn:Hptr; [done|]. simpl in Hrel.
  destruct (Hps p ltac:(set_solver)) as [Hp0 Hp].
  destruct (bitmap_clear_change s p Hp0 Hp) as (Hc & Ho & _ & _).
  apply IH in Hrel as [(? & ? & ? & Hl) Hq].
  2: { intros p' Hp'. simpl. rewrite length_aset. apply Hps. set_solver. }
  simpl in Hl. rewrite length_aset in Hl. split; [done|].
  intros q Hq0. rewrite Hq by done.
  change (used (set_free_pages (bitmap_clear s p) (u64 (free_pages s + 1))) q)
    with (used (bitmap_clear s p) q).
  destruct (decide (q = p)) as [->|Hne].
  - rewrite Hc, (bool_decide_eq_true_2 (p ∈ p :: ps)) by set_solver. by rewrite andb_false_r.
  - rewrite (Ho q) by done. f_equal. f_equal. apply bool_decide_ext. set_solver.
Qed.

Lemma release_range_inv s ps s' :
  pmm_inv s → release_range s ps = Some s' → NoDup ps →
  (∀ p, p ∈ ps → 0 <= p < total_pages s ∧ used s p = true) → pmm_inv s'.
Proof.
  revert s. induction ps as [|p ps IH]; intros s Hinv Hrel Hnd Hps; simpl in Hrel; [by simplify_eq|].
  unfold release_page in Hrel. destruct (bitmap_ptr s =? 0); [done|]. simpl in Hrel.
  apply NoDup_cons in Hnd as [Hp Hnd]. destruct (Hps p ltac:(set_solver)) as [Hr Hu].
  destruct (inv_give s p Hinv Hr Hu) as (Hinv' & (_ & Ho & Ht & _) & _).
  apply IH in Hrel; [done..|]. intros q Hq. destruct (Hps q ltac:(set_solver)) as [? ?].
  rewrite Ho, Ht by (set_solver || lia). done.
Qed.

Lemma release_range_app s ps qs :
  release_range s (ps ++ qs) = s' ← release_range s ps; release_range s' qs.
Proof.
  revert s. induction ps as [|p ps IH]; intros s; simpl; [done|].
  destruct (release_page s p); simpl; [apply IH|done].
Qed.

Section init_spec.
Variable U : Z.
Variable hhdm_offset : Z.

Lemma release_range_total s ps s' : release_range s ps = Some s' → total_pages s' = total_pages s.
Proof.
  revert s. induction ps as [|p ps IH]; intros s; simpl; [by intros [= ->]|].
  unfold release_page. destruct (bitmap_ptr s =? 0); [done|]. simpl. by intros ->%IH.
Qed.

(** Releasing region by region is releasing the concatenated page list. *)
Lemma release_regions_range s mm :
  release_regions U s mm = release_range s (concat (region_pages U (total_pages s) <$> mm)).
Proof.
  revert s. induction mm as [|e mm IH]; intros s; simpl; [done|].
  rewrite release_range_app. destruct (release_range s _) as [s'|] eqn:He; simpl; [|done].
  by rewrite IH, (release_range_total _ _ _ He).
Qed.

Lemma region_pages_range t e p : p ∈ region_pages U t e → 0 <= p < t.
Proof.
  unfold region_pages. destruct (negb _); [set_solver|]. destruct (t <=? _) eqn:Ht; [set_solver|].
  zbool. rewrite elem_of_seqZ. pose proof (u64_range (me_base e + PAGE_SIZE - 1)) as [? _].
  pose proof (Z.div_pos (u64 (me_base e + PAGE_SIZE - 1)) PAGE_SIZE ltac:(done) ltac:(done)).
  destruct (t <? _) eqn:?; zbool; lia.
Qed.

Lemma regions_range t mm p : p ∈ concat (region_pages U t <$> mm) → 0 <= p < t.
Proof.
  induction mm as [|e mm IH]; simpl; [set_solver|].
  intros [?|?]%elem_of_app; [by eapply region_pages_range|auto].
Qed.

(** The state after the bitmap has been filled with ones. *)
Definition full_state (ptr : Z) : pmm := mk_pmm ptr (replicate (Z.to_nat 16384) ENTRY_FULL) 16384 1048576 0.

Lemma full_state_word ptr i : 0 <= i < 16384 → aget (bitmap (full_state ptr)) i = ENTRY_FULL.
Proof. intros. unfold aget. cbn [bitmap full_state]. apply lookup_total_replicate_2. lia. Qed.

Lemma full_state_used ptr p : 0 <= p < 1048576 → used (full_state ptr) p = true.
Proof.
  intros. unfold used. rewrite full_state_word by ulia. apply full_word_bits. ulia.
Qed.

Lemma full_state_inv ptr : pmm_inv (full_state ptr).
Proof.
  split; cbn [bitmap bitmap_size total_pages free_pages full_state]; [|done|done|..].
  - rewrite length_replicate. lia.
  - intros i. destruct (decide (Z.to_nat i < Z.to_nat 16384)%nat).
    + unfold aget. rewrite lookup_total_replicate_2 by done. done.
    + unfold aget. rewrite list_lookup_total_alt, lookup_ge_None_2; [done|].
      rewrite length_replicate. lia.
  - symmetry. apply count_none. intros p Hp%elem_of_seqZ. rewrite full_state_used; [done|exact Hp].
Qed.

(** Which pages are free after initialisation: exactly those of the ranges
    [region_pages] computes for the usable regions (less the bitmap's own
    space); and the allocator's invariant holds when the ranges do not overlap. *)
Lemma pmm_init_result mm ptr mm' s :
  place_bitmap U hhdm_offset 131072 mm = (Some ptr, mm') → pmm_init U hhdm_offset mm = Some s →
  (∀ q, 0 <= q < 1048576 →
     used s q = false ↔ ∃ e, e ∈ mm' ∧ q ∈ region_pages U 1048576 e) ∧
  (NoDup (concat (region_pages U 1048576 <$> mm')) → pmm_inv s).
Proof.
  intros Hplace Hinit. unfold pmm_init in Hinit.
  change (MAX_MEMORY_GB * 1024 * 1024 * 1024 / PAGE_SIZE) with 1048576 in Hinit.
  change ((1048576 + BITS_PER_ENTRY - 1) / BITS_PER_ENTRY) with 16384 in Hinit.
  change (16384 * 8) with 131072 in Hinit. rewrite Hplace in Hinit.
  change (release_regions U (full_state ptr) mm' = Some s) in Hinit.
  rewrite release_regions_range in Hinit. split.
  - apply release_range_used in Hinit as [_ Hused].
    + intros q Hq. rewrite Hused by lia. rewrite full_state_used by done. simpl.
      rewrite negb_false_iff, bool_decide_eq_true. rewrite elem_of_concat_fmap. done.
    + intros p Hp%regions_range. cbn [bitmap full_state]. rewrite length_replicate.
      cbn [total_pages full_state] in Hp. ulia.
  - intros Hnd. eapply release_range_inv; [apply full_state_inv|exact Hinit|exact Hnd|].
    intros p Hp%regions_range. split; [done|]. by apply full_state_used.
Qed.
End init_spec.

(** ** The interface promised to the rest of the kernel *)

Lemma page_addr_div q : page_addr q → q = (q / PAGE_SIZE) * PAGE_SIZE ∧ 0 <= q / PAGE_SIZE.
Proof. unfold page_addr, PAGE_SIZE. intros [??]. ulia. Qed.

#[export] Program Instance pmm_page_alloc : PageAlloc pmm := {|
  alloc_page := pmm_alloc_page;
  free_page := pmm_free_page;
  pa_ok := pmm_inv;
  pa_free s q := used s (q / PAGE_SIZE) = false;
|}.
Next Obligation.
  intros s Hinv. pose proof (alloc_page_result s Hinv) as Hr.
  destruct (pmm_alloc_page s) as [a s']. destruct Hr as [Hinv' [(-> & -> & _)|Hr]]; [by eauto|].
  destruct Hr as (p & -> & Hp & Hu & _ & (Ht & Ho & _) & _). split; [done|]. right.
  assert (p * PAGE_SIZE / PAGE_SIZE = p) as Hdiv by (apply Z.div_mul; done).
  pose proof (inv_total s Hinv). rewrite Hdiv. split; [|split; [done|split; [by rewrite Ht|]]].
  - unfold page_addr, PAGE_SIZE in *. ulia.
  - intros q [Hq ?]%page_addr_div Hne. rewrite Ho; [done..|]. intros He. rewrite Hq, He in Hne. done.
Qed.
Next Obligation.
  intros s a Hinv Ha. destruct (page_addr_div a Ha) as [Ha' Ha0].
  destruct (free_page_result s a Hinv) as [Hinv' Hr]; [unfold page_addr in Ha; lia|].
  split; [done|]. intros q [Hq ?]%page_addr_div Hne.
  destruct Hr as [(_ & _ & (_ & Ho & _) & _)|[_ ->]]; [|done].
  rewrite Ho; [done..|]. intros He. rewrite Hq, He, <- Ha' in Hne. done.
Qed.

(** ** Properties *)

(** C1: [pmm_alloc_page] hands out the lowest free page from page 64 on, marks
    exactly that page as used and decrements the free-page counter, keeping the
    allocator's invariant; it returns NULL, and changes nothing, only when no
    page from 64 on is free. *)
Theorem pmm_alloc_page_correct s :
  pmm_inv s →
  let '(a, s') := pmm_alloc_page s in
  pmm_inv s' ∧
  ((a = 0 ∧ s' = s ∧ ∀ q, 64 <= q < total_pages s → used s q = true) ∨
   (∃ p, a = p * PAGE_SIZE ∧ 64 <= p < total_pages s ∧ used s p = false ∧
         (∀ q, 64 <= q < p → used s q = true) ∧
         bit_change s s' p true ∧ free_pages s' = free_pages s - 1)).
Proof. exact (alloc_page_result s). Qed.

(** The allocator together with the set of page addresses its clients hold. *)
Inductive pmm_step : pmm * gset Z → pmm * gset Z → Prop :=
  | step_alloc s s' a own :
      pmm_alloc_page s = (a, s') → a ≠ 0 → pmm_step (s, own) (s', {[a]} ∪ own)
  | step_alloc_fail s s' own :
      pmm_alloc_page s = (0, s') → pmm_step (s, own) (s', own)
  | step_free s a own :
      a ∈ own → pmm_step (s, own) (pmm_free_page a s, own ∖ {[a]}).

Definition owned_inv (total : Z) (c : pmm * gset Z) : Prop :=
  pmm_inv c.1 ∧ free_pages c.1 + Z.of_nat (size c.2) = total ∧
  ∀ a, a ∈ c.2 → page_addr a ∧ used c.1 (a / PAGE_SIZE) = true ∧ a / PAGE_SIZE < total_pages c.1.

Lemma owned_step t c c' : owned_inv t c → pmm_step c c' → owned_inv t c'.
Proof.
  intros (Hinv & Hcons & Hown) Hstep. destruct Hstep as [s s' a own He Hne|s s' own He|s a own Ha];
    simpl in *.
  - pose proof (alloc_page_result s Hinv) as Hr. rewrite He in Hr.
    destruct Hr as [Hinv' [(-> & _)|(p & -> & Hp & Hu & _ & (Ht & Ho & Htot & _) & Hf)]]; [done|].
    assert (p * PAGE_SIZE / PAGE_SIZE = p) as Hdiv by (apply Z.div_mul; done).
    pose proof (inv_total s Hinv).
    assert (p * PAGE_SIZE ∉ own) as Hfresh.
    { intros Hin. destruct (Hown _ Hin) as (_ & Hu' & _). rewrite Hdiv in Hu'. congruence. }
    split; [done|]. simpl. split.
    { rewrite size_union, size_singleton by set_solver. lia. }
    intros a [->%elem_of_singleton|Ha]%elem_of_union.
    + rewrite Hdiv, Htot. split; [|by split; [|lia]]. unfold page_addr, PAGE_SIZE. ulia.
    + destruct (Hown a Ha) as (Hpa & Hua & Hla). rewrite Htot. split; [done|split; [|done]].
      destruct (page_addr_div a Hpa). rewrite Ho; [done..|].
      intros He'. apply Hfresh. rewrite <- He'. by replace (a / PAGE_SIZE * PAGE_SIZE) with a.
  - pose proof (alloc_page_result s Hinv) as Hr. rewrite He in Hr.
    destruct Hr as [_ [(_ & -> & _)|(p & Hp0 & Hp & _)]]; [done|unfold PAGE_SIZE in *; lia].
  - destruct (Hown a Ha) as (Hpa & Hua & Hla). destruct (page_addr_div a Hpa) as [Heq ?].
    destruct (free_page_result s a Hinv) as [Hinv' Hr]; [unfold page_addr in Hpa; lia|].
    destruct Hr as [(_ & _ & (_ & Ho & Htot & _) & Hf)|[[?|?] _]]; [|lia|congruence].
    split; [done|]. simpl. rewrite Htot, Hf. split.
    { rewrite size_difference, size_singleton by set_solver.
      assert (size own ≠ 0%nat) by (intros ?%size_empty_inv; set_solver). lia. }
    intros q [Hq Hqa]%elem_of_difference. destruct (Hown q Hq) as (Hpq & Huq & Hlq).
    destruct (page_addr_div q Hpq) as [Heq' ?]. split; [done|split; [|done]]. rewrite Ho; [done..|].
    intros He'. apply Hqa, elem_of_singleton. rewrite Heq', He'. done.
Qed.

Lemma owned_steps t c c' : owned_inv t c → rtc pmm_step c c' → owned_inv t c'.
Proof. intros Hc Hsteps. induction Hsteps; [done|]. eauto using owned_step. Qed.

(** C2: however allocations and releases are interleaved, a page a client
    still holds is never handed out again, and the free-page counter plus the
    number of held pages stays what the counter was initially. *)
Theorem pmm_no_double_allocation s0 s own a s' :
  pmm_inv s0 → rtc pmm_step (s0, ∅) (s, own) → pmm_alloc_page s = (a, s') → a ≠ 0 →
  a ∉ own ∧ free_pages s + Z.of_nat (size own) = free_pages s0.
Proof.
  intros Hinv Hsteps Halloc Ha.
  assert (owned_inv (free_pages s0) (s0, ∅)) as Hinit.
  { split; [done|]. split; [by apply Z.add_0_r|set_solver]. }
  destruct (owned_steps _ _ _ Hinit Hsteps) as (Hs & Hcons & Hown).
  split; [|done]. intros Hin. destruct (Hown a Hin) as (_ & Hu & _).
  pose proof (alloc_page_result s Hs) as Hr. rewrite Halloc in Hr.
  destruct Hr as [_ [[? _]|(p & -> & _ & Hu' & _)]]; [done|].
  simpl in Hu. rewrite Z.div_mul in Hu by done. congruence.
Qed.


(** A region that is at most as long as its base address. *)
Definition high_region (e : memmap_entry) : Prop :=
  0 <= me_length e <= me_base e ∧ me_base e + me_length e < 18446744073709400000.

Lemma place_bitmap_high U h mm p mm' :
  place_bitmap U h 131072 mm = (p, mm') → Forall high_region mm → Forall high_region mm'.
Proof.
  revert p mm'. induction mm as [|e mm IH]; intros p mm' Hpl Hmm; simpl in Hpl; [by simplify_eq|].
  apply Forall_cons in Hmm as [He Hmm]. destruct (_ || _)%bool eqn:Hc.
  - destruct (place_bitmap U h 131072 mm) as [p' rest']. simplify_eq. constructor; [done|].
    by eapply IH.
  - simplify_eq. zbool. constructor; [|done]. destruct He as [? ?].
    unfold high_region; simpl. rewrite u64_small; unfold is_u64; lia.
Qed.

Lemma high_region_empty U t e : high_region e → region_pages U t e = [].
Proof.
  intros [??]. unfold region_pages. destruct (negb _); [done|].
  rewrite u64_small by (unfold is_u64, PAGE_SIZE in *; lia).
  destruct (t <=? _); [done|]. apply seqZ_nil.
  assert (me_length e / PAGE_SIZE <= (me_base e + PAGE_SIZE - 1) / PAGE_SIZE).
  { apply Z.div_le_mono; unfold PAGE_SIZE; lia. }
  destruct (t <? _) eqn:?; zbool; lia.
Qed.

(** The second loop of [pmm_init] takes the last page of a region from the
    region's length alone ([entry->length / PAGE_SIZE]), not from its end
    address.  When every region is at most as long as its base address, as for
    the gigabyte of memory that starts at 1 GiB, the allocator ends up with no
    free page at all. *)
Theorem pmm_init_high_memory_lost U hhdm_offset mm s :
  Forall high_region mm → pmm_init U hhdm_offset mm = Some s →
  free_pages s = 0 ∧ fst (pmm_alloc_page s) = 0.
Proof.
  intros Hmm Hinit. assert (free_pages s = 0) as Hf; [|by unfold pmm_alloc_page; rewrite Hf].
  unfold pmm_init in Hinit.
  change ((MAX_MEMORY_GB * 1024 * 1024 * 1024 / PAGE_SIZE + BITS_PER_ENTRY - 1) / BITS_PER_ENTRY * 8)
    with 131072 in Hinit.
  destruct (place_bitmap U hhdm_offset 131072 mm) as [p mm'] eqn:Hpl.
  apply place_bitmap_high in Hpl; [|done].
  assert (∀ s0, release_regions U s0 mm' = Some s0) as Hrel.
  { clear -Hpl. induction Hpl as [|e mm' He _ IH]; intros s0; simpl; [done|].
    rewrite high_region_empty by done. apply IH. }
  rewrite Hrel in Hinit. by destruct p; simplify_eq.
Qed.

(** ** Witnesses *)

(** A 128-page machine whose first 70 pages are in use. *)
Definition demo_pmm : pmm := mk_pmm 4096 [ENTRY_FULL; 63] 2 128 58.

Lemma demo_pmm_inv : pmm_inv demo_pmm.
Proof.
  split; [reflexivity|reflexivity|vm_compute; split; congruence| |reflexivity].
  intros i. unfold aget. destruct (Z.to_nat i) as [|[|n]]; vm_compute; split; congruence.
Qed.

Lemma pmm_alloc_page_correct_witness :
  let '(a, s') := pmm_alloc_page demo_pmm in
  a = 70 * PAGE_SIZE ∧ free_pages s' = 57 ∧ pmm_inv s'.
Proof.
  pose proof (pmm_alloc_page_correct demo_pmm demo_pmm_inv) as H.
  split; [reflexivity|split; [reflexivity|exact (proj1 H)]].
Defined.

Lemma pmm_no_double_allocation_witness : 71 * PAGE_SIZE ∉ ({[70 * PAGE_SIZE]} : gset Z).
Proof.
  set (s1 := snd (pmm_alloc_page demo_pmm)).
  refine (proj1 (pmm_no_double_allocation demo_pmm s1 {[70 * PAGE_SIZE]}
            (71 * PAGE_SIZE) (snd (pmm_alloc_page s1)) demo_pmm_inv _ eq_refl _)); [|done].
  apply rtc_once. replace ({[70 * PAGE_SIZE]} : gset Z) with ({[70 * PAGE_SIZE]} ∪ ∅ : gset Z) by set_solver.
  by apply step_alloc.
Defined.

(** One usable region (tag 0) from 512 KiB to 1.5 MiB: the bitmap takes 128 KiB
    of it and pages 160 to 223 become free. *)
Definition demo_map : list memmap_entry := [mk_entry 524288 1048576 0].
Definition demo_map' : list memmap_entry := [mk_entry 655360 917504 0].


(** A gigabyte of usable memory at 1 GiB. *)
Lemma pmm_init_high_memory_lost_witness :
  ∃ s, pmm_init 0 4096 [mk_entry 1073741824 1073741824 0] = Some s ∧ free_pages s = 0.
Proof.
  destruct (pmm_init 0 4096 [mk_entry 1073741824 1073741824 0]) as [s|] eqn:Hs;
    [|vm_compute in Hs; discriminate].
  exists s. split; [done|]. refine (proj1 (pmm_init_high_memory_lost 0 4096 _ s _ Hs)).
  constructor; [|constructor]. vm_compute. intuition congruence.
Defined.
