(* ===== verification/Vmm.v ===== *)
(** * Page tables ([kernel/src/mm/vmm.c])

    A page table is an array of 512 64-bit entries in a page of physical memory
    that the kernel reaches through the higher-half direct map: [entries s t i]
    is entry [i] of the table whose virtual address is [t].  The physical page
    allocator is used through its interface [PageAlloc].  Every function of the
    file is the definition of the same name; the three "get or create the
    table" blocks of [vmm_map_page] are [next_table], the corresponding blocks
    of the read-only walks are [get_table].

    The abstract view is the function [pte] from page addresses to present
    page-table entries; mapping and unmapping are shown to implement insertion
    and deletion on it. *)
From S2P Require Import Prelude Interfaces Pmm.

Definition PTE_PRESENT : Z := 1.
Definition PTE_WRITABLE : Z := 2.
Definition PTE_USER : Z := 4.
Definition PTE_HUGE : Z := 128.
Definition PTE_NX : Z := 9223372036854775808.

(** [~0xFFF] as the C code computes it: the [int] is sign-extended to 64 bits. *)
Definition ADDR_MASK : Z := 18446744073709547520.

Record vmm (A : Type) := mk_vmm {
  entries : Z → Z → Z;
  current_pml4 : Z;
  hhdm_offset : Z;
  vm_cr3 : Z;                (* the control register *)
  vm_invlpg : list Z;        (* addresses flushed from the TLB, latest first *)
  vm_pages : A;              (* the physical page allocator *)
}.
Arguments mk_vmm {_}.
Arguments entries {_}.
Arguments current_pml4 {_}.
Arguments hhdm_offset {_}.
Arguments vm_cr3 {_}.
Arguments vm_invlpg {_}.
Arguments vm_pages {_}.

Section vmm.
Context {A : Type} `{!PageAlloc A}.
Implicit Types s : vmm A.

Definition set_entries s e : vmm A :=
  mk_vmm e (current_pml4 s) (hhdm_offset s) (vm_cr3 s) (vm_invlpg s) (vm_pages s).
Definition set_pages s a : vmm A :=
  mk_vmm (entries s) (current_pml4 s) (hhdm_offset s) (vm_cr3 s) (vm_invlpg s) a.
Definition set_pml4 s p : vmm A :=
  mk_vmm (entries s) p (hhdm_offset s) (vm_cr3 s) (vm_invlpg s) (vm_pages s).
Definition set_hhdm s h : vmm A :=
  mk_vmm (entries s) (current_pml4 s) h (vm_cr3 s) (vm_invlpg s) (vm_pages s).
Definition set_cr3 s c : vmm A :=
  mk_vmm (entries s) (current_pml4 s) (hhdm_offset s) c (vm_invlpg s) (vm_pages s).
Definition invlpg (virt : Z) s : vmm A :=
  mk_vmm (entries s) (current_pml4 s) (hhdm_offset s) (vm_cr3 s) (virt :: vm_invlpg s) (vm_pages s).

(** A store to one entry, and the page-sized [memset] and [memcpy]. *)
Definition set_entry (t i v : Z) s : vmm A :=
  set_entries s (λ t' i', if (t' =? t) && (i' =? i) then v else entries s t' i').
Definition clear_table (t : Z) s : vmm A :=
  set_entries s (λ t' i', if t' =? t then 0 else entries s t' i').
Definition copy_table (dest src : Z) s : vmm A :=
  set_entries s (λ t' i', if t' =? dest then entries s src i' else entries s t' i').

Definition phys_to_virt s (phys : Z) : Z := if phys =? 0 then 0 else u64 (phys + hhdm_offset s).
Definition virt_to_phys s (virt : Z) : Z := if virt =? 0 then 0 else u64 (virt - hhdm_offset s).

Definition table_index (shift vaddr : Z) : Z := Z.land (Z.shiftr vaddr shift) 511.

Definition get_page_indices (vaddr : Z) : Z * Z * Z * Z :=
  (table_index 39 vaddr, table_index 30 vaddr, table_index 21 vaddr, table_index 12 vaddr).

Definition present (e : Z) : bool := negb (Z.land e PTE_PRESENT =? 0).

Definition create_page_table s : Z * vmm A :=
  let '(phys, a) := alloc_page (vm_pages s) in
  let s := set_pages s a in
  if phys =? 0 then (0, s)
  else let table := phys_to_virt s phys in (table, clear_table table s).

(** Follow entry [i] of table [t], creating the next table when it is absent;
    [None] is the early [return false]. *)
Definition next_table (t i flags : Z) s : option Z * vmm A :=
  if present (entries s t i) then (Some (phys_to_virt s (Z.land (entries s t i) ADDR_MASK)), s)
  else
    let '(t', s) := create_page_table s in
    if t' =? 0 then (None, s)
    else (Some t', set_entry t i (Z.lor (Z.lor (virt_to_phys s t') flags) PTE_PRESENT) s).

Definition vmm_map_page (virt phys flags : Z) s : bool * vmm A :=
  let '(pml4_index, pdp_index, pd_index, pt_index) := get_page_indices virt in
  match next_table (current_pml4 s) pml4_index flags s with
  | (None, s) => (false, s)
  | (Some pdp, s) =>
      match next_table pdp pdp_index flags s with
      | (None, s) => (false, s)
      | (Some pd, s) =>
          match next_table pd pd_index flags s with
          | (None, s) => (false, s)
          | (Some pt, s) =>
              let s := set_entry pt pt_index (Z.lor (Z.lor phys flags) PTE_PRESENT) s in
              (true, invlpg virt s)
          end
      end
  end.

Definition vmm_switch_pagemap (pml4_phys : Z) s : vmm A := set_cr3 s pml4_phys.
Definition vmm_get_cr3 s : Z := vm_cr3 s.

(** Follow entry [i] of table [t] when it is present. *)
Definition get_table s (t i : Z) : option Z :=
  if present (entries s t i) then Some (phys_to_virt s (Z.land (entries s t i) ADDR_MASK)) else None.

Definition vmm_unmap_page (virt : Z) s : bool * vmm A :=
  let '(pml4_index, pdp_index, pd_index, pt_index) := get_page_indices virt in
  match (pdp ← get_table s (current_pml4 s) pml4_index;
         pd ← get_table s pdp pdp_index;
         get_table s pd pd_index) with
  | None => (false, s)
  | Some pt =>
      if present (entries s pt pt_index) then (true, invlpg virt (set_entry pt pt_index 0 s))
      else (false, s)
  end.

Definition vmm_get_phys_addr s (virt : Z) : Z :=
  let '(pml4_index, pdp_index, pd_index, pt_index) := get_page_indices virt in
  match (pdp ← get_table s (current_pml4 s) pml4_index;
         pd ← get_table s pdp pdp_index;
         get_table s pd pd_index) with
  | None => 0
  | Some pt =>
      if present (entries s pt pt_index)
      then Z.lor (Z.land (entries s pt pt_index) ADDR_MASK) (Z.land virt 4095)
      else 0
  end.

(** ** Initialisation *)

(** Calls of [vmm_map_page] whose result is ignored. *)
Definition map_rw (virt phys : Z) s : vmm A :=
  snd (vmm_map_page virt phys (Z.lor PTE_PRESENT PTE_WRITABLE) s).

(** The three nested loops that map the page tables themselves. *)
Definition map_pt_pages (pd : Z) s : vmm A :=
  for_each (seqZ 0 512) (λ i s,
    if present (entries s pd i) then
      let pt_phys := Z.land (entries s pd i) ADDR_MASK in
      map_rw (phys_to_virt s pt_phys) pt_phys s
    else s) s.

Definition map_pd_pages (pdpt : Z) s : vmm A :=
  for_each (seqZ 0 512) (λ i s,
    if present (entries s pdpt i) then
      let pd_phys := Z.land (entries s pdpt i) ADDR_MASK in
      let pd := phys_to_virt s pd_phys in
      map_pt_pages pd (map_rw pd pd_phys s)
    else s) s.

Definition map_table_pages (new_pml4 : Z) s : vmm A :=
  for_each (seqZ 0 512) (λ i s,
    if present (entries s new_pml4 i) then
      let pdpt_phys := Z.land (entries s new_pml4 i) ADDR_MASK in
      let pdpt := phys_to_virt s pdpt_phys in
      map_pd_pages pdpt (map_rw pdpt pdpt_phys s)
    else s) s.

Definition IDENTITY_MAP_SIZE : Z := 1048576.
Definition KERNEL_MAP_SIZE : Z := 16777216.

(** [hhdm] is the HHDM response: [None] when the pointer is NULL.  The kernel
    size is [PAGE_ALIGN(virtual_base + 0x1000000 - virtual_base)]. *)
Definition vmm_init (hhdm : option Z) (kernel_virt kernel_phys : Z) s : vmm A :=
  match hhdm with
  | None => s
  | Some offset =>
      if offset =? 0 then s else
      let s := set_hhdm s offset in
      let s := set_pml4 s (phys_to_virt s (Z.land (vm_cr3 s) ADDR_MASK)) in
      let '(new_pml4, s) := create_page_table s in
      if new_pml4 =? 0 then s else
      let s := copy_table new_pml4 (current_pml4 s) s in
      let s := for_each (seqZ 0 (IDENTITY_MAP_SIZE / 4096))
                 (λ k s, map_rw (k * 4096) (k * 4096) s) s in
      let s := for_each (seqZ 0 (KERNEL_MAP_SIZE / 4096))
                 (λ k s, map_rw (u64 (kernel_virt + k * 4096)) (u64 (kernel_phys + k * 4096)) s) s in
      let s := map_rw new_pml4 (virt_to_phys s new_pml4) s in
      let s := map_table_pages new_pml4 s in
      let s := vmm_switch_pagemap (virt_to_phys s new_pml4) s in
      set_pml4 s new_pml4
  end.

(** ** Entry words and addresses *)

Lemma present_testbit e : present e = Z.testbit e 0.
Proof.
  unfold present, PTE_PRESENT. change 1 with (Z.shiftl 1 0) at 1.
  rewrite land_bit_zero by lia. apply negb_involutive.
Qed.

Lemma present_entry e : present (Z.lor e PTE_PRESENT) = true.
Proof. rewrite present_testbit, Z.lor_spec. apply orb_true_r. Qed.

Lemma addr_mask_bits n : 0 <= n → Z.testbit ADDR_MASK n = ((12 <=? n) && (n <? 64))%bool.
Proof.
  intros. change ADDR_MASK with (Z.shiftl (Z.ones 52) 12). rewrite Z.shiftl_spec by lia.
  destruct (12 <=? n) eqn:?; zbool.
  - rewrite Z.testbit_ones_nonneg by lia. apply Bool.eq_iff_eq_true.
    rewrite andb_true_l, !Z.ltb_lt. lia.
  - by rewrite Z.testbit_neg_r by lia.
Qed.

Lemma aligned_low_bits q n : q mod 4096 = 0 → 0 <= n < 12 → Z.testbit q n = false.
Proof.
  intros Hq Hn. rewrite (Z.div_mod q 4096) by lia. rewrite Hq, Z.add_0_r.
  change 4096 with (2 ^ 12). rewrite Z.mul_comm, <- Z.shiftl_mul_pow2 by lia.
  rewrite Z.shiftl_spec by lia. apply Z.testbit_neg_r. lia.
Qed.

(** The address part of an entry built from an aligned address and flags. *)
Lemma entry_addr q f :
  q mod 4096 = 0 → is_u64 q → 0 <= f < 4096 →
  Z.land (Z.lor (Z.lor q f) PTE_PRESENT) ADDR_MASK = q.
Proof.
  intros Hq Hr Hf. apply Z.bits_inj'; intros n Hn.
  rewrite Z.land_spec, !Z.lor_spec, addr_mask_bits by done.
  destruct (decide (n < 12)).
  - rewrite aligned_low_bits by lia. destruct (12 <=? n) eqn:?; zbool; [lia|]. apply andb_false_r.
  - rewrite (bits_above f 12) by lia. rewrite (bits_above PTE_PRESENT 1) by (unfold PTE_PRESENT; lia).
    destruct (12 <=? n) eqn:?; zbool; [|lia]. destruct (n <? 64) eqn:?; zbool.
    + by rewrite !orb_false_r, andb_true_r.
    + rewrite (bits_above q 64) by (try exact Hr; lia). by rewrite andb_false_r.
Qed.

Lemma phys_to_virt_nz s q :
  0 < q → phys_to_virt s q = u64 (q + hhdm_offset s).
Proof. intros. unfold phys_to_virt. destruct (q =? 0) eqn:?; zbool; [lia|done]. Qed.

Lemma p2v_small s q :
  0 < hhdm_offset s → hhdm_offset s + 70368744177664 <= 18446744073709551616 →
  0 < q < 70368744177664 → phys_to_virt s q = q + hhdm_offset s.
Proof. intros. rewrite phys_to_virt_nz by lia. apply u64_small. unfold is_u64. lia. Qed.

Lemma v2p_p2v s q :
  0 < hhdm_offset s → hhdm_offset s + 70368744177664 <= 18446744073709551616 →
  0 < q < 70368744177664 → virt_to_phys s (phys_to_virt s q) = q.
Proof.
  intros Hh1 Hh2 Hq. rewrite p2v_small by done. unfold virt_to_phys.
  destruct (_ =? 0) eqn:?; zbool; [lia|]. rewrite Z.add_simpl_r. apply u64_small. unfold is_u64. lia.
Qed.

(** ** The table tree

    A path lists the indices from the PML4 down, the last one first. *)
Fixpoint table_at s (rp : list Z) : option Z :=
  match rp with
  | [] => Some (current_pml4 s)
  | i :: rp => t ← table_at s rp; get_table s t i
  end.

Definition valid_path (rp : list Z) : Prop :=
  Forall (λ i, 0 <= i < 512) rp ∧ (length rp <= 3)%nat.

(** The path of the page table that maps an address, and the present entry. *)
Definition pt_path (va : Z) : list Z := [table_index 21 va; table_index 30 va; table_index 39 va].
Definition pte s (va : Z) : option Z :=
  pt ← table_at s (pt_path va);
  let e := entries s pt (table_index 12 va) in if present e then Some e else None.

(** A physical page outside the allocator's free pool, reachable through the
    direct map. *)
Definition in_use s (q : Z) : Prop :=
  0 < q < 70368744177664 ∧ q mod 4096 = 0 ∧ ¬ (page_addr q ∧ pa_free (vm_pages s) q).

Record vmm_wf s : Prop := {
  wf_pages : pa_ok (vm_pages s);
  wf_hhdm : 0 < hhdm_offset s;
  wf_hhdm_top : hhdm_offset s + 70368744177664 <= 18446744073709551616;
  wf_table rp t : valid_path rp → table_at s rp = Some t →
    ∃ q, t = phys_to_virt s q ∧ in_use s q;
  wf_tree rp rp' t : valid_path rp → valid_path rp' →
    table_at s rp = Some t → table_at s rp' = Some t → rp = rp';
}.

(** A page in use that is not one of the tables. *)
Definition held s (q : Z) : Prop :=
  in_use s q ∧ ∀ rp, valid_path rp → table_at s rp ≠ Some (phys_to_virt s q).

(** What an operation leaves alone. *)
Record frame s s' : Prop := {
  fr_hhdm : hhdm_offset s' = hhdm_offset s;
  fr_pml4 : current_pml4 s' = current_pml4 s;
  fr_cr3 : vm_cr3 s' = vm_cr3 s;
  fr_held q : held s q → held s' q ∧ ∀ j, entries s' (phys_to_virt s q) j = entries s (phys_to_virt s q) j;
  fr_paths rp t : valid_path rp → table_at s rp = Some t → table_at s' rp = Some t;
}.

Lemma frame_refl s : frame s s.
Proof. by split. Qed.

Lemma p2v_hhdm s s' q : hhdm_offset s' = hhdm_offset s → phys_to_virt s' q = phys_to_virt s q.
Proof. intros H. unfold phys_to_virt. by rewrite H. Qed.

Lemma frame_trans s1 s2 s3 : frame s1 s2 → frame s2 s3 → frame s1 s3.
Proof.
  intros [H1 H2 H3 H4 H5] [G1 G2 G3 G4 G5]. split; [congruence..| |by auto]. intros q Hq.
  destruct (H4 q Hq) as [Hq2 He]. destruct (G4 q Hq2) as [Hq3 He3]. split; [done|].
  intros j. rewrite <- He, <- (p2v_hhdm s1 s2) by done. apply He3.
Qed.

Lemma valid_tail i rp : valid_path (i :: rp) → valid_path rp.
Proof. intros [Hf Hl]. apply Forall_cons in Hf as [_ Hf]. split; [done|simpl in Hl; lia]. Qed.

Lemma valid_head i rp : valid_path (i :: rp) → 0 <= i < 512.
Proof. intros [Hf _]. by apply Forall_cons in Hf as [? _]. Qed.

Lemma table_index_range k va : 0 <= table_index k va < 512.
Proof. unfold table_index. change 511 with (2 ^ 9 - 1).
  rewrite land_mask by lia. by apply Z.mod_pos_bound. Qed.

Lemma valid_nil : valid_path [].
Proof. split; [constructor|simpl; lia]. Qed.

Lemma pt_path_valid va : valid_path (pt_path va).
Proof. split; [|done]. repeat constructor; apply table_index_range. Qed.

(** ** How stores change the tree *)

Lemma get_table_set s t i v t' i' :
  (t', i') ≠ (t, i) → get_table (set_entry t i v s) t' i' = get_table s t' i'.
Proof.
  intros Hne. unfold get_table. simpl.
  destruct (t' =? t) eqn:?, (i' =? i) eqn:?; simpl; zbool; [congruence|done..].
Qed.

(** A path that does not go through the stored entry. *)
Lemma table_at_set s p t i v rq :
  vmm_wf s → valid_path p → table_at s p = Some t → valid_path rq →
  ¬ (i :: p) `suffix_of` rq → table_at (set_entry t i v s) rq = table_at s rq.
Proof.
  intros Hwf Hp Ht. induction rq as [|j rq IH]; intros Hrq Hsuf; [done|]. simpl.
  rewrite IH; [|by eapply valid_tail|intros Hs; apply Hsuf; by apply suffix_cons_r].
  destruct (table_at s rq) as [x|] eqn:Hx; simpl; [|done]. apply get_table_set.
  intros [= -> ->]. apply Hsuf. rewrite (wf_tree s Hwf rq p t); [done|by eapply valid_tail|done..].
Qed.

(** Clearing a page that is not a table. *)
Lemma table_at_clear s u rq :
  (∀ rp, valid_path rp → table_at s rp ≠ Some u) → valid_path rq →
  table_at (clear_table u s) rq = table_at s rq.
Proof.
  intros Hu. induction rq as [|j rq IH]; intros Hrq; [done|]. simpl.
  apply valid_tail in Hrq. rewrite IH by done.
  destruct (table_at s rq) as [x|] eqn:Hx; simpl; [|done].
  unfold get_table; simpl. destruct (x =? u) eqn:?; zbool; [|done].
  subst. by destruct (Hu rq).
Qed.

Lemma table_at_pages s a rq : table_at (set_pages s a) rq = table_at s rq.
Proof. induction rq as [|j rq IH]; [done|]. simpl. by rewrite IH. Qed.

Lemma p2v_inj s q q' :
  vmm_wf s → in_use s q' → 0 < q < 70368744177664 → phys_to_virt s q = phys_to_virt s q' → q = q'.
Proof.
  intros Hwf (Hq' & _) Hq. rewrite !p2v_small; try done; try apply Hwf. lia.
Qed.

Lemma pte_ext s s' va :
  table_at s' (pt_path va) = table_at s (pt_path va) →
  (∀ t, table_at s (pt_path va) = Some t →
        entries s' t (table_index 12 va) = entries s t (table_index 12 va)) →
  pte s' va = pte s va.
Proof.
  intros Ht He. unfold pte. rewrite Ht. destruct (table_at s (pt_path va)) as [t|]; simpl; [|done].
  by rewrite He.
Qed.

(** ** Creating a table *)

Record fresh_table s (q : Z) s' : Prop := {
  ft_wf : vmm_wf s';
  ft_hhdm : hhdm_offset s' = hhdm_offset s;
  ft_pml4 : current_pml4 s' = current_pml4 s;
  ft_cr3 : vm_cr3 s' = vm_cr3 s;
  ft_invlpg : vm_invlpg s' = vm_invlpg s;
  ft_page : page_addr q;
  ft_held : held s' q;
  ft_zero j : entries s' (phys_to_virt s' q) j = 0;
  ft_paths rq : valid_path rq → table_at s' rq = table_at s rq;
  ft_entries t j : t ≠ phys_to_virt s' q → entries s' t j = entries s t j;
  ft_others q' : in_use s q' → q' ≠ q ∧ in_use s' q';
}.

Lemma alloc_fresh s q a :
  vmm_wf s → alloc_page (vm_pages s) = (q, a) → q ≠ 0 →
  fresh_table s q (clear_table (phys_to_virt s q) (set_pages s a)).
Proof.
  intros Hwf Ha Hq0. pose proof (alloc_page_spec (vm_pages s) (wf_pages s Hwf)) as Hspec.
  rewrite Ha in Hspec. destruct Hspec as [Hok [[? _]|(Hpa & Hfree & Hnot & Hoth)]]; [done|].
  assert (Hrange : 0 < q < 70368744177664) by (destruct Hpa; lia).
  assert (Huse : ∀ q', in_use s q' → q' ≠ q ∧ in_use (set_pages s a) q').
  { intros q' (? & ? & Hn). assert (q' ≠ q) as Hne by (intros ->; by apply Hn).
    split; [done|]. split_and!; [lia..|done|]. simpl. intros [? ?]. apply Hn. split; [done|]. by apply Hoth. }
  assert (Hnt : ∀ rp, valid_path rp → table_at s rp ≠ Some (phys_to_virt s q)).
  { intros rp Hrp Ht. destruct (wf_table s Hwf rp _ Hrp Ht) as (q' & Heq & Hin).
    apply p2v_inj in Heq; [|done..]. subst q'. by destruct (Huse q Hin). }
  assert (Hpaths : ∀ rq, valid_path rq →
            table_at (clear_table (phys_to_virt s q) (set_pages s a)) rq = table_at s rq).
  { intros rq Hrq. rewrite table_at_clear; [apply table_at_pages| |done].
    intros rp Hrp. rewrite table_at_pages. by apply Hnt. }
  split; try done.
  - split; [done|apply Hwf..| |].
    + intros rp t Hrp. rewrite Hpaths by done. intros Ht.
      destruct (wf_table s Hwf rp t Hrp Ht) as (q' & -> & Hin). exists q'. split; [done|]. by apply Huse.
    + intros rp rp' t Hrp Hrp'. rewrite !Hpaths by done. by apply (wf_tree s Hwf).
  - split.
    + destruct Hpa. split_and!; [lia..|done|]. by intros [_ ?].
    + intros rp Hrp. rewrite Hpaths by done. by apply Hnt.
  - intros j. simpl. rewrite (p2v_hhdm s) by done. by rewrite Z.eqb_refl.
  - intros t j. rewrite (p2v_hhdm s) by done. simpl. intros. destruct (t =? _) eqn:?; zbool; done.
Qed.

Lemma create_page_table_spec s :
  vmm_wf s →
  match create_page_table s with
  | (t, s') =>
      (t = 0 ∧ s' = s ∧ fst (alloc_page (vm_pages s)) = 0) ∨
      (t ≠ 0 ∧ ∃ q, t = phys_to_virt s' q ∧ fresh_table s q s')
  end.
Proof.
  intros Hwf. unfold create_page_table. pose proof (alloc_page_spec (vm_pages s) (wf_pages s Hwf)) as Hspec.
  destruct (alloc_page (vm_pages s)) as [q a] eqn:Ha. destruct (q =? 0) eqn:?; zbool.
  - left. destruct Hspec as [_ [[_ ->]|((? & _) & _)]]; [|lia]. split_and!; [done|by destruct s|done].
  - right. pose proof (alloc_fresh s q a Hwf Ha ltac:(done)) as Hf. split.
    + destruct (ft_page _ _ _ Hf). pose proof (wf_hhdm s Hwf). pose proof (wf_hhdm_top s Hwf).
      rewrite (p2v_hhdm s) by done. rewrite p2v_small by lia. lia.
    + exists q. split; [done|exact Hf].
Qed.

(** ** Linking a table *)

Section link.
Context s (p : list Z) (t i u e : Z).
Context (Hwf : vmm_wf s) (Hp : valid_path (i :: p)) (Ht : table_at s p = Some t).
Context (Habs : present (entries s t i) = false).
Context (Hu : ∀ rp, valid_path rp → table_at s rp ≠ Some u) (Hz : ∀ j, entries s u j = 0).
Context (He : present e = true) (Hea : phys_to_virt s (Z.land e ADDR_MASK) = u).
Let s' := set_entry t i e s.

Lemma link_new : get_table s' t i = Some u.
Proof. unfold get_table, s'; simpl. rewrite !Z.eqb_refl; simpl. rewrite He. by f_equal. Qed.

Lemma link_ut : u ≠ t.
Proof. intros ->. destruct (Hu p); [by eapply valid_tail|done]. Qed.

Lemma link_cases rq :
  valid_path rq →
  (rq = i :: p ∧ table_at s' rq = Some u ∧ table_at s rq = None) ∨
  ((i :: p) `suffix_of` rq ∧ table_at s' rq = None ∧ table_at s rq = None) ∨
  (¬ (i :: p) `suffix_of` rq ∧ table_at s' rq = table_at s rq).
Proof.
  pose proof (valid_tail _ _ Hp) as Hp'. assert (table_at s' p = Some t) as Ht'.
  { rewrite <- Ht. apply table_at_set with p; try done.
    intros [k Hk]. apply (f_equal length) in Hk. rewrite length_app in Hk. simpl in Hk. lia. }
  induction rq as [|j rq IH]; intros Hrq.
  - right; right. split; [|done]. intros [k Hk]. by destruct k.
  - destruct (decide (j :: rq = i :: p)) as [[= -> ->]|Hne].
    + left. split; [done|]. simpl. rewrite Ht', Ht. simpl. split; [apply link_new|].
      unfold get_table. by rewrite Habs.
    + right. apply valid_tail in Hrq as Hrq'. destruct (IH Hrq') as [(-> & Hn & Ho)|[(Hs & Hn & Ho)|(Hs & Hsame)]].
      * left. split; [by apply suffix_cons_r|]. simpl in *. rewrite Hn, Ho. split; [|done]. simpl.
        unfold get_table, s'. simpl. pose proof link_ut. destruct (u =? t) eqn:?; zbool; [done|].
        simpl. by rewrite Hz.
      * left. split; [by apply suffix_cons_r|]. simpl. by rewrite Hn, Ho.
      * right. assert (¬ (i :: p) `suffix_of` j :: rq) as Hs2.
        { intros [[|k l] Hk]; simpl in Hk; [done|]. injection Hk as -> Hk. apply Hs. by exists l. }
        split; [done|]. by apply table_at_set with p.
Qed.

Lemma link_wf q : u = phys_to_virt s q → in_use s q → vmm_wf s'.
Proof.
  intros Huq Hq. split; [apply Hwf..| |].
  - intros rp x Hrp Hx. destruct (link_cases rp Hrp) as [(-> & Hn & _)|[(_ & Hn & _)|(_ & Hn)]].
    + exists q. rewrite Hn in Hx. by simplify_eq.
    + congruence.
    + rewrite Hn in Hx. apply (wf_table s Hwf rp x Hrp Hx).
  - intros rp rp' x Hrp Hrp' Hx Hx'.
    destruct (link_cases rp Hrp) as [(-> & Hn & _)|[(_ & Hn & _)|(_ & Hn)]];
      destruct (link_cases rp' Hrp') as [(-> & Hn' & _)|[(_ & Hn' & _)|(_ & Hn')]];
      rewrite Hn in Hx; rewrite Hn' in Hx'; simplify_eq; try done.
    + by destruct (Hu rp').
    + by destruct (Hu rp).
    + by apply (wf_tree s Hwf rp rp' x).
Qed.

Lemma link_held q q' :
  vmm_wf s → u = phys_to_virt s q → q' ≠ q → in_use s q → held s q' →
  held s' q' ∧ ∀ j, entries s' (phys_to_virt s q') j = entries s (phys_to_virt s q') j.
Proof.
  intros _ Huq Hne Hq [Hq' Hnt]. split; [split; [done|]|].
  - intros rp Hrp. destruct (link_cases rp Hrp) as [(-> & Hn & _)|[(_ & Hn & _)|(_ & Hn)]]; rewrite Hn.
    + intros [= Heq]. rewrite Huq, (p2v_hhdm s s') in Heq by done.
      apply p2v_inj in Heq; [congruence|done..|apply Hq].
    + done.
    + by apply Hnt.
  - intros j. unfold s'; simpl. destruct (phys_to_virt s q' =? t) eqn:?; zbool; [|done].
    destruct (Hnt p); [by eapply valid_tail|congruence].
Qed.

Lemma link_paths rq x : valid_path rq → table_at s rq = Some x → table_at s' rq = Some x.
Proof. intros Hrq Hx. destruct (link_cases rq Hrq) as [(_ & _ & Ho)|[(_ & _ & Ho)|(_ & Hn)]]; congruence. Qed.

Lemma link_pte va : (length p <= 2)%nat → pte s' va = pte s va.
Proof.
  intros Hlen. unfold pte. destruct (link_cases (pt_path va) (pt_path_valid va)) as [(Heq & Hn & Ho)|[(_ & Hn & Ho)|(Hns & Hn)]].
  - rewrite Hn, Ho. simpl. pose proof link_ut. destruct (u =? t) eqn:?; zbool; [done|]. simpl. by rewrite Hz.
  - by rewrite Hn, Ho.
  - apply pte_ext; [done|]. intros x Hx. unfold s'; simpl.
    destruct (x =? t) eqn:?; zbool; [|done]. subst x.
    assert (pt_path va = p) as Hpp
      by (apply (wf_tree s Hwf (pt_path va) p t); [apply pt_path_valid|by eapply valid_tail|done..]).
    rewrite <- Hpp in Hlen. simpl in Hlen. lia.
Qed.
End link.

(** ** The operations on a well-formed tree *)

Record keeps s s' : Prop := {
  kp_wf : vmm_wf s';
  kp_frame : frame s s';
  kp_invlpg : vm_invlpg s' = vm_invlpg s;
  kp_pte va : pte s' va = pte s va;
}.

Lemma keeps_refl s : vmm_wf s → keeps s s.
Proof. intros. split; [done|apply frame_refl|done..]. Qed.

Lemma keeps_trans s1 s2 s3 : keeps s1 s2 → keeps s2 s3 → keeps s1 s3.
Proof.
  intros [? ? H1 H2] [? ? G1 G2]. split; [done|by eapply frame_trans|congruence|].
  intros va. by rewrite G2, H2.
Qed.

Lemma next_table_spec s p t i flags :
  vmm_wf s → valid_path (i :: p) → (length p <= 2)%nat → table_at s p = Some t → 0 <= flags < 4096 →
  match next_table t i flags s with
  | (Some u, s') => keeps s s' ∧ table_at s' (i :: p) = Some u
  | (None, s') => keeps s s' ∧ fst (alloc_page (vm_pages s')) = 0
  end.
Proof.
  intros Hwf Hp Hlen Ht Hfl. unfold next_table. destruct (present (entries s t i)) eqn:Hpr.
  { split; [by apply keeps_refl|]. simpl. rewrite Ht. simpl. unfold get_table. by rewrite Hpr. }
  pose proof (create_page_table_spec s Hwf) as Hc. destruct (create_page_table s) as [u s1].
  destruct Hc as [(-> & -> & Ha)|(Hu0 & q & -> & Hf)]; [split; [by apply keeps_refl|done]|].
  destruct (phys_to_virt s1 q =? 0) eqn:?; zbool; [done|].
  pose proof (ft_held _ _ _ Hf) as [Huse Hnt]. pose proof (ft_wf _ _ _ Hf) as Hwf1.
  assert (Hq : 0 < q < 70368744177664) by apply Huse.
  rewrite v2p_p2v by (try apply (wf_hhdm s1); try apply (wf_hhdm_top s1); done).
  assert (Htail : valid_path p) by by eapply valid_tail.
  assert (t ≠ phys_to_virt s1 q) as Hne.
  { intros ->. destruct (Hnt p); [done|]. by rewrite (ft_paths _ _ _ Hf). }
  set (e := Z.lor (Z.lor q flags) PTE_PRESENT).
  assert (He : present e = true) by apply present_entry.
  assert (Hea : phys_to_virt s1 (Z.land e ADDR_MASK) = phys_to_virt s1 q).
  { unfold e. rewrite entry_addr; [done|apply Huse|unfold is_u64; lia|done]. }
  assert (Ht1 : table_at s1 p = Some t) by by rewrite (ft_paths _ _ _ Hf).
  assert (Habs : present (entries s1 t i) = false) by by rewrite (ft_entries _ _ _ Hf).
  pose proof (ft_zero _ _ _ Hf) as Hz. split; [split|].
  - by apply (link_wf s1 p t i (phys_to_virt s1 q) e) with q.
  - split; [apply Hf..| |].
    2:{ intros rp x Hrp. rewrite <- (ft_paths _ _ _ Hf) by done. by apply link_paths with p (phys_to_virt s1 q). }
    intros q' [Huse' Hnt']. destruct (ft_others _ _ _ Hf q' Huse') as [Hqq Huse1].
    assert (Hheld1 : held s1 q').
    { split; [done|]. intros rp Hrp. rewrite (ft_paths _ _ _ Hf) by done.
      rewrite (p2v_hhdm s) by apply Hf. by apply Hnt'. }
    destruct (link_held s1 p t i (phys_to_virt s1 q) e Hwf1 Hp Ht1 Habs Hnt Hz He Hea q q') as [Hh Hent]; try done.
    split; [done|]. intros j. rewrite <- (p2v_hhdm s s1) by apply Hf. rewrite Hent.
    apply (ft_entries _ _ _ Hf). intros Heq. apply p2v_inj in Heq; [|done..|apply Huse1]. congruence.
  - apply Hf.
  - intros va. rewrite (link_pte s1 p t i (phys_to_virt s1 q) e) by done.
    apply pte_ext; [apply (ft_paths _ _ _ Hf), pt_path_valid|]. intros x Hx.
    apply (ft_entries _ _ _ Hf). intros ->. destruct (Hnt (pt_path va)); [apply pt_path_valid|].
    by rewrite (ft_paths _ _ _ Hf) by apply pt_path_valid.
  - simpl table_at. rewrite (table_at_set s1 p t i e p); try done.
    + rewrite Ht1. simpl. by apply link_new.
    + intros [k Hk]. apply (f_equal length) in Hk. rewrite length_app in Hk. simpl in Hk. lia.
Qed.

Lemma table_index_div k va : 0 <= k → table_index k va = va / 2 ^ k mod 512.
Proof.
  intros. unfold table_index. change 511 with (2 ^ 9 - 1). rewrite land_mask by lia.
  by rewrite Z.shiftr_div_pow2.
Qed.

Lemma vpn_indices va :
  vpn va = table_index 12 va + 512 * (table_index 21 va + 512 * (table_index 30 va + 512 * table_index 39 va)).
Proof.
  rewrite !table_index_div by lia. unfold vpn.
  change 68719476736 with (512 * (512 * (512 * 512))).
  rewrite !Z.rem_mul_r, !Z.div_div by lia. done.
Qed.

Lemma base512 a a' b b' :
  0 <= a < 512 → 0 <= a' < 512 → a + 512 * b = a' + 512 * b' → a = a' ∧ b = b'.
Proof. lia. Qed.

Lemma vpn_eq va va' :
  vpn va = vpn va' ↔ pt_path va = pt_path va' ∧ table_index 12 va = table_index 12 va'.
Proof.
  rewrite !vpn_indices. unfold pt_path.
  pose proof (table_index_range 12 va). pose proof (table_index_range 12 va').
  pose proof (table_index_range 21 va). pose proof (table_index_range 21 va').
  pose proof (table_index_range 30 va). pose proof (table_index_range 30 va').
  pose proof (table_index_range 39 va). pose proof (table_index_range 39 va').
  split; [|intros [[= -> -> ->] ->]; done]. intros Hv.
  apply base512 in Hv as [? Hv]; [|lia..]. apply base512 in Hv as [? Hv]; [|lia..].
  apply base512 in Hv as [? Hv]; [|lia..]. split; congruence.
Qed.

(** A store to a leaf entry of the page table at [pt_path va]. *)
Definition store_leaf s (va pt v : Z) : vmm A := set_entry pt (table_index 12 va) v s.

Lemma leaf_table_at s va pt v rq :
  vmm_wf s → table_at s (pt_path va) = Some pt → valid_path rq →
  table_at (store_leaf s va pt v) rq = table_at s rq.
Proof.
  intros Hwf Hpt Hrq. apply table_at_set with (pt_path va); try done; [apply pt_path_valid|].
  intros [k Hk]. destruct Hrq as [_ Hl]. rewrite Hk, length_app in Hl. simpl in Hl. lia.
Qed.

Lemma leaf_wf s va pt v :
  vmm_wf s → table_at s (pt_path va) = Some pt → vmm_wf (store_leaf s va pt v).
Proof.
  intros Hwf Hpt. split; [apply Hwf..| |].
  - intros rp t Hrp. rewrite leaf_table_at by done. by apply (wf_table s Hwf).
  - intros rp rp' t Hrp Hrp'. rewrite !leaf_table_at by done. by apply (wf_tree s Hwf).
Qed.

Lemma leaf_frame s va pt v :
  vmm_wf s → table_at s (pt_path va) = Some pt → frame s (store_leaf s va pt v).
Proof.
  intros Hwf Hpt. split; [done..| |by intros; rewrite leaf_table_at]. intros q [Huse Hnt]. split; [split; [done|]|].
  - intros rp Hrp. rewrite leaf_table_at by done. by apply Hnt.
  - intros j. simpl. destruct (phys_to_virt s q =? pt) eqn:?; zbool; [|done].
    destruct (Hnt (pt_path va)); [apply pt_path_valid|congruence].
Qed.

Lemma leaf_pte s va pt v va' :
  vmm_wf s → table_at s (pt_path va) = Some pt →
  pte (store_leaf s va pt v) va' =
    if vpn va' =? vpn va then (if present v then Some v else None) else pte s va'.
Proof.
  intros Hwf Hpt. destruct (vpn va' =? vpn va) eqn:Hv; zbool.
  - apply vpn_eq in Hv as [Hpath Hidx]. unfold pte. rewrite Hpath, leaf_table_at, Hpt by (done || apply pt_path_valid).
    simpl. rewrite Hidx, !Z.eqb_refl. done.
  - apply pte_ext; [apply leaf_table_at; [done..|apply pt_path_valid]|]. intros t Ht. simpl.
    destruct (t =? pt) eqn:?; zbool; [|done]. destruct (table_index 12 va' =? table_index 12 va) eqn:?; zbool; [|done].
    destruct Hv. apply vpn_eq. split; [|done]. subst t.
    apply (wf_tree s Hwf _ _ pt); [apply pt_path_valid..|done|done].
Qed.

(** Flushing the TLB does not touch the tables. *)
Lemma table_at_invlpg s va rq : table_at (invlpg va s) rq = table_at s rq.
Proof. induction rq as [|j rq IH]; [done|]. simpl. by rewrite IH. Qed.

Lemma pte_invlpg s v va : pte (invlpg v s) va = pte s va.
Proof. unfold pte. by rewrite table_at_invlpg. Qed.

Lemma invlpg_wf s va : vmm_wf s → vmm_wf (invlpg va s).
Proof.
  intros Hwf. split; [apply Hwf..| |].
  - intros rp t Hrp. rewrite table_at_invlpg. by apply (wf_table s Hwf).
  - intros rp rp' t Hrp Hrp'. rewrite !table_at_invlpg. by apply (wf_tree s Hwf).
Qed.

Lemma invlpg_frame s va : frame s (invlpg va s).
Proof.
  split; [done..| |by intros; rewrite table_at_invlpg]. intros q [Huse Hnt]. split; [split; [done|]|done].
  intros rp Hrp. rewrite table_at_invlpg. by apply Hnt.
Qed.

(** The last steps of [vmm_map_page] and [vmm_unmap_page] on a mapped path. *)
Definition map_result s (virt phys flags : Z) (r : bool * vmm A) : Prop :=
  let '(ok, s') := r in
  vmm_wf s' ∧ frame s s' ∧
  if ok then
    vm_invlpg s' = virt :: vm_invlpg s ∧
    ∀ va, pte s' va =
      if vpn va =? vpn virt then Some (Z.lor (Z.lor phys flags) PTE_PRESENT) else pte s va
  else
    vm_invlpg s' = vm_invlpg s ∧ fst (alloc_page (vm_pages s')) = 0 ∧ ∀ va, pte s' va = pte s va.

Lemma map_page_result s virt phys flags :
  vmm_wf s → 0 <= flags < 4096 → map_result s virt phys flags (vmm_map_page virt phys flags s).
Proof.
  intros Hwf Hfl. unfold vmm_map_page, get_page_indices.
  assert (Hv : valid_path (pt_path virt)) by apply pt_path_valid. unfold pt_path in Hv.
  pose proof (valid_tail _ _ Hv) as Hv2. pose proof (valid_tail _ _ Hv2) as Hv1.
  pose proof (next_table_spec s [] (current_pml4 s) (table_index 39 virt) flags Hwf Hv1 ltac:(simpl; lia) eq_refl Hfl) as H1.
  destruct (next_table (current_pml4 s) (table_index 39 virt) flags s) as [[pdp|] s1];
    destruct H1 as [K1 H1]; [|destruct K1; by split_and!].
  pose proof (next_table_spec s1 _ pdp (table_index 30 virt) flags (kp_wf _ _ K1) Hv2 ltac:(simpl; lia) H1 Hfl) as H2.
  destruct (next_table pdp (table_index 30 virt) flags s1) as [[pd|] s2]; destruct H2 as [K2 H2];
    pose proof (keeps_trans _ _ _ K1 K2) as K12; [|destruct K12; by split_and!].
  pose proof (next_table_spec s2 _ pd (table_index 21 virt) flags (kp_wf _ _ K2) Hv ltac:(simpl; lia) H2 Hfl) as H3.
  destruct (next_table pd (table_index 21 virt) flags s2) as [[pt|] s3]; destruct H3 as [K3 H3];
    pose proof (keeps_trans _ _ _ K12 K3) as [Kwf Kfr Kinv Kpte]; [|by split_and!].
  fold (store_leaf s3 virt pt (Z.lor (Z.lor phys flags) PTE_PRESENT)).
  set (sl := store_leaf _ _ _ _). split_and!.
  - apply invlpg_wf. by apply (leaf_wf s3 virt pt).
  - eapply frame_trans; [exact Kfr|]. eapply frame_trans; [|apply invlpg_frame]. by apply leaf_frame.
  - simpl. by rewrite Kinv.
  - intros va. rewrite pte_invlpg. unfold sl. rewrite leaf_pte by done. rewrite present_entry, Kpte. done.
Qed.

(** ** The walks *)

Lemma walk_table_at s va :
  (pdp ← get_table s (current_pml4 s) (table_index 39 va);
   pd ← get_table s pdp (table_index 30 va);
   get_table s pd (table_index 21 va)) = table_at s (pt_path va).
Proof.
  simpl. destruct (get_table s (current_pml4 s) (table_index 39 va)) as [pdp|]; simpl; [|done].
  by destruct (get_table s pdp (table_index 30 va)).
Qed.

Lemma get_phys_addr_pte s va :
  vmm_get_phys_addr s va =
    match pte s va with Some e => Z.lor (Z.land e ADDR_MASK) (Z.land va 4095) | None => 0 end.
Proof.
  unfold vmm_get_phys_addr, get_page_indices, pte. rewrite walk_table_at.
  destruct (table_at s (pt_path va)) as [pt|]; simpl; [|done]. by destruct (present _).
Qed.

Definition unmap_result s (virt : Z) (r : bool * vmm A) : Prop :=
  let '(ok, s') := r in
  match pte s virt with
  | None => ok = false ∧ s' = s
  | Some _ =>
      ok = true ∧ vmm_wf s' ∧ frame s s' ∧ vm_invlpg s' = virt :: vm_invlpg s ∧
      vm_pages s' = vm_pages s ∧ ∀ va, pte s' va = if vpn va =? vpn virt then None else pte s va
  end.

Lemma unmap_page_result s virt : vmm_wf s → unmap_result s virt (vmm_unmap_page virt s).
Proof.
  intros Hwf. unfold vmm_unmap_page, get_page_indices. rewrite walk_table_at. unfold unmap_result.
  destruct (table_at s (pt_path virt)) as [pt|] eqn:Hpt; simpl; [|unfold pte; by rewrite Hpt].
  assert (Hpte : pte s virt = if present (entries s pt (table_index 12 virt))
                              then Some (entries s pt (table_index 12 virt)) else None)
    by (unfold pte; by rewrite Hpt).
  rewrite Hpte. destruct (present (entries s pt (table_index 12 virt))) eqn:Hpr; simpl; [|done].
  fold (store_leaf s virt pt 0). split_and!; [done|..]; try done.
  - apply invlpg_wf. by apply leaf_wf.
  - eapply frame_trans; [|apply invlpg_frame]. by apply leaf_frame.
  - intros va. rewrite pte_invlpg. by rewrite leaf_pte.
Qed.

(** ** Properties *)


(** C9: [vmm_unmap_page] implements deletion: it succeeds exactly on a mapped
    page, removes that translation and no other, flushes the page and leaves the
    allocator alone; on an unmapped page it reports failure and changes
    nothing. *)
Theorem vmm_unmap_page_refines s virt :
  vmm_wf s →
  let '(ok, s') := vmm_unmap_page virt s in
  match pte s virt with
  | None => ok = false ∧ s' = s
  | Some _ =>
      ok = true ∧ vmm_wf s' ∧ vm_invlpg s' = virt :: vm_invlpg s ∧ vm_pages s' = vm_pages s ∧
      ∀ va, pte s' va = if vpn va =? vpn virt then None else pte s va
  end.
Proof.
  intros Hwf. pose proof (unmap_page_result s virt Hwf) as H.
  destruct (vmm_unmap_page virt s) as [ok s']. unfold unmap_result in H.
  destruct (pte s virt); naive_solver.
Qed.

Lemma aligned_or q f : q mod 4096 = 0 → 0 <= f < 4096 → Z.lor q f = q + f.
Proof.
  intros Hq Hf. assert (Z.land q f = 0) as Hl.
  { apply Z.bits_inj'; intros n Hn. rewrite Z.land_spec, Z.bits_0.
    destruct (decide (n < 12)); [by rewrite aligned_low_bits by lia|].
    rewrite (bits_above f 12) by lia. apply andb_false_r. }
  rewrite Z.add_nocarry_lxor by done. by rewrite Z.lxor_lor.
Qed.

Lemma pte_phys_entry q f va :
  q mod 4096 = 0 → is_u64 q → 0 <= f < 4096 → pte_phys (Some (Z.lor (Z.lor q f) PTE_PRESENT)) va = q + va mod 4096.
Proof.
  intros Hq Hr Hf. unfold pte_phys. change 18446744073709547520 with ADDR_MASK. rewrite entry_addr by done.
  change 4095 with (2 ^ 12 - 1). rewrite land_mask by lia. apply aligned_or; [done|]. by apply Z.mod_pos_bound.
Qed.

(** A page that was mapped translates, offset included, to the physical page
    it was mapped to, until it is unmapped; then it no longer translates. *)
Theorem vmm_translate_roundtrip s s' virt phys flags va :
  vmm_wf s → 0 <= flags < 4096 → is_u64 phys → phys mod 4096 = 0 → vpn va = vpn virt → 0 <= va →
  vmm_map_page virt phys flags s = (true, s') →
  vmm_get_phys_addr s' va = phys + va mod 4096 ∧
  vmm_get_phys_addr (snd (vmm_unmap_page virt s')) va = 0.
Proof.
  intros Hwf Hfl Hphys Hal Hvpn Hva Hmap. pose proof (map_page_result s virt phys flags Hwf Hfl) as H.
  rewrite Hmap in H. destruct H as (Hwf' & _ & _ & Hpte). rewrite !get_phys_addr_pte.
  pose proof (Hpte va) as Hp. rewrite (proj2 (Z.eqb_eq _ _) Hvpn) in Hp. split.
  - rewrite Hp, entry_addr by done. change 4095 with (2 ^ 12 - 1). rewrite land_mask by lia.
    apply aligned_or; [done|]. by apply Z.mod_pos_bound.
  - pose proof (unmap_page_result s' virt Hwf') as Hu. destruct (vmm_unmap_page virt s') as [ok s''].
    unfold unmap_result in Hu. pose proof (Hpte virt) as Hpv. rewrite Z.eqb_refl in Hpv.
    rewrite Hpv in Hu. destruct Hu as (_ & _ & _ & _ & _ & Hu). simpl. rewrite Hu.
    by rewrite (proj2 (Z.eqb_eq _ _) Hvpn).
Qed.

(** ** Mappings with the no-execute bit *)

Lemma nx_entry q f :
  q mod 4096 = 0 → 0 < q < 70368744177664 → 0 <= f < 4096 →
  Z.land (Z.lor (Z.lor q (Z.lor f PTE_NX)) PTE_PRESENT) ADDR_MASK = q + PTE_NX.
Proof.
  intros Hq Hr Hf. assert (Hadd : q + PTE_NX = Z.lor q PTE_NX).
  { assert (Z.land q PTE_NX = 0) as Hl.
    { change PTE_NX with (Z.shiftl 1 63). by rewrite land_bit, (bits_above q 63) by lia. }
    rewrite Z.add_nocarry_lxor by done. by rewrite Z.lxor_lor. }
  rewrite Hadd. apply Z.bits_inj'; intros n Hn.
  rewrite Z.land_spec, !Z.lor_spec, addr_mask_bits by done.
  change PTE_NX with (2 ^ 63). rewrite Z.pow2_bits_eqb by lia.
  destruct (decide (n < 12)).
  - rewrite aligned_low_bits by lia. destruct (12 <=? n) eqn:?; zbool; [lia|].
    rewrite andb_false_r. by destruct (Z.eqb_spec 63 n); [lia|].
  - rewrite (bits_above f 12) by lia. rewrite (bits_above PTE_PRESENT 1) by (unfold PTE_PRESENT; lia).
    destruct (12 <=? n) eqn:?; zbool; [|lia]. destruct (n <? 64) eqn:?; zbool.
    + by rewrite !orb_false_r, andb_true_r.
    + rewrite (bits_above q 64) by lia. rewrite andb_false_r. by destruct (Z.eqb_spec 63 n); [lia|].
Qed.

(** Following an absent entry, on any state: a word outside the free pages
    changes only if it is the entry followed. *)
Definition no_free_page s (w : Z) : Prop :=
  ∀ q, page_addr q → pa_free (vm_pages s) q → q + hhdm_offset s ≠ w.

Record absent_step s t i flags u s' : Prop := {
  as_ok : pa_ok (vm_pages s');
  as_hhdm : hhdm_offset s' = hhdm_offset s;
  as_pml4 : current_pml4 s' = current_pml4 s;
  as_new : ∃ q, page_addr q ∧ u = q + hhdm_offset s ∧
    entries s' t i = Z.lor (Z.lor q flags) PTE_PRESENT;
  as_zero j : entries s' u j = 0;
  as_new_used : no_free_page s' u;
  as_keep w : no_free_page s w → w ≠ u ∧ no_free_page s' w ∧
    ∀ j, (w, j) ≠ (t, i) → entries s' w j = entries s w j;
}.

Lemma next_table_absent s t i flags u s' :
  pa_ok (vm_pages s) → 0 < hhdm_offset s → hhdm_offset s + 70368744177664 <= 18446744073709551616 →
  no_free_page s t → present (entries s t i) = false →
  next_table t i flags s = (Some u, s') → absent_step s t i flags u s'.
Proof.
  intros Hok Hh1 Hh2 Hsafe Habs. unfold next_table, create_page_table. rewrite Habs.
  pose proof (alloc_page_spec (vm_pages s) Hok) as Hspec.
  destruct (alloc_page (vm_pages s)) as [q a]. destruct Hspec as [Hok' Hspec].
  destruct (q =? 0) eqn:Hq; zbool; [done|]. destruct Hspec as [[? _]|(Hpa & Hfree & Hnot & Hoth)]; [done|].
  rewrite (p2v_hhdm s) by done. destruct (phys_to_virt s q =? 0); [done|]. intros [= <- <-].
  assert (Hr : 0 < q < 70368744177664) by (destruct Hpa; lia).
  assert (Hu : phys_to_virt s q = q + hhdm_offset s) by by apply p2v_small.
  assert (Hkeep : ∀ w, no_free_page s w → w ≠ phys_to_virt s q) by (intros w Hw; rewrite Hu; by apply not_eq_sym, Hw).
  pose proof (v2p_p2v (clear_table (phys_to_virt s q) (set_pages s a)) q Hh1 Hh2 Hr) as Hv.
  rewrite (p2v_hhdm s (clear_table (phys_to_virt s q) (set_pages s a))) in Hv by done.
  rewrite Hv. clear Hv.
  assert (Hsub : ∀ q', page_addr q' → pa_free a q' → pa_free (vm_pages s) q').
  { intros q' Hp' Hf'. destruct (decide (q' = q)) as [->|]; [done|]. by apply Hoth. }
  split; simpl; [done..| | | |].
  - exists q. split_and!; [done|done|]. by rewrite !Z.eqb_refl.
  - intros j. destruct (phys_to_virt s q =? t) eqn:He; zbool; [by destruct (Hkeep t)|].
    simpl. by rewrite Z.eqb_refl.
  - intros q' Hp' Hf' Heq. simpl in *. assert (q' = q) as -> by lia. done.
  - intros w Hw. split_and!; [by apply Hkeep|intros q' ??; apply Hw; auto|].
    intros j Hne. destruct (w =? phys_to_virt s q) eqn:?; zbool; [by destruct (Hkeep w)|].
    destruct (w =? t) eqn:?, (j =? i) eqn:?; zbool; simpl; congruence.
Qed.

Lemma nx_root_link s s' virt phys fl :
  vmm_wf s → present (entries s (current_pml4 s) (table_index 39 virt)) = false →
  vmm_map_page virt phys fl s = (true, s') →
  ∃ q, page_addr q ∧ current_pml4 s' = current_pml4 s ∧ hhdm_offset s' = hhdm_offset s ∧
    entries s' (current_pml4 s) (table_index 39 virt) = Z.lor (Z.lor q fl) PTE_PRESENT ∧
    ∀ w j, no_free_page s w → w ≠ current_pml4 s → entries s' w j = entries s w j.
Proof.
  intros Hwf Habs Hmap. pose proof (wf_hhdm s Hwf) as Hh1. pose proof (wf_hhdm_top s Hwf) as Hh2.
  unfold vmm_map_page, get_page_indices in Hmap.
  assert (Hroot : no_free_page s (current_pml4 s)).
  { destruct (wf_table s Hwf [] _ valid_nil eq_refl) as (q0 & -> & Hq0).
    intros q Hp Hf Heq. rewrite p2v_small in Heq by (done || apply Hq0).
    assert (q = q0) as -> by lia. by apply Hq0. }
  destruct (next_table (current_pml4 s) _ fl s) as [[u1|] s1] eqn:H1; [|done].
  apply next_table_absent in H1 as [Ok1 E1 P1 (q & Hq & _ & Hent) Z1 U1 K1]; [|done || apply Hwf..].
  destruct (next_table u1 _ fl s1) as [[u2|] s2] eqn:H2; [|done].
  apply next_table_absent in H2 as [Ok2 E2 P2 _ Z2 U2 K2]; [|rewrite ?E1; try done; by rewrite Z1..].
  destruct (next_table u2 _ fl s2) as [[u3|] s3] eqn:H3; [|done].
  apply next_table_absent in H3 as [Ok3 E3 P3 _ Z3 U3 K3]; [|rewrite ?E2, ?E1; try done; by rewrite Z2..].
  assert (Hkeep : ∀ w j, no_free_page s w →
            entries s' w j = entries s1 w j ∧ current_pml4 s' = current_pml4 s ∧ hhdm_offset s' = hhdm_offset s).
  { intros w j Hw. destruct (K1 w Hw) as (N1 & W1 & _). destruct (K2 w W1) as (N2 & W2 & F2).
    destruct (K3 w W2) as (N3 & W3 & F3). simplify_eq. simpl. rewrite P3, P2, P1, E3, E2, E1.
    split; [|done]. destruct (w =? u3) eqn:?; zbool; [done|]. simpl.
    rewrite F3 by congruence. apply F2. congruence. }
  exists q. destruct (Hkeep _ (table_index 39 virt) Hroot) as (He & ? & ?). split_and!; [done..| |].
  - by rewrite He.
  - intros w j Hw Hne. rewrite (proj1 (Hkeep w j Hw)). apply K1; [done|]. congruence.
Qed.

(** A page mapped with [PTE_NX] into a region that has no table yet is
    lost: the no-execute bit is also stored in the new top-level entry, and the
    next walk takes it for an address bit ([& ~0xFFF] keeps bit 63), so it reads
    a table 2^63 bytes away.  When nothing is mapped there the page that
    [vmm_map_page] reported as mapped does not translate. *)
Theorem vmm_nx_mapping_lost s s' virt phys f :
  vmm_wf s → 0 <= f < 4096 →
  present (entries s (current_pml4 s) (table_index 39 virt)) = false →
  (∀ q j, page_addr q → entries s (u64 (q + PTE_NX + hhdm_offset s)) j = 0) →
  vmm_map_page virt phys (Z.lor f PTE_NX) s = (true, s') →
  vmm_get_phys_addr s' virt = 0.
Proof.
  intros Hwf Hf Habs Hbogus Hmap.
  destruct (nx_root_link s s' virt phys _ Hwf Habs Hmap) as (q & Hq & Hp & Hh & He & Hkeep).
  pose proof (wf_hhdm s Hwf). pose proof (wf_hhdm_top s Hwf).
  rewrite get_phys_addr_pte. unfold pte. simpl. rewrite Hp. unfold get_table at 3. rewrite He, present_entry.
  simpl. rewrite nx_entry by (try done; destruct Hq; lia).
  rewrite (p2v_hhdm s) by done. rewrite phys_to_virt_nz by (destruct Hq; unfold PTE_NX; lia).
  set (b := u64 _). assert (Hb : ∀ j, entries s' b j = 0); [|].
  { intros j. rewrite Hkeep; [by apply Hbogus| |].
    - intros q' [? _] _. destruct Hq. unfold b, PTE_NX. ulia.
    - destruct (wf_table s Hwf [] _ valid_nil eq_refl) as (q0 & -> & Hq0 & _).
      rewrite p2v_small by done. destruct Hq. unfold b, PTE_NX. ulia. }
  unfold get_table at 2. by rewrite Hb.
Qed.

(** ** Initialisation *)

(** Writing a page that is not a table. *)
Lemma table_at_outside s e u rq :
  (∀ rp, valid_path rp → table_at s rp ≠ Some u) → (∀ t j, t ≠ u → e t j = entries s t j) →
  valid_path rq → table_at (set_entries s e) rq = table_at s rq.
Proof.
  intros Hu He. induction rq as [|j rq IH]; intros Hrq; [done|]. simpl.
  apply valid_tail in Hrq. rewrite IH by done.
  destruct (table_at s rq) as [x|] eqn:Hx; simpl; [|done].
  unfold get_table; simpl. rewrite He; [done|]. intros ->. by destruct (Hu rq).
Qed.

Lemma outside_wf s e q :
  vmm_wf s → held s q → (∀ t j, t ≠ phys_to_virt s q → e t j = entries s t j) →
  vmm_wf (set_entries s e) ∧ held (set_entries s e) q.
Proof.
  intros Hwf [Huse Hnt] He.
  assert (Hpaths : ∀ rq, valid_path rq → table_at (set_entries s e) rq = table_at s rq)
    by (intros; by apply table_at_outside with (phys_to_virt s q)).
  split; [split; [apply Hwf..| |]|].
  - intros rp t Hrp. rewrite Hpaths by done. by apply (wf_table s Hwf).
  - intros rp rp' t Hrp Hrp'. rewrite !Hpaths by done. by apply (wf_tree s Hwf).
  - split; [done|]. intros rp Hrp. rewrite Hpaths by done. by apply Hnt.
Qed.

(** What the mapping loops of [vmm_init] maintain: the new top-level table stays
    the copy [e0] that was made of the old one, and the tables the copy points to
    stay in the old tree. *)
Record init_inv (hh q root : Z) (e0 : Z → Z) s : Prop := {
  ii_wf : vmm_wf s;
  ii_hhdm : hhdm_offset s = hh;
  ii_held : held s q;
  ii_root : current_pml4 s = root;
  ii_copy j : entries s (phys_to_virt s q) j = e0 j;
  ii_tables j : 0 <= j < 512 → present (e0 j) = true →
    table_at s [j] = Some (phys_to_virt s (Z.land (e0 j) ADDR_MASK));
}.

Lemma valid_single j : 0 <= j < 512 → valid_path [j].
Proof. intros. split; [constructor; [done|constructor]|simpl; lia]. Qed.

Lemma map_rw_inv hh q r e0 virt phys s : init_inv hh q r e0 s → init_inv hh q r e0 (map_rw virt phys s).
Proof.
  intros [Hwf Hh Hheld Hr He Ht]. unfold map_rw.
  pose proof (map_page_result s virt phys (Z.lor PTE_PRESENT PTE_WRITABLE) Hwf ltac:(vm_compute; split; congruence)) as H.
  destruct (vmm_map_page _ _ _ s) as [ok s']. destruct H as (Hwf' & [Hh' Hr' _ Hfr Hpaths] & _). simpl.
  destruct (Hfr q Hheld) as [Hheld' He']. split; [done|congruence|done|congruence| |].
  - intros j. rewrite (p2v_hhdm s) by done. by rewrite He'.
  - intros j Hj Hp. rewrite (p2v_hhdm s) by done. apply Hpaths; [by apply valid_single|by apply Ht].
Qed.

Lemma map_table_pages_inv hh q r e0 t s : init_inv hh q r e0 s → init_inv hh q r e0 (map_table_pages t s).
Proof.
  intros Hs. unfold map_table_pages, map_pd_pages, map_pt_pages.
  apply (for_each_inv (init_inv hh q r e0)); [done|]. intros i s1 _ H1. destruct (present _); [|done].
  apply (for_each_inv (init_inv hh q r e0)); [by apply map_rw_inv|]. intros i2 s2 _ H2.
  destruct (present _); [|done].
  apply (for_each_inv (init_inv hh q r e0)); [by apply map_rw_inv|]. intros i3 s3 _ H3.
  destruct (present _); [|done]. by apply map_rw_inv.
Qed.

(** The state in which the boot loader's tables are the current ones. *)
Definition loader_tables s (offset : Z) : vmm A :=
  set_pml4 (set_hhdm s offset) (phys_to_virt (set_hhdm s offset) (Z.land (vm_cr3 s) ADDR_MASK)).

Lemma copied_inv s s1 q :
  vmm_wf s → fresh_table s q s1 →
  init_inv (hhdm_offset s) q (current_pml4 s) (entries s (current_pml4 s))
    (copy_table (phys_to_virt s1 q) (current_pml4 s1) s1).
Proof.
  intros Hwf Hf. pose proof (ft_hhdm _ _ _ Hf) as Hhh. destruct (ft_held _ _ _ Hf) as [Huse Hnt].
  assert (Hcur : current_pml4 s ≠ phys_to_virt s1 q).
  { intros Heq. destruct (Hnt [] valid_nil). simpl. by rewrite (ft_pml4 _ _ _ Hf), Heq. }
  set (s2 := copy_table _ _ _).
  assert (He : ∀ t j, t ≠ phys_to_virt s1 q → entries s2 t j = entries s1 t j).
  { intros t j Ht. simpl. destruct (t =? _) eqn:?; zbool; done. }
  destruct (outside_wf s1 (entries s2) q (ft_wf _ _ _ Hf) (ft_held _ _ _ Hf) He) as [Hw Hh].
  split; [exact Hw|exact Hhh|exact Hh|apply (ft_pml4 _ _ _ Hf)| |].
  - intros j. simpl. rewrite (p2v_hhdm s1) by done. rewrite Z.eqb_refl, (ft_pml4 _ _ _ Hf).
    by apply (ft_entries _ _ _ Hf).
  - intros j Hj Hp. change s2 with (set_entries s1 (entries s2)).
    rewrite (table_at_outside s1 _ (phys_to_virt s1 q)) by (done || by apply valid_single).
    rewrite (ft_paths _ _ _ Hf) by by apply valid_single. simpl. unfold get_table. rewrite Hp.
    by rewrite (p2v_hhdm s (set_entries s1 _)) by apply Hf.
Qed.

(** [vmm_init] either finds no page for the new table and keeps the loader's, or
    ends on the copy. *)
Lemma vmm_init_result s offset kernel_virt kernel_phys :
  let s0 := loader_tables s offset in
  offset ≠ 0 → vmm_wf s0 →
  (fst (alloc_page (vm_pages s)) = 0 ∧ vmm_init (Some offset) kernel_virt kernel_phys s = s0) ∨
  ∃ q sf, init_inv offset q (current_pml4 s0) (entries s (current_pml4 s0)) sf ∧
    vmm_init (Some offset) kernel_virt kernel_phys s =
      set_pml4 (set_cr3 sf (virt_to_phys sf (phys_to_virt sf q))) (phys_to_virt sf q).
Proof.
  intros s0 Hoff Hwf. unfold vmm_init. destruct (offset =? 0) eqn:?; zbool; [done|].
  change (vm_cr3 (set_hhdm s offset)) with (vm_cr3 s). fold (loader_tables s offset). fold s0.
  pose proof (create_page_table_spec s0 Hwf) as Hc. destruct (create_page_table s0) as [u s1].
  destruct Hc as [(-> & -> & Ha)|(Hu0 & q & Hu & Hf)]; [by left|right].
  destruct (u =? 0) eqn:?; zbool; [done|]. rewrite Hu.
  pose proof (copied_inv s0 s1 q Hwf Hf) as H2. change (hhdm_offset s0) with offset in H2.
  set (e0 := entries s0 (current_pml4 s0)) in H2. set (root := current_pml4 s0) in H2.
  match goal with |- context [map_table_pages _ ?s] =>
    assert (Hend : init_inv offset q root e0 (map_table_pages (phys_to_virt s1 q) s)) end.
  { apply map_table_pages_inv, map_rw_inv.
    apply (for_each_inv (init_inv offset q root e0)); [|intros; by apply map_rw_inv].
    apply (for_each_inv (init_inv offset q root e0)); [done|]. intros; by apply map_rw_inv. }
  match type of Hend with init_inv _ _ _ _ ?s => set (sf := s) in * end. clearbody sf.
  exists q, sf. split; [exact Hend|].
  assert (phys_to_virt sf q = phys_to_virt s1 q) as ->; [|done].
  apply p2v_hhdm. by rewrite (ii_hhdm _ _ _ _ _ Hend), (ft_hhdm _ _ _ Hf).
Qed.

(** Under the copy, the paths through the copied slots lead to the tables of the
    old tree, and the others nowhere. *)
Lemma switched_paths hh q r e0 sf c l j :
  init_inv hh q r e0 sf → valid_path (l ++ [j]) →
  table_at (set_pml4 (set_cr3 sf c) (phys_to_virt sf q)) (l ++ [j]) =
    if present (e0 j) then table_at sf (l ++ [j]) else None.
Proof.
  intros Hi. induction l as [|i l IH]; intros Hv.
  - pose proof (valid_head _ _ Hv) as Hj. cbn [app table_at]. unfold get_table. simpl.
    rewrite (ii_copy _ _ _ _ _ Hi). destruct (present (e0 j)) eqn:Hp; [|done].
    symmetry. exact (ii_tables _ _ _ _ _ Hi j Hj Hp).
  - cbn [app table_at] in *. rewrite IH by by eapply valid_tail.
    by destruct (present (e0 j)).
Qed.

Lemma switched_wf hh q r e0 sf c :
  init_inv hh q r e0 sf → vmm_wf (set_pml4 (set_cr3 sf c) (phys_to_virt sf q)).
Proof.
  intros Hi. pose proof (ii_wf _ _ _ _ _ Hi) as Hwf. destruct (ii_held _ _ _ _ _ Hi) as [Huse Hnt].
  set (s' := set_pml4 _ _).
  assert (Hold : ∀ l j t, valid_path (l ++ [j]) → table_at s' (l ++ [j]) = Some t → table_at sf (l ++ [j]) = Some t).
  { intros l j t Hv. unfold s'. rewrite (switched_paths hh q r e0) by done. by destruct (present (e0 j)). }
  split; [apply Hwf..| |].
  - intros rp t Hrp Ht. destruct rp as [|j l _] using rev_ind; [injection Ht as <-; by exists q|].
    apply Hold in Ht; [|done]. by apply (wf_table sf Hwf (l ++ [j])).
  - intros rp rp' t Hrp Hrp' Ht Ht'.
    destruct rp as [|j l _] using rev_ind; destruct rp' as [|j' l' _] using rev_ind; [done| | |].
    + apply Hold in Ht'; [|done]. injection Ht as <-. by destruct (Hnt (l' ++ [j'])).
    + apply Hold in Ht; [|done]. injection Ht' as <-. by destruct (Hnt (l ++ [j])).
    + apply Hold in Ht; [|done]. apply Hold in Ht'; [|done]. by apply (wf_tree sf Hwf _ _ t).
Qed.

(** From well-formed tables of the boot loader [vmm_init] ends with a well-formed
    address space. *)
Lemma vmm_init_wf s offset kernel_virt kernel_phys :
  offset ≠ 0 → vmm_wf (loader_tables s offset) → vmm_wf (vmm_init (Some offset) kernel_virt kernel_phys s).
Proof.
  intros Hoff Hwf. destruct (vmm_init_result s offset kernel_virt kernel_phys Hoff Hwf) as [[_ ->]|(q & sf & Hi & ->)]; [done|].
  by eapply switched_wf.
Qed.

(** [vmm_init] copies the boot loader's top-level table first and then maps
    the identity range, the kernel and the page tables into the *old* table, but
    switches to the copy.  An address whose top-level slot was empty at boot is
    therefore not mapped afterwards, not even one of the first megabyte that
    the function maps explicitly. *)
Theorem vmm_init_loses_new_slots s offset kernel_virt kernel_phys va :
  let s0 := loader_tables s offset in
  offset ≠ 0 → vmm_wf s0 → fst (alloc_page (vm_pages s)) ≠ 0 →
  present (entries s (current_pml4 s0) (table_index 39 va)) = false →
  vmm_get_phys_addr (vmm_init (Some offset) kernel_virt kernel_phys s) va = 0.
Proof.
  intros s0 Hoff Hwf Halloc Habs.
  destruct (vmm_init_result s offset kernel_virt kernel_phys Hoff Hwf) as [[? _]|(q & sf & Hi & ->)]; [done|].
  rewrite get_phys_addr_pte. unfold pte, pt_path. change [?a; ?b; ?c] with ([a; b] ++ [c]).
  rewrite (switched_paths _ _ _ _ _ _ _ _ Hi); [|apply pt_path_valid]. unfold s0 in Habs. by rewrite Habs.
Qed.

(** A tree that consists of an empty top-level table. *)
Lemma root_only_wf s q :
  pa_ok (vm_pages s) → 0 < hhdm_offset s → hhdm_offset s + 70368744177664 <= 18446744073709551616 →
  in_use s q → current_pml4 s = phys_to_virt s q →
  (∀ i, present (entries s (current_pml4 s) i) = false) → vmm_wf s.
Proof.
  intros Hok Hh1 Hh2 Hq Hroot Habs.
  assert (Hnone : ∀ i rp, table_at s (i :: rp) = None).
  { intros i rp. revert i. induction rp as [|j rp IH]; intros i; simpl.
    - unfold get_table. by rewrite Habs.
    - specialize (IH j). simpl in IH. by rewrite IH. }
  split; try done.
  - intros [|i rp] t _; [|by rewrite Hnone]. intros [= <-]. by exists q.
  - intros [|i rp] [|i' rp'] t _ _; rewrite ?Hnone; done.
Qed.

(** ** The interface *)

(** Exchanging the allocator state under the tables. *)
Lemma set_pages_wf s a :
  vmm_wf s → pa_ok a →
  (∀ rp q, valid_path rp → table_at s rp = Some (phys_to_virt s q) → in_use s q → in_use (set_pages s a) q) →
  vmm_wf (set_pages s a).
Proof.
  intros Hwf Hok Huse. split; [done|apply Hwf..| |].
  - intros rp t Hrp. rewrite table_at_pages. intros Ht.
    destruct (wf_table s Hwf rp t Hrp Ht) as (q & -> & Hq). exists q. split; [done|]. by eapply Huse.
  - intros rp rp' t Hrp Hrp'. rewrite !table_at_pages. by apply (wf_tree s Hwf).
Qed.

Lemma set_pages_held s a q : in_use (set_pages s a) q → held s q → held (set_pages s a) q.
Proof.
  intros Huse [_ Hnt]. split; [done|]. intros rp Hrp. rewrite table_at_pages. by apply Hnt.
Qed.

Lemma pte_pages s a va : pte (set_pages s a) va = pte s va.
Proof. unfold pte. by rewrite table_at_pages. Qed.

(** [pmm_alloc_page] and [pmm_free_page] as the clients of page tables call them. *)
Definition alloc_physical s : Z * vmm A :=
  let '(p, a) := alloc_page (vm_pages s) in (p, set_pages s a).
Definition free_physical (p : Z) s : vmm A := set_pages s (free_page p (vm_pages s)).

Lemma alloc_law s :
  vmm_wf s →
  let '(p, s') := alloc_physical s in
  vmm_wf s' ∧ (∀ va, pte s' va = pte s va) ∧
  (∀ q, page_addr q ∧ held s q → (page_addr q ∧ held s' q) ∧ q ≠ p) ∧
  (p = 0 ∨ (page_addr p ∧ (page_addr p ∧ held s' p))).
Proof.
  intros Hwf. unfold alloc_physical. pose proof (alloc_page_spec (vm_pages s) (wf_pages s Hwf)) as Hspec.
  destruct (alloc_page (vm_pages s)) as [p a] eqn:Ha.
  destruct Hspec as [Hok [[-> ->]|(Hpa & Hfree & Hnot & Hoth)]].
  - replace (set_pages s (vm_pages s)) with s by by destruct s.
    split_and!; [done|done| |by left]. intros q [[[? ?] ?] Hq]. split; [done|lia].
  - assert (Huse : ∀ q, in_use s q → q ≠ p ∧ in_use (set_pages s a) q).
    { intros q (? & ? & Hn). assert (q ≠ p) as Hne by (intros ->; by apply Hn).
      split; [done|]. split_and!; [lia..|done|]. intros [? ?]. apply Hn. split; [done|]. by apply Hoth. }
    split_and!.
    + apply set_pages_wf; [done..|]. intros rp q _ _ Hq. by apply Huse.
    + intros. apply pte_pages.
    + intros q [Hpq Hq]. destruct (Huse q) as [? ?]; [apply Hq|]. split; [|done]. split; [done|].
      by apply set_pages_held.
    + right. split_and!; [done..|]. split.
      * destruct Hpa. split_and!; [lia..|done|]. by intros [_ ?].
      * intros rp Hrp. rewrite table_at_pages. intros Ht.
        destruct (wf_table s Hwf rp _ Hrp Ht) as (q' & Heq & Hin).
        rewrite (p2v_hhdm s) in Heq by done. apply p2v_inj in Heq; [|done..|destruct Hpa; lia].
        subst q'. by destruct (Huse p Hin).
Qed.

Lemma free_law s p :
  vmm_wf s → page_addr p ∧ held s p →
  let s' := free_physical p s in
  vmm_wf s' ∧ (∀ va, pte s' va = pte s va) ∧
  (∀ q, page_addr q ∧ held s q → q ≠ p → page_addr q ∧ held s' q).
Proof.
  intros Hwf [Hp [_ Hnt]] s'. pose proof (free_page_spec (vm_pages s) p (wf_pages s Hwf) Hp) as [Hok Hoth].
  assert (Huse : ∀ q, q ≠ p → in_use s q → in_use s' q).
  { intros q Hne (? & ? & Hn). split_and!; [lia..|done|]. intros [? ?]. apply Hn. split; [done|]. by apply Hoth. }
  split_and!.
  - apply set_pages_wf; [done..|]. intros rp q Hrp Ht Hq. apply Huse; [|done]. intros ->. by destruct (Hnt rp).
  - intros. apply pte_pages.
  - intros q [Hpq Hq] Hne. split; [done|]. apply set_pages_held; [|done]. apply Huse; [done|apply Hq].
Qed.

#[export] Program Instance vmm_paging : Paging (vmm A) := {|
  pg_alloc := alloc_physical;
  pg_free := free_physical;
  pg_map := vmm_map_page;
  pg_unmap := vmm_unmap_page;
  pg_phys := vmm_get_phys_addr;
  pg_ok := vmm_wf;
  pg_pte := pte;
  pg_held := λ s p, page_addr p ∧ held s p |}.
Next Obligation. intros s Hwf. by apply alloc_law. Qed.
Next Obligation. intros s p Hwf Hp. by apply free_law. Qed.
Next Obligation.
  intros s virt phys flags Hwf Hfl. pose proof (map_page_result s virt phys flags Hwf Hfl) as H.
  destruct (vmm_map_page virt phys flags s) as [ok s']. destruct H as (Hwf' & [_ _ _ Hfr _] & Hr).
  split; [done|split].
  - intros q [Hp Hq]. split; [done|]. by apply Hfr.
  - destruct ok; [apply Hr|apply Hr].
Qed.
Next Obligation.
  intros s virt Hwf. pose proof (unmap_page_result s virt Hwf) as H.
  destruct (vmm_unmap_page virt s) as [ok s']. unfold unmap_result in H.
  destruct (pte s virt) as [e|] eqn:Hpte.
  - destruct H as (-> & Hwf' & [_ _ _ Hfr _] & _ & _ & Hr). split; [done|split; [|split; [done|done]]].
    intros q [Hp Hq]. split; [done|]. by apply Hfr.
  - destruct H as [-> ->]. split; [done|split; [done|split; [|done]]]. intros va.
    destruct (vpn va =? vpn virt) eqn:Hv; zbool; [|done]. rewrite <- Hpte.
    apply vpn_eq in Hv as [Hpath Hidx]. unfold pte. by rewrite Hpath, Hidx.
Qed.
Next Obligation. intros s va _. apply get_phys_addr_pte. Qed.
End vmm.

(** ** Witnesses: an empty top-level table in page 1, over a concrete allocator *)

Definition demo_vmm : vmm pmm :=
  mk_vmm (λ _ _, 0) (4096 + 17592186044416) 17592186044416 4096 [] demo_pmm.

Lemma demo_vmm_wf : vmm_wf demo_vmm.
Proof.
  apply root_only_wf with 4096; [apply demo_pmm_inv|done|done| |done|done].
  split_and!; [done..|]. vm_compute. intros [_ H]. discriminate H.
Qed.


Lemma vmm_unmap_page_refines_witness : fst (vmm_unmap_page 4096 demo_vmm) = false.
Proof.
  pose proof (vmm_unmap_page_refines demo_vmm 4096 demo_vmm_wf) as H.
  destruct (vmm_unmap_page 4096 demo_vmm) as [ok s']. apply H.
Defined.

Lemma vmm_translate_roundtrip_witness :
  ∃ s', vmm_map_page 1073745920 8192 3 demo_vmm = (true, s') ∧ vmm_get_phys_addr s' 1073745921 = 8193.
Proof.
  destruct (vmm_map_page 1073745920 8192 3 demo_vmm) as [ok s'] eqn:Hm.
  assert (ok = true) as -> by (apply (f_equal fst) in Hm; symmetry; exact Hm).
  exists s'. split; [done|].
  exact (proj1 (vmm_translate_roundtrip demo_vmm s' 1073745920 8192 3 1073745921 demo_vmm_wf
    ltac:(lia) ltac:(vm_compute; split; congruence) eq_refl eq_refl ltac:(lia) Hm)).
Defined.

Lemma vmm_nx_mapping_lost_witness :
  ∃ s', vmm_map_page 1073745920 8192 (Z.lor 5 PTE_NX) demo_vmm = (true, s') ∧
        vmm_get_phys_addr s' 1073745920 = 0.
Proof.
  destruct (vmm_map_page 1073745920 8192 (Z.lor 5 PTE_NX) demo_vmm) as [ok s'] eqn:Hm.
  assert (ok = true) as -> by (apply (f_equal fst) in Hm; symmetry; exact Hm).
  exists s'. split; [done|].
  exact (vmm_nx_mapping_lost demo_vmm s' 1073745920 8192 5 demo_vmm_wf ltac:(lia) eq_refl
           (λ _ _ _, eq_refl) Hm).
Defined.

Lemma vmm_init_loses_new_slots_witness :
  vmm_get_phys_addr (vmm_init (Some 17592186044416) 18446744071562067968 1048576 demo_vmm) 4096 = 0.
Proof.
  apply (vmm_init_loses_new_slots demo_vmm 17592186044416 18446744071562067968 1048576 4096).
  - done.
  - exact demo_vmm_wf.
  - vm_compute. discriminate.
  - reflexivity.
Defined.
