(* ===== verification/Elf.v ===== *)
(** * The ELF loader ([kernel/src/core/elf.c])

    The file is the list of the bytes at [elf_data], [data_size] the size its
    caller states; an access outside the list is a fault ([None]).  The loader
    runs on the page tables and on physical memory: a store to a virtual address
    goes to the byte to which the page tables map it, and faults where there is
    no mapping.  The protection bits of a mapping do not stop a store here.
    What [log_elf_error] draws when loading fails is in ElfLog.v. *)
From S2P Require Import Prelude Interfaces Monad Bytes Pmm Vmm.

Definition PAGE_SIZE_4K : Z := 4096.
Definition PAGE_ALIGN_DOWN (addr : Z) : Z := Z.land addr 18446744073709547520.
Definition PAGE_ALIGN_UP (addr : Z) : Z := Z.land (u64 (addr + 4095)) 18446744073709547520.
Definition PAGE_OFFSET (addr : Z) : Z := Z.land addr 4095.

Definition ELF_MAGIC : Z := 1179403647.
Definition ELFCLASS64 : Z := 2.
Definition ET_EXEC : Z := 2.
Definition EM_X86_64 : Z := 62.
Definition PT_LOAD : Z := 1.
Definition PT_INTERP : Z := 3.
Definition PF_X : Z := 1.
Definition PF_W : Z := 2.

Inductive Elf_Load_Error :=
| ELF_LOAD_SUCCESS | ELF_ERR_INVALID_MAGIC | ELF_ERR_UNSUPPORTED_CLASS | ELF_ERR_UNSUPPORTED_MACHINE
| ELF_ERR_INVALID_FILE_TYPE | ELF_ERR_SEGMENT_OVERLAP | ELF_ERR_MEMORY_ALLOCATION | ELF_ERR_SEGMENT_MAPPING
| ELF_ERR_DATA_TRUNCATED.
#[export] Instance elf_error_eq_dec : EqDecision Elf_Load_Error.
Proof. solve_decision. Defined.

Record Elf64_Ehdr := mk_ehdr {
  e_magic : Z; e_class : Z; e_data : Z; e_version : Z; e_osabi : Z; e_abiversion : Z; e_pad : list Z;
  e_type : Z; e_machine : Z; e_version2 : Z; e_entry : Z; e_phoff : Z; e_shoff : Z; e_flags : Z;
  e_ehsize : Z; e_phentsize : Z; e_phnum : Z; e_shentsize : Z; e_shnum : Z; e_shstrndx : Z;
}.
Definition SIZEOF_EHDR : Z := 64.
Definition ehdr_layout : list nat :=
  ([4; 1; 1; 1; 1; 1] ++ replicate 7 1 ++ [2; 2; 4; 8; 8; 8; 4; 2; 2; 2; 2; 2; 2])%nat.
Definition ehdr_of (v : list Z) : Elf64_Ehdr :=
  let f i := v !!! i in
  mk_ehdr (f 0%nat) (f 1%nat) (f 2%nat) (f 3%nat) (f 4%nat) (f 5%nat) (take 7 (drop 6 v)) (f 13%nat) (f 14%nat)
    (f 15%nat) (f 16%nat) (f 17%nat) (f 18%nat) (f 19%nat) (f 20%nat) (f 21%nat) (f 22%nat) (f 23%nat) (f 24%nat) (f 25%nat).
Definition read_ehdr (data : list Z) : option Elf64_Ehdr :=
  (ehdr_of ∘ unpack ehdr_layout) <$> slice data 0 SIZEOF_EHDR.

Record Elf64_Phdr := mk_phdr {
  p_type : Z; p_flags : Z; p_offset : Z; p_vaddr : Z; p_paddr : Z; p_filesz : Z; p_memsz : Z; p_align : Z;
}.
Definition SIZEOF_PHDR : Z := 56.
Definition phdr_layout : list nat := [4; 4; 8; 8; 8; 8; 8; 8]%nat.
Definition phdr_of (v : list Z) : Elf64_Phdr :=
  let f i := v !!! i in
  mk_phdr (f 0%nat) (f 1%nat) (f 2%nat) (f 3%nat) (f 4%nat) (f 5%nat) (f 6%nat) (f 7%nat).
(** [pheaders[i]] *)
Definition read_phdr (data : list Z) (phoff i : Z) : option Elf64_Phdr :=
  (phdr_of ∘ unpack phdr_layout) <$> slice data (phoff + SIZEOF_PHDR * i) SIZEOF_PHDR.

Record Elf_Segment_Info := mk_segment {
  vaddr_start : Z; vaddr_end : Z; file_offset : Z; file_size : Z; mem_size : Z; seg_flags : Z;
}.

Record Elf_Validation_Result := mk_result { entry_point : Z; machine_type : Z; file_type : Z }.

(** ** Validation *)

(** The magic number and the class are read before the size is checked. *)
Definition validate_elf_header (data : list Z) (data_size : Z) : option Elf_Load_Error :=
  magic ← get_le 4 data 0;
  if negb (magic =? ELF_MAGIC) then Some ELF_ERR_INVALID_MAGIC else
  class ← get_le 1 data 4;
  if negb (class =? ELFCLASS64) then Some ELF_ERR_UNSUPPORTED_CLASS else
  if data_size <? SIZEOF_EHDR then Some ELF_ERR_DATA_TRUNCATED else
  header ← read_ehdr data;
  if (e_phnum header =? 0) || (e_phoff header =? 0) ||
     (data_size <? u64 (e_phoff header + e_phnum header * SIZEOF_PHDR)) then Some ELF_ERR_DATA_TRUNCATED else
  if negb (e_machine header =? EM_X86_64) then Some ELF_ERR_UNSUPPORTED_MACHINE else
  if negb (e_type header =? ET_EXEC) then Some ELF_ERR_INVALID_FILE_TYPE else
  Some ELF_LOAD_SUCCESS.

Definition segment_of (ph : Elf64_Phdr) : Elf_Segment_Info :=
  mk_segment (PAGE_ALIGN_DOWN (p_vaddr ph)) (PAGE_ALIGN_UP (u64 (p_vaddr ph + p_memsz ph)))
    (p_offset ph) (p_filesz ph) (p_memsz ph) (p_flags ph).

(** The array of the caller has room for 16 segments. *)
Definition MAX_SEGMENTS : nat := 16.

Fixpoint collect_headers (data : list Z) (data_size phoff : Z) (indices : list Z) (segments : list Elf_Segment_Info)
    : option (Elf_Load_Error * list Elf_Segment_Info) :=
  match indices with
  | [] => Some (ELF_LOAD_SUCCESS, segments)
  | i :: indices =>
      ph ← read_phdr data phoff i;
      if negb (p_type ph =? PT_LOAD) then collect_headers data data_size phoff indices segments else
      if data_size <? u64 (p_offset ph + p_filesz ph) then Some (ELF_ERR_DATA_TRUNCATED, segments) else
      if (MAX_SEGMENTS <=? length segments)%nat then None else
      collect_headers data data_size phoff indices (segments ++ [segment_of ph])
  end.

Definition overlaps (a b : Elf_Segment_Info) : bool :=
  negb ((vaddr_end b <=? vaddr_start a) || (vaddr_end a <=? vaddr_start b)).

(** The two nested loops over the pairs. *)
Fixpoint any_overlap (segments : list Elf_Segment_Info) : bool :=
  match segments with
  | [] => false
  | a :: rest => existsb (overlaps a) rest || any_overlap rest
  end.

Definition collect_segment_info (data : list Z) (data_size : Z) (header : Elf64_Ehdr)
    : option (Elf_Load_Error * list Elf_Segment_Info) :=
  '(r, segments) ← collect_headers data data_size (e_phoff header) (seqZ 0 (e_phnum header)) [];
  if decide (r = ELF_LOAD_SUCCESS) then
    if any_overlap segments then Some (ELF_ERR_SEGMENT_OVERLAP, segments) else Some (ELF_LOAD_SUCCESS, segments)
  else Some (r, segments).

(** ** Loading *)

Record machine (V : Type) := mk_machine { m_vm : V; m_mem : gmap Z Z (* bytes by physical address *) }.
Arguments mk_machine {_}.
Arguments m_vm {_}.
Arguments m_mem {_}.

Section load.
Context {V : Type} `{!Paging V}.
#[local] Abbreviation M := (Monad.M (machine V)).

Definition pmm_alloc_page : M Z := λ s,
  let '(p, v) := pg_alloc (m_vm s) in Some (p, mk_machine v (m_mem s)).
Definition vmm_map_page (virt phys flags : Z) : M bool := λ s,
  let '(ok, v) := pg_map virt phys flags (m_vm s) in Some (ok, mk_machine v (m_mem s)).

(** A store of one byte. *)
Definition store (va b : Z) : M () := λ s,
  let pa := pg_phys (m_vm s) va in
  if pa =? 0 then None else Some ((), mk_machine (m_vm s) (<[pa := b]> (m_mem s))).

(** The stores of [memset] and [memcpy], in increasing order. *)
Fixpoint store_bytes (va : Z) (l : list Z) : M () :=
  match l with [] => mret () | b :: l => store va b;; store_bytes (u64 (va + 1)) l end.

Definition page_flags (seg : Elf_Segment_Info) : Z :=
  let f := Z.lor PTE_PRESENT PTE_USER in
  let f := if Z.land (seg_flags seg) PF_W =? 0 then f else Z.lor f PTE_WRITABLE in
  if Z.land (seg_flags seg) PF_X =? 0 then f else Z.lor f PTE_WRITABLE.

(** [for (page = vaddr_start; page < vaddr_end; page += PAGE_SIZE_4K)]: both ends
    are aligned, so the loop runs over [start + 4096 * k]. *)
Fixpoint map_pages (flags : Z) (pages : list Z) : M Elf_Load_Error :=
  match pages with
  | [] => mret ELF_LOAD_SUCCESS
  | page :: pages =>
      phys_page ← pmm_alloc_page;
      if phys_page =? 0 then mret ELF_ERR_MEMORY_ALLOCATION else
      ok ← vmm_map_page page phys_page flags;
      if (ok : bool) then map_pages flags pages else mret ELF_ERR_SEGMENT_MAPPING
  end.

Definition pages_of (seg : Elf_Segment_Info) : list Z :=
  (λ k, vaddr_start seg + PAGE_SIZE_4K * k) <$> seqZ 0 ((vaddr_end seg - vaddr_start seg) / PAGE_SIZE_4K).

(** The count of the [memset] is a [uint64_t]. *)
Definition map_segment (data : list Z) (seg : Elf_Segment_Info) : M Elf_Load_Error :=
  r ← map_pages (page_flags seg) (pages_of seg);
  if decide (r = ELF_LOAD_SUCCESS) then
    store_bytes (vaddr_start seg) (replicate (Z.to_nat (u64 (vaddr_end seg - vaddr_start seg))) 0);;
    (if 0 <? file_size seg then
       bytes ← lift (slice data (file_offset seg) (file_size seg));
       store_bytes (vaddr_start seg + PAGE_OFFSET (vaddr_start seg)) bytes
     else mret ());;
    mret ELF_LOAD_SUCCESS
  else mret r.

Fixpoint map_segments (data : list Z) (segments : list Elf_Segment_Info) : M Elf_Load_Error :=
  match segments with
  | [] => mret ELF_LOAD_SUCCESS
  | seg :: segments =>
      r ← map_segment data seg;
      if decide (r = ELF_LOAD_SUCCESS) then map_segments data segments else mret r
  end.

(** The result: the error code, and the entry point on success. *)
Definition elf_load_executable (data : list Z) (data_size : Z) : M (Elf_Load_Error * Z) :=
  r ← lift (validate_elf_header data data_size);
  if decide (r = ELF_LOAD_SUCCESS) then
    header ← lift (read_ehdr data);
    '(r, segments) ← lift (collect_segment_info data data_size header);
    if decide (r = ELF_LOAD_SUCCESS) then
      r ← map_segments data segments;
      if decide (r = ELF_LOAD_SUCCESS) then mret (ELF_LOAD_SUCCESS, e_entry header) else mret (r, 0)
    else mret (r, 0)
  else mret (r, 0).
End load.

(** [None] for a NULL result pointer or data; the fields on success. *)
Definition elf_validate (data : option (list Z)) (data_size : Z) (result : bool) : option (option Elf_Validation_Result) :=
  match data with
  | None => Some None
  | Some data =>
      if negb result || (data_size <? SIZEOF_EHDR) then Some None else
      r ← validate_elf_header data data_size;
      if decide (r = ELF_LOAD_SUCCESS) then
        header ← read_ehdr data;
        Some (Some (mk_result (e_entry header) (e_machine header) (e_type header)))
      else Some None
  end.

(** The offset of the interpreter path in the file. *)
Fixpoint find_interp (data : list Z) (data_size phoff : Z) (indices : list Z) : option (option Z) :=
  match indices with
  | [] => Some None
  | i :: indices =>
      ph ← read_phdr data phoff i;
      if p_type ph =? PT_INTERP then
        if data_size <? u64 (p_offset ph + p_filesz ph) then Some None else Some (Some (p_offset ph))
      else find_interp data data_size phoff indices
  end.

Definition elf_get_interpreter (data : list Z) (data_size : Z) : option (option Z) :=
  r ← validate_elf_header data data_size;
  if decide (r = ELF_LOAD_SUCCESS) then
    header ← read_ehdr data;
    find_interp data data_size (e_phoff header) (seqZ 0 (e_phnum header))
  else Some None.

(** ** Page arithmetic *)

Lemma page_align_down x : is_u64 x → PAGE_ALIGN_DOWN x = x / 4096 * 4096.
Proof. intros Hx. apply (land_high_mask x 12 64); [lia|exact Hx]. Qed.

Lemma page_align_up x : 0 <= x → x + 4095 < 18446744073709551616 → PAGE_ALIGN_UP x = (x + 4095) / 4096 * 4096.
Proof.
  intros H0 Hx. unfold PAGE_ALIGN_UP. rewrite u64_small by (unfold is_u64; lia).
  apply page_align_down. unfold is_u64. lia.
Qed.

(** ** The memory that the loader has mapped *)

Section image.
Context {V : Type} `{!Paging V}.
Implicit Types (s : machine V) (v : V) (ps : list (Z * Z)).

(** [ps]: virtual pages below the canonical hole and the physical pages behind
    them, which belong to the caller and are all different. *)
Record mapped_pages v ps : Prop := {
  mp_ok : pg_ok v;
  mp_nd : NoDup ps.*2;
  mp_pages x : x ∈ ps →
    (page_addr x.2 ∧ pg_held v x.2) ∧ (x.1 mod 4096 = 0 ∧ 0 <= x.1 < 140737488355328) ∧
    ∀ o, 0 <= o < 4096 → pg_phys v (x.1 + o) = x.2 + o;
}.

Definition covered ps (va : Z) : Prop := ∃ x, x ∈ ps ∧ x.1 <= va < x.1 + 4096.

(** The byte at a virtual address. *)
Definition load s (va : Z) : option Z := m_mem s !! pg_phys (m_vm s) va.

Lemma covered_phys v ps va :
  mapped_pages v ps → covered ps va → ∃ x, x ∈ ps ∧ x.1 <= va < x.1 + 4096 ∧ pg_phys v va = x.2 + (va - x.1) ∧ page_addr x.2.
Proof.
  intros [_ _ Hp] (x & Hx & Hva). exists x. destruct (Hp x Hx) as ([Ha _] & _ & Ho). split_and!; [done|lia|lia| |done].
  rewrite <- (Ho (va - x.1)) by lia. f_equal. lia.
Qed.

Lemma covered_inj v ps va va' :
  mapped_pages v ps → covered ps va → covered ps va' → pg_phys v va = pg_phys v va' → va = va'.
Proof.
  intros Hm Hc Hc' Heq. destruct (covered_phys v ps va Hm Hc) as ([a p] & Hx & Hva & Hp & Hpa).
  destruct (covered_phys v ps va' Hm Hc') as ([a' p'] & Hx' & Hva' & Hp' & Hpa'). cbn in *.
  assert (p = p') as <-. { destruct Hpa, Hpa'. Z.to_euclidean_division_equations. lia. }
  assert (a = a') as <-; [|lia]. pose proof (mp_nd v ps Hm) as Hnd.
  apply list_elem_of_lookup in Hx as [i Hi]. apply list_elem_of_lookup in Hx' as [j Hj].
  assert (i = j) as <-; [|congruence].
  apply (NoDup_lookup ps.*2 i j p Hnd); by rewrite list_lookup_fmap, ?Hi, ?Hj.
Qed.

Lemma vpn_neq a b o :
  a mod 4096 = 0 → b mod 4096 = 0 → 0 <= a < 140737488355328 → 0 <= b < 140737488355328 → 0 <= o < 4096 → a ≠ b →
  vpn (a + o) ≠ vpn b.
Proof.
  intros Ha Hb Hra Hrb Ho Hne. unfold vpn.
  rewrite !Z.mod_small by (Z.to_euclidean_division_equations; lia). Z.to_euclidean_division_equations. lia.
Qed.

(** Mapping one more page. *)
Lemma map_one_page v ps virt flags p v1 v2 :
  mapped_pages v ps → virt mod 4096 = 0 → 0 <= virt < 140737488355328 → virt ∉ ps.*1 → 0 <= flags < 4096 →
  pg_alloc v = (p, v1) → p ≠ 0 → pg_map virt p flags v1 = (true, v2) → mapped_pages v2 (ps ++ [(virt, p)]).
Proof.
  intros [Hok Hnd Hp] Hal Hr Hni Hfl Ha Hp0 Hm.
  pose proof (pg_alloc_spec v Hok) as Hs. rewrite Ha in Hs. destruct Hs as (Hok1 & Hpte1 & Hh1 & [?|[Hpa Hph]]); [done|].
  pose proof (pg_map_spec v1 virt p flags Hok1 Hfl) as Hs. rewrite Hm in Hs. destruct Hs as (Hok2 & Hh2 & Hpte2).
  assert (is_u64 p) as Hpu by (destruct Hpa; unfold is_u64; lia).
  split; [done| |].
  - rewrite fmap_app. apply NoDup_app. split; [done|]. split; [|apply NoDup_singleton].
    intros q Hq Hq'. apply list_elem_of_singleton in Hq'. simpl in Hq'. subst q.
    apply list_elem_of_fmap in Hq as (x & -> & Hx). destruct (Hp x Hx) as ([_ Hheld] & _). by destruct (Hh1 _ Hheld).
  - intros x [Hx|Hx]%elem_of_app.
    + destruct (Hp x Hx) as ([Hxa Hheld] & [Hxal Hxr] & Ho). split; [split; [done|by apply Hh2, Hh1]|]. split; [done|].
      intros o Hor. rewrite <- Ho by done. rewrite !pg_phys_spec by done. rewrite Hpte2, Hpte1.
      destruct (vpn (x.1 + o) =? vpn virt) eqn:Hv; zbool; [|done]. exfalso.
      apply (vpn_neq x.1 virt o); try done. intros Heq. apply Hni, list_elem_of_fmap. by exists x.
    + apply list_elem_of_singleton in Hx. subst x. cbn. split; [split; [done|by apply Hh2]|]. split; [done|].
      intros o Hor. rewrite pg_phys_spec by done. rewrite Hpte2.
      assert (vpn (virt + o) = vpn virt) as ->.
      { unfold vpn. f_equal. Z.to_euclidean_division_equations. lia. }
      rewrite Z.eqb_refl. change 1 with PTE_PRESENT. rewrite pte_phys_entry by (done || apply Hpa).
      f_equal. Z.to_euclidean_division_equations. lia.
Qed.

(** Success, or the code of the resource that ran out. *)
Definition load_result (r : Elf_Load_Error) (loaded : Prop) : Prop :=
  match r with
  | ELF_LOAD_SUCCESS => loaded
  | ELF_ERR_MEMORY_ALLOCATION => ∃ v : V, pg_ok v ∧ (pg_alloc v).1 = 0
  | ELF_ERR_SEGMENT_MAPPING => ∃ virt phys flags (v : V), pg_ok v ∧ (pg_map virt phys flags v).1 = false
  | _ => False
  end.

Lemma load_result_mono r (P Q : Prop) : load_result r P → (r = ELF_LOAD_SUCCESS → P → Q) → load_result r Q.
Proof. destruct r; simpl; auto. Qed.

Lemma map_pages_ok flags pages : ∀ ps s,
  mapped_pages (m_vm s) ps → 0 <= flags < 4096 → NoDup pages → (∀ a, a ∈ pages → a ∉ ps.*1) →
  (∀ a, a ∈ pages → a mod 4096 = 0 ∧ 0 <= a < 140737488355328) →
  wp (map_pages flags pages) (λ r s', pg_ok (m_vm s') ∧ m_mem s' = m_mem s ∧
    load_result r (∃ ps', mapped_pages (m_vm s') (ps ++ ps') ∧ ps'.*1 = pages)) s.
Proof.
  induction pages as [|page pages IH]; intros ps s Hm Hfl Hnd Hni Hal.
  { apply wp_ret. split; [apply Hm|]. split; [done|]. exists []. by rewrite app_nil_r. }
  apply NoDup_cons in Hnd as [Hpn Hnd]. cbn [map_pages]. apply wp_bind. unfold pmm_alloc_page, wp at 1.
  pose proof (pg_alloc_spec (m_vm s) (mp_ok _ _ Hm)) as Hs. destruct (pg_alloc (m_vm s)) as [p v1] eqn:Ha.
  destruct Hs as [Hok1 _]. destruct (p =? 0) eqn:Hp0; zbool.
  { apply wp_ret. split; [done|]. split; [done|]. exists (m_vm s). split; [apply Hm|]. by rewrite Ha. }
  apply wp_bind. unfold vmm_map_page, wp at 1. cbn [m_vm m_mem].
  pose proof (pg_map_spec v1 page p flags Hok1 Hfl) as Hs. destruct (pg_map page p flags v1) as [ok v2] eqn:Hmap.
  destruct Hs as [Hok2 _]. destruct ok.
  2:{ apply wp_ret. split; [done|]. split; [done|]. exists page, p, flags, v1. by rewrite Hmap. }
  destruct (Hal page ltac:(by left)) as [Hpal Hpr].
  pose proof (map_one_page _ _ _ _ _ _ _ Hm Hpal Hpr (Hni page ltac:(by left)) Hfl Ha Hp0 Hmap) as Hm2.
  eapply wp_mono; [apply (IH (ps ++ [(page, p)])); [done..| |by intros a Ha'; apply Hal; right]|].
  { intros a Ha'. rewrite fmap_app, elem_of_app. intros [Hin|Hin].
    - by apply (Hni a); [right|].
    - apply list_elem_of_singleton in Hin. simpl in Hin. by subst. }
  intros r s' (Hok & Hmem & Hres). split; [done|]. split; [done|].
  eapply load_result_mono; [exact Hres|]. intros _ (ps' & Hm' & Hf). exists ((page, p) :: ps').
  split; [by rewrite <- app_assoc in Hm'|]. by rewrite fmap_cons, Hf.
Qed.

(** ** Stores *)

Lemma store_bytes_ok ps l : ∀ va s,
  mapped_pages (m_vm s) ps → 0 <= va → (∀ i, 0 <= i < Z.of_nat (length l) → covered ps (va + i)) →
  wp (store_bytes va l) (λ _ s', m_vm s' = m_vm s ∧
    ∀ va', covered ps va' →
      load s' va' = if (va <=? va') && (va' <? va + Z.of_nat (length l)) then l !! Z.to_nat (va' - va) else load s va') s.
Proof.
  induction l as [|b l IH]; intros va s Hm H0 Hc.
  { apply wp_ret. split; [done|]. intros va' _. destruct (_ && _)%bool eqn:Hb; [|done]. zbool. simpl in *. lia. }
  cbn [store_bytes]. apply wp_bind. unfold store, wp at 1.
  assert (covered ps va) as Hcva by (rewrite <- (Z.add_0_r va); apply Hc; simpl; lia).
  destruct (covered_phys _ _ _ Hm Hcva) as (x & Hx & Hva & Hp & Hpa).
  destruct (pg_phys (m_vm s) va =? 0) eqn:Hz; zbool; [destruct Hpa; lia|].
  destruct (mp_pages _ _ Hm x Hx) as (_ & [_ Hxr] & _).
  rewrite u64_small by (unfold is_u64; lia).
  eapply wp_mono; [apply IH; [done|lia|]|].
  { intros i Hi. rewrite <- Z.add_assoc. apply Hc. simpl length. lia. }
  intros _ s' [Hvm Hl]. cbn [m_vm] in Hvm. split; [done|]. intros va' Hc'. rewrite Hl by done. simpl length.
  destruct (decide (va' = va)) as [->|Hne].
  - rewrite (proj2 (Z.leb_gt (va + 1) va)), (proj2 (Z.leb_le va va)), (proj2 (Z.ltb_lt va (va + Z.of_nat (S (length l))))) by lia. cbn [andb].
    rewrite Z.sub_diag. unfold load. cbn [m_vm m_mem]. by rewrite lookup_insert_eq.
  - assert (((va + 1 <=? va') && (va' <? va + 1 + Z.of_nat (length l)))%bool =
      ((va <=? va') && (va' <? va + Z.of_nat (S (length l))))%bool) as ->.
    { apply eq_true_iff_eq. rewrite !andb_true_iff, !Z.leb_le, !Z.ltb_lt. lia. }
    destruct (_ && _)%bool eqn:Hb.
    + zbool. replace (Z.to_nat (va' - va)) with (S (Z.to_nat (va' - (va + 1)))) by lia. done.
    + unfold load. cbn [m_vm m_mem]. rewrite lookup_insert_ne; [done|].
      intros Heq. apply Hne. symmetry. by eapply covered_inj.
Qed.

(** ** One segment *)

Record seg_user (seg : Elf_Segment_Info) : Prop := {
  su_start : vaddr_start seg mod 4096 = 0;
  su_end : vaddr_end seg mod 4096 = 0;
  su_range : 0 <= vaddr_start seg <= vaddr_end seg ∧ vaddr_end seg <= 140737488355328;
  su_file : 0 <= file_size seg <= vaddr_end seg - vaddr_start seg;
}.

Definition in_segment (seg : Elf_Segment_Info) (va : Z) : Prop := vaddr_start seg <= va < vaddr_end seg.

(** The memory of a segment: the bytes of the file, then zeros. *)
Definition segment_image (data : list Z) (seg : Elf_Segment_Info) s : Prop :=
  ∀ va, in_segment seg va →
    load s va = if va - vaddr_start seg <? file_size seg
                then data !! Z.to_nat (file_offset seg + (va - vaddr_start seg)) else Some 0.

Lemma elem_of_pages_of seg a :
  seg_user seg → a ∈ pages_of seg ↔ a mod 4096 = 0 ∧ in_segment seg a.
Proof.
  intros [Hs He Hr _]. unfold pages_of, in_segment, PAGE_SIZE_4K. rewrite list_elem_of_fmap.
  setoid_rewrite elem_of_seqZ. split.
  - intros (k & -> & Hk). Z.to_euclidean_division_equations. lia.
  - intros [Ha Hin]. exists ((a - vaddr_start seg) / 4096). Z.to_euclidean_division_equations. lia.
Qed.

Lemma pages_of_nodup seg : NoDup (pages_of seg).
Proof. unfold pages_of. apply NoDup_fmap_2; [intros x y; unfold PAGE_SIZE_4K; lia|apply NoDup_seqZ]. Qed.

Lemma covered_pages_of seg ps va :
  seg_user seg → ps.*1 = pages_of seg → covered ps va ↔ in_segment seg va.
Proof.
  intros Hu Hps. pose proof Hu as [Hs He Hr _]. unfold covered. split.
  - intros (x & Hx & Hva). assert (x.1 ∈ pages_of seg) as Hin by (rewrite <- Hps; apply list_elem_of_fmap; by exists x).
    apply elem_of_pages_of in Hin as [Hal Hin]; [|done]. unfold in_segment in *. Z.to_euclidean_division_equations. lia.
  - intros Hin. assert (va / 4096 * 4096 ∈ pages_of seg) as Hp.
    { apply elem_of_pages_of; [done|]. split; [apply Z.mod_mul; lia|]. unfold in_segment in *.
      Z.to_euclidean_division_equations. lia. }
    rewrite <- Hps in Hp. apply list_elem_of_fmap in Hp as (x & Hx & Hxp). exists x. split; [done|].
    rewrite <- Hx. Z.to_euclidean_division_equations. lia.
Qed.

Lemma page_flags_range seg : 0 <= page_flags seg < 4096.
Proof. unfold page_flags. by repeat case_match. Qed.

(** The bytes do not move when more pages are mapped. *)
Lemma load_more_pages s s' ps ps' va :
  mapped_pages (m_vm s) ps → mapped_pages (m_vm s') (ps ++ ps') → m_mem s' = m_mem s → covered ps va →
  load s' va = load s va.
Proof.
  intros Hm Hm' Hmem Hc. destruct (covered_phys _ _ _ Hm Hc) as (x & Hx & Hva & Hp & _). unfold load. rewrite Hmem, Hp.
  destruct (mp_pages _ _ Hm' x) as (_ & _ & Ho); [apply elem_of_app; by left|].
  rewrite <- Ho by lia. do 2 f_equal. lia.
Qed.

(** What the two stores leave in the segment. *)
Lemma fill_segment_ok data seg ps s :
  seg_user seg → mapped_pages (m_vm s) ps → (∀ va, in_segment seg va → covered ps va) →
  (0 < file_size seg → is_Some (slice data (file_offset seg) (file_size seg))) →
  wp (store_bytes (vaddr_start seg) (replicate (Z.to_nat (u64 (vaddr_end seg - vaddr_start seg))) 0);;
      (if 0 <? file_size seg then
         bytes ← lift (slice data (file_offset seg) (file_size seg));
         store_bytes (vaddr_start seg + PAGE_OFFSET (vaddr_start seg)) bytes
       else mret ());;
      mret ELF_LOAD_SUCCESS)
    (λ r s', r = ELF_LOAD_SUCCESS ∧ m_vm s' = m_vm s ∧ segment_image data seg s' ∧
       ∀ va, covered ps va → ¬ in_segment seg va → load s' va = load s va) s.
Proof.
  intros [Hs He Hr Hf] Hm Hin Hsl. unfold in_segment in *.
  rewrite u64_small by (unfold is_u64; lia). apply wp_bind.
  eapply wp_mono; [apply (store_bytes_ok ps); [done|lia|]|].
  { intros i Hi. rewrite length_replicate in Hi. apply Hin. lia. }
  intros [] s1 [Hvm1 Hl1]. rewrite length_replicate, Z2Nat.id in Hl1 by lia.
  assert (∀ va, vaddr_start seg <= va < vaddr_end seg → load s1 va = Some 0) as Hzero.
  { intros va Hva. rewrite Hl1, (proj2 (Z.leb_le _ _)), (proj2 (Z.ltb_lt _ _)) by (lia || by apply Hin). cbn [andb].
    apply lookup_replicate. split; [done|lia]. }
  assert (∀ va, covered ps va → ¬ vaddr_start seg <= va < vaddr_end seg → load s1 va = load s va) as Hout.
  { intros va Hc Hn. rewrite Hl1 by done. destruct (_ && _)%bool eqn:Hz; [zbool; lia|done]. }
  apply wp_bind. destruct (0 <? file_size seg) eqn:Hfz; zbool.
  2:{ apply wp_ret, wp_ret. split_and!; [done|done| |done]. intros va Hva.
      rewrite (proj2 (Z.ltb_ge _ _)) by (unfold in_segment in *; lia). by apply Hzero. }
  destruct (Hsl Hfz) as [bytes Hb]. apply wp_bind. eapply wp_lift; [done|]. pose proof (slice_length _ _ _ _ Hb) as Hbl.
  assert (PAGE_OFFSET (vaddr_start seg) = 0) as ->.
  { unfold PAGE_OFFSET. change 4095 with (2 ^ 12 - 1). by rewrite land_mask. }
  rewrite Z.add_0_r. eapply wp_mono; [apply (store_bytes_ok ps); [by rewrite Hvm1|lia|]|].
  { intros i Hi. apply Hin. lia. }
  intros [] s2 [Hvm2 Hl2]. apply wp_ret. split_and!; [done|congruence| |].
  - intros va Hva. unfold in_segment in Hva. rewrite Hl2, (proj2 (Z.leb_le _ _)) by (lia || by apply Hin). cbn [andb].
    replace (va <? vaddr_start seg + Z.of_nat (length bytes)) with (va - vaddr_start seg <? file_size seg)
      by (apply eq_true_iff_eq; rewrite !Z.ltb_lt; lia).
    destruct (_ <? _) eqn:Hlt; zbool; [|by apply Hzero]. by apply (slice_lookup _ _ _ _ _ Hb); lia.
  - intros va Hc Hn. rewrite Hl2 by done. destruct (_ && _)%bool eqn:Hz; [zbool; lia|]. by apply Hout.
Qed.

Lemma map_segment_ok data seg ps s :
  seg_user seg → mapped_pages (m_vm s) ps → (∀ va, covered ps va → ¬ in_segment seg va) →
  (0 < file_size seg → is_Some (slice data (file_offset seg) (file_size seg))) →
  wp (map_segment data seg) (λ r s', pg_ok (m_vm s') ∧ load_result r (∃ ps',
    mapped_pages (m_vm s') (ps ++ ps') ∧ (∀ va, covered ps' va ↔ in_segment seg va) ∧
    segment_image data seg s' ∧ ∀ va, covered ps va → load s' va = load s va)) s.
Proof.
  intros Hu Hm Hdis Hsl. unfold map_segment. apply wp_bind.
  eapply wp_mono; [apply (map_pages_ok _ _ ps); [done|apply page_flags_range|apply pages_of_nodup| |]|].
  { intros a Ha Hin. apply list_elem_of_fmap in Hin as (x & -> & Hx). apply elem_of_pages_of in Ha as [_ Ha]; [|done].
    apply (Hdis x.1); [exists x; split; [done|lia]|done]. }
  { intros a [Hal Ha]%elem_of_pages_of; [|done]. split; [done|]. destruct Hu as [_ _ Hr _]. unfold in_segment in Ha. lia. }
  intros r s1 (Hok & Hmem & Hres). destruct (decide (r = ELF_LOAD_SUCCESS)) as [->|].
  2:{ apply wp_ret. split; [done|]. by eapply load_result_mono. }
  destruct Hres as (ps' & Hm1 & Hps').
  assert (∀ va, covered ps' va ↔ in_segment seg va) as Hcov by (intros va; by apply covered_pages_of).
  assert (∀ va, in_segment seg va → covered (ps ++ ps') va) as Hall.
  { intros va (x & Hx & Hva)%Hcov. exists x. split; [apply elem_of_app; by right|done]. }
  assert (∀ va, covered ps va → covered (ps ++ ps') va) as Hold.
  { intros va (x & Hx & Hva). exists x. split; [apply elem_of_app; by left|done]. }
  eapply wp_mono; [by apply (fill_segment_ok data seg _ s1 Hu Hm1 Hall)|].
  intros r s' (-> & Hvm & Himg & Hout). rewrite Hvm. split; [done|]. exists ps'. split_and!; [done|done|done|].
  intros va Hva. rewrite Hout by auto. by eapply load_more_pages.
Qed.

(** ** All segments *)

Lemma no_overlap segments :
  any_overlap segments = false →
  ∀ i j a b, (i < j)%nat → segments !! i = Some a → segments !! j = Some b →
    vaddr_end b <= vaddr_start a ∨ vaddr_end a <= vaddr_start b.
Proof.
  induction segments as [|x rest IH]; intros Ho i j a b Hij Ha Hb; [done|].
  cbn [any_overlap] in Ho. apply orb_false_iff in Ho as [Hx Ho]. destruct j as [|j]; [lia|]. destruct i as [|i].
  - injection Ha as ->. assert (overlaps a b = false) as Hov.
    { destruct (overlaps a b) eqn:Hov; [|done]. rewrite <- Hx. symmetry. apply existsb_exists. exists b.
      split; [|done]. apply list_elem_of_In, list_elem_of_lookup. by exists j. }
    unfold overlaps in Hov. apply negb_false_iff, orb_true_iff in Hov as [?|?]; zbool; lia.
  - eapply (IH Ho i j); [lia|done|done].
Qed.

Lemma map_segments_ok data segments : ∀ ps s,
  Forall seg_user segments → any_overlap segments = false → mapped_pages (m_vm s) ps →
  (∀ va seg, covered ps va → seg ∈ segments → ¬ in_segment seg va) →
  (∀ seg, seg ∈ segments → 0 < file_size seg → is_Some (slice data (file_offset seg) (file_size seg))) →
  wp (map_segments data segments) (λ r s', pg_ok (m_vm s') ∧ load_result r
    ((∀ seg, seg ∈ segments → segment_image data seg s') ∧ ∀ va, covered ps va → load s' va = load s va)) s.
Proof.
  induction segments as [|seg segments IH]; intros ps s Hu Ho Hm Hdis Hsl.
  { apply wp_ret. split; [apply Hm|]. split; [|done]. intros seg Hin. by apply not_elem_of_nil in Hin. }
  apply Forall_cons in Hu as [Hus Hu]. pose proof (no_overlap _ Ho) as Hno.
  cbn [any_overlap] in Ho. apply orb_false_iff in Ho as [_ Ho]. cbn [map_segments]. apply wp_bind.
  eapply wp_mono; [apply (map_segment_ok _ _ ps); [done|done| |by apply Hsl; left]|].
  { intros va Hc. apply (Hdis va); [done|by left]. }
  intros r s1 [Hok Hres]. destruct (decide (r = ELF_LOAD_SUCCESS)) as [->|].
  2:{ apply wp_ret. split; [done|]. by eapply load_result_mono. }
  destruct Hres as (ps1 & Hm1 & Hcov & Himg & Hold).
  eapply wp_mono; [apply (IH (ps ++ ps1)); [done|done|done| |by intros seg' Hin; apply Hsl; right]|].
  { intros va seg' (x & [Hx|Hx]%elem_of_app & Hva) Hin'.
    - apply (Hdis va); [by exists x|by right].
    - assert (in_segment seg va) as Hs by (apply Hcov; by exists x).
      apply list_elem_of_lookup in Hin' as [k Hk]. unfold in_segment in *.
      destruct (Hno 0%nat (S k) seg seg'); [lia|done|done|lia|lia]. }
  intros r s' [Hok' Hres]. split; [done|]. eapply load_result_mono; [exact Hres|]. intros _ [Himgs Hkeep]. split.
  - intros seg' [->|Hin]%elem_of_cons; [|by apply Himgs]. intros va Hva. rewrite Hkeep; [by apply Himg|].
    apply Hcov in Hva as (x & Hx & Hr). exists x. split; [apply elem_of_app; by right|done].
  - intros va (x & Hx & Hr). rewrite Hkeep; [apply Hold; by exists x|]. exists x. split; [apply elem_of_app; by left|done].
Qed.
End image.

(** ** Which segments are loaded *)

(** The program headers of the file. *)
Definition program_headers (data : list Z) (header : Elf64_Ehdr) : option (list Elf64_Phdr) :=
  mapM (read_phdr data (e_phoff header)) (seqZ 0 (e_phnum header)).
Definition load_headers (phs : list Elf64_Phdr) : list Elf64_Phdr := List.filter (λ ph, p_type ph =? PT_LOAD) phs.

Lemma collect_headers_ok data size phoff indices : ∀ acc segments,
  (length acc <= MAX_SEGMENTS)%nat →
  collect_headers data size phoff indices acc = Some (ELF_LOAD_SUCCESS, segments) →
  ∃ phs, mapM (read_phdr data phoff) indices = Some phs ∧ segments = acc ++ (segment_of <$> load_headers phs) ∧
    (length segments <= MAX_SEGMENTS)%nat ∧ Forall (λ ph, u64 (p_offset ph + p_filesz ph) <= size) (load_headers phs).
Proof.
  induction indices as [|i indices IH]; intros acc segments Hlen Hc.
  { injection Hc as <-. exists []. split; [done|]. by rewrite app_nil_r. }
  cbn [collect_headers mapM] in *. destruct (read_phdr data phoff i) as [ph|]; [|done]. cbn [mbind option_bind] in *.
  unfold load_headers in *. destruct (p_type ph =? PT_LOAD) eqn:Ht; cbn [negb] in Hc.
  - destruct (size <? _) eqn:Hs; [done|]. zbool. destruct (_ <=? _)%nat eqn:Hmax; [done|]. apply Nat.leb_gt in Hmax.
    apply IH in Hc as (phs & -> & -> & Hl & Hf); [|rewrite length_app; simpl; lia]. exists (ph :: phs). cbn [mbind option_bind].
    split; [done|]. simpl. rewrite Ht. simpl. rewrite <- app_assoc in *. simpl in *. split; [done|]. split; [done|].
    by apply Forall_cons.
  - apply IH in Hc as (phs & -> & -> & Hl & Hf); [|done]. exists (ph :: phs). cbn [mbind option_bind].
    split; [done|]. simpl. by rewrite Ht.
Qed.

Lemma collect_headers_all data size phoff indices : ∀ acc phs,
  mapM (read_phdr data phoff) indices = Some phs →
  Forall (λ ph, u64 (p_offset ph + p_filesz ph) <= size) (load_headers phs) →
  (length acc + length (load_headers phs) <= MAX_SEGMENTS)%nat →
  collect_headers data size phoff indices acc = Some (ELF_LOAD_SUCCESS, acc ++ (segment_of <$> load_headers phs)).
Proof.
  induction indices as [|i indices IH]; intros acc phs Hp Hf Hl.
  { injection Hp as <-. simpl. by rewrite app_nil_r. }
  cbn [collect_headers mapM] in *. destruct (read_phdr data phoff i) as [ph|]; [|done]. cbn [mbind option_bind] in *.
  destruct (mapM (read_phdr data phoff) indices) as [phs'|] eqn:Hp'; [|done]. injection Hp as <-.
  unfold load_headers in *. cbn [List.filter] in *. destruct (p_type ph =? PT_LOAD); cbn [negb]; [|by apply IH].
  apply Forall_cons in Hf as [Hf1 Hf]. cbn [length] in Hl. rewrite (proj2 (Z.ltb_ge _ _)) by done.
  rewrite (proj2 (Nat.leb_gt _ _)) by lia. rewrite (IH _ phs') by (try done; rewrite length_app; simpl; lia).
  by rewrite <- app_assoc.
Qed.

(** A program header of a user program: below the canonical hole, its file part
    not larger than its memory. *)
Definition user_header (ph : Elf64_Phdr) : Prop :=
  0 <= p_vaddr ph ∧ 0 <= p_filesz ph <= p_memsz ph ∧ p_vaddr ph + p_memsz ph <= 140737488355328.

Lemma user_header_segment ph : user_header ph → seg_user (segment_of ph) ∧
  vaddr_start (segment_of ph) = p_vaddr ph - p_vaddr ph mod 4096.
Proof.
  intros (Hv & Hf & Hm). unfold segment_of. rewrite u64_small by (unfold is_u64; lia).
  rewrite page_align_down by (unfold is_u64; lia). rewrite page_align_up by lia. split; [|cbn; Z.to_euclidean_division_equations; lia].
  split; cbn; Z.to_euclidean_division_equations; lia.
Qed.

Section properties.
Context {V : Type} `{!Paging V}.
Implicit Types s : machine V.

(** A load that succeeded, step by step. *)
Lemma elf_load_inv data size entry s s' :
  elf_load_executable data size s = Some ((ELF_LOAD_SUCCESS, entry), s') →
  ∃ header phs,
    validate_elf_header data size = Some ELF_LOAD_SUCCESS ∧ read_ehdr data = Some header ∧ entry = e_entry header ∧
    program_headers data header = Some phs ∧ (length (load_headers phs) <= MAX_SEGMENTS)%nat ∧
    Forall (λ ph, u64 (p_offset ph + p_filesz ph) <= size) (load_headers phs) ∧
    any_overlap (segment_of <$> load_headers phs) = false ∧
    map_segments data (segment_of <$> load_headers phs) s = Some (ELF_LOAD_SUCCESS, s').
Proof.
  unfold elf_load_executable. intros (r & s1 & Hv & Hr)%run_bind. unfold lift in Hv.
  destruct (validate_elf_header data size) as [r'|] eqn:Ev; [|done]. injection Hv as -> <-.
  destruct (decide (r = ELF_LOAD_SUCCESS)) as [->|]; [|by injection Hr as -> _ _].
  apply run_bind in Hr as (header & s2 & Hh & Hr). unfold lift in Hh.
  destruct (read_ehdr data) as [h|] eqn:Eh; [|done]. injection Hh as -> <-.
  apply run_bind in Hr as ([r segments] & s3 & Hc & Hr). unfold lift in Hc.
  destruct (collect_segment_info data size header) as [x|] eqn:Ec; [|done]. injection Hc as -> <-.
  destruct (decide (r = ELF_LOAD_SUCCESS)) as [->|]; [|by injection Hr as -> _ _].
  apply run_bind in Hr as (r & s4 & Hm & Hr).
  destruct (decide (r = ELF_LOAD_SUCCESS)) as [->|]; [|by injection Hr as -> _ _]. injection Hr as <- <-.
  unfold collect_segment_info in Ec. destruct (collect_headers _ _ _ _ _) as [[r' segs]|] eqn:Ech; [|done].
  cbn [mbind option_bind] in Ec. destruct (decide (r' = ELF_LOAD_SUCCESS)) as [->|]; [|by injection Ec as -> _].
  destruct (any_overlap segs) eqn:Ho; [done|]. injection Ec as <-.
  apply collect_headers_ok in Ech as (phs & Hphs & -> & Hl & Hf); [|simpl; lia]. exists header, phs.
  simpl in *. rewrite length_fmap in Hl. by split_and!.
Qed.

(** A program of at most 16 segments for the user's part of the address space, on
    disjoint pages, with the data of its segments inside the file. *)
Record program_ok (data : list Z) (header : Elf64_Ehdr) (phs : list Elf64_Phdr) : Prop := {
  po_size : Z.of_nat (length data) < 18446744073709551616;
  po_valid : validate_elf_header data (Z.of_nat (length data)) = Some ELF_LOAD_SUCCESS;
  po_header : read_ehdr data = Some header;
  po_headers : program_headers data header = Some phs;
  po_user : Forall user_header (load_headers phs);
  po_data ph : ph ∈ load_headers phs → 0 <= p_offset ph ∧ p_offset ph + p_filesz ph <= Z.of_nat (length data);
  po_count : (length (load_headers phs) <= 16)%nat;
  po_disjoint : any_overlap (segment_of <$> load_headers phs) = false;
}.

(** From the start of the page of [p_vaddr] on, the [p_filesz] bytes of the file,
    then zeros. *)
Definition header_image (data : list Z) (s : machine V) (ph : Elf64_Phdr) : Prop :=
  ∀ k, 0 <= k < p_memsz ph →
    load s (p_vaddr ph - p_vaddr ph mod 4096 + k) =
      if k <? p_filesz ph then data !! Z.to_nat (p_offset ph + k) else Some 0.

Lemma segment_header_image data s ph :
  user_header ph → segment_image data (segment_of ph) s → header_image data s ph.
Proof.
  intros Hu Himg k Hk. destruct (user_header_segment ph Hu) as [_ Hst]. destruct Hu as (Hv & Hf & Hms).
  rewrite Himg; rewrite ?Hst.
  - cbn [segment_of file_size file_offset].
    by replace (p_vaddr ph - p_vaddr ph mod 4096 + k - (p_vaddr ph - p_vaddr ph mod 4096)) with k by lia.
  - unfold in_segment. rewrite Hst. cbn [segment_of vaddr_end]. rewrite u64_small by (unfold is_u64; lia).
    rewrite page_align_up by lia. Z.to_euclidean_division_equations. lia.
Qed.

(** The validation phase lets such a program through. *)
Lemma elf_load_valid data header phs (Q : Elf_Load_Error * Z → machine V → Prop) s :
  program_ok data header phs →
  wp (map_segments data (segment_of <$> load_headers phs)) (λ r s',
    Q (r, if decide (r = ELF_LOAD_SUCCESS) then e_entry header else 0) s') s →
  wp (elf_load_executable data (Z.of_nat (length data))) Q s.
Proof.
  intros [Hsz Hv Hh Hp Hu Hd Hc Ho] HQ. unfold elf_load_executable.
  apply wp_bind. eapply wp_lift; [exact Hv|]. rewrite decide_True by done. apply wp_bind. eapply wp_lift; [exact Hh|].
  assert (collect_segment_info data (Z.of_nat (length data)) header =
    Some (ELF_LOAD_SUCCESS, segment_of <$> load_headers phs)) as Hcol.
  { unfold collect_segment_info. rewrite (collect_headers_all _ _ _ _ [] phs) by (done || (apply Forall_forall; intros ph Hin;
      destruct (Hd ph Hin); rewrite Forall_forall in Hu; destruct (Hu ph Hin) as (_ & ? & _); rewrite u64_small by (unfold is_u64; lia); lia)).
    cbn [mbind option_bind app]. rewrite decide_True by done. by rewrite Ho. }
  apply wp_bind. eapply wp_lift; [exact Hcol|]. cbn beta iota. rewrite decide_True by done. apply wp_bind.
  eapply wp_mono; [exact HQ|]. intros r s' Hr. cbn beta in Hr. destruct (decide _) as [->|]; by apply wp_ret.
Qed.

(** C22: loading a well-formed program ends without a fault, with the tables
    intact, in success or because pages have run out.  On success the entry point
    is that of the header and every loadable segment is in memory: the bytes of
    the file followed by zeros. *)
Theorem elf_load_correct data header phs s :
  pg_ok (m_vm s) → program_ok data header phs →
  wp (elf_load_executable data (Z.of_nat (length data))) (λ r s', pg_ok (m_vm s') ∧
    load_result (V := V) r.1 (r.2 = e_entry header ∧ Forall (header_image data s') (load_headers phs))) s.
Proof.
  intros Hok Hpo. pose proof Hpo as [Hsz _ _ _ Hu Hd _ Ho]. eapply elf_load_valid; [done|].
  eapply wp_mono; [apply (map_segments_ok _ _ [])|]; [|done| | | |].
  - apply Forall_fmap. eapply Forall_impl; [exact Hu|]. intros x Hx. by apply user_header_segment.
  - split; [done|apply NoDup_nil_2|]. intros x Hx. by apply not_elem_of_nil in Hx.
  - intros va seg (x & Hx & _). by apply not_elem_of_nil in Hx.
  - intros seg (ph & -> & Hin)%list_elem_of_fmap Hf. destruct (Hd ph Hin) as [H0 H1].
    destruct (slice_some data (p_offset ph) (p_filesz ph)) as [l Hl]; [done|cbn in Hf; lia|lia|]. by eexists.
  - intros r s' [Hok' Hres]. split; [done|]. eapply load_result_mono; [exact Hres|]. cbn [fst snd].
    intros -> [Himg _]. rewrite decide_True by done. split; [done|]. apply Forall_forall. intros ph Hin.
    rewrite Forall_forall in Hu. apply segment_header_image; [by apply Hu|]. by apply Himg, list_elem_of_fmap_2.
Qed.

End properties.

(** ** Witnesses: a program of one segment, on the demonstration address space *)

Definition demo_phdr : Elf64_Phdr := mk_phdr 1 6 120 4194304 0 4 8 4096.
Definition demo_elf : list Z :=
  pack ehdr_layout ([ELF_MAGIC; 2; 1; 1; 0; 0] ++ replicate 7 0 ++ [2; 62; 1; 4194304; 64; 0; 0; 64; 56; 1; 0; 0; 0]) ++
  pack phdr_layout [1; 6; 120; 4194304; 0; 4; 8; 4096] ++ [11; 22; 33; 44].
Definition demo_machine : machine (vmm pmm) := mk_machine demo_vmm ∅.

Lemma demo_elf_loads :
  (λ '(r, _), r) <$> elf_load_executable demo_elf 124 demo_machine = Some (ELF_LOAD_SUCCESS, 4194304).
Proof. vm_compute. reflexivity. Qed.

Lemma demo_elf_headers header phs :
  read_ehdr demo_elf = Some header → program_headers demo_elf header = Some phs → phs = [demo_phdr].
Proof. intros Hh. vm_compute in Hh. injection Hh as <-. vm_compute. by intros [= <-]. Qed.

Lemma demo_run : ∃ s', elf_load_executable demo_elf 124 demo_machine = Some ((ELF_LOAD_SUCCESS, 4194304), s').
Proof.
  pose proof demo_elf_loads as Hl. destruct (elf_load_executable demo_elf 124 demo_machine) as [[r s']|]; [|discriminate Hl].
  exists s'. injection Hl as ->. reflexivity.
Qed.

Lemma demo_program_ok : ∃ header, program_ok demo_elf header [demo_phdr] ∧ e_entry header = 4194304.
Proof.
  destruct (read_ehdr demo_elf) as [header|] eqn:Hh; [|vm_compute in Hh; discriminate Hh]. exists header.
  split; [|vm_compute in Hh; by injection Hh as <-].
  split; [reflexivity|vm_compute; reflexivity|done| | | |vm_compute; lia|vm_compute; reflexivity].
  - vm_compute in Hh. injection Hh as <-. vm_compute. reflexivity.
  - apply Forall_cons. split; [|constructor]. split; [done|split; [split; done|done]].
  - intros ph Hin. apply list_elem_of_singleton in Hin as ->. split; [done|vm_compute; congruence].
Qed.

Lemma elf_load_correct_witness : ∃ s',
  elf_load_executable demo_elf 124 demo_machine = Some ((ELF_LOAD_SUCCESS, 4194304), s') ∧
  load s' 4194305 = Some 22 ∧ load (V := vmm pmm) s' 4194309 = Some 0.
Proof.
  destruct demo_run as [s' Hrun], demo_program_ok as (header & Hpo & _). exists s'. split; [exact Hrun|].
  pose proof (wp_elim _ _ _ _ _ (elf_load_correct demo_elf header [demo_phdr] demo_machine demo_vmm_wf Hpo) Hrun) as (_ & _ & Himg).
  apply Forall_cons in Himg as [Himg _]. split.
  - exact (Himg 1 ltac:(split; done)).
  - exact (Himg 5 ltac:(split; done)).
Defined.

