(* ===== verification/Heap.v ===== *)
(** * Kernel heap ([kernel/src/mm/heap.c], [malloc]/[free]/[realloc] of [utils/mem.c])

    The heap is a doubly linked list of blocks that starts at [heap_start]; each
    block begins with a packed 28-byte header.  [headers] maps an address to the
    header last stored there and [bytes] holds the client data ([heap_realloc]
    copies it).  An access through a pointer to no header (NULL, or an address
    that never held a block) is the result [None].  Pages come from the page
    allocator and are mapped by the page tables, both behind the interface
    [Paging].  Every function of the file is the definition of the same name;
    [size_t] arithmetic is reduced by [u64], the [size] field by [u32].

    The theorems relate the linked headers to the list of blocks in address
    order: [represents] is the invariant, and each operation is shown to act on
    that list as first-fit allocation, splitting and coalescing. *)
From S2P Require Import Prelude Interfaces Str Pmm Vmm.

Definition HEAP_BLOCK_MAGIC : Z := 464367618.
Definition HEAP_PAGE_SIZE : Z := 4096.
Definition HEADER_SIZE : Z := 28.
Definition HEAP_MIN_BLOCK_SIZE : Z := HEADER_SIZE.
Definition BLOCK_FREE : Z := 1.
Definition BLOCK_LAST : Z := 2.

(** [lia] with the header size unfolded. *)
Ltac hlia := unfold HEAP_MIN_BLOCK_SIZE, HEADER_SIZE, HEAP_PAGE_SIZE in *; lia.

Record heap_block := mk_block {
  hb_magic : Z; hb_size : Z; hb_flags : Z; hb_next : Z; hb_prev : Z }.

Record heap_stats := mk_stats {
  total_size : Z; used_size : Z; free_size : Z; total_blocks : Z; free_blocks : Z }.

Record heap (V : Type) := mk_heap {
  heap_start : Z;
  headers : gmap Z heap_block;
  heap_statistics : heap_stats;
  bytes : gmap Z Z;
  heap_pages : V;
}.
Arguments mk_heap {_}.
Arguments heap_start {_}.
Arguments headers {_}.
Arguments heap_statistics {_}.
Arguments bytes {_}.
Arguments heap_pages {_}.

Definition set_size (b : heap_block) (x : Z) := mk_block (hb_magic b) x (hb_flags b) (hb_next b) (hb_prev b).
Definition set_flags (b : heap_block) (x : Z) := mk_block (hb_magic b) (hb_size b) x (hb_next b) (hb_prev b).
Definition set_next (b : heap_block) (x : Z) := mk_block (hb_magic b) (hb_size b) (hb_flags b) x (hb_prev b).
Definition set_prev (b : heap_block) (x : Z) := mk_block (hb_magic b) (hb_size b) (hb_flags b) (hb_next b) x.

Definition is_free (b : heap_block) : bool := negb (Z.land (hb_flags b) BLOCK_FREE =? 0).
Definition is_last (b : heap_block) : bool := negb (Z.land (hb_flags b) BLOCK_LAST =? 0).

Definition stats_add (st : heap_stats) (dt du df db dfb : Z) : heap_stats :=
  mk_stats (u64 (total_size st + dt)) (u64 (used_size st + du)) (u64 (free_size st + df))
           (u64 (total_blocks st + db)) (u64 (free_blocks st + dfb)).

Section heap.
Context {V : Type} `{!Paging V}.
Implicit Types s : heap V.

Definition set_headers s h : heap V := mk_heap (heap_start s) h (heap_statistics s) (bytes s) (heap_pages s).
Definition set_stats s st : heap V := mk_heap (heap_start s) (headers s) st (bytes s) (heap_pages s).
Definition set_vm s v : heap V := mk_heap (heap_start s) (headers s) (heap_statistics s) (bytes s) v.
Definition set_bytes s b : heap V := mk_heap (heap_start s) (headers s) (heap_statistics s) b (heap_pages s).

(** Loads and stores of headers. *)
Definition load s (p : Z) : option heap_block := headers s !! p.
Definition store (p : Z) (b : heap_block) s : heap V := set_headers s (<[p := b]> (headers s)).
(** [p->field = ...] *)
Definition modify (p : Z) (f : heap_block → heap_block) s : option (heap V) :=
  b ← load s p; Some (store p (f b) s).

(** The updates of the statistics counters. *)
Definition add_stats (dt du df db dfb : Z) s : heap V :=
  set_stats s (stats_add (heap_statistics s) dt du df db dfb).

(** The list walk; [Some 0] is the result NULL. *)
Fixpoint find_from (fuel : nat) s (current size : Z) : option Z :=
  match fuel with
  | O => None
  | S fuel =>
      if current =? 0 then Some 0 else
      b ← load s current;
      if is_free b && (u64 (size + HEADER_SIZE) <=? hb_size b) then Some current
      else if is_last b then Some 0
      else find_from fuel s (hb_next b) size
  end.

Definition list_fuel s : nat := S (size (headers s)).

Definition find_free_block s (size : Z) : option Z := find_from (list_fuel s) s (heap_start s) size.

Fixpoint find_last (fuel : nat) s (last : Z) : option Z :=
  match fuel with
  | O => None
  | S fuel => b ← load s last; if is_last b then Some last else find_last fuel s (hb_next b)
  end.

Definition MAP_RW : Z := 3.

(** Mapping the pages of a new block; on failure the pages mapped so far are
    unmapped. *)
Fixpoint unmap_pages (new_block : Z) (js : list Z) (v : V) : V :=
  match js with
  | [] => v
  | j :: js => unmap_pages new_block js (snd (pg_unmap (u64 (new_block + j * HEAP_PAGE_SIZE)) v))
  end.

Fixpoint map_pages (new_block : Z) (idxs : list Z) (v : V) : bool * V :=
  match idxs with
  | [] => (true, v)
  | i :: idxs =>
      let '(phys, v) := pg_alloc v in
      if phys =? 0 then (false, unmap_pages new_block (seqZ 0 i) v)
      else
        let '(ok, v) := pg_map (u64 (new_block + i * HEAP_PAGE_SIZE)) phys MAP_RW v in
        if ok then map_pages new_block idxs v
        else (false, unmap_pages new_block (seqZ 0 i) v)
  end.

Definition pages_for (size : Z) : Z := u64 (size + HEADER_SIZE + HEAP_PAGE_SIZE - 1) / HEAP_PAGE_SIZE.

Definition expand_heap (size : Z) s : option (Z * heap V) :=
  let pages_needed := pages_for size in
  let '(new_mem, v) := pg_alloc (heap_pages s) in
  let s := set_vm s v in
  if new_mem =? 0 then Some (0, s) else
  last ← find_last (list_fuel s) s (heap_start s);
  lb ← load s last;
  let new_block := u64 (last + hb_size lb) in
  let '(ok, v) := map_pages new_block (seqZ 0 pages_needed) (heap_pages s) in
  let s := set_vm s v in
  if negb ok then Some (0, s) else
  let nb := mk_block HEAP_BLOCK_MAGIC (u32 (pages_needed * HEAP_PAGE_SIZE))
                     (Z.lor BLOCK_FREE BLOCK_LAST) 0 last in
  let s := store new_block nb s in
  s ← modify last (λ b, set_next (set_flags b (Z.land (hb_flags b) (Z.lnot BLOCK_LAST))) new_block) s;
  Some (new_block, add_stats (hb_size nb) 0 (hb_size nb) 1 1 s).

Definition split_block (block size : Z) s : option (heap V) :=
  b ← load s block;
  let remaining := u64 (hb_size b - size - HEADER_SIZE) in
  if remaining <? HEAP_MIN_BLOCK_SIZE then Some s else
  let new_block := u64 (block + size + HEADER_SIZE) in
  let flags := if is_last b then Z.lor BLOCK_FREE BLOCK_LAST else BLOCK_FREE in
  let s := store new_block (mk_block HEAP_BLOCK_MAGIC (u32 remaining) flags (hb_next b) block) s in
  s ← (if hb_next b =? 0 then Some s else modify (hb_next b) (λ n, set_prev n new_block) s);
  s ← modify block (λ b, set_flags (set_size (set_next b new_block) (u32 (size + HEADER_SIZE)))
                                   (Z.land (hb_flags b) (Z.lnot BLOCK_LAST))) s;
  Some (add_stats 0 0 0 1 1 s).

Fixpoint merge_loop (fuel : nat) (block : Z) s : option (heap V) :=
  match fuel with
  | O => None
  | S fuel =>
      b ← load s block;
      if hb_next b =? 0 then Some s else
      n ← load s (hb_next b);
      if negb (is_free n) then Some s else
      let s := store block (mk_block (hb_magic b) (u32 (hb_size b + hb_size n))
                              (Z.lor (hb_flags b) (Z.land (hb_flags n) BLOCK_LAST))
                              (hb_next n) (hb_prev b)) s in
      s ← (if hb_next n =? 0 then Some s else modify (hb_next n) (λ x, set_prev x block) s);
      merge_loop fuel block (add_stats 0 0 0 (-1) (-1) s)
  end.

Definition merge_free_blocks (block : Z) s : option (heap V) := merge_loop (list_fuel s) block s.

Definition heap_init s : bool * heap V :=
  let '(heap_mem, v) := pg_alloc (heap_pages s) in
  let s := set_vm s v in
  if heap_mem =? 0 then (false, s) else
  let '(ok, v) := pg_map heap_mem heap_mem MAP_RW (heap_pages s) in
  if negb ok then (false, set_vm s (pg_free heap_mem v)) else
  (true, mk_heap heap_mem
           (<[heap_mem := mk_block HEAP_BLOCK_MAGIC HEAP_PAGE_SIZE (Z.lor BLOCK_FREE BLOCK_LAST) 0 0]> (headers s))
           (mk_stats HEAP_PAGE_SIZE 0 HEAP_PAGE_SIZE 1 1) (bytes s) v).

(** [(size + 7) & ~7] on [size_t]. *)
Definition align8 (size : Z) : Z := Z.land (u64 (size + 7)) 18446744073709551608.

(** The second half of [heap_alloc]: split the block and mark it used. *)
Definition take_block (block size : Z) s : option (Z * heap V) :=
  s ← split_block block size s;
  s ← modify block (λ b, set_flags b (Z.land (hb_flags b) (Z.lnot BLOCK_FREE))) s;
  b ← load s block;
  Some (u64 (block + HEADER_SIZE), add_stats 0 (hb_size b) (- hb_size b) 0 (-1) s).

Definition heap_alloc (size : Z) s : option (Z * heap V) :=
  if size =? 0 then Some (0, s) else
  let size := align8 size in
  block ← find_free_block s size;
  '(block, s) ← (if block =? 0 then expand_heap size s else Some (block, s));
  if block =? 0 then Some (0, s) else
  take_block block size s.

Definition heap_free (ptr : Z) s : option (heap V) :=
  if ptr =? 0 then Some s else
  let block := u64 (ptr - HEADER_SIZE) in
  b ← load s block;
  if negb (hb_magic b =? HEAP_BLOCK_MAGIC) then Some s else
  let s := store block (set_flags b (Z.lor (hb_flags b) BLOCK_FREE)) s in
  let s := add_stats 0 (- hb_size b) (hb_size b) 0 1 s in
  s ← merge_free_blocks block s;
  b ← load s block;
  if hb_prev b =? 0 then Some s else
  p ← load s (hb_prev b);
  if is_free p then merge_free_blocks (hb_prev b) s else Some s.

Definition heap_realloc (ptr size : Z) s : option (Z * heap V) :=
  if ptr =? 0 then heap_alloc size s else
  if size =? 0 then s ← heap_free ptr s; Some (0, s) else
  let block := u64 (ptr - HEADER_SIZE) in
  b ← load s block;
  if negb (hb_magic b =? HEAP_BLOCK_MAGIC) then Some (0, s) else
  let old_size := u64 (hb_size b - HEADER_SIZE) in
  if size <=? old_size then s ← split_block block size s; Some (ptr, s) else
  fits ← (if hb_next b =? 0 then Some false
          else n ← load s (hb_next b);
               Some (is_free n && (u64 (size + HEADER_SIZE) <=? u32 (hb_size b + hb_size n))));
  if (fits : bool) then
    s ← merge_free_blocks block s;
    s ← split_block block size s;
    Some (ptr, s)
  else
    '(new_ptr, s) ← heap_alloc size s;
    if new_ptr =? 0 then Some (0, s) else
    let s := set_bytes s (memcpy new_ptr ptr old_size (bytes s)) in
    s ← heap_free ptr s;
    Some (new_ptr, s).

Definition heap_get_stats s : heap_stats := heap_statistics s.

(** [heap_check]: the walk accumulates sizes and counts; [None] for the answer
    [false] inside the loop. *)
Fixpoint check_loop (fuel : nat) s (current : Z) (acc : heap_stats) : option (option heap_stats) :=
  match fuel with
  | O => None
  | S fuel =>
      if current =? 0 then Some (Some acc) else
      b ← load s current;
      if negb (hb_magic b =? HEAP_BLOCK_MAGIC) then Some None else
      bad_next ← (if hb_next b =? 0 then Some false
                  else n ← load s (hb_next b); Some (negb (hb_prev n =? current)));
      if (bad_next : bool) then Some None else
      bad_prev ← (if hb_prev b =? 0 then Some false
                  else p ← load s (hb_prev b); Some (negb (hb_next p =? current)));
      if (bad_prev : bool) then Some None else
      let sz := hb_size b in
      let acc := mk_stats (u64 (total_size acc + sz))
                   (if is_free b then used_size acc else u64 (used_size acc + sz))
                   (if is_free b then u64 (free_size acc + sz) else free_size acc)
                   (u64 (total_blocks acc + 1))
                   (if is_free b then u64 (free_blocks acc + 1) else free_blocks acc) in
      if is_last b then Some (Some acc) else check_loop fuel s (hb_next b) acc
  end.

Definition heap_check s : option bool :=
  r ← check_loop (list_fuel s) s (heap_start s) (mk_stats 0 0 0 0 0);
  match r with
  | None => Some false
  | Some a =>
      let st := heap_statistics s in
      Some ((total_size a =? total_size st) && (used_size a =? used_size st) &&
            (free_size a =? free_size st) && (total_blocks a =? total_blocks st) &&
            (free_blocks a =? free_blocks st))
  end.

(** [utils/mem.c] *)
Definition malloc (size : Z) s : option (Z * heap V) := heap_alloc size s.
Definition free (ptr : Z) s : option (heap V) := heap_free ptr s.
Definition realloc (ptr size : Z) s : option (Z * heap V) := heap_realloc ptr size s.

(** ** The block list *)

Record blk := mk_blk { b_addr : Z; b_size : Z; b_free : bool }.
Implicit Types l pre post fr : list blk.
Implicit Types b c : blk.

Definition flag_word (fr la : bool) : Z := Z.lor (if fr then BLOCK_FREE else 0) (if la then BLOCK_LAST else 0).
Definition next_or l (nxt : Z) : Z := match l with [] => nxt | b :: _ => b_addr b end.
Fixpoint last_addr (prev : Z) l : Z := match l with [] => prev | b :: l => last_addr (b_addr b) l end.
Fixpoint total l : Z := match l with [] => 0 | b :: l => b_size b + total l end.

(** The header of a block between [prev] and [nxt]. *)
Definition hdr (prev : Z) b (nxt : Z) : heap_block :=
  mk_block HEAP_BLOCK_MAGIC (b_size b) (flag_word (b_free b) (nxt =? 0)) nxt prev.

(** The headers of a segment of the list, and its layout in memory. *)
Fixpoint seg (h : gmap Z heap_block) (prev : Z) l (nxt : Z) : Prop :=
  match l with
  | [] => True
  | b :: l => h !! b_addr b = Some (hdr prev b (next_or l nxt)) ∧ seg h (b_addr b) l nxt
  end.
Fixpoint tiles (start : Z) l : Prop :=
  match l with
  | [] => True
  | b :: l => b_addr b = start ∧ HEADER_SIZE <= b_size b ∧ tiles (start + b_size b) l
  end.

(** The statistics a block list should have. *)
Fixpoint total_of (fr : bool) l : Z :=
  match l with [] => 0 | b :: l => (if Bool.eqb (b_free b) fr then b_size b else 0) + total_of fr l end.
Definition stats_of l : heap_stats :=
  mk_stats (total l) (total_of false l) (total_of true l) (Z.of_nat (length l)) (count b_free l).

Record linked s l : Prop := {
  lk_start : 0 < heap_start s < 4294967296;
  lk_total : total l < 4294967296;
  lk_tiles : tiles (heap_start s) l;
  lk_seg : seg (headers s) 0 l 0;
}.

Lemma is_free_hdr prev b nxt : is_free (hdr prev b nxt) = b_free b.
Proof. unfold is_free, hdr, flag_word; simpl. by destruct (b_free b), (nxt =? 0). Qed.

Lemma is_last_hdr prev b nxt : is_last (hdr prev b nxt) = (nxt =? 0).
Proof. unfold is_last, hdr, flag_word; simpl. by destruct (b_free b), (nxt =? 0). Qed.

Lemma total_app l1 l2 : total (l1 ++ l2) = total l1 + total l2.
Proof. induction l1; simpl; lia. Qed.

Lemma next_or_app l1 l2 nxt : next_or (l1 ++ l2) nxt = next_or l1 (next_or l2 nxt).
Proof. by destruct l1. Qed.

Lemma last_addr_app prev l1 l2 : last_addr prev (l1 ++ l2) = last_addr (last_addr prev l1) l2.
Proof. revert prev. induction l1; intros; simpl; auto. Qed.

Lemma seg_app h prev l1 l2 nxt :
  seg h prev (l1 ++ l2) nxt ↔ seg h prev l1 (next_or l2 nxt) ∧ seg h (last_addr prev l1) l2 nxt.
Proof.
  revert prev. induction l1 as [|b l1 IH]; intros prev; simpl; [tauto|].
  rewrite IH, next_or_app. tauto.
Qed.

Lemma tiles_app start l1 l2 : tiles start (l1 ++ l2) ↔ tiles start l1 ∧ tiles (start + total l1) l2.
Proof.
  revert start. induction l1 as [|b l1 IH]; intros start; simpl; [by rewrite Z.add_0_r; tauto|].
  rewrite IH, Z.add_assoc. tauto.
Qed.

Lemma tiles_total start l : tiles start l → 0 <= total l.
Proof. revert start. induction l as [|b l IH]; intros start; simpl; [lia|]. intros (_ & ? & H%IH). hlia. Qed.

Lemma tiles_in start l b : tiles start l → b ∈ l → start <= b_addr b ∧ b_addr b + b_size b <= start + total l.
Proof.
  revert start. induction l as [|c l IH]; intros start; [set_solver|]. simpl.
  intros (Hc & Hs & Ht) Hb. pose proof (tiles_total _ _ Ht). apply elem_of_cons in Hb as [->|Hb]; [lia|].
  apply (IH _ Ht) in Hb. hlia.
Qed.

Lemma tiles_next start l : tiles start l → 0 < start → (next_or l 0 =? 0) = match l with [] => true | _ => false end.
Proof. destruct l as [|b l]; [done|]. intros (Ha & _) ?. apply Z.eqb_neq. simpl. lia. Qed.

Lemma tiles_size start l b : tiles start l → b ∈ l → HEADER_SIZE <= b_size b.
Proof.
  revert start. induction l as [|c l IH]; intros start; [set_solver|]. intros (_ & ? & Ht) [->|Hb]%elem_of_cons; eauto.
Qed.

(** Headers outside a segment do not matter to it. *)
Lemma seg_frame h h' prev l nxt :
  (∀ b, b ∈ l → h' !! b_addr b = h !! b_addr b) → seg h prev l nxt → seg h' prev l nxt.
Proof.
  revert prev. induction l as [|b l IH]; intros prev Hh; simpl; [done|]. intros [Hb Hl].
  split; [rewrite Hh; [done|left]|]. apply IH; [|done]. intros c Hc. apply Hh. by right.
Qed.

(** Everything about a block in the middle of the list. *)
Lemma linked_at s pre b post :
  linked s (pre ++ b :: post) →
  headers s !! b_addr b = Some (hdr (last_addr 0 pre) b (next_or post 0)) ∧
  b_addr b = heap_start s + total pre ∧ HEADER_SIZE <= b_size b ∧
  0 <= total pre ∧ 0 <= total post ∧
  total (pre ++ b :: post) = total pre + b_size b + total post ∧
  tiles (b_addr b + b_size b) post ∧
  (∀ c, c ∈ pre → b_addr c + b_size c <= b_addr b ∧ HEADER_SIZE <= b_size c ∧ heap_start s <= b_addr c) ∧
  (∀ c, c ∈ post → b_addr b + b_size b <= b_addr c).
Proof.
  intros [Hst Htot Ht Hs]. apply seg_app in Hs as [_ [Hb _]].
  apply tiles_app in Ht as [Hpre (Ha & Hsz & Hpost)]. rewrite <- Ha in Hpost.
  split_and!; try done.
  - by eapply tiles_total.
  - by eapply tiles_total.
  - rewrite total_app. simpl. lia.
  - intros c Hc. pose proof (tiles_size _ _ _ Hpre Hc). apply (tiles_in _ _ _ Hpre) in Hc. lia.
  - intros c Hc. apply (tiles_in _ _ _ Hpost) in Hc. lia.
Qed.

(** Replacing the middle of the list. *)
Lemma linked_replace s s' pre mid mid' post :
  linked s (pre ++ mid ++ post) →
  heap_start s' = heap_start s → total mid' = total mid →
  mid ≠ [] → next_or mid' 0 = next_or mid 0 → mid' ≠ [] →
  tiles (heap_start s + total pre) mid' →
  (∀ c, c ∈ pre → headers s' !! b_addr c = headers s !! b_addr c) →
  seg (headers s') (last_addr 0 pre) mid' (next_or post 0) →
  seg (headers s') (last_addr (last_addr 0 pre) mid') post 0 →
  linked s' (pre ++ mid' ++ post).
Proof.
  intros [Hst Htot Ht Hs] Hstart Hmt Hne Hnext Hne' Hm' Hpre Hmid Hpost.
  split; [by rewrite Hstart| |..].
  - by rewrite !total_app, Hmt, <- !total_app.
  - rewrite Hstart. rewrite !tiles_app in Ht |- *. rewrite Hmt. tauto.
  - rewrite !seg_app in Hs |- *. destruct Hs as (Hs & _ & _). split; [|split; done].
    eapply seg_frame; [exact Hpre|]. replace (next_or (mid' ++ post) 0) with (next_or (mid ++ post) 0); [done|].
    destruct mid, mid'; simpl in *; congruence.
Qed.

(** ** The steps of the operations on a linked heap *)

(** A state that differs in headers and counters only. *)
Definition upd s h st : heap V := mk_heap (heap_start s) h st (bytes s) (heap_pages s).

Lemma linked_stats s h st st' l : linked (upd s h st) l → linked (upd s h st') l.
Proof. by intros [? ? ? ?]. Qed.

(** The first block after the change gets a new predecessor. *)
Lemma relink s p p' st post :
  tiles st post → 0 < st → seg (headers s) p post 0 →
  ∃ h', (if next_or post 0 =? 0 then Some s else modify (next_or post 0) (λ n, set_prev n p') s)
          = Some (upd s h' (heap_statistics s)) ∧
        seg h' p' post 0 ∧ ∀ a, a ≠ next_or post 0 → h' !! a = headers s !! a.
Proof.
  intros Ht Hst Hs. pose proof (tiles_next st post Ht Hst) as Hn. destruct post as [|c post].
  { exists (headers s). rewrite Hn. by destruct s. }
  destruct Hs as [Hc Hs]. destruct Ht as (Ha & Hsz & Ht).
  rewrite Hn. unfold modify, load. simpl next_or. rewrite Hc. simpl.
  exists (<[b_addr c := set_prev (hdr p c (next_or post 0)) p']> (headers s)). split_and!; [done| | |].
  - by rewrite lookup_insert_eq.
  - eapply seg_frame; [|exact Hs]. intros d Hd. apply lookup_insert_ne.
    apply (tiles_in _ _ _ Ht) in Hd. hlia.
  - intros a Hne. by apply lookup_insert_ne.
Qed.

(** Splitting. *)
Definition carve b (size : Z) : list blk :=
  if b_size b - size - HEADER_SIZE <? HEAP_MIN_BLOCK_SIZE then [b]
  else [mk_blk (b_addr b) (size + HEADER_SIZE) (b_free b);
        mk_blk (b_addr b + size + HEADER_SIZE) (b_size b - size - HEADER_SIZE) true].

Definition carve_stats (st : heap_stats) b size : heap_stats :=
  if b_size b - size - HEADER_SIZE <? HEAP_MIN_BLOCK_SIZE then st else stats_add st 0 0 0 1 1.

Lemma split_block_spec s pre b post size :
  linked s (pre ++ b :: post) → 0 <= size → size + HEADER_SIZE <= b_size b →
  ∃ h', split_block (b_addr b) size s = Some (upd s h' (carve_stats (heap_statistics s) b size)) ∧
        linked (upd s h' (carve_stats (heap_statistics s) b size)) (pre ++ carve b size ++ post).
Proof.
  intros Hl Hsize Hfit. pose proof (linked_at s pre b post Hl) as (Hb & Ha & Hsz & Hp1 & Hp2 & Htot & Htp & Hpre & Hpost).
  pose proof (lk_start s _ Hl). pose proof (lk_total s _ Hl).
  unfold split_block, load, carve, carve_stats. rewrite Hb. cbn [mbind option_bind hb_size hb_next hdr].
  rewrite u64_small by (unfold is_u64; hlia). destruct (_ <? HEAP_MIN_BLOCK_SIZE) eqn:Hsmall; zbool.
  { exists (headers s). replace (upd s (headers s) (heap_statistics s)) with s by by destruct s. done. }
  rewrite is_last_hdr, u64_small, !u32_small by (unfold is_u64, is_u32; hlia).
  set (na := b_addr b + size + HEADER_SIZE). set (nb := mk_block _ _ _ _ _).
  pose proof (lk_seg s _ Hl) as Hseg. apply seg_app in Hseg as [_ [_ Hseg]].
  destruct (relink (store na nb s) (b_addr b) na (b_addr b + b_size b) post) as (h1 & Hrel & Hs1 & Hk1); [done|hlia| |].
  { eapply seg_frame; [|exact Hseg]. intros c Hc. apply lookup_insert_ne. apply Hpost in Hc. unfold na. hlia. }
  rewrite Hrel. cbn [mbind option_bind]. unfold modify, load. cbn [headers upd].
  assert (Hnn : next_or post 0 ≠ b_addr b ∧ next_or post 0 ≠ na).
  { destruct post as [|c post']; simpl; [unfold na; hlia|]. pose proof (Hpost c ltac:(left)). unfold na. hlia. }
  rewrite Hk1 by (intros ?; by destruct Hnn). cbn [headers store set_headers].
  rewrite lookup_insert_ne by (unfold na; hlia). rewrite Hb. cbn [mbind option_bind].
  eexists. split; [reflexivity|].
  apply (linked_replace s _ pre [b] _ post); try done; simpl; [unfold HEADER_SIZE; lia|unfold na; hlia|..].
  - intros c Hc. apply Hpre in Hc. rewrite lookup_insert_ne by hlia. rewrite Hk1.
    + cbn [headers store set_headers]. apply lookup_insert_ne. unfold na. hlia.
    + destruct post as [|d post']; simpl; [|pose proof (Hpost d ltac:(left))]; intros; subst; hlia.
  - rewrite lookup_insert_eq. unfold na. split; [|split; [|done]].
    + unfold hdr, set_next, set_size, set_flags, flag_word; simpl. repeat f_equal.
      rewrite (proj2 (Z.eqb_neq (b_addr b + size + HEADER_SIZE) 0)) by hlia.
      by destruct (b_free b), (next_or post 0 =? 0).
    + rewrite lookup_insert_ne by hlia. rewrite Hk1 by (intros ?; by destruct Hnn).
      cbn [headers store set_headers]. unfold na. rewrite lookup_insert_eq. unfold nb, hdr, flag_word. simpl. by destruct (next_or post 0 =? 0).
  - eapply seg_frame; [|exact Hs1]. intros c Hc. apply lookup_insert_ne. apply Hpost in Hc. hlia.
Qed.

(** Marking a block free or used. *)
Definition mark b (fr : bool) : blk := mk_blk (b_addr b) (b_size b) fr.

Lemma hdr_mark_free prev b nxt :
  set_flags (hdr prev b nxt) (Z.lor (hb_flags (hdr prev b nxt)) BLOCK_FREE) = hdr prev (mark b true) nxt.
Proof. unfold hdr, set_flags, flag_word, mark; simpl. by destruct (b_free b), (nxt =? 0). Qed.

Lemma hdr_mark_used prev b nxt :
  set_flags (hdr prev b nxt) (Z.land (hb_flags (hdr prev b nxt)) (Z.lnot BLOCK_FREE)) = hdr prev (mark b false) nxt.
Proof. unfold hdr, set_flags, flag_word, mark; simpl. by destruct (b_free b), (nxt =? 0). Qed.

Lemma mark_linked s pre b post v :
  linked s (pre ++ b :: post) →
  linked (store (b_addr b) (hdr (last_addr 0 pre) (mark b v) (next_or post 0)) s) (pre ++ mark b v :: post).
Proof.
  intros Hl. pose proof (linked_at s pre b post Hl) as (Hb & Ha & Hsz & Hp1 & Hp2 & Htot & Htp & Hpre & Hpost).
  pose proof (lk_seg s _ Hl) as Hseg. apply seg_app in Hseg as [_ [_ Hseg]].
  apply (linked_replace s _ pre [b] [mark b v] post); try done; simpl.
  - intros c Hc. apply lookup_insert_ne. apply Hpre in Hc. hlia.
  - by rewrite lookup_insert_eq.
  - eapply seg_frame; [|exact Hseg]. intros c Hc. apply lookup_insert_ne. apply Hpost in Hc. hlia.
Qed.

(** Absorbing the blocks [fr] that follow. *)
Definition absorb b fr : blk := mk_blk (b_addr b) (b_size b + total fr) (b_free b).

Fixpoint merged_stats (st : heap_stats) (n : nat) : heap_stats :=
  match n with O => st | S n => merged_stats (stats_add st 0 0 0 (-1) (-1)) n end.

(** One round of the merge loop. *)
Lemma merge_one s pre b n post :
  linked s (pre ++ b :: n :: post) →
  let b' := hdr (last_addr 0 pre) (absorb b [n]) (next_or post 0) in
  ∃ h', (if next_or post 0 =? 0 then Some (store (b_addr b) b' s)
         else modify (next_or post 0) (λ x, set_prev x (b_addr b)) (store (b_addr b) b' s))
          = Some (upd s h' (heap_statistics s)) ∧
        linked (upd s h' (heap_statistics s)) (pre ++ absorb b [n] :: post).
Proof.
  intros Hl b'. pose proof (linked_at s pre b (n :: post) Hl) as (Hb & Ha & Hsz & Hp1 & Hp2 & Htot & Htp & Hpre & Hpost).
  pose proof (lk_start s _ Hl). destruct Htp as (Hn & Hnsz & Htp).
  pose proof (lk_seg s _ Hl) as Hseg. apply seg_app in Hseg as [_ [_ [_ Hseg]]].
  destruct (relink (store (b_addr b) b' s) (b_addr n) (b_addr b) (b_addr b + b_size b + b_size n) post)
    as (h1 & Hrel & Hs1 & Hk1); [done|hlia| |].
  { eapply seg_frame; [|exact Hseg]. intros c Hc. apply lookup_insert_ne.
    apply (tiles_in _ _ _ Htp) in Hc. hlia. }
  exists h1. split; [exact Hrel|].
  assert (Hnn : ∀ a, 0 < a → a <= b_addr b → a ≠ next_or post 0).
  { intros a Ha1 Ha2. destruct post as [|d post']; simpl; [lia|].
    destruct Htp as (-> & _). hlia. }
  apply (linked_replace s _ pre [b; n] [absorb b [n]] post); try done; simpl.
  - lia.
  - split; [done|split; [hlia|done]].
  - intros c Hc. apply Hpre in Hc. rewrite Hk1 by (apply Hnn; hlia). apply lookup_insert_ne. hlia.
  - rewrite Hk1 by (apply Hnn; hlia). simpl. rewrite lookup_insert_eq. done.
Qed.

(** The loop absorbs exactly the run of free blocks that follows. *)
Lemma merge_loop_spec fuel s pre b fr post :
  (length fr < fuel)%nat → linked s (pre ++ b :: fr ++ post) →
  Forall (λ c, b_free c = true) fr → match post with c :: _ => b_free c = false | [] => True end →
  ∃ h', merge_loop fuel (b_addr b) s = Some (upd s h' (merged_stats (heap_statistics s) (length fr))) ∧
        linked (upd s h' (merged_stats (heap_statistics s) (length fr))) (pre ++ absorb b fr :: post).
Proof.
  revert s b fuel. induction fr as [|n fr IH]; intros s b fuel Hfuel Hl Hfr Hpost;
    (destruct fuel as [|fuel]; [simpl in Hfuel; lia|]); simpl merge_loop;
    pose proof (linked_at s _ _ _ Hl) as (Hb & _); unfold load; rewrite Hb;
    cbn [mbind option_bind hb_next hb_size hb_magic hb_flags hb_prev hdr].
  - simpl app in *. exists (headers s). simpl merged_stats.
    replace (upd s (headers s) (heap_statistics s)) with s by by destruct s.
    replace (absorb b []) with b by (destruct b; unfold absorb; simpl; f_equal; lia).
    split; [|done]. pose proof (linked_at s _ _ _ Hl) as (_ & Ha & Hsz & Hp1 & _ & _ & Htp & _).
    pose proof (lk_start s _ Hl). rewrite (tiles_next _ _ Htp) by hlia.
    destruct post as [|c post]; [done|]. simpl next_or.
    pose proof (lk_seg s _ Hl) as Hseg. apply seg_app in Hseg as [_ [_ [Hc _]]]. rewrite Hc.
    cbn [mbind option_bind]. rewrite is_free_hdr. by rewrite Hpost.
  - apply Forall_cons in Hfr as [Hn Hfr]. simpl app in *.
    pose proof (linked_at s _ _ _ Hl) as (_ & Ha & Hsz & Hp1 & Hp2 & Htot & Htp & _).
    pose proof (lk_start s _ Hl). pose proof (lk_total s _ Hl). rewrite (tiles_next _ _ Htp) by hlia.
    simpl next_or. pose proof (lk_seg s _ Hl) as Hseg. apply seg_app in Hseg as [_ [_ [Hc _]]]. rewrite Hc.
    cbn [mbind option_bind]. rewrite is_free_hdr, Hn. cbn [negb hdr hb_next hb_size hb_flags].
    destruct (merge_one s pre b n (fr ++ post) Hl) as (h1 & Hrel & Hl1).
    replace (mk_block HEAP_BLOCK_MAGIC _ _ _ _) with (hdr (last_addr 0 pre) (absorb b [n]) (next_or (fr ++ post) 0)).
    2:{ unfold hdr, absorb, flag_word. cbn [b_addr b_size b_free total next_or]. destruct Htp as (Hna & Hnsz & Htp').
        pose proof (tiles_total _ _ Htp'). simpl in Htot.
        rewrite u32_small by (unfold is_u32; simpl in *; hlia). rewrite Z.add_0_r.
        f_equal. by destruct (b_free b), (b_free n), (next_or (fr ++ post) 0 =? 0). }
    rewrite Hrel. cbn [mbind option_bind].
    destruct (IH (add_stats 0 0 0 (-1) (-1) (upd s h1 (heap_statistics s))) (absorb b [n]) fuel) as (h2 & Hm & Hl2);
      [simpl in Hfuel; lia|by eapply linked_stats|done|done|].
    exists h2. simpl b_addr in Hm. rewrite Hm. split; [done|].
    replace (absorb b (n :: fr)) with (absorb (absorb b [n]) fr); [done|].
    unfold absorb; simpl. f_equal. lia.
Qed.

(** ** The list walks *)

Lemma tiles_nodup start l : tiles start l → NoDup (b_addr <$> l).
Proof.
  revert start. induction l as [|b l IH]; intros start; simpl; [constructor|]. intros (Ha & Hs & Ht).
  constructor; [|by eapply IH]. intros (c & Hc & Hin)%list_elem_of_fmap.
  apply (tiles_in _ _ _ Ht) in Hin. hlia.
Qed.

Lemma seg_dom h prev l nxt b : seg h prev l nxt → b ∈ l → is_Some (h !! b_addr b).
Proof.
  revert prev. induction l as [|c l IH]; intros prev; [set_solver|]. intros [Hc Hl] [->|Hb]%elem_of_cons; eauto.
Qed.

Lemma linked_fuel s l : linked s l → (length l < list_fuel s)%nat.
Proof.
  intros [_ _ Ht Hs]. unfold list_fuel. apply le_n_S.
  rewrite <- (length_fmap b_addr), <- (size_list_to_set (C := gset Z)) by by eapply tiles_nodup.
  rewrite <- size_dom. apply subseteq_size. intros a Ha. apply elem_of_list_to_set in Ha.
  apply list_elem_of_fmap in Ha as (b & -> & Hb). apply elem_of_dom. by eapply seg_dom.
Qed.

(** First fit. *)
Fixpoint first_fit l (need : Z) : option (list blk * blk * list blk) :=
  match l with
  | [] => None
  | b :: l =>
      if b_free b && (need <=? b_size b) then Some ([], b, l)
      else match first_fit l need with
           | Some (pre, c, post) => Some (b :: pre, c, post)
           | None => None
           end
  end.

Lemma first_fit_spec l need :
  match first_fit l need with
  | Some (pre, c, post) =>
      l = pre ++ c :: post ∧ b_free c = true ∧ need <= b_size c ∧
      ∀ d, d ∈ pre → b_free d = true → b_size d < need
  | None => ∀ d, d ∈ l → b_free d = true → b_size d < need
  end.
Proof.
  induction l as [|b l IH]; simpl; [set_solver|]. destruct (b_free b && _)%bool eqn:Hc.
  - zbool. split_and!; [done..|set_solver].
  - assert (Hb : b_free b = true → b_size b < need).
    { intros Hf. rewrite Hf in Hc. simpl in Hc. zbool. lia. }
    destruct (first_fit l need) as [[[pre c] post]|].
    + destruct IH as (-> & ? & ? & IH). split_and!; [done..|]. intros d [->|Hd]%elem_of_cons; auto.
    + intros d [->|Hd]%elem_of_cons; auto.
Qed.

Lemma find_from_spec fuel s pre l size :
  (length l < fuel)%nat → linked s (pre ++ l) → 0 <= size < 18446744073709551588 →
  find_from fuel s (next_or l 0) size =
    Some (match first_fit l (size + HEADER_SIZE) with Some (_, c, _) => b_addr c | None => 0 end).
Proof.
  revert pre fuel. induction l as [|b l IH]; intros pre fuel Hfuel Hl Hsize;
    (destruct fuel as [|fuel]; [simpl in Hfuel; lia|]); [done|].
  pose proof (linked_at s pre b l Hl) as (Hb & Ha & Hsz & Hp1 & _ & _ & Htp & _). pose proof (lk_start s _ Hl).
  simpl find_from. rewrite (proj2 (Z.eqb_neq (b_addr b) 0)) by lia. unfold load. rewrite Hb.
  cbn [mbind option_bind first_fit]. rewrite is_free_hdr, is_last_hdr, u64_small by (unfold is_u64; hlia).
  cbn [hb_size hdr hb_next]. destruct (b_free b && _)%bool; [done|].
  rewrite (tiles_next _ _ Htp) by hlia. destruct l as [|c l]; [done|].
  rewrite (IH (pre ++ [b])) by first [done | simpl in *; lia | by rewrite <- app_assoc].
  by destruct (first_fit (c :: l) (size + HEADER_SIZE)) as [[[? ?] ?]|].
Qed.

Lemma find_last_spec fuel s pre b l :
  (length (b :: l) < fuel)%nat → linked s (pre ++ b :: l) →
  find_last fuel s (b_addr b) = Some (last_addr 0 (b :: l)).
Proof.
  revert pre b fuel. induction l as [|c l IH]; intros pre b fuel Hfuel Hl;
    (destruct fuel as [|fuel]; [simpl in Hfuel; lia|]);
    pose proof (linked_at s pre b _ Hl) as (Hb & Ha & Hsz & Hp1 & _ & _ & Htp & _); pose proof (lk_start s _ Hl);
    simpl find_last; unfold load; rewrite Hb; cbn [mbind option_bind]; rewrite is_last_hdr; [done|].
  rewrite (tiles_next _ _ Htp) by hlia. cbn [hb_next hdr next_or].
  rewrite (IH (pre ++ [b])) by first [done | simpl in *; lia | by rewrite <- app_assoc]. done.
Qed.

(** ** The pages behind the heap *)

Record backed (start : Z) (v : V) (P : list Z) : Prop := {
  bk_ok : pg_ok v;
  bk_nodup : NoDup P;
  bk_pages : Forall (λ p, page_addr p ∧ pg_held v p) P;
  bk_map k q : P !! k = Some q → pg_pte v (start + HEAP_PAGE_SIZE * Z.of_nat k) = Some (Z.lor (Z.lor q MAP_RW) 1);
}.

(** There are fewer than 2^20 pages below 4 GiB. *)
Lemma pages_bound P : NoDup P → Forall page_addr P → Z.of_nat (length P) < 1048576.
Proof.
  intros Hnd Hpa.
  assert (Hle : (length ((λ p : Z, (p / 4096)%Z) <$> P) <= length (seqZ 1 1048575))%nat).
  { apply submseteq_length, NoDup_submseteq.
    - apply NoDup_fmap_2_strong; [|done]. intros x y Hx Hy Heq.
      rewrite Forall_forall in Hpa. destruct (Hpa x Hx), (Hpa y Hy). Z.to_euclidean_division_equations; lia.
    - intros q (p & -> & Hp)%list_elem_of_fmap. rewrite Forall_forall in Hpa. destruct (Hpa p Hp).
      apply elem_of_seqZ. Z.to_euclidean_division_equations; lia. }
  rewrite length_fmap, length_seqZ in Hle. lia.
Qed.

Lemma backed_bound start v P : backed start v P → Z.of_nat (length P) < 1048576.
Proof.
  intros [_ Hnd Hpa _]. apply pages_bound; [done|]. eapply Forall_impl; [exact Hpa|]. by intros ? [? _].
Qed.

(** Pages of the heap have distinct page numbers. *)
Lemma vpn_page start k k' :
  0 < start < 4294967296 → start mod 4096 = 0 → 0 <= k <= 1048576 → 0 <= k' <= 1048576 →
  vpn (start + HEAP_PAGE_SIZE * k) = vpn (start + HEAP_PAGE_SIZE * k') → k = k'.
Proof. unfold vpn, HEAP_PAGE_SIZE. intros. Z.to_euclidean_division_equations; lia. Qed.

Lemma backed_alloc start v P :
  backed start v P →
  let '(p, v') := pg_alloc v in
  backed start v' P ∧ (p = 0 ∨ (page_addr p ∧ pg_held v' p ∧ p ∉ P)).
Proof.
  intros [Hok Hnd Hpa Hmap]. pose proof (pg_alloc_spec v Hok) as Hspec. destruct (pg_alloc v) as [p v'].
  destruct Hspec as (Hok' & Hpte & Hheld & Hp). rewrite Forall_forall in Hpa. split.
  - split; [done|done| |].
    + apply Forall_forall. intros q Hq. destruct (Hpa q Hq) as [? Hh]. split; [done|]. by apply Hheld.
    + intros k q Hk. rewrite Hpte. by apply Hmap.
  - destruct Hp as [?|[? ?]]; [by left|]. right. split_and!; [done..|]. intros Hin.
    destruct (Hpa p Hin) as [? Hh]. by destruct (Hheld p Hh).
Qed.

Lemma backed_unmap start v P (n : nat) virt :
  0 < start < 4294967296 → start mod 4096 = 0 →
  (length P <= n)%nat → backed start v P → Z.of_nat n < 1048576 →
  virt = start + HEAP_PAGE_SIZE * Z.of_nat n →
  backed start (snd (pg_unmap virt v)) P.
Proof.
  intros Hst Hal Hlen [Hok Hnd Hpa Hmap] Hb ->. pose proof (pg_unmap_spec v (start + HEAP_PAGE_SIZE * Z.of_nat n) Hok) as Hspec.
  destruct (pg_unmap _ v) as [ok v']. destruct Hspec as (Hok' & Hheld & Hpte & _). simpl.
  split; [done|done| |].
  - eapply Forall_impl; [exact Hpa|]. intros q [? ?]. auto.
  - intros k q Hk. apply lookup_lt_Some in Hk as Hlt. rewrite Hpte.
    destruct (_ =? _) eqn:Heq; zbool; [|by apply Hmap]. apply vpn_page in Heq; lia.
Qed.

Lemma backed_take start v P n : backed start v P → backed start v (take n P).
Proof.
  intros [Hok Hnd Hpa Hmap]. split; [done|..].
  - eapply sublist_NoDup; [exact Hnd|]. apply sublist_take.
  - by apply Forall_take.
  - intros k q Hk. apply lookup_take_Some in Hk as [Hk _]. by apply Hmap.
Qed.

Lemma backed_unmap_pages start P js v :
  0 < start < 4294967296 → start mod 4096 = 0 →
  (∀ j, j ∈ js → 0 <= j ∧ Z.of_nat (length P) + j < 1048576) → backed start v P →
  backed start (unmap_pages (start + HEAP_PAGE_SIZE * Z.of_nat (length P)) js v) P.
Proof.
  intros Hst Hal. revert v. induction js as [|j js IH]; intros v Hjs Hb; [done|]. simpl.
  destruct (Hjs j ltac:(left)) as [Hj0 Hj1]. rewrite u64_small by (unfold is_u64; hlia).
  apply IH; [intros; apply Hjs; by right|].
  apply backed_unmap with (length P + Z.to_nat j)%nat; try done; try lia. hlia.
Qed.

Lemma backed_map start v P q :
  0 < start < 4294967296 → start mod 4096 = 0 → backed start v P →
  page_addr q → pg_held v q → q ∉ P →
  let '(ok, v') := pg_map (start + HEAP_PAGE_SIZE * Z.of_nat (length P)) q MAP_RW v in
  backed start v' (if ok then P ++ [q] else P).
Proof.
  intros Hst Hal Hb Hq Hheld Hnin. pose proof (backed_bound _ _ _ Hb) as Hlen. destruct Hb as [Hok Hnd Hpa Hmap].
  pose proof (pg_map_spec v (start + HEAP_PAGE_SIZE * Z.of_nat (length P)) q MAP_RW Hok ltac:(unfold MAP_RW; lia)) as Hspec.
  destruct (pg_map _ q MAP_RW v) as [ok v']. destruct Hspec as (Hok' & Hh & Hpte).
  assert (Hpa' : Forall (λ p, page_addr p ∧ pg_held v' p) P).
  { eapply Forall_impl; [exact Hpa|]. intros p [? ?]. auto. }
  destruct ok.
  - split; [done| | |].
    + apply NoDup_app. split_and!; [done|set_solver|apply NoDup_singleton].
    + apply Forall_app. split; [done|]. constructor; [|constructor]. auto.
    + intros k p Hk. rewrite Hpte. apply lookup_app_Some in Hk as [Hk|[Hk1 Hk]].
      * apply lookup_lt_Some in Hk as Hlt. destruct (_ =? _) eqn:Heq; zbool; [|by apply Hmap].
        apply vpn_page in Heq; lia.
      * apply list_lookup_singleton_Some in Hk as [Hk <-]. replace k with (length P) by lia. by rewrite Z.eqb_refl.
  - split; [done..|]. intros k p Hk. rewrite Hpte. by apply Hmap.
Qed.

Lemma map_pages_spec start n v P0 P1 :
  0 < start < 4294967296 → start mod 4096 = 0 → backed start v (P0 ++ P1) →
  let '(ok, v') := map_pages (start + HEAP_PAGE_SIZE * Z.of_nat (length P0))
                     (seqZ (Z.of_nat (length P1)) (Z.of_nat n)) v in
  if ok then ∃ P2, length P2 = n ∧ backed start v' ((P0 ++ P1) ++ P2) else backed start v' P0.
Proof.
  intros Hst Hal. revert v P1. induction n as [|n IH]; intros v P1 Hb.
  { simpl. exists []. by rewrite app_nil_r. }
  rewrite seqZ_cons by lia. simpl map_pages.
  assert (Hcut : ∀ v, backed start v (P0 ++ P1) →
            backed start (unmap_pages (start + HEAP_PAGE_SIZE * Z.of_nat (length P0)) (seqZ 0 (Z.of_nat (length P1))) v) P0).
  { intros v2 Hb2. pose proof (backed_bound _ _ _ Hb2) as Hbd. rewrite length_app in Hbd.
    apply backed_unmap_pages; [done..| |].
    - intros j Hj. apply elem_of_seqZ in Hj. lia.
    - apply (backed_take _ _ _ (length P0)) in Hb2. by rewrite take_app_length in Hb2. }
  pose proof (backed_bound _ _ _ Hb) as Hbd. rewrite length_app in Hbd.
  pose proof (backed_alloc _ _ _ Hb) as Ha. destruct (pg_alloc v) as [phys v1]. destruct Ha as [Hb1 Hphys].
  destruct (phys =? 0) eqn:?; zbool; [by apply Hcut|]. destruct Hphys as [?|(Hpp & Hph & Hpn)]; [done|].
  rewrite u64_small by (unfold is_u64; hlia).
  pose proof (backed_map start v1 (P0 ++ P1) phys Hst Hal Hb1 Hpp Hph Hpn) as Hm.
  replace (start + HEAP_PAGE_SIZE * Z.of_nat (length P0) + Z.of_nat (length P1) * HEAP_PAGE_SIZE)
    with (start + HEAP_PAGE_SIZE * Z.of_nat (length (P0 ++ P1))) by (rewrite length_app; hlia).
  destruct (pg_map _ phys MAP_RW v1) as [[] v2]; [|by apply Hcut].
  rewrite <- app_assoc in Hm. specialize (IH v2 (P1 ++ [phys]) Hm). rewrite length_app in IH. simpl in IH.
  replace (Z.of_nat (length P1 + 1)) with (Z.succ (Z.of_nat (length P1))) in IH by lia.
  replace (Z.of_nat (S n) - 1) with (Z.of_nat n) by lia.
  replace (Z.pred (Z.of_nat (S n))) with (Z.of_nat n) by lia.
  destruct (map_pages _ _ v2) as [[] v3]; [|done]. destruct IH as (P2 & Hl2 & HP2).
  exists (phys :: P2). split; [simpl; by rewrite Hl2|]. 
  assert (Heq : (P0 ++ P1) ++ phys :: P2 = (P0 ++ P1 ++ [phys]) ++ P2) by by rewrite <- !app_assoc.
  by rewrite Heq.
Qed.

(** The representation invariant of the heap. *)
Record represents s l : Prop := {
  rp_linked : linked s l;
  rp_nonempty : l ≠ [];
  rp_align : heap_start s mod 4096 = 0;
  rp_pages : ∃ P, backed (heap_start s) (heap_pages s) P ∧ total l = HEAP_PAGE_SIZE * Z.of_nat (length P);
}.

(** Appending a block at the end. *)
Lemma append_linked s s' l lb nb :
  linked s (l ++ [lb]) → heap_start s' = heap_start s → b_addr nb = b_addr lb + b_size lb →
  HEADER_SIZE <= b_size nb → total (l ++ [lb]) + b_size nb < 4294967296 →
  headers s' = <[b_addr lb := hdr (last_addr 0 l) lb (b_addr nb)]> (<[b_addr nb := hdr (b_addr lb) nb 0]> (headers s)) →
  linked s' (l ++ [lb; nb]).
Proof.
  intros Hl Hst Hn Hsz Htot Hh. pose proof (linked_at s l lb [] Hl) as (Hb & Ha & Hlsz & Hp1 & _ & Ht & _ & Hpre & _).
  destruct Hl as [Hs0 _ Htl Hsg]. split; [by rewrite Hst| |..].
  - rewrite total_app in *. simpl in *. lia.
  - rewrite Hst. apply tiles_app in Htl as [? (? & ? & _)]. apply tiles_app. split; [done|].
    simpl. split_and!; try done. lia.
  - rewrite Hh. apply seg_app in Hsg as [Hsg _]. apply seg_app. split; [|split; [|split; [|done]]].
    + eapply seg_frame; [|exact Hsg]. intros c Hc. apply Hpre in Hc. rewrite !lookup_insert_ne by hlia. done.
    + by rewrite lookup_insert_eq.
    + rewrite lookup_insert_ne by hlia. by rewrite lookup_insert_eq.
Qed.

(** The block that [expand_heap] appends. *)
Definition grown s l (size : Z) : blk :=
  mk_blk (heap_start s + total l) (pages_for size * HEAP_PAGE_SIZE) true.

Lemma pages_for_fits size :
  0 <= size < 2147483648 → size + HEADER_SIZE <= pages_for size * HEAP_PAGE_SIZE ∧ 0 < pages_for size.
Proof.
  intros. unfold pages_for. rewrite u64_small by (unfold is_u64; hlia).
  unfold HEADER_SIZE, HEAP_PAGE_SIZE. Z.to_euclidean_division_equations; lia.
Qed.

Lemma last_addr_snoc prev l b : last_addr prev (l ++ [b]) = b_addr b.
Proof. by rewrite last_addr_app. Qed.

Lemma expand_heap_spec s l size :
  represents s l → 0 <= size < 2147483648 →
  ∃ p s', expand_heap size s = Some (p, s') ∧ bytes s' = bytes s ∧ heap_start s' = heap_start s ∧
    ((p = 0 ∧ represents s' l ∧ heap_statistics s' = heap_statistics s) ∨
     (p = b_addr (grown s l size) ∧ represents s' (l ++ [grown s l size]) ∧
      heap_statistics s' = let sz := b_size (grown s l size) in stats_add (heap_statistics s) sz 0 sz 1 1)).
Proof.
  intros [Hl Hne Hal (P & HP & HPt)] Hsize. pose proof (lk_start s _ Hl) as Hst.
  destruct (pages_for_fits size Hsize) as [Hfit Hpos].
  unfold expand_heap. pose proof (backed_alloc _ _ _ HP) as Ha.
  destruct (pg_alloc (heap_pages s)) as [new_mem v1]. destruct Ha as [HP1 _].
  assert (Hrep : ∀ v, backed (heap_start s) v P → represents (set_vm s v) l).
  { intros v Hv. split; [by destruct Hl|done..|]. by exists P. }
  destruct (new_mem =? 0); [by eexists _, _; split; [done|]; eauto 10|].
  destruct l as [|lb l0 _] using rev_ind; [done|].
  assert (Hfind : find_last (list_fuel (set_vm s v1)) (set_vm s v1) (heap_start s) = Some (b_addr lb)).
  { assert (Hlv : linked (set_vm s v1) (l0 ++ [lb])) by by destruct Hl.
    pose proof (linked_fuel _ _ Hlv). destruct l0 as [|b0 l0].
    - pose proof (linked_at s [] lb [] Hl) as (_ & Ha & _). simpl in Ha.
      replace (heap_start s) with (b_addr lb) by lia. by rewrite (find_last_spec _ _ [] lb []).
    - pose proof (linked_at s [] b0 (l0 ++ [lb]) Hl) as (_ & Ha & _). simpl in Ha.
      replace (heap_start s) with (b_addr b0) by lia. rewrite (find_last_spec _ _ [] b0 (l0 ++ [lb])) by done.
      simpl. by rewrite last_addr_snoc. }
  cbn [heap_start set_vm].
  rewrite Hfind. cbn [mbind option_bind].
  pose proof (linked_at s l0 lb [] Hl) as (Hb & Hlb & Hlsz & Hp1 & _ & Ht & _).
  change (load (set_vm s v1) (b_addr lb)) with (headers s !! b_addr lb). rewrite Hb. cbn [mbind option_bind hb_size hdr].
  simpl total in Ht. pose proof (lk_total s _ Hl).
  assert (Hend : b_addr lb + b_size lb = heap_start s + total (l0 ++ [lb])) by lia.
  rewrite u64_small by (unfold is_u64; hlia). rewrite Hend.
  pose proof (map_pages_spec (heap_start s) (Z.to_nat (pages_for size)) v1 P [] Hst Hal) as Hm.
  rewrite app_nil_r in Hm. specialize (Hm HP1). cbn [length] in Hm. change (Z.of_nat 0) with 0 in Hm.
  rewrite Z2Nat.id in Hm by lia. rewrite HPt. cbn [heap_pages set_vm].
  destruct (map_pages _ (seqZ 0 (pages_for size)) v1) as [[] v2]; cbn [negb];
    [|by eexists _, _; split; [done|]; eauto 10].
  destruct Hm as (P2 & Hl2 & HP2). pose proof (backed_bound _ _ _ HP2) as Hbd. rewrite length_app in Hbd.
  rewrite u32_small by (unfold is_u32; hlia). unfold grown. rewrite HPt. set (nb := mk_blk _ _ true).
  unfold modify, load. cbn [headers store set_headers set_vm].
  rewrite lookup_insert_ne by (subst nb; hlia). rewrite Hb. cbn [mbind option_bind].
  eexists _, _. split; [reflexivity|]. split; [done|split; [done|right]]. split; [done|]. split; [|done].
  split; [|by destruct l0|done|].
  - rewrite <- app_assoc. apply (append_linked s _ l0 lb nb Hl); try done; [simpl; lia|simpl; hlia|simpl; hlia|].
    cbn [headers add_stats set_stats set_headers store]. f_equal.
    unfold hdr, set_next, set_flags, flag_word; simpl.
    rewrite (proj2 (Z.eqb_neq _ 0)) by (subst nb; simpl; hlia). f_equal. by destruct (b_free lb).
  - exists (P ++ P2). split; [done|]. rewrite total_app, HPt, length_app, Hl2. simpl. hlia.
Qed.

(** ** Statistics *)

Lemma total_of_app (fr : bool) l1 l2 : total_of fr (l1 ++ l2) = total_of fr l1 + total_of fr l2.
Proof. induction l1; simpl; lia. Qed.

Lemma total_of_sum l : total_of true l + total_of false l = total l.
Proof. induction l as [|b l IH]; simpl; [done|]. destruct (b_free b); simpl; lia. Qed.

Lemma total_of_all (fr : bool) l : Forall (λ c, b_free c = fr) l → total_of fr l = total l ∧ total_of (negb fr) l = 0.
Proof. induction 1 as [|b l Hb _ [IH1 IH2]]; simpl; [done|]. rewrite Hb, IH1, IH2. by destruct fr. Qed.

Lemma count_all l : Forall (λ c, b_free c = true) l → count b_free l = Z.of_nat (length l).
Proof. induction 1 as [|b l Hb _ IH]; [done|]. rewrite count_cons, Hb, IH. simpl. lia. Qed.

Lemma total_of_nonneg (fr : bool) start l : tiles start l → 0 <= total_of fr l.
Proof. revert start. induction l as [|b l IH]; intros start; simpl; [lia|]. intros (_ & ? & H%IH). destruct (Bool.eqb _ _); hlia. Qed.

Lemma tiles_length start l : tiles start l → HEADER_SIZE * Z.of_nat (length l) <= total l.
Proof. revert start. induction l as [|b l IH]; intros start; simpl; [lia|]. intros (_ & ? & H%IH). hlia. Qed.

(** Ranges that make the counters exact. *)
Lemma linked_ranges s l :
  linked s l →
  0 <= total_of true l ∧ 0 <= total_of false l ∧ total l < 4294967296 ∧
  Z.of_nat (length l) < 4294967296 ∧ 0 <= count b_free l <= Z.of_nat (length l).
Proof.
  intros [_ Ht Htl _]. pose proof (total_of_nonneg true _ _ Htl). pose proof (total_of_nonneg false _ _ Htl).
  pose proof (tiles_length _ _ Htl). pose proof (count_nonneg b_free l). pose proof (count_length b_free l). hlia.
Qed.

(** A counter update is exact when the old and the new list are related by it. *)
Lemma stats_add_exact s s' l l' dt du df db dfb :
  linked s l → linked s' l' →
  total l' = total l + dt → total_of false l' = total_of false l + du → total_of true l' = total_of true l + df →
  Z.of_nat (length l') = Z.of_nat (length l) + db → count b_free l' = count b_free l + dfb →
  stats_add (stats_of l) dt du df db dfb = stats_of l'.
Proof.
  intros Hl Hl' H1 H2 H3 H4 H5. pose proof (linked_ranges _ _ Hl). pose proof (linked_ranges _ _ Hl').
  pose proof (total_of_sum l'). unfold stats_add, stats_of. cbn [total_size used_size free_size total_blocks free_blocks].
  rewrite <- H1, <- H2, <- H3, <- H4, <- H5. rewrite !u64_small by (unfold is_u64; lia). done.
Qed.

(** ** Taking a free block *)

Definition taken b size : list blk :=
  match carve b size with [] => [] | x :: r => mark x false :: r end.

Lemma taken_head b size : ∃ sz r,
  taken b size = mk_blk (b_addr b) sz false :: r ∧ carve b size = mk_blk (b_addr b) sz (b_free b) :: r ∧
  (size + HEADER_SIZE <= b_size b → size + HEADER_SIZE <= sz) ∧ sz + total r = b_size b ∧
  Forall (λ c, b_free c = true) r.
Proof.
  unfold taken, carve. destruct (_ <? _) eqn:?; zbool.
  - exists (b_size b), []. destruct b; simpl. split_and!; try done; lia.
  - eexists _, [_]. split_and!; [done|done|simpl; lia|simpl; lia|by repeat constructor].
Qed.

Lemma take_block_spec s pre b post size :
  linked s (pre ++ b :: post) → b_free b = true → 0 <= size → size + HEADER_SIZE <= b_size b →
  heap_statistics s = stats_of (pre ++ b :: post) →
  ∃ s', take_block (b_addr b) size s = Some (b_addr b + HEADER_SIZE, s') ∧
        linked s' (pre ++ taken b size ++ post) ∧ heap_start s' = heap_start s ∧ bytes s' = bytes s ∧
        heap_pages s' = heap_pages s ∧ heap_statistics s' = stats_of (pre ++ taken b size ++ post).
Proof.
  intros Hl Hfree Hsize Hfit Hst. unfold take_block.
  pose proof (linked_at s pre b post Hl) as (_ & Ha & Hbsz & Hp1 & Hp2 & Htot & _). pose proof (lk_start _ _ Hl). pose proof (lk_total _ _ Hl).
  destruct (split_block_spec s pre b post size Hl Hsize Hfit) as (h1 & -> & Hl1). cbn [mbind option_bind].
  set (s1 := upd s h1 _) in *. destruct (taken_head b size) as (sz & r & Ht & Hc & Hsz & Hsum & Hr).
  rewrite Hc in Hl1. rewrite Ht. simpl app in *. set (x := mk_blk (b_addr b) sz (b_free b)) in *.
  pose proof (linked_at s1 pre x (r ++ post) Hl1) as (Hx & _ & _ & _).
  change (b_addr x) with (b_addr b) in Hx. unfold modify, load. rewrite Hx. cbn [mbind option_bind].
  rewrite hdr_mark_used. cbn [headers store set_headers]. rewrite lookup_insert_eq. cbn [mbind option_bind hb_size hdr].
  rewrite u64_small by (unfold is_u64; hlia).
  pose proof (mark_linked s1 pre x (r ++ post) false Hl1) as Hl2.
  eexists. split; [reflexivity|]. split; [by destruct Hl2|]. do 3 (split; [done|]).
  cbn [heap_statistics add_stats set_stats store set_headers]. unfold s1 at 1; cbn [heap_statistics upd].
  change (mk_blk (b_addr b) sz false) with (mark x false) in *.
  assert (Hsp : carve_stats (heap_statistics s) b size = stats_of (pre ++ x :: r ++ post)).
  { rewrite Hst. revert Hc. unfold carve, carve_stats. destruct (_ <? _) eqn:Hsm; intros [= Hx' Hr'].
    - rewrite <- Hr'. simpl. subst x. rewrite <- Hx'. by destruct b.
    - apply (stats_add_exact s s1); try done; rewrite ?total_app, ?total_of_app, ?length_app, ?count_app;
        rewrite <- Hr'; cbn [total total_of length app]; rewrite ?count_cons, ?length_app, ?Hfree; simpl;
        rewrite ?Hfree; simpl; lia. }
  rewrite Hsp. apply (stats_add_exact s1 _ _ _ _ _ _ _ _ Hl1 Hl2);
    rewrite ?total_app, ?total_of_app, ?length_app, ?count_app; cbn [total total_of length app];
    rewrite ?count_cons; simpl; rewrite ?Hfree; simpl; lia.
Qed.

(** ** Allocation *)

Lemma align8_spec n :
  0 <= n < 18446744073709551609 → align8 n = (n + 7) / 8 * 8.
Proof.
  intros. unfold align8. rewrite u64_small by (unfold is_u64; lia).
  change 18446744073709551608 with (2 ^ 64 - 2 ^ 3). rewrite land_high_mask by lia. done.
Qed.

Lemma align8_bounds n : 0 <= n < 18446744073709551609 → n <= align8 n < n + 8.
Proof. intros. rewrite align8_spec by done. Z.to_euclidean_division_equations; lia. Qed.

(** The counters agree with the list. *)
Definition good s l : Prop := represents s l ∧ heap_statistics s = stats_of l.

(** The new list after allocating [size] (rounded) bytes, when a block is found. *)
Definition alloc_result s l (size : Z) (p : Z) s' : Prop :=
  match first_fit l (size + HEADER_SIZE) with
  | Some (pre, c, post) => p = b_addr c + HEADER_SIZE ∧ good s' (pre ++ taken c size ++ post)
  | None =>
      (p = 0 ∧ good s' l) ∨
      (p = b_addr (grown s l size) + HEADER_SIZE ∧ good s' (l ++ taken (grown s l size) size))
  end.

Lemma taken_total b size : total (taken b size) = b_size b.
Proof. by destruct (taken_head b size) as (sz & r & -> & _ & _ & Hs & _). Qed.

Lemma represents_taken s s' pre b post size :
  represents s (pre ++ b :: post) → linked s' (pre ++ taken b size ++ post) →
  heap_start s' = heap_start s → heap_pages s' = heap_pages s →
  represents s' (pre ++ taken b size ++ post).
Proof.
  intros [_ _ Hal (P & HP & Ht)] Hl Hs Hv. split; [done| |by rewrite Hs|].
  - destruct (taken_head b size) as (sz & r & -> & _). by destruct pre.
  - exists P. rewrite Hs, Hv. split; [done|]. rewrite !total_app in *. simpl in Ht. rewrite taken_total. lia.
Qed.

Lemma heap_alloc_spec s l n :
  good s l → n ≠ 0 → 0 <= align8 n < 2147483648 →
  ∃ p s', heap_alloc n s = Some (p, s') ∧ bytes s' = bytes s ∧ heap_start s' = heap_start s ∧
          alloc_result s l (align8 n) p s'.
Proof.
  intros [Hr Hst] Hn Hal. pose proof (rp_linked _ _ Hr) as Hl.
  pose proof (lk_start _ _ Hl) as Hstart.
  unfold heap_alloc. rewrite (proj2 (Z.eqb_neq n 0)) by lia. set (size := align8 n) in *. clearbody size.
  unfold find_free_block, alloc_result. pose proof (first_fit_spec l (size + HEADER_SIZE)) as Hff.
  assert (Hhead : heap_start s = next_or l 0).
  { destruct l as [|b l]; [by destruct (rp_nonempty _ _ Hr)|]. simpl.
    pose proof (linked_at s [] b l Hl) as (_ & Ha & _). simpl in Ha. lia. }
  rewrite Hhead, (find_from_spec _ s [] l) by (done || lia || by apply linked_fuel). cbn [mbind option_bind].
  destruct (first_fit l (size + HEADER_SIZE)) as [[[pre c] post]|].
  - destruct Hff as (-> & Hfree & Hfit & _).
    pose proof (linked_at s pre c post Hl) as (_ & Ha & _ & Hp1 & _).
    rewrite (proj2 (Z.eqb_neq (b_addr c) 0)) by lia. cbn [mbind option_bind].
    rewrite (proj2 (Z.eqb_neq (b_addr c) 0)) by lia.
    destruct (take_block_spec s pre c post size Hl Hfree ltac:(lia) Hfit Hst) as (s' & -> & Hl' & Hs & Hb & Hv & Hst').
    eexists _, s'. split; [done|]. do 2 (split; [congruence|]). split; [done|]. split; [|done].
    by apply (represents_taken s s' pre c post).
  - rewrite Z.eqb_refl. destruct (expand_heap_spec s l size Hr ltac:(lia)) as (p & s1 & -> & Hb1 & Hs1 & Hcase).
    cbn [mbind option_bind]. destruct Hcase as [(-> & Hr1 & Hst1)|(-> & Hr1 & Hst1)].
    + rewrite Z.eqb_refl. eexists _, s1. split; [done|]. do 2 (split; [congruence|]). left. split; [done|].
      split; [done|congruence].
    + destruct (pages_for_fits size ltac:(lia)) as [Hfit _]. set (g := grown s l size) in *.
      pose proof (linked_at s1 l g [] (rp_linked _ _ Hr1)) as (_ & Ha & Hgz & Hp1 & _). rewrite Hs1 in Ha.
      rewrite (proj2 (Z.eqb_neq (b_addr g) 0)) by lia.
      destruct (take_block_spec s1 l g [] size) as (s' & -> & Hl' & Hs & Hb & Hv & Hst'); try done; try lia.
      { apply Hr1. }
      { rewrite Hst1, Hst. apply (stats_add_exact s s1); [done|apply Hr1|..];
          rewrite ?total_app, ?total_of_app, ?length_app, ?count_app; cbn [total total_of length];
          rewrite ?count_cons; subst g; unfold grown; cbn [b_free b_size Bool.eqb];
          try change (count b_free []) with 0; lia. }
      eexists _, s'. split; [done|]. do 2 (split; [congruence|]). right. split; [done|].
      rewrite app_nil_r in *. split; [|done]. rewrite <- (app_nil_r (taken g size)).
      apply (represents_taken s1 s' l g []); [done|by rewrite app_nil_r|done|done].
Qed.

(** ** Release *)

(** The run of free blocks at the head of a list, and what follows it. *)
Fixpoint free_run l : list blk :=
  match l with [] => [] | b :: l => if b_free b then b :: free_run l else [] end.
Fixpoint after_run l : list blk :=
  match l with [] => [] | b :: l => if b_free b then after_run l else b :: l end.

(** Joining a free block with its left neighbour when that one is free. *)
Definition join_left pre b rest : list blk :=
  match rev pre with
  | q :: pr => if b_free q then rev pr ++ absorb q [b] :: rest else pre ++ b :: rest
  | [] => b :: rest
  end.

(** The list after freeing the block [b] between [pre] and [post]. *)
Definition released pre b post : list blk :=
  join_left pre (absorb (mark b true) (free_run post)) (after_run post).

Lemma run_split l :
  l = free_run l ++ after_run l ∧ Forall (λ c, b_free c = true) (free_run l) ∧
  match after_run l with c :: _ => b_free c = false | [] => True end.
Proof.
  induction l as [|b l (IH1 & IH2 & IH3)]; simpl; [done|]. destruct (b_free b) eqn:Hf; simpl.
  - split_and!; [congruence|by constructor|done].
  - done.
Qed.

Lemma absorb_total b fr : b_size (absorb b fr) = b_size b + total fr.
Proof. done. Qed.

Lemma merged_stats_exact st n :
  is_u64 (total_size st) → is_u64 (used_size st) → is_u64 (free_size st) →
  Z.of_nat n <= total_blocks st < 18446744073709551616 → Z.of_nat n <= free_blocks st < 18446744073709551616 →
  merged_stats st n = mk_stats (total_size st) (used_size st) (free_size st)
                        (total_blocks st - Z.of_nat n) (free_blocks st - Z.of_nat n).
Proof.
  revert st. induction n as [|n IH]; intros st Ht Hu Hf Hb Hfb.
  - simpl. rewrite !Z.sub_0_r. by destruct st.
  - simpl merged_stats. unfold is_u64 in *.
    assert (Hadd : stats_add st 0 0 0 (-1) (-1) = mk_stats (total_size st) (used_size st) (free_size st)
                     (total_blocks st - 1) (free_blocks st - 1)).
    { unfold stats_add. rewrite !u64_small by (unfold is_u64; lia). by rewrite !Z.add_0_r. }
    rewrite Hadd, IH; cbn [total_size used_size free_size total_blocks free_blocks]; try lia. f_equal; lia.
Qed.

(** [merge_free_blocks] on a free block: the list and the counters. *)
Lemma merge_good s pre b fr post :
  linked s (pre ++ b :: fr ++ post) → b_free b = true → Forall (λ c, b_free c = true) fr →
  match post with c :: _ => b_free c = false | [] => True end →
  heap_statistics s = stats_of (pre ++ b :: fr ++ post) →
  ∃ h' st', merge_free_blocks (b_addr b) s = Some (upd s h' st') ∧
            linked (upd s h' st') (pre ++ absorb b fr :: post) ∧ st' = stats_of (pre ++ absorb b fr :: post).
Proof.
  intros Hl Hb Hfr Hpost Hst. destruct (merge_loop_spec (list_fuel s) s pre b fr post) as (h' & Hm & Hl'); try done.
  { pose proof (linked_fuel _ _ Hl) as Hfu. rewrite length_app in Hfu. simpl in Hfu. rewrite length_app in Hfu. lia. }
  eexists h', _. split; [exact Hm|]. split; [done|]. rewrite Hst.
  pose proof (linked_ranges _ _ Hl) as Hr. destruct (total_of_all _ _ Hfr) as [H1 H2]. simpl in H2.
  pose proof (count_all _ Hfr) as H3. pose proof (total_of_sum (pre ++ b :: fr ++ post)).
  revert Hr. unfold stats_of. rewrite !total_app, !total_of_app, !length_app, !count_app in *.
  cbn [total total_of length] in *. rewrite !count_cons in *.
  rewrite !total_app, !total_of_app, !length_app, !count_app in *. rewrite Hb in *. cbn [Bool.eqb absorb b_size b_free] in *.
  intros Hr. pose proof (count_nonneg b_free pre). pose proof (count_nonneg b_free post).
  rewrite merged_stats_exact; unfold is_u64; cbn [total_size used_size free_size total_blocks free_blocks]; try lia.
  rewrite H1, H2, H3, Hb. cbn [Bool.eqb]; f_equal; simpl; lia.
Qed.

Lemma mark_good s pre b post :
  linked s (pre ++ b :: post) → b_free b = false → heap_statistics s = stats_of (pre ++ b :: post) →
  let s' := add_stats 0 (- b_size b) (b_size b) 0 1
              (store (b_addr b) (hdr (last_addr 0 pre) (mark b true) (next_or post 0)) s) in
  linked s' (pre ++ mark b true :: post) ∧ heap_statistics s' = stats_of (pre ++ mark b true :: post).
Proof.
  intros Hl Hb Hst s'. pose proof (mark_linked s pre b post true Hl) as Hl'.
  assert (Hl2 : linked s' (pre ++ mark b true :: post)) by by destruct Hl'. split; [done|].
  unfold s'. cbn [heap_statistics add_stats set_stats store set_headers]. rewrite Hst.
  apply (stats_add_exact s _ _ _ _ _ _ _ _ Hl Hl2);
    rewrite ?total_app, ?total_of_app, ?length_app, ?count_app; cbn [total total_of length];
    rewrite ?count_cons; cbn [mark b_size b_free Bool.eqb]; rewrite ?Hb; simpl; lia.
Qed.

Lemma heap_free_spec s pre b post :
  good s (pre ++ b :: post) → b_free b = false →
  ∃ s', heap_free (b_addr b + HEADER_SIZE) s = Some s' ∧ bytes s' = bytes s ∧ heap_start s' = heap_start s ∧
        good s' (released pre b post).
Proof.
  intros [[Hl Hne Hal (P & HP & HPt)] Hst] Hb.
  pose proof (linked_at s pre b post Hl) as (Hld & Ha & Hsz & Hp1 & Hp2 & Htot & _ & Hpre & _).
  pose proof (lk_start _ _ Hl) as Hs0. pose proof (lk_total _ _ Hl).
  unfold heap_free. rewrite (proj2 (Z.eqb_neq (b_addr b + HEADER_SIZE) 0)) by hlia.
  cbv zeta. rewrite Z.add_simpl_r, u64_small by (unfold is_u64; hlia).
  change (load s (b_addr b)) with (headers s !! b_addr b). rewrite Hld.
  cbn [mbind option_bind hb_magic hb_size hdr]. rewrite Z.eqb_refl. cbn [negb].
  fold (hdr (last_addr 0 pre) b (next_or post 0)). rewrite hdr_mark_free.
  destruct (mark_good s pre b post Hl Hb Hst) as [Hl1 Hst1]. set (s1 := add_stats _ _ _ _ _ _) in *.
  destruct (run_split post) as (Hsplit & Hrun & Hafter). rewrite Hsplit in Hl1, Hst1.
  destruct (merge_good s1 pre (mark b true) (free_run post) (after_run post)) as (h2 & st2 & Hm & Hl2 & Hst2); try done.
  change (b_addr b) with (b_addr (mark b true)). rewrite Hm. cbn [mbind option_bind].
  set (m := absorb (mark b true) (free_run post)) in *. set (s2 := upd s1 h2 st2) in *.
  change (b_addr (mark b true)) with (b_addr m).
  pose proof (linked_at s2 pre m _ Hl2) as (Hlm & _).
  change (load s2 (b_addr m)) with (headers s2 !! b_addr m). rewrite Hlm.
  cbn [mbind option_bind hb_prev hdr].
  assert (Hrep : ∀ s' l, heap_start s' = heap_start s → heap_pages s' = heap_pages s → linked s' l → l ≠ [] →
            total l = total (pre ++ b :: post) → represents s' l).
  { intros s' l E1 E2 Hl' Hn Ht. split; [done|done|by rewrite E1|]. exists P. rewrite E1, E2, Ht. done. }
  assert (Htm : total (pre ++ m :: after_run post) = total (pre ++ b :: post)).
  { rewrite Hsplit at 2. rewrite !total_app. cbn [total]. unfold m. rewrite absorb_total, total_app. simpl. lia. }
  unfold released, join_left. fold m. destruct pre as [|q pre _] using rev_ind.
  { simpl. exists s2. do 3 (split; [done|]). split; [by apply Hrep|done]. }
  rewrite last_addr_snoc, rev_unit. destruct (Hpre q ltac:(set_solver)) as (_ & _ & Hq).
  rewrite (proj2 (Z.eqb_neq (b_addr q) 0)) by lia.
  rewrite <- app_assoc in Hl2, Hst2. simpl app in Hl2, Hst2.
  pose proof (linked_at s2 pre q _ Hl2) as (Hlq & _). unfold load. rewrite Hlq. cbn [mbind option_bind].
  rewrite is_free_hdr. destruct (b_free q) eqn:Hqf.
  - destruct (merge_good s2 pre q [m] (after_run post)) as (h3 & st3 & -> & Hl3 & Hst3); try done; [by repeat constructor|].
    rewrite rev_involutive. eexists. split; [done|]. do 2 (split; [done|]). split; [|done].
    apply Hrep; try done; [by destruct pre|]. rewrite <- Htm, <- app_assoc, !total_app. simpl. lia.
  - exists s2. do 3 (split; [done|]). rewrite <- app_assoc. split; [|done]. apply Hrep; try done; [by destruct pre|].
    rewrite <- Htm. by rewrite <- app_assoc.
Qed.

(** ** The consistency check *)

#[export] Instance heap_stats_eq_dec : EqDecision heap_stats.
Proof. solve_decision. Defined.

Lemma stats_of_snoc s pre b l :
  linked s (pre ++ b :: l) →
  mk_stats (u64 (total pre + b_size b))
    (if b_free b then total_of false pre else u64 (total_of false pre + b_size b))
    (if b_free b then u64 (total_of true pre + b_size b) else total_of true pre)
    (u64 (Z.of_nat (length pre) + 1))
    (if b_free b then u64 (count b_free pre + 1) else count b_free pre) = stats_of (pre ++ [b]).
Proof.
  intros Hl. pose proof (linked_ranges _ _ Hl) as Hr. destruct (linked_at s pre b l Hl) as (_ & _ & Hsz & Hp & Hp2 & _).
  destruct Hl as [_ _ Htl _]. apply tiles_app in Htl as [Htl _].
  pose proof (total_of_nonneg true _ _ Htl). pose proof (total_of_nonneg false _ _ Htl). pose proof (total_of_sum pre).
  pose proof (count_nonneg b_free pre). pose proof (count_length b_free pre).
  revert Hr. unfold stats_of. rewrite !total_app, !total_of_app, !length_app, !count_app.
  cbn [total total_of length]. rewrite !count_cons. change (count b_free []) with 0. intros Hr.
  destruct (b_free b); cbn [Bool.eqb] in *; rewrite !u64_small by (unfold is_u64; hlia); f_equal; lia.
Qed.

Lemma check_loop_spec fuel s pre b l :
  (length (b :: l) < fuel)%nat → linked s (pre ++ b :: l) →
  check_loop fuel s (b_addr b) (stats_of pre) = Some (Some (stats_of (pre ++ b :: l))).
Proof.
  revert pre b fuel. induction l as [|c l IH]; intros pre b fuel Hfuel Hl;
    (destruct fuel as [|fuel]; [simpl in Hfuel; lia|]);
    pose proof (linked_at s pre b _ Hl) as (Hb & Ha & Hsz & Hp & _ & _ & Htp & Hpre & _);
    pose proof (lk_start _ _ Hl) as Hst; pose proof (stats_of_snoc s pre b _ Hl) as Hsn; simpl check_loop;
    rewrite (proj2 (Z.eqb_neq (b_addr b) 0)) by lia;
    change (load s (b_addr b)) with (headers s !! b_addr b); rewrite Hb;
    cbn [mbind option_bind hb_magic hb_next hb_prev hb_size hdr next_or]; rewrite Z.eqb_refl; cbn [negb];
    rewrite is_free_hdr, is_last_hdr, Hsn.
  all: assert (Hprev : (if last_addr 0 pre =? 0 then Some false
               else p ← load s (last_addr 0 pre); Some (negb (hb_next p =? b_addr b))) = Some false).
  1, 3: destruct pre as [|q pre _] using rev_ind; [done|]; rewrite last_addr_snoc;
      destruct (Hpre q ltac:(set_solver)) as (_ & _ & Hq); rewrite (proj2 (Z.eqb_neq (b_addr q) 0)) by lia;
      rewrite <- app_assoc in Hl; simpl app in Hl; destruct (linked_at s pre q _ Hl) as (Hlq & _);
      unfold load; rewrite Hlq; cbn [mbind option_bind hb_next hdr next_or]; by rewrite Z.eqb_refl.
  - rewrite Z.eqb_refl. cbn [mbind option_bind]. by rewrite Hprev.
  - destruct Htp as (Hc & _). rewrite (proj2 (Z.eqb_neq (b_addr c) 0)) by hlia.
    assert (Hlc : linked s ((pre ++ [b]) ++ c :: l)) by by rewrite <- app_assoc.
    destruct (linked_at s _ c _ Hlc) as (Hlk & _).
    change (load s (b_addr c)) with (headers s !! b_addr c). rewrite Hlk.
    cbn [mbind option_bind hb_prev hdr]. rewrite last_addr_snoc, Z.eqb_refl. cbn [negb]. rewrite Hprev.
    cbn [mbind option_bind]. rewrite (IH (pre ++ [b])); [by rewrite <- app_assoc|simpl in *; lia|done].
Qed.

(** [heap_check] compares the counters with the blocks. *)
Lemma heap_check_spec s l :
  linked s l → l ≠ [] → heap_check s = Some (bool_decide (heap_statistics s = stats_of l)).
Proof.
  intros Hl Hne. destruct l as [|b l]; [done|]. unfold heap_check.
  pose proof (linked_at s [] b l Hl) as (_ & Ha & _). simpl in Ha. rewrite Z.add_0_r in Ha. rewrite <- Ha.
  change (mk_stats 0 0 0 0 0) with (stats_of []). rewrite (check_loop_spec _ s [] b l) by (done || by apply linked_fuel).
  cbn [mbind option_bind]. f_equal. simpl app. generalize (stats_of (b :: l)). intros st.
  apply Bool.eq_iff_eq_true. rewrite bool_decide_eq_true, !andb_true_iff, !Z.eqb_eq.
  destruct st, (heap_statistics s); simpl. split; [intros ((((-> & ->) & ->) & ->) & ->); done|by intros [= -> -> -> -> ->]].
Qed.

(** ** What clients see *)

(** A live block that holds [n] bytes at [p]. *)
Definition live_in l (p n : Z) : Prop :=
  ∃ b, b ∈ l ∧ b_free b = false ∧ p = b_addr b + HEADER_SIZE ∧ n + HEADER_SIZE <= b_size b.

Lemma in_absorbed b q l : b ∈ absorb q l :: [] → b_free q = true → b_free b = true.
Proof. by intros ->%list_elem_of_singleton. Qed.

(** Allocation keeps the live blocks and adds one; release removes one. *)
Lemma taken_live pre c post size b :
  b_free c = true → b_free b = false → b ∈ pre ++ c :: post → b ∈ pre ++ taken c size ++ post.
Proof.
  intros Hc Hb Hin. apply elem_of_app in Hin as [Hin|[->|Hin]%elem_of_cons]; [set_solver|congruence|set_solver].
Qed.

Lemma after_run_live b l : b_free b = false → b ∈ l → b ∈ after_run l.
Proof.
  induction l as [|c l IH]; intros Hb Hin; [done|]. simpl.
  destruct (b_free c) eqn:Hc; [|done]. apply IH; [done|]. apply elem_of_cons in Hin as [->|?]; [congruence|done].
Qed.

Lemma released_live pre b post c :
  b_free c = false → c ∈ pre ++ b :: post → b_free b = false → c ≠ b → c ∈ released pre b post.
Proof.
  intros Hc Hin Hb Hne. unfold released, join_left.
  assert (Hcases : c ∈ pre ∨ c ∈ after_run post).
  { apply elem_of_app in Hin as [?|[->|Hin]%elem_of_cons]; [by left|done|right]. by apply after_run_live. }
  destruct pre as [|q pre _] using rev_ind; simpl; [set_solver|]. rewrite rev_unit.
  destruct (b_free q) eqn:Hq; [|set_solver]. rewrite rev_involutive.
  destruct Hcases as [Hcases|]; [|set_solver]. apply elem_of_app in Hcases as [?|Hcases]; [set_solver|apply list_elem_of_singleton in Hcases as ->; congruence].
Qed.

(** The list is determined by the state. *)
Lemma seg_unique h prev start l1 l2 :
  0 < start → tiles start l1 → tiles start l2 → seg h prev l1 0 → seg h prev l2 0 →
  (l1 = [] ↔ l2 = []) → l1 = l2.
Proof.
  revert prev start l2. induction l1 as [|b l1 IH]; intros prev start [|c l2] Hst Ht1 Ht2 Hs1 Hs2 Hiff; [done|by destruct (proj1 Hiff)|by discriminate (proj2 Hiff eq_refl)|].
  destruct Ht1 as (Hb & Hbz & Ht1), Ht2 as (Hc & Hcz & Ht2), Hs1 as [H1 Hs1], Hs2 as [H2 Hs2].
  rewrite Hb, <- Hc, H2 in H1. unfold hdr in H1. injection H1 as Hsz Hfl Hnx.
  rewrite Hnx in Hfl.
  assert (b = c) as ->.
  { destruct b as [ba bz bf], c as [ca cz cf]; simpl in *. subst. f_equal.
    revert Hfl. unfold flag_word. by destruct bf, cf, (next_or l1 0 =? 0). }
  f_equal. rewrite Hc in *. apply (IH start (start + b_size c)); try done; [hlia|].
  pose proof (tiles_next _ _ Ht1 ltac:(hlia)) as N1. pose proof (tiles_next _ _ Ht2 ltac:(hlia)) as N2.
  rewrite <- Hnx in N1. rewrite N1 in N2. by destruct l1, l2.
Qed.

Lemma represents_unique s l1 l2 : represents s l1 → represents s l2 → l1 = l2.
Proof.
  intros [[? _ ? ?] ? _ _] [[_ _ ? ?] ? _ _]. apply (seg_unique (headers s) 0 (heap_start s)); try done; by first [lia|split].
Qed.

Lemma alloc_result_live s l size p s' :
  0 <= size < 2147483648 →
  good s l → alloc_result s l size p s' →
  ∃ l', good s' l' ∧ (∀ b, b ∈ l → b_free b = false → b ∈ l') ∧
    ((p = 0 ∧ l' = l ∧ first_fit l (size + HEADER_SIZE) = None) ∨
     (∃ b, b ∈ l' ∧ b_free b = false ∧ p = b_addr b + HEADER_SIZE ∧ 0 < b_addr b ∧ size + HEADER_SIZE <= b_size b ∧
        ∀ c, c ∈ l → b_free c = false → b_addr b + b_size b <= b_addr c ∨ b_addr c + b_size c <= b_addr b)).
Proof.
  intros Hsize [Hr _] Ha. unfold alloc_result in Ha. pose proof (rp_linked _ _ Hr) as Hl.
  pose proof (lk_start _ _ Hl) as Hst.
  pose proof (first_fit_spec l (size + HEADER_SIZE)) as Hff.
  destruct (first_fit l (size + HEADER_SIZE)) as [[[pre c] post]|].
  - destruct Hff as (-> & Hc & Hfit & _). destruct Ha as [-> Hg]. eexists. split; [exact Hg|].
    destruct (linked_at s pre c post Hl) as (_ & Hca & _ & Hp & _ & _ & _ & Hpre & Hpost).
    split; [intros b Hb Hbf; by apply taken_live|]. right.
    destruct (taken_head c size) as (sz & r & Htk & _ & Hsz & Hsum & Hrf). rewrite Htk in Hg |- *.
    exists (mk_blk (b_addr c) sz false). cbn [b_addr b_size b_free].
    assert (Hrn : 0 <= total r) by (clear -Hg; destruct Hg as [[[_ _ Ht _] _ _ _] _];
      apply tiles_app in Ht as [_ Ht]; simpl in Ht; destruct Ht as (_ & _ & Ht);
      apply tiles_app in Ht as [Ht _]; by eapply tiles_total).
    split_and!; [set_solver|done|done|lia|lia|]. intros d Hd Hdf.
    apply elem_of_app in Hd as [Hd|Hd]; [right; by apply Hpre|].
    apply elem_of_cons in Hd as [->|Hd]; [congruence|]. left. apply Hpost in Hd. lia.
  - destruct Ha as [[-> Hg]|[-> Hg]]; [exists l; by split_and!; eauto|].
    eexists. split; [exact Hg|]. split; [set_solver|]. right. destruct (pages_for_fits size Hsize) as [Hfit _].
    destruct (taken_head (grown s l size) size) as (sz & r & -> & _ & Hsz & Hsum & Hrf).
    exists (mk_blk (b_addr (grown s l size)) sz false). cbn [b_addr b_size b_free].
    destruct Hl as [_ _ Ht _]. pose proof (tiles_total _ _ Ht).
    split_and!; [set_solver|done|done|simpl; lia|by apply Hsz|]. intros d Hd _. right.
    apply (tiles_in _ _ _ Ht) in Hd. simpl. lia.
Qed.

Lemma good_check s l : good s l → heap_check s = Some true.
Proof.
  intros [[Hl Hne _ _] Hst]. rewrite (heap_check_spec s l) by done. by rewrite bool_decide_eq_true_2.
Qed.

(** ** Properties *)

(** C4: a request of 1 byte to 1 GiB returns either NULL, when no free block is
    large enough and the heap cannot grow, with the heap unchanged, or a block
    with room for the request that overlaps no live block. Live blocks and
    client data are untouched and the allocator's own consistency check still
    succeeds. *)
Theorem heap_alloc_correct s l n :
  good s l → 0 < n < 1073741824 →
  ∃ p s' l', heap_alloc n s = Some (p, s') ∧ good s' l' ∧ heap_check s' = Some true ∧ bytes s' = bytes s ∧
    (∀ b, b ∈ l → b_free b = false → b ∈ l') ∧
    ((p = 0 ∧ l' = l ∧ ∀ b, b ∈ l → b_free b = true → b_size b < n + 7 + HEADER_SIZE) ∨
     (0 < p ∧ live_in l' p n ∧ ∀ q m, live_in l q m → p + n <= q ∨ q + m <= p)).
Proof.
  intros Hg Hn. pose proof (align8_bounds n ltac:(lia)) as Hal.
  destruct (heap_alloc_spec s l n Hg ltac:(lia) ltac:(lia)) as (p & s' & -> & Hb & _ & Hres).
  apply alloc_result_live in Hres as (l' & Hg' & Hkeep & Hcase); [|lia|done].
  exists p, s', l'. split_and!; try done; [by eapply good_check|].
  destruct Hcase as [(-> & -> & Hnone)|(b & Hbin & Hbf & -> & Hpos & Hfit & Hdis)].
  - left. split_and!; [done..|]. intros b Hbin Hbf. pose proof (first_fit_spec l (align8 n + HEADER_SIZE)) as Hff.
    rewrite Hnone in Hff. specialize (Hff b Hbin Hbf). lia.
  - right. split_and!; [hlia| |].
    + exists b. split_and!; try done. lia.
    + intros q m (c & Hc & Hcf & -> & Hm). destruct (Hdis c Hc Hcf); hlia.
Qed.

(** C6: releasing a live block marks it free and coalesces it with the free
    neighbours ([released]); every other live block stays, client data is
    untouched, and the consistency check still succeeds. *)
Theorem heap_free_correct s pre b post :
  good s (pre ++ b :: post) → b_free b = false →
  ∃ s', heap_free (b_addr b + HEADER_SIZE) s = Some s' ∧ good s' (released pre b post) ∧
    heap_check s' = Some true ∧ bytes s' = bytes s ∧
    ∀ c, c ∈ pre ++ b :: post → b_free c = false → c ≠ b → c ∈ released pre b post.
Proof.
  intros Hg Hb. destruct (heap_free_spec s pre b post Hg Hb) as (s' & -> & Hby & _ & Hg').
  exists s'. split_and!; try done; [by eapply good_check|]. intros c Hc Hcf Hne. by apply released_live.
Qed.

(** ** Initialisation and sessions *)

Lemma heap_init_good s s' :
  pg_ok (heap_pages s) → heap_init s = (true, s') →
  good s' [mk_blk (heap_start s') HEAP_PAGE_SIZE true].
Proof.
  intros Hok Hinit. unfold heap_init in Hinit. pose proof (pg_alloc_spec _ Hok) as Ha.
  destruct (pg_alloc (heap_pages s)) as [mem v]. destruct Ha as (Hok1 & _ & _ & Hmem).
  destruct (mem =? 0) eqn:?; zbool; [done|]. destruct Hmem as [?|[[Hr Hal] Hheld]]; [done|]. simpl in Hinit.
  pose proof (pg_map_spec v mem mem MAP_RW Hok1 ltac:(unfold MAP_RW; lia)) as Hm.
  destruct (pg_map mem mem MAP_RW v) as [[] v2]; [|done]. destruct Hm as (Hok2 & Hh2 & Hpte).
  injection Hinit as <-. split; [|done]. cbn [heap_start]. split; [|done|done|].
  - split; cbn [heap_start headers total b_size b_addr]; [lia|done|by split|].
    split; [|done]. by rewrite lookup_insert_eq.
  - exists [mem]. split; [|done]. split; cbn [heap_pages]; [done|apply NoDup_singleton| |].
    { apply Forall_singleton. split; [done|]. by apply Hh2. }
    intros [|[]] q [= <-]. rewrite Hpte, Z.mul_0_r, Z.add_0_r. by rewrite Z.eqb_refl.
Qed.

(** What clients do: allocate, and release pointers to live blocks. *)
Inductive heap_op s : heap V → Prop :=
| op_alloc n p s' : 0 < n < 1073741824 → heap_alloc n s = Some (p, s') → heap_op s s'
| op_free l p n s' : represents s l → live_in l p n → heap_free p s = Some s' → heap_op s s'.

Lemma heap_op_good s l s' : good s l → heap_op s s' → ∃ l', good s' l'.
Proof.
  intros Hg [n p s2 Hn Ha|l2 p n s2 Hr (b & Hb & Hbf & -> & _) Hf].
  - pose proof (align8_bounds n ltac:(lia)).
    destruct (heap_alloc_spec s l n Hg ltac:(lia) ltac:(lia)) as (p2 & s3 & Heq & _ & _ & Hres).
    rewrite Heq in Ha. injection Ha as -> ->.
    apply alloc_result_live in Hres as (l' & Hg' & _); [by exists l'|lia|done].
  - rewrite (represents_unique s l2 l) in Hb by (done || apply Hg).
    apply list_elem_of_split in Hb as (pre & post & ->).
    destruct (heap_free_spec s pre b post Hg Hbf) as (s3 & Heq & _ & _ & Hg'). rewrite Heq in Hf. injection Hf as ->. eauto.
Qed.

Lemma heap_ops_good s l s' : good s l → rtc heap_op s s' → ∃ l', good s' l'.
Proof.
  intros Hg Hrtc. revert l Hg. induction Hrtc as [|x y z Hop _ IH]; [by eauto|].
  intros l Hg. destruct (heap_op_good _ _ _ Hg Hop) as [l' Hg']. by eapply IH.
Qed.


(** [heap_alloc] rounds the size up without checking for overflow: the
    largest seven sizes wrap to zero, and instead of NULL the caller gets a
    block with less than 28 usable bytes. *)
Theorem heap_alloc_size_wraps s l n pre c post :
  good s l → 18446744073709551609 <= n < 18446744073709551616 →
  first_fit l HEADER_SIZE = Some (pre, c, post) →
  ∃ s' b, heap_alloc n s = Some (b_addr b + HEADER_SIZE, s') ∧ good s' (pre ++ taken c 0 ++ post) ∧
    b ∈ pre ++ taken c 0 ++ post ∧ b_addr b = b_addr c ∧ b_size b - HEADER_SIZE < 28.
Proof.
  intros Hg Hn Hff. assert (Hal : align8 n = 0).
  { unfold align8. assert (0 <= u64 (n + 7) < 8) as Hu by ulia.
    change 18446744073709551608 with (2 ^ 64 - 2 ^ 3). rewrite land_high_mask by lia.
    change (2 ^ 3) with 8. by rewrite Z.div_small. }
  destruct (heap_alloc_spec s l n Hg ltac:(lia) ltac:(lia)) as (p & s' & -> & _ & _ & Hres).
  rewrite Hal in Hres. unfold alloc_result in Hres. rewrite Z.add_0_l, Hff in Hres. destruct Hres as [-> Hg'].
  destruct (taken_head c 0) as (sz & r & Ht & Hc & _). exists s', (mk_blk (b_addr c) sz false).
  split_and!; [done|done|rewrite Ht; set_solver|done|]. cbn [b_size].
  revert Hc. unfold carve. destruct (_ <? _) eqn:Hlt; zbool; intros Heq; apply (f_equal (λ x, total (take 1 x))) in Heq;
    simpl in Heq; hlia.
Qed.

(** ** [realloc] *)

Lemma represents_same_total s s' l l' :
  represents s l → linked s' l' → l' ≠ [] → heap_start s' = heap_start s → heap_pages s' = heap_pages s →
  total l' = total l → represents s' l'.
Proof.
  intros [_ _ Hal (P & HP & Ht)] Hl Hne Hs Hv Htot. split; [done|done|by rewrite Hs|].
  exists P. rewrite Hs, Hv, Htot. done.
Qed.

Lemma carve_head b size :
  size + HEADER_SIZE <= b_size b →
  ∃ sz r, carve b size = mk_blk (b_addr b) sz (b_free b) :: r ∧ size + HEADER_SIZE <= sz ∧ total (carve b size) = b_size b.
Proof.
  intros. destruct (taken_head b size) as (sz & r & _ & Hc & Hsz & Hsum & _). exists sz, r. rewrite Hc.
  split_and!; [done|by apply Hsz|simpl; lia].
Qed.

(** Shrinking or growing in place keeps the pointer. *)
Lemma split_in_place s pre b post size :
  represents s (pre ++ b :: post) → 0 <= size → size + HEADER_SIZE <= b_size b →
  ∃ s', split_block (b_addr b) size s = Some s' ∧ represents s' (pre ++ carve b size ++ post) ∧
        bytes s' = bytes s ∧ heap_statistics s' = carve_stats (heap_statistics s) b size.
Proof.
  intros Hr Hsize Hfit. destruct (split_block_spec s pre b post size (rp_linked _ _ Hr) Hsize Hfit) as (h' & -> & Hl').
  eexists. split; [done|]. split; [|done]. destruct (carve_head b size Hfit) as (sz & r & Hc & _ & Ht).
  apply (represents_same_total s _ (pre ++ b :: post)); try done; [by rewrite Hc; destruct pre|].
  rewrite !total_app, Ht. done.
Qed.

(** Shrinking a block through [heap_realloc] far enough to split it updates
    the block list but not the byte counters: the tail becomes a free block that
    is still counted as used, and [heap_check] fails from then on. *)
Theorem heap_realloc_shrink_breaks_check s pre b post size :
  good s (pre ++ b :: post) → b_free b = false → 0 < size → size + 2 * HEADER_SIZE <= b_size b →
  ∃ s', heap_realloc (b_addr b + HEADER_SIZE) size s = Some (b_addr b + HEADER_SIZE, s') ∧
    represents s' (pre ++ carve b size ++ post) ∧ heap_check s' = Some false.
Proof.
  intros [Hr Hst] Hb Hsize Hfit. pose proof (rp_linked _ _ Hr) as Hl.
  destruct (linked_at s pre b post Hl) as (Hld & Ha & Hsz & Hp1 & Hp2 & Htot & _). pose proof (lk_start _ _ Hl). pose proof (lk_total _ _ Hl).
  unfold heap_realloc. rewrite !(proj2 (Z.eqb_neq _ 0)) by hlia. cbv zeta.
  rewrite Z.add_simpl_r, (u64_small (b_addr b)) by (unfold is_u64; hlia).
  change (load s (b_addr b)) with (headers s !! b_addr b). rewrite Hld. cbn [mbind option_bind hb_magic hb_size hdr].
  rewrite Z.eqb_refl. cbn [negb]. rewrite u64_small by (unfold is_u64; hlia).
  rewrite (proj2 (Z.leb_le _ _)) by hlia.
  destruct (split_in_place s pre b post size Hr ltac:(lia) ltac:(hlia)) as (s' & -> & Hr' & _ & Hst').
  exists s'. cbn [mbind option_bind]. split_and!; [done..|].
  rewrite (heap_check_spec s' _ (rp_linked _ _ Hr')) by apply Hr'. f_equal. apply bool_decide_eq_false.
  rewrite Hst', Hst. unfold carve_stats, carve. destruct (_ <? _) eqn:?; zbool; [hlia|].
  intros Heq. apply (f_equal used_size) in Heq. revert Heq. pose proof (linked_ranges _ _ Hl) as Hrg.
  pose proof (total_of_sum (pre ++ b :: post)).
  unfold stats_add, stats_of. cbn [used_size]. rewrite u64_small by (unfold is_u64; lia).
  rewrite !total_of_app. cbn [app total_of b_free b_size]. rewrite Hb. cbn [Bool.eqb]. hlia.
Qed.

Lemma merge_in_place s pre b n post :
  represents s (pre ++ b :: n :: post) → b_free n = true →
  ∃ s' rest, merge_free_blocks (b_addr b) s = Some s' ∧ bytes s' = bytes s ∧
    represents s' (pre ++ absorb b (n :: free_run post) :: rest) ∧ after_run post = rest.
Proof.
  intros Hr Hn. destruct (run_split post) as (Hsp & Hrun & Haft). pose proof (rp_linked _ _ Hr) as Hl.
  rewrite Hsp in Hl. change (b :: n :: free_run post ++ after_run post) with (b :: (n :: free_run post) ++ after_run post) in Hl.
  destruct (merge_loop_spec (list_fuel s) s pre b (n :: free_run post) (after_run post)) as (h' & Hm & Hl'); try done;
    [|by constructor|].
  { pose proof (linked_fuel _ _ Hl) as Hfu. rewrite length_app in Hfu. simpl in Hfu |- *. rewrite length_app in Hfu. lia. }
  eexists _, _. split; [exact Hm|]. split; [done|]. split; [|done].
  apply (represents_same_total s _ (pre ++ b :: n :: post)); try done; [by destruct pre|].
  rewrite !total_app. cbn [total]. rewrite absorb_total. rewrite Hsp at 3. cbn [total]. rewrite total_app. lia.
Qed.

Lemma represents_bytes s l m : represents s l → represents (set_bytes s m) l.
Proof. intros [[? ? ? ?] ? ? ?]. by split. Qed.

(** The move path of [heap_realloc]. *)
Lemma realloc_move s l b size :
  good s l → b ∈ l → b_free b = false → 0 < size < 1073741824 →
  ∃ p s' l',
    ('(new_ptr, s) ← heap_alloc size s;
     if new_ptr =? 0 then Some (0, s) else
     let s := set_bytes s (memcpy new_ptr (b_addr b + HEADER_SIZE) (b_size b - HEADER_SIZE) (bytes s)) in
     s ← heap_free (b_addr b + HEADER_SIZE) s;
     Some (new_ptr, s)) = Some (p, s') ∧ represents s' l' ∧
    (∀ c, c ∈ l → b_free c = false → c ≠ b → c ∈ l') ∧
    ((p = 0 ∧ b ∈ l' ∧ bytes s' = bytes s) ∨
     (live_in l' p size ∧
      ∀ i, 0 <= i < b_size b - HEADER_SIZE → rd (bytes s') (p + i) = rd (bytes s) (b_addr b + HEADER_SIZE + i))).
Proof.
  intros Hg Hb Hbf Hsize. pose proof (align8_bounds size ltac:(lia)) as Hal.
  destruct (heap_alloc_spec s l size Hg ltac:(lia) ltac:(lia)) as (p & s1 & -> & Hby & _ & Hres).
  apply alloc_result_live in Hres as (l1 & Hg1 & Hkeep & Hcase); [|lia|done]. cbn [mbind option_bind].
  destruct Hcase as [(-> & -> & _)|(nb & Hnb & Hnbf & -> & Hpos & Hfit & Hdis)].
  { rewrite Z.eqb_refl. eexists _, s1, l. split; [done|]. split; [apply Hg1|]. split; [done|]. left. by split_and!. }
  rewrite (proj2 (Z.eqb_neq _ 0)) by hlia. cbv zeta. pose proof (Hkeep b Hb Hbf) as Hb1.
  apply list_elem_of_split in Hb1 as (pre & post & ->).
  assert (Hg2 : good (set_bytes s1 (memcpy (b_addr nb + HEADER_SIZE) (b_addr b + HEADER_SIZE) (b_size b - HEADER_SIZE) (bytes s1))) (pre ++ b :: post))
    by (destruct Hg1; split; [by apply represents_bytes|done]).
  destruct (heap_free_spec _ pre b post Hg2 Hbf) as (s' & -> & Hby' & _ & Hg'). cbn [mbind option_bind].
  assert (Hne : nb ≠ b). { intros ->. destruct (Hdis b Hb Hbf); hlia. }
  eexists _, s', _. split; [done|]. split; [apply Hg'|]. split.
  { intros c Hc Hcf Hcb. apply released_live; auto. }
  right. split.
  - exists nb. split_and!; [by apply released_live|done|done|lia].
  - intros i Hi. rewrite Hby'. cbn [bytes set_bytes]. unfold memcpy. rewrite copy_up_spec.
    + rewrite Z2Nat.id by lia. rewrite (proj2 (in_block_spec _ _ _)) by lia. rewrite Hby. f_equal. lia.
    + rewrite Z2Nat.id by lia. destruct (Hdis b Hb Hbf); [left|right]; hlia.
Qed.

(** What [realloc] of block [b] to [size] bytes gives: [p] is NULL, the block
    still there, or a block with room for [size] bytes and the old contents. *)
Definition realloc_ok s l b size (p : Z) s' l' : Prop :=
  represents s' l' ∧
  (∀ c, c ∈ l → b_free c = false → c ≠ b → c ∈ l') ∧
  ((p = 0 ∧ b ∈ l' ∧ bytes s' = bytes s) ∨
   (live_in l' p size ∧ ∀ i, 0 <= i < size → i < b_size b - HEADER_SIZE →
      rd (bytes s') (p + i) = rd (bytes s) (b_addr b + HEADER_SIZE + i))).

Lemma shrink_ok s pre b post size :
  represents s (pre ++ b :: post) → b_free b = false → 0 <= size → size + HEADER_SIZE <= b_size b →
  ∃ s' l', split_block (b_addr b) size s = Some s' ∧
           realloc_ok s (pre ++ b :: post) b size (b_addr b + HEADER_SIZE) s' l'.
Proof.
  intros Hr Hb Hsize Hfit. destruct (split_in_place s pre b post size) as (s' & -> & Hr' & Hby & _); try done.
  destruct (carve_head b size Hfit) as (sz & r & Hc & Hszf & _).
  eexists s', _. split; [done|]. split; [exact Hr'|]. rewrite Hc. split; [set_solver|]. right. split; [|by rewrite Hby].
  exists (mk_blk (b_addr b) sz (b_free b)). split_and!; [set_solver|done|done|done].
Qed.

Lemma grow_ok s pre b n post size :
  represents s (pre ++ b :: n :: post) → b_free b = false → b_free n = true → 0 <= size →
  size + HEADER_SIZE <= b_size b + b_size n →
  ∃ s1 s' l', merge_free_blocks (b_addr b) s = Some s1 ∧ split_block (b_addr b) size s1 = Some s' ∧
              realloc_ok s (pre ++ b :: n :: post) b size (b_addr b + HEADER_SIZE) s' l'.
Proof.
  intros Hr Hb Hn Hsize Hfit. destruct (merge_in_place s pre b n post Hr Hn) as (s1 & rest & -> & Hby1 & Hr1 & Hrest).
  assert (Hrun : 0 <= total (free_run post)).
  { pose proof (lk_tiles _ _ (rp_linked _ _ Hr)) as Ht. apply tiles_app in Ht as [_ (_ & _ & _ & _ & Ht)].
    destruct (run_split post) as (Hsp & _). rewrite Hsp in Ht. apply tiles_app in Ht as [Ht _]. by eapply tiles_total. }
  set (m := absorb b (n :: free_run post)) in *.
  assert (Hm : size + HEADER_SIZE <= b_size m) by (unfold m; rewrite absorb_total; simpl; lia).
  destruct (split_in_place s1 pre m rest size) as (s' & Hsplit & Hr' & Hby & _); try done.
  destruct (carve_head m size Hm) as (sz & r & Hc & Hszf & _).
  eexists s1, s', _. split; [done|]. split; [done|]. split; [exact Hr'|]. rewrite Hc. split.
  - intros c Hcin Hcf Hcb. apply elem_of_app in Hcin as [?|Hcin]; [set_solver|].
    apply elem_of_cons in Hcin as [?|Hcin]; [done|]. apply elem_of_cons in Hcin as [->|Hcin]; [congruence|].
    apply (after_run_live _ _ Hcf) in Hcin. rewrite Hrest in Hcin. set_solver.
  - right. split; [|by rewrite Hby, Hby1].
    exists (mk_blk (b_addr m) sz (b_free m)). split_and!; [set_solver|done|done|done].
Qed.

(** C7: [heap_realloc] of a live block either fails, leaving the block as it was,
    or returns a block of the requested size whose first bytes are the old
    contents; other live blocks stay where they are ([realloc_ok]). It never
    follows a wild pointer. *)
Theorem heap_realloc_correct s pre b post size :
  good s (pre ++ b :: post) → b_free b = false → 0 < size < 1073741824 →
  ∃ p s' l', heap_realloc (b_addr b + HEADER_SIZE) size s = Some (p, s') ∧
             realloc_ok s (pre ++ b :: post) b size p s' l'.
Proof.
  intros Hg Hb Hsize. pose proof (proj1 Hg) as Hr. pose proof (rp_linked _ _ Hr) as Hl.
  destruct (linked_at s pre b post Hl) as (Hld & Ha & Hsz & Hp1 & Hp2 & Htot & Htp & _).
  pose proof (lk_start _ _ Hl). pose proof (lk_total _ _ Hl).
  unfold heap_realloc. rewrite !(proj2 (Z.eqb_neq _ 0)) by hlia. cbv zeta.
  rewrite Z.add_simpl_r, (u64_small (b_addr b)) by (unfold is_u64; hlia).
  change (load s (b_addr b)) with (headers s !! b_addr b). rewrite Hld. cbn [mbind option_bind hb_magic hb_size hb_next hdr].
  rewrite Z.eqb_refl. cbn [negb]. rewrite (u64_small (b_size b - _)) by (unfold is_u64; hlia).
  destruct (size <=? b_size b - HEADER_SIZE) eqn:Hle; zbool.
  { destruct (shrink_ok s pre b post size Hr Hb ltac:(lia) ltac:(hlia)) as (s' & l' & -> & Hok).
    by exists (b_addr b + HEADER_SIZE), s', l'. }
  destruct (realloc_move s (pre ++ b :: post) b size Hg ltac:(set_solver) Hb Hsize) as (pm & sm & lm & Hmv & Hrm & Hkm & Hcm).
  assert (Hmove : realloc_ok s (pre ++ b :: post) b size pm sm lm).
  { split_and!; try done. destruct Hcm as [?|[? Hc]]; [by left|right]. split; [done|].
    intros i ? ?. apply Hc. lia. }
  rewrite (tiles_next _ _ Htp) by hlia. destruct post as [|n post].
  { cbn [mbind option_bind]. exists pm, sm, lm. by split. }
  cbn [next_or]. destruct (linked_at s (pre ++ [b]) n post ltac:(by rewrite <- app_assoc)) as (Hln & _ & Hnsz & _).
  change (load s (b_addr n)) with (headers s !! b_addr n). rewrite Hln. cbn [mbind option_bind hb_size hdr].
  rewrite is_free_hdr. destruct (b_free n && _)%bool eqn:Hfits; [|exists pm, sm, lm; by split]. zbool.
  simpl in Hp2, Htot. destruct Htp as (_ & _ & Htp). pose proof (tiles_total _ _ Htp).
  rewrite u64_small, u32_small in * by (unfold is_u32, is_u64; hlia).
  destruct (grow_ok s pre b n post size Hr Hb ltac:(done) ltac:(lia) ltac:(lia)) as (s1 & s' & l' & -> & Hs' & Hok).
  cbn [mbind option_bind]. rewrite Hs'. by exists (b_addr b + HEADER_SIZE), s', l'.
Qed.
End heap.

(** ** The interface *)

Section malloc_instance.
Context {V : Type} `{!Paging V}.

Definition total_malloc (n : Z) (s : heap V) : Z * heap V := default (0, s) (heap_alloc n s).
Definition total_free (p : Z) (s : heap V) : heap V := default s (heap_free p s).

#[export] Program Instance heap_malloc : Interfaces.Malloc (heap V) := {|
  Interfaces.malloc := total_malloc;
  Interfaces.mfree := total_free;
  ml_ok s := ∃ l, good s l;
  ml_live s p n := ∃ l, good s l ∧ live_in l p n;
|}.
Next Obligation.
  intros s n [l Hg] Hn. pose proof (align8_bounds n ltac:(lia)) as Hal.
  destruct (heap_alloc_spec s l n Hg ltac:(lia) ltac:(lia)) as (p & s' & Heq & _ & _ & Hres).
  unfold total_malloc. rewrite Heq. simpl.
  apply alloc_result_live in Hres as (l' & Hg' & Hkeep & Hcase); [|lia|done].
  split; [by exists l'|]. split.
  - intros q m (l2 & Hg2 & b & Hb & Hbf & Hp). rewrite (represents_unique s l2 l) in Hb by (apply Hg2 || apply Hg).
    exists l'. split; [done|]. exists b. split; [by apply Hkeep|done].
  - destruct Hcase as [(-> & _)|(b & Hb & Hbf & -> & Hpos & Hfit & Hdis)]; [by left|right].
    split; [hlia|]. split; [exists l'; split; [done|]; exists b; split_and!; [done..|lia]|].
    intros q m (l2 & Hg2 & c & Hc & Hcf & -> & Hm). rewrite (represents_unique s l2 l) in Hc by (apply Hg2 || apply Hg).
    destruct (Hdis c Hc Hcf); hlia.
Qed.
Next Obligation.
  intros s p n [l Hg] (l2 & Hg2 & b & Hb & Hbf & -> & _).
  rewrite (represents_unique s l2 l) in Hb by (apply Hg2 || apply Hg).
  apply list_elem_of_split in Hb as (pre & post & ->).
  destruct (heap_free_spec s pre b post Hg Hbf) as (s' & Heq & _ & _ & Hg'). unfold total_free. rewrite Heq. simpl.
  split; [by eexists|]. intros q m (l3 & Hg3 & c & Hc & Hcf & -> & Hm) Hne.
  rewrite (represents_unique s l3 (pre ++ b :: post)) in Hc by (apply Hg3 || apply Hg).
  eexists. split; [exact Hg'|]. exists c. split_and!; try done. apply released_live; try done. congruence.
Qed.
Next Obligation. done. Qed.
End malloc_instance.

(** ** Witnesses: a fresh heap over concrete page tables *)

Definition demo_boot : heap (vmm pmm) := mk_heap 0 ∅ (mk_stats 0 0 0 0 0) ∅ demo_vmm.
Definition demo_heap : heap (vmm pmm) := snd (heap_init demo_boot).

Lemma demo_heap_init : heap_init demo_boot = (true, demo_heap).
Proof.
  unfold demo_heap. destruct (heap_init _) as [ok s] eqn:Hi. apply (f_equal fst) in Hi.
  assert (ok = true) as -> by (symmetry; exact Hi). done.
Qed.

Definition demo_blocks : list blk := [mk_blk 286720 4096 true].

Lemma demo_heap_good : good demo_heap demo_blocks.
Proof. exact (heap_init_good demo_boot _ demo_vmm_wf demo_heap_init). Qed.

Lemma heap_alloc_correct_witness : ∃ p s' l', heap_alloc 100 demo_heap = Some (p, s') ∧ good s' l'.
Proof.
  destruct (heap_alloc_correct demo_heap demo_blocks 100 demo_heap_good ltac:(lia)) as (p & s' & l' & H & Hg & _).
  exists p, s', l'. split; [exact H|exact Hg].
Defined.

(** The heap after one allocation: one live block of 132 bytes. *)
Definition demo_heap1 : heap (vmm pmm) := default demo_heap (snd <$> heap_alloc 100 demo_heap).
Definition demo_live : blk := mk_blk 286720 132 false.
Definition demo_rest : blk := mk_blk 286852 3964 true.

Lemma demo_heap1_good : good demo_heap1 ([] ++ demo_live :: [demo_rest]).
Proof.
  destruct (heap_alloc_spec demo_heap demo_blocks 100 demo_heap_good ltac:(lia) ltac:(vm_compute; split; congruence))
    as (p & s' & Heq & _ & _ & Hres). unfold demo_heap1. rewrite Heq. exact (proj2 Hres).
Qed.

Lemma heap_free_correct_witness : ∃ s', heap_free 286748 demo_heap1 = Some s' ∧ heap_check s' = Some true.
Proof.
  destruct (heap_free_correct demo_heap1 [] demo_live [demo_rest] demo_heap1_good eq_refl) as (s' & H & _ & Hc & _).
  exists s'. split; [exact H|exact Hc].
Defined.


Lemma heap_alloc_size_wraps_witness : ∃ p s', heap_alloc 18446744073709551615 demo_heap = Some (p, s').
Proof.
  destruct (heap_alloc_size_wraps demo_heap demo_blocks 18446744073709551615 [] (mk_blk 286720 4096 true) []
              demo_heap_good ltac:(lia) eq_refl) as (s' & b & H & _).
  eexists _, s'. exact H.
Defined.

Lemma heap_realloc_shrink_breaks_check_witness :
  ∃ s', heap_realloc 286748 20 demo_heap1 = Some (286748, s') ∧ heap_check s' = Some false.
Proof.
  destruct (heap_realloc_shrink_breaks_check demo_heap1 [] demo_live [demo_rest] 20 demo_heap1_good eq_refl
              ltac:(lia) ltac:(vm_compute; congruence)) as (s' & H & _ & Hc).
  exists s'. split; [exact H|exact Hc].
Defined.

Lemma heap_realloc_correct_witness : ∃ p s', heap_realloc 286748 1000 demo_heap1 = Some (p, s').
Proof.
  destruct (heap_realloc_correct demo_heap1 [] demo_live [demo_rest] 1000 demo_heap1_good eq_refl ltac:(lia))
    as (p & s' & l' & H & _).
  exists p, s'. exact H.
Defined.
