(* ===== verification/Pipe.v ===== *)
(** * Kernel pipes ([kernel/src/core/drivers/tty/pipe.c])

    A pipe is a 4096-byte circular buffer with a byte count, state flags and
    the numbers of readers and writers.  Where the C code busy-waits for
    another processor to change the pipe, the operation's outcome is a [Spin]
    carrying the state it waits in.  The theorems relate the buffer to the list
    of bytes in flight: a pipe delivers exactly the bytes written, in order. *)
From S2P Require Import Prelude Interfaces Ring.

Definition PIPE_BUFFER_SIZE : Z := 4096.
Definition PIPE_STATE_OPEN : Z := 1.
Definition PIPE_STATE_READABLE : Z := 2.
Definition PIPE_STATE_WRITABLE : Z := 4.
Definition PIPE_STATE_EOF : Z := 8.

Record pipe_t := mk_pipe {
  buffer : list Z;
  read_pos : Z;
  write_pos : Z;
  pcount : Z;
  state : Z;
  readers : Z;
  writers : Z;
}.

Definition has_flag (p : pipe_t) (f : Z) : bool := negb (Z.land (state p) f =? 0).

Section create.
Context {H : Type} `{Malloc H}.

(** [pipe_create]: two heap blocks; the buffer's initial contents are whatever
    the heap returned ([garbage]).  The result carries both block addresses. *)
Definition pipe_create (garbage : list Z) (h : H) : option (Z * Z * pipe_t) * H :=
  let '(p, h) := malloc 32 h in
  if p =? 0 then (None, h)
  else
    let '(b, h) := malloc PIPE_BUFFER_SIZE h in
    if b =? 0 then (None, mfree p h)
    else
      (Some (p, b, mk_pipe garbage 0 0 0
               (Z.lor (Z.lor PIPE_STATE_OPEN PIPE_STATE_READABLE) PIPE_STATE_WRITABLE) 0 0), h).

(** [pipe_destroy] on the pair of block addresses (0 for NULL). *)
Definition pipe_destroy (p b : Z) (h : H) : H :=
  if p =? 0 then h else mfree p (if b =? 0 then h else mfree b h).
End create.

(** ** Reading *)

Inductive read_outcome :=
  | ReadRet (ret : Z) (data : list Z) (p : pipe_t)
  | ReadSpin.

Definition pipe_get (p : pipe_t) : Z * pipe_t :=
  (aget (buffer p) (read_pos p),
   mk_pipe (buffer p) (Z.land (u32 (read_pos p + 1)) (PIPE_BUFFER_SIZE - 1)) (write_pos p)
           (u32 (pcount p - 1)) (state p) (readers p) (writers p)).

Fixpoint read_loop (n : nat) (p : pipe_t) : list Z * pipe_t :=
  match n with
  | O => ([], p)
  | S n =>
      let '(b, p) := pipe_get p in
      let '(bs, p) := read_loop n p in (b :: bs, p)
  end.

(** [pipe_read]; a NULL pipe is [None], [buf] says whether the destination is
    not NULL. *)
Definition pipe_read (op : option pipe_t) (buf : bool) (count : Z) : read_outcome :=
  match op with
  | None => ReadRet (-1) [] (mk_pipe [] 0 0 0 0 0 0)
  | Some p =>
      if negb buf || negb (has_flag p PIPE_STATE_READABLE) then ReadRet (-1) [] p
      else if pcount p =? 0 then
        if (writers p =? 0) || has_flag p PIPE_STATE_EOF then ReadRet 0 [] p else ReadSpin
      else
        let to_read := if count <? pcount p then count else pcount p in
        let '(bs, p') := read_loop (Z.to_nat to_read) p in
        ReadRet to_read bs p'
  end.

(** ** Writing *)

Inductive write_outcome :=
  | WriteRet (ret : Z) (p : pipe_t)
  | WriteSpin (written : Z) (p : pipe_t).

Definition pipe_put (p : pipe_t) (b : Z) : pipe_t :=
  mk_pipe (aset (buffer p) (write_pos p) b) (read_pos p)
          (Z.land (u32 (write_pos p + 1)) (PIPE_BUFFER_SIZE - 1))
          (u32 (pcount p + 1)) (state p) (readers p) (writers p).

Fixpoint write_loop (p : pipe_t) (written : Z) (src : list Z) : write_outcome :=
  match src with
  | [] => WriteRet written p
  | b :: src =>
      if pcount p =? PIPE_BUFFER_SIZE then
        if readers p =? 0 then WriteRet (if 0 <? written then written else -1) p
        else WriteSpin written p
      else write_loop (pipe_put p b) (written + 1) src
  end.

(** [pipe_write]; [src] is the source buffer of [count] bytes, [None] for NULL. *)
Definition pipe_write (op : option pipe_t) (osrc : option (list Z)) : write_outcome :=
  match op, osrc with
  | Some p, Some src =>
      if negb (has_flag p PIPE_STATE_WRITABLE) then WriteRet (-1) p
      else if readers p =? 0 then WriteRet (-1) p
      else write_loop p 0 src
  | Some p, None => WriteRet (-1) p
  | None, _ => WriteRet (-1) (mk_pipe [] 0 0 0 0 0 0)
  end.

(** ** Readers, writers and readiness *)

Definition set_ends (p : pipe_t) (st r w : Z) : pipe_t :=
  mk_pipe (buffer p) (read_pos p) (write_pos p) (pcount p) st r w.

Definition clear_flag (st f : Z) : Z := Z.land st (Z.lnot f).

Definition pipe_add_reader (p : pipe_t) : pipe_t :=
  set_ends p (Z.lor (state p) PIPE_STATE_READABLE) (u32 (readers p + 1)) (writers p).

Definition pipe_add_writer (p : pipe_t) : pipe_t :=
  set_ends p (Z.lor (state p) PIPE_STATE_WRITABLE) (readers p) (u32 (writers p + 1)).

Definition pipe_remove_reader (p : pipe_t) : pipe_t :=
  if readers p =? 0 then p
  else
    let r := readers p - 1 in
    set_ends p (if r =? 0 then clear_flag (state p) PIPE_STATE_READABLE else state p) r (writers p).

Definition pipe_remove_writer (p : pipe_t) : pipe_t :=
  if writers p =? 0 then p
  else
    let w := writers p - 1 in
    set_ends p
      (if w =? 0 then Z.lor (clear_flag (state p) PIPE_STATE_WRITABLE) PIPE_STATE_EOF else state p)
      (readers p) w.

Definition pipe_is_readable (op : option pipe_t) : bool :=
  match op with
  | None => false
  | Some p => has_flag p PIPE_STATE_READABLE && ((0 <? pcount p) || (0 <? writers p))
  end.

Definition pipe_is_writable (op : option pipe_t) : bool :=
  match op with
  | None => false
  | Some p => has_flag p PIPE_STATE_WRITABLE && (0 <? readers p) && (pcount p <? PIPE_BUFFER_SIZE)
  end.

(** ** Representation: the bytes in flight *)

Definition in_flight (p : pipe_t) : list Z :=
  ring_contents (buffer p) PIPE_BUFFER_SIZE (read_pos p) (pcount p).

Record pipe_inv (p : pipe_t) : Prop := {
  pi_len : Z.of_nat (length (buffer p)) = PIPE_BUFFER_SIZE;
  pi_read : 0 <= read_pos p < PIPE_BUFFER_SIZE;
  pi_count : 0 <= pcount p <= PIPE_BUFFER_SIZE;
  pi_write : write_pos p = (read_pos p + pcount p) mod PIPE_BUFFER_SIZE;
}.

Lemma wrap_pos x : 0 <= x < PIPE_BUFFER_SIZE → Z.land (u32 (x + 1)) (PIPE_BUFFER_SIZE - 1) = (x + 1) mod PIPE_BUFFER_SIZE.
Proof.
  intros. unfold PIPE_BUFFER_SIZE in *. rewrite u32_small by (unfold is_u32; lia).
  exact (land_mask (x + 1) 12 ltac:(lia)).
Qed.

(** The parts of a pipe that data transfer leaves alone. *)
Definition ends_eq (p p' : pipe_t) : Prop :=
  state p' = state p ∧ readers p' = readers p ∧ writers p' = writers p.

Lemma pipe_put_spec p b :
  pipe_inv p → pcount p < PIPE_BUFFER_SIZE →
  pipe_inv (pipe_put p b) ∧ in_flight (pipe_put p b) = in_flight p ++ [b] ∧
  pcount (pipe_put p b) = pcount p + 1 ∧ ends_eq p (pipe_put p b).
Proof.
  intros [Hl Hr Hc Hw] Hlt.
  assert (0 <= write_pos p < PIPE_BUFFER_SIZE) as Hwr by (rewrite Hw; by apply Z.mod_pos_bound).
  assert (u32 (pcount p + 1) = pcount p + 1) as Hu
    by (apply u32_small; unfold is_u32, PIPE_BUFFER_SIZE in *; lia).
  split; [|split; [|split; [exact Hu|done]]].
  - split; simpl; rewrite ?Hu; try lia.
    + by rewrite length_aset.
    + rewrite wrap_pos, Hw by done. apply ring_pos_succ. done.
  - unfold in_flight; simpl. rewrite Hu, Hw. apply ring_put; [done|done|lia].
Qed.

Lemma pipe_get_spec p :
  pipe_inv p → 0 < pcount p →
  let '(b, p') := pipe_get p in
  pipe_inv p' ∧ in_flight p = b :: in_flight p' ∧ pcount p' = pcount p - 1 ∧ ends_eq p p'.
Proof.
  intros [Hl Hr Hc Hw] Hgt. simpl.
  assert (u32 (pcount p - 1) = pcount p - 1) as Hu
    by (apply u32_small; unfold is_u32, PIPE_BUFFER_SIZE in *; lia).
  split; [|split; [|split; [exact Hu|done]]].
  - split; simpl; rewrite ?Hu, ?wrap_pos by done; [done|by apply Z.mod_pos_bound|lia|].
    rewrite Hw. symmetry. apply ring_pos_shift. done.
  - unfold in_flight; simpl. rewrite Hu, wrap_pos by done. by apply ring_get.
Qed.

Lemma read_loop_spec n p :
  pipe_inv p → Z.of_nat n <= pcount p →
  let '(bs, p') := read_loop n p in
  pipe_inv p' ∧ in_flight p = bs ++ in_flight p' ∧ length bs = n ∧ ends_eq p p'.
Proof.
  revert p. induction n as [|n IH]; intros p Hinv Hn; simpl; [done|].
  pose proof (pipe_get_spec p Hinv ltac:(lia)) as Hg. unfold pipe_get in *.
  destruct Hg as (Hinv' & Hf & Hc & He1 & He2 & He3).
  specialize (IH _ Hinv' ltac:(lia)). destruct (read_loop n _) as [bs p'].
  destruct IH as (Hinv'' & Hf' & Hlen & Hs1 & Hs2 & Hs3). split; [done|].
  rewrite Hf, Hf'. simpl. split; [done|]. split; [lia|]. unfold ends_eq in *. simpl in *. done.
Qed.

(** What the write loop does when the buffer is full. *)
Definition write_full (p : pipe_t) (written : Z) : write_outcome :=
  if readers p =? 0 then WriteRet (if 0 <? written then written else -1) p
  else WriteSpin written p.

(** [write_loop] stores the longest prefix that fits. *)
Lemma write_loop_spec src : ∀ p written,
  pipe_inv p →
  let n := Z.min (Z.of_nat (length src)) (PIPE_BUFFER_SIZE - pcount p) in
  ∃ p', write_loop p written src =
          (if n =? Z.of_nat (length src) then WriteRet (written + n) p' else write_full p' (written + n)) ∧
    pipe_inv p' ∧ in_flight p' = in_flight p ++ take (Z.to_nat n) src ∧ ends_eq p p'.
Proof.
  induction src as [|b src IH]; intros p written Hinv n; pose proof (pi_count p Hinv).
  - exists p. subst n. rewrite Z.min_l by (simpl; lia). simpl. rewrite Z.add_0_r, app_nil_r. done.
  - cbn [write_loop]. destruct (pcount p =? PIPE_BUFFER_SIZE) eqn:Hfull; zbool.
    + assert (n = 0) as -> by (subst n; simpl length; lia).
      exists p. rewrite (proj2 (Z.eqb_neq 0 _)) by (simpl length; lia).
      rewrite Z.add_0_r. simpl. rewrite app_nil_r. done.
    + destruct (pipe_put_spec p b Hinv ltac:(lia)) as (Hinv' & Hf & Hc & He).
      destruct (IH (pipe_put p b) (written + 1) Hinv') as (p' & Heq & Hinv'' & Hf' & He').
      rewrite Hc in Heq, Hf'.
      set (m := Z.min (Z.of_nat (length src)) (PIPE_BUFFER_SIZE - (pcount p + 1))) in *.
      assert (n = m + 1) as -> by (subst n m; simpl length; lia).
      exists p'. split; [|split; [done|split]].
      * rewrite Heq. replace (written + 1 + m) with (written + (m + 1)) by lia.
        replace (m + 1 =? Z.of_nat (length (b :: src))) with (m =? Z.of_nat (length src)); [done|].
        simpl length. destruct (Z.eqb_spec m (Z.of_nat (length src))); symmetry;
          [apply Z.eqb_eq|apply Z.eqb_neq]; lia.
      * rewrite Hf', Hf, <- app_assoc. f_equal. simpl.
        replace (Z.to_nat (m + 1)) with (S (Z.to_nat m)) by lia. done.
      * unfold ends_eq in *. destruct He' as (-> & -> & ->). done.
Qed.

Lemma in_flight_length p : pipe_inv p → Z.of_nat (length (in_flight p)) = pcount p.
Proof. intros Hinv. apply ring_contents_length. apply Hinv. Qed.

Lemma pipe_read_spec p n :
  pipe_inv p → 0 <= n →
  match pipe_read (Some p) true n with
  | ReadRet r data p' =>
      pipe_inv p' ∧ in_flight p = data ++ in_flight p' ∧ ends_eq p p' ∧
      ((r = -1 ∧ data = [] ∧ has_flag p PIPE_STATE_READABLE = false) ∨
       (r = Z.of_nat (length data) ∧ r = Z.min n (pcount p)))
  | ReadSpin => pcount p = 0 ∧ writers p ≠ 0 ∧ has_flag p PIPE_STATE_EOF = false
  end.
Proof.
  intros Hinv Hn. pose proof (pi_count p Hinv). cbn [pipe_read negb orb].
  destruct (negb (has_flag p PIPE_STATE_READABLE)) eqn:Hr; zbool; [by unfold ends_eq; auto 10|].
  destruct (pcount p =? 0) eqn:Hc; zbool.
  - destruct (_ || _)%bool eqn:He; zbool; [|by auto]. rewrite Z.min_r by lia. rewrite Hc. by unfold ends_eq; auto 10.
  - assert ((if n <? pcount p then n else pcount p) = Z.min n (pcount p)) as ->
      by (destruct (n <? pcount p) eqn:?; zbool; lia).
    pose proof (read_loop_spec (Z.to_nat (Z.min n (pcount p))) p Hinv ltac:(lia)) as Hl.
    destruct (read_loop _ p) as [bs p']. destruct Hl as (? & ? & Hlen & ?).
    repeat (split; [done|]). right. rewrite Hlen. lia.
Qed.

(** ** Traffic through a pipe *)

(** Number of source bytes a call that had already stored [k] bytes has put
    into the pipe since. *)
Definition stored (o : write_outcome) (k : Z) : Z :=
  match o with
  | WriteRet r _ => if r <? 0 then 0 else r - k
  | WriteSpin r _ => r - k
  end.
Definition out_pipe (o : write_outcome) : pipe_t :=
  match o with WriteRet _ p => p | WriteSpin _ p => p end.

(** A pipe with the bytes written to it and read from it so far.  A writer that
    finds the pipe full leaves its progress visible and goes on later with the
    rest of its buffer ([k] bytes done). *)
Inductive pipe_step : pipe_t * list Z * list Z → pipe_t * list Z * list Z → Prop :=
  | step_write p w r k src o :
      0 <= k → write_loop p k src = o →
      pipe_step (p, w, r) (out_pipe o, w ++ take (Z.to_nat (stored o k)) src, r)
  | step_read p w r n ret data p' :
      0 <= n → pipe_read (Some p) true n = ReadRet ret data p' →
      pipe_step (p, w, r) (p', w, r ++ data)
  | step_add_reader p w r : pipe_step (p, w, r) (pipe_add_reader p, w, r)
  | step_add_writer p w r : pipe_step (p, w, r) (pipe_add_writer p, w, r)
  | step_remove_reader p w r : pipe_step (p, w, r) (pipe_remove_reader p, w, r)
  | step_remove_writer p w r : pipe_step (p, w, r) (pipe_remove_writer p, w, r).

Definition traffic_inv (c : pipe_t * list Z * list Z) : Prop :=
  let '(p, w, r) := c in pipe_inv p ∧ w = r ++ in_flight p.

Lemma set_ends_inv p st r w : pipe_inv p → pipe_inv (set_ends p st r w).
Proof. by intros [????]; split. Qed.

Lemma traffic_write p w r k src :
  0 <= k → traffic_inv (p, w, r) →
  let o := write_loop p k src in
  traffic_inv (out_pipe o, w ++ take (Z.to_nat (stored o k)) src, r).
Proof.
  intros Hk [Hinv ->] o. pose proof (pi_count p Hinv).
  destruct (write_loop_spec src p k Hinv) as (p' & Heq & Hinv' & Hf & _).
  set (n := Z.min (Z.of_nat (length src)) (PIPE_BUFFER_SIZE - pcount p)) in *.
  assert (out_pipe o = p' ∧ stored o k = n) as [-> ->]; [|split; [done|]; by rewrite Hf, app_assoc].
  subst o. rewrite Heq. destruct (n =? Z.of_nat (length src)) eqn:Hn; zbool.
  - split; [done|]. simpl. destruct (k + n <? 0) eqn:?; zbool; lia.
  - unfold write_full. destruct (readers p' =? 0); simpl; [|split; [done|lia]].
    split; [done|]. destruct (0 <? k + n) eqn:?; zbool; [|simpl; lia].
    destruct (k + n <? 0) eqn:?; zbool; lia.
Qed.

Lemma traffic_step c c' : traffic_inv c → pipe_step c c' → traffic_inv c'.
Proof.
  intros Hc Hstep. destruct Hstep as [p w r k src o Hk <-|p w r n ret data p' Hn He|p w r|p w r|p w r|p w r].
  - by apply traffic_write.
  - destruct Hc as [Hinv ->]. pose proof (pipe_read_spec p n Hinv Hn) as Hr. rewrite He in Hr.
    destruct Hr as (Hinv' & Hf & _). split; [done|]. by rewrite Hf, <- app_assoc.
  - destruct Hc. split; [by apply set_ends_inv|done].
  - destruct Hc. split; [by apply set_ends_inv|done].
  - destruct Hc as [? ->]. unfold pipe_remove_reader. destruct (readers p =? 0); [done|].
    split; [by apply set_ends_inv|done].
  - destruct Hc as [? ->]. unfold pipe_remove_writer. destruct (writers p =? 0); [done|].
    split; [by apply set_ends_inv|done].
Qed.

(** ** Properties *)

(** C8: however reads, (interrupted) writes and arrivals and departures of
    readers and writers interleave, the bytes read so far followed by the bytes
    in the buffer are exactly the bytes written so far: nothing is lost,
    duplicated or reordered. *)
Theorem pipe_delivers_in_order p p' w r :
  pipe_inv p → in_flight p = [] → rtc pipe_step (p, [], []) (p', w, r) →
  w = r ++ in_flight p' ∧ pipe_inv p'.
Proof.
  intros Hinv Hempty Hsteps.
  assert (∀ c c', traffic_inv c → rtc pipe_step c c' → traffic_inv c') as Hall.
  { intros c c' Hc Hs. induction Hs; [done|]. eauto using traffic_step. }
  destruct (Hall (p, [], []) (p', w, r) (conj Hinv (eq_sym Hempty)) Hsteps). done.
Qed.

(** [pipe_write] on a writable pipe with readers appends the longest prefix
    of the source that fits; it returns the full length when everything fits
    and otherwise waits with the buffer full.  Without a reader, or on a pipe
    that is not writable, it fails with -1 and changes nothing. *)
Theorem pipe_write_correct p src :
  pipe_inv p →
  if negb (has_flag p PIPE_STATE_WRITABLE) || (readers p =? 0)
  then pipe_write (Some p) (Some src) = WriteRet (-1) p
  else
    let n := Z.min (Z.of_nat (length src)) (PIPE_BUFFER_SIZE - pcount p) in
    ∃ p', pipe_write (Some p) (Some src) =
            (if n =? Z.of_nat (length src) then WriteRet n p' else WriteSpin n p') ∧
      pipe_inv p' ∧ in_flight p' = in_flight p ++ take (Z.to_nat n) src ∧ ends_eq p p' ∧
      (n ≠ Z.of_nat (length src) → pcount p' = PIPE_BUFFER_SIZE).
Proof.
  intros Hinv. pose proof (pi_count p Hinv). cbn [pipe_write].
  destruct (negb (has_flag p PIPE_STATE_WRITABLE)) eqn:Hw; [done|]. simpl.
  destruct (readers p =? 0) eqn:Hr; [done|].
  destruct (write_loop_spec src p 0 Hinv) as (p' & Heq & Hinv' & Hf & He).
  rewrite Z.add_0_l in Heq. exists p'. unfold write_full in Heq.
  destruct He as (Hs & Hrd & Hwr). rewrite Hrd, Hr in Heq. split; [done|]. repeat (split; [done|]).
  intros Hn. pose proof (in_flight_length p' Hinv') as Hl. rewrite Hf, length_app, length_take in Hl.
  pose proof (in_flight_length p Hinv). lia.
Qed.

(** Once the last writer has left, a reader never waits: each read returns
    what is buffered, up to the requested count, and returns 0 exactly when the
    buffer is empty (or nothing is asked for). *)
Theorem pipe_eof_drains p n :
  pipe_inv p → writers p = 1 → has_flag p PIPE_STATE_READABLE = true → 0 <= n →
  ∃ data p', pipe_read (Some (pipe_remove_writer p)) true n =
               ReadRet (Z.min n (pcount p)) data p' ∧
    in_flight p = data ++ in_flight p' ∧ Z.of_nat (length data) = Z.min n (pcount p) ∧ writers p' = 0.
Proof.
  intros Hinv Hw Hr Hn. unfold pipe_remove_writer. rewrite Hw.
  cbn [Z.eqb]. set (q := set_ends _ _ _ _). assert (pipe_inv q) as Hq by by apply set_ends_inv.
  assert (has_flag q PIPE_STATE_READABLE = true) as Hqr.
  { unfold has_flag in *.
    change (state q) with (Z.lor (clear_flag (state p) PIPE_STATE_WRITABLE) PIPE_STATE_EOF).
    unfold clear_flag.
    rewrite Z.land_lor_distr_l, <- Z.land_assoc.
    change (Z.land (Z.lnot PIPE_STATE_WRITABLE) PIPE_STATE_READABLE) with PIPE_STATE_READABLE.
    change (Z.land PIPE_STATE_EOF PIPE_STATE_READABLE) with 0. by rewrite Z.lor_0_r. }
  pose proof (pipe_read_spec q n Hq Hn) as Hs.
  destruct (pipe_read (Some q) true n) as [ret data p'|]; [|by destruct Hs as (_ & ? & _)].
  destruct Hs as (_ & Hf & (_ & _ & Hw') & [(_ & _ & Hbad)|[Hret Hmin]]); [congruence|].
  exists data, p'. change (in_flight q) with (in_flight p) in Hf. change (pcount q) with (pcount p) in Hmin.
  rewrite Hmin in *. done.
Qed.

(** ** Witnesses *)

Definition demo_pipe : pipe_t := mk_pipe (replicate (Z.to_nat 4096) 0) 0 0 0 7 1 1.

Lemma demo_pipe_inv : pipe_inv demo_pipe.
Proof. split; [by vm_compute|by vm_compute; split; congruence..|done]. Qed.

Lemma pipe_delivers_in_order_witness :
  ∃ p', rtc pipe_step (demo_pipe, [], []) (p', [1; 2; 3], [1; 2]) ∧ in_flight p' = [3].
Proof.
  destruct (read_loop 2 (out_pipe (write_loop demo_pipe 0 [1; 2; 3]))) as [bs p2] eqn:Hr.
  assert (bs = [1; 2]) as -> by (vm_compute in Hr; congruence).
  assert (rtc pipe_step (demo_pipe, [], []) (p2, [1; 2; 3], [1; 2])) as Hsteps.
  { eapply rtc_l; [apply (step_write demo_pipe [] [] 0 [1; 2; 3] _ ltac:(lia) eq_refl)|].
    apply rtc_once. apply (step_read _ _ [] 2 2 [1; 2] p2 ltac:(lia)).
    transitivity (let '(bs, p') := read_loop 2 (out_pipe (write_loop demo_pipe 0 [1; 2; 3])) in ReadRet 2 bs p');
      [vm_compute; reflexivity|by rewrite Hr]. }
  exists p2. split; [exact Hsteps|].
  destruct (pipe_delivers_in_order demo_pipe p2 [1; 2; 3] [1; 2] demo_pipe_inv eq_refl Hsteps) as [H _].
  by injection H.
Defined.

Lemma pipe_write_correct_witness :
  ∃ p', pipe_write (Some demo_pipe) (Some [7; 8]) = WriteRet 2 p' ∧ in_flight p' = [7; 8].
Proof.
  destruct (pipe_write_correct demo_pipe [7; 8] demo_pipe_inv) as (p' & Heq & _ & Hf & _).
  exists p'. split; [exact Heq|exact Hf].
Defined.

Lemma pipe_eof_drains_witness :
  ∃ data p', pipe_read (Some (pipe_remove_writer demo_pipe)) true 10 = ReadRet 0 data p'.
Proof.
  destruct (pipe_eof_drains demo_pipe 10 demo_pipe_inv eq_refl eq_refl ltac:(lia)) as (d & p' & Heq & _).
  exists d, p'. exact Heq.
Defined.
