(* ===== verification/Process.v ===== *)
(** * Processes and the round-robin scheduler ([kernel/src/core/process.c])

    Process control blocks live in a store [procs] indexed by their address, CPU
    states in [cpus]; the file's static variables are the other fields of
    [kernel].  The control block has a single [next] field, used by both the
    process list and the ready queue, exactly as in the code.  Dereferencing an
    address that holds no control block is the result [None].  [context_switch]
    (assembly) is recorded in [switches].  The heap and the page allocator are
    used through their interfaces. *)
From S2P Require Import Prelude Interfaces Str Pmm Vmm Heap.

Definition MAX_PROCESSES : Z := 256.
Definition STACK_SIZE : Z := 16384.
Definition SIZEOF_PROCESS : Z := 96.
Definition SIZEOF_CPU_STATE : Z := 160.

Inductive process_state_t :=
| PROCESS_STATE_NEW | PROCESS_STATE_READY | PROCESS_STATE_RUNNING
| PROCESS_STATE_BLOCKED | PROCESS_STATE_TERMINATED.

(** [page_directory] is never assigned by the file and is left out. *)
Record process_t := mk_process {
  pid : Z; p_state : process_state_t; stack : Z; stack_size : Z; cpu_state : Z;
  next : Z; time_slice : Z; time_used : Z; p_name : list Z; priority : Z;
}.

(** The fifteen general registers, then the others. *)
Record cpu_state_t := mk_cpu { gprs : list Z; rip : Z; cs : Z; rflags : Z; rsp : Z; ss : Z }.

Record kernel (A H : Type) := mk_kernel {
  current_process : Z;
  process_list : Z;
  next_pid : Z;
  process_count : Z;
  ready_queue_head : Z;
  ready_queue_tail : Z;
  procs : gmap Z process_t;
  cpus : gmap Z cpu_state_t;
  switches : list (Z * Z);      (* (old_state, new_state), latest first *)
  k_pages : A;
  k_heap : H;
}.
Arguments mk_kernel {_ _}.
Arguments current_process {_ _}.
Arguments process_list {_ _}.
Arguments next_pid {_ _}.
Arguments process_count {_ _}.
Arguments ready_queue_head {_ _}.
Arguments ready_queue_tail {_ _}.
Arguments procs {_ _}.
Arguments cpus {_ _}.
Arguments switches {_ _}.
Arguments k_pages {_ _}.
Arguments k_heap {_ _}.

Definition set_next (p : process_t) (x : Z) : process_t :=
  mk_process (pid p) (p_state p) (stack p) (stack_size p) (cpu_state p) x (time_slice p) (time_used p) (p_name p) (priority p).
Definition set_state (p : process_t) (x : process_state_t) : process_t :=
  mk_process (pid p) x (stack p) (stack_size p) (cpu_state p) (next p) (time_slice p) (time_used p) (p_name p) (priority p).
Definition set_time_used (p : process_t) (x : Z) : process_t :=
  mk_process (pid p) (p_state p) (stack p) (stack_size p) (cpu_state p) (next p) (time_slice p) x (p_name p) (priority p).

Section process.
Context {A H : Type} `{!PageAlloc A, !Malloc H}.
Implicit Types s : kernel A H.

Definition set_current s x : kernel A H := mk_kernel x (process_list s) (next_pid s) (process_count s)
  (ready_queue_head s) (ready_queue_tail s) (procs s) (cpus s) (switches s) (k_pages s) (k_heap s).
Definition set_list s x n : kernel A H := mk_kernel (current_process s) x (next_pid s) n
  (ready_queue_head s) (ready_queue_tail s) (procs s) (cpus s) (switches s) (k_pages s) (k_heap s).
Definition set_pid s x : kernel A H := mk_kernel (current_process s) (process_list s) x (process_count s)
  (ready_queue_head s) (ready_queue_tail s) (procs s) (cpus s) (switches s) (k_pages s) (k_heap s).
Definition set_queue s h t : kernel A H := mk_kernel (current_process s) (process_list s) (next_pid s) (process_count s)
  h t (procs s) (cpus s) (switches s) (k_pages s) (k_heap s).
Definition set_procs s m : kernel A H := mk_kernel (current_process s) (process_list s) (next_pid s) (process_count s)
  (ready_queue_head s) (ready_queue_tail s) m (cpus s) (switches s) (k_pages s) (k_heap s).
Definition set_cpus s m : kernel A H := mk_kernel (current_process s) (process_list s) (next_pid s) (process_count s)
  (ready_queue_head s) (ready_queue_tail s) (procs s) m (switches s) (k_pages s) (k_heap s).
Definition set_alloc s a h : kernel A H := mk_kernel (current_process s) (process_list s) (next_pid s) (process_count s)
  (ready_queue_head s) (ready_queue_tail s) (procs s) (cpus s) (switches s) a h.
Definition log_switch s x : kernel A H := mk_kernel (current_process s) (process_list s) (next_pid s) (process_count s)
  (ready_queue_head s) (ready_queue_tail s) (procs s) (cpus s) (x :: switches s) (k_pages s) (k_heap s).

Definition deref (p : Z) s : option process_t := procs s !! p.
Definition put (p : Z) (x : process_t) s : kernel A H := set_procs s (<[p := x]> (procs s)).
(** [p->field = ...] *)
Definition modify (p : Z) (f : process_t → process_t) s : option (kernel A H) :=
  x ← deref p s; Some (put p (f x) s).

Definition process_init s : kernel A H :=
  set_current (set_pid (set_list (set_queue s 0 0) 0 0) 1) 0.

(** [process->stack + n] on a [uint64_t] pointer. *)
Definition stack_plus (st n : Z) : Z := u64 (st + 8 * n).

Definition process_create (entry prio : Z) (name : list Z) s : Z * kernel A H :=
  if MAX_PROCESSES <=? process_count s then (0, s) else
  let '(p, h) := Interfaces.malloc SIZEOF_PROCESS (k_heap s) in
  let s := set_alloc s (k_pages s) h in
  if p =? 0 then (0, s) else
  let id := next_pid s in
  let s := set_pid s (u32 (id + 1)) in
  let nm := strncpy_bytes name 31 ++ [0] in
  let '(st, a) := alloc_page (k_pages s) in
  let s := set_alloc s a (k_heap s) in
  if st =? 0 then (0, set_alloc s a (mfree p (k_heap s))) else
  let cs_addr := stack_plus st (STACK_SIZE - SIZEOF_CPU_STATE) in
  let cpu := mk_cpu (replicate 15 0) entry 8 514 (stack_plus st STACK_SIZE) 16 in
  let s := set_cpus s (<[cs_addr := cpu]> (cpus s)) in
  let s := put p (mk_process id PROCESS_STATE_NEW st STACK_SIZE cs_addr (process_list s) 100 0 nm prio) s in
  (p, set_list s p (u32 (process_count s + 1))).

(** [while (prev && prev->next != process) prev = prev->next;] *)
Fixpoint find_prev (fuel : nat) (prev process : Z) s : option Z :=
  match fuel with
  | O => None
  | S fuel =>
      if prev =? 0 then Some 0 else
      x ← deref prev s;
      if next x =? process then Some prev else find_prev fuel (next x) process s
  end.

Definition walk_fuel s : nat := S (size (procs s)).

Definition scheduler_init s : kernel A H := set_queue s 0 0.

Definition scheduler_add (process : Z) s : option (kernel A H) :=
  if process =? 0 then Some s else
  s ← modify process (λ x, set_next (set_state x PROCESS_STATE_READY) 0) s;
  if ready_queue_tail s =? 0 then Some (set_queue s process process)
  else
    s ← modify (ready_queue_tail s) (λ x, set_next x process) s;
    Some (set_queue s (ready_queue_head s) process).

Definition scheduler_remove (process : Z) s : option (kernel A H) :=
  if process =? 0 then Some s else
  p ← deref process s;
  s ← (if ready_queue_head s =? process then
         Some (set_queue s (next p) (if next p =? 0 then 0 else ready_queue_tail s))
       else
         prev ← find_prev (walk_fuel s) (ready_queue_head s) process s;
         if prev =? 0 then Some s else
         s ← modify prev (λ x, set_next x (next p)) s;
         Some (set_queue s (ready_queue_head s)
                 (if ready_queue_tail s =? process then prev else ready_queue_tail s)));
  modify process (λ x, set_next x 0) s.

Definition process_destroy (process : Z) s : option (kernel A H) :=
  if process =? 0 then Some s else
  s ← scheduler_remove process s;
  p ← deref process s;
  s ← (if process_list s =? process then Some (set_list s (next p) (process_count s))
       else
         prev ← find_prev (walk_fuel s) (process_list s) process s;
         if prev =? 0 then Some s else modify prev (λ x, set_next x (next p)) s);
  Some (set_list (set_alloc s (free_page (stack p) (k_pages s)) (mfree process (k_heap s)))
                 (process_list s) (u32 (process_count s - 1))).

Definition process_switch (nxt : Z) s : option (kernel A H) :=
  if (nxt =? 0) || (nxt =? current_process s) then Some s else
  let prev := current_process s in
  let s := set_current s nxt in
  n ← deref nxt s;
  if prev =? 0 then Some (log_switch s (0, cpu_state n))
  else p ← deref prev s; Some (log_switch s (cpu_state p, cpu_state n)).

Definition scheduler_next s : option (Z * kernel A H) :=
  if ready_queue_head s =? 0 then Some (0, s) else
  let nxt := ready_queue_head s in
  x ← deref nxt s;
  let s := set_queue s (next x) (if next x =? 0 then 0 else ready_queue_tail s) in
  s ← modify nxt (λ x, set_next x 0) s;
  Some (nxt, s).

Definition scheduler_tick s : option (kernel A H) :=
  let c := current_process s in
  if c =? 0 then Some s else
  s ← modify c (λ x, set_time_used x (u32 (time_used x + 1))) s;
  x ← deref c s;
  if time_slice x <=? time_used x then
    '(nxt, s) ← scheduler_next s;
    if nxt =? 0 then Some s else
    s ← modify c (λ x, set_time_used x 0) s;
    s ← scheduler_add c s;
    process_switch nxt s
  else Some s.

Definition get_current_process s : Z := current_process s.

(** ** Linked lists *)

(** The list of control blocks reachable from [p] through [next]. *)
Fixpoint chain (m : gmap Z process_t) (p : Z) (l : list Z) : Prop :=
  match l with
  | [] => p = 0
  | x :: l => p = x ∧ x ≠ 0 ∧ ∃ pr, m !! x = Some pr ∧ chain m (next pr) l
  end.

(** The ready queue holds the processes [q], oldest first. *)
Definition ready s (q : list Z) : Prop :=
  NoDup q ∧ chain (procs s) (ready_queue_head s) q ∧ ready_queue_tail s = default 0 (last q).

Lemma chain_frame m m' p l :
  (∀ x, x ∈ l → m' !! x = m !! x) → chain m p l → chain m' p l.
Proof.
  revert p. induction l as [|x l IH]; intros p Hm; simpl; [done|]. intros (-> & Hx & pr & Hpr & Hl).
  split; [done|split; [done|]]. exists pr. split; [rewrite Hm; [done|left]|].
  apply IH; [|done]. intros y Hy. apply Hm. by right.
Qed.

Lemma chain_dom m p l x : chain m p l → x ∈ l → x ≠ 0 ∧ is_Some (m !! x).
Proof.
  revert p. induction l as [|y l IH]; intros p; [set_solver|]. intros (_ & Hy & pr & Hpr & Hl) [->|Hx]%elem_of_cons; eauto.
Qed.

Lemma chain_head m p l : chain m p l → (p =? 0) = match l with [] => true | _ => false end.
Proof. destruct l; simpl; [by intros ->|]. intros (-> & ? & _). by apply Z.eqb_neq. Qed.

(** The [next] field inside a list. *)
Lemma chain_app m p l1 x l2 :
  chain m p (l1 ++ x :: l2) → ∃ pr, m !! x = Some pr ∧ x ≠ 0 ∧ chain m (next pr) l2.
Proof.
  revert p. induction l1 as [|y l1 IH]; intros p; simpl.
  - intros (_ & ? & pr & ? & ?). by exists pr.
  - intros (_ & _ & pr & _ & Hl). by eapply IH.
Qed.

(** Redirecting the [next] field of [x] replaces everything behind it. *)
Lemma chain_redirect m p l1 x pr l2 l2' n :
  NoDup (l1 ++ [x]) → x ∉ l2' → chain m p (l1 ++ x :: l2) → m !! x = Some pr → chain m n l2' →
  chain (<[x := set_next pr n]> m) p (l1 ++ x :: l2').
Proof.
  revert p. induction l1 as [|y l1 IH]; intros p Hnd Hx Hc Hpr Hn; simpl in *.
  - destruct Hc as (-> & Hx0 & _). split; [done|split; [done|]]. exists (set_next pr n).
    split; [by rewrite lookup_insert_eq|]. simpl. eapply chain_frame; [|exact Hn].
    intros z Hz. apply lookup_insert_ne. congruence.
  - destruct Hc as (-> & Hy0 & pry & Hpry & Hc). apply NoDup_cons in Hnd as [Hy Hnd].
    split; [done|split; [done|]]. exists pry. split; [rewrite lookup_insert_ne; [done|set_solver]|].
    by apply IH.
Qed.

Lemma chain_nodup_fuel m p l : chain m p l → NoDup l → (length l < S (size m))%nat.
Proof.
  intros Hc Hnd. apply le_n_S. rewrite <- (size_list_to_set (C := gset Z)), <- size_dom by done.
  apply subseteq_size. intros x Hx. apply elem_of_list_to_set in Hx. apply elem_of_dom. by eapply chain_dom.
Qed.

(** The predecessor search. *)
Lemma find_prev_found fuel s p l1 y process l2 :
  (length l1 < fuel)%nat → chain (procs s) p (l1 ++ y :: process :: l2) → process ∉ l1 ++ [y] →
  find_prev fuel p process s = Some y.
Proof.
  revert p fuel. induction l1 as [|x l1 IH]; intros p fuel Hf Hc Hn; (destruct fuel as [|fuel]; [simpl in Hf; lia|]); simpl in *.
  - destruct Hc as (-> & Hy & pr & Hpr & (Hnx & _)). rewrite (proj2 (Z.eqb_neq _ _) Hy). unfold deref. rewrite Hpr.
    cbn [mbind option_bind]. by rewrite Hnx, Z.eqb_refl.
  - destruct Hc as (-> & Hx & pr & Hpr & Hc). rewrite (proj2 (Z.eqb_neq _ _) Hx). unfold deref. rewrite Hpr.
    cbn [mbind option_bind]. rewrite (proj2 (Z.eqb_neq _ _)); [apply IH; [lia|done|set_solver]|].
    intros Heq. apply Hn. destruct l1 as [|z l1]; simpl in *; destruct Hc as (Hz & _); set_solver.
Qed.

Lemma find_prev_absent fuel s p l process :
  (length l < fuel)%nat → chain (procs s) p l → process ∉ l → process ≠ 0 →
  find_prev fuel p process s = Some 0.
Proof.
  revert p fuel. induction l as [|x l IH]; intros p fuel Hf Hc Hn H0; (destruct fuel as [|fuel]; [simpl in Hf; lia|]); simpl in *.
  - by rewrite Hc.
  - destruct Hc as (-> & Hx & pr & Hpr & Hc). rewrite (proj2 (Z.eqb_neq _ _) Hx). unfold deref. rewrite Hpr.
    cbn [mbind option_bind]. rewrite (proj2 (Z.eqb_neq _ _)); [apply IH; [lia|done|set_solver|done]|].
    intros Heq. destruct l as [|z l]; simpl in Hc; [congruence|]. destruct Hc as (Hz & _). set_solver.
Qed.

(** ** The ready queue *)

(** The control block of [x] apart from its [next] field. *)
Definition block s (x : Z) : option process_t := (λ pr, set_next pr 0) <$> procs s !! x.

(** Everything the queue operations leave alone. *)
Record queue_only s s' : Prop := {
  qo_current : current_process s' = current_process s;
  qo_list : process_list s' = process_list s;
  qo_count : process_count s' = process_count s;
  qo_pid : next_pid s' = next_pid s;
  qo_cpus : cpus s' = cpus s;
  qo_switches : switches s' = switches s;
  qo_alloc : k_pages s' = k_pages s ∧ k_heap s' = k_heap s;
}.

Lemma block_put s p x q : block (put p x s) q = if decide (p = q) then Some (set_next x 0) else block s q.
Proof.
  unfold block, put; simpl. destruct (decide (p = q)) as [->|]; [by rewrite lookup_insert_eq|by rewrite lookup_insert_ne].
Qed.

Lemma scheduler_add_spec s q p pr :
  ready s q → p ∉ q → p ≠ 0 → procs s !! p = Some pr →
  ∃ s', scheduler_add p s = Some s' ∧ ready s' (q ++ [p]) ∧ queue_only s s' ∧
    ∀ x, block s' x = if decide (x = p) then Some (set_next (set_state pr PROCESS_STATE_READY) 0) else block s x.
Proof.
  intros (Hnd & Hc & Ht) Hp H0 Hpr. unfold scheduler_add. rewrite (proj2 (Z.eqb_neq _ _) H0).
  unfold modify, deref. rewrite Hpr. cbn [mbind option_bind].
  set (pr' := set_next (set_state pr PROCESS_STATE_READY) 0). set (s1 := put p pr' s).
  assert (Hnd' : NoDup (q ++ [p])) by (apply NoDup_app; split_and!; [done|set_solver|apply NoDup_singleton]).
  assert (Hc1 : chain (procs s1) (ready_queue_head s) q).
  { eapply chain_frame; [|exact Hc]. intros x Hx. apply lookup_insert_ne. set_solver. }
  assert (Hp1 : procs s1 !! p = Some pr') by apply lookup_insert_eq.
  change (ready_queue_tail s1) with (ready_queue_tail s). rewrite Ht.
  destruct q as [|t q _] using rev_ind.
  - simpl. eexists. split; [done|]. split; [|split; [done|]].
    + split; [done|]. simpl. split; [|done]. split; [done|split; [done|]]. by exists pr'.
    + intros x. change (block s1 x = if decide (x = p) then Some pr' else block s x). unfold s1. rewrite block_put.
      repeat case_decide; first [done | congruence].
  - rewrite last_snoc. simpl default. destruct (chain_app _ _ _ _ _ Hc1) as (prt & Hprt & Ht0 & _).
    rewrite (proj2 (Z.eqb_neq _ _) Ht0). rewrite Hprt. cbn [mbind option_bind].
    assert (Hpt : p ≠ t) by set_solver.
    eexists. split; [done|]. split; [|split; [done|]].
    + split; [done|]. simpl. split; [|by rewrite last_snoc]. rewrite <- app_assoc. simpl.
      apply chain_redirect with []; [done|set_solver|done|done|]. simpl. split; [done|split; [done|]]. by exists pr'.
    + intros x. change (block (put t (set_next prt p) s1) x = if decide (x = p) then Some pr' else block s x).
      rewrite block_put. unfold s1. rewrite block_put. destruct (decide (t = x)) as [->|].
      * destruct (decide (x = p)); [congruence|]. unfold block. unfold s1 in Hprt. simpl in Hprt.
        rewrite lookup_insert_ne in Hprt by done. by rewrite Hprt.
      * repeat case_decide; first [done | congruence].
Qed.

Lemma scheduler_next_spec s q :
  ready s q →
  match q with
  | [] => scheduler_next s = Some (0, s)
  | x :: q => x ≠ 0 ∧ ∃ s', scheduler_next s = Some (x, s') ∧ ready s' q ∧ queue_only s s' ∧ ∀ y, block s' y = block s y
  end.
Proof.
  intros (Hnd & Hc & Ht). unfold scheduler_next. pose proof (chain_head _ _ _ Hc) as Hh. rewrite Hh.
  destruct q as [|x q]; [done|]. destruct Hc as (Hx & H0 & pr & Hpr & Hc). split; [done|].
  unfold modify, deref. cbv zeta. rewrite Hx, Hpr. cbn [mbind option_bind procs set_queue]. rewrite Hpr. cbn [mbind option_bind].
  apply NoDup_cons in Hnd as [Hxq Hnd]. eexists. split; [done|]. split; [|split; [done|]].
  - split; [done|]. simpl. split.
    + eapply chain_frame; [|exact Hc]. intros y Hy. apply lookup_insert_ne. set_solver.
    + rewrite (chain_head _ _ _ Hc), Ht. by destruct q.
  - intros y. unfold block. simpl. destruct (decide (x = y)) as [->|].
    + by rewrite lookup_insert_eq, Hpr.
    + by rewrite lookup_insert_ne.
Qed.

Definition without (p : Z) (q : list Z) : list Z := List.filter (λ x, negb (x =? p)) q.

Lemma without_absent p q : p ∉ q → without p q = q.
Proof.
  induction q as [|x q IH]; intros Hp; simpl; [done|]. apply not_elem_of_cons in Hp as [Hne Hp].
  rewrite (proj2 (Z.eqb_neq x p)) by done. simpl. by rewrite IH.
Qed.

Lemma without_middle p q1 q2 : p ∉ q1 → p ∉ q2 → without p (q1 ++ p :: q2) = q1 ++ q2.
Proof.
  intros H1 H2. unfold without. rewrite List.filter_app. simpl. rewrite Z.eqb_refl. simpl.
  fold (without p q1) (without p q2). by rewrite !without_absent.
Qed.

Lemma block_next s x pr n : procs s !! x = Some pr → block (put x (set_next pr n) s) x = block s x.
Proof. intros Hx. rewrite block_put, decide_True by done. unfold block. by rewrite Hx. Qed.

(** What [scheduler_remove] achieves for the queue [q]. *)
Record removed s p q s' : Prop := {
  rm_ready : ready s' q;
  rm_only : queue_only s s';
  rm_block y : block s' y = block s y;
  rm_next : ∃ pr', procs s' !! p = Some pr' ∧ next pr' = 0;
}.

Lemma removed_block s p pr s1 :
  procs s1 !! p = Some pr → (∀ x, block s1 x = block s x) →
  ∀ x, block (put p (set_next pr 0) s1) x = block s x.
Proof.
  intros Hp H1 x. rewrite <- H1. destruct (decide (p = x)) as [->|]; [by apply block_next|by rewrite block_put, decide_False].
Qed.

Lemma remove_head s p q pr :
  ready s (p :: q) → procs s !! p = Some pr → ∃ s', scheduler_remove p s = Some s' ∧ removed s p q s'.
Proof.
  intros (Hnd & (Hh & H0 & pr0 & Hpr0 & Hc) & Ht) Hpr. assert (pr0 = pr) as -> by congruence.
  apply NoDup_cons in Hnd as [Hp Hnd]. unfold scheduler_remove, modify, deref.
  rewrite (proj2 (Z.eqb_neq _ _) H0), Hpr. cbn [mbind option_bind].
  rewrite Hh, Z.eqb_refl. cbn [mbind option_bind procs set_queue]. rewrite Hpr. cbn [mbind option_bind].
  eexists. split; [done|]. split; [|done| |].
  - split; [done|]. cbn [ready_queue_head ready_queue_tail procs set_queue put set_procs]. split.
    { eapply chain_frame; [|exact Hc]. intros y Hy. apply lookup_insert_ne. set_solver. }
    rewrite (chain_head _ _ _ Hc), Ht. by destruct q.
  - by apply (removed_block s p pr (set_queue s (next pr) (if next pr =? 0 then 0 else ready_queue_tail s))).
  - exists (set_next pr 0). split; [apply lookup_insert_eq|done].
Qed.

Lemma remove_middle s p q1 y q2 pr :
  ready s (q1 ++ y :: p :: q2) → p ≠ 0 → procs s !! p = Some pr →
  ∃ s', scheduler_remove p s = Some s' ∧ removed s p (q1 ++ y :: q2) s'.
Proof.
  intros (Hnd & Hc & Ht) H0 Hpr. pose proof (chain_nodup_fuel _ _ _ Hc Hnd) as Hfuel.
  rewrite length_app in Hfuel. simpl in Hfuel.
  destruct (chain_app (procs s) (ready_queue_head s) (q1 ++ [y]) p q2) as (pr0 & Hpr0 & _ & Hc2); [by rewrite <- app_assoc|].
  assert (pr0 = pr) as -> by congruence. destruct (chain_app _ _ _ _ _ Hc) as (pry & Hpry & Hy0 & _).
  assert (Hnd2 : NoDup ((q1 ++ [y]) ++ p :: q2)) by by rewrite <- app_assoc.
  apply NoDup_app in Hnd2 as (Hnd1 & Hdis & Hnd2). apply NoDup_cons in Hnd2 as [Hp2 Hnd2].
  assert (Hp1 : p ∉ q1 ++ [y]) by (intros Hp; apply (Hdis p Hp); left). assert (Hyp : y ≠ p) by set_solver.
  assert (Hhd : (ready_queue_head s =? p) = false).
  { apply Z.eqb_neq. intros Heq. destruct q1; simpl in Hc; destruct Hc as (Hh & _); set_solver. }
  unfold scheduler_remove, modify, deref. rewrite (proj2 (Z.eqb_neq _ _) H0), Hpr. cbn [mbind option_bind].
  rewrite Hhd, (find_prev_found _ _ _ q1 y p q2) by (done || (unfold walk_fuel; lia)). cbn [mbind option_bind].
  rewrite (proj2 (Z.eqb_neq _ _) Hy0), Hpry. cbn [mbind option_bind procs set_queue put set_procs].
  rewrite lookup_insert_ne, Hpr by done. cbn [mbind option_bind].
  eexists. split; [done|]. split; [|done| |].
  - split; [change (y :: q2) with ([y] ++ q2); rewrite app_assoc; apply NoDup_app; split_and!; [done|set_solver|done]|].
    cbn [ready_queue_head ready_queue_tail procs set_queue put set_procs]. split.
    + eapply (chain_frame (<[y:=set_next pry (next pr)]> (procs s))); [|eapply chain_redirect; done || set_solver].
      intros z Hz. apply lookup_insert_ne. set_solver.
    + rewrite Ht. change (y :: p :: q2) with ([y; p] ++ q2). change (y :: q2) with ([y] ++ q2). rewrite !app_assoc.
      destruct q2 as [|z q2 _] using rev_ind.
      { rewrite !app_nil_r, (app_assoc _ [y] [p]), !last_snoc. simpl. by rewrite Z.eqb_refl. }
      rewrite !app_assoc, !last_snoc. simpl. rewrite (proj2 (Z.eqb_neq z p)); [done|set_solver].
  - apply (removed_block s p pr (set_queue (put y (set_next pry (next pr)) s) _ _)); [simpl; by rewrite lookup_insert_ne|].
    intros x. change (block (put y (set_next pry (next pr)) s) x = block s x).
    destruct (decide (y = x)) as [->|]; [by apply block_next|by rewrite block_put, decide_False].
  - exists (set_next pr 0). split; [apply lookup_insert_eq|done].
Qed.

Lemma remove_absent s p q pr :
  ready s q → p ∉ q → p ≠ 0 → procs s !! p = Some pr →
  scheduler_remove p s = Some (put p (set_next pr 0) s) ∧ removed s p q (put p (set_next pr 0) s).
Proof.
  intros (Hnd & Hc & Ht) Hp H0 Hpr. pose proof (chain_nodup_fuel _ _ _ Hc Hnd) as Hfuel.
  assert (Hhd : (ready_queue_head s =? p) = false).
  { apply Z.eqb_neq. intros Heq. destruct q; simpl in Hc; [congruence|]. destruct Hc as (Hh & _); set_solver. }
  unfold scheduler_remove, modify, deref. rewrite (proj2 (Z.eqb_neq _ _) H0), Hpr. cbn [mbind option_bind].
  rewrite Hhd, (find_prev_absent _ _ _ q) by done. cbn [mbind option_bind]. rewrite Z.eqb_refl. cbn [mbind option_bind]. rewrite Hpr.
  split; [done|]. split; [|done|by apply removed_block|].
  - split; [done|]. split; [|done]. eapply chain_frame; [|exact Hc]. intros y Hy. apply lookup_insert_ne. set_solver.
  - exists (set_next pr 0). split; [apply lookup_insert_eq|done].
Qed.

Lemma scheduler_remove_spec s q p pr :
  ready s q → p ≠ 0 → procs s !! p = Some pr →
  ∃ s', scheduler_remove p s = Some s' ∧ removed s p (without p q) s'.
Proof.
  intros Hr H0 Hpr. pose proof Hr as (Hnd & _). destruct (decide (p ∈ q)) as [Hin|Hout].
  - apply list_elem_of_split in Hin as (q1 & q2 & ->). apply NoDup_app in Hnd as (_ & Hdis & Hnd2).
    apply NoDup_cons in Hnd2 as [Hp2 _]. assert (Hp1 : p ∉ q1) by (intros Hp; apply (Hdis p Hp); left).
    rewrite without_middle by done. destruct q1 as [|y q1 _] using rev_ind; [by eapply remove_head|].
    rewrite <- app_assoc in *. by eapply remove_middle.
  - rewrite without_absent by done. eexists. by apply remove_absent.
Qed.

(** ** The timer tick *)

(** Changing other fields of a control block. *)
Lemma chain_put m h l p x pr :
  m !! p = Some pr → next x = next pr → chain m h l → chain (<[p := x]> m) h l.
Proof.
  intros Hpr Hn. revert h. induction l as [|y l IH]; intros h; simpl; [done|].
  intros (-> & Hy & pry & Hpry & Hc). split; [done|split; [done|]]. destruct (decide (p = y)) as [->|].
  - exists x. rewrite lookup_insert_eq, Hn. split; [done|]. apply IH. congruence.
  - exists pry. rewrite lookup_insert_ne by done. split; [done|]. by apply IH.
Qed.

Lemma ready_put s q p pr x :
  ready s q → procs s !! p = Some pr → next x = next pr → ready (put p x s) q.
Proof. intros (Hnd & Hc & Ht) Hpr Hn. split; [done|]. split; [|done]. by eapply chain_put. Qed.

Lemma block_lookup s p pr : block s p = Some pr → ∃ pr', procs s !! p = Some pr' ∧ set_next pr' 0 = pr.
Proof. unfold block. destruct (procs s !! p) as [pr'|]; simpl; [|done]. intros [= <-]. by exists pr'. Qed.

(** The current process [c] runs and [q] waits; the time fields are in range. *)
Record running s (c : Z) (q : list Z) : Prop := {
  rn_current : current_process s = c;
  rn_ready : ready s q;
  rn_notin : c ∉ q;
  rn_nonzero : c ≠ 0;
  rn_time x : x ∈ c :: q → ∃ pr, procs s !! x = Some pr ∧ 0 < time_slice pr < 4294967296 ∧ 0 <= time_used pr < 4294967296;
}.

(** A tick that does not end the slice, or finds nobody waiting. *)
Lemma tick_continue s c q pr :
  running s c q → procs s !! c = Some pr → u32 (time_used pr + 1) < time_slice pr ∨ q = [] →
  scheduler_tick s = Some (put c (set_time_used pr (u32 (time_used pr + 1))) s) ∧
  running (put c (set_time_used pr (u32 (time_used pr + 1))) s) c q.
Proof.
  intros [Hcur Hr Hn H0 Htm] Hpr Hcase. set (x := set_time_used pr _). set (s1 := put c x s).
  assert (Hr1 : ready s1 q) by by eapply ready_put.
  assert (Hrun : running s1 c q).
  { split; [done..|]. intros y Hy. destruct (decide (c = y)) as [<-|].
    - exists x. destruct (Htm c ltac:(left)) as (pr0 & Hpr0 & Hs & _). assert (pr0 = pr) as -> by congruence.
      split; [apply lookup_insert_eq|]. split; [exact Hs|]. apply u32_range.
    - destruct (Htm y Hy) as (pry & Hy1 & Hy2). exists pry. split; [by rewrite <- Hy1; apply lookup_insert_ne|done]. }
  split; [|done]. unfold scheduler_tick, modify, deref. rewrite Hcur, (proj2 (Z.eqb_neq _ _) H0), Hpr.
  cbn [mbind option_bind]. fold x. fold s1. assert (Hc1 : procs s1 !! c = Some x) by apply lookup_insert_eq. rewrite Hc1.
  cbn [mbind option_bind]. destruct (time_slice x <=? time_used x) eqn:Hle; zbool; [|done].
  destruct Hcase as [Hlt| ->]; [unfold x in Hle; simpl in Hle; lia|].
  rewrite (scheduler_next_spec s1 []) by done. cbn [mbind option_bind]. by rewrite Z.eqb_refl.
Qed.

Lemma running_blocks s s' c q x q' :
  running s c q → (∀ y, y ∈ x :: q' → y ∈ c :: q) → current_process s' = x → ready s' q' → x ∉ q' → x ≠ 0 →
  (∀ y, y ≠ c → block s' y = block s y) →
  (∀ pr, procs s !! c = Some pr → block s' c = Some (set_next (set_state (set_time_used pr 0) PROCESS_STATE_READY) 0)) →
  running s' x q'.
Proof.
  intros [_ _ _ _ Htm] Hsub Hcur Hr Hn H0 Hbl Hc. split; [done..|]. intros y Hy.
  destruct (Htm y (Hsub y Hy)) as (pr & Hpr & Hs & Hu). destruct (decide (y = c)) as [->|Hne].
  - destruct (block_lookup _ _ _ (Hc pr Hpr)) as (pr' & Hpr' & Heq). exists pr'. split; [done|].
    apply (f_equal (λ p, (time_slice p, time_used p))) in Heq. simpl in Heq. injection Heq as -> ->. lia.
  - assert (Hb : block s' y = Some (set_next pr 0)) by (rewrite Hbl by done; unfold block; by rewrite Hpr).
    destruct (block_lookup _ _ _ Hb) as (pr' & Hpr' & Heq). exists pr'. split; [done|].
    apply (f_equal (λ p, (time_slice p, time_used p))) in Heq. simpl in Heq. injection Heq as -> ->. done.
Qed.

(** A tick that ends the slice while [x] is the first to wait. *)
Lemma tick_switch s c x q pr prx :
  running s c (x :: q) → procs s !! c = Some pr → procs s !! x = Some prx →
  time_slice pr <= u32 (time_used pr + 1) →
  ∃ s', scheduler_tick s = Some s' ∧ running s' x (q ++ [c]) ∧
        switches s' = (cpu_state pr, cpu_state prx) :: switches s.
Proof.
  intros Hrun Hpr Hprx Hexp. pose proof Hrun as [Hcur Hr Hn H0 Htm].
  set (y := set_time_used pr (u32 (time_used pr + 1))). set (s1 := put c y s).
  assert (Hr1 : ready s1 (x :: q)) by by eapply ready_put.
  unfold scheduler_tick, modify, deref. rewrite Hcur, (proj2 (Z.eqb_neq _ _) H0), Hpr.
  cbn [mbind option_bind]. fold y. fold s1. assert (Hc1 : procs s1 !! c = Some y) by apply lookup_insert_eq. rewrite Hc1.
  cbn [mbind option_bind]. rewrite (proj2 (Z.leb_le (time_slice y) (time_used y))) by done.
  destruct (scheduler_next_spec s1 (x :: q) Hr1) as (Hx0 & s2 & -> & Hr2 & Ho2 & Hb2). cbn [mbind option_bind].
  rewrite (proj2 (Z.eqb_neq _ _) Hx0).
  assert (Hc2 : block s2 c = Some (set_next y 0)) by (rewrite Hb2; unfold s1; by rewrite block_put, decide_True).
  destruct (block_lookup _ _ _ Hc2) as (y2 & Hy2 & Heq2). rewrite Hy2. cbn [mbind option_bind].
  set (s3 := put c (set_time_used y2 0) s2).
  assert (Hr3 : ready s3 q) by by eapply ready_put. pose proof (proj1 Hr1) as Hnd. apply NoDup_cons in Hnd as [Hxq _].
  apply not_elem_of_cons in Hn as [Hcx Hcq].
  destruct (scheduler_add_spec s3 q c (set_time_used y2 0) Hr3 Hcq H0 (lookup_insert_eq _ _ _)) as (s4 & -> & Hr4 & Ho4 & Hb4).
  cbn [mbind option_bind]. unfold process_switch.
  assert (Hcur4 : current_process s4 = c) by (rewrite (qo_current _ _ Ho4); simpl; by rewrite (qo_current _ _ Ho2)).
  rewrite (proj2 (Z.eqb_neq _ _) Hx0), Hcur4, (proj2 (Z.eqb_neq x c)) by done. cbn [orb]. unfold deref. cbn [procs set_current].
  assert (Hbx : block s4 x = Some (set_next prx 0)).
  { rewrite Hb4, decide_False by done. unfold s3. rewrite block_put, decide_False, Hb2 by done.
    unfold s1. rewrite block_put, decide_False by done. unfold block. by rewrite Hprx. }
  destruct (block_lookup _ _ _ Hbx) as (px & Hpx & Heqx). rewrite Hpx. cbn [mbind option_bind].
  rewrite (proj2 (Z.eqb_neq _ _) H0).
  assert (Hbc : block s4 c = Some (set_next (set_state (set_time_used y2 0) PROCESS_STATE_READY) 0))
    by (rewrite Hb4; by rewrite decide_True).
  destruct (block_lookup _ _ _ Hbc) as (pc & Hpc & Heqc). rewrite Hpc. cbn [mbind option_bind].
  eexists. split; [done|]. split.
  - apply (running_blocks s _ c (x :: q)); try done; [set_solver|set_solver| |].
    + intros z Hz. change (block s4 z = block s z). rewrite Hb4, decide_False by done. unfold s3.
      rewrite block_put, decide_False, Hb2 by done. unfold s1. by rewrite block_put, decide_False.
    + intros pr' Hpr'. assert (pr' = pr) as -> by congruence. change (block s4 c = Some (set_next (set_state (set_time_used pr 0) PROCESS_STATE_READY) 0)).
      rewrite Hbc. f_equal.
      change (set_next (set_state (set_time_used (set_next y2 0) 0) PROCESS_STATE_READY) 0 = set_next (set_state (set_time_used pr 0) PROCESS_STATE_READY) 0).
      by rewrite Heq2.
  - cbn [switches log_switch set_current]. rewrite (qo_switches _ _ Ho4). simpl. rewrite (qo_switches _ _ Ho2). simpl.
    f_equal. f_equal; [apply (f_equal cpu_state) in Heqc, Heq2; simpl in *; congruence|by apply (f_equal cpu_state) in Heqx].
Qed.

Fixpoint ticks (n : nat) s : option (kernel A H) :=
  match n with O => Some s | S n => s ← scheduler_tick s; ticks n s end.

Lemma ticks_app n1 n2 s s1 s2 : ticks n1 s = Some s1 → ticks n2 s1 = Some s2 → ticks (n1 + n2) s = Some s2.
Proof.
  revert s. induction n1 as [|n1 IH]; intros s H1 H2; simpl in *; [by injection H1 as ->|].
  destruct (scheduler_tick s) as [s'|]; simpl in *; [by eapply IH|done].
Qed.

(** The running process is preempted after at most the rest of its slice. *)
Lemma slice_ends s c x q :
  running s c (x :: q) → ∃ n s', ticks n s = Some s' ∧ running s' x (q ++ [c]).
Proof.
  assert (Hgo : ∀ k s pr, running s c (x :: q) → procs s !! c = Some pr → time_used pr < time_slice pr →
            time_slice pr - time_used pr <= Z.of_nat k → ∃ n s', ticks n s = Some s' ∧ running s' x (q ++ [c])).
  { induction k as [|k IH]; intros s0 pr Hrun Hpr Hlt Hk; [lia|].
    destruct (rn_time _ _ _ Hrun c ltac:(left)) as (pr0 & Hpr0 & Hs & Hu). assert (pr0 = pr) as -> by congruence.
    destruct (rn_time _ _ _ Hrun x ltac:(right; left)) as (prx & Hprx & _).
    assert (Ht : u32 (time_used pr + 1) = time_used pr + 1) by (apply u32_small; unfold is_u32; lia).
    destruct (decide (time_used pr + 1 < time_slice pr)).
    - destruct (tick_continue s0 c (x :: q) pr Hrun Hpr ltac:(left; lia)) as [Heq Hrun'].
      destruct (IH _ (set_time_used pr (u32 (time_used pr + 1))) Hrun' (lookup_insert_eq _ _ _) ltac:(simpl; lia) ltac:(simpl; lia))
        as (n & s' & Hn & Hr'). exists (S n), s'. simpl. rewrite Heq. done.
    - destruct (tick_switch s0 c x q pr prx Hrun Hpr Hprx ltac:(lia)) as (s' & Heq & Hr' & _).
      exists 1%nat, s'. simpl. by rewrite Heq. }
  intros Hrun. destruct (rn_time _ _ _ Hrun c ltac:(left)) as (pr & Hpr & Hs & Hu).
  destruct (rn_time _ _ _ Hrun x ltac:(right; left)) as (prx & Hprx & _).
  destruct (decide (time_used pr < time_slice pr)); [by apply (Hgo (Z.to_nat (time_slice pr - time_used pr)) s pr); try lia|].
  destruct (decide (time_slice pr <= u32 (time_used pr + 1))) as [Hle|Hgt].
  - destruct (tick_switch s c x q pr prx Hrun Hpr Hprx Hle) as (s' & Heq & Hr' & _). exists 1%nat, s'. simpl. by rewrite Heq.
  - destruct (tick_continue s c (x :: q) pr Hrun Hpr ltac:(left; lia)) as [Heq Hrun'].
    destruct (Hgo (Z.to_nat (time_slice pr)) _ (set_time_used pr (u32 (time_used pr + 1))) Hrun' (lookup_insert_eq _ _ _)) as (k & s' & Hk & Hr');
      [simpl; lia|simpl; pose proof (u32_range (time_used pr + 1)) as Hrg; unfold is_u32 in Hrg; lia|].
    exists (S k), s'. simpl. by rewrite Heq.
Qed.

(** ** Creation *)

(** The control block [process_create] sets up. *)
Definition fresh_process (id entry prio st lst : Z) (name : list Z) : process_t :=
  mk_process id PROCESS_STATE_NEW st STACK_SIZE (stack_plus st (STACK_SIZE - SIZEOF_CPU_STATE)) lst 100 0
             (strncpy_bytes name 31 ++ [0]) prio.

(** ** Properties *)

(** C13: the ready queue is a FIFO: adding appends and marks the process ready,
    taking the next process removes the oldest, removal deletes from any
    position; each keeps the links, the tail pointer and all other fields. *)
Theorem ready_queue_fifo s q p pr :
  ready s q → p ≠ 0 → procs s !! p = Some pr →
  (p ∉ q → ∃ s', scheduler_add p s = Some s' ∧ ready s' (q ++ [p]) ∧ queue_only s s' ∧
     block s' p = Some (set_next (set_state pr PROCESS_STATE_READY) 0) ∧ ∀ x, x ≠ p → block s' x = block s x) ∧
  (∃ s', scheduler_remove p s = Some s' ∧ ready s' (without p q) ∧ queue_only s s' ∧ ∀ x, block s' x = block s x) ∧
  (∃ s', scheduler_next s = Some (default 0 (head q), s') ∧ ready s' (tail q) ∧ queue_only s s' ∧ ∀ x, block s' x = block s x).
Proof.
  intros Hr H0 Hpr. split; [|split].
  - intros Hp. destruct (scheduler_add_spec s q p pr Hr Hp H0 Hpr) as (s' & ? & ? & ? & Hb). exists s'.
    split_and!; [done..|by rewrite Hb, decide_True|]. intros x Hx. by rewrite Hb, decide_False.
  - destruct (scheduler_remove_spec s q p pr Hr H0 Hpr) as (s' & ? & [? ? ? _]). by exists s'.
  - pose proof (scheduler_next_spec s q Hr) as Hn. destruct q as [|x q]; [by exists s|].
    destruct Hn as (_ & s' & ? & ? & ? & ?). by exists s'.
Qed.


(** [process_create] links a new control block in front of the process list
    with the next identifier, a fresh stack page and an initial CPU state that
    starts at the entry point with interrupts enabled. The CPU state is written
    129,792 bytes above the stack page of 4,096 bytes: the offset is scaled by
    the size of [uint64_t] and [STACK_SIZE] is four times what was allocated. *)
Theorem process_create_correct s entry prio name l p s' :
  pa_ok (k_pages s) → ml_ok (k_heap s) → is_u32 (next_pid s) →
  chain (procs s) (process_list s) l → process_create entry prio name s = (p, s') → p ≠ 0 → p ∉ l →
  ∃ st, page_addr st ∧
    procs s' = <[p := fresh_process (next_pid s) entry prio st (process_list s) name]> (procs s) ∧
    chain (procs s') (process_list s') (p :: l) ∧
    process_count s' = u32 (process_count s + 1) ∧ next_pid s' = u32 (next_pid s + 1) ∧
    cpus s' !! (st + 129792) = Some (mk_cpu (replicate 15 0) entry 8 514 (st + 131072) 16) ∧
    ready_queue_head s' = ready_queue_head s ∧ current_process s' = current_process s.
Proof.
  intros Hpa Hml Hid Hc Hcr Hp0 Hpl. unfold process_create in Hcr. destruct (MAX_PROCESSES <=? _); [congruence|].
  pose proof (malloc_spec (k_heap s) SIZEOF_PROCESS Hml ltac:(unfold SIZEOF_PROCESS; lia)) as Hm.
  destruct (Interfaces.malloc SIZEOF_PROCESS (k_heap s)) as [p1 h]. destruct (p1 =? 0) eqn:?; zbool; [congruence|].
  cbv zeta in Hcr. cbn [k_pages set_pid set_alloc] in Hcr.
  pose proof (alloc_page_spec (k_pages s) Hpa) as Ha. destruct (alloc_page (k_pages s)) as [st a].
  destruct (st =? 0) eqn:?; zbool; [congruence|]. injection Hcr as -> <-.
  destruct Ha as [_ [[? _]|(Hst & _)]]; [done|]. exists st.
  assert (Hoff : ∀ n, 0 <= n <= 16384 → stack_plus st n = st + 8 * n).
  { intros n Hn. destruct Hst. apply u64_small. unfold is_u64. lia. }
  unfold fresh_process, SIZEOF_CPU_STATE, STACK_SIZE. rewrite !Hoff by lia.
  split_and!; try done; cbn [procs process_list set_list put set_procs].
  - split; [done|split; [done|]]. eexists. split; [apply lookup_insert_eq|]. simpl.
    eapply chain_frame; [|exact Hc]. intros x Hx. apply lookup_insert_ne. congruence.
  - cbn [cpus set_cpus set_list put set_procs]. apply lookup_insert_eq.
Qed.

(** The scheduler and the process list share the [next] field. Queueing a
    process cuts the process list behind it; and destroying the process at the
    head of the list loses the whole list, because [scheduler_remove] clears the
    field before [process_destroy] follows it. *)
Theorem process_list_broken_by_scheduler s l1 p l2 :
  chain (procs s) (process_list s) (l1 ++ p :: l2) → NoDup (l1 ++ p :: l2) → ready s [] →
  (∃ s', scheduler_add p s = Some s' ∧ chain (procs s') (process_list s') (l1 ++ [p])) ∧
  (l1 = [] → ∃ s', process_destroy p s = Some s' ∧ process_list s' = 0).
Proof.
  intros Hc Hnd Hr. destruct (chain_app _ _ _ _ _ Hc) as (pr & Hpr & H0 & _). split.
  - unfold scheduler_add, modify, deref. rewrite (proj2 (Z.eqb_neq _ _) H0), Hpr. cbn [mbind option_bind].
    destruct Hr as (_ & _ & Ht). simpl in Ht.
    change (ready_queue_tail (put p (set_next (set_state pr PROCESS_STATE_READY) 0) s)) with (ready_queue_tail s).
    rewrite Ht. simpl. eexists. split; [done|]. cbn [procs process_list set_queue put set_procs].
    assert (Hst := chain_put _ _ _ _ (set_state pr PROCESS_STATE_READY) _ Hpr eq_refl Hc).
    pose proof (chain_redirect (<[p := set_state pr PROCESS_STATE_READY]> (procs s)) (process_list s) l1 p
                  (set_state pr PROCESS_STATE_READY) l2 [] 0) as Hred.
    rewrite insert_insert_eq in Hred. apply Hred; try done; [|set_solver|apply lookup_insert_eq].
    change (p :: l2) with ([p] ++ l2) in Hnd. rewrite app_assoc in Hnd. by apply NoDup_app in Hnd as [? _].
  - intros ->. destruct Hc as (Hh & _ & _).
    destruct (scheduler_remove_spec s [] p pr Hr H0 Hpr) as (s1 & Hs1 & [_ Ho _ (pr' & Hpr' & Hn)]).
    unfold process_destroy. rewrite (proj2 (Z.eqb_neq _ _) H0), Hs1. cbn [mbind option_bind]. unfold deref. rewrite Hpr'.
    cbn [mbind option_bind]. rewrite (qo_list _ _ Ho), Hh, Z.eqb_refl. cbn [mbind option_bind]. by eexists.
Qed.
End process.

(** ** Witnesses: three processes, the first one running *)

Definition demo_proc (nxt : Z) : process_t :=
  mk_process 1 PROCESS_STATE_READY 4096 STACK_SIZE (4096 + nxt) nxt 2 0 [] 0.

Definition demo_kernel : kernel pmm (heap (vmm pmm)) :=
  mk_kernel 100 0 4 3 200 300
    (<[100 := demo_proc 0]> (<[200 := demo_proc 300]> (<[300 := demo_proc 0]> ∅))) ∅ [] demo_pmm demo_heap.

Lemma demo_ready : ready demo_kernel [200; 300].
Proof.
  split; [repeat constructor; set_solver|]. split; [|done].
  split; [done|split; [done|]]. eexists. split; [reflexivity|]. split; [done|split; [done|]].
  eexists. split; [reflexivity|]. done.
Qed.

Lemma demo_running : running demo_kernel 100 [200; 300].
Proof.
  split; [done|exact demo_ready|set_solver|done|].
  intros x Hx. rewrite !elem_of_cons in Hx.
  destruct Hx as [->|[->|[->|Hx]]]; [..|by apply elem_of_nil in Hx]; (eexists; split; [reflexivity|]); simpl; lia.
Qed.

Lemma ready_queue_fifo_witness : ∃ s', scheduler_add 100 demo_kernel = Some s' ∧ ready s' [200; 300; 100].
Proof.
  destruct (ready_queue_fifo demo_kernel [200; 300] 100 (demo_proc 0) demo_ready ltac:(lia) eq_refl) as [Hadd _].
  destruct (Hadd ltac:(set_solver)) as (s' & H & Hr & _). exists s'. split; [exact H|exact Hr].
Defined.


Lemma process_create_correct_witness :
  ∃ st s', process_create 1048576 5 [105] demo_kernel = (286748, s') ∧ page_addr st ∧ next_pid s' = 5.
Proof.
  destruct (process_create 1048576 5 [105] demo_kernel) as [p s'] eqn:Hc.
  assert (p = 286748) as -> by (apply (f_equal fst) in Hc; symmetry; exact Hc).
  assert (Hid0 : is_u32 (next_pid demo_kernel)) by (clear; vm_compute; split; congruence).
  assert (Hne : 286748 ≠ 0) by (clear; lia).
  assert (Hp : pa_ok (k_pages demo_kernel)) by exact demo_pmm_inv.
  assert (Hh : ml_ok (k_heap demo_kernel)) by (exists demo_blocks; exact demo_heap_good).
  destruct (process_create_correct demo_kernel 1048576 5 [105] [] 286748 s' Hp Hh
    Hid0 eq_refl Hc Hne (not_elem_of_nil _))
    as (st & Hst & _ & _ & _ & Hid & _).
  exists st, s'. split; [reflexivity|]. split; [exact Hst|exact Hid].
Defined.

(** A process list of two, nobody queued. *)
Definition demo_list : kernel pmm (heap (vmm pmm)) :=
  mk_kernel 0 200 4 2 0 0 (<[200 := demo_proc 300]> (<[300 := demo_proc 0]> ∅)) ∅ [] demo_pmm demo_heap.

Lemma process_list_broken_by_scheduler_witness :
  ∃ s', scheduler_add 200 demo_list = Some s' ∧ chain (procs s') (process_list s') [200].
Proof.
  refine (proj1 (process_list_broken_by_scheduler demo_list [] 200 [300] _ _ _)).
  - split; [done|split; [done|]]. eexists. split; [reflexivity|]. split; [done|split; [done|]]. eexists. split; [reflexivity|]. done.
  - repeat constructor; set_solver.
  - split; [constructor|]. split; done.
Defined.
