(* ===== verification/Serial.v ===== *)
(** * Serial port and interrupt controllers
    ([core/drivers/serial/serial.c], [core/drivers/pic.c])

    Programs on the I/O ports of a world [W].  A busy-waiting loop polls at most
    [fuel] times; running out of it is [None]. *)
From S2P Require Import Prelude Interfaces Monad.

Section ports.
Context {W : Type} `{!Ports W}.

Definition out (port v : Z) : M W () := modify (outb port (u8 v)).
Definition in_ (port : Z) : M W Z := call (inb port).

(** ** serial.c *)

Definition INT_ENABLE_REG : Z := 1.
Definition FIFO_CTRL_REG : Z := 2.
Definition LINE_CTRL_REG : Z := 3.
Definition MODEM_CTRL_REG : Z := 4.
Definition LINE_STATUS_REG : Z := 5.
Definition DIVISOR_LOW : Z := 0.
Definition DIVISOR_HIGH : Z := 1.
Definition LSR_DATA_READY : Z := 1.
Definition LSR_THR_EMPTY : Z := 32.
Definition COM1 : Z := 1016.

Definition serial_init (port : Z) : M W () :=
  out (port + INT_ENABLE_REG) 0;;
  out (port + LINE_CTRL_REG) 128;;
  out (port + DIVISOR_LOW) 1;;
  out (port + DIVISOR_HIGH) 0;;
  out (port + LINE_CTRL_REG) 3;;
  out (port + FIFO_CTRL_REG) 199;;
  out (port + MODEM_CTRL_REG) 11.

(** [while ((inb(port + LINE_STATUS_REG) & flag) == 0);] *)
Fixpoint wait_status (fuel : nat) (port flag : Z) : M W () :=
  match fuel with
  | O => fault
  | S fuel =>
      status ← in_ (port + LINE_STATUS_REG);
      if Z.land status flag =? 0 then wait_status fuel port flag else mret ()
  end.

Definition serial_write_char (fuel : nat) (port c : Z) : M W () :=
  wait_status fuel port LSR_THR_EMPTY;; out port c.

Definition serial_read_char (fuel : nat) (port : Z) : M W Z :=
  wait_status fuel port LSR_DATA_READY;; v ← in_ port; mret (s8 v).

Definition serial_can_read (port : Z) : M W bool :=
  status ← in_ (port + LINE_STATUS_REG); mret (negb (Z.land status LSR_DATA_READY =? 0)).

Definition serial_can_write (port : Z) : M W bool :=
  status ← in_ (port + LINE_STATUS_REG); mret (negb (Z.land status LSR_THR_EMPTY =? 0)).

(** ** pic.c *)

Definition PIC1_COMMAND : Z := 32.
Definition PIC1_DATA : Z := 33.
Definition PIC2_COMMAND : Z := 160.
Definition PIC2_DATA : Z := 161.
Definition ICW1_INIT : Z := 16.
Definition ICW1_ICW4 : Z := 1.
Definition ICW4_8086 : Z := 1.
Definition PIC1_OFFSET : Z := 32.
Definition PIC2_OFFSET : Z := 40.
Definition PIC_EOI : Z := 32.

Definition io_wait : M W () := out 128 0.

Definition pic_init : M W () :=
  mask1 ← in_ PIC1_DATA;
  mask2 ← in_ PIC2_DATA;
  out PIC1_COMMAND (Z.lor ICW1_INIT ICW1_ICW4);; io_wait;;
  out PIC2_COMMAND (Z.lor ICW1_INIT ICW1_ICW4);; io_wait;;
  out PIC1_DATA PIC1_OFFSET;; io_wait;;
  out PIC2_DATA PIC2_OFFSET;; io_wait;;
  out PIC1_DATA 4;; io_wait;;
  out PIC2_DATA 2;; io_wait;;
  out PIC1_DATA ICW4_8086;; io_wait;;
  out PIC2_DATA ICW4_8086;; io_wait;;
  out PIC1_DATA mask1;;
  out PIC2_DATA mask2.

Definition pic_send_eoi (irq : Z) : M W () :=
  (if 8 <=? irq then out PIC2_COMMAND PIC_EOI else mret ());;
  out PIC1_COMMAND PIC_EOI.

(** Port and bit of an interrupt line. *)
Definition pic_line (irq : Z) : Z * Z := if irq <? 8 then (PIC1_DATA, irq) else (PIC2_DATA, irq - 8).

Definition pic_set_mask (irq : Z) : M W () :=
  let '(port, irq) := pic_line irq in
  value ← in_ port;
  out port (u8 (Z.lor value (Z.shiftl 1 irq))).

Definition pic_clear_mask (irq : Z) : M W () :=
  let '(port, irq) := pic_line irq in
  value ← in_ port;
  out port (u8 (Z.land value (Z.lnot (Z.shiftl 1 irq)))).

End ports.

(** ** A transmitter that is always ready *)

(** The characters sent to a port whose line status always says "empty". *)
Class SerialPort (W : Type) `{!Ports W} := {
  sp_ok : W → Prop;
  sp_sent : W → list Z;       (* oldest first *)
  sp_status w :
    sp_ok w →
    let '(v, w') := inb (COM1 + LINE_STATUS_REG) w in
    Z.land v LSR_THR_EMPTY ≠ 0 ∧ sp_ok w' ∧ sp_sent w' = sp_sent w;
  sp_send w c : sp_ok w → sp_ok (outb COM1 c w) ∧ sp_sent (outb COM1 c w) = sp_sent w ++ [c];
}.

Lemma wp_serial_write_char {W} `{!Ports W, !SerialPort W} fuel c (Q : () → W → Prop) w :
  sp_ok w → (0 < fuel)%nat → (∀ w', sp_ok w' → sp_sent w' = sp_sent w ++ [u8 c] → Q () w') →
  wp (serial_write_char fuel COM1 c) Q w.
Proof.
  intros Hok Hf HQ. destruct fuel as [|fuel]; [lia|]. unfold serial_write_char. cbn [wait_status].
  apply wp_bind, wp_bind. unfold in_. apply wp_call. pose proof (sp_status w Hok) as Hs.
  destruct (inb (COM1 + LINE_STATUS_REG) w) as [v w1]. destruct Hs as (Hv & Hok1 & Hs). cbn [fst snd].
  rewrite (proj2 (Z.eqb_neq _ 0) Hv). apply wp_ret. unfold out. apply wp_modify.
  destruct (sp_send w1 (u8 c) Hok1) as [Hok2 Hs2]. apply HQ; [done|]. by rewrite Hs2, Hs.
Qed.

(** A port that records what it is sent. *)
Record serial_log := mk_serial_log { sent : list Z }.
#[export] Instance serial_log_ports : Ports serial_log := {
  outb p v w := if p =? COM1 then mk_serial_log (sent w ++ [v]) else w;
  inb p w := (32, w);
}.
#[export] Program Instance serial_log_port : SerialPort serial_log := { sp_ok w := True; sp_sent := sent }.
Next Obligation. done. Qed.
Next Obligation. done. Qed.
