(* ===== verification/Log.v ===== *)
(** * The kernel log ([kernel/src/utils/log.c])

    Strings are lists of character codes without the terminating NUL; the
    variable arguments of [log_printf] are a list.  An argument that is missing or
    of another type, a store past the 1024 bytes of the buffer and the use of
    bytes that were never written are [None]. *)
From S2P Require Import Prelude Interfaces Monad Str Serial.

Inductive log_level_t := LOG_LEVEL_DEBUG | LOG_LEVEL_INFO | LOG_LEVEL_WARN | LOG_LEVEL_ERROR | LOG_LEVEL_FATAL.

Definition level_strings (level : log_level_t) : list Z :=
  match level with
  | LOG_LEVEL_DEBUG => [91; 68; 69; 66; 85; 71; 93; 32]
  | LOG_LEVEL_INFO => [91; 73; 78; 70; 79; 93; 32]
  | LOG_LEVEL_WARN => [91; 87; 65; 82; 78; 93; 32]
  | LOG_LEVEL_ERROR => [91; 69; 82; 82; 79; 82; 93; 32]
  | LOG_LEVEL_FATAL => [91; 70; 65; 84; 65; 76; 93; 32]
  end.

(** "0123456789abcdef"[d] *)
Definition hex_digit (d : Z) : option Z :=
  if (0 <=? d) && (d <? 10) then Some (48 + d) else if (10 <=? d) && (d <? 16) then Some (87 + d) else None.

(** ** Numbers *)

(** The loop of [print_num] from the pointer down: [fuel] is the room in the
    buffer, 64 characters; [acc] what is already stored behind the pointer. *)
Fixpoint num_loop (fuel : nat) (num base : Z) (acc : list Z) : option (list Z) :=
  match fuel with
  | O => None
  | S fuel =>
      c ← hex_digit (num mod base);
      let num := num / base in
      if 0 <? num then num_loop fuel num base (c :: acc) else Some (c :: acc)
  end.

Definition num_string (num base : Z) : option (list Z) := num_loop 64 num base [].

(** [num = -num] on 32 bits. *)
Definition neg32 (num : Z) : Z := s32 (- num).

(** The digits of [%d]: how many, and their characters; [digits] counts with
    [temp /= 10], the characters are produced with [num % 10] while [num > 0]. *)
Fixpoint count_digits (fuel : nat) (temp : Z) : nat :=
  match fuel with
  | O => 1
  | S fuel => let temp := Z.quot temp 10 in if temp =? 0 then 1 else S (count_digits fuel temp)
  end.

Fixpoint dec_loop (fuel : nat) (num : Z) (acc : list Z) : list Z :=
  match fuel with
  | O => acc
  | S fuel =>
      let acc := 48 + Z.rem num 10 :: acc in
      let num := Z.quot num 10 in
      if 0 <? num then dec_loop fuel num acc else acc
  end.

(** The characters of [%x], most significant first. *)
Fixpoint hex_loop (fuel : nat) (num : Z) (acc : list Z) : option (list Z) :=
  match fuel with
  | O => None
  | S fuel =>
      c ← hex_digit (Z.rem num 16);
      let num := Z.quot num 16 in
      if 0 <? num then hex_loop fuel num (c :: acc) else Some (c :: acc)
  end.

(** ** [log_printf] *)

Inductive va_arg := AString (s : list Z) | AInt (n : Z).

Definition BUFFER_SIZE : nat := 1024.

(** [*ptr++ = c] *)
Definition put (buf : list Z) (c : Z) : option (list Z) :=
  if (length buf <? BUFFER_SIZE)%nat then Some (buf ++ [c]) else None.

Fixpoint put_string (buf s : list Z) : list Z :=
  match s with
  | [] => buf
  | c :: s => if (length buf <? 1023)%nat then put_string (buf ++ [c]) s else buf
  end.

(** [digits] places are left free, a NUL is stored behind them and the digits
    before it. *)
Definition put_decimal (buf : list Z) (num : Z) : option (list Z) :=
  buf ← (if num <? 0 then put buf 45 else Some buf);
  let num := if num <? 0 then neg32 num else num in
  let digits := count_digits 10 num in
  let chars := dec_loop 10 num [] in
  if (length buf + digits <? BUFFER_SIZE)%nat && (length chars =? digits)%nat then Some (buf ++ chars) else None.

Definition put_hex (buf : list Z) (num : Z) : option (list Z) :=
  buf ← put buf 48;
  buf ← put buf 120;
  chars ← hex_loop 9 num [];
  foldl (λ b c, b ← b; put b c) (Some buf) chars.

(** The loop over the format; the terminating NUL is stored at the end. *)
Fixpoint format_loop (format : list Z) (args : list va_arg) (buf : list Z) : option (list Z) :=
  let finish := if (length buf <? BUFFER_SIZE)%nat then Some buf else None in
  match format with
  | [] => finish
  | c :: rest =>
      if negb (length buf <? 1023)%nat then finish
      else if negb (c =? 37) then (buf ← put buf c; format_loop rest args buf)
      else
        match rest with
        | [] => None      (* the NUL is printed and the loop runs past the end *)
        | d :: rest =>
            if d =? 115 then
              match args with
              | AString s :: args => format_loop rest args (put_string buf s)
              | _ => None
              end
            else if d =? 100 then
              match args with
              | AInt n :: args => buf ← put_decimal buf n; format_loop rest args buf
              | _ => None
              end
            else if d =? 120 then
              match args with
              | AInt n :: args => buf ← put_hex buf n; format_loop rest args buf
              | _ => None
              end
            else if d =? 37 then (buf ← put buf 37; format_loop rest args buf)
            else (buf ← put buf 37; buf ← put buf d; format_loop rest args buf)
        end
  end.

(** ** Output *)

Section output.
Context {W : Type} `{!Ports W}.
Context (fuel : nat).      (* polls of the serial port for each character *)

Fixpoint write_serial (str : list Z) : M W () :=
  match str with [] => mret () | c :: str => serial_write_char fuel COM1 c;; write_serial str end.

Definition log_init : M W () := serial_init COM1.

Definition log_char (level : log_level_t) (c : Z) : M W () :=
  write_serial (level_strings level);;
  serial_write_char fuel COM1 c;;
  serial_write_char fuel COM1 13;;
  serial_write_char fuel COM1 10.

(** The last character is read at [strlen(str) - 1]: of an empty string that is
    the byte before it. *)
Definition log_string (level : log_level_t) (str : list Z) : M W () :=
  write_serial (level_strings level);;
  write_serial str;;
  c ← lift (last str);
  if negb (c =? 10) then serial_write_char fuel COM1 13;; serial_write_char fuel COM1 10
  else serial_write_char fuel COM1 13.

Definition print_num (num base : Z) : M W () :=
  str ← lift (num_string num base);
  write_serial str.

Definition log_hex (level : log_level_t) (value : Z) : M W () :=
  write_serial (level_strings level);;
  write_serial [48; 120];;
  print_num value 16;;
  serial_write_char fuel COM1 13;;
  serial_write_char fuel COM1 10.

Definition log_printf (level : log_level_t) (format : list Z) (args : list va_arg) : M W () :=
  buffer ← lift (format_loop format args []);
  log_string level buffer.
End output.

(** ** What a string of digits means *)

Definition digit_value (c : Z) : Z := if c <? 58 then c - 48 else c - 87.
Definition num_value (base : Z) (str : list Z) : Z := foldl (λ v c, v * base + digit_value c) 0 str.

Definition is_digit_of (base c : Z) : Prop := (48 <= c < 58 ∨ 97 <= c < 103) ∧ digit_value c < base.

Lemma hex_digit_spec d base :
  0 <= d < base → base <= 16 → ∃ c, hex_digit d = Some c ∧ digit_value c = d ∧ is_digit_of base c.
Proof.
  intros Hd Hb. unfold hex_digit, is_digit_of, digit_value. destruct (decide (d < 10)).
  - exists (48 + d). rewrite (proj2 (Z.leb_le 0 d)), (proj2 (Z.ltb_lt d 10)) by lia. cbn [andb].
    rewrite (proj2 (Z.ltb_lt _ 58)) by lia. split_and!; [done|lia|left; lia|lia].
  - exists (87 + d). rewrite (proj2 (Z.ltb_ge d 10)), andb_false_r by lia.
    rewrite (proj2 (Z.leb_le 10 d)), (proj2 (Z.ltb_lt d 16)) by lia. cbn [andb].
    rewrite (proj2 (Z.ltb_ge _ 58)) by lia. split_and!; [done|lia|right; lia|lia].
Qed.

Lemma foldl_value base acc v :
  foldl (λ v c, v * base + digit_value c) v acc = v * base ^ Z.of_nat (length acc) + num_value base acc.
Proof.
  unfold num_value. revert v. induction acc as [|c acc IH]; intros v; [simpl; lia|].
  cbn [foldl length]. rewrite IH, (IH (0 * base + digit_value c)), Nat2Z.inj_succ, Z.pow_succ_r by lia. nia.
Qed.

(** The loop terminates within its buffer; what it puts in front of [acc] is the
    number, without leading zeros. *)
Lemma num_loop_spec base fuel : ∀ num acc,
  2 <= base <= 16 → 0 <= num < base ^ Z.of_nat fuel → (0 < fuel)%nat →
  ∃ ds, num_loop fuel num base acc = Some (ds ++ acc) ∧ num_value base ds = num ∧
    Forall (is_digit_of base) ds ∧ (0 < length ds <= fuel)%nat ∧ (num ≠ 0 → head ds ≠ Some 48) ∧ (num = 0 → ds = [48]).
Proof.
  induction fuel as [|fuel IH]; intros num acc Hb Hn Hf; [lia|]. cbn [num_loop].
  pose proof (Z.mod_pos_bound num base ltac:(lia)) as Hm. pose proof (Z.div_mod num base ltac:(lia)) as Hdm.
  destruct (hex_digit_spec (num mod base) base) as (c & Hc & Hv & Hd); [lia|lia|]. rewrite Hc. cbn [mbind option_bind].
  destruct (0 <? num / base) eqn:Hlt; zbool.
  - rewrite Nat2Z.inj_succ, Z.pow_succ_r in Hn by lia.
    assert (num / base < base ^ Z.of_nat fuel) as Hdiv by (apply Z.div_lt_upper_bound; lia).
    assert (0 < fuel)%nat as Hf'. { destruct fuel; [simpl in Hdiv; lia|lia]. }
    destruct (IH (num / base) (c :: acc) Hb ltac:(lia) Hf') as (ds & -> & Hval & Hall & Hl & Hnz & _).
    exists (ds ++ [c]). split; [by rewrite <- app_assoc|]. split.
    { unfold num_value in *. rewrite foldl_app, Hval. cbn [foldl]. rewrite Hv. lia. }
    split; [apply Forall_app; split; [done|by apply Forall_singleton]|]. split; [rewrite length_app; simpl; lia|].
    split; [|intros ->; rewrite Zdiv_0_l in Hlt; lia]. intros _. rewrite head_app. destruct ds; [simpl in *; lia|].
    simpl. apply Hnz. lia.
  - assert (num / base = 0) as H0 by (assert (0 <= num / base) by (apply Z.div_pos; lia); lia).
    exists [c]. split; [done|]. assert (num mod base = num) as He by nia. split; [unfold num_value; cbn [foldl]; lia|].
    split; [by apply Forall_singleton|]. split; [simpl; lia|]. split.
    + intros Hne [= ->]. apply Hne. rewrite <- He, <- Hv. reflexivity.
    + intros ->. rewrite Zmod_0_l in Hc. unfold hex_digit in Hc. cbn in Hc. by injection Hc as <-.
Qed.

Section serial_output.
Context {W : Type} `{HP : !Ports W, !SerialPort W}.
Implicit Types w : W.

Lemma wp_write_serial fuel str w (Q : () → W → Prop) :
  sp_ok w → (0 < fuel)%nat → Forall is_u8 str → (∀ w', sp_ok w' → sp_sent w' = sp_sent w ++ str → Q () w') →
  wp (write_serial fuel str) Q w.
Proof.
  intros Hok Hf Hs. revert w Hok. induction Hs as [|c str Hc _ IH]; intros w Hok HQ.
  - apply wp_ret, HQ; [done|]. by rewrite app_nil_r.
  - cbn [write_serial]. apply wp_bind. apply wp_serial_write_char; [done|done|]. intros w1 Hok1 Hs1.
    apply IH; [done|]. intros w2 Hok2 Hs2. apply HQ; [done|]. rewrite Hs2, Hs1, u8_small by done.
    by rewrite <- app_assoc.
Qed.

Lemma digits_u8 base str : Forall (is_digit_of base) str → Forall is_u8 str.
Proof. intros Hf. eapply Forall_impl; [exact Hf|]. intros c [Hc _]. unfold is_u8. lia. Qed.

(** [print_num] sends the digits of the number in its base, at most 64 of
    them and without leading zeros. *)
Theorem print_num_correct fuel num base w :
  sp_ok w → (0 < fuel)%nat → 2 <= base <= 16 → is_u64 num →
  wp (print_num fuel num base) (λ _ w', sp_ok w' ∧ ∃ str, sp_sent w' = sp_sent w ++ str ∧
    num_value base str = num ∧ Forall (is_digit_of base) str ∧ (0 < length str <= 64)%nat ∧
    (head str = Some 48 → str = [48])) w.
Proof.
  intros Hok Hf Hb Hn. unfold print_num, num_string.
  assert (num < base ^ 64) as Hlt. { pose proof (Z.pow_le_mono_l 2 base 64). destruct Hn as [_ Hn]. change 18446744073709551616 with (2 ^ 64) in Hn. lia. }
  destruct (num_loop_spec base 64 num []) as (ds & Hds & Hv & Hall & Hl & Hnz & Hz); [done|destruct Hn; lia|lia|].
  rewrite app_nil_r in Hds. apply wp_bind. eapply wp_lift; [exact Hds|].
  apply wp_write_serial; [done|done|by eapply digits_u8|]. intros w' Hok' Hs'. split; [done|].
  exists ds. split_and!; [done|done|done|lia|lia|]. intros Hh. destruct (decide (num = 0)) as [->|Hne]; [by apply Hz|].
  by destruct (Hnz Hne).
Qed.
End serial_output.

(** ** What a format means

    Each directive is replaced by its text; the numbers are those of
    [num_string].  [None] where the format and the arguments do not fit, for
    INT_MIN and for a negative number in hexadecimal. *)
Fixpoint expand (format : list Z) (args : list va_arg) : option (list Z) :=
  match format with
  | [] => Some []
  | c :: rest =>
      if negb (c =? 37) then (out ← expand rest args; Some (c :: out))
      else
        match rest with
        | [] => None
        | d :: rest =>
            if d =? 115 then
              match args with AString s :: args => out ← expand rest args; Some (s ++ out) | _ => None end
            else if d =? 100 then
              match args with
              | AInt n :: args =>
                  if (n <=? -2147483648) || (2147483648 <=? n) then None else
                  ds ← num_string (Z.abs n) 10;
                  out ← expand rest args;
                  Some ((if n <? 0 then [45] else []) ++ ds ++ out)
              | _ => None
              end
            else if d =? 120 then
              match args with
              | AInt n :: args =>
                  if (n <? 0) || (2147483648 <=? n) then None else
                  ds ← num_string n 16;
                  out ← expand rest args;
                  Some ([48; 120] ++ ds ++ out)
              | _ => None
              end
            else if d =? 37 then (out ← expand rest args; Some (37 :: out))
            else (out ← expand rest args; Some (37 :: d :: out))
        end
  end.

(** The three ways to print a non-negative number agree. *)
Lemma dec_loop_num f : ∀ f' n acc,
  (0 < f <= f')%nat → 0 <= n < 10 ^ Z.of_nat f → num_loop f' n 10 acc = Some (dec_loop f n acc).
Proof.
  induction f as [|f IH]; intros f' n acc Hf Hn; [lia|]. destruct f' as [|f']; [lia|]. cbn [num_loop dec_loop].
  rewrite Z.rem_mod_nonneg, Z.quot_div_nonneg by lia. pose proof (Z.mod_pos_bound n 10 ltac:(lia)).
  unfold hex_digit. rewrite (proj2 (Z.leb_le 0 _)), (proj2 (Z.ltb_lt _ 10)) by lia. cbn [andb mbind option_bind].
  destruct (0 <? n / 10) eqn:Hlt; zbool; [|done]. rewrite Nat2Z.inj_succ, Z.pow_succ_r in Hn by lia.
  assert (n / 10 < 10 ^ Z.of_nat f) by (apply Z.div_lt_upper_bound; lia). apply IH; [|lia].
  destruct f; [simpl in *; lia|lia].
Qed.

Lemma dec_loop_length f : ∀ n acc,
  0 <= n < 10 ^ Z.of_nat f → (0 < f)%nat → length (dec_loop f n acc) = (count_digits f n + length acc)%nat.
Proof.
  induction f as [|f IH]; intros n acc Hn Hf; [lia|]. cbn [dec_loop count_digits].
  rewrite Z.quot_div_nonneg by lia. rewrite Nat2Z.inj_succ, Z.pow_succ_r in Hn by lia.
  assert (0 <= n / 10 < 10 ^ Z.of_nat f) as Hd by (split; [apply Z.div_pos; lia|apply Z.div_lt_upper_bound; lia]).
  destruct (n / 10 =? 0) eqn:Hz; zbool.
  - rewrite Hz. done.
  - rewrite (proj2 (Z.ltb_lt 0 _)) by lia. rewrite IH; [simpl; lia|done|]. destruct f; [simpl in Hd; lia|lia].
Qed.

Lemma hex_loop_num f : ∀ f' n acc,
  (0 < f <= f')%nat → 0 <= n < 16 ^ Z.of_nat f → hex_loop f n acc = num_loop f' n 16 acc.
Proof.
  induction f as [|f IH]; intros f' n acc Hf Hn; [lia|]. destruct f' as [|f']; [lia|]. cbn [num_loop hex_loop].
  rewrite Z.rem_mod_nonneg, Z.quot_div_nonneg by lia. destruct (hex_digit _) as [c|]; [|done]. cbn [mbind option_bind].
  destruct (0 <? n / 16) eqn:Hlt; zbool; [|done]. rewrite Nat2Z.inj_succ, Z.pow_succ_r in Hn by lia.
  assert (n / 16 < 16 ^ Z.of_nat f) by (apply Z.div_lt_upper_bound; lia). apply IH; [|lia].
  destruct f; [simpl in *; lia|lia].
Qed.

Lemma put_some buf c : (length buf < 1024)%nat → put buf c = Some (buf ++ [c]).
Proof. intros Hl. unfold put, BUFFER_SIZE. by rewrite (proj2 (Nat.ltb_lt _ _) Hl). Qed.

Lemma put_string_all s : ∀ buf, (length buf + length s <= 1023)%nat → put_string buf s = buf ++ s.
Proof.
  induction s as [|c s IH]; intros buf Hl; [by rewrite app_nil_r|]. cbn [put_string]. simpl in Hl.
  rewrite (proj2 (Nat.ltb_lt _ _)) by lia. rewrite IH by (rewrite length_app; simpl; lia). by rewrite <- app_assoc.
Qed.

Lemma put_all l : ∀ buf, (length buf + length l <= 1024)%nat →
  foldl (λ b c, b ← b; put b c) (Some buf) l = Some (buf ++ l).
Proof.
  induction l as [|c l IH]; intros buf Hl; [by rewrite app_nil_r|]. cbn [foldl mbind option_bind]. simpl in Hl.
  rewrite put_some by lia. rewrite IH by (rewrite length_app; simpl; lia). by rewrite <- app_assoc.
Qed.

Lemma put_decimal_spec buf n ds :
  -2147483648 < n < 2147483648 → num_string (Z.abs n) 10 = Some ds → (length buf + length ds <= 1022)%nat →
  put_decimal buf n = Some (buf ++ (if (n <? 0)%Z then [45] else []) ++ ds).
Proof.
  intros Hn Hds Hl. unfold put_decimal, num_string in *.
  assert ((if n <? 0 then neg32 n else n) = Z.abs n) as ->.
  { destruct (n <? 0) eqn:H; zbool; [|lia]. unfold neg32. ulia. }
  rewrite (dec_loop_num 10 64) in Hds by (try lia; change (10 ^ Z.of_nat 10) with 10000000000; lia).
  assert (ds = dec_loop 10 (Z.abs n) []) as -> by congruence. clear Hds.
  pose proof (dec_loop_length 10 (Z.abs n) []) as Hlen. change (10 ^ Z.of_nat 10) with 10000000000 in Hlen.
  specialize (Hlen ltac:(lia) ltac:(lia)). rewrite Nat.add_0_r in Hlen.
  rewrite Hlen in Hl. destruct (n <? 0).
  - rewrite put_some by lia. cbn [mbind option_bind]. rewrite Hlen, Nat.eqb_refl, length_app.
    rewrite (proj2 (Nat.ltb_lt _ _)) by (unfold BUFFER_SIZE; cbn [length]; lia). by rewrite <- app_assoc.
  - cbn [mbind option_bind]. rewrite Hlen, Nat.eqb_refl.
    by rewrite (proj2 (Nat.ltb_lt _ _)) by (unfold BUFFER_SIZE; cbn [length]; lia).
Qed.

Lemma put_hex_spec buf n ds :
  0 <= n < 2147483648 → num_string n 16 = Some ds → (length buf + 2 + length ds <= 1022)%nat →
  put_hex buf n = Some (buf ++ [48; 120] ++ ds).
Proof.
  intros Hn Hds Hl. unfold put_hex, num_string in *.
  rewrite put_some by lia. cbn [mbind option_bind]. rewrite put_some by (rewrite length_app; simpl; lia).
  cbn [mbind option_bind]. rewrite (hex_loop_num 9 64) by (try lia; change (16 ^ Z.of_nat 9) with 68719476736; lia).
  rewrite Hds. cbn [mbind option_bind]. rewrite put_all by (rewrite !length_app; simpl; lia). by rewrite <- !app_assoc.
Qed.

(** The buffer gets the expansion, as long as it leaves room for two characters. *)
Lemma format_loop_expand format : ∀ args buf out,
  expand format args = Some out → (length buf + length out <= 1022)%nat →
  format_loop format args buf = Some (buf ++ out).
Proof.
  induction format as [format IH] using (induction_ltof1 _ (@length Z)). unfold ltof in IH. intros args buf out He Hl.
  assert ((length buf <? 1023)%nat = true) as Hlt by (apply Nat.ltb_lt; lia).
  assert ((length buf <? BUFFER_SIZE)%nat = true) as Hlt' by (apply Nat.ltb_lt; unfold BUFFER_SIZE; lia).
  destruct format as [|c rest]; cbn [expand format_loop] in *.
  { injection He as <-. by rewrite Hlt', app_nil_r. }
  rewrite Hlt. cbn [negb]. destruct (negb (c =? 37)).
  { destruct (expand rest args) as [o|] eqn:Er; [|done]. injection He as <-. simpl in Hl.
    rewrite put_some by lia. cbn [mbind option_bind]. rewrite (IH rest) with (out := o); [by rewrite <- app_assoc|simpl; lia|done|].
    rewrite length_app. simpl. lia. }
  destruct rest as [|d rest]; [done|]. assert (length rest < length (c :: d :: rest))%nat as Hr by (simpl; lia).
  destruct (d =? 115).
  { destruct args as [|[s|?] args]; [done| |done]. destruct (expand rest args) as [o|] eqn:Er; [|done]. injection He as <-.
    rewrite length_app in Hl. rewrite put_string_all by lia. rewrite (IH rest Hr args _ o Er); [by rewrite <- app_assoc|].
    rewrite length_app. lia. }
  destruct (d =? 100).
  { destruct args as [|[?|n] args]; [done|done|]. destruct (_ || _)%bool eqn:Hn; [done|]. zbool.
    destruct (num_string (Z.abs n) 10) as [ds|] eqn:Hds; [|done]. cbn [mbind option_bind] in He.
    destruct (expand rest args) as [o|] eqn:Er; [|done]. injection He as <-. rewrite !length_app in Hl.
    rewrite (put_decimal_spec buf n ds) by (done || lia). cbn [mbind option_bind].
    rewrite (IH rest Hr args _ o Er); [by rewrite <- !app_assoc|]. rewrite !length_app. lia. }
  destruct (d =? 120).
  { destruct args as [|[?|n] args]; [done|done|]. destruct (_ || _)%bool eqn:Hn; [done|]. zbool.
    destruct (num_string n 16) as [ds|] eqn:Hds; [|done]. cbn [mbind option_bind] in He.
    destruct (expand rest args) as [o|] eqn:Er; [|done]. injection He as <-. cbn [length app] in Hl. rewrite ?length_app in Hl.
    rewrite (put_hex_spec buf n ds) by (done || lia). cbn [mbind option_bind].
    rewrite (IH rest Hr args _ o Er); [by rewrite <- !app_assoc|]. rewrite !length_app. simpl. lia. }
  destruct (d =? 37); (destruct (expand rest args) as [o|] eqn:Er; [|done]); injection He as <-; simpl in Hl.
  - rewrite put_some by lia. cbn [mbind option_bind]. rewrite (IH rest Hr args _ o Er); [by rewrite <- app_assoc|].
    rewrite length_app. simpl. lia.
  - rewrite put_some by lia. cbn [mbind option_bind]. rewrite put_some by (rewrite length_app; simpl; lia).
    cbn [mbind option_bind]. rewrite (IH rest Hr args _ o Er); [by rewrite <- !app_assoc|]. rewrite !length_app. simpl. lia.
Qed.

(** A message whose expansion has between 1 and 1022 characters is sent in
    full, behind its level and followed by a line break. *)
Theorem log_printf_correct {W} `{HP : !Ports W, !SerialPort W} fuel level format args out (w : W) :
  sp_ok w → (0 < fuel)%nat → expand format args = Some out → (0 < length out <= 1022)%nat → Forall is_u8 out →
  wp (log_printf fuel level format args)
    (λ _ w', sp_ok w' ∧ sp_sent w' = sp_sent w ++ level_strings level ++ out ++
       (if decide (last out = Some 10) then [13] else [13; 10])) w.
Proof.
  intros Hok Hf He Hl Hu. unfold log_printf. apply wp_bind.
  eapply wp_lift; [apply (format_loop_expand format args [] out); [done|simpl; lia]|]. cbn [app]. unfold log_string.
  assert (Forall is_u8 (level_strings level)) as Hlev.
  { destruct level; repeat (apply Forall_cons; split; [split; done|]); constructor. }
  apply wp_bind, wp_write_serial; [done|done|done|]. intros w1 Hok1 Hs1.
  apply wp_bind, wp_write_serial; [done|done|done|]. intros w2 Hok2 Hs2.
  destruct (last out) as [c|] eqn:Hlast; [|apply last_None in Hlast; subst; simpl in Hl; lia].
  apply wp_bind. eapply wp_lift; [done|]. destruct (c =? 10) eqn:Hc; zbool; cbn [negb].
  - subst. rewrite decide_True by done. apply wp_serial_write_char; [done|done|]. intros w3 Hok3 Hs3. split; [done|].
    by rewrite Hs3, Hs2, Hs1, <- !app_assoc.
  - rewrite decide_False by congruence. apply wp_bind, wp_serial_write_char; [done|done|]. intros w3 Hok3 Hs3.
    apply wp_serial_write_char; [done|done|]. intros w4 Hok4 Hs4. split; [done|].
    by rewrite Hs4, Hs3, Hs2, Hs1, <- !app_assoc.
Qed.

(** The buffer overflows where only the end of the message does not fit. *)
Lemma log_printf_overflow : format_loop (replicate 1022 65 ++ [37; 100]) [AInt (-5)] [] = None.
Proof. vm_compute. reflexivity. Qed.

(** ** Witnesses *)

Lemma print_num_correct_witness :
  wp (print_num 1 255 16) (λ _ w', sp_ok w' ∧ ∃ str, sp_sent w' = sp_sent (mk_serial_log []) ++ str ∧
    num_value 16 str = 255 ∧ Forall (is_digit_of 16) str ∧ (0 < length str <= 64)%nat ∧
    (head str = Some 48 → str = [48])) (mk_serial_log []).
Proof. apply (print_num_correct 1 255 16 (mk_serial_log [])); [exact I|constructor|split; done|split; done]. Defined.

(** "n=%d" with -42 *)
Lemma log_printf_correct_witness :
  wp (log_printf 1 LOG_LEVEL_INFO [110; 61; 37; 100] [AInt (-42)])
    (λ _ w', sp_ok w' ∧ sp_sent w' = sp_sent (mk_serial_log []) ++ level_strings LOG_LEVEL_INFO ++ [110; 61; 45; 52; 50] ++ [13; 10])
    (mk_serial_log []).
Proof.
  apply (log_printf_correct 1 LOG_LEVEL_INFO [110; 61; 37; 100] [AInt (-42)] [110; 61; 45; 52; 50] (mk_serial_log []));
    [exact I|constructor|reflexivity|simpl; lia|].
  repeat (apply Forall_cons; split; [split; done|]). constructor.
Defined.
