(* ===== verification/Display.v ===== *)
(** * The frame buffer ([graphics/display.c], [graphics/font.c])

    The drawing routines are programs on the byte-addressed memory of Str.v; a
    [framebuffer] is the structure the boot loader hands over. *)
From S2P Require Import Prelude Monad Str.

Record framebuffer := mk_fb { fb_address : Z; fb_width : Z; fb_height : Z; fb_pitch : Z }.

Definition WHITE : Z := 16777215.

(** The glyphs: eight rows of eight bits, the leftmost pixel in bit 0. *)
Definition font : list (list Z) :=
  [ [0; 0; 0; 0; 0; 0; 0; 0]; [0; 0; 0; 0; 0; 0; 0; 0];
    [0; 0; 0; 0; 0; 0; 0; 0]; [0; 0; 0; 0; 0; 0; 0; 0];
    [0; 0; 0; 0; 0; 0; 0; 0]; [0; 0; 0; 0; 0; 0; 0; 0];
    [0; 0; 0; 0; 0; 0; 0; 0]; [0; 0; 0; 0; 0; 0; 0; 0];
    [0; 0; 0; 0; 0; 0; 0; 0]; [0; 0; 0; 0; 0; 0; 0; 0];
    [0; 0; 0; 0; 0; 0; 0; 0]; [0; 0; 0; 0; 0; 0; 0; 0];
    [0; 0; 0; 0; 0; 0; 0; 0]; [0; 0; 0; 0; 0; 0; 0; 0];
    [0; 0; 0; 0; 0; 0; 0; 0]; [0; 0; 0; 0; 0; 0; 0; 0];
    [0; 0; 0; 0; 0; 0; 0; 0]; [0; 0; 0; 0; 0; 0; 0; 0];
    [0; 0; 0; 0; 0; 0; 0; 0]; [0; 0; 0; 0; 0; 0; 0; 0];
    [0; 0; 0; 0; 0; 0; 0; 0]; [0; 0; 0; 0; 0; 0; 0; 0];
    [0; 0; 0; 0; 0; 0; 0; 0]; [0; 0; 0; 0; 0; 0; 0; 0];
    [0; 0; 0; 0; 0; 0; 0; 0]; [0; 0; 0; 0; 0; 0; 0; 0];
    [0; 0; 0; 0; 0; 0; 0; 0]; [0; 0; 0; 0; 0; 0; 0; 0];
    [0; 0; 0; 0; 0; 0; 0; 0]; [0; 0; 0; 0; 0; 0; 0; 0];
    [0; 0; 0; 0; 0; 0; 0; 0]; [0; 0; 0; 0; 0; 0; 0; 0];
    [0; 0; 0; 0; 0; 0; 0; 0]; [8; 8; 8; 8; 8; 0; 8; 0];
    [20; 20; 0; 0; 0; 0; 0; 0]; [20; 20; 62; 20; 62; 20; 20; 0];
    [8; 60; 10; 28; 40; 30; 8; 0]; [34; 82; 36; 8; 18; 74; 68; 0];
    [12; 18; 10; 4; 42; 18; 44; 0]; [8; 8; 0; 0; 0; 0; 0; 0];
    [16; 8; 4; 4; 4; 8; 16; 0]; [4; 8; 16; 16; 16; 8; 4; 0];
    [0; 20; 8; 62; 8; 20; 0; 0]; [0; 8; 8; 62; 8; 8; 0; 0];
    [0; 0; 0; 0; 0; 8; 8; 4]; [0; 0; 0; 62; 0; 0; 0; 0];
    [0; 0; 0; 0; 0; 8; 0; 0]; [32; 16; 8; 4; 2; 0; 0; 0];
    [28; 34; 50; 42; 38; 34; 28; 0]; [8; 12; 8; 8; 8; 8; 28; 0];
    [28; 34; 32; 16; 8; 4; 62; 0]; [28; 34; 32; 24; 32; 34; 28; 0];
    [16; 24; 20; 18; 62; 16; 16; 0]; [62; 2; 30; 32; 32; 34; 28; 0];
    [28; 34; 2; 30; 34; 34; 28; 0]; [62; 32; 16; 8; 4; 4; 4; 0];
    [28; 34; 34; 28; 34; 34; 28; 0]; [28; 34; 34; 60; 32; 34; 28; 0];
    [0; 8; 0; 0; 0; 8; 0; 0]; [0; 8; 0; 0; 0; 8; 8; 4];
    [16; 8; 4; 2; 4; 8; 16; 0]; [0; 0; 62; 0; 62; 0; 0; 0];
    [2; 4; 8; 16; 8; 4; 2; 0]; [28; 34; 32; 16; 8; 0; 8; 0];
    [28; 34; 50; 42; 50; 2; 28; 0]; [28; 34; 34; 62; 34; 34; 34; 0];
    [30; 34; 34; 30; 34; 34; 30; 0]; [28; 34; 2; 2; 2; 34; 28; 0];
    [30; 34; 34; 34; 34; 34; 30; 0]; [62; 2; 2; 30; 2; 2; 62; 0];
    [62; 2; 2; 30; 2; 2; 2; 0]; [28; 34; 2; 58; 34; 34; 28; 0];
    [34; 34; 34; 62; 34; 34; 34; 0]; [28; 8; 8; 8; 8; 8; 28; 0];
    [32; 32; 32; 32; 34; 34; 28; 0]; [34; 18; 10; 6; 10; 18; 34; 0];
    [2; 2; 2; 2; 2; 2; 62; 0]; [34; 54; 42; 42; 34; 34; 34; 0];
    [34; 38; 42; 50; 34; 34; 34; 0]; [28; 34; 34; 34; 34; 34; 28; 0];
    [30; 34; 34; 30; 2; 2; 2; 0]; [28; 34; 34; 34; 42; 18; 44; 0];
    [30; 34; 34; 30; 10; 18; 34; 0]; [28; 34; 2; 28; 32; 34; 28; 0];
    [62; 8; 8; 8; 8; 8; 8; 0]; [34; 34; 34; 34; 34; 34; 28; 0];
    [34; 34; 34; 20; 20; 8; 8; 0]; [34; 34; 34; 42; 42; 54; 34; 0];
    [34; 34; 20; 8; 20; 34; 34; 0]; [34; 34; 20; 8; 8; 8; 8; 0];
    [62; 32; 16; 8; 4; 2; 62; 0]; [28; 4; 4; 4; 4; 4; 28; 0];
    [2; 4; 8; 16; 32; 0; 0; 0]; [28; 16; 16; 16; 16; 16; 28; 0];
    [8; 20; 34; 0; 0; 0; 0; 0]; [0; 0; 0; 0; 0; 0; 62; 0];
    [4; 8; 0; 0; 0; 0; 0; 0]; [0; 0; 28; 32; 60; 34; 60; 0];
    [2; 2; 30; 34; 34; 34; 30; 0]; [0; 0; 28; 34; 2; 34; 28; 0];
    [32; 32; 60; 34; 34; 34; 60; 0]; [0; 0; 28; 34; 62; 2; 28; 0];
    [48; 8; 28; 8; 8; 8; 8; 0]; [0; 0; 60; 34; 34; 60; 32; 28];
    [2; 2; 30; 34; 34; 34; 34; 0]; [8; 0; 12; 8; 8; 8; 28; 0];
    [16; 0; 24; 16; 16; 16; 18; 12]; [2; 2; 18; 10; 6; 10; 18; 0];
    [12; 8; 8; 8; 8; 8; 28; 0]; [0; 0; 22; 42; 42; 42; 42; 0];
    [0; 0; 30; 34; 34; 34; 34; 0]; [0; 0; 28; 34; 34; 34; 28; 0];
    [0; 0; 30; 34; 34; 30; 2; 2]; [0; 0; 60; 34; 34; 60; 32; 32];
    [0; 0; 26; 36; 4; 4; 4; 0]; [0; 0; 28; 2; 28; 32; 30; 0];
    [8; 8; 28; 8; 8; 8; 48; 0]; [0; 0; 34; 34; 34; 34; 28; 0];
    [0; 0; 34; 34; 20; 20; 8; 0]; [0; 0; 34; 42; 42; 42; 20; 0];
    [0; 0; 34; 20; 8; 20; 34; 0]; [0; 0; 34; 34; 34; 60; 32; 28];
    [0; 0; 62; 16; 8; 4; 62; 0]; [16; 8; 8; 4; 8; 8; 16; 0];
    [8; 8; 8; 0; 8; 8; 8; 0]; [4; 8; 8; 16; 8; 8; 4; 0];
    [12; 18; 0; 0; 0; 0; 0; 0]; [0; 0; 0; 0; 0; 0; 0; 0] ].

(** A 32-bit store and load, low byte first. *)
Definition store32 (a v : Z) (m : gmap Z Z) : gmap Z Z :=
  <[a + 3 := Z.shiftr v 24 mod 256]> (<[a + 2 := Z.shiftr v 16 mod 256]>
    (<[a + 1 := Z.shiftr v 8 mod 256]> (<[a := v mod 256]> m))).
Definition load32 (a : Z) (m : gmap Z Z) : Z :=
  rd m a + 256 * rd m (a + 1) + 65536 * rd m (a + 2) + 16777216 * rd m (a + 3).

Section display.
Context (fb : framebuffer).

(** The address of [fb_ptr[y * (fb->pitch / 4) + x]]. *)
Definition pixel_address (x y : Z) : Z := u64 (fb_address fb + 4 * u64 (u64 (y * (fb_pitch fb / 4)) + x)).

Definition draw_pixel (x y color : Z) : M (gmap Z Z) () :=
  if (x <? fb_width fb) && (y <? fb_height fb) then modify (store32 (pixel_address x y) color) else mret ().

Definition draw_rect (x y width height color : Z) : M (gmap Z Z) () :=
  for_list (seqZ 0 height) (λ i,
    for_list (seqZ 0 width) (λ j, draw_pixel (u32 (x + j)) (u32 (y + i)) color)).

(** A doubled pixel. *)
Definition draw_block (x y color : Z) : M (gmap Z Z) () :=
  draw_pixel x y color;;
  draw_pixel (u32 (x + 1)) y color;;
  draw_pixel x (u32 (y + 1)) color;;
  draw_pixel (u32 (x + 1)) (u32 (y + 1)) color.

(** [char] is signed: the test [c < 128] always holds and a negative character
    indexes before the table. *)
Definition draw_char (c x y color : Z) : M (gmap Z Z) () :=
  if c <? 128 then
    for_list (seqZ 0 8) (λ i,
      for_list (seqZ 0 8) (λ j,
        glyph ← lift (index font c);
        row ← lift (index glyph i);
        if negb (Z.land row (Z.shiftl 1 j) =? 0)
        then draw_block (u32 (x + j * 2)) (u32 (y + i * 2)) color
        else mret ()))
  else mret ().

Fixpoint draw_string (str : list Z) (x y color : Z) : M (gmap Z Z) () :=
  match str with
  | [] => mret ()
  | c :: str => draw_char c x y color;; draw_string str (u32 (x + 12)) y color
  end.

(** The coordinates are 32 bits wide, the dimensions 64: each loop ends only
    when its dimension fits. *)
Definition clear_screen : M (gmap Z Z) () :=
  if (4294967296 <=? fb_height fb) || ((0 <? fb_height fb) && (4294967296 <=? fb_width fb)) then fault else
  for_list (seqZ 0 (fb_height fb)) (λ y,
    for_list (seqZ 0 (fb_width fb)) (λ x, draw_pixel x y 0)).
End display.

(** ** Pixels *)

Record fb_ok (fb : framebuffer) : Prop := {
  fbk_address : 0 <= fb_address fb;
  fbk_width : 0 <= fb_width fb < 4294967296;
  fbk_height : 0 <= fb_height fb < 4294967296;
  fbk_words : fb_pitch fb mod 4 = 0;
  fbk_pitch : 4 * fb_width fb <= fb_pitch fb;
  fbk_end : fb_address fb + fb_pitch fb * fb_height fb < 18446744073709551616;
}.

Section pixels.
Context (fb : framebuffer) (Hfb : fb_ok fb).
Implicit Types m : gmap Z Z.

Definition visible (x y : Z) : Prop := 0 <= x < fb_width fb ∧ 0 <= y < fb_height fb.
Definition pixel m (x y : Z) : Z := load32 (pixel_address fb x y) m.
(** The bytes of the frame buffer. *)
Definition in_fb (a : Z) : Prop := fb_address fb <= a < fb_address fb + fb_pitch fb * fb_height fb.

Lemma pixel_address_visible x y :
  visible x y →
  pixel_address fb x y = fb_address fb + fb_pitch fb * y + 4 * x ∧
  in_fb (pixel_address fb x y) ∧ in_fb (pixel_address fb x y + 3).
Proof.
  intros [Hx Hy]. destruct Hfb as [Ha Hw Hh Hp Hpw He]. unfold in_fb, pixel_address.
  assert (fb_pitch fb = 4 * (fb_pitch fb / 4)) as Hq by (Z.to_euclidean_division_equations; lia).
  set (q := fb_pitch fb / 4) in *. assert (y * q + q <= q * fb_height fb) by nia. assert (0 <= y * q) by nia.
  rewrite (u64_small (y * q)) by (unfold is_u64; nia). rewrite (u64_small (y * q + x)) by (unfold is_u64; nia).
  rewrite u64_small by (unfold is_u64; nia). rewrite Hq. split; [lia|]. split; nia.
Qed.

(** Different pixels do not share bytes. *)
Lemma pixel_address_disjoint x y x' y' :
  visible x y → visible x' y' → x ≠ x' ∨ y ≠ y' →
  pixel_address fb x y + 4 <= pixel_address fb x' y' ∨ pixel_address fb x' y' + 4 <= pixel_address fb x y.
Proof.
  intros Hv Hv' Hne. destruct (pixel_address_visible x y Hv) as [-> _]. destruct (pixel_address_visible x' y' Hv') as [-> _].
  destruct Hv, Hv', Hfb. destruct (Z.lt_trichotomy y y') as [Hy|[->|Hy]]; [left; nia| |right; nia]. lia.
Qed.

Lemma rd_store32_other a v m b : b < a ∨ a + 4 <= b → rd (store32 a v m) b = rd m b.
Proof. intros Hb. unfold store32. rewrite !rd_insert. by repeat (case_decide; [lia|]). Qed.

Lemma load_store_other a v m b : b + 4 <= a ∨ a + 4 <= b → load32 b (store32 a v m) = load32 b m.
Proof. intros Hb. unfold load32. by rewrite !rd_store32_other by lia. Qed.

Lemma load_store_same a v m : is_u32 v → load32 a (store32 a v m) = v.
Proof.
  intros Hv. unfold load32, store32. rewrite !rd_insert.
  repeat first [case_decide; [lia|] | case_decide; [|lia]].
  rewrite !Z.shiftr_div_pow2 by lia. change (2 ^ 8) with 256. change (2 ^ 16) with 65536. change (2 ^ 24) with 16777216.
  ulia.
Qed.

(** [m] is [m0] with the visible pixels of [P] painted in [color]. *)
Record painted (m0 : gmap Z Z) (color : Z) (P : Z → Z → Prop) m : Prop := {
  pt_in x y : visible x y → P x y → pixel m x y = color;
  pt_out x y : visible x y → ¬ P x y → pixel m x y = pixel m0 x y;
  pt_frame a : ¬ in_fb a → rd m a = rd m0 a;
}.

Lemma painted_nothing m color : painted m color (λ _ _, False) m.
Proof. by constructor. Qed.

Lemma painted_ext m0 color (P Q : Z → Z → Prop) m :
  (∀ x y, visible x y → P x y ↔ Q x y) → painted m0 color P m → painted m0 color Q m.
Proof.
  intros Hpq [Hin Hout Hfr]. constructor; [|intros x y Hv Hn; apply Hout; [done|by rewrite Hpq]|done].
  intros x y Hv HQ. apply Hin; [done|by apply Hpq].
Qed.

Lemma draw_pixel_painted m0 color P x y m :
  is_u32 color → 0 <= x → 0 <= y → painted m0 color P m →
  wp (draw_pixel fb x y color) (λ _, painted m0 color (λ a b, P a b ∨ (a = x ∧ b = y))) m.
Proof.
  intros Hc Hx Hy [Hin Hout Hfr]. unfold draw_pixel. destruct (_ && _)%bool eqn:Hg.
  - zbool. apply wp_modify. assert (visible x y) as Hv by (split; lia).
    destruct (pixel_address_visible x y Hv) as (_ & Hlo & Hhi). constructor.
    + intros a b Hvab [HP|[-> ->]]; [|by apply load_store_same].
      destruct (decide (a = x ∧ b = y)) as [[-> ->]|Hne]; [by apply load_store_same|].
      unfold pixel. rewrite load_store_other; [by apply Hin|]. apply pixel_address_disjoint; [done|done|lia].
    + intros a b Hvab Hn. unfold pixel. rewrite load_store_other; [apply Hout; [done|tauto]|].
      apply pixel_address_disjoint; [done|done|]. destruct (decide (a = x)); [right|by left]. intros ->. tauto.
    + intros a Ha. rewrite rd_store32_other; [by apply Hfr|]. unfold in_fb in *. lia.
  - apply wp_ret. apply painted_ext with P; [|done]. intros a b [Ha Hb]. split; [by left|]. intros [?|[-> ->]]; [done|].
    apply andb_false_iff in Hg as [?|?]; zbool; lia.
Qed.

(** A loop that paints. *)
Lemma painted_loop {A} (l : list A) (f : A → M (gmap Z Z) ()) m0 color P (R : A → Z → Z → Prop) m :
  painted m0 color P m →
  (∀ x m P, x ∈ l → painted m0 color P m → wp (f x) (λ _, painted m0 color (λ a b, P a b ∨ R x a b)) m) →
  wp (for_list l f) (λ _, painted m0 color (λ a b, P a b ∨ ∃ x, x ∈ l ∧ R x a b)) m.
Proof.
  intros HP Hf. eapply wp_mono; [apply (wp_for_list l f
    (λ done m, painted m0 color (λ a b, P a b ∨ ∃ x, x ∈ done ∧ R x a b) m))|].
  - eapply painted_ext; [|exact HP]. intros a b _. split; [by left|]. intros [?|(x & Hx & _)]; [done|]. by apply elem_of_nil in Hx.
  - intros dn x m' [tl ->] Hm'. eapply wp_mono; [apply Hf; [set_solver|exact Hm']|]. intros [] m'' Hm''.
    eapply painted_ext; [|exact Hm'']. intros a b _. split.
    + intros [[?|(x' & ? & ?)]|?]; [by left|right; exists x'; set_solver|right; exists x; set_solver].
    + intros [?|(x' & [?|Hx']%elem_of_app & ?)]; [by do 2 left|left; right; by exists x'|].
      apply list_elem_of_singleton in Hx'. subst. by right.
  - done.
Qed.

(** ** Drawing *)

Lemma draw_rect_painted x y width height color m :
  is_u32 color → 0 <= x → 0 <= y → x + width <= 4294967296 → y + height <= 4294967296 →
  wp (draw_rect fb x y width height color) (λ _, painted m color (λ a b, x <= a < x + width ∧ y <= b < y + height)) m.
Proof.
  intros Hc Hx Hy Hw Hh. unfold draw_rect. eapply wp_mono.
  - apply (painted_loop _ _ m color (λ _ _, False) (λ i a b, x <= a < x + width ∧ b = y + i)); [apply painted_nothing|].
    intros i m1 P Hi Hm1. apply elem_of_seqZ in Hi. eapply wp_mono.
    + apply (painted_loop _ _ m color P (λ j a b, a = x + j ∧ b = y + i)); [exact Hm1|].
      intros j m2 P' Hj Hm2. apply elem_of_seqZ in Hj. rewrite !u32_small by (unfold is_u32; lia).
      apply draw_pixel_painted; [done|lia|lia|done].
    + intros [] m2 Hm2. eapply painted_ext; [|exact Hm2]. intros a b _. split.
      * intros [?|(j & Hj%elem_of_seqZ & -> & ->)]; [by left|right; lia].
      * intros [?|[Ha ->]]; [by left|right]. exists (a - x). rewrite elem_of_seqZ. lia.
  - intros [] m1 Hm1. eapply painted_ext; [|exact Hm1]. intros a b _. split.
    + intros [[]|(i & Hi%elem_of_seqZ & ? & ->)]. lia.
    + intros [Ha Hb]. right. exists (b - y). rewrite elem_of_seqZ. lia.
Qed.

Lemma clear_screen_painted m :
  wp (clear_screen fb) (λ _, painted m 0 (λ _ _, True)) m.
Proof.
  unfold clear_screen. destruct Hfb as [_ Hw Hh _ _ _].
  rewrite (proj2 (Z.leb_gt _ _)), (proj2 (Z.leb_gt 4294967296 (fb_width fb))), andb_false_r by lia. cbn [orb].
  eapply wp_mono.
  - apply (painted_loop _ _ m 0 (λ _ _, False) (λ y a b, b = y)); [apply painted_nothing|].
    intros y m1 P Hy Hm1. apply elem_of_seqZ in Hy. eapply wp_mono.
    + apply (painted_loop _ _ m 0 P (λ x a b, a = x ∧ b = y)); [exact Hm1|]. intros x m2 P' Hx Hm2.
      apply elem_of_seqZ in Hx. by apply draw_pixel_painted; [|lia|lia|].
    + intros [] m2 Hm2. eapply painted_ext; [|exact Hm2]. intros a b [Ha Hb]. split.
      * intros [?|(j & _ & _ & ->)]; [by left|by right].
      * intros [?| ->]; [by left|right]. exists a. rewrite elem_of_seqZ. lia.
  - intros [] m1 Hm1. eapply painted_ext; [|exact Hm1]. intros a b [Ha Hb]. split; [done|].
    intros _. right. exists b. rewrite elem_of_seqZ. lia.
Qed.

Lemma draw_block_painted m0 x y color P m :
  is_u32 color → 0 <= x → 0 <= y → x + 1 < 4294967296 → y + 1 < 4294967296 → painted m0 color P m →
  wp (draw_block fb x y color) (λ _, painted m0 color (λ a b, P a b ∨ (x <= a <= x + 1 ∧ y <= b <= y + 1))) m.
Proof.
  intros Hc Hx Hy Hx1 Hy1 Hm. unfold draw_block. rewrite !u32_small by (unfold is_u32; lia).
  do 3 (apply wp_bind; eapply wp_mono; [apply draw_pixel_painted; [done|lia|lia|exact Hm]|clear m Hm; intros [] m Hm]).
  eapply wp_mono; [apply draw_pixel_painted; [done|lia|lia|exact Hm]|]. intros [] m' Hm'.
  eapply painted_ext; [|exact Hm']. intros a b _. split; [intros [[[[?|?]|?]|?]|?]; [by left|right; lia..]|].
  intros [?|?]; [tauto|]. assert (a = x ∨ a = x + 1) as [-> | ->] by lia; assert (b = y ∨ b = y + 1) as [-> | ->] by lia; tauto.
Qed.

(** The pixel in column [j] and row [i] of a character. *)
Definition glyph_bit (c i j : Z) : bool :=
  match index font c with
  | Some glyph => match index glyph i with Some row => Z.testbit row j | None => false end
  | None => false
  end.

Lemma font_rows c i : 0 <= c < 128 → 0 <= i < 8 →
  ∃ glyph row, index font c = Some glyph ∧ index glyph i = Some row ∧ ∀ j, glyph_bit c i j = Z.testbit row j.
Proof.
  intros Hc Hi. assert (Forall (λ g, length g = 8%nat) font) as Hf.
  { apply (bool_decide_unpack _). vm_compute. exact I. }
  assert (length font = 128%nat) as Hl by reflexivity.
  destruct (index_some font c) as [g Hg]; [lia|]. destruct (index_some g i) as [row Hr].
  { assert (length g = 8%nat) as ->; [|lia]. rewrite Forall_forall in Hf. apply Hf.
    unfold index in Hg. destruct (c <? 0); [done|]. by eapply list_elem_of_lookup_2. }
  exists g, row. split; [done|]. split; [done|]. intros j. unfold glyph_bit. by rewrite Hg, Hr.
Qed.

Lemma draw_char_painted c x y color m :
  is_u32 color → 0 <= c < 128 → 0 <= x → 0 <= y → x + 16 <= 4294967296 → y + 16 <= 4294967296 →
  wp (draw_char fb c x y color)
    (λ _, painted m color (λ a b, x <= a < x + 16 ∧ y <= b < y + 16 ∧ glyph_bit c ((b - y) / 2) ((a - x) / 2) = true)) m.
Proof.
  intros Hc Hch Hx Hy Hw Hh. unfold draw_char. rewrite (proj2 (Z.ltb_lt c 128)) by lia.
  set (R := λ i j a b, (x + 2 * j <= a <= x + 2 * j + 1 ∧ y + 2 * i <= b <= y + 2 * i + 1) ∧ glyph_bit c i j = true).
  eapply wp_mono.
  - apply (painted_loop _ _ m color (λ _ _, False) (λ i a b, ∃ j, 0 <= j < 8 ∧ R i j a b)); [apply painted_nothing|].
    intros i m1 P Hi Hm1. apply elem_of_seqZ in Hi. destruct (font_rows c i) as (glyph & row & Hg & Hr & Hbit); [lia|lia|].
    eapply wp_mono.
    + apply (painted_loop _ _ m color P (R i)); [exact Hm1|]. intros j m2 P' Hj Hm2. apply elem_of_seqZ in Hj.
      apply wp_bind. eapply wp_lift; [exact Hg|]. apply wp_bind. eapply wp_lift; [exact Hr|].
      rewrite land_bit_zero, negb_involutive, <- Hbit by lia. destruct (glyph_bit c i j) eqn:Hb.
      * rewrite !u32_small by (unfold is_u32; lia). eapply wp_mono.
        { apply (draw_block_painted m); [done|lia|lia|lia|lia|exact Hm2]. }
        intros [] m3 Hm3. eapply painted_ext; [|exact Hm3]. intros a b _. unfold R. split.
        { intros [?|?]; [by left|right]. split; [lia|done]. }
        intros [?|[? _]]; [by left|right; lia].
      * apply wp_ret. eapply painted_ext; [|exact Hm2]. intros a b _. split; [by left|]. intros [?|[_ ?]]; [done|congruence].
    + intros [] m2 Hm2. eapply painted_ext; [|exact Hm2]. intros a b _. split.
      * intros [?|(j & Hj%elem_of_seqZ & HR)]; [by left|right; exists j; split; [lia|done]].
      * intros [?|(j & Hj & HR)]; [by left|right; exists j]. by rewrite elem_of_seqZ.
  - intros [] m1 Hm1. eapply painted_ext; [|exact Hm1]. intros a b _. split.
    + intros [[]|(i & Hi%elem_of_seqZ & j & Hj & [? ?] & Hb)]. split; [lia|]. split; [lia|].
      assert ((b - y) / 2 = i) as -> by (Z.to_euclidean_division_equations; lia).
      by assert ((a - x) / 2 = j) as -> by (Z.to_euclidean_division_equations; lia).
    + intros (Ha & Hb & Hbit). right. exists ((b - y) / 2). rewrite elem_of_seqZ.
      split; [Z.to_euclidean_division_equations; lia|]. exists ((a - x) / 2).
      split; [Z.to_euclidean_division_equations; lia|]. split; [|done]. Z.to_euclidean_division_equations; lia.
Qed.
End pixels.

(** A character of the table that starts anywhere on the screen paints
    exactly the pixels of its glyph, each doubled in both directions, in the
    colour; every other pixel and every byte outside the frame buffer keep their
    value. *)
Theorem draw_char_correct fb c x y color m :
  fb_ok fb → is_u32 color → 0 <= c < 128 → visible fb x y →
  x + 16 <= 4294967296 → y + 16 <= 4294967296 →
  wp (draw_char fb c x y color)
    (λ _ m', ∀ a b, visible fb a b → pixel fb m' a b =
       (if bool_decide (x <= a < x + 16 ∧ y <= b < y + 16) && glyph_bit c ((b - y) / 2) ((a - x) / 2)
        then color else pixel fb m a b) ∧
       ∀ q, ¬ in_fb fb q → rd m' q = rd m q) m.
Proof.
  intros Hfb Hc Hch [Hx Hy] Hx' Hy'. eapply wp_mono; [apply draw_char_painted; [done|done|done|lia..]|].
  intros [] m' [Hin Hout Hfr] a b Hv. split; [|exact Hfr]. case_bool_decide as Hr; [destruct (glyph_bit _ _ _) eqn:Hb|]; cbn [andb].
  - apply Hin; [done|tauto].
  - apply Hout; [done|]. intros (_ & _ & ?). congruence.
  - apply Hout; [done|]. tauto.
Qed.

(** A byte above 127 is a negative [char]. *)
Lemma draw_char_negative fb c x y color m : -128 <= c < 0 → draw_char fb c x y color m = None.
Proof.
  intros Hc. unfold draw_char. rewrite (proj2 (Z.ltb_lt c 128)) by lia. cbn. unfold lift, index.
  by rewrite (proj2 (Z.ltb_lt c 0)) by lia.
Qed.

(** ** Witness *)

Definition demo_fb : framebuffer := mk_fb 1048576 32 16 128.

Lemma demo_fb_ok : fb_ok demo_fb.
Proof. constructor; vm_compute; repeat split; congruence. Qed.

(** An exclamation mark at the right edge. *)
Lemma draw_char_correct_witness :
  wp (draw_char demo_fb 33 20 2 WHITE)
    (λ _ m', ∀ a b, visible demo_fb a b → pixel demo_fb m' a b =
       (if bool_decide (20 <= a < 20 + 16 ∧ 2 <= b < 2 + 16) && glyph_bit 33 ((b - 2) / 2) ((a - 20) / 2)
        then WHITE else pixel demo_fb ∅ a b) ∧
       ∀ q, ¬ in_fb demo_fb q → rd m' q = rd ∅ q) ∅.
Proof. apply (draw_char_correct demo_fb 33 20 2 WHITE ∅ demo_fb_ok); unfold is_u32, visible, WHITE, demo_fb; cbn; lia. Defined.
