(* ===== verification/Tty.v ===== *)
(** * Terminals ([core/drivers/tty/tty.c])

    A [tty_sys] holds the eight devices, the frame-buffer memory and the I/O
    ports.  A [tty_device_t*] is the index of a device, NULL is [None]; the two
    function pointers of a device are values of [char_writer] and [char_reader],
    the wrappers of the file.  The global frame buffer is a section variable
    ([None] is NULL), [fuel] bounds the polls of the serial port for a
    character.  A [char] is signed. *)
From S2P Require Import Prelude Interfaces Monad Ring Str Serial Display.

Definition TIOCGWINSZ : Z := 21523.
Definition TIOCSWINSZ : Z := 21524.
Definition TTY_MAX_DEVICES : Z := 8.
Definition TTY_BUFFER_SIZE : Z := 4096.
Definition TTY_NAME_MAX : Z := 32.
Definition TTY_STATE_UNUSED : Z := 0.
Definition TTY_STATE_ACTIVE : Z := 1.
Definition TTY_FLAG_ECHO : Z := 1.
Definition TTY_FLAG_CANONICAL : Z := 2.

Record winsize := mk_winsize { ws_row : Z; ws_col : Z; ws_xpixel : Z; ws_ypixel : Z }.

Inductive char_writer := console_write_char | serial_write_wrapper.
Inductive char_reader := console_read_char | serial_read_wrapper.

(** A character queue: array, read position, write position, fill. *)
Record queue := mk_queue { q_buffer : list Z; q_head : Z; q_tail : Z; q_count : Z }.

Record tty_device_t := mk_tty {
  name : list Z; state : Z; flags : Z;
  input : queue; output : queue;
  rows : Z; cols : Z; cursor_x : Z; cursor_y : Z;
  write_char : option char_writer; read_char : option char_reader;
}.

Definition set_cursor (x y : Z) (t : tty_device_t) : tty_device_t :=
  mk_tty (name t) (state t) (flags t) (input t) (output t) (rows t) (cols t) x y (write_char t) (read_char t).
Definition set_size (r c : Z) (t : tty_device_t) : tty_device_t :=
  mk_tty (name t) (state t) (flags t) (input t) (output t) r c (cursor_x t) (cursor_y t) (write_char t) (read_char t).
Definition set_flags (f : Z) (t : tty_device_t) : tty_device_t :=
  mk_tty (name t) (state t) f (input t) (output t) (rows t) (cols t) (cursor_x t) (cursor_y t) (write_char t) (read_char t).
Definition set_callbacks (w : char_writer) (r : char_reader) (t : tty_device_t) : tty_device_t :=
  mk_tty (name t) (state t) (flags t) (input t) (output t) (rows t) (cols t) (cursor_x t) (cursor_y t) (Some w) (Some r).
Definition set_state (s : Z) (t : tty_device_t) : tty_device_t :=
  mk_tty (name t) s (flags t) (input t) (output t) (rows t) (cols t) (cursor_x t) (cursor_y t) (write_char t) (read_char t).
Definition set_name (n : list Z) (t : tty_device_t) : tty_device_t :=
  mk_tty n (state t) (flags t) (input t) (output t) (rows t) (cols t) (cursor_x t) (cursor_y t) (write_char t) (read_char t).
Definition set_input (q : queue) (t : tty_device_t) : tty_device_t :=
  mk_tty (name t) (state t) (flags t) q (output t) (rows t) (cols t) (cursor_x t) (cursor_y t) (write_char t) (read_char t).
Definition set_output (q : queue) (t : tty_device_t) : tty_device_t :=
  mk_tty (name t) (state t) (flags t) (input t) q (rows t) (cols t) (cursor_x t) (cursor_y t) (write_char t) (read_char t).

(** [memset(tty, 0, sizeof(tty_device_t))] *)
Definition empty_buffer : list Z := replicate (Z.to_nat TTY_BUFFER_SIZE) 0.
Definition zero_queue : queue := mk_queue empty_buffer 0 0 0.
Definition zero_tty : tty_device_t := mk_tty (replicate (Z.to_nat TTY_NAME_MAX) 0) 0 0 zero_queue zero_queue 0 0 0 0 None None.

(** [tty_input_putc] and [tty_output_putc], [tty_input_getc] and
    [tty_output_getc] are the same operation on two queues. *)
Definition queue_putc (c : Z) (q : queue) : queue :=
  if TTY_BUFFER_SIZE <=? q_count q then q else
  mk_queue (aset (q_buffer q) (q_tail q) c) (q_head q) ((q_tail q + 1) mod TTY_BUFFER_SIZE) (q_count q + 1).
Definition queue_getc (q : queue) : Z * queue :=
  if q_count q =? 0 then (0, q) else
  (aget (q_buffer q) (q_head q),
   mk_queue (q_buffer q) ((q_head q + 1) mod TTY_BUFFER_SIZE) (q_tail q) (q_count q - 1)).
(** [memset(tty->input_buffer, 0, TTY_BUFFER_SIZE)]: positions and fill stay. *)
Definition queue_clear (q : queue) : queue := mk_queue empty_buffer (q_head q) (q_tail q) (q_count q).

Record tty_sys (W : Type) := mk_sys {
  tty_devices : list tty_device_t; tty_count : Z; t_mem : gmap Z Z; t_world : W;
}.
Arguments mk_sys {_}.
Arguments tty_devices {_}.
Arguments tty_count {_}.
Arguments t_mem {_}.
Arguments t_world {_}.

Section tty.
Context {W : Type} `{!Ports W}.
Context (global_framebuffer : option framebuffer) (fuel : nat).

Abbreviation M A := (M (tty_sys W) A).

Definition on_mem {A} (m : Monad.M (gmap Z Z) A) : M A := λ s,
  match m (t_mem s) with
  | Some (x, mem) => Some (x, mk_sys (tty_devices s) (tty_count s) mem (t_world s))
  | None => None
  end.
Definition on_world {A} (m : Monad.M W A) : M A := λ s,
  match m (t_world s) with
  | Some (x, w) => Some (x, mk_sys (tty_devices s) (tty_count s) (t_mem s) w)
  | None => None
  end.

(** [*tty] and an assignment to it. *)
Definition this (tty : nat) : M tty_device_t := λ s, t ← tty_devices s !! tty; Some (t, s).
Definition upd (tty : nat) (f : tty_device_t → tty_device_t) : M () := λ s,
  t ← tty_devices s !! tty;
  Some ((), mk_sys (<[tty := f t]> (tty_devices s)) (tty_count s) (t_mem s) (t_world s)).

(** ** The wrapper functions *)

(** The place on the screen depends on the character. *)
Definition run_writer (f : char_writer) (c : Z) : M () :=
  match f with
  | console_write_char =>
      fb ← lift global_framebuffer;
      on_mem (draw_char fb c (u32 (fb_width fb / 8 * u64 (Z.rem c 80)))
                             (u32 (fb_height fb / 16 * u64 (Z.rem (Z.quot c 80) 25))) WHITE)
  | serial_write_wrapper => on_world (serial_write_char fuel COM1 c)
  end.

Definition run_reader (f : char_reader) : M Z :=
  match f with
  | console_read_char => on_world (serial_read_char fuel COM1)
  | serial_read_wrapper => on_world (serial_read_char fuel COM1)
  end.

(** ** Terminal operations *)

Definition tty_clear (tty : option nat) : M () :=
  match tty with
  | None => mret ()
  | Some tty =>
      match global_framebuffer with Some fb => on_mem (clear_screen fb) | None => mret () end;;
      upd tty (set_cursor 0 0)
  end.

Definition tty_set_cursor (tty : option nat) (x y : Z) : M () :=
  match tty with
  | None => mret ()
  | Some tty =>
      upd tty (λ t, set_cursor (if x <? cols t then x else cursor_x t) (if y <? rows t then y else cursor_y t) t)
  end.

Definition tty_scroll (tty : option nat) (lines : Z) : M () :=
  match tty with
  | None => mret ()
  | Some _ =>
      if lines <=? 0 then mret () else
      match global_framebuffer with
      | None => mret ()
      | Some fb =>
          let scroll_size := u32 (lines * 16) in
          if scroll_size <? fb_height fb then
            let moved := u64 ((fb_height fb - scroll_size) * fb_pitch fb) in
            let gap := u64 (scroll_size * fb_pitch fb) in
            on_mem (modify (memmove (fb_address fb) (u64 (fb_address fb + gap)) moved));;
            on_mem (modify (memset (u64 (fb_address fb + moved)) 0 gap))
          else mret ()
      end
  end.

(** [seq] up to its first NUL. *)
Definition tty_process_escape_sequence (tty : option nat) (seq : option (list Z)) : M () :=
  match tty, seq with
  | Some tty, Some seq =>
      if deref seq =? 91 then
        cmd ← lift (last seq);
        if cmd =? 72 then tty_set_cursor (Some tty) 0 0
        else if cmd =? 74 then (if deref (drop 1 seq) =? 50 then tty_clear (Some tty) else mret ())
        else if cmd =? 65 then upd tty (λ t, set_cursor (cursor_x t) (if 0 <? cursor_y t then cursor_y t - 1 else cursor_y t) t)
        else if cmd =? 66 then
          upd tty (λ t, set_cursor (cursor_x t) (if cursor_y t <? u32 (rows t - 1) then u32 (cursor_y t + 1) else cursor_y t) t)
        else if cmd =? 67 then
          upd tty (λ t, set_cursor (if cursor_x t <? u32 (cols t - 1) then u32 (cursor_x t + 1) else cursor_x t) (cursor_y t) t)
        else if cmd =? 68 then upd tty (λ t, set_cursor (if 0 <? cursor_x t then cursor_x t - 1 else cursor_x t) (cursor_y t) t)
        else mret ()
      else mret ()
  | _, _ => mret ()
  end.

(** ** Writing *)

(** A new row, at the bottom by scrolling. *)
Definition next_row (tty : nat) : M () :=
  upd tty (λ t, set_cursor 0 (u32 (cursor_y t + 1)) t);;
  t ← this tty;
  if rows t <=? cursor_y t then
    tty_scroll (Some tty) 1;;
    upd tty (λ t, set_cursor (cursor_x t) (u32 (rows t - 1)) t)
  else mret ().

(** [seq_len] characters up to the next escape character or the end. *)
Fixpoint escape_seq (rest : list Z) : list Z :=
  match rest with [] => [] | c :: rest => if c =? 27 then [] else c :: escape_seq rest end.

(** The characters before the first NUL. *)
Fixpoint c_string (l : list Z) : list Z :=
  match l with [] => [] | c :: l => if c =? 0 then [] else c :: c_string l end.

Definition SEQ_SIZE : nat := 32.

(** Any other character: written, and the cursor moves on. *)
Definition put_regular (tty : nat) (c written : Z) : M Z :=
  t ← this tty;
  written ← match write_char t with
            | Some f => run_writer f c;; mret (written + 1)
            | None => mret written
            end;
  upd tty (λ t, set_cursor (u32 (cursor_x t + 1)) (cursor_y t) t);;
  t ← this tty;
  (if cols t <=? cursor_x t then next_row tty else mret ());;
  mret written.

(** The loop of [tty_write] on the characters [buf[i .. count-1]]; [n] bounds the
    iterations, of which there are at most [count]. *)
Fixpoint write_loop (n : nat) (tty : nat) (rest : list Z) (written : Z) : M Z :=
  match n with
  | O => fault
  | S n =>
      match rest with
      | [] => mret written
      | c :: rest =>
          if c =? 10 then next_row tty;; write_loop n tty rest written
          else if c =? 13 then upd tty (λ t, set_cursor 0 (cursor_y t) t);; write_loop n tty rest written
          else if c =? 8 then
            upd tty (λ t, set_cursor (if 0 <? cursor_x t then cursor_x t - 1 else cursor_x t) (cursor_y t) t);;
            write_loop n tty rest written
          else if c =? 9 then
            upd tty (λ t, set_cursor (Z.land (u32 (cursor_x t + 8)) 4294967288) (cursor_y t) t);;
            write_loop n tty rest written
          else if c =? 27 then
            let seq := escape_seq rest in
            match seq with
            | [] => write_loop n tty rest written
            | _ =>
                if (SEQ_SIZE <=? length seq)%nat then fault else
                tty_process_escape_sequence (Some tty) (Some (c_string seq));;
                write_loop n tty (drop (length seq) rest) written
            end
          else written ← put_regular tty c written; write_loop n tty rest written
      end
  end.

(** [buf] with its [count] characters, NULL is [None]. *)
Definition tty_write (tty : option nat) (buf : option (list Z)) : M Z :=
  match tty, buf with
  | Some tty, Some buf =>
      t ← this tty;
      if negb (state t =? TTY_STATE_ACTIVE) then mret (-1) else
      written ← write_loop (S (length buf)) tty buf 0;
      mret (s32 written)
  | _, _ => mret (-1)
  end.

(** ** The queues *)

Definition tty_input_putc (tty : option nat) (c : Z) : M () :=
  match tty with None => mret () | Some tty => upd tty (λ t, set_input (queue_putc c (input t)) t) end.

Definition tty_input_getc (tty : option nat) : M Z :=
  match tty with
  | None => mret 0
  | Some tty =>
      t ← this tty;
      let '(c, q) := queue_getc (input t) in
      upd tty (set_input q);; mret c
  end.

Definition tty_output_putc (tty : option nat) (c : Z) : M () :=
  match tty with None => mret () | Some tty => upd tty (λ t, set_output (queue_putc c (output t)) t) end.

Definition tty_output_getc (tty : option nat) : M Z :=
  match tty with
  | None => mret 0
  | Some tty =>
      t ← this tty;
      let '(c, q) := queue_getc (output t) in
      upd tty (set_output q);; mret c
  end.

(** ** Reading *)

(** At most [n] characters up to a line break, or up to a NUL, which is what a
    missing [read_char] gives. *)
Fixpoint read_line (n : nat) (tty : nat) (buf : list Z) : M (list Z) :=
  match n with
  | O => mret buf
  | S n =>
      t ← this tty;
      c ← match read_char t with Some f => run_reader f | None => mret 0 end;
      if c =? 0 then mret buf else
      (if negb (Z.land (flags t) TTY_FLAG_ECHO =? 0)
       then match write_char t with Some f => run_writer f c | None => mret () end
       else mret ());;
      if c =? 10 then mret (buf ++ [c]) else read_line n tty (buf ++ [c])
  end.

Fixpoint read_raw (n : nat) (tty : nat) (buf : list Z) : M (list Z) :=
  match n with
  | O => mret buf
  | S n =>
      t ← this tty;
      if 0 <? q_count (input t) then c ← tty_input_getc (Some tty); read_raw n tty (buf ++ [c]) else mret buf
  end.

(** The answer and the characters put into [buf]; [buf] tells whether the
    pointer is not NULL. *)
Definition tty_read (tty : option nat) (buf : bool) (count : Z) : M (Z * list Z) :=
  match tty, buf with
  | Some tty, true =>
      t ← this tty;
      if negb (state t =? TTY_STATE_ACTIVE) then mret (-1, []) else
      data ← (if negb (Z.land (flags t) TTY_FLAG_CANONICAL =? 0) then read_line (Z.to_nat count) tty []
              else read_raw (Z.to_nat count) tty []);
      mret (s32 (Z.of_nat (length data)), data)
  | _, _ => mret (-1, [])
  end.

(** The answer and the window size behind [arg], NULL is [None]. *)
Definition tty_ioctl (tty : option nat) (cmd : Z) (arg : option winsize) : M (Z * option winsize) :=
  match tty with
  | None => mret (-1, arg)
  | Some tty =>
      if cmd =? TIOCGWINSZ then
        match arg with
        | Some _ =>
            t ← this tty;
            fb ← lift global_framebuffer;
            mret (0, Some (mk_winsize (u16 (rows t)) (u16 (cols t)) (u16 (fb_width fb)) (u16 (fb_height fb))))
        | None => mret (-1, arg)
        end
      else if cmd =? TIOCSWINSZ then
        match arg with
        | Some ws => upd tty (set_size (ws_row ws) (ws_col ws));; mret (0, arg)
        | None => mret (-1, arg)
        end
      else mret (-1, arg)
  end.

(** ** Creation *)

Definition tty_create (nm : list Z) : M (option nat) := λ s,
  if TTY_MAX_DEVICES <=? tty_count s then Some (None, s) else
  let i := Z.to_nat (tty_count s) in
  let t := set_state TTY_STATE_ACTIVE (set_name (strncpy (name zero_tty) nm (TTY_NAME_MAX - 1)) zero_tty) in
  Some (Some i, mk_sys (<[i := t]> (tty_devices s)) (tty_count s + 1) (t_mem s) (t_world s)).

Definition tty_destroy (tty : option nat) : M () :=
  match tty with
  | None => mret ()
  | Some tty =>
      upd tty (λ t, set_state TTY_STATE_UNUSED (set_output (queue_clear (output t)) (set_input (queue_clear (input t)) t)))
  end.

Definition tty_init : M () :=
  modify (λ s, mk_sys (replicate (Z.to_nat TTY_MAX_DEVICES) zero_tty) 0 (t_mem s) (t_world s));;
  console ← tty_create [99; 111; 110; 115; 111; 108; 101];   (* "console" *)
  match console with
  | Some tty =>
      fb ← lift global_framebuffer;
      upd tty (set_size (u32 (fb_height fb / 16)) (u32 (fb_width fb / 8)));;
      upd tty (set_flags (Z.lor TTY_FLAG_ECHO TTY_FLAG_CANONICAL));;
      upd tty (set_callbacks console_write_char console_read_char)
  | None => mret ()
  end;;
  serial ← tty_create [116; 116; 121; 83; 48];   (* "ttyS0" *)
  match serial with
  | Some tty =>
      upd tty (set_size 25 80);;
      upd tty (set_flags (Z.lor TTY_FLAG_ECHO TTY_FLAG_CANONICAL));;
      upd tty (set_callbacks serial_write_wrapper serial_read_wrapper)
  | None => mret ()
  end.
End tty.

(** ** The queues are first-in first-out *)

Record queue_ok (q : queue) : Prop := {
  qk_length : Z.of_nat (length (q_buffer q)) = TTY_BUFFER_SIZE;
  qk_head : 0 <= q_head q < TTY_BUFFER_SIZE;
  qk_count : 0 <= q_count q <= TTY_BUFFER_SIZE;
  qk_tail : q_tail q = (q_head q + q_count q) mod TTY_BUFFER_SIZE;
}.
Definition queue_contents (q : queue) : list Z := ring_contents (q_buffer q) TTY_BUFFER_SIZE (q_head q) (q_count q).

Lemma queue_contents_length q : queue_ok q → Z.of_nat (length (queue_contents q)) = q_count q.
Proof. intros [_ _ Hc _]. apply ring_contents_length. lia. Qed.

Lemma queue_putc_spec c q :
  queue_ok q →
  queue_ok (queue_putc c q) ∧
  queue_contents (queue_putc c q) =
    if q_count q <? TTY_BUFFER_SIZE then queue_contents q ++ [c] else queue_contents q.
Proof.
  intros Hq. unfold queue_putc. destruct (TTY_BUFFER_SIZE <=? q_count q) eqn:Hf; zbool.
  { by rewrite (proj2 (Z.ltb_ge _ _)) by lia. }
  rewrite (proj2 (Z.ltb_lt _ _)) by lia. destruct Hq as [Hl Hh Hc Ht]. split.
  - constructor; cbn; [by rewrite length_aset|done|lia|]. rewrite Ht. apply ring_pos_succ. unfold TTY_BUFFER_SIZE. lia.
  - unfold queue_contents. cbn. rewrite Ht. apply ring_put; [done|done|lia].
Qed.

Lemma queue_getc_spec q :
  queue_ok q →
  queue_ok (queue_getc q).2 ∧
  match queue_contents q with
  | [] => queue_getc q = (0, q)
  | c :: l => (queue_getc q).1 = c ∧ queue_contents (queue_getc q).2 = l
  end.
Proof.
  intros Hq. unfold queue_getc. pose proof (queue_contents_length q Hq) as Hlen. destruct (q_count q =? 0) eqn:Hz; zbool.
  { split; [done|]. destruct (queue_contents q); [done|]. simpl in Hlen. lia. }
  destruct Hq as [Hl Hh Hc Ht]. assert (0 < TTY_BUFFER_SIZE) as Hb by (unfold TTY_BUFFER_SIZE; lia). split.
  - constructor; cbn; [done|apply Z.mod_pos_bound; lia|lia|]. rewrite Ht. symmetry. by apply ring_pos_shift.
  - unfold queue_contents in *. rewrite ring_get by lia. done.
Qed.

(** ** Steps *)

Section steps.
Context {W : Type} `{!Ports W}.
Implicit Types s : tty_sys W.

Lemma wp_this i t (Q : tty_device_t → tty_sys W → Prop) s : tty_devices s !! i = Some t → Q t s → wp (this i) Q s.
Proof. intros Ht HQ. unfold wp, this. by rewrite Ht. Qed.

Lemma wp_upd i f t (Q : () → tty_sys W → Prop) s :
  tty_devices s !! i = Some t →
  Q () (mk_sys (<[i := f t]> (tty_devices s)) (tty_count s) (t_mem s) (t_world s)) → wp (upd i f) Q s.
Proof. intros Ht HQ. unfold wp, upd. by rewrite Ht. Qed.

Lemma wp_on_mem {A} (m : M (gmap Z Z) A) (Q : A → tty_sys W → Prop) s :
  wp m (λ x mem, Q x (mk_sys (tty_devices s) (tty_count s) mem (t_world s))) (t_mem s) → wp (on_mem m) Q s.
Proof. unfold wp, on_mem. by destruct (m (t_mem s)) as [[x mem]|]. Qed.

Lemma wp_on_world {A} (m : M W A) (Q : A → tty_sys W → Prop) s :
  wp m (λ x w, Q x (mk_sys (tty_devices s) (tty_count s) (t_mem s) w)) (t_world s) → wp (on_world m) Q s.
Proof. unfold wp, on_world. by destruct (m (t_world s)) as [[x w]|]. Qed.

(** Reading a device in raw mode takes characters from the front of its queue. *)
Lemma wp_read_raw n i : ∀ t buf s,
  tty_devices s !! i = Some t → queue_ok (input t) →
  wp (read_raw n i buf) (λ data s', data = buf ++ take n (queue_contents (input t)) ∧
    ∃ q, queue_ok q ∧ queue_contents q = drop n (queue_contents (input t)) ∧
      s' = mk_sys (<[i := set_input q t]> (tty_devices s)) (tty_count s) (t_mem s) (t_world s)) s.
Proof.
  assert (∀ (t : tty_device_t) s, tty_devices s !! i = Some t →
    s = mk_sys (<[i := set_input (input t) t]> (tty_devices s)) (tty_count s) (t_mem s) (t_world s)) as Hsame.
  { intros t [ds n' m w] Ht. cbn in *. f_equal. symmetry. destruct t. by apply list_insert_id. }
  induction n as [|n IH]; intros t buf s Ht Hq; cbn [read_raw].
  { apply wp_ret. rewrite take_0, drop_0, app_nil_r. split; [done|]. exists (input t). auto. }
  apply wp_bind, (wp_this i t); [done|]. pose proof (queue_contents_length _ Hq) as Hlen.
  destruct (queue_getc_spec _ Hq) as [Hq' Hget]. destruct (0 <? q_count (input t)) eqn:Hc; zbool.
  - destruct (queue_contents (input t)) as [|c l] eqn:Hcont; [simpl in Hlen; lia|]. destruct Hget as [Hc1 Hl].
    apply wp_bind. unfold tty_input_getc. apply wp_bind, (wp_this i t); [done|].
    destruct (queue_getc (input t)) as [c' q]. cbn [fst snd] in *. subst c' l.
    apply wp_bind, (wp_upd i _ t); [done|]. apply wp_ret.
    eapply wp_mono; [apply (IH (set_input q t))|].
    + cbn. apply list_lookup_insert_eq. by eapply lookup_lt_Some.
    + done.
    + intros data s' (-> & q' & Hok & Hq2 & ->). split; [by rewrite <- app_assoc|]. exists q'. split; [done|]. split; [done|].
      cbn. by rewrite list_insert_insert_eq.
  - apply wp_ret. destruct (queue_contents (input t)) as [|c l] eqn:Hcont; [|simpl in Hlen; lia].
    rewrite take_nil, drop_nil, app_nil_r. split; [done|]. exists (input t). auto.
Qed.
End steps.

(** ** The serial terminal *)

(** What a text shows: its characters before the first escape character that
    are not among the four control characters. *)
Definition regular (c : Z) : bool := negb ((c =? 10) || (c =? 13) || (c =? 8) || (c =? 9)).
Definition shown (text : list Z) : list Z := List.filter regular (escape_seq text).

(** Every escape sequence fits into its buffer. *)
Definition short_escapes (text : list Z) : Prop :=
  ∀ a b, text = a ++ 27 :: b → (length (escape_seq b) < SEQ_SIZE)%nat.

Lemma short_escapes_app a b : short_escapes (a ++ b) → short_escapes b.
Proof. intros Hs x y ->. apply (Hs (a ++ x)). by rewrite app_assoc. Qed.

Lemma short_escapes_nil : short_escapes [].
Proof. intros [|? ?] b; discriminate. Qed.

Lemma short_escapes_cons c l : (length (escape_seq l) < SEQ_SIZE)%nat → short_escapes l → short_escapes (c :: l).
Proof. intros Hl Hs [|x a] b Hab; [by injection Hab as _ <-|]. injection Hab as _ Hab. by apply (Hs a). Qed.

Lemma escape_seq_rest rest : shown (drop (length (escape_seq rest)) rest) = [].
Proof.
  induction rest as [|c rest IH]; [done|]. cbn [escape_seq]. destruct (c =? 27) eqn:Hc; [|done].
  cbn [length drop]. unfold shown. cbn [escape_seq]. by rewrite Hc.
Qed.

Lemma escape_seq_nil rest : escape_seq rest = [] → shown rest = [].
Proof. intros Hn. unfold shown. by rewrite Hn. Qed.

Lemma shown_cons c rest : (c =? 27) = false → shown (c :: rest) = if regular c then c :: shown rest else shown rest.
Proof. intros Hc. unfold shown. cbn [escape_seq]. rewrite Hc. cbn [List.filter]. by destruct (regular c). Qed.

Section serial_tty.
Context {W : Type} `{HP : !Ports W, !SerialPort W}.
Context (fb : option framebuffer) (fuel : nat) (i : nat) (r c : Z) (tabs : bool).
Context (Hfb : match fb with Some fb => fb_ok fb | None => True end) (Hfuel : (0 < fuel)%nat).
Context (Hr : 0 < r < 4294967296) (Hc : 0 < c < 4294967296).
Implicit Types s : tty_sys W.

(** A serial device with [r] rows and [c] columns and its cursor in the window;
    where tabulators are used the cursor may be right of it. *)
Record dev_ok (t : tty_device_t) : Prop := {
  dk_write : write_char t = Some serial_write_wrapper;
  dk_size : rows t = r ∧ cols t = c;
  dk_y : 0 <= cursor_y t < r;
  dk_x : 0 <= cursor_x t < 4294967296 ∧ (tabs = false → cursor_x t < c);
}.

(** Device [i] is such a device, and the port has sent [out]. *)
Record serial_ok (out : list Z) s : Prop := {
  sk_dev : ∃ t, tty_devices s !! i = Some t ∧ dev_ok t;
  sk_ok : sp_ok (t_world s);
  sk_sent : sp_sent (t_world s) = out;
}.

Lemma dev_ok_cursor t x y :
  dev_ok t → 0 <= y < r → 0 <= x < 4294967296 → (tabs = false → x < c) → dev_ok (set_cursor x y t).
Proof. intros [Hw Hs _ _] Hy Hx Hxt. by constructor. Qed.

Lemma serial_ok_upd out s t f mem :
  serial_ok out s → tty_devices s !! i = Some t → dev_ok (f t) →
  serial_ok out (mk_sys (<[i := f t]> (tty_devices s)) (tty_count s) mem (t_world s)).
Proof.
  intros [_ Hok Hs] Ht Hf. constructor; [|done|done]. exists (f t). split; [|done].
  apply list_lookup_insert_eq. by eapply lookup_lt_Some.
Qed.

Lemma wp_cursor out s (f : tty_device_t → tty_device_t) :
  serial_ok out s → (∀ t, dev_ok t → dev_ok (f t)) → wp (upd i f) (λ _, serial_ok out) s.
Proof.
  intros Hs Hf. pose proof Hs as [(t & Ht & Hd) _ _]. apply (wp_upd i f t); [done|]. apply serial_ok_upd; auto.
Qed.

Lemma wp_scroll s lines (Q : () → tty_sys W → Prop) :
  (∀ mem, Q () (mk_sys (tty_devices s) (tty_count s) mem (t_world s))) → wp (tty_scroll fb (Some i) lines) Q s.
Proof.
  intros HQ. assert (Q () s) as Hs by (destruct s as [ds n mem w]; apply (HQ mem)). unfold tty_scroll. destruct (lines <=? 0); [done|].
  destruct fb as [f|]; [|done]. destruct (_ <? _); [|done]. apply wp_bind, wp_on_mem, wp_modify, wp_on_mem, wp_modify, HQ.
Qed.

(** A line break, or the end of a row. *)
Lemma wp_next_row out s :
  sp_ok (t_world s) → sp_sent (t_world s) = out →
  (∃ t, tty_devices s !! i = Some t ∧ write_char t = Some serial_write_wrapper ∧ (rows t = r ∧ cols t = c) ∧ 0 <= cursor_y t < r) →
  wp (next_row fb i) (λ _, serial_ok out) s.
Proof.
  intros Hok Hs (t & Ht & Hw & Hsz & Hy). unfold next_row. apply wp_bind, (wp_upd i _ t); [done|].
  assert (Hi : (i < length (tty_devices s))%nat) by (by eapply lookup_lt_Some).
  set (t1 := set_cursor _ _ t). apply wp_bind, (wp_this i t1); [by apply list_lookup_insert_eq|].
  destruct Hsz as [Hrw Hcl]. cbn [t1 rows cursor_y set_cursor]. rewrite Hrw, u32_small by (unfold is_u32; lia).
  destruct (r <=? cursor_y t + 1) eqn:Hlast; zbool.
  - apply wp_bind, wp_scroll. intros mem. apply (wp_upd i _ t1); [by apply list_lookup_insert_eq|].
    constructor; [|done|done]. eexists. split; [by apply list_lookup_insert_eq; cbn; rewrite length_insert|].
    constructor; cbn; [done|done|rewrite Hrw, u32_small by (unfold is_u32; lia); lia|lia].
  - apply wp_ret. constructor; [|done|done]. eexists. split; [by apply list_lookup_insert_eq|].
    constructor; cbn; [done|done|rewrite u32_small by (unfold is_u32; lia); lia|lia].
Qed.

Lemma wp_put_regular out s ch written :
  serial_ok out s → wp (put_regular fb fuel i ch written) (λ w s', w = written + 1 ∧ serial_ok (out ++ [u8 ch]) s') s.
Proof.
  intros [(t & Ht & Hd) Hok Hs]. pose proof Hd as [Hw [Hrw Hcl] Hy Hx]. unfold put_regular.
  assert (Hi : (i < length (tty_devices s))%nat) by (by eapply lookup_lt_Some).
  apply wp_bind, (wp_this i t); [done|]. rewrite Hw. cbn [run_writer].
  apply wp_bind, wp_bind, wp_on_world, wp_serial_write_char; [done|done|]. intros w' Hok' Hs'. apply wp_ret.
  apply wp_bind, (wp_upd i _ t); [done|]. cbn [tty_devices tty_count t_mem t_world].
  set (t1 := set_cursor _ _ t). apply wp_bind, (wp_this i t1); [by apply list_lookup_insert_eq|]. apply wp_bind.
  cbn [t1 cols cursor_x set_cursor]. rewrite Hcl. destruct (c <=? u32 (cursor_x t + 1)) eqn:Hend; zbool.
  - eapply wp_mono; [apply (wp_next_row (out ++ [u8 ch])); [done|cbn; by rewrite Hs', Hs|]|].
    + exists t1. split; [by apply list_lookup_insert_eq|done].
    + intros [] s' Hs2. apply wp_ret. split; [done|exact Hs2].
  - apply wp_ret, wp_ret. split; [done|]. constructor; [|done|cbn; by rewrite Hs', Hs]. exists t1.
    split; [by apply list_lookup_insert_eq|]. apply dev_ok_cursor; [done|done|ulia|lia].
Qed.

Lemma wp_escape out s seq :
  serial_ok out s → wp (tty_process_escape_sequence fb (Some i) (Some seq)) (λ _, serial_ok out) s.
Proof.
  intros Hs. unfold tty_process_escape_sequence. destruct (deref seq =? 91) eqn:Hb; [|done].
  destruct (last seq) as [cmd|] eqn:Hl; [|by apply last_None in Hl; subst].
  apply wp_bind. eapply wp_lift; [done|].
  assert (∀ g h : tty_device_t → Z, (∀ t, dev_ok t → 0 <= h t < r ∧ 0 <= g t < 4294967296 ∧ (tabs = false → g t < c)) →
    wp (upd i (λ t, set_cursor (g t) (h t) t)) (λ _, serial_ok out) s) as Hupd.
  { intros g h Hgh. apply wp_cursor; [done|]. intros t Ht. destruct (Hgh t Ht) as (? & ? & ?). by apply dev_ok_cursor. }
  destruct (cmd =? 72). { apply Hupd. intros t [_ [-> ->] ? [? ?]]. rewrite !(proj2 (Z.ltb_lt 0 _)) by lia. lia. }
  destruct (cmd =? 74).
  { destruct (deref (drop 1 seq) =? 50); [|done]. unfold tty_clear. apply wp_bind. destruct fb as [f|].
    - eapply wp_on_mem, wp_mono; [by apply clear_screen_painted|]. intros [] mem _.
      apply wp_cursor; [by destruct Hs|]. intros t Ht. apply dev_ok_cursor; [done|lia..].
    - apply wp_ret, wp_cursor; [done|]. intros t Ht. apply dev_ok_cursor; [done|lia..]. }
  destruct (cmd =? 65).
  { apply (Hupd cursor_x (λ t, if 0 <? cursor_y t then cursor_y t - 1 else cursor_y t)). intros t [_ _ ? [? ?]]. destruct (0 <? cursor_y t) eqn:?; zbool; naive_solver lia. }
  destruct (cmd =? 66).
  { apply (Hupd cursor_x (λ t, if cursor_y t <? u32 (rows t - 1) then u32 (cursor_y t + 1) else cursor_y t)). intros t [_ [-> _] ? [? ?]].
    rewrite (u32_small (r - 1)) by (unfold is_u32; lia). destruct (cursor_y t <? r - 1) eqn:?; zbool; [rewrite u32_small by (unfold is_u32; lia)|]; naive_solver lia. }
  destruct (cmd =? 67).
  { apply (Hupd (λ t, if cursor_x t <? u32 (cols t - 1) then u32 (cursor_x t + 1) else cursor_x t) cursor_y). intros t [_ [_ ->] ? [? ?]].
    rewrite (u32_small (c - 1)) by (unfold is_u32; lia). destruct (cursor_x t <? c - 1) eqn:?; zbool; [rewrite u32_small by (unfold is_u32; lia)|]; naive_solver lia. }
  destruct (cmd =? 68); [|done].
  apply (Hupd (λ t, if 0 <? cursor_x t then cursor_x t - 1 else cursor_x t) cursor_y). intros t [_ _ ? [? ?]]. destruct (0 <? cursor_x t) eqn:?; zbool; naive_solver lia.
Qed.

Lemma wp_write_loop n : ∀ rest written out s,
  (length rest < n)%nat → short_escapes rest → (tabs = false → 9 ∉ rest) → serial_ok out s →
  wp (write_loop fb fuel n i rest written)
    (λ w s', w = written + Z.of_nat (length (shown rest)) ∧ serial_ok (out ++ (u8 <$> shown rest)) s') s.
Proof.
  induction n as [|n IH]; intros rest written out s Hn Hsh Htabs Hs; [lia|]. cbn [write_loop].
  destruct rest as [|ch rest]; [apply wp_ret; split; [cbn; lia|by rewrite app_nil_r]|].
  assert (short_escapes rest) as Hsh' by (by apply (short_escapes_app [ch])).
  assert (tabs = false → 9 ∉ rest) as Htabs' by (intros Hf Hin; apply (Htabs Hf); set_solver).
  assert (length rest < n)%nat as Hn' by (simpl in Hn; lia).
  assert (∀ m : M (tty_sys W) (), (ch =? 27) = false → regular ch = false → wp m (λ _, serial_ok out) s →
    wp (m ;; write_loop fb fuel n i rest written)
      (λ w s', w = written + Z.of_nat (length (shown (ch :: rest))) ∧ serial_ok (out ++ (u8 <$> shown (ch :: rest))) s') s) as Hctl.
  { intros m Hch Hreg Hm. rewrite shown_cons, Hreg by done. apply wp_bind. eapply wp_mono; [exact Hm|].
    intros [] s' Hs'. by apply IH. }
  destruct (ch =? 10) eqn:H10.
  { apply Hctl; [lia|unfold regular; by rewrite H10|]. destruct Hs as [(t & Ht & [? ? ? ?]) ? ?]. apply wp_next_row; eauto. }
  destruct (ch =? 13) eqn:H13.
  { apply Hctl; [lia|unfold regular; by rewrite H13, orb_true_r|]. apply wp_cursor; [done|]. intros t [? ? ? ?].
    apply dev_ok_cursor; [done|done|lia|lia]. }
  destruct (ch =? 8) eqn:H8.
  { apply Hctl; [lia|unfold regular; by rewrite H8, !orb_true_r|]. apply wp_cursor; [done|]. intros t [? ? ? [? ?]].
    apply dev_ok_cursor; [done|done|destruct (0 <? cursor_x t) eqn:?; zbool; naive_solver lia..]. }
  destruct (ch =? 9) eqn:H9.
  { apply Hctl; [lia|unfold regular; by rewrite H9, !orb_true_r|]. apply wp_cursor; [done|]. intros t [? ? ? [? ?]].
    apply dev_ok_cursor; [done|done| |].
    - change 4294967288 with (2 ^ 32 - 2 ^ 3). rewrite land_high_mask by (unfold u32; ulia). ulia.
    - intros Hf. destruct (Htabs Hf). zbool. subst. set_solver. }
  destruct (ch =? 27) eqn:H27.
  - zbool. subst. unfold shown at 1 2. cbn [escape_seq]. change (27 =? 27) with true. cbn iota. cbn [List.filter length fmap list_fmap].
    rewrite Z.add_0_r, app_nil_r. destruct (escape_seq rest) as [|a l] eqn:Hseq.
    + eapply wp_mono; [apply (IH rest written out); done|]. intros w s'. rewrite (escape_seq_nil rest Hseq). cbn. by rewrite Z.add_0_r, app_nil_r.
    + pose proof (Hsh [] rest eq_refl) as Hlen. rewrite Hseq in Hlen. rewrite (proj2 (Nat.leb_gt _ _)) by done.
      apply wp_bind. eapply wp_mono; [by apply wp_escape|]. intros [] s' Hs'. rewrite <- Hseq.
      eapply wp_mono; [apply (IH _ written out); [rewrite length_drop; lia| | |done]|].
      * apply (short_escapes_app (take (length (escape_seq rest)) rest)). by rewrite take_drop.
      * intros Hf Hin. apply (Htabs' Hf). rewrite <- (take_drop (length (escape_seq rest)) rest). set_solver.
      * intros w s2. rewrite escape_seq_rest. cbn. by rewrite Z.add_0_r, app_nil_r.
  - assert (regular ch = true) as Hreg by (unfold regular; by rewrite H10, H13, H8, H9). rewrite shown_cons, Hreg by done.
    apply wp_bind. eapply wp_mono; [by apply wp_put_regular|]. intros w s' [-> Hs'].
    eapply wp_mono; [by apply (IH rest _ (out ++ [u8 ch]))|]. intros w s2 [-> Hs2]. split; [cbn [length]; lia|].
    rewrite fmap_cons. by rewrite <- app_assoc in Hs2.
Qed.
End serial_tty.

(** ** Theorems *)


Lemma write_loop_fuel {W} `{!Ports W} fb fuel i n : ∀ m rest written (s : tty_sys W),
  (length rest < n)%nat → (length rest < m)%nat →
  write_loop fb fuel n i rest written s = write_loop fb fuel m i rest written s.
Proof.
  induction n as [|n IH]; intros [|m] rest written s Hn Hm; [lia..|]. cbn [write_loop].
  destruct rest as [|ch rest]; [done|]. simpl in Hn, Hm.
  repeat case_match; try (apply bind_ext; intros ? ?; apply IH; rewrite ?length_drop; lia); [|done].
  apply IH; lia.
Qed.

(** The loop of [tty_write] makes at most one round more than there are
    characters, on every device and for every text: more rounds never change
    what it does. *)
Theorem tty_write_terminates {W} `{!Ports W} fb fuel i text written (s : tty_sys W) n :
  (length text < n)%nat →
  write_loop fb fuel n i text written s = write_loop fb fuel (S (length text)) i text written s.
Proof. intros Hn. apply write_loop_fuel; lia. Qed.

(** In raw mode a read takes the oldest characters of the input queue, as
    many as are asked for and there, and leaves the others. *)
Theorem tty_read_raw_correct {W} `{!Ports W} fb fuel i t count (s : tty_sys W) :
  tty_devices s !! i = Some t → state t = TTY_STATE_ACTIVE → Z.land (flags t) TTY_FLAG_CANONICAL = 0 →
  queue_ok (input t) → 0 <= count →
  wp (tty_read fb fuel (Some i) true count)
    (λ '(n, data) s', data = take (Z.to_nat count) (queue_contents (input t)) ∧
       n = Z.min count (q_count (input t)) ∧
       ∃ q, queue_ok q ∧ queue_contents q = drop (Z.to_nat count) (queue_contents (input t)) ∧
         s' = mk_sys (<[i := set_input q t]> (tty_devices s)) (tty_count s) (t_mem s) (t_world s)) s.
Proof.
  intros Ht Hst Hfl Hq Hc. unfold tty_read. apply wp_bind, (wp_this i t); [done|]. rewrite Hst, Hfl. cbn.
  apply wp_bind. eapply wp_mono; [by apply (wp_read_raw _ i t)|]. intros data s' (-> & Hq').
  apply wp_ret. split; [done|]. split; [|done]. cbn [app]. pose proof (queue_contents_length _ Hq) as Hlen. destruct Hq as [_ _ Hqc _].
  rewrite length_take. unfold TTY_BUFFER_SIZE in Hqc. unfold s32. rewrite Z.mod_small; lia.
Qed.

(** Scrolling by [lines] rows moves the picture up by 16 pixels each and blackens
    the rest; nothing else in memory changes. *)
Lemma tty_scroll_pixels {W} `{!Ports W} fb i lines (s : tty_sys W) :
  fb_ok fb → 0 < lines → lines * 16 < fb_height fb →
  wp (tty_scroll (Some fb) (Some i) lines)
    (λ _ s', tty_devices s' = tty_devices s ∧ t_world s' = t_world s ∧
       (∀ a b, visible fb a b → pixel fb (t_mem s') a b =
          if b + lines * 16 <? fb_height fb then pixel fb (t_mem s) a (b + lines * 16) else 0) ∧
       ∀ q, ¬ in_fb fb q → rd (t_mem s') q = rd (t_mem s) q) s.
Proof.
  intros Hfb Hl Hh. pose proof Hfb as [Ha Hw Hht Hp Hpw He]. unfold tty_scroll. rewrite (proj2 (Z.leb_gt lines 0)) by lia.
  rewrite (u32_small (lines * 16)) by (unfold is_u32; lia). rewrite (proj2 (Z.ltb_lt _ _)) by lia.
  set (k := lines * 16) in *. set (P := fb_pitch fb) in *. set (H := fb_height fb) in *. set (A := fb_address fb) in *.
  assert (0 <= P) as HP by lia. assert (0 <= k * P) by nia. assert (0 <= (H - k) * P) by nia.
  assert ((H - k) * P + k * P = P * H) as Hsum by lia.
  rewrite (u64_small ((H - k) * P)), (u64_small (k * P)), (u64_small (A + k * P)), (u64_small (A + (H - k) * P)) by (unfold is_u64; lia).
  apply wp_bind, wp_on_mem, wp_modify, wp_on_mem, wp_modify. cbn [tty_devices t_world t_mem]. split; [done|]. split; [done|].
  assert (∀ q, rd (memset (A + (H - k) * P) 0 (k * P) (memmove A (A + k * P) ((H - k) * P) (t_mem s))) q =
    if in_block (A + (H - k) * P) (k * P) q then 0
    else if in_block A ((H - k) * P) q then rd (t_mem s) (q + k * P) else rd (t_mem s) q) as Hrd.
  { intros q. rewrite memset_spec, memmove_spec by lia. repeat case_match; try done. f_equal. lia. }
  split.
  - intros a b Hv. pose proof (pixel_address_visible fb Hfb a b Hv) as (Hpa & _). destruct Hv as [Hva Hvb].
    unfold pixel at 1, load32. rewrite !Hrd, Hpa. fold A P.
    destruct (b + k <? H) eqn:Hb; zbool.
    + assert (visible fb a (b + k)) as Hv' by (split; lia).
      unfold pixel, load32. rewrite (proj1 (pixel_address_visible fb Hfb _ _ Hv')). fold A P.
      assert (∀ d, 0 <= d < 4 → in_block (A + (H - k) * P) (k * P) (A + P * b + 4 * a + d) = false ∧
                                in_block A ((H - k) * P) (A + P * b + 4 * a + d) = true) as Hd.
      { intros d Hd. split; [apply not_true_iff_false|]; rewrite in_block_spec; nia. }
      destruct (Hd 0), (Hd 1), (Hd 2), (Hd 3); [lia..|]. rewrite Z.add_0_r in *.
      repeat match goal with E : in_block _ _ _ = _ |- _ => rewrite E; clear E end.
      replace (A + P * (b + k) + 4 * a) with (A + P * b + 4 * a + k * P) by lia.
      assert (∀ d, A + P * b + 4 * a + d + k * P = A + P * b + 4 * a + k * P + d) as Hmv by lia. by rewrite !Hmv.
    + assert (∀ d, 0 <= d < 4 → in_block (A + (H - k) * P) (k * P) (A + P * b + 4 * a + d) = true) as Hd.
      { intros d Hd. rewrite in_block_spec. nia. }
      pose proof (Hd 0 ltac:(lia)) as E0. rewrite Z.add_0_r in E0. rewrite E0, !Hd by lia. done.
  - intros q Hq. rewrite Hrd. unfold in_fb in Hq. fold A P H in Hq.
    assert (in_block (A + (H - k) * P) (k * P) q = false) as -> by (apply not_true_iff_false; rewrite in_block_spec; lia).
    assert (in_block A ((H - k) * P) q = false) as -> by (apply not_true_iff_false; rewrite in_block_spec; lia). done.
Qed.

(** A tabulator moves the cursor out of the window: column 80 of 80. *)
Lemma tty_tab_leaves_window t : cursor_x t = 72 → cols t = 80 →
  cols t <= cursor_x (set_cursor (Z.land (u32 (cursor_x t + 8)) 4294967288) (cursor_y t) t).
Proof. intros -> ->. vm_compute. congruence. Qed.

(** Destroyed devices are not reused: after eight creations there is no ninth. *)
Lemma tty_create_exhausted {W} nm (s : tty_sys W) :
  TTY_MAX_DEVICES <= tty_count s → tty_create nm s = Some (None, s).
Proof. intros Hn. unfold tty_create. by rewrite (proj2 (Z.leb_le _ _) Hn). Qed.

Lemma tty_destroy_keeps_count {W} tty (s s' : tty_sys W) r : tty_destroy tty s = Some (r, s') → tty_count s' = tty_count s.
Proof.
  unfold tty_destroy. destruct tty as [tty|]; [|by intros [= _ <-]]. unfold upd.
  destruct (tty_devices s !! tty); [|done]. by intros [= _ <-].
Qed.

(** ** Witnesses *)

Definition demo_tty : tty_device_t :=
  mk_tty [] TTY_STATE_ACTIVE 3 zero_queue zero_queue 25 80 0 0 (Some serial_write_wrapper) (Some serial_read_wrapper).
Definition demo_sys : tty_sys serial_log := mk_sys [demo_tty] 1 ∅ (mk_serial_log []).


Lemma tty_write_terminates_witness :
  write_loop None 1 100 0 [27; 97] 0 demo_sys = write_loop None 1 3 0 [27; 97] 0 demo_sys.
Proof. apply (tty_write_terminates None 1 0 [27; 97] 0 demo_sys 100). simpl. lia. Defined.

Definition raw_tty : tty_device_t :=
  mk_tty [] TTY_STATE_ACTIVE 1 (queue_putc 66 (queue_putc 65 zero_queue)) zero_queue 25 80 0 0 None None.

Lemma tty_read_raw_correct_witness :
  wp (tty_read None 1 (Some 0%nat) true 1) (λ '(n, data) s', data = [65] ∧ n = 1 ∧
    ∃ q, queue_ok q ∧ queue_contents q = [66] ∧ s' = mk_sys [set_input q raw_tty] 1 ∅ (mk_serial_log []))
    (mk_sys [raw_tty] 1 ∅ (mk_serial_log [])).
Proof.
  apply (tty_read_raw_correct None 1 0 raw_tty 1 (mk_sys [raw_tty] 1 ∅ (mk_serial_log []))); [reflexivity|reflexivity|reflexivity| |lia].
  constructor; vm_compute; repeat split; congruence.
Defined.
