(* ===== verification/Acpi.v ===== *)
(** * ACPI tables ([core/acpi.c])

    The tables lie in a memory [mem] of bytes that the firmware wrote and nobody
    changes; an access to an address without a byte is a fault, and [NULL] is 0.
    The file's static variables are the state [acpi]. *)
From S2P Require Import Prelude Monad Str Bytes.

Record acpi := mk_acpi { rsdp : Z; rsdt : Z; xsdt : Z; madt : Z; acpi_initialized : bool }.

(** "RSD PTR ", "MCFG", "APIC" *)
Definition ACPI_RSDP_SIGNATURE : list Z := [82; 83; 68; 32; 80; 84; 82; 32].
Definition ACPI_MCFG_SIGNATURE : list Z := [77; 67; 70; 71].
Definition ACPI_MADT_SIGNATURE : list Z := [65; 80; 73; 67].
Definition MADT_TYPE_LOCAL_APIC : Z := 0.
Definition MADT_TYPE_IO_APIC : Z := 1.

(** The packed structs of [acpi.h]: the sizes of their members, in order.  An
    array of characters is one member; of a flexible array the struct has none. *)
Definition rsdp_layout : list nat := [8; 1; 6; 1; 4; 4; 8; 1; 3]%nat.
Definition header_layout : list nat := [4; 4; 1; 1; 6; 8; 4; 4; 4]%nat.
Definition mcfg_layout : list nat := (header_layout ++ [8])%nat.
Definition configuration_layout : list nat := [8; 2; 1; 1; 4]%nat.
Definition madt_layout : list nat := (header_layout ++ [4; 4])%nat.
Definition entry_layout : list nat := [1; 1]%nat.
Definition local_apic_layout : list nat := (entry_layout ++ [1; 1; 4])%nat.
Definition io_apic_layout : list nat := (entry_layout ++ [1; 1; 4; 4])%nat.

Definition SIZEOF_HEADER : Z := size_of header_layout.
Definition SIZEOF_MCFG : Z := size_of mcfg_layout.
(** [madt->entries] *)
Definition SIZEOF_MADT : Z := size_of madt_layout.

Section acpi.
Context (mem : gmap Z Z).

(** [n] bytes at an address, and the number they are. *)
Definition bytes_at (a : Z) (n : nat) : option (list Z) := mapM (λ i, mem !! i) (seqZ a (Z.of_nat n)).
Definition number_at (n : nat) (a : Z) : option Z := le_dec <$> bytes_at a n.

(** Member [k] of the struct at an address. *)
Definition member (layout : list nat) (k : nat) (a : Z) : option Z :=
  number_at (nth k layout 0%nat) (a + offset_of layout k).

Definition table_length (table : Z) : option Z := member header_layout 1 table.

Definition validate_table (table : Z) : option bool :=
  if table =? 0 then Some false else
  len ← table_length table;
  bytes ← bytes_at table (Z.to_nat len);
  Some (foldl (λ sum b, u8 (sum + b)) 0 bytes =? 0).

(** The first valid table with the signature among those at [ptrs]. *)
Fixpoint find_table (signature : list Z) (width : nat) (ptrs : list Z) : option Z :=
  match ptrs with
  | [] => Some 0
  | ptr :: ptrs =>
      table ← number_at width ptr;
      sig ← bytes_at table 4;
      if memcmp sig signature 4 =? 0 then
        ok ← validate_table table;
        if ok : bool then Some table else find_table signature width ptrs
      else find_table signature width ptrs
  end.

Definition find_table_xsdt (s : acpi) (signature : list Z) : option Z :=
  if xsdt s =? 0 then Some 0 else
  len ← table_length (xsdt s);
  let entries := u64 (len - SIZEOF_HEADER) / 8 in
  find_table signature 8 ((λ i, xsdt s + SIZEOF_HEADER + 8 * i) <$> seqZ 0 entries).

Definition find_table_rsdt (s : acpi) (signature : list Z) : option Z :=
  if rsdt s =? 0 then Some 0 else
  len ← table_length (rsdt s);
  let entries := u32 (u64 (len - SIZEOF_HEADER) / 4) in
  find_table signature 4 ((λ i, rsdt s + SIZEOF_HEADER + 4 * i) <$> seqZ 0 entries).

Definition acpi_find_table (s : acpi) (signature : list Z) : option Z :=
  if negb (acpi_initialized s) then Some 0 else
  table ← find_table_xsdt s signature;
  if negb (table =? 0) then Some table else find_table_rsdt s signature.

(** [rsdp_address] is the boot loader's answer. *)
Definition acpi_init (rsdp_address : Z) (s : acpi) : option acpi :=
  if acpi_initialized s then Some s else
  let s := mk_acpi rsdp_address (rsdt s) (xsdt s) (madt s) false in
  if rsdp_address =? 0 then Some s else
  sig ← bytes_at rsdp_address 8;
  if negb (memcmp sig ACPI_RSDP_SIGNATURE 8 =? 0) then Some s else
  revision ← member rsdp_layout 3 rsdp_address;
  s ← (if 2 <=? revision then
         a ← member rsdp_layout 6 rsdp_address;
         if a =? 0 then Some s else
         ok ← validate_table a;
         Some (mk_acpi (rsdp s) (rsdt s) (if ok : bool then a else 0) (madt s) false)
       else Some s);
  '(s, failed) ← (if xsdt s =? 0 then
       a ← member rsdp_layout 4 rsdp_address;
       if a =? 0 then Some (s, false) else
       ok ← validate_table a;
       Some (mk_acpi (rsdp s) (if ok : bool then a else 0) (xsdt s) (madt s) false, negb ok)
     else Some (s, false));
  if failed : bool then Some s else
  m ← acpi_find_table s ACPI_MADT_SIGNATURE;
  Some (mk_acpi (rsdp s) (rsdt s) (xsdt s) m true).

Definition acpi_is_initialized (s : acpi) : bool := acpi_initialized s.

Definition acpi_get_mcfg_base (s : acpi) : option Z :=
  mcfg ← acpi_find_table s ACPI_MCFG_SIGNATURE;
  if mcfg =? 0 then Some 0 else
  len ← table_length mcfg;
  if len <? SIZEOF_MCFG then Some 0 else member configuration_layout 0 (mcfg + SIZEOF_MCFG).

Definition acpi_get_madt (s : acpi) : Z := madt s.
Definition acpi_get_local_apic_address (s : acpi) : option Z :=
  if madt s =? 0 then Some 0 else member madt_layout 9 (madt s).
Definition acpi_get_madt_flags (s : acpi) : option Z :=
  if madt s =? 0 then Some 0 else member madt_layout 10 (madt s).

(** The entries of the MADT from [entry] to [end_]; the identifier of a
    processor and of an I/O APIC is member 2 of their [layout].  [fuel] bounds the
    entries: one of length 0 is looked at for ever. *)
Fixpoint find_entry (layout : list nat) (fuel : nat) (type id entry end_ : Z) : option Z :=
  match fuel with
  | O => None
  | S fuel =>
      if entry <? end_ then
        t ← member entry_layout 0 entry;
        found ← (if t =? type then i ← member layout 2 entry; Some (i =? id) else Some false);
        if found : bool then Some entry else
        len ← member entry_layout 1 entry;
        find_entry layout fuel type id (entry + len) end_
      else Some 0
  end.

Definition madt_entry (layout : list nat) (fuel : nat) (type id : Z) (s : acpi) : option Z :=
  if madt s =? 0 then Some 0 else
  len ← table_length (madt s);
  find_entry layout fuel type id (madt s + SIZEOF_MADT) (madt s + len).

Definition acpi_get_local_apic (fuel : nat) (cpu_id : Z) (s : acpi) : option Z :=
  madt_entry local_apic_layout fuel MADT_TYPE_LOCAL_APIC cpu_id s.
Definition acpi_get_io_apic (fuel : nat) (io_apic_id : Z) (s : acpi) : option Z :=
  madt_entry io_apic_layout fuel MADT_TYPE_IO_APIC io_apic_id s.
End acpi.

(** ** Properties *)

Section facts.
Context (mem : gmap Z Z).

(** A table is valid when its bytes add up to 0 modulo 256. *)
Definition valid_table (table : Z) : Prop :=
  ∃ len bytes, table_length mem table = Some len ∧ bytes_at mem table (Z.to_nat len) = Some bytes ∧
    foldr Z.add 0 bytes mod 256 = 0.

Definition has_signature (signature : list Z) (table : Z) : Prop := bytes_at mem table 4 = Some signature.

Lemma checksum_sum bytes : ∀ a, foldl (λ sum b, u8 (sum + b)) (u8 a) bytes = (a + foldr Z.add 0 bytes) mod 256.
Proof.
  induction bytes as [|b bytes IH]; intros a; cbn [foldl foldr]; [by rewrite Z.add_0_r|].
  assert (u8 (u8 a + b) = u8 (a + b)) as ->; [|by rewrite IH, Z.add_assoc]. unfold u8. by rewrite Zplus_mod_idemp_l.
Qed.

Lemma validate_table_spec table ok :
  validate_table mem table = Some ok → table ≠ 0 → (ok = true ↔ valid_table table).
Proof.
  intros Hv Hne. unfold validate_table in Hv. rewrite (proj2 (Z.eqb_neq _ _) Hne) in Hv. unfold valid_table.
  destruct (table_length mem table) as [len|]; [|done]. cbn in Hv. destruct (bytes_at mem table (Z.to_nat len)) as [bytes|] eqn:Hb; [|done].
  cbn in Hv. injection Hv as <-. pose proof (checksum_sum bytes 0) as Hs. change (u8 0) with 0 in Hs. rewrite Hs, Z.add_0_l, Z.eqb_eq.
  split; [by exists len, bytes|]. intros (? & ? & [= <-] & ? & ?). congruence.
Qed.

(** Signatures are compared byte by byte. *)
Lemma memcmp_signature a b n : length a = n → length b = n → (memcmp a b n =? 0) = true ↔ a = b.
Proof.
  revert a b. induction n as [|n IH]; intros [|x a] [|y b]; try done. intros [= Ha] [= Hb]. cbn [memcmp].
  destruct (x =? y) eqn:Hxy; zbool; [subst; rewrite IH by done; naive_solver|].
  split; [destruct (x <? y); done|by intros [= ? ?]].
Qed.

Lemma bytes_at_length a n l : bytes_at mem a n = Some l → length l = n.
Proof. intros Hb. apply length_mapM in Hb. rewrite length_seqZ in Hb. lia. Qed.

(** The table that is found is the first of the valid ones with the signature. *)
Definition first_table (signature : list Z) (width : nat) (ptrs : list Z) (table : Z) : Prop :=
  ∃ pre ptr post, ptrs = pre ++ ptr :: post ∧ number_at mem width ptr = Some table ∧
    has_signature signature table ∧ valid_table table ∧
    ∀ p t, p ∈ pre → number_at mem width p = Some t → ¬ (t ≠ 0 ∧ has_signature signature t ∧ valid_table t).

Lemma find_table_first signature width ptrs table :
  length signature = 4%nat → find_table mem signature width ptrs = Some table → table ≠ 0 →
  first_table signature width ptrs table.
Proof.
  intros Hsig. induction ptrs as [|ptr ptrs IH]; cbn [find_table]; [by intros [= <-]|].
  intros Hf Hne. destruct (number_at mem width ptr) as [t|] eqn:Ht; [|done]. cbn [mbind option_bind] in Hf.
  destruct (bytes_at mem t 4) as [sig|] eqn:Hb; [|done]. cbn [mbind option_bind] in Hf.
  pose proof (memcmp_signature sig signature 4 (bytes_at_length _ _ _ Hb) Hsig) as Hm.
  assert (find_table mem signature width ptrs = Some table → ¬ (t ≠ 0 ∧ has_signature signature t ∧ valid_table t) →
    first_table signature width (ptr :: ptrs) table) as Hskip.
  { intros Hr Hn. destruct (IH Hr Hne) as (pre & q & post & -> & ? & ? & ? & Hpre). exists (ptr :: pre), q, post. split_and!; try done.
    intros p t' [->|Hp]%elem_of_cons Ht'; [by simplify_eq|by eapply Hpre]. }
  destruct (memcmp sig signature 4 =? 0) eqn:Hc.
  - destruct (validate_table mem t) as [ok|] eqn:Hv; [|done]. cbn [mbind option_bind] in Hf. destruct ok.
    + injection Hf as ->. exists [], ptr, ptrs. split_and!; [done|done| | |set_solver].
      * unfold has_signature. by rewrite Hb, (proj1 Hm eq_refl).
      * by apply (validate_table_spec table true Hv).
    + apply Hskip; [done|]. intros (Ht0 & _ & Hval). by apply (validate_table_spec t false Hv Ht0) in Hval.
  - apply Hskip; [done|]. intros (_ & Hs & _). unfold has_signature in Hs. assert (sig = signature) by congruence.
    assert (false = true) by (by apply Hm). done.
Qed.

(** What the entries of the MADT look like: type, identifier and length. *)
Inductive entries_at (end_ : Z) : Z → list (Z * Z * Z) → Prop :=
| entries_end a : end_ <= a → entries_at end_ a []
| entries_cons a type id len es :
    a < end_ → member mem entry_layout 0 a = Some type → member mem local_apic_layout 2 a = Some id → member mem entry_layout 1 a = Some len →
    0 < len → entries_at end_ (a + len) es → entries_at end_ a ((type, id, len) :: es).

(** The address of the first entry of a type with an identifier, or NULL. *)
Fixpoint entry_of (type id a : Z) (es : list (Z * Z * Z)) : Z :=
  match es with
  | [] => 0
  | (t, i, len) :: es => if (t =? type) && (i =? id) then a else entry_of type id (a + len) es
  end.

Lemma find_entry_spec layout type id end_ fuel : ∀ a es,
  (∀ a, member mem layout 2 a = member mem local_apic_layout 2 a) →
  entries_at end_ a es → (length es < fuel)%nat → find_entry mem layout fuel type id a end_ = Some (entry_of type id a es).
Proof.
  induction fuel as [|fuel IH]; intros a es Hlay He Hf; [lia|]. cbn [find_entry].
  inversion He as [? Hend|? t i len es' Hlt Ht Hi Hl Hpos He']; subst.
  - by rewrite (proj2 (Z.ltb_ge _ _)).
  - rewrite (proj2 (Z.ltb_lt _ _)), Ht by done. cbn [mbind option_bind entry_of]. destruct (t =? type) eqn:Htt; cbn [andb].
    + rewrite Hlay, Hi. cbn [mbind option_bind]. destruct (i =? id); [done|]. rewrite Hl. cbn [mbind option_bind]. apply IH; [done..|]. simpl in Hf. lia.
    + cbn [mbind option_bind]. rewrite Hl. cbn [mbind option_bind]. apply IH; [done..|]. simpl in Hf. lia.
Qed.

(** [acpi_init] accepts only tables whose checksum is right; it never sets the
    MADT, since it looks for it before it declares itself initialised. *)
Lemma acpi_init_tables address s s' :
  acpi_init mem address s = Some s' → acpi_initialized s = false → madt s = 0 → xsdt s = 0 → rsdt s = 0 →
  (xsdt s' = 0 ∨ valid_table (xsdt s')) ∧ (rsdt s' = 0 ∨ valid_table (rsdt s')) ∧ madt s' = 0.
Proof.
  intros Hi Hini Hm Hx Hr. unfold acpi_init in Hi. rewrite Hini, Hm, Hx, Hr in Hi.
  destruct (address =? 0); [injection Hi as <-; cbn; tauto|].
  destruct (bytes_at mem address 8) as [sig|]; [|done]. cbn [mbind option_bind] in Hi.
  destruct (negb _); [injection Hi as <-; cbn; tauto|].
  destruct (member mem rsdp_layout 3 address) as [rev|]; [|done]. cbn [mbind option_bind] in Hi.
  apply bind_Some in Hi as (s1 & Hs1 & Hi).
  assert (acpi_initialized s1 = false ∧ madt s1 = 0 ∧ rsdt s1 = 0 ∧ (xsdt s1 = 0 ∨ valid_table (xsdt s1))) as (Hini1 & Hm1 & Hr1 & Hx1).
  { destruct (2 <=? rev); [|by injection Hs1 as <-; cbn; auto].
    apply bind_Some in Hs1 as (a & _ & Hs1). destruct (a =? 0) eqn:Ha; [by injection Hs1 as <-; cbn; auto|]. zbool.
    apply bind_Some in Hs1 as (ok & Hok & Hs1). injection Hs1 as <-. cbn. split_and!; try done.
    destruct ok; [right; by apply (validate_table_spec a true Hok)|by left]. }
  apply bind_Some in Hi as ([s2 failed] & Hs2 & Hi).
  assert (acpi_initialized s2 = false ∧ madt s2 = 0 ∧ xsdt s2 = xsdt s1 ∧ (rsdt s2 = 0 ∨ valid_table (rsdt s2))) as (Hini2 & Hm2 & Hx2 & Hr2).
  { destruct (xsdt s1 =? 0); [|by injection Hs2 as <- <-; rewrite Hini1, Hm1, Hr1; auto].
    apply bind_Some in Hs2 as (a & _ & Hs2). destruct (a =? 0) eqn:Ha; [by injection Hs2 as <- <-; rewrite Hini1, Hm1, Hr1; auto|]. zbool.
    apply bind_Some in Hs2 as (ok & Hok & Hs2). injection Hs2 as <- <-. cbn. split_and!; try done.
    destruct ok; [right; by apply (validate_table_spec a true Hok)|by left]. }
  destruct failed; [injection Hi as <-; rewrite Hx2; auto|].
  unfold acpi_find_table in Hi. rewrite Hini2 in Hi. cbn in Hi. injection Hi as <-. cbn. rewrite Hx2. auto.
Qed.
End facts.

(** [acpi_find_table] gives NULL or a table with the signature and a right
    checksum: the first such table of the XSDT, and where that has none, the
    first of the RSDT. *)
Theorem acpi_find_table_correct mem s signature table :
  length signature = 4%nat → acpi_find_table mem s signature = Some table → table ≠ 0 →
  acpi_initialized s = true ∧
  ∃ root width len, (root = xsdt s ∧ width = 8%nat ∨ root = rsdt s ∧ width = 4%nat ∧ find_table_xsdt mem s signature = Some 0) ∧
    root ≠ 0 ∧ table_length mem root = Some len ∧
    ∃ n, first_table mem signature width ((λ i, root + SIZEOF_HEADER + Z.of_nat width * i) <$> seqZ 0 n) table.
Proof.
  intros Hsig Hf Hne. unfold acpi_find_table in Hf. destruct (acpi_initialized s); [|by cbn in Hf; simplify_eq]. split; [done|].
  cbn [negb] in Hf. destruct (find_table_xsdt mem s signature) as [t|] eqn:Hx; [|done]. cbn [mbind option_bind] in Hf.
  destruct (t =? 0) eqn:Ht; cbn [negb] in Hf; zbool; subst.
  - unfold find_table_rsdt in Hf. destruct (rsdt s =? 0) eqn:Hr; [by simplify_eq|]. zbool.
    apply bind_Some in Hf as (len & Hlen & Hf). exists (rsdt s), 4%nat, len. split_and!; [by right|done|done|].
    eexists. by apply find_table_first in Hf.
  - injection Hf as ->. unfold find_table_xsdt in Hx. destruct (xsdt s =? 0) eqn:Hr; [by simplify_eq|]. zbool.
    apply bind_Some in Hx as (len & Hlen & Hf). exists (xsdt s), 8%nat, len. split_and!; [by left|done|done|].
    eexists. by apply find_table_first in Hf.
Qed.

(** The search for a processor or an I/O APIC ends on a MADT whose entries
    have a positive length, after as many steps as there are entries, with the
    first entry of that type and identifier, or with NULL. *)
Theorem acpi_madt_search_terminates mem fuel id s len es :
  madt s ≠ 0 → table_length mem (madt s) = Some len → entries_at mem (madt s + len) (madt s + SIZEOF_MADT) es → (length es < fuel)%nat →
  acpi_get_local_apic mem fuel id s = Some (entry_of MADT_TYPE_LOCAL_APIC id (madt s + SIZEOF_MADT) es) ∧
  acpi_get_io_apic mem fuel id s = Some (entry_of MADT_TYPE_IO_APIC id (madt s + SIZEOF_MADT) es).
Proof.
  intros Hm Hlen He Hf. unfold acpi_get_local_apic, acpi_get_io_apic, madt_entry.
  rewrite (proj2 (Z.eqb_neq _ _) Hm), Hlen. cbn [mbind option_bind]. split; by apply find_entry_spec.
Qed.

(** An entry of length 0 is looked at for ever. *)
Lemma find_entry_hangs mem layout fuel type id a end_ t :
  a < end_ → member mem entry_layout 0 a = Some t → t ≠ type → member mem entry_layout 1 a = Some 0 → find_entry mem layout fuel type id a end_ = None.
Proof.
  intros Ha Ht Hne Hl. induction fuel as [|fuel IH]; [done|]. cbn [find_entry]. rewrite (proj2 (Z.ltb_lt _ _) Ha), Ht.
  cbn [mbind option_bind]. rewrite (proj2 (Z.eqb_neq _ _) Hne). cbn [mbind option_bind]. rewrite Hl. cbn [mbind option_bind]. by rewrite Z.add_0_r.
Qed.

(** ** Witnesses *)

Definition store_all (a : Z) (l : list Z) (m : gmap Z Z) : gmap Z Z := foldr (λ p m, <[p.1 := p.2]> m) m (zip (seqZ a (Z.of_nat (length l))) l).

(** An XSDT with one MCFG table, and a MADT with a processor and an I/O APIC. *)
Definition demo_mcfg : list Z := ACPI_MCFG_SIGNATURE ++ [60; 0; 0; 0; 1; 166] ++ replicate 50 0.
Definition demo_xsdt : list Z := [88; 83; 68; 84; 44; 0; 0; 0; 1; 128] ++ replicate 26 0 ++ [0; 16; 0; 0; 0; 0; 0; 0].
Definition demo_madt : list Z :=
  ACPI_MADT_SIGNATURE ++ [64; 0; 0; 0] ++ replicate 36 0 ++ [0; 8; 3; 3; 1; 0; 0; 0] ++ [1; 12; 5; 0; 0; 0; 192; 254; 0; 0; 0; 0].
Definition demo_tables : gmap Z Z := store_all 4096 demo_mcfg (store_all 8192 demo_xsdt (store_all 12288 demo_madt ∅)).

Lemma acpi_find_table_correct_witness :
  ∃ root width len, root = 8192 ∧ table_length demo_tables root = Some len ∧
    ∃ n, first_table demo_tables ACPI_MCFG_SIGNATURE width ((λ i, root + SIZEOF_HEADER + Z.of_nat width * i) <$> seqZ 0 n) 4096.
Proof.
  assert (Hsig : length ACPI_MCFG_SIGNATURE = 4%nat) by reflexivity.
  assert (Hf : acpi_find_table demo_tables (mk_acpi 0 0 8192 0 true) ACPI_MCFG_SIGNATURE = Some 4096) by (vm_compute; reflexivity).
  assert (Hne : 4096 ≠ 0) by lia.
  destruct (acpi_find_table_correct demo_tables (mk_acpi 0 0 8192 0 true) ACPI_MCFG_SIGNATURE 4096 Hsig Hf Hne)
    as (_ & root & width & len & [[-> _]|(-> & _)] & Hr & Hlen & Hn); [|destruct (Hr eq_refl)].
  exists 8192, width, len. split; [reflexivity|]. split; [exact Hlen|exact Hn].
Defined.

Lemma acpi_madt_search_terminates_witness :
  acpi_get_local_apic demo_tables 3 3 (mk_acpi 0 0 0 12288 true) = Some 12332 ∧
  acpi_get_io_apic demo_tables 3 5 (mk_acpi 0 0 0 12288 true) = Some 12340.
Proof.
  assert (He : entries_at demo_tables (12288 + 64) (12288 + SIZEOF_MADT) [(0, 3, 8); (1, 5, 12)]).
  { apply entries_cons; [reflexivity|vm_compute; reflexivity|vm_compute; reflexivity|vm_compute; reflexivity|reflexivity|].
    apply entries_cons; [reflexivity|vm_compute; reflexivity|vm_compute; reflexivity|vm_compute; reflexivity|reflexivity|].
    apply entries_end. vm_compute. congruence. }
  assert (Hlen : table_length demo_tables (madt (mk_acpi 0 0 0 12288 true)) = Some 64) by (vm_compute; reflexivity).
  assert (Hne : madt (mk_acpi 0 0 0 12288 true) ≠ 0) by (simpl; lia).
  assert (Hfuel : (length [(0, 3, 8); (1, 5, 12)] < 3)%nat) by (simpl; lia).
  split.
  - exact (proj1 (acpi_madt_search_terminates demo_tables 3 3 (mk_acpi 0 0 0 12288 true) 64 _ Hne Hlen He Hfuel)).
  - exact (proj2 (acpi_madt_search_terminates demo_tables 3 5 (mk_acpi 0 0 0 12288 true) 64 _ Hne Hlen He Hfuel)).
Defined.
