(* ===== verification/Pci.v ===== *)
(** * PCI configuration space ([core/drivers/pci.c])

    Configuration space is reached through the ports 0xCF8 and 0xCFC, or through
    memory when ACPI names a base address; both are operations of a world [W].
    The devices found are a list, of which the length is [num_pci_devices]: the
    code never reads the array behind it. *)
From S2P Require Import Prelude Monad Acpi.

Record pci_device := mk_pci {
  vendor_id : Z; device_id : Z; class_code : Z; subclass : Z; prog_if : Z; revision : Z;
  bus : Z; slot : Z; func : Z; bar : list Z;
}.

Definition PCI_MAX_BUS : Z := 256.
Definition PCI_MAX_SLOT : Z := 32.
Definition PCI_MAX_FUNC : Z := 8.
Definition MAX_PCI_DEVICES : Z := 32.
Definition PCI_BAR0 : Z := 16.
Definition PCI_HEADER_TYPE : Z := 14.
Definition PCI_CLASS_STORAGE : Z := 1.
Definition PCI_CLASS_NETWORK : Z := 2.

(** [outl] and [inl] of [utils/io.h], and 32-bit accesses to device memory. *)
Class PciBus (W : Type) := {
  outl : Z → Z → W → W;
  inl : Z → W → Z * W;
  read32 : Z → W → Z * W;
  write32 : Z → Z → W → W;
}.

(** The configuration address of the ports. *)
Definition config_address (b s f offset : Z) : Z :=
  Z.lor 2147483648 (Z.lor (Z.shiftl b 16) (Z.lor (Z.shiftl s 11) (Z.lor (Z.shiftl f 8) (Z.land offset 252)))).

Record pci (W : Type) := mk_pci_state { pci_devices : list pci_device; pci_mcfg_base : Z; p_world : W }.
Arguments mk_pci_state {_}.
Arguments pci_devices {_}.
Arguments pci_mcfg_base {_}.
Arguments p_world {_}.

Section pci.
Context {W : Type} `{!PciBus W}.

Definition on_bus {A} (f : W → A * W) : M (pci W) A := λ s,
  let '(x, w) := f (p_world s) in Some (x, mk_pci_state (pci_devices s) (pci_mcfg_base s) w).

Definition get_device_addr (b s f : Z) (st : pci W) : Z :=
  if pci_mcfg_base st =? 0 then 0
  else u64 (pci_mcfg_base st + Z.lor (Z.shiftl b 20) (Z.lor (Z.shiftl s 15) (Z.shiftl f 12))).

Definition pci_read_config (b s f offset : Z) : M (pci W) Z :=
  addr ← gets (get_device_addr b s f);
  if negb (addr =? 0) then on_bus (read32 (u64 (addr + offset))) else
  on_bus (λ w, ((), outl 3320 (config_address b s f offset) w));;
  on_bus (inl 3324).

Definition pci_write_config (b s f offset value : Z) : M (pci W) () :=
  addr ← gets (get_device_addr b s f);
  if negb (addr =? 0) then on_bus (λ w, ((), write32 (u64 (addr + offset)) value w)) else
  on_bus (λ w, ((), outl 3320 (config_address b s f offset) w));;
  on_bus (λ w, ((), outl 3324 value w)).

Fixpoint read_bars (b s f : Z) (l : list Z) : M (pci W) (list Z) :=
  match l with
  | [] => mret []
  | i :: l => x ← pci_read_config b s f (PCI_BAR0 + i * 4); xs ← read_bars b s f l; mret (x :: xs)
  end.

Definition pci_scan_function (b s f : Z) : M (pci W) () :=
  vendor_device ← pci_read_config b s f 0;
  let vendor := Z.land vendor_device 65535 in
  let device := Z.land (Z.shiftr vendor_device 16) 65535 in
  if vendor =? 65535 then mret () else
  n ← gets (λ st, Z.of_nat (length (pci_devices st)));
  if MAX_PCI_DEVICES <=? n then mret () else
  class_info ← pci_read_config b s f 8;
  bars ← read_bars b s f (seqZ 0 6);
  modify (λ st, mk_pci_state (pci_devices st ++
    [mk_pci vendor device (Z.land (Z.shiftr class_info 24) 255) (Z.land (Z.shiftr class_info 16) 255)
       (Z.land (Z.shiftr class_info 8) 255) (Z.land class_info 255) b s f bars])
    (pci_mcfg_base st) (p_world st)).

Definition pci_scan_slot (b s : Z) : M (pci W) () :=
  vendor_device ← pci_read_config b s 0 0;
  if Z.land vendor_device 65535 =? 65535 then mret () else
  pci_scan_function b s 0;;
  header_type ← pci_read_config b s 0 PCI_HEADER_TYPE;
  if negb (Z.land header_type 128 =? 0) then
    for_list (seqZ 1 (PCI_MAX_FUNC - 1)) (λ f,
      vendor_device ← pci_read_config b s f 0;
      if negb (Z.land vendor_device 65535 =? 65535) then pci_scan_function b s f else mret ())
  else mret ().

Definition pci_init (mem : gmap Z Z) (tables : acpi) : M (pci W) () :=
  modify (λ st, mk_pci_state [] (pci_mcfg_base st) (p_world st));;
  base ← lift (acpi_get_mcfg_base mem tables);
  modify (λ st, mk_pci_state (pci_devices st) base (p_world st));;
  for_list (seqZ 0 PCI_MAX_BUS) (λ b, for_list (seqZ 0 PCI_MAX_SLOT) (λ s, pci_scan_slot b s)).

(** The index and the device, NULL is [None]. *)
Definition pci_scan_for_class (class sub : Z) (st : pci W) : option (nat * pci_device) :=
  list_find (λ d, class_code d = class ∧ subclass d = sub) (pci_devices st).
End pci.

Definition pci_get_bar (dev : option pci_device) (bar_num : Z) : option Z :=
  match dev with
  | None => Some 0
  | Some dev =>
      if 6 <=? bar_num then Some 0 else
      b ← index (bar dev) bar_num;
      Some (if negb (Z.land b 1 =? 0) then Z.land b 4294967292 else Z.land b 4294967280)
  end.

(** ** The configuration mechanism

    A bus that answers through the ports: the double word at an aligned offset of
    a function; reading does not change it. *)
Class PciConfig (W : Type) `{!PciBus W} := {
  bus_ok : W → Prop;
  config : W → Z → Z → Z → Z → Z;
  config_read w b s f offset :
    bus_ok w → 0 <= b < 256 → 0 <= s < 32 → 0 <= f < 8 → 0 <= offset < 256 →
    let '(v, w') := inl 3324 (outl 3320 (config_address b s f offset) w) in
    bus_ok w' ∧ config w' = config w ∧ v = config w b s f (Z.land offset 252);
}.

(** ** The scan *)

Section scan.
Context (cfg : Z → Z → Z → Z → Z).

Definition present (b s f : Z) : bool := negb (Z.land (cfg b s f 0) 65535 =? 65535).

(** The header type is the third byte at offset 12; the code tests the first,
    the cache line size. *)
Definition tested_multifunction (b s : Z) : bool := negb (Z.land (cfg b s 0 12) 128 =? 0).

Definition slot_functions (b s : Z) : list (Z * Z * Z) :=
  if present b s 0 then
    (b, s, 0) :: (if tested_multifunction b s
                  then (λ f, (b, s, f)) <$> List.filter (present b s) (seqZ 1 7) else [])
  else [].

Definition all_functions : list (Z * Z * Z) :=
  b ← seqZ 0 256; s ← seqZ 0 32; slot_functions b s.

Definition device_at (p : Z * Z * Z) : pci_device :=
  let '(b, s, f) := p in
  let id := cfg b s f 0 in let c := cfg b s f 8 in
  mk_pci (Z.land id 65535) (Z.land (Z.shiftr id 16) 65535) (Z.land (Z.shiftr c 24) 255) (Z.land (Z.shiftr c 16) 255)
    (Z.land (Z.shiftr c 8) 255) (Z.land c 255) b s f ((λ i, cfg b s f (PCI_BAR0 + i * 4)) <$> seqZ 0 6).
End scan.

Section scan_proofs.
Context {W : Type} `{HB : !PciBus W, !PciConfig W}.
Context (cfg : Z → Z → Z → Z → Z).
Implicit Types st : pci W.

(** The bus has the configuration [cfg], there is no memory window, and the
    functions [l] have been found. *)
Record scanned (l : list (Z * Z * Z)) st : Prop := {
  sc_ok : bus_ok (p_world st);
  sc_config : config (p_world st) = cfg;
  sc_ports : pci_mcfg_base st = 0;
  sc_found : pci_devices st = take 32 (device_at cfg <$> l);
}.

Lemma wp_read_config l b s f offset (Q : Z → pci W → Prop) st :
  scanned l st → 0 <= b < 256 → 0 <= s < 32 → 0 <= f < 8 → 0 <= offset < 256 →
  (∀ st', scanned l st' → Q (cfg b s f (Z.land offset 252)) st') → wp (pci_read_config b s f offset) Q st.
Proof.
  intros [Hok Hcfg Hp Hl] Hb Hs Hf Ho HQ. unfold pci_read_config. apply wp_bind, wp_gets. unfold get_device_addr. rewrite Hp. cbn.
  unfold wp, mbind, M_bind, on_bus. cbn. pose proof (config_read _ b s f offset Hok Hb Hs Hf Ho) as Hr.
  destruct (inl 3324 _) as [v w']. destruct Hr as (Hok' & Hc & ->). rewrite Hcfg in *. apply HQ. by constructor.
Qed.

Lemma wp_read_bars l b s f idx (Q : list Z → pci W → Prop) st :
  scanned l st → 0 <= b < 256 → 0 <= s < 32 → 0 <= f < 8 → Forall (λ i, 0 <= i < 6) idx →
  (∀ st', scanned l st' → Q ((λ i, cfg b s f (PCI_BAR0 + i * 4)) <$> idx) st') → wp (read_bars b s f idx) Q st.
Proof.
  intros Hst Hb Hs Hf His. revert Q st Hst. induction His as [|i idx Hi _ IH]; intros Q st Hst HQ; cbn [read_bars].
  { apply wp_ret. by apply HQ. }
  apply wp_bind. eapply wp_read_config; [done..|unfold PCI_BAR0; lia|]. intros st1 Hst1.
  apply wp_bind, IH; [done|]. intros st2 Hst2. apply wp_ret.
  assert (Z.land (PCI_BAR0 + i * 4) 252 = PCI_BAR0 + i * 4) as ->.
  { unfold PCI_BAR0. assert (i = 0 ∨ i = 1 ∨ i = 2 ∨ i = 3 ∨ i = 4 ∨ i = 5) as Hc by lia.
    by repeat (destruct Hc as [-> |Hc]); subst. }
  by apply HQ.
Qed.

Lemma take_snoc_take {A} n (l : list A) x : (length (take n l) < n)%nat → take n l ++ [x] = take n (l ++ [x]).
Proof.
  intros Hl. rewrite length_take in Hl. rewrite !take_ge; [done|rewrite length_app; simpl; lia|lia].
Qed.

Lemma wp_scan_function l b s f st :
  scanned l st → 0 <= b < 256 → 0 <= s < 32 → 0 <= f < 8 → present cfg b s f = true →
  wp (pci_scan_function b s f) (λ _, scanned (l ++ [(b, s, f)])) st.
Proof.
  intros Hst Hb Hs Hf Hp. unfold pci_scan_function. apply wp_bind. eapply wp_read_config; [done..|lia|]. intros st1 Hst1.
  change (Z.land 0 252) with 0. unfold present in Hp. apply negb_true_iff in Hp. rewrite Hp. apply wp_bind, wp_gets.
  pose proof (sc_found _ _ Hst1) as Hl. destruct (MAX_PCI_DEVICES <=? _) eqn:Hfull; zbool; unfold MAX_PCI_DEVICES in Hfull.
  - apply wp_ret. destruct Hst1 as [? ? ? _]. constructor; [done..|]. rewrite fmap_app. rewrite Hl in Hfull |- *.
    rewrite length_take in Hfull. rewrite take_app_le; [done|lia].
  - apply wp_bind. eapply wp_read_config; [done..|lia|]. intros st2 Hst2. change (Z.land 8 252) with 8.
    apply wp_bind. eapply wp_read_bars; [done..| |]. { repeat (constructor; [lia|]). constructor. }
    intros st3 [? ? ? Hl3]. apply wp_modify. constructor; cbn [p_world pci_mcfg_base pci_devices]; [done..|].
    rewrite Hl3, fmap_app. rewrite Hl in Hfull. change (device_at cfg <$> [(b, s, f)]) with [device_at cfg (b, s, f)]. by rewrite <- take_snoc_take by lia.
Qed.

Lemma wp_scan_slot l b s st :
  scanned l st → 0 <= b < 256 → 0 <= s < 32 →
  wp (pci_scan_slot b s) (λ _, scanned (l ++ slot_functions cfg b s)) st.
Proof.
  intros Hst Hb Hs. unfold pci_scan_slot. apply wp_bind. eapply wp_read_config; [done|done|done|lia|lia|]. intros st1 Hst1.
  change (Z.land 0 252) with 0. unfold slot_functions. unfold present at 1. destruct (_ =? 65535) eqn:Hp; cbn [negb].
  { apply wp_ret. by rewrite app_nil_r. }
  apply wp_bind. eapply wp_mono; [apply wp_scan_function; [done|done|done|lia|unfold present; by rewrite Hp]|]. intros [] st2 Hst2.
  apply wp_bind. eapply wp_read_config; [done|done|done|lia|unfold PCI_HEADER_TYPE; lia|]. intros st3 Hst3.
  change (Z.land PCI_HEADER_TYPE 252) with 12. fold (tested_multifunction cfg b s).
  unfold tested_multifunction. destruct (negb _); [|by apply wp_ret].
  eapply wp_mono; [apply (wp_for_list _ _ (λ done, scanned (l ++ (b, s, 0) :: ((λ f, (b, s, f)) <$> List.filter (present cfg b s) done))))|].
  - done.
  - intros dn f st4 [tl Htl] Hst4. assert (f ∈ seqZ 1 (PCI_MAX_FUNC - 1)) as Hf by (rewrite Htl; set_solver).
    apply elem_of_seqZ in Hf. unfold PCI_MAX_FUNC in Hf.
    apply wp_bind. eapply wp_read_config; [done|done|done|lia|lia|]. intros st5 Hst5. change (Z.land 0 252) with 0.
    fold (present cfg b s f). rewrite List.filter_app, fmap_app. cbn [List.filter]. destruct (present cfg b s f) eqn:Hpf.
    + eapply wp_mono; [apply (wp_scan_function _ b s f st5 Hst5); [done|done|lia|done]|]. intros [] st6 Hst6.
      rewrite <- app_assoc in Hst6. exact Hst6.
    + apply wp_ret. by rewrite app_nil_r.
  - intros [] st4 Hst4. exact Hst4.
Qed.

Lemma mbind_snoc {A B} (f : A → list B) l x : (l ++ [x]) ≫= f = (l ≫= f) ++ f x.
Proof. rewrite bind_app. cbn. by rewrite app_nil_r. Qed.

Lemma wp_scan_bus l b st :
  scanned l st → 0 <= b < 256 →
  wp (for_list (seqZ 0 PCI_MAX_SLOT) (λ s, pci_scan_slot b s)) (λ _, scanned (l ++ (seqZ 0 32 ≫= slot_functions cfg b))) st.
Proof.
  intros Hst Hb. eapply wp_mono; [apply (wp_for_list _ _ (λ done, scanned (l ++ (done ≫= slot_functions cfg b))))|].
  - by rewrite app_nil_r.
  - intros dn s st1 [tl Htl] Hst1. assert (s ∈ seqZ 0 PCI_MAX_SLOT) as Hs by (rewrite Htl; set_solver).
    apply elem_of_seqZ in Hs. unfold PCI_MAX_SLOT in Hs. rewrite mbind_snoc, app_assoc. apply wp_scan_slot; [done|done|lia].
  - done.
Qed.
End scan_proofs.

(** C27: where configuration space is reached through the ports, the scan finds,
    in the order of bus, slot and function number, the first 32 of the functions
    that answer: function 0 of each slot, and the others where bit 7 of the
    double word at offset 12 of function 0 is set. *)
Theorem pci_init_correct {W} `{HB : !PciBus W, !PciConfig W} mem tables (st : pci W) :
  bus_ok (p_world st) → acpi_get_mcfg_base mem tables = Some 0 →
  wp (pci_init mem tables)
    (λ _ st', pci_devices st' = take 32 (device_at (config (p_world st)) <$> all_functions (config (p_world st)))) st.
Proof.
  intros Hok Hm. set (cfg := config (p_world st)). unfold pci_init. apply wp_bind, wp_modify, wp_bind. eapply wp_lift; [exact Hm|].
  apply wp_bind, wp_modify.
  eapply wp_mono; [apply (wp_for_list _ _ (λ done, scanned cfg (done ≫= λ b, seqZ 0 32 ≫= slot_functions cfg b)))|].
  - by constructor.
  - intros dn b st1 [tl Htl] Hst1. assert (b ∈ seqZ 0 PCI_MAX_BUS) as Hb by (rewrite Htl; set_solver).
    apply elem_of_seqZ in Hb. unfold PCI_MAX_BUS in Hb. rewrite mbind_snoc. apply wp_scan_bus; [done|lia].
  - intros [] st1 [_ _ _ Hl]. exact Hl.
Qed.

(** The device a driver gets is the first of its class. *)
Lemma pci_scan_for_class_first {W} `{!PciBus W} class sub (st : pci W) i d :
  pci_scan_for_class class sub st = Some (i, d) →
  pci_devices st !! i = Some d ∧ class_code d = class ∧ subclass d = sub ∧
  ∀ j d', (j < i)%nat → pci_devices st !! j = Some d' → ¬ (class_code d' = class ∧ subclass d' = sub).
Proof. intros (Hd & [Hc Hs] & Hj)%list_find_Some. split_and!; try done. intros j d' Hji Hd'. by eapply Hj. Qed.

(** ** Witness: a bus with one network controller *)

Record demo_bus := mk_bus { latch : Z }.
Definition demo_config (address : Z) : Z :=
  if address =? config_address 0 2 0 0 then 269385862
  else if address =? config_address 0 2 0 8 then 33554435
  else if address =? config_address 0 2 0 12 then 0
  else if address =? config_address 0 2 0 16 then 4273733632
  else 4294967295.

#[export] Instance demo_bus_ports : PciBus demo_bus := {
  outl p v w := if p =? 3320 then mk_bus v else w;
  inl p w := (demo_config (latch w), w);
  read32 a w := (0, w);
  write32 a v w := w;
}.
#[export] Program Instance demo_bus_config : PciConfig demo_bus := {
  bus_ok w := True;
  config w b s f offset := demo_config (config_address b s f offset);
}.
Next Obligation. intros. cbn. unfold config_address. by rewrite <- Z.land_assoc. Qed.

Lemma pci_init_correct_witness :
  wp (pci_init ∅ (mk_acpi 0 0 0 0 false))
    (λ _ st', pci_devices st' = [mk_pci 32902 4110 2 0 0 3 0 2 0 [4273733632; 4294967295; 4294967295; 4294967295; 4294967295; 4294967295]])
    (mk_pci_state [] 0 (mk_bus 0)).
Proof.
  eapply wp_mono; [apply (pci_init_correct ∅ (mk_acpi 0 0 0 0 false) (mk_pci_state [] 0 (mk_bus 0))); [exact I|reflexivity]|].
  intros [] st' H. rewrite H. vm_compute. reflexivity.
Defined.
