(* ===== verification/Ip.v ===== *)
(** * The Internet protocol ([core/drivers/net/ip.c])

    A packet is the list of its bytes; the header fields are stored in the byte
    order of the machine, low byte first.  The static tables of the file and the
    heap are the state [ip].  An access outside a packet or a heap block is a
    fault. *)
From S2P Require Import Prelude Interfaces Monad Str Bytes Log Acpi Pci.

Definition MAX_IP_INTERFACES : Z := 8.
Definition MAX_IP_ROUTES : Z := 32.
Definition MAX_IP_CONNECTIONS : Z := 128.
Definition IP_PROTOCOL_ICMP : Z := 1.
Definition IP_PROTOCOL_TCP : Z := 6.
Definition IP_PROTOCOL_UDP : Z := 17.

Inductive ip_connection_state :=
| IP_CONN_CLOSED | IP_CONN_LISTEN | IP_CONN_SYN_SENT | IP_CONN_SYN_RECEIVED | IP_CONN_ESTABLISHED
| IP_CONN_FIN_WAIT_1 | IP_CONN_FIN_WAIT_2 | IP_CONN_CLOSE_WAIT | IP_CONN_CLOSING | IP_CONN_LAST_ACK.
#[export] Instance ip_connection_state_eq : EqDecision ip_connection_state.
Proof. solve_decision. Defined.

(** [network_device] is an index of the PCI devices. *)
Record ip_interface := mk_if {
  ip_address : Z; subnet_mask : Z; if_gateway : Z; network_device : option nat; is_active : bool }.
(** [interface] is an index of the interfaces. *)
Record ip_route := mk_route { network : Z; netmask : Z; gateway : Z; interface : option nat }.
Record ip_connection := mk_conn {
  local_ip : Z; remote_ip : Z; local_port : Z; remote_port : Z; c_state : ip_connection_state;
  c_protocol : Z; sequence_number : Z; acknowledgement_number : Z }.

Definition zero_if : ip_interface := mk_if 0 0 0 None false.
Definition zero_route : ip_route := mk_route 0 0 0 None.
Definition zero_conn : ip_connection := mk_conn 0 0 0 0 IP_CONN_CLOSED 0 0 0.

Record ip (H : Type) := mk_ip {
  ip_interfaces : list ip_interface; ip_routing_table : list ip_route; ip_connections : list ip_connection;
  packet_sequence : Z; ip_heap : H }.
Arguments mk_ip {_}.
Arguments ip_interfaces {_}.
Arguments ip_routing_table {_}.
Arguments ip_connections {_}.
Arguments packet_sequence {_}.
Arguments ip_heap {_}.

(** ** Addresses and checksums *)

(** A shift by 32 or more is undefined. *)
Fixpoint parse_loop (ip_str : list Z) (ip octet shift : Z) : option Z :=
  match ip_str with
  | [] => Some (Z.lor ip octet)
  | c :: rest =>
      if (48 <=? c) && (c <=? 57) then parse_loop rest ip (u8 (octet * 10 + (c - 48))) shift
      else if c =? 46 then
        if 32 <=? shift then None
        else parse_loop rest (Z.lor ip (u32 (Z.shiftl octet shift))) 0 (u8 (shift - 8))
      else parse_loop rest ip octet shift
  end.
Definition ip_string_to_int (ip_str : list Z) : option Z := parse_loop ip_str 0 0 24.

Fixpoint sum_words (n : nat) (data : list Z) (i sum : Z) : option Z :=
  match n with
  | O => Some sum
  | S n => w ← get_le 2 data (2 * i); sum_words n data (i + 1) (u32 (sum + w))
  end.

Fixpoint fold_carries (fuel : nat) (sum : Z) : option Z :=
  match fuel with
  | O => None
  | S fuel =>
      if Z.shiftr sum 16 =? 0 then Some sum
      else fold_carries fuel (u32 (Z.land sum 65535 + Z.shiftr sum 16))
  end.

(** Two rounds of the last loop suffice, see [fold_carries_spec]. *)
Definition ip_calculate_checksum (data : list Z) (length : Z) : option Z :=
  sum ← sum_words (Z.to_nat (length / 2)) data 0 0;
  sum ← (if negb (Z.land length 1 =? 0) then last_byte ← get_le 1 data (length - 1); Some (u32 (sum + Z.shiftl last_byte 8))
         else Some sum);
  sum ← fold_carries 3 sum;
  Some (u16 (Z.lnot sum)).

(** ** Tables *)

Section ip.
Context {H : Type} `{!Malloc H}.
Abbreviation M A := (M (ip H) A).

Definition set_conns (l : list ip_connection) (s : ip H) : ip H :=
  mk_ip (ip_interfaces s) (ip_routing_table s) l (packet_sequence s) (ip_heap s).
Definition set_sequence (n : Z) (s : ip H) : ip H :=
  mk_ip (ip_interfaces s) (ip_routing_table s) (ip_connections s) n (ip_heap s).
Definition set_heap (h : H) (s : ip H) : ip H :=
  mk_ip (ip_interfaces s) (ip_routing_table s) (ip_connections s) (packet_sequence s) h.

Definition ip_malloc (n : Z) : M Z := λ s, let '(p, h) := Interfaces.malloc n (ip_heap s) in Some (p, set_heap h s).
Definition ip_free (p : Z) : M () := modify (λ s, set_heap (mfree p (ip_heap s)) s).
(** [packet_sequence++] *)
Definition next_sequence : M Z :=
  n ← gets packet_sequence; modify (set_sequence (u32 (n + 1)));; mret n.

Definition find_route (destination_ip : Z) (s : ip H) : option (nat * ip_route) :=
  list_find (λ r, interface r ≠ None ∧ Z.land destination_ip (netmask r) = network r) (ip_routing_table s).

Definition find_interface_for_destination (destination_ip : Z) (s : ip H) : option nat :=
  match find_route destination_ip s with Some (_, route) => interface route | None => None end.

Definition upd_conn (i : nat) (f : ip_connection → ip_connection) : M () :=
  modify (λ s, set_conns (alter f i (ip_connections s)) s).

Definition set_cstate (x : ip_connection_state) (c : ip_connection) : ip_connection :=
  mk_conn (local_ip c) (remote_ip c) (local_port c) (remote_port c) x (c_protocol c) (sequence_number c) (acknowledgement_number c).

Definition allocate_connection : M (option nat) :=
  found ← gets (λ s, list_find (λ c, c_state c = IP_CONN_CLOSED) (ip_connections s));
  match found with
  | Some (i, _) => upd_conn i (set_cstate IP_CONN_LISTEN);; mret (Some i)
  | None => mret None
  end.

Definition find_connection (lip rip lport rport : Z) (s : ip H) : option nat :=
  fst <$> list_find (λ c, c_state c ≠ IP_CONN_CLOSED ∧ local_ip c = lip ∧ remote_ip c = rip ∧
                          local_port c = lport ∧ remote_port c = rport) (ip_connections s).

(** ** Initialisation *)

(** "192.168.1.100", "255.255.255.0" and "192.168.1.1" *)
Definition default_ip : list Z := [49; 57; 50; 46; 49; 54; 56; 46; 49; 46; 49; 48; 48].
Definition default_mask : list Z := [50; 53; 53; 46; 50; 53; 53; 46; 50; 53; 53; 46; 48].
Definition default_gateway : list Z := [49; 57; 50; 46; 49; 54; 56; 46; 49; 46; 49].

Definition new_interface (dev : nat) (interface_count : Z) : option ip_interface :=
  a ← ip_string_to_int default_ip;
  m ← ip_string_to_int default_mask;
  g ← ip_string_to_int default_gateway;
  Some (mk_if (u32 (a + interface_count)) m g (Some dev) true).

(** The loop runs while a network device is found, which is always the same one,
    and a free interface is left: [n] of them. *)
Fixpoint init_loop {W} `{!PciBus W} (n : nat) (devices : pci W) (interface_count : Z) : M Z :=
  match pci_scan_for_class PCI_CLASS_NETWORK 0 devices, n with
  | Some (dev, _), S n =>
      i ← lift (new_interface dev interface_count);
      let k := Z.to_nat interface_count in
      let r := mk_route (Z.land (ip_address i) (subnet_mask i)) (subnet_mask i) (if_gateway i) (Some k) in
      modify (λ s, mk_ip (<[k := i]> (ip_interfaces s)) (<[k := r]> (ip_routing_table s))
                         (ip_connections s) (packet_sequence s) (ip_heap s));;
      init_loop n devices (interface_count + 1)
  | _, _ => mret interface_count
  end.

Definition ip_init {W} `{!PciBus W} (devices : pci W) : M Z :=
  modify (λ s, mk_ip (replicate (Z.to_nat MAX_IP_INTERFACES) zero_if) (replicate (Z.to_nat MAX_IP_ROUTES) zero_route)
                     (replicate (Z.to_nat MAX_IP_CONNECTIONS) zero_conn) (packet_sequence s) (ip_heap s));;
  init_loop (Z.to_nat MAX_IP_INTERFACES) devices 0.

(** ** Sending *)

Definition SIZEOF_IP_PACKET : Z := 20.
(** [struct ip_packet] *)
Definition ip_layout : list nat := [1; 1; 2; 2; 2; 1; 1; 2; 4; 4]%nat.

Definition ip_header (total_length identification protocol checksum source destination : Z) : list Z :=
  pack ip_layout [69; 0; total_length; u16 identification; 0; 64; protocol; checksum; source; destination].

Definition build_packet (total_length identification protocol source destination : Z) (data : list Z) : option (list Z) :=
  let packet := ip_header total_length identification protocol 0 source destination ++ data in
  sum ← ip_calculate_checksum packet SIZEOF_IP_PACKET;
  put_le 2 packet 10 sum.

(** [data_length] is the length of [data]; where header and data do not fit
    into 16 bits the block is too small for them. *)
Definition ip_send_packet (destination_ip protocol : Z) (data : list Z) : M Z :=
  source ← gets (find_interface_for_destination destination_ip);
  match source with
  | None => mret (-1)
  | Some i =>
      source_interface ← (ifs ← gets ip_interfaces; lift (ifs !! i));
      let data_length := Z.of_nat (length data) in
      let total_length := u16 (SIZEOF_IP_PACKET + data_length) in
      packet ← ip_malloc total_length;
      if packet =? 0 then mret (-1) else
      identification ← next_sequence;
      if total_length <? SIZEOF_IP_PACKET + data_length then fault else
      _ ← lift (build_packet total_length identification protocol (ip_address source_interface) destination_ip data);
      ip_free packet;;
      mret 0
  end.

(** ** Receiving *)

(** [struct icmp_header] *)
Definition icmp_layout : list nat := [1; 1; 2; 2; 2]%nat.

Definition receive_icmp (packet : list Z) (payload_length : Z) : M Z :=
  type ← lift (get_le 1 packet (SIZEOF_IP_PACKET + offset_of icmp_layout 0));
  if type =? 8 then
    reply ← ip_malloc payload_length;
    if reply =? 0 then mret (-1) else
    data ← lift (slice packet 20 payload_length);
    data ← lift (put_le 1 data (offset_of icmp_layout 0) 0);
    data ← lift (put_le 2 data (offset_of icmp_layout 2) 0);
    sum ← lift (ip_calculate_checksum data payload_length);
    data ← lift (put_le 2 data (offset_of icmp_layout 2) sum);
    source_ip ← lift (get_le 4 packet 12);
    ip_send_packet source_ip IP_PROTOCOL_ICMP data;;
    ip_free reply;;
    mret 0
  else mret 0.

Definition SIZEOF_TCP_HEADER : Z := 20.
(** [struct tcp_header] *)
Definition tcp_layout : list nat := [2; 2; 4; 4; 1; 1; 2; 2; 2]%nat.

(** The answer to a connection request; the fields that the code does not set
    keep what the block held, [junk]. *)
Definition syn_ack_segment (junk : Z * Z * Z) (sport dport seq ack : Z) : list Z :=
  let '(data_offset, checksum, urgent) := junk in
  pack tcp_layout [sport; dport; seq; ack; data_offset; 18; 65535; checksum; urgent].

Definition accept_syn (lip rip lport rport seq : Z) (c : ip_connection) : ip_connection :=
  mk_conn lip rip lport rport IP_CONN_SYN_RECEIVED (c_protocol c) seq (acknowledgement_number c).

Definition receive_tcp (junk : Z * Z * Z) (packet : list Z) : M Z :=
  source_ip ← lift (get_le 4 packet 12);
  destination_ip ← lift (get_le 4 packet 16);
  source_port ← lift (get_le 2 packet 20);
  destination_port ← lift (get_le 2 packet 22);
  found ← gets (find_connection destination_ip source_ip destination_port source_port);
  conn ← match found with Some i => mret (Some i) | None => allocate_connection end;
  match conn with
  | None => mret (-1)
  | Some i =>
      flags ← lift (get_le 1 packet 33);
      if Z.land flags 23 =? 2 then
        seq ← next_sequence;
        upd_conn i (accept_syn destination_ip source_ip destination_port source_port seq);;
        syn_ack ← ip_malloc SIZEOF_TCP_HEADER;
        if syn_ack =? 0 then mret (-1) else
        their_seq ← lift (get_le 4 packet 24);
        ip_send_packet source_ip IP_PROTOCOL_TCP
          (syn_ack_segment junk destination_port source_port seq (u32 (their_seq + 1)));;
        ip_free syn_ack;;
        mret 0
      else if Z.land flags 23 =? 16 then upd_conn i (set_cstate IP_CONN_ESTABLISHED);; mret 0
      else if Z.land flags 23 =? 17 then upd_conn i (set_cstate IP_CONN_CLOSE_WAIT);; mret 0
      else mret 0
  end.

(** The answer and the packet, in which the checksum field is cleared; the
    length that the caller passes is not used. *)
Definition ip_receive_packet (junk : Z * Z * Z) (packet : list Z) : M (Z * list Z) :=
  version_ihl ← lift (get_le 1 packet 0);
  if negb (Z.land version_ihl 240 =? 64) || negb (Z.land version_ihl 15 * 4 =? 20) then mret (-1, packet) else
  original_checksum ← lift (get_le 2 packet 10);
  packet ← lift (put_le 2 packet 10 0);
  calculated_checksum ← lift (ip_calculate_checksum packet SIZEOF_IP_PACKET);
  if negb (original_checksum =? calculated_checksum) then mret (-1, packet) else
  destination_ip ← lift (get_le 4 packet 16);
  dest_interface ← gets (find_interface_for_destination destination_ip);
  match dest_interface with
  | None => mret (-1, packet)
  | Some _ =>
      total_length ← lift (get_le 2 packet 2);
      let payload_length := u16 (total_length - SIZEOF_IP_PACKET) in
      protocol ← lift (get_le 1 packet 9);
      if protocol =? IP_PROTOCOL_ICMP then r ← receive_icmp packet payload_length; mret (r, packet)
      else if protocol =? IP_PROTOCOL_TCP then r ← receive_tcp junk packet; mret (r, packet)
      else if protocol =? IP_PROTOCOL_UDP then _port ← lift (get_le 2 packet 22); mret (0, packet)
      else mret (-1, packet)
  end.
End ip.

(** ** The checksum is the ones' complement sum *)

(** The 16-bit words of a block and their sum. *)
Fixpoint words16 (data : list Z) : list Z :=
  match data with a :: b :: data => a + 256 * b :: words16 data | _ => [] end.
Definition word_sum (data : list Z) : Z := foldr Z.add 0 (words16 data).

(** The ones' complement of a sum: 65535 minus its residue, where the residue of
    a positive multiple of 65535 is 65535. *)
Definition ones_residue (n : Z) : Z := if n =? 0 then 0 else (n - 1) mod 65535 + 1.

Lemma list_pair_ind {A} (P : list A → Prop) :
  P [] → (∀ a, P [a]) → (∀ a b l, P l → P (a :: b :: l)) → ∀ l, P l.
Proof.
  intros H0 H1 H2 l. enough (P l ∧ ∀ a, P (a :: l)) as [? _] by done.
  induction l as [|x l [IH1 IH2]]; auto.
Qed.

Lemma word_sum_range data :
  Forall is_byte data → 0 <= word_sum data <= 65535 * (Z.of_nat (length data) / 2).
Proof.
  induction data as [|a|a b data IH] using list_pair_ind; intros Hd; [by vm_compute|by vm_compute|].
  apply Forall_cons in Hd as [Ha Hd]. apply Forall_cons in Hd as [Hb Hd]. specialize (IH Hd).
  unfold word_sum in *. cbn [words16 foldr length]. unfold is_byte in *.
  replace (Z.of_nat (S (S (length data)))) with (Z.of_nat (length data) + 1 * 2) by lia. rewrite Z.div_add by lia. lia.
Qed.

Lemma word_sum_app a b : Nat.Even (length a) → word_sum (a ++ b) = word_sum a + word_sum b.
Proof.
  unfold word_sum. induction a as [|x|x y a IH] using list_pair_ind; intros He; [done|destruct He; simpl in *; lia|].
  cbn [words16 app foldr]. rewrite IH; [lia|]. destruct He as [k Hk]. exists (k - 1)%nat. simpl in Hk. lia.
Qed.

(** The loop over the words adds them. *)
Lemma sum_words_spec n : ∀ data pre sum,
  (2 * n <= length data)%nat → 0 <= sum → sum + word_sum (take (2 * n) data) < 4294967296 →
  Forall is_byte data → Nat.Even (length pre) →
  sum_words n (pre ++ data) (Z.of_nat (length pre) / 2) sum = Some (sum + word_sum (take (2 * n) data)).
Proof.
  induction n as [|n IH]; intros data pre sum Hl Hs Hb Hd He; [by rewrite Z.add_0_r|]. cbn [sum_words].
  destruct data as [|a [|b data]]; [simpl in Hl; lia..|]. apply Forall_cons in Hd as [Ha Hd]. apply Forall_cons in Hd as [Hbb Hd].
  destruct He as [k Hk].
  assert (get_le 2 (pre ++ a :: b :: data) (2 * (Z.of_nat (length pre) / 2)) = Some (a + 256 * b)) as ->.
  { assert (Z.of_nat (length pre) / 2 = Z.of_nat k) as -> by (rewrite Hk; Z.to_euclidean_division_equations; lia).
    unfold get_le, slice. rewrite length_app.
    rewrite !(proj2 (Z.leb_le _ _)) by (cbn [length]; lia). cbn [andb fmap option_fmap option_map].
    replace (Z.to_nat (2 * Z.of_nat k)) with (length pre) by lia. rewrite drop_app_length. change (Z.to_nat (Z.of_nat 2)) with 2%nat.
    change (take 2 (a :: b :: data)) with [a; b]. cbn [le_dec]. f_equal. lia. }
  cbn [mbind option_bind]. replace (2 * S n)%nat with (S (S (2 * n))) in * by lia.
  change (take (S (S (2 * n))) (a :: b :: data)) with (a :: b :: take (2 * n) data) in *.
  unfold word_sum in Hb |- *. cbn [words16 foldr] in Hb |- *. fold (word_sum (take (2 * n) data)) in *.
  pose proof (word_sum_range (take (2 * n) data) ltac:(by apply Forall_take)) as Hr. unfold is_byte in *.
  rewrite u32_small by (unfold is_u32; lia).
  replace (Z.of_nat (length pre) / 2 + 1) with (Z.of_nat (length (pre ++ [a; b])) / 2)
    by (rewrite length_app; simpl; Z.to_euclidean_division_equations; lia).
  replace (pre ++ a :: b :: data) with ((pre ++ [a; b]) ++ data) by (by rewrite <- app_assoc).
  rewrite IH; [f_equal; lia|simpl in Hl; lia|lia|lia|done|]. exists (S k). rewrite length_app. simpl. lia.
Qed.

(** Two rounds bring a sum of at most 32767 words down to 16 bits. *)
Lemma fold_carries_spec n : 0 <= n <= 65535 * 32768 → fold_carries 3 n = Some (ones_residue n).
Proof.
  intros Hn. assert (∀ m, 0 <= m < 65536 → ∀ f, (0 < f)%nat → fold_carries f m = Some m) as Hdone.
  { intros m Hm [|f] Hf; [lia|]. cbn [fold_carries]. rewrite Z.shiftr_div_pow2 by lia. change (2 ^ 16) with 65536.
    by rewrite Z.div_small by lia. }
  assert (∀ m, Z.land m 65535 + Z.shiftr m 16 = m - 65535 * (m / 65536)) as Hstep.
  { intros m. change 65535 with (Z.ones 16) at 1. rewrite Z.land_ones, Z.shiftr_div_pow2 by lia. change (2 ^ 16) with 65536.
    pose proof (Z.div_mod m 65536 ltac:(lia)). lia. }
  assert (∀ m, Z.shiftr m 16 = m / 65536) as Hsh by (intros; by rewrite Z.shiftr_div_pow2).
  unfold ones_residue. destruct (decide (n < 65536)) as [Hsmall|Hbig].
  { rewrite Hdone by lia. destruct (n =? 0) eqn:?; zbool; [by subst|]. f_equal. ulia. }
  cbn [fold_carries]. rewrite !Hstep, !Hsh. rewrite (proj2 (Z.eqb_neq (n / 65536) 0)) by (Z.to_euclidean_division_equations; lia).
  rewrite (u32_small (n - _)) by (unfold is_u32; Z.to_euclidean_division_equations; lia).
  set (m := n - 65535 * (n / 65536)). assert (1 <= m < 65536 + 32768) as Hm by (unfold m; Z.to_euclidean_division_equations; lia).
  assert ((m - 1) mod 65535 = (n - 1) mod 65535) as Hmod.
  { unfold m. replace (n - 65535 * (n / 65536) - 1) with (n - 1 + - (n / 65536) * 65535) by lia. by rewrite Z.mod_add. }
  clearbody m. rewrite (proj2 (Z.eqb_neq n 0)) by lia. destruct (m / 65536 =? 0) eqn:Hq; zbool.
  - f_equal. rewrite <- Hmod, Z.mod_small; [lia|]. Z.to_euclidean_division_equations; lia.
  - assert (65536 <= m) as Hge by (Z.to_euclidean_division_equations; lia).
    assert (m / 65536 = 1) as -> by (Z.to_euclidean_division_equations; lia).
    rewrite u32_small by (unfold is_u32; lia). rewrite Z.div_small by lia. cbn. f_equal. rewrite <- Hmod.
    replace (m - 1) with (m - 65536 + 1 * 65535) by lia. rewrite Z.mod_add, Z.mod_small by lia. lia.
Qed.

Lemma ones_residue_range n : 0 <= n → 0 <= ones_residue n <= 65535.
Proof. intros Hn. unfold ones_residue. destruct (n =? 0) eqn:?; zbool; [lia|]. pose proof (Z.mod_pos_bound (n - 1) 65535). lia. Qed.

(** The checksum of the first [k] words. *)
Lemma checksum_even data k :
  Forall is_byte data → (2 * k <= length data)%nat → Z.of_nat k <= 32767 →
  ip_calculate_checksum data (2 * Z.of_nat k) = Some (65535 - ones_residue (word_sum (take (2 * k) data))).
Proof.
  intros Hd Hl Hk. unfold ip_calculate_checksum. pose proof (word_sum_range (take (2 * k) data) ltac:(by apply Forall_take)) as Hr.
  rewrite length_take, Nat.min_l in Hr by done.
  assert (2 * Z.of_nat k / 2 = Z.of_nat k) as -> by (Z.to_euclidean_division_equations; lia).
  assert (Z.of_nat (2 * k) / 2 = Z.of_nat k) as Hdiv by (Z.to_euclidean_division_equations; lia). rewrite Hdiv in Hr.
  rewrite Nat2Z.id. pose proof (sum_words_spec k data [] 0) as Hsum. cbn [app length] in Hsum.
  change (Z.of_nat 0 / 2) with 0 in Hsum. rewrite Hsum; [|done|lia|lia|done|by exists 0%nat]. cbn [mbind option_bind].
  assert (Z.land (2 * Z.of_nat k) 1 = 0) as ->.
  { change 1 with (Z.ones 1). rewrite Z.land_ones by lia. change (2 ^ 1) with 2. Z.to_euclidean_division_equations; lia. }
  change (0 =? 0) with true. cbn [negb]. cbn [mbind option_bind]. rewrite Z.add_0_l, fold_carries_spec by lia. cbn [mbind option_bind].
  pose proof (ones_residue_range (word_sum (take (2 * k) data)) ltac:(lia)) as Hres. f_equal.
  set (x := ones_residue _) in *. clearbody x. unfold Z.lnot, u16.
  replace (Z.pred (- x)) with (65535 - x + (-1) * 65536) by lia. rewrite Z.mod_add, Z.mod_small by lia. lia.
Qed.

(** Adding the checksum makes the sum of the words a positive multiple of 65535. *)
Lemma ones_residue_complement n : 0 <= n → ones_residue (n + (65535 - ones_residue n)) = 65535.
Proof.
  intros Hn. unfold ones_residue. destruct (n =? 0) eqn:H0; zbool; [by subst|].
  pose proof (Z.mod_pos_bound (n - 1) 65535 ltac:(lia)) as Hb. rewrite (proj2 (Z.eqb_neq _ _)) by lia.
  replace (n + (65535 - ((n - 1) mod 65535 + 1)) - 1) with (65534 + ((n - 1) / 65535) * 65535)
    by (pose proof (Z.div_mod (n - 1) 65535 ltac:(lia)); lia).
  rewrite Z.mod_add by lia. done.
Qed.

Lemma word_sum_field pre x post : Nat.Even (length pre) → is_u16 x →
  word_sum (pre ++ le_enc 2 x ++ post) = word_sum (pre ++ [0; 0] ++ post) + x.
Proof.
  intros He Hx. rewrite (word_sum_app pre (le_enc 2 x ++ post)), (word_sum_app pre ([0; 0] ++ post)) by done. unfold word_sum. cbn [le_enc app words16 foldr]. unfold is_u16 in *.
  Z.to_euclidean_division_equations. lia.
Qed.

Lemma checksum_verifies pre post c k :
  Forall is_byte pre → Forall is_byte post → Nat.Even (length pre) →
  Z.of_nat k <= 32767 → (length pre + 2 <= 2 * k <= length pre + 2 + length post)%nat →
  ip_calculate_checksum (pre ++ [0; 0] ++ post) (2 * Z.of_nat k) = Some c →
  is_u16 c ∧ ip_calculate_checksum (pre ++ le_enc 2 c ++ post) (2 * Z.of_nat k) = Some 0.
Proof.
  intros Hpre Hpost He Hk Hl Hc.
  assert (∀ x, (2 * k <= length (pre ++ le_enc 2 x ++ post))%nat) as Hlen by (intros; rewrite !length_app, le_enc_length; lia).
  assert (∀ x, take (2 * k) (pre ++ le_enc 2 x ++ post) = pre ++ le_enc 2 x ++ take (2 * k - length pre - 2) post) as Htake.
  { intros x. rewrite take_app_ge by lia. rewrite take_app_ge by (rewrite le_enc_length; lia). by rewrite le_enc_length. }
  assert (∀ x, Forall is_byte (pre ++ le_enc 2 x ++ post)) as Hb by (intros; apply Forall_app; split; [done|apply Forall_app; split; [apply le_enc_bytes|done]]).
  change [0; 0] with (le_enc 2 0) in Hc. rewrite checksum_even, Htake in Hc by (done || apply Hlen || apply Hb).
  set (w := word_sum (pre ++ le_enc 2 0 ++ take (2 * k - length pre - 2) post)) in *. assert (c = 65535 - ones_residue w) as -> by congruence. assert (0 <= w) as Hw by (apply word_sum_range; rewrite <- (Htake 0); apply Forall_take, Hb).
  pose proof (ones_residue_range w Hw) as Hr. assert (is_u16 (65535 - ones_residue w)) as Hu by (unfold is_u16; lia). split; [done|].
  rewrite checksum_even, Htake by (done || apply Hlen || apply Hb). rewrite word_sum_field by done.
  change (word_sum (pre ++ [0; 0] ++ _)) with w. by rewrite ones_residue_complement by done.
Qed.

(** ** Dotted quads *)

Definition is_digit (c : Z) : Prop := 48 <= c < 58.

Lemma parse_digits ds : ∀ rest ip octet shift,
  Forall is_digit ds → foldl (λ v c, v * 10 + (c - 48)) octet ds < 256 → 0 <= octet →
  parse_loop (ds ++ rest) ip octet shift = parse_loop rest ip (foldl (λ v c, v * 10 + (c - 48)) octet ds) shift.
Proof.
  induction ds as [|c ds IH]; intros rest ip octet shift Hd Hv Ho; [done|]. apply Forall_cons in Hd as [Hc Hd]. unfold is_digit in Hc.
  cbn [app parse_loop foldl] in *. rewrite (proj2 (Z.leb_le 48 c)), (proj2 (Z.leb_le c 57)) by lia. cbn [andb].
  assert (∀ v, 0 <= v → v <= foldl (λ v c, v * 10 + (c - 48)) v ds) as Hmono.
  { clear -Hd. induction Hd as [|c ds Hc _ IHd]; intros v Hv; [cbn; lia|]. cbn [foldl]. unfold is_digit in Hc.
    specialize (IHd (v * 10 + (c - 48)) ltac:(lia)). lia. }
  specialize (Hmono (octet * 10 + (c - 48)) ltac:(lia)). rewrite u8_small by (unfold is_u8; lia). apply IH; [done|done|lia].
Qed.

Definition dotted (a b c d : list Z) : list Z := a ++ 46 :: b ++ 46 :: c ++ 46 :: d.
Definition decimal (ds : list Z) : Z := foldl (λ v c, v * 10 + (c - 48)) 0 ds.

Lemma lor_add a b k : 0 <= k → 0 <= b < 2 ^ k → a mod 2 ^ k = 0 → Z.lor a b = a + b.
Proof.
  intros Hk Hb Ha. assert (Z.land a b = 0) as Hl; [|by rewrite <- Z.lxor_lor, <- Z.add_nocarry_lxor by done].
  apply Z.bits_inj'. intros n Hn. rewrite Z.land_spec, Z.bits_0. destruct (decide (n < k)).
  - assert (Z.testbit a n = false) as ->; [|done]. rewrite <- (Z.mod_pow2_bits_low a k n) by lia. by rewrite Ha, Z.bits_0.
  - rewrite (bits_above b k n) by lia. apply andb_false_r.
Qed.

Lemma parse_quad a b c d :
  Forall is_digit a → Forall is_digit b → Forall is_digit c → Forall is_digit d →
  decimal a < 256 → decimal b < 256 → decimal c < 256 → decimal d < 256 →
  ip_string_to_int (dotted a b c d) = Some (decimal a * 16777216 + decimal b * 65536 + decimal c * 256 + decimal d).
Proof.
  intros Ha Hb Hc Hd Hav Hbv Hcv Hdv. unfold ip_string_to_int, dotted.
  assert (∀ ds, Forall is_digit ds → 0 <= decimal ds) as Hpos.
  { intros ds Hds. unfold decimal. assert (∀ v, 0 <= v → 0 <= foldl (λ v c, v * 10 + (c - 48)) v ds) as Hg; [|by apply Hg].
    induction Hds as [|x ds Hx _ IH]; intros v Hv; [done|]. cbn [foldl]. apply IH. unfold is_digit in Hx. lia. }
  pose proof (Hpos a Ha). pose proof (Hpos b Hb). pose proof (Hpos c Hc). pose proof (Hpos d Hd). clear Hpos.
  rewrite parse_digits by (done || lia). fold (decimal a). cbn [parse_loop]. change ((48 <=? 46) && (46 <=? 57)) with false. cbn iota.
  change (46 =? 46) with true. change (32 <=? 24) with false. cbn iota. change (u8 (24 - 8)) with 16.
  rewrite parse_digits by (done || lia). fold (decimal b). cbn [parse_loop]. change ((48 <=? 46) && (46 <=? 57)) with false. cbn iota.
  change (46 =? 46) with true. change (32 <=? 16) with false. cbn iota. change (u8 (16 - 8)) with 8.
  rewrite parse_digits by (done || lia). fold (decimal c). cbn [parse_loop]. change ((48 <=? 46) && (46 <=? 57)) with false. cbn iota.
  change (46 =? 46) with true. change (32 <=? 8) with false. cbn iota. change (u8 (8 - 8)) with 0.
  rewrite <- (app_nil_r d), parse_digits by (done || lia). rewrite app_nil_r. fold (decimal d). cbn [parse_loop]. f_equal.
  rewrite !Z.shiftl_mul_pow2 by lia. change (2 ^ 24) with 16777216. change (2 ^ 16) with 65536. change (2 ^ 8) with 256.
  rewrite !u32_small by (unfold is_u32; lia). rewrite Z.lor_0_l.
  rewrite (lor_add _ (decimal b * 65536) 24) by (try lia; change (2 ^ 24) with 16777216; Z.to_euclidean_division_equations; lia).
  rewrite (lor_add _ (decimal c * 256) 16) by (try lia; change (2 ^ 16) with 65536; Z.to_euclidean_division_equations; lia).
  rewrite (lor_add _ (decimal d) 8) by (try lia; change (2 ^ 8) with 256; Z.to_euclidean_division_equations; lia). lia.
Qed.

(** ** Packets *)

Section packets.
Context {H : Type} `{HM : !Malloc H}.
Implicit Types s : ip H.

(** Cutting a packet at its checksum field. *)
Lemma split_field packet x :
  Forall is_byte packet → get_le 2 packet 10 = Some x →
  packet = take 10 packet ++ le_enc 2 x ++ drop 12 packet ∧ length (take 10 packet) = 10%nat ∧
  put_le 2 packet 10 0 = Some (take 10 packet ++ [0; 0] ++ drop 12 packet).
Proof.
  intros Hb Hx. unfold get_le in Hx. destruct (slice packet 10 (Z.of_nat 2)) as [l|] eqn:Hs; [|done]. injection Hx as <-.
  pose proof (slice_length _ _ _ _ Hs) as Hl. pose proof (slice_bytes _ _ _ _ Hs Hb) as Hlb.
  assert (length l = 2%nat) as Hl2 by lia. pose proof (le_enc_dec l Hlb) as He. rewrite Hl2 in He. rewrite He. clear He. unfold slice in Hs. destruct (_ && _)%bool eqn:Hc; [|done].
  zbool. injection Hs as <-. change (Z.to_nat 10) with 10%nat. change (Z.to_nat (Z.of_nat 2)) with 2%nat.
  assert (length (take 10 packet) = 10%nat) as Ht by (rewrite length_take; lia). split; [|split; [done|]].
  - rewrite <- (take_drop 10 packet) at 1. f_equal. rewrite <- (take_drop 2 (drop 10 packet)) at 1. f_equal. by rewrite drop_drop.
  - unfold put_le, splice. change (le_enc 2 0) with [0; 0]. rewrite (proj2 (Z.leb_le _ _)) by lia. rewrite (proj2 (Z.leb_le _ _)) by (cbn [length]; lia). done.
Qed.

(** A header whose checksum was accepted adds up. *)
Lemma accepted_checksum packet x packet' :
  Forall is_byte packet → (20 <= length packet)%nat → get_le 2 packet 10 = Some x → put_le 2 packet 10 0 = Some packet' →
  ip_calculate_checksum packet' 20 = Some x → ip_calculate_checksum packet 20 = Some 0.
Proof.
  intros Hb Hl Hx Hp Hc. destruct (split_field packet x Hb Hx) as (Hsplit & Ht & Hp'). rewrite Hp' in Hp. injection Hp as <-.
  rewrite Hsplit. apply (checksum_verifies (take 10 packet) (drop 12 packet) x 10); [by apply Forall_take|by apply Forall_drop| |lia| |exact Hc].
  - rewrite Ht. by exists 5%nat.
  - rewrite Ht, length_drop. lia.
Qed.

(** The routes name existing interfaces. *)
Definition routes_ok s : Prop :=
  ∀ r i, r ∈ ip_routing_table s → interface r = Some i → (i < length (ip_interfaces s))%nat.

Lemma find_interface_valid s d i : routes_ok s → find_interface_for_destination d s = Some i → is_Some (ip_interfaces s !! i).
Proof.
  intros Hok Hf. unfold find_interface_for_destination, find_route in Hf. destruct (list_find _ _) as [[j r]|] eqn:Hr; [|done].
  apply list_find_Some in Hr as (Hr & _). apply lookup_lt_is_Some. eapply Hok; [|exact Hf]. by eapply list_elem_of_lookup_2.
Qed.

Lemma ip_header_length a b c d e f : length (ip_header a b c d e f) = 20%nat.
Proof. done. Qed.

Lemma ip_header_split total id protocol c source dest :
  ip_header total id protocol c source dest = take 10 (ip_header total id protocol 0 source dest) ++ le_enc 2 c ++ drop 12 (ip_header total id protocol 0 source dest).
Proof. done. Qed.

(** What is built has a right checksum. *)
Lemma build_packet_spec total id protocol source dest data :
  Forall is_byte data →
  ∃ c, is_u16 c ∧ ip_calculate_checksum (ip_header total id protocol 0 source dest ++ data) 20 = Some c ∧
    build_packet total id protocol source dest data = Some (ip_header total id protocol c source dest ++ data).
Proof.
  intros Hd. set (hd := ip_header total id protocol 0 source dest).
  assert (Forall is_byte hd) as Hh by apply pack_bytes.
  assert (Forall is_byte (hd ++ data)) as Hb by (by apply Forall_app).
  pose proof (checksum_even (hd ++ data) 10 Hb ltac:(rewrite length_app; cbn; lia) ltac:(lia)) as Hc. change (2 * Z.of_nat 10) with 20 in Hc.
  set (c := 65535 - _) in Hc. exists c.
  assert (is_u16 c). { unfold c, is_u16. pose proof (ones_residue_range (word_sum (take (2 * 10) (hd ++ data)))) as Hr.
    pose proof (word_sum_range (take (2 * 10) (hd ++ data)) ltac:(by apply Forall_take)). lia. }
  split; [done|]. split; [done|]. unfold build_packet. fold hd. change SIZEOF_IP_PACKET with 20. rewrite Hc. cbn [mbind option_bind].
  unfold put_le, splice. rewrite (proj2 (Z.leb_le _ _)), (proj2 (Z.leb_le (10 + _) _)) by (rewrite ?length_app, ?le_enc_length; cbn; lia).
  cbn [andb]. rewrite (ip_header_split total id protocol c). fold hd. rewrite le_enc_length. change (Z.to_nat 10) with 10%nat.
  rewrite take_app_le, drop_app_le by (cbn; lia). by rewrite <- !app_assoc.
Qed.

(** Sending keeps the tables. *)
Lemma wp_ip_send d protocol data s :
  routes_ok s → Forall is_byte data → Z.of_nat (length data) <= 65515 →
  wp (ip_send_packet d protocol data) (λ r s', (r = 0 ∨ r = -1) ∧ ip_connections s' = ip_connections s) s.
Proof.
  intros Hok Hd Hl. unfold ip_send_packet. apply wp_bind, wp_gets. destruct (find_interface_for_destination d s) as [i|] eqn:Hi; [|apply wp_ret; auto].
  destruct (find_interface_valid s d i Hok Hi) as [ifc Hifc]. apply wp_bind, wp_bind, wp_gets. eapply wp_lift; [exact Hifc|].
  apply wp_bind. unfold SIZEOF_IP_PACKET. rewrite u16_small by (unfold is_u16; lia). unfold wp at 1, ip_malloc.
  destruct (Interfaces.malloc _ (ip_heap s)) as [p h]. destruct (p =? 0); [apply wp_ret; auto|].
  apply wp_bind, wp_bind, wp_gets, wp_bind, wp_modify, wp_ret. rewrite (proj2 (Z.ltb_ge _ _)) by lia.
  destruct (build_packet_spec (20 + Z.of_nat (length data)) (packet_sequence (set_heap h s)) protocol (ip_address ifc) d data Hd) as (c & _ & _ & Hbp).
  apply wp_bind. eapply wp_lift; [exact Hbp|]. apply wp_bind, wp_modify, wp_ret. auto.
Qed.
End packets.

(** ** Connections *)

Lemma alter_at {A} (f : A → A) (i : nat) (l : list A) x : l !! i = Some x → alter f i l = <[i := f x]> l.
Proof.
  revert i. induction l as [|y l IH]; intros [|i] Hi; [done|done|by injection Hi as ->|]. cbn. f_equal. by apply IH.
Qed.

Section connections.
Context {H : Type} `{HM : !Malloc H}.
Implicit Types s : ip H.

Lemma find_connection_new lip rip lport rport i c l s :
  find_connection lip rip lport rport s = None → ip_connections s !! i = Some c →
  c_state l ≠ IP_CONN_CLOSED → local_ip l = lip → remote_ip l = rip → local_port l = lport → remote_port l = rport →
  find_connection lip rip lport rport (set_conns (<[i := l]> (ip_connections s)) s) = Some i.
Proof.
  intros Hn Hi Hst <- <- <- <-. unfold find_connection in *. cbn [ip_connections set_conns].
  destruct (list_find _ (ip_connections s)) as [[j c']|] eqn:Hl; [done|]. apply list_find_None in Hl.
  assert (i < length (ip_connections s))%nat as Hlt by (by eapply lookup_lt_Some).
  assert (list_find (λ c, c_state c ≠ IP_CONN_CLOSED ∧ local_ip c = local_ip l ∧ remote_ip c = remote_ip l ∧
                          local_port c = local_port l ∧ remote_port c = remote_port l) (<[i := l]> (ip_connections s)) = Some (i, l)) as ->; [|done].
  apply list_find_Some. split; [by apply list_lookup_insert_eq|]. split; [done|]. intros k y Hy Hk.
  rewrite list_lookup_insert_ne in Hy by lia. rewrite Forall_forall in Hl. apply Hl. by eapply list_elem_of_lookup_2.
Qed.

Lemma wp_receive_syn junk packet src dst sport dport fl seq i c s :
  routes_ok s → get_le 4 packet 12 = Some src → get_le 4 packet 16 = Some dst →
  get_le 2 packet 20 = Some sport → get_le 2 packet 22 = Some dport →
  get_le 1 packet 33 = Some fl → Z.land fl 23 = 2 → get_le 4 packet 24 = Some seq →
  find_connection dst src dport sport s = None →
  list_find (λ c, c_state c = IP_CONN_CLOSED) (ip_connections s) = Some (i, c) →
  wp (receive_tcp junk packet)
    (λ r s', (r = 0 ∨ r = -1) ∧
       ip_connections s' = <[i := accept_syn dst src dport sport (packet_sequence s) c]> (ip_connections s)) s.
Proof.
  intros Hok Hsrc Hdst Hsp Hdp Hfl Hsyn Hseq Hnew Hfree. unfold receive_tcp.
  do 4 (apply wp_bind; eapply wp_lift; [eassumption|]). apply wp_bind, wp_gets. rewrite Hnew.
  apply wp_bind. unfold allocate_connection. apply wp_bind, wp_gets. rewrite Hfree.
  apply wp_bind, wp_modify, wp_ret. apply wp_bind. eapply wp_lift; [exact Hfl|]. rewrite Hsyn. cbn [Z.eqb Pos.eqb].
  change (2 =? 2) with true. cbn iota. apply wp_bind, wp_bind, wp_gets, wp_bind, wp_modify, wp_ret.
  apply wp_bind, wp_modify. cbn [packet_sequence set_conns set_sequence ip_connections].
  apply list_find_Some in Hfree as (Hi & _ & _).
  set (conns := alter _ i (alter _ i (ip_connections s))).
  assert (conns = <[i := accept_syn dst src dport sport (packet_sequence s) c]> (ip_connections s)) as Hconns.
  { unfold conns. rewrite (alter_at (set_cstate IP_CONN_LISTEN) i _ c Hi).
    rewrite (alter_at _ i _ (set_cstate IP_CONN_LISTEN c)) by (apply list_lookup_insert_eq; by eapply lookup_lt_Some).
    by rewrite list_insert_insert_eq. }
  apply wp_bind. unfold wp at 1, ip_malloc. destruct (Interfaces.malloc _ _) as [p h].
  destruct (p =? 0); [apply wp_ret; split; [by right|exact Hconns]|].
  apply wp_bind. eapply wp_lift; [exact Hseq|]. apply wp_bind. eapply wp_mono; [apply wp_ip_send|].
  - exact Hok.
  - destruct junk as [[j1 j2] j3]. apply pack_bytes.
  - destruct junk as [[j1 j2] j3]. unfold syn_ack_segment. rewrite pack_length by done. cbn. lia.
  - intros r s' [_ Hs']. apply wp_bind, wp_modify, wp_ret. split; [by left|]. cbn [ip_connections set_heap]. rewrite Hs'. exact Hconns.
Qed.
End connections.

(** ** Theorems *)

(** A block with its own checksum in a 16-bit field at an even offset sums up
    to the checksum 0, which is what a receiver computes. *)
Theorem ip_checksum_verifies pre post :
  Forall is_byte pre → Forall is_byte post → Nat.Even (length pre) → Nat.Even (length post) →
  Z.of_nat (length pre + 2 + length post) <= 65534 →
  ∃ c, ip_calculate_checksum (pre ++ [0; 0] ++ post) (Z.of_nat (length pre + 2 + length post)) = Some c ∧ is_u16 c ∧
    ip_calculate_checksum (pre ++ le_enc 2 c ++ post) (Z.of_nat (length pre + 2 + length post)) = Some 0.
Proof.
  intros Hpre Hpost [i Hi] [j Hj] Hl. set (k := (i + 1 + j)%nat).
  assert (Z.of_nat (length pre + 2 + length post) = 2 * Z.of_nat k) as -> by lia.
  assert (Forall is_byte (pre ++ [0; 0] ++ post)) as Hb by (apply Forall_app; split; [done|by repeat constructor]).
  eexists. split; [apply checksum_even; [done|rewrite !length_app; cbn; lia|lia]|].
  apply checksum_verifies; [done|done|by exists i|lia|lia|]. apply checksum_even; [done|rewrite !length_app; cbn; lia|lia].
Qed.

(** A dotted quad of decimal numbers below 256 is read as the 32-bit address
    with the first number in the highest byte. *)
Theorem ip_string_to_int_correct a b c d :
  Forall is_digit a → Forall is_digit b → Forall is_digit c → Forall is_digit d →
  decimal a < 256 → decimal b < 256 → decimal c < 256 → decimal d < 256 →
  ip_string_to_int (dotted a b c d) = Some (decimal a * 16777216 + decimal b * 65536 + decimal c * 256 + decimal d).
Proof. apply parse_quad. Qed.

(** A packet is accepted only with the version and length byte 0x45, a header
    that sums up to the checksum 0, and a destination for which there is a route. *)
Theorem ip_receive_checked {H} `{!Malloc H} junk packet packet' (s s' : ip H) :
  Forall is_byte packet → ip_receive_packet junk packet s = Some ((0, packet'), s') →
  (20 <= length packet)%nat ∧ get_le 1 packet 0 = Some 69 ∧ ip_calculate_checksum packet 20 = Some 0 ∧
  ∃ d i, get_le 4 packet 16 = Some d ∧ find_interface_for_destination d s = Some i.
Proof.
  intros Hb Hr. unfold ip_receive_packet in Hr.
  apply run_bind in Hr as (v & s1 & Hv & Hr). unfold lift in Hv. destruct (get_le 1 packet 0) as [v0|] eqn:Hv0; [|done]. injection Hv as <- <-.
  destruct (_ || _)%bool eqn:Hver; [by injection Hr|]. apply orb_false_iff in Hver as [Hv1 Hv2]. apply negb_false_iff in Hv1, Hv2. zbool.
  apply run_bind in Hr as (x & s2 & Hx & Hr). unfold lift in Hx. destruct (get_le 2 packet 10) as [x0|] eqn:Hx0; [|done]. injection Hx as <- <-.
  destruct (split_field packet x0 Hb Hx0) as (Hsplit & Ht & Hp).
  apply run_bind in Hr as (p & s2 & Hpp & Hr). rewrite Hp in Hpp. injection Hpp as <- <-. set (pk := take 10 packet ++ _) in *.
  apply run_bind in Hr as (c & s2 & Hc & Hr). unfold lift in Hc. change SIZEOF_IP_PACKET with 20 in *.
  destruct (ip_calculate_checksum pk 20) as [c0|] eqn:Hc0; [|done]. injection Hc as <- <-.
  destruct (x0 =? c0) eqn:Heq; cbn [negb] in Hr; [|by injection Hr]. zbool. subst c0.
  apply run_bind in Hr as (d & s2 & Hd & Hr). unfold lift in Hd. destruct (get_le 4 pk 16) as [d0|] eqn:Hd0; [|done]. injection Hd as <- <-.
  assert (get_le 4 packet 16 = Some d0) as Hd1.
  { rewrite <- Hd0. symmetry. eapply get_put_other; [exact Hp|lia|lia]. }
  assert (20 <= length packet)%nat as Hlen.
  { unfold get_le in Hd1. destruct (slice packet 16 (Z.of_nat 4)) eqn:Hsl; [|done]. unfold slice in Hsl. destruct (_ && _)%bool eqn:Hs; [|done]. zbool. lia. }
  apply run_bind in Hr as (o & s2 & Ho & Hr). injection Ho as <- <-.
  destruct (find_interface_for_destination d0 s) as [i|] eqn:Hi; [|by injection Hr]. split; [done|]. split; [|split; [|by exists d0, i]].
  - f_equal. assert (is_byte v0) as Hv0b.
    { unfold get_le in Hv0. destruct (slice packet 0 (Z.of_nat 1)) as [l|] eqn:Hs; [|done]. injection Hv0 as <-.
      pose proof (slice_bytes _ _ _ _ Hs Hb) as Hlb. pose proof (slice_length _ _ _ _ Hs). destruct l as [|y [|]]; simpl in *; [lia| |lia].
      apply Forall_cons in Hlb as [Hy _]. unfold is_byte in *. lia. }
    change 15 with (Z.ones 4) in Hv2. rewrite Z.land_ones in Hv2 by lia. change (2 ^ 4) with 16 in Hv2.
    change 240 with (2 ^ 8 - 2 ^ 4) in Hv1. unfold is_byte in Hv0b. rewrite (land_high_mask v0 4 8) in Hv1 by (change (2 ^ 8) with 256; lia).
    change (2 ^ 4) with 16 in Hv1. Z.to_euclidean_division_equations. lia.
  - by eapply accepted_checksum.
Qed.

(** C25: a datagram built by [ip_send_packet] passes the checks of the receiver:
    where there is a route to its destination it is accepted, the tables
    unchanged. *)
Theorem ip_send_receive_roundtrip {H} `{!Malloc H} junk total id source dest data packet (s : ip H) :
  is_u16 total → is_u32 source → is_u32 dest → Forall is_byte data → (4 <= length data)%nat →
  build_packet total id IP_PROTOCOL_UDP source dest data = Some packet →
  find_interface_for_destination dest s ≠ None →
  ip_receive_packet junk packet s = Some ((0, ip_header total id IP_PROTOCOL_UDP 0 source dest ++ data), s).
Proof.
  intros Ht Hs Hdst Hd Hl Hb Hroute.
  destruct (build_packet_spec total id IP_PROTOCOL_UDP source dest data Hd) as (c & Hc & Hsum & Hb'). assert (packet = ip_header total id IP_PROTOCOL_UDP c source dest ++ data) as -> by congruence.
  set (hd := ip_header total id IP_PROTOCOL_UDP 0 source dest) in *.
  set (hc := ip_header total id IP_PROTOCOL_UDP c source dest) in *.
  assert (∀ n off, 0 <= off → off + Z.of_nat n <= 20 → ∀ h, length h = 20%nat → get_le n (h ++ data) off = get_le n h off) as Hget.
  { intros n off Ho Hn h Hh. unfold get_le, slice. rewrite length_app, Hh.
    rewrite !(proj2 (Z.leb_le 0 _)), !(proj2 (Z.leb_le (off + _) _)) by lia. cbn [andb]. do 2 f_equal.
    rewrite drop_app_le by lia. apply take_app_le. rewrite length_drop. lia. }
  unfold ip_receive_packet. unfold mbind, M_bind, lift.
  rewrite (Hget 1%nat 0), (Hget 2%nat 10) by (reflexivity || lia).
  assert (get_le 1 hc 0 = Some 69) as -> by reflexivity. change (negb (Z.land 69 240 =? 64) || negb (Z.land 69 15 * 4 =? 20))%bool with false. cbn iota.
  assert (get_le 2 hc 10 = Some c) as ->.
  { unfold get_le. change (slice hc 10 (Z.of_nat 2)) with (Some (le_enc 2 c)). cbn [fmap option_fmap option_map]. f_equal. by apply le_dec_enc. }
  assert (put_le 2 (hc ++ data) 10 0 = Some (hd ++ data)) as ->.
  { unfold put_le, splice. rewrite (proj2 (Z.leb_le 0 10)), (proj2 (Z.leb_le (10 + _) _)) by (rewrite ?length_app, ?le_enc_length; cbn; lia).
    cbn [andb]. rewrite le_enc_length. change (Z.to_nat 10) with 10%nat. rewrite take_app_le, drop_app_le by (cbn; lia). done. }
  change SIZEOF_IP_PACKET with 20. rewrite Hsum, Z.eqb_refl. cbn [negb].
  rewrite (Hget 4%nat 16) by (reflexivity || lia).
  assert (get_le 4 hd 16 = Some dest) as ->.
  { unfold get_le. change (slice hd 16 (Z.of_nat 4)) with (Some (le_enc 4 dest)). cbn [fmap option_fmap option_map]. f_equal. by apply le_dec_enc. }
  unfold gets. destruct (find_interface_for_destination dest s) as [i|]; [|done].
  rewrite (Hget 2%nat 2), (Hget 1%nat 9) by (reflexivity || lia).
  assert (is_Some (get_le 2 hd 2)) as [tl ->] by (by eexists). assert (get_le 1 hd 9 = Some IP_PROTOCOL_UDP) as -> by reflexivity.
  change (IP_PROTOCOL_UDP =? IP_PROTOCOL_ICMP) with false. change (IP_PROTOCOL_UDP =? IP_PROTOCOL_TCP) with false.
  change (IP_PROTOCOL_UDP =? IP_PROTOCOL_UDP) with true. cbn iota.
  assert (is_Some (get_le 2 (hd ++ data) 22)) as [pt ->]; [|done]. unfold get_le.
  destruct (slice_some (hd ++ data) 22 (Z.of_nat 2)) as [l ->]; [lia|lia|rewrite length_app; cbn; lia|]. by eexists.
Qed.

(** A connection request from an unknown peer takes the first free entry of
    the connection table, and no other: the entry holds the addresses, the ports
    and the next sequence number and waits for the third segment, and later
    segments of that peer find it. *)
Theorem ip_receive_syn_correct {H} `{!Malloc H} junk packet src dst sport dport fl seq i c (s : ip H) :
  routes_ok s → get_le 4 packet 12 = Some src → get_le 4 packet 16 = Some dst →
  get_le 2 packet 20 = Some sport → get_le 2 packet 22 = Some dport →
  get_le 1 packet 33 = Some fl → Z.land fl 23 = 2 → get_le 4 packet 24 = Some seq →
  find_connection dst src dport sport s = None →
  list_find (λ c, c_state c = IP_CONN_CLOSED) (ip_connections s) = Some (i, c) →
  wp (receive_tcp junk packet)
    (λ r s', (r = 0 ∨ r = -1) ∧
       ip_connections s' = <[i := accept_syn dst src dport sport (packet_sequence s) c]> (ip_connections s) ∧
       find_connection dst src dport sport s' = Some i) s.
Proof.
  intros Hok Hsrc Hdst Hsp Hdp Hfl Hsyn Hseq Hnew Hfree.
  eapply wp_mono; [by eapply wp_receive_syn|]. intros r s' [Hr Hs']. split; [done|]. split; [done|].
  apply list_find_Some in Hfree as (Hi & _ & _).
  assert (find_connection dst src dport sport s' = find_connection dst src dport sport (set_conns (ip_connections s') s)) as -> by done.
  rewrite Hs'. by eapply find_connection_new.
Qed.

(** An odd last byte is added in the high half of its word although words are
    stored low byte first: appending the zero byte that pads the block changes
    its checksum. *)
Lemma checksum_odd_padding : ip_calculate_checksum [1] 1 = Some 65279 ∧ ip_calculate_checksum [1; 0] 2 = Some 65534.
Proof. split; reflexivity. Qed.

(** The default configuration: every interface has the first network device, the
    addresses count up. *)
Lemma new_interface_address dev k : 0 <= k < 8 →
  new_interface dev k = Some (mk_if (3232235876 + k) 4294967040 3232235777 (Some dev) true).
Proof.
  intros Hk. unfold new_interface.
  assert (ip_string_to_int default_ip = Some 3232235876) as -> by reflexivity.
  assert (ip_string_to_int default_mask = Some 4294967040) as -> by reflexivity.
  assert (ip_string_to_int default_gateway = Some 3232235777) as -> by reflexivity.
  cbn [mbind option_bind]. by rewrite u32_small by (unfold is_u32; lia).
Qed.

(** ** Witnesses *)

(** A list of constants is a list of bytes. *)
Ltac bytes := repeat (apply Forall_cons; split; [split; first [reflexivity | discriminate]|]); constructor.

Lemma ip_checksum_verifies_witness :
  ∃ c, ip_calculate_checksum ([69; 0] ++ [0; 0] ++ [1; 2]) 6 = Some c ∧ is_u16 c ∧
    ip_calculate_checksum ([69; 0] ++ le_enc 2 c ++ [1; 2]) 6 = Some 0.
Proof.
  assert (Forall is_byte [69; 0]) as Ha by bytes.
  assert (Forall is_byte [1; 2]) as Hb by bytes.
  apply (ip_checksum_verifies [69; 0] [1; 2] Ha Hb); [by exists 1%nat|by exists 1%nat|done].
Defined.

(** "10.0.2.15" *)
Lemma ip_string_to_int_correct_witness : ip_string_to_int (dotted [49; 48] [48] [50] [49; 53]) = Some 167772687.
Proof.
  apply (ip_string_to_int_correct [49; 48] [48] [50] [49; 53]); first [reflexivity | bytes].
Defined.

Definition demo_if : ip_interface := mk_if 3232235876 4294967040 3232235777 (Some 0%nat) true.
Definition demo_ip : ip nat :=
  mk_ip [demo_if] [mk_route 3232235776 4294967040 3232235777 (Some 0%nat)] [zero_conn; zero_conn] 7 0%nat.
Definition demo_datagram : option (list Z) := build_packet 28 1 IP_PROTOCOL_UDP 3232235876 3232235877 [0; 80; 0; 81; 8; 0; 0; 0].

Definition demo_packet : list Z := default [] demo_datagram.

Lemma ip_send_receive_roundtrip_witness :
  ip_receive_packet (0, 0, 0) demo_packet demo_ip =
    Some ((0, ip_header 28 1 IP_PROTOCOL_UDP 0 3232235876 3232235877 ++ [0; 80; 0; 81; 8; 0; 0; 0]), demo_ip).
Proof.
  apply (ip_send_receive_roundtrip (0, 0, 0) 28 1 3232235876 3232235877 [0; 80; 0; 81; 8; 0; 0; 0] demo_packet demo_ip).
  - split; reflexivity || discriminate.
  - split; reflexivity || discriminate.
  - split; reflexivity || discriminate.
  - bytes.
  - simpl. lia.
  - vm_compute. reflexivity.
  - vm_compute. discriminate.
Defined.

Lemma ip_receive_checked_witness : ip_calculate_checksum demo_packet 20 = Some 0.
Proof.
  assert (Hb : Forall is_byte demo_packet).
  { vm_compute. bytes. }
  assert (Hr : ip_receive_packet (0, 0, 0) demo_packet demo_ip =
    Some ((0, ip_header 28 1 IP_PROTOCOL_UDP 0 3232235876 3232235877 ++ [0; 80; 0; 81; 8; 0; 0; 0]), demo_ip)) by (vm_compute; reflexivity).
  exact (proj1 (proj2 (proj2 (ip_receive_checked (0, 0, 0) demo_packet _ demo_ip demo_ip Hb Hr)))).
Defined.

(** A connection request to port 80. *)
Definition demo_syn : list Z := replicate 12 0 ++ le_enc 4 3232235877 ++ le_enc 4 3232235876 ++
  pack tcp_layout [4000; 80; 1000; 0; 80; 2; 512; 0; 0].

Lemma ip_receive_syn_correct_witness :
  wp (receive_tcp (0, 0, 0) demo_syn)
    (λ r s', (r = 0 ∨ r = -1) ∧
       ip_connections s' = <[0%nat := mk_conn 3232235876 3232235877 80 4000 IP_CONN_SYN_RECEIVED 0 7 0]> [zero_conn; zero_conn] ∧
       find_connection 3232235876 3232235877 80 4000 s' = Some 0%nat) demo_ip.
Proof.
  apply (ip_receive_syn_correct (0, 0, 0) demo_syn 3232235877 3232235876 4000 80 2 1000 0 zero_conn demo_ip); try reflexivity.
  intros r i Hr Hi. apply list_elem_of_singleton in Hr. subst r. injection Hi as <-. simpl. lia.
Defined.
