(* ===== verification/Net.v ===== *)
(** * Sockets and network interfaces ([net/net.c])

    The static tables of the file and the IP layer beneath are the state [net];
    the packet queue is the list of its first [packet_queue_count] elements.  A
    [net_socket*] is an index of the pool.  The buffers of allocated packets and
    of connections are addresses of the heap inside the IP layer; a packet
    carries the bytes of its buffer.  Fields that the code leaves unset come from
    an argument [junk]. *)
From S2P Require Import Prelude Interfaces Monad Str Bytes Acpi Pci Ip.

Definition NET_MAX_INTERFACES : Z := 8.
Definition NET_MAX_SOCKETS : Z := 128.
Definition NET_MAX_PACKET_SIZE : Z := 65536.
Definition IP_PROTOCOL_RAW : Z := 255.

Inductive net_socket_type := SOCKET_TCP | SOCKET_UDP | SOCKET_RAW.
#[export] Instance net_socket_type_eq : EqDecision net_socket_type.
Proof. solve_decision. Defined.

Inductive net_socket_state :=
| SOCKET_STATE_CLOSED | SOCKET_STATE_LISTEN | SOCKET_STATE_SYN_SENT | SOCKET_STATE_SYN_RECEIVED
| SOCKET_STATE_ESTABLISHED | SOCKET_STATE_FIN_WAIT_1 | SOCKET_STATE_FIN_WAIT_2 | SOCKET_STATE_CLOSE_WAIT
| SOCKET_STATE_CLOSING | SOCKET_STATE_LAST_ACK | SOCKET_STATE_TIME_WAIT.
#[export] Instance net_socket_state_eq : EqDecision net_socket_state.
Proof. solve_decision. Defined.

Record net_address := mk_addr { a_ip : Z; a_port : Z }.
Record net_socket := mk_sock {
  fd : Z; type : net_socket_type; state : net_socket_state;
  local_addr : net_address; remote_addr : net_address; protocol_data : Z }.
Record net_interface := mk_netif {
  name : list Z; mac : list Z; if_ip : Z; subnet : Z; n_gateway : Z; is_active : bool }.
Record net_packet := mk_packet {
  data : Z; bytes : list Z; p_length : Z; source : net_address; destination : net_address }.

Definition zero_addr : net_address := mk_addr 0 0.
(** All bytes zero: type [SOCKET_TCP], state [SOCKET_STATE_CLOSED]. *)
Definition zero_sock : net_socket := mk_sock 0 SOCKET_TCP SOCKET_STATE_CLOSED zero_addr zero_addr 0.
Definition zero_netif : net_interface := mk_netif [] (replicate 6 0) 0 0 0 false.

Record net (H : Type) := mk_net {
  socket_pool : list net_socket; interfaces : list net_interface; packet_queue : list net_packet; ip_layer : ip H }.
Arguments mk_net {_}.
Arguments socket_pool {_}.
Arguments interfaces {_}.
Arguments packet_queue {_}.
Arguments ip_layer {_}.

(** ** Interface names *)

(** [temp_value % 10] and so on, most significant digit first. *)
Fixpoint decimal_digits (fuel : nat) (temp_value : Z) (acc : list Z) : list Z :=
  match fuel with
  | O => acc
  | S fuel =>
      if 0 <? temp_value then decimal_digits fuel (Z.quot temp_value 10) (Z.rem temp_value 10 + 48 :: acc) else acc
  end.

(** The characters put into a buffer of [buffer_size] bytes. *)
Fixpoint fmt_loop (format : list Z) (buffer_size value : Z) (buffer : list Z) : list Z :=
  match format with
  | [] => buffer
  | c :: rest =>
      if buffer_size - 1 <=? Z.of_nat (length buffer) then buffer else
      match (c =? 37), rest with
      | true, d :: rest' =>
          if d =? 100 then
            let digits := if value =? 0 then [48] else decimal_digits 16 value [] in
            fmt_loop rest' buffer_size value
              (buffer ++ take (Z.to_nat (buffer_size - 1) - length buffer) digits)
          else fmt_loop rest buffer_size value (buffer ++ [c])
      | _, _ => fmt_loop rest buffer_size value (buffer ++ [c])
      end
  end.
Definition fmt_interface_name (buffer_size : Z) (format : list Z) (value : Z) : list Z :=
  fmt_loop format buffer_size value [].

Section net.
Context {H : Type} `{!Malloc H}.
Abbreviation M A := (M (net H) A).

Definition on_ip {A} (m : Monad.M (ip H) A) : M A := λ s,
  match m (ip_layer s) with
  | Some (x, i) => Some (x, mk_net (socket_pool s) (interfaces s) (packet_queue s) i)
  | None => None
  end.
Definition set_pool (l : list net_socket) (s : net H) : net H := mk_net l (interfaces s) (packet_queue s) (ip_layer s).
Definition set_ifs (l : list net_interface) (s : net H) : net H := mk_net (socket_pool s) l (packet_queue s) (ip_layer s).
Definition set_packets (l : list net_packet) (s : net H) : net H := mk_net (socket_pool s) (interfaces s) l (ip_layer s).

(** ** Sockets *)

Definition get_socket (fd : Z) : option nat :=
  if (fd <? 0) || (NET_MAX_SOCKETS <=? fd) then None else Some (Z.to_nat fd).
Definition net_socket_get (fd : Z) : option nat := get_socket fd.

Definition sock_at (i : nat) : M net_socket := λ s, x ← socket_pool s !! i; Some (x, s).
Definition upd_sock (i : nat) (f : net_socket → net_socket) : M () := λ s,
  x ← socket_pool s !! i; Some ((), set_pool (<[i := f x]> (socket_pool s)) s).

Definition set_state (x : net_socket_state) (k : net_socket) : net_socket :=
  mk_sock (fd k) (type k) x (local_addr k) (remote_addr k) (protocol_data k).
Definition set_local (a : net_address) (k : net_socket) : net_socket :=
  mk_sock (fd k) (type k) (state k) a (remote_addr k) (protocol_data k).
Definition set_remote (a : net_address) (k : net_socket) : net_socket :=
  mk_sock (fd k) (type k) (state k) (local_addr k) a (protocol_data k).
Definition set_data (p : Z) (k : net_socket) : net_socket :=
  mk_sock (fd k) (type k) (state k) (local_addr k) (remote_addr k) p.

(** The first closed socket among all [NET_MAX_SOCKETS]. *)
Definition allocate_socket_fd : M Z :=
  gets (λ s, match list_find (λ k, state k = SOCKET_STATE_CLOSED) (socket_pool s) with
             | Some (i, _) => Z.of_nat i | None => -1 end).

Definition free_socket_fd (fd : Z) : M () :=
  if (0 <=? fd) && (fd <? NET_MAX_SOCKETS) then upd_sock (Z.to_nat fd) (λ _, zero_sock) else mret ().

Definition SIZEOF_TCP_DATA : Z := 12.

Definition net_socket_create (ty : net_socket_type) : M Z :=
  fd ← allocate_socket_fd;
  if fd <? 0 then mret (-1) else
  let i := Z.to_nat fd in
  upd_sock i (λ k, mk_sock fd ty SOCKET_STATE_CLOSED (local_addr k) (remote_addr k) (protocol_data k));;
  if bool_decide (ty = SOCKET_TCP) then
    p ← on_ip (ip_malloc SIZEOF_TCP_DATA);
    upd_sock i (set_data p);;
    if p =? 0 then free_socket_fd fd;; mret (-1) else mret fd
  else mret fd.

Definition net_socket_bind (socket ip port : Z) : M Z :=
  match get_socket socket with
  | None => mret (-1)
  | Some i => upd_sock i (set_local (mk_addr ip port));; mret 0
  end.

Definition net_socket_listen (socket backlog : Z) : M Z :=
  match get_socket socket with
  | None => mret (-1)
  | Some i =>
      k ← sock_at i;
      if bool_decide (type k ≠ SOCKET_TCP) then mret (-1) else
      upd_sock i (set_state SOCKET_STATE_LISTEN);; mret 0
  end.

(** The field [ack] of the packet is not set. *)
Definition net_socket_connect (junk socket ip port : Z) : M Z :=
  match get_socket socket with
  | None => mret (-1)
  | Some i =>
      k ← sock_at i;
      if bool_decide (type k ≠ SOCKET_TCP) then mret (-1) else
      upd_sock i (set_remote (mk_addr ip port));;
      upd_sock i (set_state SOCKET_STATE_SYN_SENT);;
      on_ip (ip_send_packet ip IP_PROTOCOL_TCP (pack [2; 2; 4; 4; 1]%nat [a_port (local_addr k); port; 12345; junk; 2]))
  end.

(** [memmove(&packet_queue[i], &packet_queue[i+1], ...); packet_queue_count--;] *)
Definition remove_packet (i : nat) : M () := modify (λ s, set_packets (delete i (packet_queue s)) s).

(** The new socket and the address of the client. *)
Definition net_socket_accept (socket : Z) : M (Z * option net_address) :=
  match get_socket socket with
  | None => mret (-1, None)
  | Some l =>
      listen_sock ← sock_at l;
      if bool_decide (state listen_sock ≠ SOCKET_STATE_LISTEN) then mret (-1, None) else
      found ← gets (λ s, list_find (λ p, a_port (destination p) = a_port (local_addr listen_sock)) (packet_queue s));
      match found with
      | None => mret (-1, None)
      | Some (i, packet) =>
          new_socket ← net_socket_create SOCKET_TCP;
          if new_socket <? 0 then mret (-1, None) else
          listen_sock ← sock_at l;
          upd_sock (Z.to_nat new_socket) (set_local (local_addr listen_sock));;
          upd_sock (Z.to_nat new_socket) (set_remote (source packet));;
          upd_sock (Z.to_nat new_socket) (set_state SOCKET_STATE_SYN_RECEIVED);;
          remove_packet i;;
          mret (new_socket, Some (source packet))
      end
  end.

Definition protocol_of (ty : net_socket_type) : Z :=
  match ty with SOCKET_TCP => IP_PROTOCOL_TCP | SOCKET_UDP => IP_PROTOCOL_UDP | SOCKET_RAW => IP_PROTOCOL_RAW end.

Definition net_socket_send (socket : Z) (data : list Z) : M Z :=
  match get_socket socket with
  | None => mret (-1)
  | Some i =>
      k ← sock_at i;
      if bool_decide (state k ≠ SOCKET_STATE_ESTABLISHED) then mret (-1) else
      on_ip (ip_send_packet (a_ip (remote_addr k)) (protocol_of (type k)) data)
  end.

(** The answer and the bytes received, at most [length] of them; [buffer] tells
    whether the two pointers are not NULL. *)
Definition net_socket_receive (socket : Z) (buffer : bool) (length : Z) : M (Z * list Z) :=
  match get_socket socket, buffer with
  | None, _ | _, false => mret (-1, [])
  | Some i, true =>
      k ← sock_at i;
      found ← gets (λ s, list_find (λ p, a_port (destination p) = a_port (local_addr k) ∧
                                        a_ip (destination p) = a_ip (local_addr k)) (packet_queue s));
      match found with
      | None => mret (-1, [])
      | Some (j, packet) =>
          let copy_length := if length <? p_length packet then length else p_length packet in
          out ← lift (slice (bytes packet) 0 copy_length);
          on_ip (ip_free (data packet));;
          remove_packet j;;
          mret (0, out)
      end
  end.

Definition net_socket_close (socket : Z) : M () :=
  match get_socket socket with
  | None => mret ()
  | Some i =>
      k ← sock_at i;
      (if bool_decide (type k = SOCKET_TCP ∧ state k = SOCKET_STATE_ESTABLISHED) then
         on_ip (ip_send_packet (a_ip (remote_addr k)) IP_PROTOCOL_TCP
                  (pack [2; 2; 1]%nat [a_port (local_addr k); a_port (remote_addr k); 17]));; mret ()
       else mret ());;
      (if negb (protocol_data k =? 0) then on_ip (ip_free (protocol_data k));; upd_sock i (set_data 0) else mret ());;
      upd_sock i (λ _, zero_sock)
  end.

Definition net_shutdown : M () :=
  for_list (seqZ 0 NET_MAX_SOCKETS) (λ i,
    k ← sock_at (Z.to_nat i);
    if bool_decide (state k ≠ SOCKET_STATE_CLOSED) then net_socket_close i else mret ()).

(** ** Interfaces *)

Definition net_interface_add (interface : net_interface) : M Z :=
  found ← gets (λ s, list_find (λ i, is_active i = false) (interfaces s));
  match found with
  | Some (k, _) =>
      modify (λ s, set_ifs (<[k := mk_netif (name interface) (mac interface) (if_ip interface) (subnet interface)
                                     (n_gateway interface) true]> (interfaces s)) s);;
      mret 0
  | None => mret (-1)
  end.

Definition net_interface_get (nm : list Z) (s : net H) : option nat :=
  fst <$> list_find (λ i, is_active i = true ∧ strcmp (name i) nm = 0) (interfaces s).

Definition net_interface_remove (nm : list Z) : M Z :=
  found ← gets (net_interface_get nm);
  match found with
  | Some k =>
      modify (λ s, set_ifs (alter (λ i, mk_netif (name i) (mac i) (if_ip i) (subnet i) (n_gateway i) false) k (interfaces s)) s);;
      mret 0
  | None => mret (-1)
  end.

Definition find_interface_for_ip (ip : Z) (s : net H) : option nat :=
  fst <$> list_find (λ i, is_active i = true ∧ Z.land ip (subnet i) = Z.land (if_ip i) (subnet i)) (interfaces s).

(** ** Packets *)

Definition net_send_packet (packet : net_packet) : M Z :=
  interface ← gets (find_interface_for_ip (a_ip (source packet)));
  match interface with
  | None => mret (-1)
  | Some _ => on_ip (ip_send_packet (a_ip (destination packet)) IP_PROTOCOL_TCP (bytes packet))
  end.

(** [buffer] is what the uninitialised array on the stack holds. *)
Definition net_receive_packet (junk : Z * Z * Z) (buffer : list Z) : M (Z * option net_packet) :=
  let length := 65535 in
  '(result, buffer) ← on_ip (ip_receive_packet junk buffer);
  if result <? 0 then mret (-1, None) else
  p ← on_ip (ip_malloc length);
  if p =? 0 then mret (-1, None) else
  l ← lift (slice buffer 0 length);
  mret (0, Some (mk_packet p l length zero_addr zero_addr)).

(** [buffers] are the contents of the stack at the successive calls. *)
Fixpoint net_process_packets (junk : Z * Z * Z) (buffers : list (list Z)) : M () :=
  match buffers with
  | [] => fault
  | buffer :: buffers =>
      '(r, packet) ← net_receive_packet junk buffer;
      match packet with
      | None => mret ()
      | Some packet =>
          n ← gets (λ s, Z.of_nat (length (packet_queue s)));
          (if n <? NET_MAX_SOCKETS then modify (λ s, set_packets (packet_queue s ++ [packet]) s)
           else on_ip (ip_free (data packet)));;
          net_process_packets junk buffers
      end
  end.

(** ** Names and initialisation *)

Definition net_string_to_ip (str : list Z) : option Z := ip_string_to_int str.
Definition net_resolve_hostname (hostname : list Z) : option Z := net_string_to_ip hostname.

(** "eth%d" *)
Definition eth_format : list Z := [101; 116; 104; 37; 100].

Definition new_netif (dev : pci_device) (interface_count : Z) : option net_interface :=
  a ← ip_string_to_int default_ip;
  m ← ip_string_to_int default_mask;
  g ← ip_string_to_int default_gateway;
  Some (mk_netif (fmt_interface_name 16 eth_format interface_count) [2; 0; 0; bus dev; slot dev; func dev]
          (u32 (a + interface_count)) m g true).

Fixpoint netif_loop {W} `{!PciBus W} (n : nat) (devices : pci W) (interface_count : Z) : M Z :=
  match pci_scan_for_class PCI_CLASS_NETWORK 0 devices, n with
  | Some (_, dev), S n =>
      i ← lift (new_netif dev interface_count);
      modify (λ s, set_ifs (<[Z.to_nat interface_count := i]> (interfaces s)) s);;
      netif_loop n devices (interface_count + 1)
  | _, _ => mret interface_count
  end.

Definition net_init {W} `{!PciBus W} (devices : pci W) : M Z :=
  modify (λ s, mk_net (replicate (Z.to_nat NET_MAX_SOCKETS) zero_sock) (replicate (Z.to_nat NET_MAX_INTERFACES) zero_netif) [] (ip_layer s));;
  r ← on_ip (ip_init devices);
  if r <? 0 then mret (-1) else
  netif_loop (Z.to_nat NET_MAX_INTERFACES) devices 0.
End net.

(** ** No socket is ever connected *)

Section sockets.
Context {H : Type} `{HM : !Malloc H}.
Implicit Types s : net H.

Definition none_established s : Prop := Forall (λ k, state k ≠ SOCKET_STATE_ESTABLISHED) (socket_pool s).

Lemma keeps_on_ip {A} (m : M (ip H) A) : keeps none_established (on_ip m).
Proof. intros s x s' Hm Hs. unfold on_ip in Hm. destruct (m (ip_layer s)) as [[y i]|]; [|done]. by injection Hm as _ <-. Qed.

Lemma keeps_sock_at i : keeps none_established (sock_at i : M (net H) net_socket).
Proof. intros s x s' Hm Hs. unfold sock_at in Hm. destruct (socket_pool s !! i); [|done]. by injection Hm as _ <-. Qed.

Lemma keeps_upd_sock i f :
  (∀ k, state k ≠ SOCKET_STATE_ESTABLISHED → state (f k) ≠ SOCKET_STATE_ESTABLISHED) → keeps none_established (upd_sock i f : M (net H) ()).
Proof.
  intros Hf s x s' Hm Hs. unfold upd_sock in Hm. destruct (socket_pool s !! i) as [k|] eqn:Hk; [|done]. injection Hm as _ <-.
  apply Forall_insert; [done|]. apply Hf. unfold none_established in Hs. rewrite Forall_forall in Hs. apply Hs. by eapply list_elem_of_lookup_2.
Qed.

#[local] Hint Resolve keeps_on_ip keeps_sock_at : keeps.
#[local] Hint Extern 2 (keeps none_established (upd_sock _ _)) => apply keeps_upd_sock; cbn; (done || tauto) : keeps.
#[local] Hint Extern 2 (keeps none_established (modify _)) => apply keeps_modify; by intros [] : keeps.

Lemma keeps_create ty : keeps none_established (net_socket_create ty : M (net H) Z).
Proof. unfold net_socket_create, allocate_socket_fd, free_socket_fd. keeps. Qed.
#[local] Hint Resolve keeps_create : keeps.

Lemma keeps_close socket : keeps none_established (net_socket_close socket : M (net H) ()).
Proof. unfold net_socket_close. keeps. Qed.
#[local] Hint Resolve keeps_close : keeps.

Lemma keeps_receive_packet junk buffer : keeps none_established (net_receive_packet junk buffer : M (net H) _).
Proof. unfold net_receive_packet. keeps. Qed.
#[local] Hint Resolve keeps_receive_packet : keeps.

Lemma keeps_process junk buffers : keeps none_established (net_process_packets junk buffers : M (net H) ()).
Proof. induction buffers; cbn [net_process_packets]; [apply keeps_fault|]. keeps. Qed.

(** The calls of the socket interface. *)
Inductive socket_call : M (net H) () → Prop :=
| call_create ty : socket_call (net_socket_create ty;; mret ())
| call_bind fd ip port : socket_call (net_socket_bind fd ip port;; mret ())
| call_listen fd n : socket_call (net_socket_listen fd n;; mret ())
| call_connect junk fd ip port : socket_call (net_socket_connect junk fd ip port;; mret ())
| call_accept fd : socket_call (net_socket_accept fd;; mret ())
| call_send fd data : socket_call (net_socket_send fd data;; mret ())
| call_receive fd b n : socket_call (net_socket_receive fd b n;; mret ())
| call_close fd : socket_call (net_socket_close fd)
| call_shutdown : socket_call net_shutdown
| call_process junk buffers : socket_call (net_process_packets junk buffers)
| call_send_packet p : socket_call (net_send_packet p;; mret ())
| call_interface_add i : socket_call (net_interface_add i;; mret ())
| call_interface_remove nm : socket_call (net_interface_remove nm;; mret ()).

Definition net_step s s' : Prop := ∃ m, socket_call m ∧ m s = Some ((), s').

Lemma step_keeps s s' : net_step s s' → none_established s → none_established s'.
Proof.
  intros (m & Hm & Hrun). assert (keeps none_established m) as Hk; [|by eapply Hk].
  destruct Hm; unfold net_socket_bind, net_socket_listen, net_socket_connect, net_socket_accept, net_socket_send,
    net_socket_receive, net_shutdown, net_send_packet, net_interface_add, net_interface_remove, remove_packet;
    try apply keeps_process; keeps.
Qed.
End sockets.

(** No sequence of calls of the socket interface connects a socket, starting
    from a pool without a connected one, such as the pool after [net_init]; so
    sending on any socket fails. *)
Theorem net_send_always_fails {H} `{!Malloc H} (s0 s : net H) fd data :
  none_established s0 → rtc net_step s0 s → Z.of_nat (length (socket_pool s)) = NET_MAX_SOCKETS →
  net_socket_send fd data s = Some (-1, s).
Proof.
  intros H0 Hsteps Hl. assert (none_established s) as Hs.
  { induction Hsteps as [|s1 s2 s3 Hstep _ IH]; [done|]. apply IH; [|done]. by eapply step_keeps. }
  unfold net_socket_send, get_socket. destruct (_ || _)%bool eqn:Hfd; [done|]. apply orb_false_iff in Hfd as [? ?]. zbool.
  destruct (lookup_lt_is_Some_2 (socket_pool s) (Z.to_nat fd)) as [k Hk]; [lia|].
  unfold mbind, M_bind, sock_at. rewrite Hk. cbn. unfold none_established in Hs. rewrite Forall_forall in Hs.
  rewrite bool_decide_eq_true_2; [done|]. apply Hs. by eapply list_elem_of_lookup_2.
Qed.

(** A new socket stays in the state that marks a free one: the next call of
    [net_socket_create] gives the same descriptor again. *)
Lemma net_socket_create_twice {H} `{!Malloc H} (s s' : net H) ty ty' fd :
  net_socket_create ty s = Some (fd, s') → 0 <= fd → ty ≠ SOCKET_TCP → ty' ≠ SOCKET_TCP →
  ∃ s'', net_socket_create ty' s' = Some (fd, s'').
Proof.
  intros Hc Hfd Hty Hty'. unfold net_socket_create in *. apply run_bind in Hc as (fd1 & s1 & Ha & Hc). injection Ha as Ha <-.
  destruct (list_find _ (socket_pool s)) as [[i k]|] eqn:Hi; subst fd1; [|by injection Hc as <- _].
  apply list_find_Some in Hi as (Hi & Hst & Hbefore). rewrite (proj2 (Z.ltb_ge _ _)) in Hc by lia. rewrite Nat2Z.id in Hc.
  apply run_bind in Hc as ([] & s1 & Hu & Hc). rewrite bool_decide_eq_false_2 in Hc by done. injection Hc as <- <-.
  unfold upd_sock in Hu. rewrite Hi in Hu. injection Hu as <-.
  unfold mbind, M_bind, allocate_socket_fd, gets. cbn [socket_pool set_pool].
  assert (i < length (socket_pool s))%nat as Hlt by (by eapply lookup_lt_Some).
  set (k' := mk_sock _ _ _ _ _ _). set (pool := <[i := k']> (socket_pool s)).
  assert (list_find (λ k, state k = SOCKET_STATE_CLOSED) pool = Some (i, k')) as ->.
  { apply list_find_Some. split; [by apply list_lookup_insert_eq|]. split; [done|]. intros j y Hy Hj. unfold pool in Hy.
    rewrite list_lookup_insert_ne in Hy by lia. by eapply Hbefore. }
  rewrite (proj2 (Z.ltb_ge _ _)) by lia. rewrite Nat2Z.id. unfold upd_sock. cbn [socket_pool set_pool].
  unfold pool. rewrite list_lookup_insert_eq by done. rewrite bool_decide_eq_false_2 by done. by eexists.
Qed.

(** ** Witness *)

Definition demo_net : net nat := mk_net (replicate 128 zero_sock) (replicate 8 zero_netif) [] demo_ip.

Lemma net_send_always_fails_witness : ∃ s, rtc net_step demo_net s ∧ net_socket_send 0 [1; 2] s = Some (-1, s).
Proof.
  assert (Hn : none_established demo_net) by (apply Forall_replicate; discriminate).
  eassert (Hs : (net_socket_create SOCKET_TCP;; mret ()) demo_net = Some ((), _)) by (vm_compute; reflexivity).
  eexists. assert (Hr : rtc net_step demo_net _) by (eapply rtc_l; [eexists; split; [apply (call_create SOCKET_TCP)|exact Hs]|apply rtc_refl]).
  split; [exact Hr|]. apply (net_send_always_fails demo_net _ 0 [1; 2] Hn Hr). reflexivity.
Defined.
