(* ===== verification/Dns.v ===== *)
(** * The DNS resolver ([net/dns.c])

    Host names are C strings, messages lists of bytes with a length; an access
    outside a message is a fault.  The static variables and the network stack are
    the state [dns]; [dns_servers] is the list of the first [num_dns_servers]. *)
From S2P Require Import Prelude Interfaces Monad Str Bytes Acpi Pci Ip Net.

Definition DNS_PORT : Z := 53.
Definition DNS_MAX_NAME_LENGTH : Z := 255.
Definition DNS_TYPE_A : Z := 1.
Definition DNS_FLAG_QR : Z := 32768.
Definition DNS_FLAG_RD : Z := 256.
Definition DNS_FLAG_RCODE : Z := 15.
Definition DNS_RCODE_NOERROR : Z := 0.
Definition MAX_DNS_SERVERS : Z := 4.
Definition SIZEOF_DNS_HEADER : Z := 12.
Definition SIZEOF_QUESTION : Z := 4.
Definition SIZEOF_RECORD : Z := 10.

(** [struct dns_header] and [struct dns_question] *)
Definition header_layout : list nat := [2; 2; 2; 2; 2; 2]%nat.
Definition question_layout : list nat := [2; 2]%nat.

Record dns_stats_t := mk_stats {
  queries_sent : Z; responses_received : Z; timeouts : Z; errors : Z; cache_hits : Z; cache_misses : Z }.
Definition zero_stats : dns_stats_t := mk_stats 0 0 0 0 0 0.
Definition count_query (t : dns_stats_t) : dns_stats_t :=
  mk_stats (u32 (queries_sent t + 1)) (responses_received t) (timeouts t) (errors t) (cache_hits t) (cache_misses t).
Definition count_response (t : dns_stats_t) : dns_stats_t :=
  mk_stats (queries_sent t) (u32 (responses_received t + 1)) (timeouts t) (errors t) (cache_hits t) (cache_misses t).
Definition count_timeout (t : dns_stats_t) : dns_stats_t :=
  mk_stats (queries_sent t) (responses_received t) (u32 (timeouts t + 1)) (errors t) (cache_hits t) (cache_misses t).
Definition count_error (t : dns_stats_t) : dns_stats_t :=
  mk_stats (queries_sent t) (responses_received t) (timeouts t) (u32 (errors t + 1)) (cache_hits t) (cache_misses t).

Definition default_dns_servers : list Z := [134744072; 134743044; 16843009; 16777217].

Record dns (H : Type) := mk_dns { dns_servers : list Z; dns_query_id : Z; dns_statistics : dns_stats_t; d_net : net H }.
Arguments mk_dns {_}.
Arguments dns_servers {_}.
Arguments dns_query_id {_}.
Arguments dns_statistics {_}.
Arguments d_net {_}.

(** ** Names *)

(** The labels from [label] on, behind the bytes [buffer]: [Some None] is the
    answer -1.  [fuel] bounds the labels. *)
Fixpoint encode_loop (fuel : nat) (label buffer : list Z) : option (option (list Z)) :=
  match fuel with
  | O => None
  | S fuel =>
      match label with
      | [] => Some (Some buffer)
      | _ =>
          let dot := strchr label 46 in
          let len := s32 (match dot with Some d => Z.of_nat (length label) - Z.of_nat (length d) | None => strlen label end) in
          let written := Z.of_nat (length buffer) in
          if (63 <? len) || (DNS_MAX_NAME_LENGTH <? written + len + 1) then Some None else
          let buffer := buffer ++ u8 len :: take (Z.to_nat len) label in
          match dot with
          | Some d => encode_loop fuel (drop 1 d) buffer
          | None => Some (Some buffer)
          end
      end
  end.

Definition dns_encode_name (domain : list Z) : option (option (list Z)) :=
  r ← encode_loop (S (length domain)) domain [];
  Some (match r with Some buffer => Some (buffer ++ [0]) | None => None end).

Definition htons (x : Z) : Z := Z.lor (Z.shiftl (Z.land x 255) 8) (Z.shiftr (Z.land x 65280) 8).
Definition ntohs (x : Z) : Z := htons x.

(** Behind the name at [cur]: [fuel] bounds the labels. *)
Fixpoint skip_name (fuel : nat) (response : list Z) (cur end_ : Z) : option Z :=
  match fuel with
  | O => None
  | S fuel =>
      if cur <? end_ then
        c ← get_le 1 response cur;
        if c =? 0 then Some cur
        else if negb (Z.land c 192 =? 0) then Some (cur + 2)
        else skip_name fuel response (cur + c + 1) end_
      else Some cur
  end.

Definition name_fuel (cur end_ : Z) : nat := S (Z.to_nat (end_ - cur)).

(** The question section, [Some None] is a malformed message. *)
Fixpoint skip_questions (n : nat) (response : list Z) (cur end_ : Z) : option (option Z) :=
  match n with
  | O => Some (Some cur)
  | S n =>
      cur ← skip_name (name_fuel cur end_) response cur end_;
      if (end_ <=? cur) || (end_ <? cur + SIZEOF_QUESTION) then Some None
      else skip_questions n response (cur + SIZEOF_QUESTION) end_
  end.

(** The answer section: the first address, [Some None] is none. *)
Fixpoint parse_answers (n : nat) (response : list Z) (cur end_ : Z) : option (option Z) :=
  match n with
  | O => Some None
  | S n =>
      cur ← skip_name (name_fuel cur end_) response cur end_;
      if end_ <=? cur then Some None else
      if end_ <? cur + SIZEOF_RECORD then Some None else
      ty ← get_le 2 response cur;
      rdlength ← get_le 2 response (cur + 8);
      let cur := cur + SIZEOF_RECORD in
      if (ntohs ty =? DNS_TYPE_A) && (ntohs rdlength =? 4) then a ← get_le 4 response cur; Some (Some a)
      else parse_answers n response (cur + ntohs rdlength) end_
  end.

(** What [dns_parse_response] reads from a response, [Some None] is an error. *)
Definition parse_message (response : list Z) (response_length : Z) : option (option Z) :=
  if response_length <? SIZEOF_DNS_HEADER then Some None else
  flags ← get_le 2 response 2;
  let flags := ntohs flags in
  if Z.land flags DNS_FLAG_QR =? 0 then Some None else
  if negb (Z.land flags DNS_FLAG_RCODE =? DNS_RCODE_NOERROR) then Some None else
  qdcount ← get_le 2 response 4;
  q ← skip_questions (Z.to_nat (ntohs qdcount)) response SIZEOF_DNS_HEADER response_length;
  match q with
  | None => Some None
  | Some cur =>
      ancount ← get_le 2 response 6;
      parse_answers (Z.to_nat (ntohs ancount)) response cur response_length
  end.

Section dns.
Context {H : Type} `{!Malloc H}.
Abbreviation M A := (M (dns H) A).

Definition on_net {A} (m : Monad.M (net H) A) : M A := λ s,
  match m (d_net s) with
  | Some (x, n) => Some (x, mk_dns (dns_servers s) (dns_query_id s) (dns_statistics s) n)
  | None => None
  end.
Definition count_stat (f : dns_stats_t → dns_stats_t) : M () :=
  modify (λ s, mk_dns (dns_servers s) (dns_query_id s) (f (dns_statistics s)) (d_net s)).

(** The length of the query and the buffer that holds it. *)
Definition dns_build_query (domain buffer : list Z) : M (option (Z * list Z)) :=
  if Z.of_nat (length buffer) <? SIZEOF_DNS_HEADER then mret None else
  modify (λ s, mk_dns (dns_servers s) (u16 (dns_query_id s + 1)) (dns_statistics s) (d_net s));;
  id ← gets dns_query_id;
  buffer ← lift (splice buffer 0 (pack header_layout [id; htons DNS_FLAG_RD; htons 1; 0; 0; 0]));
  name ← lift (dns_encode_name domain);
  match name with
  | None => mret None
  | Some name =>
      let name_length := Z.of_nat (length name) in
      buffer ← lift (splice buffer SIZEOF_DNS_HEADER name);
      buffer ← lift (splice buffer (SIZEOF_DNS_HEADER + name_length) (pack question_layout [htons DNS_TYPE_A; htons 1]));
      mret (Some (SIZEOF_DNS_HEADER + name_length + SIZEOF_QUESTION, buffer))
  end.

Definition dns_parse_response (response : list Z) (response_length : Z) : M Z :=
  r ← lift (parse_message response response_length);
  match r with
  | Some a => count_stat count_response;; mret a
  | None => count_stat count_error;; mret 0
  end.

Definition dns_init : M () :=
  modify (λ s, mk_dns default_dns_servers 0 zero_stats (d_net s)).

(** The servers in turn; [response_buffer] is the buffer for the answers. *)
Fixpoint try_servers (junk sock : Z) (query response_buffer : list Z) (servers : list Z) (ip : Z) : M Z :=
  match servers with
  | [] => mret ip
  | server :: servers =>
      r ← on_net (net_socket_connect junk sock server DNS_PORT);
      if r <? 0 then try_servers junk sock query response_buffer servers ip else
      r ← on_net (net_socket_send sock query);
      if r <? 0 then try_servers junk sock query response_buffer servers ip else
      '(r, data) ← on_net (net_socket_receive sock true 512);
      if r <? 0 then count_stat count_timeout;; try_servers junk sock query response_buffer servers ip else
      let response_buffer := data ++ drop (length data) response_buffer in
      ip ← dns_parse_response response_buffer (Z.of_nat (length data));
      if negb (ip =? 0) then mret ip else try_servers junk sock query response_buffer servers ip
  end.

(** [stack] is what the two buffers on the stack hold at first. *)
Definition net_resolve_dns (junk : Z) (stack : list Z * list Z) (hostname : list Z) : M Z :=
  ip ← lift (net_string_to_ip hostname);
  if negb (ip =? 0) then mret ip else
  sock ← on_net (net_socket_create SOCKET_UDP);
  if sock <? 0 then count_stat count_error;; mret 0 else
  query ← dns_build_query hostname stack.1;
  match query with
  | None => on_net (net_socket_close sock);; count_stat count_error;; mret 0
  | Some (query_length, query_buffer) =>
      count_stat count_query;;
      servers ← gets dns_servers;
      ip ← try_servers junk sock (take (Z.to_nat query_length) query_buffer) stack.2 servers ip;
      on_net (net_socket_close sock);;
      mret ip
  end.

Definition dns_set_server (server_ip : Z) : M () :=
  modify (λ s, if Z.of_nat (length (dns_servers s)) <? MAX_DNS_SERVERS
               then mk_dns (dns_servers s ++ [server_ip]) (dns_query_id s) (dns_statistics s) (d_net s) else s).
Definition dns_reset_servers : M () :=
  modify (λ s, mk_dns default_dns_servers (dns_query_id s) (dns_statistics s) (d_net s)).
Definition dns_get_primary_server (s : dns H) : Z := default 0 (head (dns_servers s)).
Definition dns_get_stats (s : dns H) : dns_stats_t := dns_statistics s.
Definition dns_reset_stats : M () :=
  modify (λ s, mk_dns (dns_servers s) (dns_query_id s) zero_stats (d_net s)).
End dns.

(** ** Names *)

Fixpoint join (labels : list (list Z)) : list Z :=
  match labels with [] => [] | [l] => l | l :: labels => l ++ 46 :: join labels end.
Definition encoded (labels : list (list Z)) : list Z := concat ((λ l, Z.of_nat (length l) :: l) <$> labels).

(** The labels of an encoded name, up to the empty one. *)
Fixpoint decode_name (fuel : nat) (name : list Z) : list (list Z) :=
  match fuel, name with
  | S fuel, n :: rest => if n =? 0 then [] else take (Z.to_nat n) rest :: decode_name fuel (drop (Z.to_nat n) rest)
  | _, _ => []
  end.

Definition label_ok (l : list Z) : Prop := (0 < length l <= 63)%nat ∧ 46 ∉ l.

Lemma strchr_none l c : c ∉ l → strchr l c = None.
Proof.
  induction l as [|x l IH]; [done|]. intros Hn%not_elem_of_cons. cbn. rewrite (proj2 (Z.eqb_neq x c)) by naive_solver. tauto.
Qed.

Lemma strchr_app l c r : c ∉ l → strchr (l ++ c :: r) c = Some (c :: r).
Proof.
  induction l as [|x l IH]; [intros _; cbn; by rewrite Z.eqb_refl|]. intros Hn%not_elem_of_cons. cbn.
  rewrite (proj2 (Z.eqb_neq x c)) by naive_solver. tauto.
Qed.

Lemma length_encoded_cons l labels : length (encoded (l :: labels)) = (S (length l) + length (encoded labels))%nat.
Proof. unfold encoded. cbn. by rewrite length_app. Qed.

(** One label in front. *)
Lemma encode_label fuel l rest buffer :
  label_ok l → (Z.of_nat (length buffer) + Z.of_nat (length l) + 1 <= 255) →
  encode_loop (S fuel) (l ++ 46 :: rest) buffer = encode_loop fuel rest (buffer ++ Z.of_nat (length l) :: l) ∧
  encode_loop (S fuel) l buffer = Some (Some (buffer ++ Z.of_nat (length l) :: l)).
Proof.
  intros [Hl Hd] Hb. destruct l as [|x l]; [simpl in Hl; lia|]. set (w := x :: l) in *.
  assert (s32 (Z.of_nat (length w)) = Z.of_nat (length w)) as Hs by (unfold s32; rewrite Z.mod_small; lia).
  split.
  - change (encode_loop (S fuel) (w ++ 46 :: rest) buffer) with
      (match w ++ 46 :: rest with [] => Some (Some buffer) | _ =>
         let dot := strchr (w ++ 46 :: rest) 46 in
         let len := s32 (match dot with Some d => Z.of_nat (length (w ++ 46 :: rest)) - Z.of_nat (length d) | None => strlen (w ++ 46 :: rest) end) in
         let written := Z.of_nat (length buffer) in
         if (63 <? len) || (DNS_MAX_NAME_LENGTH <? written + len + 1) then Some None else
         let buffer := buffer ++ u8 len :: take (Z.to_nat len) (w ++ 46 :: rest) in
         match dot with Some d => encode_loop fuel (drop 1 d) buffer | None => Some (Some buffer) end end).
    rewrite strchr_app by done. cbv zeta. rewrite length_app.
    replace (Z.of_nat (length w + length (46 :: rest)) - Z.of_nat (length (46 :: rest))) with (Z.of_nat (length w)) by lia.
    rewrite Hs, (proj2 (Z.ltb_ge 63 _)), (proj2 (Z.ltb_ge DNS_MAX_NAME_LENGTH _)) by (unfold DNS_MAX_NAME_LENGTH; lia).
    rewrite u8_small, Nat2Z.id, take_app_length by (unfold is_u8; lia). done.
  - cbn [encode_loop]. subst w. cbn zeta. rewrite strchr_none by done. rewrite strlen_length.
    rewrite Hs, (proj2 (Z.ltb_ge 63 _)), (proj2 (Z.ltb_ge DNS_MAX_NAME_LENGTH _)) by (unfold DNS_MAX_NAME_LENGTH; lia).
    cbn [orb]. rewrite u8_small, Nat2Z.id, firstn_all by (unfold is_u8; lia). done.
Qed.

Lemma encode_loop_join labels : ∀ fuel buffer,
  labels ≠ [] → Forall label_ok labels → (length labels <= fuel)%nat →
  Z.of_nat (length buffer + length (encoded labels)) <= 255 →
  encode_loop fuel (join labels) buffer = Some (Some (buffer ++ encoded labels)).
Proof.
  induction labels as [|l labels IH]; intros fuel buffer Hne Hok Hf Hlen; [done|]. apply Forall_cons in Hok as [Hl Hok].
  destruct fuel as [|fuel]; [simpl in Hf; lia|]. rewrite length_encoded_cons in Hlen.
  destruct (encode_label fuel l (join labels) buffer Hl ltac:(lia)) as [Hcons Hlast].
  destruct labels as [|l2 labels].
  - cbn [join]. rewrite Hlast. unfold encoded. cbn. by rewrite app_nil_r.
  - change (join (l :: l2 :: labels)) with (l ++ 46 :: join (l2 :: labels)). rewrite Hcons, IH; [|done|done|simpl in *; lia|].
    + unfold encoded. cbn [fmap list_fmap concat]. by rewrite <- app_assoc.
    + rewrite length_app. cbn [length]. lia.
Qed.

Lemma decode_encoded labels rest fuel :
  Forall label_ok labels → (length labels < fuel)%nat → decode_name fuel (encoded labels ++ 0 :: rest) = labels.
Proof.
  revert fuel. induction labels as [|l labels IH]; intros [|fuel] Hok Hf; [simpl in Hf; lia|done|simpl in Hf; lia|].
  apply Forall_cons in Hok as [[Hl _] Hok]. unfold encoded. cbn [fmap list_fmap concat app decode_name]. fold (encoded labels).
  rewrite (proj2 (Z.eqb_neq _ _)) by lia. rewrite Nat2Z.id, <- !app_assoc, take_app_length, drop_app_length.
  f_equal. apply IH; [done|simpl in Hf; lia].
Qed.

Lemma length_join labels : Forall label_ok labels → (length labels <= S (length (join labels)))%nat.
Proof.
  induction 1 as [|l labels [Hl _] _ IH]; [simpl; lia|]. destruct labels as [|l2 labels]; [simpl; lia|].
  change (join (l :: l2 :: labels)) with (l ++ 46 :: join (l2 :: labels)). rewrite length_app. cbn [length] in *. lia.
Qed.

(** Every name is either refused or fits into 256 bytes. *)
Lemma encode_loop_total fuel : ∀ label buffer,
  (length label < fuel)%nat → (length buffer <= 255)%nat → Z.of_nat (length label) < 2147483648 →
  ∃ r, encode_loop fuel label buffer = Some r ∧ ∀ b, r = Some b → (length b <= 255)%nat.
Proof.
  induction fuel as [|fuel IH]; intros label buffer Hf Hb Hl; [lia|]. cbn [encode_loop].
  destruct label as [|x label]; [exists (Some buffer); split; [done|by intros b [= <-]]|].
  set (w := x :: label) in *. pose proof (strchr_spec w 46) as Hdot.
  set (len := s32 _). destruct (_ || _)%bool eqn:Hc; [by exists None|]. apply orb_false_iff in Hc as [H63 H255]. zbool.
  unfold DNS_MAX_NAME_LENGTH in H255.
  assert (0 <= len) as Hlen0.
  { unfold len. destruct (strchr w 46) as [d|]; [destruct Hdot as (pre & Hw & _)|]; unfold s32.
    - assert (length w = length pre + length d)%nat as Hwl by (by rewrite Hw, length_app). rewrite Z.mod_small; lia.
    - rewrite strlen_length. rewrite Z.mod_small; lia. }
  set (buffer' := buffer ++ _). assert (length buffer' <= 255)%nat as Hb'.
  { unfold buffer'. rewrite length_app. cbn [length]. rewrite length_take. lia. }
  destruct (strchr w 46) as [d|]; [|exists (Some buffer'); split; [done|by intros b [= <-]]].
  destruct Hdot as (pre & Hw & Hd & _). destruct d as [|y d]; [done|].
  assert (length w = length pre + S (length d))%nat as Hwl by (by rewrite Hw, length_app).
  apply IH; [cbn [drop]; rewrite drop_0; lia|done|cbn [drop]; rewrite drop_0; lia].
Qed.

(** C35: a host name of at least one label, each of 1 to 63 characters, and of
    at most 255 encoded bytes is encoded as the labels of the name in front of a
    terminating 0: decoding the bytes gives the labels back. *)
Theorem dns_encode_name_roundtrip labels rest :
  labels ≠ [] → Forall label_ok labels → Z.of_nat (length (encoded labels)) <= 255 →
  ∃ name, dns_encode_name (join labels) = Some (Some name) ∧
    length name = S (length (encoded labels)) ∧ decode_name (length name) (name ++ rest) = labels.
Proof.
  intros Hne Hok Hlen. exists (encoded labels ++ [0]). unfold dns_encode_name.
  rewrite encode_loop_join by (done || (by apply length_join) || (simpl; lia)). split; [done|].
  split; [rewrite length_app; simpl; lia|]. rewrite <- app_assoc, length_app. apply decode_encoded; [done|].
  cbn [length]. enough (length labels <= length (encoded labels))%nat by lia. clear.
  induction labels as [|l labels IH]; [done|]. rewrite length_encoded_cons. cbn [length]. lia.
Qed.

(** ** Responses *)

Lemma get_le_some n buf off :
  Forall is_byte buf → 0 <= off → off + Z.of_nat n <= Z.of_nat (length buf) →
  ∃ x, get_le n buf off = Some x ∧ 0 <= x < 256 ^ Z.of_nat n.
Proof.
  intros Hb H0 Hl. destruct (slice_some buf off (Z.of_nat n)) as [l Hs]; [lia..|]. unfold get_le. rewrite Hs. cbn.
  eexists. split; [done|]. rewrite <- (slice_length _ _ _ _ Hs). apply le_dec_range. by eapply slice_bytes.
Qed.

Lemma skip_name_total response fuel : ∀ cur end_,
  Forall is_byte response → 0 <= cur → end_ <= Z.of_nat (length response) → end_ - cur < Z.of_nat fuel → 0 < Z.of_nat fuel →
  ∃ cur', skip_name fuel response cur end_ = Some cur' ∧ cur <= cur'.
Proof.
  induction fuel as [|fuel IH]; intros cur end_ Hb H0 Hl Hf Hf0; [lia|]. cbn [skip_name].
  destruct (cur <? end_) eqn:Hc; zbool; [|by exists cur].
  destruct (get_le_some 1 response cur) as (c & Hg & Hr); [done|lia|simpl; lia|]. rewrite Hg. cbn [mbind option_bind].
  destruct (c =? 0); [by exists cur|]. destruct (negb _); [exists (cur + 2); split; [done|lia]|].
  destruct (IH (cur + c + 1) end_) as (cur' & Hs & Hle); [done|lia|lia|lia|lia|]. exists cur'. split; [done|lia].
Qed.

Lemma ntohs_range x : 0 <= ntohs x.
Proof.
  unfold ntohs, htons. apply Z.lor_nonneg. split; [apply Z.shiftl_nonneg|apply Z.shiftr_nonneg]; apply Z.land_nonneg; lia.
Qed.

Section responses.
Context (response : list Z) (end_ : Z).
Context (Hbytes : Forall is_byte response).

Lemma skip_name_ok cur : 0 <= cur → end_ <= Z.of_nat (length response) →
  ∃ cur', skip_name (name_fuel cur end_) response cur end_ = Some cur' ∧ cur <= cur'.
Proof. intros. apply skip_name_total; [done|lia|lia|unfold name_fuel; lia..]. Qed.

Lemma skip_questions_total n : ∀ cur, 0 <= cur → end_ <= Z.of_nat (length response) →
  ∃ r, skip_questions n response cur end_ = Some r ∧ ∀ c, r = Some c → cur <= c.
Proof.
  induction n as [|n IH]; intros cur H0 Hl; cbn [skip_questions]; [exists (Some cur); split; [done|by intros c [= <-]]|].
  destruct (skip_name_ok cur) as (cur' & Hs & Hle); [done..|]. rewrite Hs. cbn [mbind option_bind].
  destruct (_ || _)%bool; [by exists None|]. unfold SIZEOF_QUESTION.
  destruct (IH (cur' + 4)) as (r & Hr & Hrc); [lia|done|]. exists r. split; [done|]. intros c Hc. specialize (Hrc c Hc). lia.
Qed.

Lemma parse_answers_total n : ∀ cur, 0 <= cur → end_ + 4 <= Z.of_nat (length response) →
  is_Some (parse_answers n response cur end_).
Proof.
  induction n as [|n IH]; intros cur H0 Hl; cbn [parse_answers]; [by eexists|].
  destruct (skip_name_ok cur) as (cur' & Hs & Hle); [lia..|]. rewrite Hs. cbn [mbind option_bind].
  destruct (end_ <=? cur'); [by eexists|]. destruct (end_ <? cur' + SIZEOF_RECORD) eqn:He; [by eexists|].
  unfold SIZEOF_RECORD in *. zbool.
  destruct (get_le_some 2 response cur') as (ty & -> & _); [done|lia|simpl; lia|]. cbn [mbind option_bind].
  destruct (get_le_some 2 response (cur' + 8)) as (rd & -> & _); [done|lia|simpl; lia|]. cbn [mbind option_bind].
  destruct (_ && _)%bool.
  - destruct (get_le_some 4 response (cur' + 10)) as (a & -> & _); [done|lia|simpl; lia|]. by eexists.
  - apply IH; [pose proof (ntohs_range rd); lia|done].
Qed.
End responses.

Lemma parse_message_total response n :
  Forall is_byte response → n + 4 <= Z.of_nat (length response) → is_Some (parse_message response n).
Proof.
  intros Hb Hl. unfold parse_message. destruct (n <? SIZEOF_DNS_HEADER) eqn:Hn; [by eexists|]. unfold SIZEOF_DNS_HEADER in *. zbool.
  destruct (get_le_some 2 response 2) as (flags & -> & _); [done|lia|simpl; lia|]. cbn [mbind option_bind].
  destruct (_ =? 0); [by eexists|]. destruct (negb _); [by eexists|].
  destruct (get_le_some 2 response 4) as (qd & -> & _); [done|lia|simpl; lia|]. cbn [mbind option_bind].
  destruct (skip_questions_total response n Hb (Z.to_nat (ntohs qd)) 12) as (q & -> & Hq); [lia..|]. cbn [mbind option_bind].
  destruct q as [cur|]; [|by eexists].
  destruct (get_le_some 2 response 6) as (an & -> & _); [done|lia|simpl; lia|]. cbn [mbind option_bind].
  apply parse_answers_total; [done|specialize (Hq cur eq_refl); lia|done].
Qed.


(** A name written out in the question is not skipped to its end: the question
    section ends one byte early, and an answer behind it is misread. *)
Lemma skip_name_stops_at_zero fuel response cur end_ :
  cur < end_ → get_le 1 response cur = Some 0 → skip_name (S fuel) response cur end_ = Some cur.
Proof. intros Hc Hg. cbn [skip_name]. rewrite (proj2 (Z.ltb_lt _ _) Hc), Hg. done. Qed.

(** ** Resolution *)

Section resolution.
Context {H : Type} `{HM : !Malloc H}.
Implicit Types s : dns H.

(** Every server is given up at [net_socket_connect]. *)
Lemma try_servers_fails junk sock query response servers ip s k :
  get_socket sock = Some (Z.to_nat sock) → socket_pool (d_net s) !! Z.to_nat sock = Some k → type k ≠ SOCKET_TCP →
  try_servers junk sock query response servers ip s = Some (ip, s).
Proof.
  intros Hg Hk Ht. induction servers as [|server servers IH]; [done|]. cbn [try_servers].
  unfold mbind at 1, M_bind at 1, on_net. unfold net_socket_connect. rewrite Hg.
  unfold mbind at 1, M_bind at 1, sock_at. rewrite Hk. cbn [mbind option_bind].
  rewrite bool_decide_eq_true_2 by done. cbn. destruct s. exact IH.
Qed.

Lemma dns_build_query_total domain buffer s :
  length buffer = 512%nat → Z.of_nat (length domain) < 2147483648 →
  ∃ q s', dns_build_query domain buffer s = Some (q, s') ∧ d_net s' = d_net s ∧ dns_servers s' = dns_servers s.
Proof.
  intros Hb Hd. unfold dns_build_query. rewrite Hb. change (_ <? SIZEOF_DNS_HEADER) with false.
  set (s1 := mk_dns (dns_servers s) (u16 (dns_query_id s + 1)) (dns_statistics s) (d_net s)). set (head := pack header_layout [u16 (dns_query_id s + 1); htons DNS_FLAG_RD; htons 1; 0; 0; 0]).
  assert (length head = 12%nat) as Hh by done.
  destruct (splice_some buffer 0 head) as [b1 Hb1]; [lia|rewrite Hh, Hb; lia|].
  unfold mbind, M_bind, lift, modify, gets. fold s1. cbn [dns_query_id s1]. fold head. rewrite Hb1.
  apply splice_length in Hb1.
  destruct (encode_loop_total (S (length domain)) domain []) as (r & Hr & Hrl); [lia|simpl; lia|done|].
  unfold dns_encode_name. rewrite Hr. cbn [mbind option_bind]. destruct r as [name|]; [|exists None, s1; done].
  specialize (Hrl name eq_refl). assert (length (name ++ [0%Z]) <= 256)%nat as Hn by (rewrite length_app; simpl; lia).
  set (nm := name ++ [0]) in *. unfold SIZEOF_DNS_HEADER, SIZEOF_QUESTION.
  destruct (splice_some b1 12 nm) as [b2 Hb2]; [lia|lia|]. cbn [mret option_ret]. rewrite Hb2. apply splice_length in Hb2.
  set (question := pack question_layout [htons DNS_TYPE_A; htons 1]). assert (length question = 4%nat) as Hq by done.
  destruct (splice_some b2 (12 + Z.of_nat (length nm)) question) as [b3 Hb3]; [lia|lia|]. rewrite Hb3.
  eexists _, s1. done.
Qed.

Lemma net_socket_close_total fd (n : net H) :
  Z.of_nat (length (socket_pool n)) = NET_MAX_SOCKETS →
  (∀ k, socket_pool n !! Z.to_nat fd = Some k → type k ≠ SOCKET_TCP) →
  ∃ n', net_socket_close fd n = Some ((), n').
Proof.
  intros Hl Ht. unfold net_socket_close, get_socket. destruct (_ || _)%bool eqn:Hfd; [by eexists|].
  apply orb_false_iff in Hfd as [? ?]. zbool.
  destruct (lookup_lt_is_Some_2 (socket_pool n) (Z.to_nat fd)) as [k Hk]; [lia|]. specialize (Ht k Hk).
  unfold mbind, M_bind, sock_at. rewrite Hk. cbn [mbind option_bind]. rewrite bool_decide_eq_false_2 by tauto.
  cbn [mret M_ret]. destruct (negb _).
  - unfold on_ip, ip_free, modify, upd_sock. cbn. rewrite Hk. cbn. rewrite list_lookup_insert_eq by lia. by eexists.
  - unfold upd_sock. cbn. rewrite Hk. by eexists.
Qed.

(** A new UDP socket. *)
Lemma net_socket_create_udp (n : net H) :
  Z.of_nat (length (socket_pool n)) = NET_MAX_SOCKETS →
  ∃ fd n', net_socket_create SOCKET_UDP n = Some (fd, n') ∧ length (socket_pool n') = length (socket_pool n) ∧
    (fd = -1 ∨ get_socket fd = Some (Z.to_nat fd) ∧ 0 <= fd ∧
               ∃ k, socket_pool n' !! Z.to_nat fd = Some k ∧ type k = SOCKET_UDP).
Proof.
  intros Hl. unfold net_socket_create, mbind, M_bind, allocate_socket_fd, gets.
  destruct (list_find _ (socket_pool n)) as [[i k]|] eqn:Hi; [|by exists (-1), n; auto].
  apply list_find_Some in Hi as (Hi & _). assert (i < length (socket_pool n))%nat as Hlt by (by eapply lookup_lt_Some).
  rewrite (proj2 (Z.ltb_ge _ _)) by lia. rewrite Nat2Z.id. unfold upd_sock. rewrite Hi. cbn [mbind option_bind].
  rewrite bool_decide_eq_false_2 by done. eexists _, _. split; [done|]. cbn [socket_pool set_pool].
  split; [apply length_insert|]. right. unfold get_socket.
  rewrite (proj2 (Z.ltb_ge _ _)), (proj2 (Z.leb_gt _ _)) by lia. rewrite Nat2Z.id. split; [done|]. split; [lia|].
  eexists. split; [by apply list_lookup_insert_eq|done].
Qed.
End resolution.

(** No host name is ever resolved: unless the characters of the name are
    taken for an address, the answer is 0 whatever the servers would say, since
    the socket is a UDP socket, and [net_socket_connect] refuses those. *)
Theorem net_resolve_dns_never {H} `{!Malloc H} junk stack hostname (s : dns H) :
  net_string_to_ip hostname = Some 0 → Z.of_nat (length hostname) < 2147483648 →
  length stack.1 = 512%nat → Z.of_nat (length (socket_pool (d_net s))) = NET_MAX_SOCKETS →
  ∃ s', net_resolve_dns junk stack hostname s = Some (0, s').
Proof.
  intros Hip Hh Hst Hl. unfold net_resolve_dns, mbind, M_bind, lift. rewrite Hip. cbn [Z.eqb negb].
  destruct (net_socket_create_udp (d_net s) Hl) as (fd & n' & Hc & Hl' & Hcase). unfold on_net at 1. rewrite Hc.
  destruct Hcase as [->|(Hg & Hfd & k & Hk & Ht)]; [by eexists|]. rewrite (proj2 (Z.ltb_ge _ _)) by lia.
  set (s1 := mk_dns _ _ _ n'). destruct (dns_build_query_total hostname stack.1 s1) as (q & s2 & Hq & Hn2 & _); [done..|].
  rewrite Hq. change (d_net s1) with n' in Hn2.
  assert (∀ st, d_net st = n' → ∃ n'', on_net (net_socket_close fd) st = Some ((), mk_dns (dns_servers st) (dns_query_id st) (dns_statistics st) n'')) as Hclose.
  { intros st Hst'. unfold on_net. rewrite Hst'. destruct (net_socket_close_total fd n') as [n'' ->]; [lia|congruence|]. by eexists. }
  destruct q as [[ql qb]|].
  - unfold count_stat, modify, gets.
    erewrite (try_servers_fails _ _ _ _ _ _ _ k); [|done|cbn; by rewrite Hn2|congruence].
    destruct (Hclose (mk_dns (dns_servers s2) (dns_query_id s2) (count_query (dns_statistics s2)) (d_net s2)) Hn2) as [n'' ->]. by eexists.
  - destruct (Hclose s2 Hn2) as [n'' ->]. by eexists.
Qed.

(** ** Witnesses *)

(** "example", "com" *)
Definition demo_labels : list (list Z) := [[101; 120; 97; 109; 112; 108; 101]; [99; 111; 109]].
Definition demo_dns : dns nat := mk_dns default_dns_servers 0 zero_stats demo_net.

Lemma dns_encode_name_roundtrip_witness :
  ∃ name, dns_encode_name (join demo_labels) = Some (Some name) ∧ name = [7; 101; 120; 97; 109; 112; 108; 101; 3; 99; 111; 109; 0] ∧
    decode_name 13 name = demo_labels.
Proof.
  destruct (dns_encode_name_roundtrip demo_labels []) as (name & Hn & Hl & Hd); [done| |vm_compute; done|].
  - repeat constructor; cbn; try lia; intros Hin; by apply (bool_decide_unpack _) in Hin || (repeat (apply elem_of_cons in Hin as [?|Hin]; [done|]); by apply elem_of_nil in Hin).
  - exists name. split; [done|]. vm_compute in Hn. injection Hn as <-. done.
Defined.

(** A reply without a question, whose answer's name is a pointer. *)
Definition demo_response : list Z :=
  [0; 1; 128; 0; 0; 0; 0; 1; 0; 0; 0; 0; 192; 12; 0; 1; 0; 1; 0; 0; 0; 0; 0; 4; 93; 184; 216; 34; 0; 0; 0; 0].


(** "example" *)
Lemma net_resolve_dns_never_witness :
  ∃ s', net_resolve_dns 0 (replicate 512 0, replicate 512 0) [101; 120; 97; 109; 112; 108; 101] demo_dns = Some (0, s').
Proof. apply net_resolve_dns_never; reflexivity. Defined.
