(* ===== verification/Http.v ===== *)
(** * The HTTP client ([net/http/http.c])

    The clients, requests and responses, and the strings and bodies they point
    to, are stores indexed by heap address; a freed object is removed, and using
    it again faults.  [realloc] is an operation of the heap; the bytes of the
    buffer it moves are those of the list that goes with the pointer. *)
From S2P Require Import Prelude Interfaces Monad Str Bytes.
From S2P Require Ip Net.

Definition HTTP_MAX_HEADERS : Z := 32.
Definition HTTP_BUFFER_SIZE : Z := 4096.
Definition HTTP_MAX_CLIENTS : Z := 16.

Inductive http_method_t := HTTP_GET | HTTP_POST | HTTP_PUT | HTTP_DELETE | HTTP_HEAD | HTTP_OPTIONS | HTTP_PATCH.

(** The socket is the index of an entry of the socket pool. *)
Record http_client_t := mk_client { c_socket : option nat; c_host : Z; c_port : Z; c_connected : bool }.
Record http_request_t := mk_request {
  r_method : http_method_t; r_url : Z; r_version : Z; r_headers : Z; r_list : list (Z * Z); r_body : Z; r_body_length : Z }.
(** Status, version and headers of a response are never set. *)
Record http_response_t := mk_response { s_headers : Z; s_body : Z; s_body_length : Z }.

Definition SIZEOF_CLIENT : Z := 24.
Definition SIZEOF_REQUEST : Z := 56.
Definition SIZEOF_RESPONSE : Z := 56.
Definition SIZEOF_HEADER : Z := 16.

Class Realloc (H : Type) := { realloc : Z → Z → H → Z * H }.

Record http (H : Type) := mk_http {
  http_initialized : bool; active_clients : list Z; client_count : Z;
  clients : gmap Z http_client_t; requests : gmap Z http_request_t; responses : gmap Z http_response_t;
  strings : gmap Z (list Z); bodies : gmap Z (list Z); h_net : Net.net H }.
Arguments mk_http {_}.
Arguments http_initialized {_}.
Arguments active_clients {_}.
Arguments client_count {_}.
Arguments clients {_}.
Arguments requests {_}.
Arguments responses {_}.
Arguments strings {_}.
Arguments bodies {_}.
Arguments h_net {_}.

(** ** Text *)

(** "OK", "Created" and so on. *)
Definition HTTP_OK : Z := 200.
Definition HTTP_CREATED : Z := 201.
Definition HTTP_ACCEPTED : Z := 202.
Definition HTTP_NO_CONTENT : Z := 204.
Definition HTTP_BAD_REQUEST : Z := 400.
Definition HTTP_UNAUTHORIZED : Z := 401.
Definition HTTP_FORBIDDEN : Z := 403.
Definition HTTP_NOT_FOUND : Z := 404.
Definition HTTP_SERVER_ERROR : Z := 500.

Definition http_status_text (status : Z) : list Z :=
  if status =? HTTP_OK then [79; 75]
  else if status =? HTTP_CREATED then [67; 114; 101; 97; 116; 101; 100]
  else if status =? HTTP_ACCEPTED then [65; 99; 99; 101; 112; 116; 101; 100]
  else if status =? HTTP_NO_CONTENT then [78; 111; 32; 67; 111; 110; 116; 101; 110; 116]
  else if status =? HTTP_BAD_REQUEST then [66; 97; 100; 32; 82; 101; 113; 117; 101; 115; 116]
  else if status =? HTTP_UNAUTHORIZED then [85; 110; 97; 117; 116; 104; 111; 114; 105; 122; 101; 100]
  else if status =? HTTP_FORBIDDEN then [70; 111; 114; 98; 105; 100; 100; 101; 110]
  else if status =? HTTP_NOT_FOUND then [78; 111; 116; 32; 70; 111; 117; 110; 100]
  else if status =? HTTP_SERVER_ERROR then [73; 110; 116; 101; 114; 110; 97; 108; 32; 83; 101; 114; 118; 101; 114; 32; 69; 114; 114; 111; 114]
  else [85; 110; 107; 110; 111; 119; 110; 32; 83; 116; 97; 116; 117; 115].

Definition http_method_string (method : http_method_t) : list Z :=
  match method with
  | HTTP_GET => [71; 69; 84]
  | HTTP_POST => [80; 79; 83; 84]
  | HTTP_PUT => [80; 85; 84]
  | HTTP_DELETE => [68; 69; 76; 69; 84; 69]
  | HTTP_HEAD => [72; 69; 65; 68]
  | HTTP_OPTIONS => [79; 80; 84; 73; 79; 78; 83]
  | HTTP_PATCH => [80; 65; 84; 67; 72]
  end.

(** "HTTP/1.1", " ", ": ", CR LF and twice that *)
Definition http_version : list Z := [72; 84; 84; 80; 47; 49; 46; 49].
Definition space : list Z := [32].
Definition colon : list Z := [58; 32].
Definition crlf : list Z := [13; 10].
Definition crlf2 : list Z := [13; 10; 13; 10].

(** [strchr] and [strstr] on a string in a buffer: [None] is a read behind the
    buffer, [Some None] is NULL, otherwise the answer is an offset. *)
Fixpoint buffer_chr (buf : list Z) (c : Z) (off : Z) : option (option Z) :=
  match buf with
  | [] => None
  | x :: buf => if x =? 0 then Some None else if x =? c then Some (Some off) else buffer_chr buf c (off + 1)
  end.
Fixpoint buffer_match (buf needle : list Z) : option bool :=
  match needle, buf with
  | [], _ => Some true
  | _ :: _, [] => None
  | n :: needle, x :: buf => if x =? 0 then Some false else if x =? n then buffer_match buf needle else Some false
  end.
Fixpoint buffer_str (buf needle : list Z) (off : Z) : option (option Z) :=
  match buf with
  | [] => None
  | x :: rest =>
      if x =? 0 then Some None else
      m ← buffer_match buf needle;
      if (m : bool) then Some (Some off) else buffer_str rest needle (off + 1)
  end.

(** The offset and the length of the body of a response, [Some None] for a
    response that is refused. *)
Definition find_body (response_data : list Z) (length : Z) : option (option (Z * Z)) :=
  status_end ← buffer_chr response_data 13 0;
  match status_end with
  | None => Some None
  | Some status_end =>
      let current := status_end + 2 in
      headers_end ← buffer_str (drop (Z.to_nat current) response_data) crlf2 current;
      match headers_end with
      | None => Some None
      | Some headers_end => let body_start := headers_end + 4 in Some (Some (body_start, u64 (length - body_start)))
      end
  end.

(** The growing buffer of [append_string]: its address, its bytes (without the
    NUL), its capacity. *)
Record text := mk_text { t_buffer : Z; t_bytes : list Z; t_capacity : Z }.

Section http.
Context {H : Type} `{!Malloc H, !Realloc H}.
Abbreviation M := (Monad.M (http H)).

(** *** The state *)

Definition on_net {X} (m : Monad.M (Net.net H) X) : M X := λ s,
  match m (h_net s) with
  | Some (x, n) => Some (x, mk_http (http_initialized s) (active_clients s) (client_count s) (clients s) (requests s)
                              (responses s) (strings s) (bodies s) n)
  | None => None
  end.
Definition hmalloc (n : Z) : M Z := on_net (Net.on_ip (Ip.ip_malloc n)).
Definition hfree (p : Z) : M () := on_net (Net.on_ip (Ip.ip_free p)).
Definition hrealloc (p n : Z) : M Z :=
  on_net (Net.on_ip (λ s, let '(q, h) := realloc p n (Ip.ip_heap s) in Some (q, Ip.set_heap h s))).

Definition set_clients (b : bool) (l : list Z) (n : Z) : M () := modify (λ s,
  mk_http b l n (clients s) (requests s) (responses s) (strings s) (bodies s) (h_net s)).
Definition upd_clients (f : gmap Z http_client_t → gmap Z http_client_t) : M () := modify (λ s,
  mk_http (http_initialized s) (active_clients s) (client_count s) (f (clients s)) (requests s) (responses s) (strings s) (bodies s) (h_net s)).
Definition upd_requests (f : gmap Z http_request_t → gmap Z http_request_t) : M () := modify (λ s,
  mk_http (http_initialized s) (active_clients s) (client_count s) (clients s) (f (requests s)) (responses s) (strings s) (bodies s) (h_net s)).
Definition upd_responses (f : gmap Z http_response_t → gmap Z http_response_t) : M () := modify (λ s,
  mk_http (http_initialized s) (active_clients s) (client_count s) (clients s) (requests s) (f (responses s)) (strings s) (bodies s) (h_net s)).
Definition upd_strings (f : gmap Z (list Z) → gmap Z (list Z)) : M () := modify (λ s,
  mk_http (http_initialized s) (active_clients s) (client_count s) (clients s) (requests s) (responses s) (f (strings s)) (bodies s) (h_net s)).
Definition upd_bodies (f : gmap Z (list Z) → gmap Z (list Z)) : M () := modify (λ s,
  mk_http (http_initialized s) (active_clients s) (client_count s) (clients s) (requests s) (responses s) (strings s) (f (bodies s)) (h_net s)).

Definition the_client (p : Z) : M http_client_t := o ← gets (λ s, clients s !! p); lift o.
Definition the_request (p : Z) : M http_request_t := o ← gets (λ s, requests s !! p); lift o.
Definition the_response (p : Z) : M http_response_t := o ← gets (λ s, responses s !! p); lift o.
Definition the_string (p : Z) : M (list Z) := o ← gets (λ s, strings s !! p); lift o.
Definition put_client (p : Z) (c : http_client_t) : M () := upd_clients <[p := c]>.

Definition strdup (str : list Z) : M Z :=
  p ← hmalloc (strlen str + 1);
  (if p =? 0 then mret () else upd_strings <[p := str]>);;
  mret p.
Definition free_string (p : Z) : M () := upd_strings (delete p);; hfree p.
(** [if (p) free(p);] *)
Definition free_if (p : Z) : M () := if p =? 0 then mret () else free_string p.

(** *** Clients *)

Definition http_init : M bool :=
  b ← gets http_initialized;
  if (b : bool) then mret true else
  set_clients true (replicate (Z.to_nat HTTP_MAX_CLIENTS) 0) 0;;
  mret true.

Definition http_client_create : M Z :=
  b ← gets http_initialized;
  n ← gets client_count;
  if negb b || (HTTP_MAX_CLIENTS <=? n) then mret 0 else
  client ← hmalloc SIZEOF_CLIENT;
  if client =? 0 then mret 0 else
  l ← gets active_clients;
  (match list_find (λ c, c = 0) l with
   | Some (i, _) => set_clients b (<[i := client]> l) (u16 (n + 1))
   | None => mret ()
   end);;
  put_client client (mk_client None 0 0 false);;
  mret client.

Definition http_client_disconnect (client : Z) : M () :=
  if client =? 0 then mret () else
  c ← the_client client;
  if negb (c_connected c) then mret () else
  (match c_socket c with
   | Some i => k ← on_net (Net.sock_at i); on_net (Net.net_socket_close (Net.fd k))
   | None => mret ()
   end);;
  put_client client (mk_client None (c_host c) (c_port c) false).

Definition http_client_destroy (client : Z) : M () :=
  b ← gets http_initialized;
  if (client =? 0) || negb b then mret () else
  l ← gets active_clients;
  n ← gets client_count;
  (match list_find (λ c, c = client) l with
   | Some (i, _) => set_clients b (<[i := 0]> l) (u16 (n - 1))
   | None => mret ()
   end);;
  c ← the_client client;
  (if (c_connected c : bool) then http_client_disconnect client else mret ());;
  c ← the_client client;
  free_if (c_host c);;
  upd_clients (delete client);;
  hfree client.

Definition http_shutdown : M () :=
  b ← gets http_initialized;
  if negb b then mret () else
  for_list (seqZ 0 HTTP_MAX_CLIENTS) (λ i,
    l ← gets active_clients;
    client ← lift (index l i);
    if client =? 0 then mret () else
    http_client_destroy client;;
    l ← gets active_clients;
    n ← gets client_count;
    set_clients b (<[Z.to_nat i := 0]> l) n);;
  l ← gets active_clients;
  set_clients false l 0.

(** The host is [None] for NULL. *)
Definition http_client_connect (junk client : Z) (host : option (list Z)) (port : Z) : M Z :=
  match host with
  | None => mret (-1)
  | Some host =>
      if client =? 0 then mret (-1) else
      sock_fd ← on_net (Net.net_socket_create Net.SOCKET_TCP);
      if sock_fd <? 0 then mret (-1) else
      ip ← lift (Net.net_resolve_hostname host);
      if ip =? 0 then on_net (Net.net_socket_close sock_fd);; mret (-1) else
      r ← on_net (Net.net_socket_connect junk sock_fd ip port);
      if r <? 0 then on_net (Net.net_socket_close sock_fd);; mret (-1) else
      h ← strdup host;
      c ← the_client client;
      put_client client (mk_client (Net.net_socket_get sock_fd) h port true);;
      mret 0
  end.

(** *** Requests *)

Definition http_request_create (method : http_method_t) (url : list Z) : M Z :=
  request ← hmalloc SIZEOF_REQUEST;
  if request =? 0 then mret 0 else
  u ← strdup url;
  v ← strdup http_version;
  h ← hmalloc (SIZEOF_HEADER * HTTP_MAX_HEADERS);
  upd_requests <[request := mk_request method u v h [] 0 0]>;;
  mret request.

Definition http_request_destroy (request : Z) : M () :=
  if request =? 0 then mret () else
  r ← the_request request;
  free_if (r_url r);;
  free_if (r_version r);;
  for_list (r_list r) (λ h, free_string h.1;; free_string h.2);;
  (if r_headers r =? 0 then mret () else hfree (r_headers r));;
  (if r_body r =? 0 then mret () else upd_bodies (delete (r_body r));; hfree (r_body r));;
  upd_requests (delete request);;
  hfree request.

(** A NULL array of headers is written to. *)
Definition http_request_add_header (request : Z) (name value : option (list Z)) : M () :=
  match name, value with
  | Some name, Some value =>
      if request =? 0 then mret () else
      r ← the_request request;
      if HTTP_MAX_HEADERS <=? Z.of_nat (length (r_list r)) then mret () else
      n ← strdup name;
      v ← strdup value;
      if r_headers r =? 0 then fault else
      upd_requests <[request := mk_request (r_method r) (r_url r) (r_version r) (r_headers r) (r_list r ++ [(n, v)])
                                  (r_body r) (r_body_length r)]>
  | _, _ => mret ()
  end.

(** A NULL or a short buffer is written to when [realloc] fails. *)
Definition append_string (t : text) (str : list Z) : M text :=
  let str_len := strlen str in
  let len := Z.of_nat (length (t_bytes t)) in
  t ← (if t_capacity t <? u64 (u64 (len + str_len) + 1) then
         let capacity := u64 (u64 (t_capacity t + str_len) * 2) in
         b ← hrealloc (t_buffer t) capacity;
         mret (mk_text b (t_bytes t) capacity)
       else mret t);
  if t_buffer t =? 0 then fault else
  if t_capacity t <? len + str_len + 1 then fault else
  mret (mk_text (t_buffer t) (t_bytes t ++ str) (t_capacity t)).

Fixpoint append_strings (t : text) (l : list (list Z)) : M text :=
  match l with [] => mret t | str :: l => t ← append_string t str; append_strings t l end.

Fixpoint append_headers (t : text) (l : list (Z * Z)) : M text :=
  match l with
  | [] => mret t
  | (n, v) :: l =>
      name ← the_string n;
      value ← the_string v;
      t ← append_strings t [name; colon; value; crlf];
      append_headers t l
  end.

(** The text of a request, with its buffer. *)
Definition build_request (r : http_request_t) (t : text) : M text :=
  url ← the_string (r_url r);
  t ← append_strings t [http_method_string (r_method r); space; url; space];
  version ← the_string (r_version r);
  t ← append_strings t [version; crlf];
  t ← append_headers t (r_list r);
  append_string t crlf.

(** *** Responses *)

Definition http_response_destroy (response : Z) : M () :=
  if response =? 0 then mret () else
  r ← the_response response;
  (if s_headers r =? 0 then mret () else hfree (s_headers r));;
  (if s_body r =? 0 then mret () else upd_bodies (delete (s_body r));; hfree (s_body r));;
  upd_responses (delete response);;
  hfree response.

Definition parse_response (response_data : list Z) (length : Z) : M Z :=
  response ← hmalloc SIZEOF_RESPONSE;
  if response =? 0 then mret 0 else
  h ← hmalloc (SIZEOF_HEADER * HTTP_MAX_HEADERS);
  upd_responses <[response := mk_response h 0 0]>;;
  found ← lift (find_body response_data length);
  match found with
  | None => http_response_destroy response;; mret 0
  | Some (body_start, body_length) =>
      (if 0 <? body_length then
         b ← hmalloc body_length;
         if b =? 0 then mret () else
         body ← lift (slice response_data body_start body_length);
         upd_bodies <[b := body]>;;
         upd_responses <[response := mk_response h b (u32 body_length)]>
       else mret ());;
      mret response
  end.

(** [stack] is what the buffer for the answer holds at first. *)
Definition http_send_request (stack : list Z) (client request : Z) : M Z :=
  if (client =? 0) || (request =? 0) then mret 0 else
  c ← the_client client;
  if negb (c_connected c) then mret 0 else
  r ← the_request request;
  b ← hmalloc HTTP_BUFFER_SIZE;
  if b =? 0 then mret 0 else
  t ← build_request r (mk_text b [] HTTP_BUFFER_SIZE);
  i ← lift (c_socket c);
  k ← on_net (Net.sock_at i);
  ret ← on_net (Net.net_socket_send (Net.fd k) (take (Z.to_nat (u16 (Z.of_nat (length (t_bytes t))))) (t_bytes t)));
  if ret <? 0 then hfree (t_buffer t);; mret 0 else
  ret ← (if negb (r_body r =? 0) && (0 <? r_body_length r) then
           body ← gets (λ s, bodies s !! r_body r);
           body ← lift body;
           k ← on_net (Net.sock_at i);
           on_net (Net.net_socket_send (Net.fd k) (take (Z.to_nat (u16 (r_body_length r))) body))
         else mret 0);
  if ret <? 0 then hfree (t_buffer t);; mret 0 else
  hfree (t_buffer t);;
  k ← on_net (Net.sock_at i);
  '(ret, data) ← on_net (Net.net_socket_receive (Net.fd k) true HTTP_BUFFER_SIZE);
  if ret <? 0 then mret 0 else
  parse_response (data ++ drop (length data) stack) (Z.of_nat (length data)).
End http.

(** ** Where the body of a response is found *)

Lemma buffer_chr_found pre c rest : ∀ off,
  Forall (λ x, x ≠ 0 ∧ x ≠ c) pre → c ≠ 0 → buffer_chr (pre ++ c :: rest) c off = Some (Some (off + Z.of_nat (length pre))).
Proof.
  induction pre as [|x pre IH]; intros off Hp Hc; cbn [app buffer_chr].
  - rewrite (proj2 (Z.eqb_neq _ _) Hc), Z.eqb_refl. cbn. by rewrite Z.add_0_r.
  - apply Forall_cons in Hp as [[H0 Hxc] Hp]. rewrite (proj2 (Z.eqb_neq _ _) H0), (proj2 (Z.eqb_neq _ _) Hxc), IH by done.
    cbn [length]. do 2 f_equal. lia.
Qed.

(** Lines of a head: not empty, and without NUL and CR. *)
Definition line_ok (l : list Z) : Prop := l ≠ [] ∧ Forall (λ x, x ≠ 0 ∧ x ≠ 13) l.
Definition lines (ls : list (list Z)) : list Z := concat ((λ l, l ++ crlf) <$> ls).

Lemma buffer_match_nil buf : buffer_match buf [] = Some true.
Proof. by destruct buf. Qed.

(** Characters before a CR do not start the end of the head. *)
Lemma buffer_str_skip pre rest : ∀ off,
  Forall (λ x, x ≠ 0 ∧ x ≠ 13) pre → buffer_str (pre ++ rest) crlf2 off = buffer_str rest crlf2 (off + Z.of_nat (length pre)).
Proof.
  induction pre as [|x pre IH]; intros off Hp; [cbn; by rewrite Z.add_0_r|].
  apply Forall_cons in Hp as [[H0 Hxc] Hp]. cbn [app buffer_str]. rewrite (proj2 (Z.eqb_neq _ _) H0).
  cbn [crlf2 buffer_match]. rewrite (proj2 (Z.eqb_neq _ _) H0), (proj2 (Z.eqb_neq _ _) Hxc). cbn [mbind option_bind].
  rewrite IH by done. cbn [length]. f_equal. lia.
Qed.

Lemma buffer_str_lines ls l body : ∀ off,
  Forall line_ok (ls ++ [l]) →
  buffer_str (lines (ls ++ [l]) ++ crlf ++ body) crlf2 off = Some (Some (off + Z.of_nat (length (lines (ls ++ [l]))) - 2)).
Proof.
  induction ls as [|l0 ls IH]; intros off Hok.
  - apply Forall_cons in Hok as [[_ Hl] _]. unfold lines. cbn [fmap list_fmap app concat]. rewrite app_nil_r, <- !app_assoc.
    rewrite buffer_str_skip by done. cbn -[Z.add length]. rewrite buffer_match_nil. cbn [mbind option_bind]. rewrite length_app. cbn [length crlf]. do 2 f_equal. lia.
  - cbn [app] in Hok. apply Forall_cons in Hok as [[_ Hl0] Hok].
    change (lines ((l0 :: ls) ++ [l])) with ((l0 ++ crlf) ++ lines (ls ++ [l])). rewrite <- !app_assoc.
    rewrite buffer_str_skip by done. set (off' := off + Z.of_nat (length l0)).
    assert (∃ x tl, lines (ls ++ [l]) = x :: tl ∧ x ≠ 0 ∧ x ≠ 13) as (x & tl & Hx & Hx0 & Hxc).
    { assert (∀ y ys, line_ok y → ∃ x tl, lines (y :: ys) = x :: tl ∧ x ≠ 0 ∧ x ≠ 13) as Hfirst.
      { intros [|x y] ys [Hne Hy]; [done|]. apply Forall_cons in Hy as [Hy _]. by eexists x, _. }
      destruct ls as [|l1 ls]; cbn [app] in Hok |- *; apply Forall_cons in Hok as [Hok1 _]; by apply Hfirst. }
    assert (buffer_str (crlf ++ lines (ls ++ [l]) ++ crlf ++ body) crlf2 off' = buffer_str (lines (ls ++ [l]) ++ crlf ++ body) crlf2 (off' + 2)) as ->.
    { rewrite Hx. cbn [app crlf buffer_str buffer_match crlf2 Z.eqb Pos.eqb]. rewrite (proj2 (Z.eqb_neq _ _) Hx0), (proj2 (Z.eqb_neq _ _) Hxc).
      cbn [mbind option_bind]. f_equal. lia. }
    rewrite IH by done. rewrite !length_app. cbn [length crlf]. subst off'. do 2 f_equal. lia.
Qed.

(** The body of a response is what follows the first blank line: for a
    response of a status line, one or more headers, a blank line and a body, the
    offset and the length found are those of the body. *)
Theorem find_body_correct status ls l body rest :
  line_ok status → Forall line_ok (ls ++ [l]) →
  let head := status ++ crlf ++ lines (ls ++ [l]) ++ crlf in
  Z.of_nat (length (head ++ body)) < 18446744073709551616 →
  find_body (head ++ body ++ rest) (Z.of_nat (length (head ++ body))) = Some (Some (Z.of_nat (length head), Z.of_nat (length body))) ∧
  slice (head ++ body ++ rest) (Z.of_nat (length head)) (Z.of_nat (length body)) = Some body.
Proof.
  intros [_ Hst] Hls head Hlen. split.
  - unfold find_body, head. rewrite <- !app_assoc. change (status ++ crlf ++ ?x) with (status ++ 13 :: 10 :: x).
    rewrite buffer_chr_found by done. cbn [mbind option_bind].
    assert (drop (Z.to_nat (0 + Z.of_nat (length status) + 2)) (status ++ 13 :: 10 :: lines (ls ++ [l]) ++ crlf ++ body ++ rest) =
            lines (ls ++ [l]) ++ crlf ++ body ++ rest) as ->.
    { replace (Z.to_nat (0 + Z.of_nat (length status) + 2)) with (length status + 2)%nat by lia. rewrite drop_app_add. done. }
    rewrite buffer_str_lines by done. cbn [mbind option_bind].
    assert (Z.of_nat (length head) = 0 + Z.of_nat (length status) + 2 + Z.of_nat (length (lines (ls ++ [l]))) - 2 + 4) as Hh.
    { unfold head. rewrite !length_app. cbn [length crlf]. lia. }
    rewrite <- Hh.
    assert (status ++ 13 :: 10 :: lines (ls ++ [l]) ++ crlf ++ body = head ++ body) as -> by (unfold head; by rewrite <- !app_assoc).
    change (status ++ 13 :: 10 :: lines (ls ++ [l]) ++ crlf) with head. rewrite length_app in *.
    rewrite u64_small by (unfold is_u64; lia). do 3 f_equal. lia.
  - unfold slice. rewrite !length_app in *. rewrite !(proj2 (Z.leb_le _ _)) by lia. cbn [andb]. rewrite !Nat2Z.id.
    by rewrite drop_app_length, take_app_length.
Qed.

(** A response without a header is refused: the search for the blank line starts
    behind the end of the status line. *)
Lemma find_body_no_headers status rest length :
  line_ok status → find_body (status ++ crlf ++ crlf ++ 0 :: rest) length = Some None.
Proof.
  intros [_ Hst]. unfold find_body. change (status ++ crlf ++ ?x) with (status ++ 13 :: 10 :: x).
  rewrite buffer_chr_found by done. cbn [mbind option_bind].
  assert (drop (Z.to_nat (0 + Z.of_nat (base.length status) + 2)) (status ++ 13 :: 10 :: crlf ++ 0 :: rest) = crlf ++ 0 :: rest) as ->.
  { replace (Z.to_nat (0 + Z.of_nat (base.length status) + 2)) with (base.length status + 2)%nat by lia. by rewrite drop_app_add. }
  done.
Qed.

(** ** The text of a request *)

Definition header_text (h : list Z * list Z) : list Z := h.1 ++ colon ++ h.2 ++ crlf.
Definition request_text (method : http_method_t) (url version : list Z) (headers : list (list Z * list Z)) : list Z :=
  http_method_string method ++ space ++ url ++ space ++ version ++ crlf ++ concat (header_text <$> headers) ++ crlf.

(** The buffer has room for the text and its NUL, and is not much too large. *)
Definition text_ok (t : text) : Prop :=
  t_buffer t ≠ 0 ∧ Z.of_nat (length (t_bytes t)) + 1 <= t_capacity t <= 4096 + 4 * Z.of_nat (length (t_bytes t)).

Section requests.
Context {H : Type} `{HM : !Malloc H, HR : !Realloc H}.
Implicit Types s : http H.
(** There is memory enough. *)
Context (realloc_ok : ∀ p n (h : H), p ≠ 0 → fst (realloc p n h) ≠ 0).

Lemma wp_append_string t str s :
  text_ok t → Z.of_nat (length (t_bytes t) + length str) < 1152921504606846976 →
  wp (append_string t str) (λ t' s', text_ok t' ∧ t_bytes t' = t_bytes t ++ str ∧ strings s' = strings s) s.
Proof.
  intros (Hb & Hlo & Hhi) Hlen. unfold append_string. rewrite strlen_length.
  set (len := Z.of_nat (length (t_bytes t))) in *. set (n := Z.of_nat (length str)).
  assert (0 <= len) by (unfold len; lia). assert (0 <= n) by (unfold n; lia). assert (len + n < 1152921504606846976) by (unfold len, n; lia).
  rewrite (u64_small (len + n)), (u64_small (len + n + 1)) by (unfold is_u64; lia).
  assert (∀ b c, b ≠ 0 → len + n + 1 <= c <= 4096 + 4 * (len + n) → text_ok (mk_text b (t_bytes t ++ str) c)) as Hok.
  { intros b c Hb' Hc. split; [done|]. cbn. rewrite length_app, Nat2Z.inj_add. fold len n. lia. }
  apply wp_bind. destruct (t_capacity t <? len + n + 1) eqn:Hc; zbool.
  - rewrite (u64_small (t_capacity t + n)), (u64_small ((t_capacity t + n) * 2)) by (unfold is_u64; lia).
    apply wp_bind. unfold wp at 1, hrealloc, on_net, Net.on_ip.
    destruct (realloc (t_buffer t) ((t_capacity t + n) * 2) (Ip.ip_heap (Net.ip_layer (h_net s)))) as [q h] eqn:Hr.
    apply wp_ret. cbn [t_buffer t_bytes t_capacity]. fold len.
    assert (q ≠ 0) as Hq by (pose proof (realloc_ok _ ((t_capacity t + n) * 2) (Ip.ip_heap (Net.ip_layer (h_net s))) Hb) as Hq; by rewrite Hr in Hq).
    rewrite (proj2 (Z.eqb_neq _ _) Hq), (proj2 (Z.ltb_ge _ _)) by lia. apply wp_ret. split; [apply Hok; [done|lia]|done].
  - apply wp_ret. rewrite (proj2 (Z.eqb_neq _ _) Hb), (proj2 (Z.ltb_ge _ _)) by lia. apply wp_ret. split; [apply Hok; [done|lia]|done].
Qed.

Lemma wp_append_strings l : ∀ t s,
  text_ok t → Z.of_nat (length (t_bytes t) + length (concat l)) < 1152921504606846976 →
  wp (append_strings t l) (λ t' s', text_ok t' ∧ t_bytes t' = t_bytes t ++ concat l ∧ strings s' = strings s) s.
Proof.
  induction l as [|str l IH]; intros t s Ht Hl; cbn [append_strings concat] in *.
  - apply wp_ret. by rewrite app_nil_r.
  - rewrite length_app in Hl. apply wp_bind. eapply wp_mono; [apply wp_append_string; [done|lia]|]. cbn beta.
    intros t1 s1 (Ht1 & Hb1 & Hs1). eapply wp_mono; [apply IH; [done|]|].
    + rewrite Hb1, length_app. lia.
    + cbn beta. intros t2 s2 (Ht2 & Hb2 & Hs2). split; [done|]. rewrite Hb2, Hb1, <- app_assoc. split; [done|congruence].
Qed.

Lemma wp_the_string p str (Q : list Z → http H → Prop) s : strings s !! p = Some str → Q str s → wp (the_string p) Q s.
Proof. intros Hp HQ. unfold the_string. apply wp_bind, wp_gets. by eapply wp_lift. Qed.

Lemma wp_append_headers l hs : ∀ t s,
  Forall2 (λ h p, strings s !! p.1 = Some h.1 ∧ strings s !! p.2 = Some h.2) hs l →
  text_ok t → Z.of_nat (length (t_bytes t) + length (concat (header_text <$> hs))) < 1152921504606846976 →
  wp (append_headers t l) (λ t' s', text_ok t' ∧ t_bytes t' = t_bytes t ++ concat (header_text <$> hs) ∧ strings s' = strings s) s.
Proof.
  revert hs. induction l as [|[n v] l IH]; intros hs t s Hl Ht Hlen; inversion Hl as [|[hn hv] ? hs' ? [Hn Hv] Hl']; subst; cbn [append_headers].
  - apply wp_ret. cbn. by rewrite app_nil_r.
  - cbn [fst snd] in *. cbn [fmap list_fmap concat] in Hlen. rewrite length_app in Hlen.
    apply wp_bind. eapply wp_the_string; [done|]. apply wp_bind. eapply wp_the_string; [done|]. apply wp_bind.
    assert (concat [hn; colon; hv; crlf] = header_text (hn, hv)) as Hc by done.
    eapply wp_mono; [apply wp_append_strings; [done|rewrite Hc; lia]|]. cbn beta. intros t1 s1 (Ht1 & Hb1 & Hs1). rewrite Hc in Hb1.
    eapply wp_mono; [apply (IH hs'); [by rewrite Hs1|done|rewrite Hb1, length_app; lia]|]. cbn beta.
    intros t2 s2 (Ht2 & Hb2 & Hs2). split; [done|]. rewrite Hb2, Hb1. cbn [fmap list_fmap concat]. rewrite <- app_assoc. split; [done|congruence].
Qed.

Lemma wp_build_request r b url version hs s :
  b ≠ 0 → strings s !! r_url r = Some url → strings s !! r_version r = Some version →
  Forall2 (λ h p, strings s !! p.1 = Some h.1 ∧ strings s !! p.2 = Some h.2) hs (r_list r) →
  Z.of_nat (length (request_text (r_method r) url version hs)) < 1152921504606846976 →
  wp (build_request r (mk_text b [] HTTP_BUFFER_SIZE))
    (λ t _, text_ok t ∧ t_bytes t = request_text (r_method r) url version hs) s.
Proof.
  intros Hb Hu Hv Hhs Hlen. unfold request_text in Hlen. rewrite !length_app in Hlen. unfold build_request.
  assert (text_ok (mk_text b [] HTTP_BUFFER_SIZE)) as H0 by (split; [done|unfold HTTP_BUFFER_SIZE; cbn [t_bytes t_capacity length]; lia]).
  apply wp_bind. eapply wp_the_string; [done|]. apply wp_bind.
  eapply wp_mono; [apply wp_append_strings; [done|]|].
  { cbn [t_bytes length concat]. rewrite !length_app. cbn [length space] in *. lia. }
  cbn beta. intros t1 s1 (Ht1 & Hb1 & Hs1). cbn [t_bytes app concat] in Hb1. rewrite ?app_nil_r in Hb1.
  apply wp_bind. eapply wp_the_string; [by rewrite Hs1|]. apply wp_bind.
  eapply wp_mono; [apply wp_append_strings; [done|]|].
  { rewrite Hb1. cbn [concat]. rewrite !length_app. cbn [length] in *. lia. }
  cbn beta. intros t2 s2 (Ht2 & Hb2 & Hs2). cbn [concat] in Hb2. rewrite ?app_nil_r in Hb2.
  apply wp_bind. eapply wp_mono; [apply (wp_append_headers _ hs); [by rewrite Hs2, Hs1|done|]|].
  { rewrite Hb2, Hb1, !length_app. lia. }
  cbn beta. intros t3 s3 (Ht3 & Hb3 & Hs3). eapply wp_mono; [apply wp_append_string; [done|]|].
  { rewrite Hb3, Hb2, Hb1, !length_app. lia. }
  cbn beta. intros t4 s4 (Ht4 & Hb4 & _). split; [done|]. rewrite Hb4, Hb3, Hb2, Hb1. unfold request_text. by rewrite <- !app_assoc.
Qed.
End requests.


(** ** Witnesses *)

(** "HTTP/1.1 200 OK", "A: b" and "hi" *)
Definition demo_status : list Z := http_version ++ [32; 50; 48; 48; 32; 79; 75].
Lemma find_body_correct_witness :
  find_body (demo_status ++ crlf ++ [65; 58; 32; 98] ++ crlf ++ crlf ++ [104; 105; 0; 0]) 27 = Some (Some (25, 2)).
Proof.
  assert (Hs : line_ok demo_status) by (split; [done|repeat constructor; lia]).
  assert (Hl : Forall line_ok ([] ++ [[65; 58; 32; 98]])) by (apply Forall_singleton; split; [done|repeat constructor; lia]).
  exact (proj1 (find_body_correct demo_status [] [65; 58; 32; 98] [104; 105] [0; 0] Hs Hl eq_refl)).
Defined.

#[export] Instance bump_realloc : Realloc nat := { realloc p n h := (Z.of_nat (S h), (h + Z.to_nat n)%nat) }.
Definition demo_request : http_request_t := mk_request HTTP_GET 100 200 300 [(400, 500)] 0 0.
Definition demo_http : http nat :=
  mk_http true (replicate 16 0) 0 ∅ (<[600 := demo_request]> ∅) ∅
    (<[100 := [47]]> (<[200 := http_version]> (<[400 := [65]]> (<[500 := [98]]> ∅)))) ∅ Net.demo_net.

