(* ===== verification/Mmio.v ===== *)
(** * Device memory

    A device is reached through memory whose loads and stores it sees: [load n a]
    and [store n a v] are accesses of [n] bytes at the address [a].  The interface
    says nothing about what a device does with them. *)
From S2P Require Import Prelude Interfaces Monad.
From S2P Require Pci.
From Stdlib Require Import String Ascii.

Class Bus (W : Type) := {
  load : nat → Z → W → Z * W;
  store : nat → Z → Z → W → W }.

(** The processor registers that the drivers read and write. *)
Class Apicpu (W : Type) := {
  cpuid_edx : Z → W → Z;
  read_msr : Z → W → Z;
  write_msr : Z → Z → W → W }.

Section bus.
Context {W : Type} `{!Bus W}.

Definition rd32 (a : Z) : M W Z := call (load 4 a).
Definition wr32 (a v : Z) : M W () := modify (store 4 a v).
Definition rd64 (a : Z) : M W Z := call (load 8 a).
Definition wr64 (a v : Z) : M W () := modify (store 8 a v).
Definition rd16 (a : Z) : M W Z := call (load 2 a).
Definition rd8 (a : Z) : M W Z := call (load 1 a).
Definition wr8 (a v : Z) : M W () := modify (store 1 a v).

(** Bytes one after the other. *)
Fixpoint wr_bytes (a : Z) (l : list Z) : M W () :=
  match l with [] => mret () | b :: l => wr8 a b;; wr_bytes (a + 1) l end.
Fixpoint rd_bytes (n : nat) (a : Z) : M W (list Z) :=
  match n with O => mret [] | S n => b ← rd8 a; l ← rd_bytes n (a + 1); mret (b :: l) end.
End bus.

(** The bytes of a string literal. *)
Definition text (s : string) : list Z := (λ c, Z.of_N (N_of_ascii c)) <$> list_ascii_of_string s.

(** ** What the drivers share: pages, the heap, and the PCI bus with its devices *)

Record plat (A H W : Type) := mk_plat { pl_pages : A; pl_heap : H; pl_pci : Pci.pci W }.
Arguments mk_plat {_ _ _}.
Arguments pl_pages {_ _ _}.
Arguments pl_heap {_ _ _}.
Arguments pl_pci {_ _ _}.

Section platform.
Context {A H W : Type} `{!PageAlloc A, !Malloc H, !Pci.PciBus W, !Bus W}.
Abbreviation M := (Monad.M (plat A H W)).

Definition page_alloc : M Z := λ s,
  let '(p, a) := alloc_page (pl_pages s) in Some (p, mk_plat a (pl_heap s) (pl_pci s)).
Definition page_free (p : Z) : M () := modify (λ s, mk_plat (free_page p (pl_pages s)) (pl_heap s) (pl_pci s)).
Definition kmalloc (n : Z) : M Z := λ s,
  let '(p, h) := malloc n (pl_heap s) in Some (p, mk_plat (pl_pages s) h (pl_pci s)).
Definition kfree (p : Z) : M () := modify (λ s, mk_plat (pl_pages s) (mfree p (pl_heap s)) (pl_pci s)).
Definition on_pci {X} (m : Monad.M (Pci.pci W) X) : M X := λ s,
  match m (pl_pci s) with Some (x, p) => Some (x, mk_plat (pl_pages s) (pl_heap s) p) | None => None end.
Definition on_dev {X} (m : Monad.M W X) : M X := on_pci (λ p,
  match m (Pci.p_world p) with
  | Some (x, w) => Some (x, Pci.mk_pci_state (Pci.pci_devices p) (Pci.pci_mcfg_base p) w)
  | None => None
  end).

(** [memset(p, 0, n)] on device memory. *)
Definition zero_bytes (p : Z) (n : nat) : M () := on_dev (wr_bytes p (replicate n 0)).

(** A device is an index of the array of devices. *)
Definition find_device (class sub : Z) : M (option nat) := gets (λ s, fst <$> Pci.pci_scan_for_class class sub (pl_pci s)).
Definition the_device (i : nat) : M Pci.pci_device := o ← gets (λ s, Pci.pci_devices (pl_pci s) !! i); lift o.

(** Setting bits of the command register of a device. *)
Definition pci_command (d : Pci.pci_device) (bits : Z) : M () :=
  cmd ← on_pci (Pci.pci_read_config (Pci.bus d) (Pci.slot d) (Pci.func d) 4);
  on_pci (Pci.pci_write_config (Pci.bus d) (Pci.slot d) (Pci.func d) 4 (Z.lor cmd bits)).
End platform.

(** ** The drivers do not change the list of devices *)

Section devices.
Context {A H W : Type} `{!PageAlloc A, !Malloc H, !Pci.PciBus W, !Bus W}.
Context (l : list Pci.pci_device).

Definition devices_are (s : plat A H W) : Prop := Pci.pci_devices (pl_pci s) = l.

Lemma keeps_page_alloc : keeps devices_are page_alloc.
Proof. intros s x s' Hr Hs. unfold page_alloc in Hr. destruct (alloc_page (pl_pages s)). by injection Hr as <- <-. Qed.
Lemma keeps_page_free p : keeps devices_are (page_free p).
Proof. by apply keeps_modify. Qed.
Lemma keeps_kmalloc n : keeps devices_are (kmalloc n).
Proof. intros s x s' Hr Hs. unfold kmalloc in Hr. destruct (malloc n (pl_heap s)). by injection Hr as <- <-. Qed.
Lemma keeps_kfree p : keeps devices_are (kfree p).
Proof. by apply keeps_modify. Qed.
Lemma keeps_on_pci {X} (m : Monad.M (Pci.pci W) X) :
  keeps (λ p, Pci.pci_devices p = l) m → keeps devices_are (on_pci m).
Proof.
  intros Hm s x s' Hr Hs. unfold on_pci in Hr. destruct (m (pl_pci s)) as [[y p]|] eqn:E; [|done]. injection Hr as <- <-.
  unfold devices_are. cbn. by eapply Hm.
Qed.
Lemma keeps_on_dev {X} (m : Monad.M W X) : keeps devices_are (on_dev m).
Proof.
  apply keeps_on_pci. intros p x p' Hr Hp. destruct (m (Pci.p_world p)) as [[y w]|]; [|done]. by injection Hr as <- <-.
Qed.
Lemma keeps_on_bus {X} (f : W → X * W) : keeps (λ p : Pci.pci W, Pci.pci_devices p = l) (Pci.on_bus f).
Proof. intros p x p' Hr Hp. unfold Pci.on_bus in Hr. destruct (f (Pci.p_world p)). by injection Hr as <- <-. Qed.
Lemma keeps_read_config b s f o : keeps (λ p : Pci.pci W, Pci.pci_devices p = l) (Pci.pci_read_config b s f o).
Proof.
  unfold Pci.pci_read_config. apply keeps_bind; [apply keeps_gets|intros addr]. destruct (negb _); [apply keeps_on_bus|].
  apply keeps_bind; [apply keeps_on_bus|intros ?; apply keeps_on_bus].
Qed.
Lemma keeps_write_config b s f o v : keeps (λ p : Pci.pci W, Pci.pci_devices p = l) (Pci.pci_write_config b s f o v).
Proof.
  unfold Pci.pci_write_config. apply keeps_bind; [apply keeps_gets|intros addr]. destruct (negb _); [apply keeps_on_bus|].
  apply keeps_bind; [apply keeps_on_bus|intros ?; apply keeps_on_bus].
Qed.
Lemma keeps_pci_command d bits : keeps devices_are (pci_command d bits).
Proof.
  unfold pci_command. apply keeps_bind; [apply keeps_on_pci, keeps_read_config|intros cmd]. apply keeps_on_pci, keeps_write_config.
Qed.
Lemma keeps_the_device i : keeps devices_are (the_device i).
Proof. unfold the_device. apply keeps_bind; [apply keeps_gets|intros ?; apply keeps_lift]. Qed.
Lemma keeps_zero_bytes p n : keeps devices_are (zero_bytes p n).
Proof. apply keeps_on_dev. Qed.

(** The same beside a driver's own state. *)
Definition with_devices {S} (s : S * plat A H W) : Prop := devices_are s.2.
Lemma keeps_on_snd {S X} (m : Monad.M (plat A H W) X) : keeps devices_are m → keeps (with_devices (S := S)) (on_snd m).
Proof.
  intros Hm s x s' Hr Hs. unfold on_snd in Hr. destruct (m s.2) as [[y p]|] eqn:E; [|done]. injection Hr as <- <-.
  unfold with_devices. cbn. by eapply Hm.
Qed.
Lemma keeps_on_fst {S X} (m : Monad.M S X) : keeps (with_devices (S := S)) (on_fst m).
Proof. intros s x s' Hr Hs. unfold on_fst in Hr. destruct (m s.1) as [[y p]|]; [|done]. by injection Hr as <- <-. Qed.

(** What a search finds is a matter of the list. *)
Lemma find_device_run class sub s :
  devices_are s → find_device class sub s = Some (fst <$> list_find (λ d, Pci.class_code d = class ∧ Pci.subclass d = sub) l, s).
Proof. intros Hs. unfold find_device, gets, Pci.pci_scan_for_class. by rewrite Hs. Qed.
End devices.

#[export] Hint Resolve keeps_page_alloc keeps_page_free keeps_kmalloc keeps_kfree keeps_on_dev keeps_pci_command keeps_the_device
  keeps_zero_bytes keeps_on_snd keeps_on_fst : keeps.

(** As [keeps], but through the definitions of the binders only. *)
Ltac keeps_devices :=
  repeat match goal with
  | |- keeps _ (_ ≫= _) => apply keeps_bind; [|intros ?; cbn beta]
  | |- keeps _ (for_list _ _) => apply keeps_for_list; intros ?; cbn beta
  | |- keeps _ (match ?x with _ => _ end) => destruct x
  | |- keeps _ (if ?x then _ else _) => destruct x
  | |- _ => solve [auto with keeps]
  end.
Arguments text s%_string_scope.
Export String.StringSyntax.
