(* ===== verification/Https.v ===== *)
(** * The HTTPS client ([net/http/https.c])

    A client of Http.v whose [socket] points to a TLS context instead: the stores
    of contexts and of the secrets they point to are added to the state of the
    HTTP client, with the context that each client's [socket] field holds.  The
    ports that give the random seed are a world [W].  [junk n] is what [n] fresh
    bytes of the heap hold, [stack] arguments are uninitialised arrays. *)
From S2P Require Import Prelude Interfaces Monad Str Bytes Mmio.
From S2P Require Serial Ip Net Http.

Definition TLS_RECORD_HANDSHAKE : Z := 22.
Definition TLS_RECORD_APPLICATION_DATA : Z := 23.
Definition TLS_CLIENT_HELLO : Z := 1.

(** The layout of [tls_record_header_t] and [tls_handshake_header_t]. *)
Definition record_layout : list nat := [1; 2; 2]%nat.
Definition SIZEOF_RECORD_HEADER : Z := 5.
Definition handshake_layout : list nat := [1; 1; 1; 1]%nat.
Definition SIZEOF_CONTEXT : Z := 64.
Definition SIZEOF_RESPONSE : Z := 56.

Record tls_context_t := mk_context {
  x_http : Z; x_socket : option nat; client_random : Z; server_random : Z; cipher_suite : Z;
  session_key : Z; master_secret : Z; is_client : bool; handshake_complete : bool; x_connected : bool }.

Record https (H W : Type) := mk_https {
  x_http_state : Http.http H; x_world : W; tls_initialized : bool; https_global_initialized : bool; crypto_seed : Z;
  contexts : gmap Z tls_context_t; secrets : gmap Z (list Z); sockets : gmap Z Z }.
Arguments mk_https {_ _}.
Arguments x_http_state {_ _}.
Arguments x_world {_ _}.
Arguments tls_initialized {_ _}.
Arguments https_global_initialized {_ _}.
Arguments crypto_seed {_ _}.
Arguments contexts {_ _}.
Arguments secrets {_ _}.
Arguments sockets {_ _}.

(** ** Formatted text *)

Inductive sprintf_arg := Str (str : list Z) | Num (num : Z).

(** Digits of a 32-bit number, of which there are 10 at most. *)
Fixpoint sprintf_digits (fuel : nat) (num : Z) (acc : list Z) : list Z :=
  match fuel with
  | O => acc
  | S fuel =>
      let acc := num mod 10 + 48 :: acc in
      if 0 <? num / 10 then sprintf_digits fuel (num / 10) acc else acc
  end.

(** The characters written; [None] for an argument of the wrong kind and for a
    format that ends behind a percent sign. *)
Fixpoint sprintf (format : list Z) (args : list sprintf_arg) : option (list Z) :=
  match format with
  | [] => Some []
  | c :: format =>
      if c =? 37 then
        match format with
        | [] => None
        | d :: format =>
            if d =? 115 then
              match args with Str str :: args => app str <$> sprintf format args | _ => None end
            else if d =? 117 then
              match args with Num num :: args => app (sprintf_digits 10 num []) <$> sprintf format args | _ => None end
            else cons d <$> sprintf format args
        end
      else cons c <$> sprintf format args
  end.

(** ** The toy cryptography *)

Definition supported_ciphers : list Z := [47; 49199].

Definition simple_xor_encrypt (data key : list Z) : list Z :=
  imap (λ i b, Z.lxor b (aget key (Z.of_nat i mod Z.of_nat (length key)))) data.

(** [time] is the one value read from the ports. *)
Definition random_bytes (time : Z) (length : Z) : list Z :=
  (λ i, u8 (Z.shiftr (u64 (u64 (u64 (time * (i + 1)) * 1103515245) + 12345)) 16)) <$> seqZ 0 length.

Definition key_material (seed : list Z) : list Z :=
  (λ i, Z.lxor (aget seed (i mod 64)) (aget seed ((i + 1) mod 64))) <$> seqZ 0 48.
Definition derive_session_key (material : list Z) : list Z :=
  (λ i, Z.lxor (aget material i) (aget material (i + 16))) <$> seqZ 0 32.

(** The message, with its own record header: 52 bytes. *)
Definition client_hello (random : list Z) : list Z :=
  let body := [3; 3] ++ random ++ [0] ++ [0; 4] ++ pack [2; 2]%nat supported_ciphers ++ [1; 0] in
  let msg_pos := SIZEOF_RECORD_HEADER + 4 + Z.of_nat (length body) in
  let record_length := u16 (msg_pos - SIZEOF_RECORD_HEADER) in
  pack record_layout [TLS_RECORD_HANDSHAKE; 771; record_length] ++
  pack handshake_layout [TLS_CLIENT_HELLO; u8 (Z.shiftr record_length 16); u8 (Z.shiftr record_length 8); u8 record_length] ++
  body.

Section https.
Context {H W : Type} `{!Malloc H, !Http.Realloc H, !Ports W}.
Context (junk : Z → list Z).
Abbreviation M := (Monad.M (https H W)).

(** *** The state *)

Definition on_http {X} (m : Monad.M (Http.http H) X) : M X := λ s,
  match m (x_http_state s) with
  | Some (x, h) => Some (x, mk_https h (x_world s) (tls_initialized s) (https_global_initialized s) (crypto_seed s)
                              (contexts s) (secrets s) (sockets s))
  | None => None
  end.
Definition on_world {X} (m : Monad.M W X) : M X := λ s,
  match m (x_world s) with
  | Some (x, w) => Some (x, mk_https (x_http_state s) w (tls_initialized s) (https_global_initialized s) (crypto_seed s)
                              (contexts s) (secrets s) (sockets s))
  | None => None
  end.
Definition on_net {X} (m : Monad.M (Net.net H) X) : M X := on_http (Http.on_net m).
Definition hmalloc (n : Z) : M Z := on_http (Http.hmalloc n).
Definition hfree (p : Z) : M () := on_http (Http.hfree p).

Definition set_flags (tls global : bool) (seed : Z) : M () := modify (λ s,
  mk_https (x_http_state s) (x_world s) tls global seed (contexts s) (secrets s) (sockets s)).
Definition upd_contexts (f : gmap Z tls_context_t → gmap Z tls_context_t) : M () := modify (λ s,
  mk_https (x_http_state s) (x_world s) (tls_initialized s) (https_global_initialized s) (crypto_seed s)
    (f (contexts s)) (secrets s) (sockets s)).
Definition upd_secrets (f : gmap Z (list Z) → gmap Z (list Z)) : M () := modify (λ s,
  mk_https (x_http_state s) (x_world s) (tls_initialized s) (https_global_initialized s) (crypto_seed s)
    (contexts s) (f (secrets s)) (sockets s)).
Definition upd_sockets (f : gmap Z Z → gmap Z Z) : M () := modify (λ s,
  mk_https (x_http_state s) (x_world s) (tls_initialized s) (https_global_initialized s) (crypto_seed s)
    (contexts s) (secrets s) (f (sockets s))).

Definition the_context (p : Z) : M tls_context_t := o ← gets (λ s, contexts s !! p); lift o.
Definition the_secret (p : Z) : M (list Z) := o ← gets (λ s, secrets s !! p); lift o.
(** A store to a buffer that is not allocated faults. *)
Definition put_secret (p : Z) (bytes : list Z) : M () := the_secret p;; upd_secrets <[p := bytes]>.
(** The context that [client->socket] holds. *)
Definition context_of (client : Z) : M Z :=
  on_http (Http.the_client client);; gets (λ s, default 0 (sockets s !! client)).

Definition new_secret (n : Z) : M Z :=
  p ← hmalloc n;
  (if p =? 0 then mret () else upd_secrets <[p := junk n]>);;
  mret p.
(** [if (p) { memset(p, 0, n); free(p); }] *)
Definition free_secret (p : Z) : M () :=
  if p =? 0 then mret () else the_secret p;; upd_secrets (delete p);; hfree p.

(** The 32 bits of ports 0x40, 0x42, 0x44 and 0x46. *)
Definition read_time : M Z :=
  a ← on_world (Serial.in_ 64);
  b ← on_world (Serial.in_ 66);
  c ← on_world (Serial.in_ 68);
  d ← on_world (Serial.in_ 70);
  mret (Z.lor (Z.lor (Z.lor (Z.shiftl a 24) (Z.shiftl b 16)) (Z.shiftl c 8)) d).

(** *** Initialisation *)

Definition tls_init : M bool :=
  s ← gets id;
  if tls_initialized s then mret true else
  set_flags true (https_global_initialized s) (crypto_seed s);; mret true.

Definition tls_cleanup : M () :=
  s ← gets id;
  if negb (tls_initialized s) then mret () else set_flags false (https_global_initialized s) (crypto_seed s).

(** [http_client_destroy], which closes the socket of a client that is
    connected: where that is a TLS context, the descriptor is the first half of
    the pointer [http] in it. *)
Definition destroy_client (client : Z) : M () :=
  b ← on_http (gets Http.http_initialized);
  if (client =? 0) || negb b then mret () else
  c ← on_http (Http.the_client client);
  ctx ← context_of client;
  (if Http.c_connected c && negb (ctx =? 0) then
     x ← the_context ctx;
     on_net (Net.net_socket_close (s32 (x_http x)));;
     on_http (Http.put_client client (Http.mk_client None (Http.c_host c) (Http.c_port c) false))
   else mret ());;
  upd_sockets (delete client);;
  on_http (Http.http_client_destroy client).

(** [http_shutdown] on such clients. *)
Definition http_shutdown : M () :=
  b ← on_http (gets Http.http_initialized);
  if negb b then mret () else
  for_list (seqZ 0 Http.HTTP_MAX_CLIENTS) (λ i,
    l ← on_http (gets Http.active_clients);
    client ← lift (index l i);
    if client =? 0 then mret () else
    destroy_client client;;
    l ← on_http (gets Http.active_clients);
    n ← on_http (gets Http.client_count);
    on_http (Http.set_clients b (<[Z.to_nat i := 0]> l) n));;
  l ← on_http (gets Http.active_clients);
  on_http (Http.set_clients false l 0).

Definition https_init : M bool :=
  s ← gets id;
  if https_global_initialized s then mret true else
  ok ← on_http Http.http_init;
  if negb ok then mret false else
  seed ← read_time;
  set_flags (tls_initialized s) false seed;;
  ok ← tls_init;
  if negb ok then http_shutdown;; mret false else
  set_flags true true seed;;
  mret true.

Definition https_is_initialized : M bool := gets https_global_initialized.

Definition https_shutdown : M () :=
  s ← gets id;
  if negb (https_global_initialized s) then mret () else
  tls_cleanup;;
  http_shutdown;;
  s ← gets id;
  set_flags (tls_initialized s) false 0.

(** *** Contexts *)

Definition tls_generate_random (p : Z) (length : Z) : M bool :=
  if (p =? 0) || (length =? 0) then mret false else
  time ← read_time;
  put_secret p (random_bytes time length);;
  mret true.

Definition tls_destroy_context (p : Z) : M () :=
  if p =? 0 then mret () else
  x ← the_context p;
  free_secret (client_random x);;
  free_secret (server_random x);;
  free_secret (session_key x);;
  free_secret (master_secret x);;
  upd_contexts (delete p);;
  hfree p.

(** Only the allocation of the client's random bytes is tested. *)
Definition tls_create_context : M Z :=
  s ← gets id;
  if negb (tls_initialized s) then mret 0 else
  p ← hmalloc SIZEOF_CONTEXT;
  if p =? 0 then mret 0 else
  c ← new_secret 32;
  r ← new_secret 32;
  m ← new_secret 48;
  k ← new_secret 32;
  upd_contexts <[p := mk_context 0 None c r 0 k m false false false]>;;
  ok ← tls_generate_random c 32;
  if negb ok then tls_destroy_context p;; mret 0 else
  upd_contexts <[p := mk_context 0 None c r (aget supported_ciphers 0) k m true false false]>;;
  mret p.

(** *** Records *)

(** The header in the byte order of the machine; encrypted once the handshake is
    complete. *)
Definition tls_send_record (p type : Z) (data : list Z) : M Z :=
  if p =? 0 then mret (-1) else
  x ← the_context p;
  match x_socket x with
  | None => mret (-1)
  | Some i =>
      let length := Z.of_nat (length data) in
      record_buffer ← hmalloc (u64 (SIZEOF_RECORD_HEADER + length));
      if record_buffer =? 0 then mret (-1) else
      data ← (if handshake_complete x && negb (session_key x =? 0) then
                key ← the_secret (session_key x); mret (simple_xor_encrypt data key)
              else mret data);
      let record := pack record_layout [u8 type; 771; u16 length] ++ data in
      k ← on_net (Net.sock_at i);
      result ← on_net (Net.net_socket_send (Net.fd k) (take (Z.to_nat (u16 (SIZEOF_RECORD_HEADER + length))) record));
      hfree record_buffer;;
      mret result
  end.

(** The answer, the type, the new value of [*length] and the bytes that were put
    into the buffer. *)
Definition tls_receive_record (stack : list Z) (p length : Z) : M (Z * Z * Z * list Z) :=
  if p =? 0 then mret (-1, 0, length, []) else
  x ← the_context p;
  match x_socket x with
  | None => mret (-1, 0, length, [])
  | Some i =>
      let record_length := if 65535 <? length then 65535 else u16 length in
      k ← on_net (Net.sock_at i);
      '(r, bytes) ← on_net (Net.net_socket_receive (Net.fd k) true SIZEOF_RECORD_HEADER);
      if r <? 0 then mret (-1, 0, length, []) else
      header ← lift (slice (bytes ++ drop (base.length bytes) stack) 0 SIZEOF_RECORD_HEADER);
      match unpack record_layout header with
      | [type; _; header_length] =>
          if record_length <? header_length then mret (-1, 0, header_length, []) else
          '(r, payload) ← on_net (Net.net_socket_receive (Net.fd k) true header_length);
          if r <? 0 then mret (-1, 0, length, []) else
          mret (0, type, Z.of_nat (base.length payload), payload)
      | _ => fault
      end
  end.

(** *** The handshake *)

Definition tls_client_hello (p : Z) : M bool :=
  if p =? 0 then mret false else
  x ← the_context p;
  if negb (is_client x) then mret false else
  hello_msg ← hmalloc 512;
  if hello_msg =? 0 then mret false else
  random ← the_secret (client_random x);
  result ← tls_send_record p TLS_RECORD_HANDSHAKE (client_hello random);
  hfree hello_msg;;
  mret (0 <=? result).

(** [data] is the whole buffer, of which [length] bytes were received. *)
Definition tls_parse_server_hello (p : Z) (data : list Z) (length : Z) : M bool :=
  if (p =? 0) || (length <? 38) then mret false else
  x ← the_context p;
  random ← lift (slice data 6 32);
  put_secret (server_random x) random;;
  hi ← lift (index data 38);
  lo ← lift (index data 39);
  upd_contexts <[p := mk_context (x_http x) (x_socket x) (client_random x) (server_random x) (Z.lor (Z.shiftl hi 8) lo)
                        (session_key x) (master_secret x) (is_client x) (handshake_complete x) (x_connected x)]>;;
  mret true.

Definition tls_derive_master_secret (p : Z) : M bool :=
  if p =? 0 then mret false else
  x ← the_context p;
  if (client_random x =? 0) || (server_random x =? 0) then mret false else
  c ← the_secret (client_random x);
  r ← the_secret (server_random x);
  let material := key_material (c ++ r) in
  put_secret (master_secret x) material;;
  put_secret (session_key x) (derive_session_key material);;
  mret true.

(** [stack] holds the buffer of 1024 bytes and the header. *)
Definition tls_handshake (stack : list Z) (p : Z) : M bool :=
  if p =? 0 then mret false else
  ok ← tls_client_hello p;
  if negb ok then mret false else
  '(r, record_type, len, bytes) ← tls_receive_record stack p 1024;
  if (r <? 0) || negb (record_type =? TLS_RECORD_HANDSHAKE) then mret false else
  ok ← tls_parse_server_hello p (bytes ++ drop (length bytes) stack) len;
  if negb ok then mret false else
  ok ← tls_derive_master_secret p;
  if negb ok then mret false else
  x ← the_context p;
  upd_contexts <[p := mk_context (x_http x) (x_socket x) (client_random x) (server_random x) (cipher_suite x)
                        (session_key x) (master_secret x) (is_client x) true true]>;;
  mret true.

(** *** Clients *)

Definition https_client_create : M Z :=
  s ← gets id;
  if negb (tls_initialized s) then mret 0 else
  tls_ctx ← tls_create_context;
  if tls_ctx =? 0 then mret 0 else
  client ← on_http Http.http_client_create;
  if client =? 0 then tls_destroy_context tls_ctx;; mret 0 else
  x ← the_context tls_ctx;
  upd_contexts <[tls_ctx := mk_context client (x_socket x) (client_random x) (server_random x) (cipher_suite x)
                              (session_key x) (master_secret x) (is_client x) (handshake_complete x) (x_connected x)]>;;
  upd_sockets <[client := tls_ctx]>;;
  mret client.

(** The context is freed before the client that points to it. *)
Definition https_client_destroy (client : Z) : M () :=
  if client =? 0 then mret () else
  tls_ctx ← context_of client;
  (if tls_ctx =? 0 then mret () else
   x ← the_context tls_ctx;
   if (x_connected x : bool) then
     i ← lift (x_socket x);
     k ← on_net (Net.sock_at i);
     on_net (Net.net_socket_close (Net.fd k))
   else mret ());;
  tls_destroy_context tls_ctx;;
  destroy_client client.

(** [field] is what the field [ack] of the first segment holds. *)
Definition https_client_connect (field : Z) (stack : list Z) (client : Z) (host : option (list Z)) (port : Z) : M Z :=
  match host with
  | None => mret (-1)
  | Some host =>
      if client =? 0 then mret (-1) else
      tls_ctx ← context_of client;
      if tls_ctx =? 0 then mret (-1) else
      sock_fd ← on_net (Net.net_socket_create Net.SOCKET_TCP);
      if sock_fd <? 0 then mret (-1) else
      ip ← lift (Net.net_resolve_hostname host);
      if ip =? 0 then on_net (Net.net_socket_close sock_fd);; mret (-1) else
      r ← on_net (Net.net_socket_connect field sock_fd ip port);
      if r <? 0 then on_net (Net.net_socket_close sock_fd);; mret (-1) else
      x ← the_context tls_ctx;
      upd_contexts <[tls_ctx := mk_context (x_http x) (Net.net_socket_get sock_fd) (client_random x) (server_random x)
                                  (cipher_suite x) (session_key x) (master_secret x) (is_client x) (handshake_complete x) (x_connected x)]>;;
      h ← on_http (Http.strdup host);
      c ← on_http (Http.the_client client);
      on_http (Http.put_client client (Http.mk_client (Http.c_socket c) h port true));;
      ok ← tls_handshake stack tls_ctx;
      if negb ok then https_client_destroy client;; mret (-1) else
      mret 0
  end.

(** *** Requests *)

(** A buffer on the heap with the bytes written so far; writing behind its end
    faults, the NUL included. *)
Definition emit (t : Http.text) (bytes : option (list Z)) : M Http.text :=
  bytes ← lift bytes;
  if Http.t_capacity t <? Z.of_nat (length (Http.t_bytes t) + length bytes) + 1 then fault else
  mret (Http.mk_text (Http.t_buffer t) (Http.t_bytes t ++ bytes) (Http.t_capacity t)).

(** [None] when [realloc] fails; both numbers are 64 bits wide. *)
Definition grow (t : Http.text) (need capacity : Z) : M (option Http.text) :=
  let capacity := u64 capacity in
  if Http.t_capacity t <? u64 need then
    b ← on_http (Http.hrealloc (Http.t_buffer t) capacity);
    mret (if b =? 0 then None else Some (Http.mk_text b (Http.t_bytes t) capacity))
  else mret (Some t).

Fixpoint add_headers (t : Http.text) (l : list (Z * Z)) : M (option Http.text) :=
  match l with
  | [] => mret (Some t)
  | (n, v) :: l =>
      name ← on_http (Http.the_string n);
      value ← on_http (Http.the_string v);
      let name_len := strlen name in
      let value_len := strlen value in
      let offset := Z.of_nat (length (Http.t_bytes t)) in
      t ← grow t (offset + name_len + value_len + 4) ((Http.t_capacity t + name_len + value_len) * 2);
      match t with
      | None => mret None
      | Some t =>
          t ← emit t (sprintf (text "%s: %s" ++ Http.crlf) [Str name; Str value]);
          add_headers t l
      end
  end.

Definition has_body (r : Http.http_request_t) : bool := negb (Http.r_body r =? 0) && (0 <? Http.r_body_length r).

(** The body is copied without a NUL. *)
Definition add_body (t : Http.text) (r : Http.http_request_t) : M (option Http.text) :=
  if has_body r then
    let offset := Z.of_nat (length (Http.t_bytes t)) in
    t ← grow t (offset + Http.r_body_length r) (offset + Http.r_body_length r);
    match t with
    | None => mret None
    | Some t =>
        body ← on_http (gets (λ s, Http.bodies s !! Http.r_body r));
        body ← lift body;
        body ← lift (slice body 0 (Http.r_body_length r));
        mret (Some (Http.mk_text (Http.t_buffer t) (Http.t_bytes t ++ body) (Http.t_capacity t)))
    end
  else mret (Some t).

(** The text of the request, [None] when a [realloc] fails. *)
Definition https_request_text (client : Http.http_client_t) (r : Http.http_request_t) (buffer : Z) : M (option Http.text) :=
  let method_str := Http.http_method_string (Http.r_method r) in
  url ← on_http (Http.the_string (Http.r_url r));
  let method_len := strlen method_str in
  let url_len := strlen url in
  t ← grow (Http.mk_text buffer [] 4096) (method_len + url_len + 20) (method_len + url_len + 100);
  match t with
  | None => mret None
  | Some t =>
      host ← on_http (Http.the_string (Http.c_host client));
      t ← emit t (sprintf (text "%s %s HTTP/1.1" ++ Http.crlf ++ text "Host: %s" ++ Http.crlf) [Str method_str; Str url; Str host]);
      t ← add_headers t (Http.r_list r);
      match t with
      | None => mret None
      | Some t =>
          t ← (if has_body r then emit t (sprintf (text "Content-Length: %u" ++ Http.crlf) [Num (u32 (Http.r_body_length r))])
               else mret t);
          t ← emit t (sprintf Http.crlf []);
          add_body t r
      end
  end.

(** The response with the body that follows the first blank line, if any. *)
Definition https_response (resp_buffer : list Z) (resp_len : Z) : M Z :=
  resp_buffer ← lift (splice resp_buffer resp_len [0]);
  response ← hmalloc SIZEOF_RESPONSE;
  if response =? 0 then mret 0 else
  on_http (Http.upd_responses <[response := Http.mk_response 0 0 0]>);;
  found ← lift (Http.buffer_str resp_buffer Http.crlf2 0);
  match found with
  | None => mret response
  | Some headers_end =>
      let body_start := headers_end + 4 in
      let body_len := u64 (resp_len - body_start) in
      b ← hmalloc (u64 (body_len + 1));
      if b =? 0 then mret response else
      body ← lift (slice resp_buffer body_start body_len);
      on_http (Http.upd_bodies <[b := body ++ [0]]>);;
      on_http (Http.upd_responses <[response := Http.mk_response 0 b (u32 body_len)]>);;
      mret response
  end.

(** [stack] holds the answer's buffer of 8192 bytes. *)
Definition https_send_request (stack : list Z) (client request : Z) : M Z :=
  if (client =? 0) || (request =? 0) then mret 0 else
  tls_ctx ← context_of client;
  if tls_ctx =? 0 then mret 0 else
  x ← the_context tls_ctx;
  if negb (handshake_complete x) then mret 0 else
  req_str ← hmalloc 4096;
  if req_str =? 0 then mret 0 else
  c ← on_http (Http.the_client client);
  r ← on_http (Http.the_request request);
  t ← https_request_text c r req_str;
  match t with
  | None => mret 0
  | Some t =>
      send_result ← tls_send_record tls_ctx TLS_RECORD_APPLICATION_DATA (Http.t_bytes t);
      if send_result <? 0 then hfree (Http.t_buffer t);; mret 0 else
      '(ret, record_type, resp_len, bytes) ← tls_receive_record stack tls_ctx 8192;
      if (ret <? 0) || negb (record_type =? TLS_RECORD_APPLICATION_DATA) then hfree (Http.t_buffer t);; mret 0 else
      response ← https_response (take (Z.to_nat 8192) (bytes ++ drop (length bytes) stack)) resp_len;
      hfree (Http.t_buffer t);;
      mret response
  end.
End https.

(** ** Encryption *)

(** The cipher is its own inverse. *)
Lemma simple_xor_encrypt_involutive data key : simple_xor_encrypt (simple_xor_encrypt data key) key = data.
Proof.
  unfold simple_xor_encrypt. apply list_eq. intros i. rewrite !list_lookup_imap. destruct (data !! i); cbn; [|done].
  by rewrite Z.lxor_assoc, Z.lxor_nilpotent, Z.lxor_0_r.
Qed.

(** The bytes sent as random depend on a single 32-bit number. *)
Lemma random_bytes_length time n : 0 <= n → Z.of_nat (length (random_bytes time n)) = n.
Proof. intros. unfold random_bytes. rewrite length_fmap, length_seqZ. lia. Qed.

(** ** No connection is ever made *)

(** Every run that returns keeps [P] and gives a result in [Q]. *)
Definition yields {S A} (P : S → Prop) (m : Monad.M S A) (Q : A → Prop) : Prop :=
  ∀ s x s', m s = Some (x, s') → P s → P s' ∧ Q x.

Lemma yields_keeps {S A} (P : S → Prop) (m : Monad.M S A) : keeps P m → yields P m (λ _, True).
Proof. intros Hm s x s' Hr Hs. split; [by eapply Hm|done]. Qed.
Lemma keeps_yields {S A} (P : S → Prop) (m : Monad.M S A) Q : yields P m Q → keeps P m.
Proof. intros Hm s x s' Hr Hs. by apply (Hm s x s'). Qed.
Lemma yields_ret {S A} (P : S → Prop) (x : A) (Q : A → Prop) : Q x → yields P (mret x) Q.
Proof. intros HQ s y s' [= <- <-] Hs. done. Qed.
Lemma yields_fault {S A} (P : S → Prop) (Q : A → Prop) : yields P fault Q.
Proof. by intros s y s'. Qed.
Lemma yields_bind {S A B} (P : S → Prop) (m : Monad.M S A) (f : A → Monad.M S B) (R : A → Prop) Q :
  yields P m R → (∀ x, R x → yields P (f x) Q) → yields P (m ≫= f) Q.
Proof. intros Hm Hf s y s' (x & s1 & Hx & Hy)%run_bind Hs. destruct (Hm _ _ _ Hx Hs). by eapply Hf. Qed.
Lemma yields_step {S A B} (P : S → Prop) (m : Monad.M S A) (f : A → Monad.M S B) Q :
  keeps P m → (∀ x, yields P (f x) Q) → yields P (m ≫= f) Q.
Proof. intros Hm Hf. eapply yields_bind; [by apply yields_keeps|]. intros x _. apply Hf. Qed.

Section never.
Context {H W : Type} `{!Malloc H, !Http.Realloc H, !Ports W}.
Context (junk : Z → list Z).

(** No socket is connected. *)
Definition idle (s : Http.http H) : Prop := Net.none_established (Http.h_net s).
(** And no handshake was completed. *)
Definition quiet (s : https H W) : Prop := idle (x_http_state s) ∧ map_Forall (λ _ x, handshake_complete x = false) (contexts s).

Lemma keeps_http_net {X} (m : Monad.M (Net.net H) X) : keeps Net.none_established m → keeps idle (Http.on_net m).
Proof.
  intros Hm s x s' Hr Hs. unfold Http.on_net in Hr. destruct (m (Http.h_net s)) as [[y n]|] eqn:Hn; [|done].
  injection Hr as _ <-. by eapply Hm.
Qed.
Lemma keeps_on_http {X} (m : Monad.M (Http.http H) X) : keeps idle m → keeps quiet (on_http m).
Proof.
  intros Hm s x s' Hr [Hs Hc]. unfold on_http in Hr. destruct (m (x_http_state s)) as [[y n]|] eqn:Hn; [|done].
  injection Hr as _ <-. split; [by eapply Hm|done].
Qed.
Lemma keeps_on_net {X} (m : Monad.M (Net.net H) X) : keeps Net.none_established m → keeps quiet (on_net m).
Proof. intros. by apply keeps_on_http, keeps_http_net. Qed.
Lemma keeps_world {X} (m : Monad.M W X) : keeps quiet (on_world m).
Proof. intros s x s' Hr Hs. unfold on_world in Hr. destruct (m (x_world s)) as [[y n]|]; [|done]. by injection Hr as _ <-. Qed.
Lemma keeps_contexts f : (∀ c, map_Forall (λ _ x, handshake_complete x = false) c → map_Forall (λ _ x, handshake_complete x = false) (f c)) →
  keeps quiet (upd_contexts f).
Proof. intros Hf. apply keeps_modify. intros s [Hs Hc]. split; [done|]. by apply Hf. Qed.
Lemma keeps_put_context p x : handshake_complete x = false → keeps quiet (upd_contexts <[p := x]>).
Proof. intros Hx. apply keeps_contexts. intros c Hc. by apply map_Forall_insert_2. Qed.
Lemma keeps_drop_context p : keeps quiet (upd_contexts (delete p)).
Proof. apply keeps_contexts. intros c Hc. by apply map_Forall_delete. Qed.
Lemma keeps_secrets f : keeps quiet (upd_secrets f).
Proof. by apply keeps_modify. Qed.
Lemma keeps_sockets f : keeps quiet (upd_sockets f).
Proof. by apply keeps_modify. Qed.
Lemma keeps_flags a b c : keeps quiet (set_flags a b c).
Proof. by apply keeps_modify. Qed.
Lemma keeps_malloc n : keeps Net.none_established (Net.on_ip (Ip.ip_malloc n) : Monad.M (Net.net H) Z).
Proof. apply Net.keeps_on_ip. Qed.

Lemma net_connect_keeps field fd ip port : keeps Net.none_established (Net.net_socket_connect field fd ip port : Monad.M (Net.net H) Z).
Proof.
  unfold Net.net_socket_connect. destruct (Net.get_socket fd); [|apply keeps_ret]. apply keeps_bind; [apply Net.keeps_sock_at|]. intros k.
  destruct (bool_decide _); [apply keeps_ret|]. apply keeps_bind; [by apply Net.keeps_upd_sock|intros _].
  apply keeps_bind; [by apply Net.keeps_upd_sock|intros _]. apply Net.keeps_on_ip.
Qed.

#[local] Hint Resolve keeps_on_http keeps_on_net keeps_world keeps_drop_context keeps_secrets keeps_sockets keeps_flags keeps_http_net
  keeps_malloc Net.keeps_on_ip Net.keeps_sock_at Net.keeps_create Net.keeps_close net_connect_keeps : keeps.
#[local] Hint Extern 2 (keeps idle (modify _)) => apply keeps_modify; by intros [] : keeps.
#[local] Hint Extern 3 (keeps quiet (upd_contexts <[_ := _]>)) => apply keeps_put_context; reflexivity : keeps.
#[local] Hint Extern 2 (keeps idle (Http.upd_clients _)) => by apply keeps_modify : keeps.
#[local] Hint Extern 2 (keeps idle (Http.upd_strings _)) => by apply keeps_modify : keeps.
#[local] Hint Extern 2 (keeps idle (Http.upd_bodies _)) => by apply keeps_modify : keeps.
#[local] Hint Extern 2 (keeps idle (Http.upd_responses _)) => by apply keeps_modify : keeps.
#[local] Hint Extern 2 (keeps idle (Http.set_clients _ _ _)) => by apply keeps_modify : keeps.
#[local] Hint Extern 2 (keeps idle (Http.put_client _ _)) => by apply keeps_modify : keeps.

Lemma keeps_hfree p : keeps idle (Http.hfree p).
Proof. apply keeps_http_net, Net.keeps_on_ip. Qed.
Lemma keeps_hmalloc n : keeps idle (Http.hmalloc n).
Proof. apply keeps_http_net, Net.keeps_on_ip. Qed.
Lemma keeps_the_client p : keeps idle (Http.the_client p).
Proof. unfold Http.the_client. keeps. Qed.
#[local] Hint Resolve keeps_hfree keeps_hmalloc keeps_the_client : keeps.
Lemma keeps_disconnect p : keeps idle (Http.http_client_disconnect p).
Proof. unfold Http.http_client_disconnect. keeps. Qed.
#[local] Hint Resolve keeps_disconnect : keeps.
Lemma keeps_http_destroy p : keeps idle (Http.http_client_destroy p).
Proof. unfold Http.http_client_destroy, Http.free_if, Http.free_string. keeps. Qed.
Lemma keeps_http_create : keeps idle Http.http_client_create.
Proof. unfold Http.http_client_create. keeps. Qed.
Lemma keeps_http_init : keeps idle Http.http_init.
Proof. unfold Http.http_init. keeps. Qed.
Lemma keeps_strdup str : keeps idle (Http.strdup str).
Proof. unfold Http.strdup. keeps. Qed.
#[local] Hint Resolve keeps_http_destroy keeps_http_create keeps_http_init keeps_strdup : keeps.

Lemma keeps_the_context p : keeps quiet (the_context p).
Proof. unfold the_context. keeps. Qed.
Lemma keeps_the_secret p : keeps quiet (the_secret p).
Proof. unfold the_secret. keeps. Qed.
Lemma keeps_context_of p : keeps quiet (context_of p).
Proof. unfold context_of. keeps. Qed.
#[local] Hint Resolve keeps_the_context keeps_the_secret keeps_context_of : keeps.
Lemma keeps_put_secret p l : keeps quiet (put_secret p l).
Proof. unfold put_secret. keeps. Qed.
Lemma keeps_new_secret n : keeps quiet (new_secret junk n).
Proof. unfold new_secret, hmalloc. keeps. Qed.
Lemma keeps_free_secret p : keeps quiet (free_secret p).
Proof. unfold free_secret, hfree. keeps. Qed.
Lemma keeps_time : keeps quiet read_time.
Proof. unfold read_time. keeps. Qed.
#[local] Hint Resolve keeps_put_secret keeps_new_secret keeps_free_secret keeps_time : keeps.
Lemma keeps_destroy_context p : keeps quiet (tls_destroy_context p).
Proof. unfold tls_destroy_context, hfree. keeps. Qed.
Lemma keeps_random p n : keeps quiet (tls_generate_random p n).
Proof. unfold tls_generate_random. keeps. Qed.
#[local] Hint Resolve keeps_destroy_context keeps_random : keeps.
Lemma keeps_create_context : keeps quiet (tls_create_context junk).
Proof. unfold tls_create_context, hmalloc. keeps. Qed.
Lemma keeps_destroy_client p : keeps quiet (destroy_client p).
Proof. unfold destroy_client. keeps. Qed.
#[local] Hint Resolve keeps_create_context keeps_destroy_client : keeps.
Lemma keeps_https_destroy p : keeps quiet (https_client_destroy p).
Proof. unfold https_client_destroy. keeps. Qed.
Lemma keeps_shutdown : keeps quiet http_shutdown.
Proof. unfold http_shutdown. keeps. Qed.
#[local] Hint Resolve keeps_https_destroy keeps_shutdown : keeps.

(** The context of a state without a connection is not past its handshake. *)
Lemma yields_context p : yields quiet (the_context p) (λ x, handshake_complete x = false).
Proof.
  intros s x s' Hr Hs. pose proof (keeps_the_context p _ _ _ Hr Hs) as Hs'. split; [done|].
  unfold the_context in Hr. apply run_bind in Hr as (o & s1 & Ho & Hr). injection Ho as <- <-.
  destruct (contexts s !! p) as [y|] eqn:Hp; [|done]. injection Hr as <- _. destruct Hs as [_ Hs]. by apply (Hs p y).
Qed.

(** Sending on a socket fails. *)
Lemma yields_send fd data : yields quiet (on_net (Net.net_socket_send fd data)) (λ r, r = -1).
Proof.
  intros s x s' Hr [Hs Hc]. unfold on_net, on_http, Http.on_net in Hr.
  destruct (Net.net_socket_send fd data (Http.h_net (x_http_state s))) as [[y n]|] eqn:Hn; [|done]. injection Hr as <- <-.
  enough (y = -1 ∧ n = Http.h_net (x_http_state s)) as [-> ->] by done.
  unfold Net.net_socket_send in Hn. destruct (Net.get_socket fd); [|by injection Hn as <- <-].
  apply run_bind in Hn as (k & n1 & Hk & Hn). unfold Net.sock_at in Hk.
  destruct (Net.socket_pool _ !! _) as [k'|] eqn:Hl; [|done]. injection Hk as <- <-.
  rewrite bool_decide_eq_true_2 in Hn; [by injection Hn as <- <-|].
  unfold idle, Net.none_established in Hs. rewrite Forall_forall in Hs. apply Hs. by eapply list_elem_of_lookup_2.
Qed.

Lemma yields_send_record p type data : yields quiet (tls_send_record p type data) (λ r, r = -1).
Proof.
  unfold tls_send_record. destruct (p =? 0); [by apply yields_ret|]. eapply yields_bind; [apply yields_context|]. intros x Hx.
  destruct (x_socket x) as [i|]; [|by apply yields_ret]. apply yields_step; [unfold hmalloc; keeps|intros b].
  destruct (b =? 0); [by apply yields_ret|]. rewrite Hx. apply yields_step; [keeps|intros d].
  apply yields_step; [keeps|intros k]. eapply yields_bind; [apply yields_send|]. intros r ->.
  apply yields_step; [unfold hfree; keeps|intros _]. by apply yields_ret.
Qed.

Lemma yields_hello p : yields quiet (tls_client_hello p) (λ ok, ok = false).
Proof.
  unfold tls_client_hello. destruct (p =? 0); [by apply yields_ret|]. apply yields_step; [keeps|intros x].
  destruct (negb (is_client x)); [by apply yields_ret|]. apply yields_step; [unfold hmalloc; keeps|intros b].
  destruct (b =? 0); [by apply yields_ret|]. apply yields_step; [keeps|intros l].
  eapply yields_bind; [apply yields_send_record|]. intros r ->. apply yields_step; [unfold hfree; keeps|intros _]. by apply yields_ret.
Qed.

Lemma yields_handshake stack p : yields quiet (tls_handshake stack p) (λ ok, ok = false).
Proof.
  unfold tls_handshake. destruct (p =? 0); [by apply yields_ret|]. eapply yields_bind; [apply yields_hello|].
  intros ? ->. by apply yields_ret.
Qed.

Lemma yields_connect field stack client host port : yields quiet (https_client_connect field stack client host port) (λ r, r = -1).
Proof.
  unfold https_client_connect. destruct host as [host|]; [|by apply yields_ret]. destruct (client =? 0); [by apply yields_ret|].
  apply yields_step; [keeps|intros ctx]. destruct (ctx =? 0); [by apply yields_ret|]. apply yields_step; [keeps|intros fd].
  destruct (fd <? 0); [by apply yields_ret|]. apply yields_step; [keeps|intros ip].
  destruct (ip =? 0); [apply yields_step; [keeps|intros _]; by apply yields_ret|]. apply yields_step; [keeps|intros r].
  destruct (r <? 0); [apply yields_step; [keeps|intros _]; by apply yields_ret|].
  eapply yields_bind; [apply yields_context|]. intros x Hx. apply yields_step; [by apply keeps_put_context|intros _].
  apply yields_step; [keeps|intros h]. apply yields_step; [keeps|intros c]. apply yields_step; [keeps|intros _].
  eapply yields_bind; [apply yields_handshake|]. intros ? ->. apply yields_step; [keeps|intros _]. by apply yields_ret.
Qed.

Lemma yields_request stack client request : yields quiet (https_send_request stack client request) (λ r, r = 0).
Proof.
  unfold https_send_request. destruct (_ || _); [by apply yields_ret|]. apply yields_step; [keeps|intros ctx].
  destruct (ctx =? 0); [by apply yields_ret|]. eapply yields_bind; [apply yields_context|]. intros x ->. by apply yields_ret.
Qed.

Lemma keeps_https_create : keeps quiet (https_client_create junk).
Proof.
  unfold https_client_create. apply keeps_bind; [keeps|intros s]. destruct (negb _); [keeps|].
  apply keeps_bind; [keeps|intros ctx]. destruct (ctx =? 0); [keeps|]. apply keeps_bind; [keeps|intros client].
  destruct (client =? 0); [keeps|]. eapply keeps_yields, yields_bind; [apply yields_context|]. intros x Hx.
  apply yields_step; [by apply keeps_put_context|intros _]. apply yields_keeps. keeps.
Qed.

(** The calls of the interface, whatever memory holds. *)
Inductive https_call : Monad.M (https H W) () → Prop :=
| call_init : https_call (https_init;; mret ())
| call_shutdown : https_call https_shutdown
| call_create : https_call (https_client_create junk;; mret ())
| call_connect field stack client host port : https_call (https_client_connect field stack client host port;; mret ())
| call_send stack client request : https_call (https_send_request stack client request;; mret ())
| call_destroy client : https_call (https_client_destroy client).

Definition https_step (s s' : https H W) : Prop := ∃ m, https_call m ∧ m s = Some ((), s').

Lemma step_quiet s s' : https_step s s' → quiet s → quiet s'.
Proof.
  intros (m & Hm & Hr). assert (keeps quiet m) as Hk; [|by eapply Hk].
  destruct Hm; unfold https_init, tls_init, https_shutdown, tls_cleanup.
  - keeps.
  - keeps.
  - apply keeps_bind; [apply keeps_https_create|keeps].
  - apply keeps_bind; [eapply keeps_yields, yields_connect|keeps].
  - apply keeps_bind; [eapply keeps_yields, yields_request|keeps].
  - keeps.
Qed.
End never.

(** C33: whatever calls are made, from a state without a connected socket and
    without a completed handshake, connecting never succeeds and sending a request
    never gives a response: a socket is never connected, so the first message of
    the handshake cannot be sent. *)
Theorem https_never_connects {H W} `{!Malloc H, !Http.Realloc H, !Ports W} junk (s0 s s' : https H W) :
  quiet s0 → rtc (https_step junk) s0 s →
  (∀ field stack client host port r, https_client_connect field stack client host port s = Some (r, s') → r = -1) ∧
  (∀ stack client request r, https_send_request stack client request s = Some (r, s') → r = 0).
Proof.
  intros Hq0 Hsteps. assert (quiet s) as Hs by (clear s'; induction Hsteps; eauto using step_quiet). split.
  - intros * Hr. by apply (yields_connect field stack client host port s r s' Hr Hs).
  - intros * Hr. by apply (yields_request stack client request s r s' Hr Hs).
Qed.

(** When the handshake fails on a client of an initialised subsystem, destroying
    the client reads the TLS context that was just freed. *)
Lemma destroy_connected_faults {H W} `{!Malloc H, !Http.Realloc H, !Ports W} (s : https H W) client c p :
  client ≠ 0 → p ≠ 0 → Http.http_initialized (x_http_state s) = true →
  Http.clients (x_http_state s) !! client = Some c → Http.c_connected c = true →
  sockets s !! client = Some p → contexts s !! p = None → destroy_client client s = None.
Proof.
  intros Hc Hp Hb Hcl Hcon Hsk Hx. destruct s as [h w t g seed cs ss ks]. cbn in *.
  unfold destroy_client, mbind, M_bind, on_http, gets. cbn. rewrite Hb, (proj2 (Z.eqb_neq _ _) Hc). cbn.
  unfold context_of, Http.the_client, mbind, M_bind, on_http, gets, lift. cbn. rewrite Hcl. cbn. rewrite Hcl. cbn.
  rewrite Hsk, Hcon. cbn. rewrite (proj2 (Z.eqb_neq _ _) Hp). cbn. unfold the_context, mbind, M_bind, gets, lift. cbn. by rewrite Hx.
Qed.

Lemma request_line_text method url host :
  sprintf (text "%s %s HTTP/1.1" ++ Http.crlf ++ text "Host: %s" ++ Http.crlf) [Str method; Str url; Str host] =
  Some (method ++ [32] ++ url ++ text " HTTP/1.1" ++ Http.crlf ++ text "Host: " ++ host ++ Http.crlf).
Proof. done. Qed.

Lemma run_then {S A B} (m : Monad.M S A) (f : A → Monad.M S B) s x s' r : m s = Some (x, s') → f x s' = r → (m ≫= f) s = r.
Proof. intros Hm <-. unfold mbind, M_bind. by rewrite Hm. Qed.

Lemma the_string_run {H W} `{!Malloc H} (s : https H W) p str :
  Http.strings (x_http_state s) !! p = Some str → on_http (Http.the_string p) s = Some (str, s).
Proof. intros Hp. destruct s. unfold on_http, Http.the_string, mbind, M_bind, gets, lift. cbn in *. by rewrite Hp. Qed.

(** A host that is longer than the buffer overruns it: the room was tested for
    the method and the path only. *)
Lemma long_host_overruns {H W} `{!Malloc H, !Http.Realloc H, !Ports W} (s : https H W) c r b url host :
  Http.strings (x_http_state s) !! Http.r_url r = Some url → Http.strings (x_http_state s) !! Http.c_host c = Some host →
  Http.r_method r = Http.HTTP_GET → strlen url <= 4073 → 4096 <= Z.of_nat (length host) →
  https_request_text c r b s = None.
Proof.
  intros Hu Hh Hm Hl Hlong. unfold https_request_text. rewrite Hm.
  eapply run_then; [by apply the_string_run|]. cbv beta zeta. change (strlen (Http.http_method_string Http.HTTP_GET)) with 3.
  assert (0 <= strlen url) by (rewrite strlen_length; lia).
  eapply run_then; [unfold grow; cbn [Http.t_capacity]; rewrite (u64_small (3 + strlen url + 20)), (proj2 (Z.ltb_ge _ _)) by (unfold is_u64; lia); reflexivity|].
  cbv beta iota. eapply run_then; [by apply the_string_run|]. unfold mbind, M_bind. rewrite request_line_text. unfold emit, mbind, M_bind, lift.
  cbn [Http.t_capacity Http.t_bytes]. rewrite (proj2 (Z.ltb_lt _ _)); [done|]. rewrite !length_app. lia.
Qed.

(** ** Witness *)

#[local] Existing Instance Http.bump_realloc.
#[local] Instance still_ports : Ports () := { outb _ _ w := w; inb _ w := (0, w) }.
Definition demo_https : https nat () :=
  mk_https (Http.mk_http false (replicate 16 0) 0 ∅ ∅ ∅ ∅ ∅ Net.demo_net) () false false 0 ∅ ∅ ∅.

Definition demo_junk (n : Z) : list Z := replicate (Z.to_nat n) 170.
Definition after {A} (m : Monad.M (https nat ()) A) (s : https nat ()) : https nat () := match m s with Some (_, s) => s | None => s end.
Definition demo_started : https nat () := after https_init demo_https.
Definition demo_created : https nat () := after (https_client_create demo_junk) demo_started.

(** Starting up, and a connection to an address without a route. *)
Lemma https_never_connects_witness :
  rtc (https_step demo_junk) demo_https demo_created ∧ sockets demo_created !! 209 = Some 1 ∧
  ∃ s', https_client_connect 0 [] 209 (Some [49]) 443 demo_created = Some (-1, s').
Proof.
  assert (Hq : quiet demo_https) by (split; [apply Forall_replicate; discriminate|apply map_Forall_empty]).
  assert (H1 : (https_init;; mret ()) demo_https = Some ((), demo_started)) by (vm_compute; reflexivity).
  assert (H2 : (https_client_create demo_junk;; mret ()) demo_started = Some ((), demo_created)) by (vm_compute; reflexivity).
  assert (Hr : rtc (https_step demo_junk) demo_https demo_created).
  { eapply rtc_l; [eexists; split; [apply call_init|exact H1]|]. eapply rtc_l; [eexists; split; [apply call_create|exact H2]|]. apply rtc_refl. }
  split; [exact Hr|]. split; [vm_compute; reflexivity|].
  set (connect := https_client_connect 0 [] 209 (Some [49]) 443).
  assert (H3 : connect demo_created = Some (default 0 (fst <$> connect demo_created), after connect demo_created)) by (vm_compute; reflexivity).
  exists (after connect demo_created). refine (eq_trans H3 (f_equal (λ r, Some (r, after connect demo_created)) _)).
  exact (proj1 (https_never_connects demo_junk demo_https demo_created _ Hq Hr) _ _ _ _ _ _ H3).
Defined.
