(* ===== verification/Pit.v ===== *)
(** * The interval timer ([kernel/src/core/pit.c])

    The ports are those of Serial.v; [pit_init] ends with a call of
    [scheduler_tick] of Process.v, so it acts on the ports and on the scheduler. *)
From S2P Require Import Prelude Interfaces Monad Serial Process.

Definition PIT_FREQUENCY : Z := 1193180.
Definition PIT_CHANNEL0 : Z := 64.
Definition PIT_COMMAND : Z := 67.

Section pit.
Context {W A H : Type} `{!Ports W, !PageAlloc A, !Malloc H}.

(** A 16-bit count, low byte first. *)
Definition pit_init : M (W * kernel A H) () :=
  on_fst (out PIT_COMMAND 52);;
  let divisor := u16 (PIT_FREQUENCY / 100) in
  on_fst (out PIT_CHANNEL0 (Z.land divisor 255));;
  on_fst (out PIT_CHANNEL0 (Z.land (Z.shiftr divisor 8) 255));;
  on_snd (λ k, k' ← scheduler_tick k; Some ((), k')).

(** The cycles that [pit_wait] counts: a 32-bit product cut to 16 bits. *)
Definition pit_cycles (milliseconds : Z) : Z := u16 (u32 (PIT_FREQUENCY * milliseconds) / 1000).

(** [while (!(inb(PIT_CHANNEL0) & 0x80))] *)
Fixpoint pit_poll (fuel : nat) : M W () :=
  match fuel with
  | O => fault
  | S fuel => v ← in_ PIT_CHANNEL0; if Z.land v 128 =? 0 then pit_poll fuel else mret ()
  end.

Definition pit_wait (fuel : nat) (milliseconds : Z) : M W () :=
  let cycles := pit_cycles milliseconds in
  out PIT_COMMAND 48;;
  out PIT_CHANNEL0 (Z.land cycles 255);;
  out PIT_CHANNEL0 (Z.land (Z.shiftr cycles 8) 255);;
  pit_poll fuel.
End pit.

(** The two bytes sent to the counter make up the count. *)
Lemma pit_bytes n : is_u16 n → Z.land n 255 + 256 * Z.land (Z.shiftr n 8) 255 = n.
Proof.
  intros Hn. rewrite Z.shiftr_div_pow2 by lia. change 255 with (Z.ones 8). rewrite !Z.land_ones by lia.
  change (2 ^ 8) with 256. ulia.
Qed.

(** The counter is loaded with the time asked for up to 54 ms; from 55 ms to the
    3599 ms at which the product leaves its 32 bits, the time is cut. *)
Lemma pit_wait_short milliseconds :
  0 <= milliseconds < 3600 →
  (pit_cycles milliseconds = PIT_FREQUENCY * milliseconds / 1000 ↔ milliseconds <= 54).
Proof. intros Hm. unfold pit_cycles, PIT_FREQUENCY. ulia. Qed.

(** [pit_wait(100)], which smp.c asks for, waits 45 ms. *)
Lemma pit_wait_100_truncated : pit_cycles 100 = PIT_FREQUENCY * 45 / 1000 + 89 ∧ PIT_FREQUENCY * 100 / 1000 = 119318.
Proof. split; reflexivity. Qed.
