(* ===== verification/Rtc.v ===== *)
(** * The real-time clock driver ([kernel/src/core/drivers/rtc/rtc.c])

    The programs run on the I/O ports of a world [W].  What the theorems need to
    know of the clock chip (the MC146818 of the PC) is the class [RtcChip]: on a
    chip that is not in the middle of an update, the register selected through
    port 0x70 is read and written through port 0x71.  The interrupt
    handler and its registration are in RtcIrq.v. *)
From S2P Require Import Prelude Interfaces Monad.

Definition RTC_INDEX_PORT : Z := 112.
Definition RTC_DATA_PORT : Z := 113.
Definition RTC_SECONDS : Z := 0.
Definition RTC_MINUTES : Z := 2.
Definition RTC_HOURS : Z := 4.
Definition RTC_WEEKDAY : Z := 6.
Definition RTC_DAY : Z := 7.
Definition RTC_MONTH : Z := 8.
Definition RTC_YEAR : Z := 9.
Definition RTC_STATUS_A : Z := 10.
Definition RTC_STATUS_B : Z := 11.
Definition RTC_STATUS_C : Z := 12.
Definition RTC_24HR : Z := 2.
Definition RTC_DM_BINARY : Z := 4.

Record rtc_time_t := mk_time {
  second : Z; minute : Z; hour : Z; day : Z; month : Z; year : Z; weekday : Z;
}.

Definition bcd_to_binary (bcd : Z) : Z :=
  u8 (Z.shiftr (Z.land bcd 240) 4 * 10 + Z.land bcd 15).

Definition binary_to_bcd (binary : Z) : Z :=
  u8 (Z.lor (Z.shiftl (binary / 10) 4) (binary mod 10)).

Section rtc.
Context {W : Type} `{!Ports W}.

Definition read_rtc_reg (reg : Z) : M W Z :=
  modify (outb RTC_INDEX_PORT reg);; call (inb RTC_DATA_PORT).

Definition write_rtc_reg (reg value : Z) : M W () :=
  modify (outb RTC_INDEX_PORT reg);; modify (outb RTC_DATA_PORT (u8 value)).

Definition rtc_is_updating : M W bool :=
  modify (outb RTC_INDEX_PORT 10);;
  v ← call (inb RTC_DATA_PORT);
  mret (negb (Z.land v 128 =? 0)).

(** [while (rtc_is_updating());], for at most [fuel] polls. *)
Fixpoint wait_update (fuel : nat) : M W () :=
  match fuel with
  | O => fault
  | S fuel => updating ← rtc_is_updating; if (updating : bool) then wait_update fuel else mret ()
  end.

Definition rtc_init : M W () :=
  modify (outb RTC_INDEX_PORT (Z.lor RTC_STATUS_B 128));;
  status ← read_rtc_reg RTC_STATUS_B;
  write_rtc_reg RTC_STATUS_B (Z.lor status (Z.lor RTC_24HR RTC_DM_BINARY));;
  read_rtc_reg RTC_STATUS_C;;
  modify (outb RTC_INDEX_PORT RTC_STATUS_B).

Definition rtc_read_time (fuel : nat) : M W rtc_time_t :=
  wait_update fuel;;
  second ← read_rtc_reg RTC_SECONDS;
  minute ← read_rtc_reg RTC_MINUTES;
  hour ← read_rtc_reg RTC_HOURS;
  day ← read_rtc_reg RTC_DAY;
  month ← read_rtc_reg RTC_MONTH;
  year ← read_rtc_reg RTC_YEAR;
  weekday ← read_rtc_reg RTC_WEEKDAY;
  status ← read_rtc_reg RTC_STATUS_B;
  let bcd := Z.land status RTC_DM_BINARY =? 0 in
  let conv x := if bcd then bcd_to_binary x else x in
  let hour := if bcd then bcd_to_binary (Z.land hour 127) else hour in
  let hour := if (Z.land status RTC_24HR =? 0) && negb (Z.land hour 128 =? 0)
              then (Z.land hour 127 + 12) mod 24 else hour in
  mret (mk_time (conv second) (conv minute) hour (conv day) (conv month) (u16 (conv year + 2000)) weekday).

Definition rtc_write_time (fuel : nat) (time : rtc_time_t) : M W () :=
  status ← read_rtc_reg RTC_STATUS_B;
  wait_update fuel;;
  write_rtc_reg RTC_STATUS_B (Z.land status (Z.lnot 112));;
  let bcd := Z.land status RTC_DM_BINARY =? 0 in
  let conv x := if bcd then binary_to_bcd x else x in
  write_rtc_reg RTC_SECONDS (conv (second time));;
  write_rtc_reg RTC_MINUTES (conv (minute time));;
  write_rtc_reg RTC_HOURS (conv (hour time));;
  write_rtc_reg RTC_DAY (conv (day time));;
  write_rtc_reg RTC_MONTH (conv (month time));;
  write_rtc_reg RTC_YEAR (conv (year time mod 100));;
  write_rtc_reg RTC_STATUS_B status.

Definition days_before_month : list Z := [0; 31; 59; 90; 120; 151; 181; 212; 243; 273; 304; 334].

(** The days since 1970 that [rtc_get_timestamp] computes. *)
Definition days_since_1970 (time : rtc_time_t) : option Z :=
  let y := year time in
  let leap_years := u32 (Z.quot (y - 1969) 4 - Z.quot (y - 1901) 100 + Z.quot (y - 1601) 400) in
  before ← index days_before_month (month time - 1);
  let days := u32 (u32 (y - 1970) * 365 + leap_years + before + day time - 1) in
  mret (if (2 <? month time) && (((y mod 4 =? 0) && negb (y mod 100 =? 0)) || (y mod 400 =? 0))
        then u32 (days + 1) else days).

Definition rtc_get_timestamp (fuel : nat) : M W Z :=
  time ← rtc_read_time fuel;
  days ← lift (days_since_1970 time);
  mret (u32 (days * 86400 + hour time * 3600 + minute time * 60 + second time)).

Definition rtc_set_periodic_interrupt (rate : Z) : M W () :=
  status ← read_rtc_reg RTC_STATUS_A;
  write_rtc_reg RTC_STATUS_A (Z.lor (Z.land status 240) (Z.land rate 15)).

Definition rtc_enable_interrupt (mask : Z) : M W () :=
  status ← read_rtc_reg RTC_STATUS_B;
  write_rtc_reg RTC_STATUS_B (Z.lor status mask).

Definition rtc_disable_interrupt (mask : Z) : M W () :=
  status ← read_rtc_reg RTC_STATUS_B;
  write_rtc_reg RTC_STATUS_B (Z.land status (Z.lnot mask)).
End rtc.

(** ** The clock chip

    [rtc_reg w r] is the content of register [r] of a chip that is not updating;
    reading status register C acknowledges its interrupt flags. *)
Class RtcChip (W : Type) `{!Ports W} := {
  rtc_ok : W → Prop;
  rtc_reg : W → Z → Z;
  rtc_reg_u8 w r : rtc_ok w → is_u8 (rtc_reg w r);
  rtc_not_updating w : rtc_ok w → Z.land (rtc_reg w RTC_STATUS_A) 128 = 0;
  rtc_in w r :
    rtc_ok w → 0 <= r < 128 →
    let '(v, w') := inb RTC_DATA_PORT (outb RTC_INDEX_PORT r w) in
    v = rtc_reg w r ∧ rtc_ok w' ∧ ∀ r', r' ≠ RTC_STATUS_C → rtc_reg w' r' = rtc_reg w r';
  rtc_out w r v :
    rtc_ok w → 0 <= r < 128 → r ∉ [RTC_STATUS_A; RTC_STATUS_C; 13] → is_u8 v →
    let w' := outb RTC_DATA_PORT v (outb RTC_INDEX_PORT r w) in
    rtc_ok w' ∧ ∀ r', rtc_reg w' r' = if r' =? r then v else rtc_reg w r';
}.

(** ** BCD *)

(** A computation that holds for all numbers below a bound. *)
Lemma below_forall (P : Z → bool) n x : forallb P (seqZ 0 n) = true → 0 <= x < n → P x = true.
Proof. intros HP ?. rewrite forallb_forall in HP. apply HP, list_elem_of_In, elem_of_seqZ. lia. Qed.

Lemma bcd_roundtrip x : 0 <= x < 100 → bcd_to_binary (binary_to_bcd x) = x ∧ is_u8 (binary_to_bcd x).
Proof.
  intros Hx. pose proof (below_forall (λ x, (bcd_to_binary (binary_to_bcd x) =? x) && (0 <=? binary_to_bcd x) &&
    (binary_to_bcd x <? 256)) 100 x ltac:(vm_compute; reflexivity) Hx) as Hb. cbn beta in Hb. zbool. zbool. ulia.
Qed.

Lemma bcd_hour x : 0 <= x < 24 → Z.land (binary_to_bcd x) 127 = binary_to_bcd x.
Proof.
  intros Hx. pose proof (below_forall (λ x, Z.land (binary_to_bcd x) 127 =? binary_to_bcd x) 24 x
    ltac:(vm_compute; reflexivity) Hx) as Hb. cbn beta in Hb. by zbool.
Qed.

(** ** The calendar *)

Definition is_leap (y : Z) : bool := ((y mod 4 =? 0) && negb (y mod 100 =? 0)) || (y mod 400 =? 0).
Definition year_length (y : Z) : Z := if is_leap y then 366 else 365.
Definition month_lengths : list Z := [31; 28; 31; 30; 31; 30; 31; 31; 30; 31; 30; 31].
Definition month_length (y m : Z) : Z :=
  month_lengths !!! Z.to_nat (m - 1) + (if (m =? 2) && is_leap y then 1 else 0).
Definition sumZ (l : list Z) : Z := foldr Z.add 0 l.

(** Days and seconds from 1970-01-01 00:00 to a date of the Gregorian calendar. *)
Definition unix_days (y m d : Z) : Z :=
  sumZ (year_length <$> seqZ 1970 (y - 1970)) + sumZ (month_length y <$> seqZ 1 (m - 1)) + (d - 1).
Definition unix_time (t : rtc_time_t) : Z :=
  unix_days (year t) (month t) (day t) * 86400 + hour t * 3600 + minute t * 60 + second t.

Definition valid_time (t : rtc_time_t) : Prop :=
  2000 <= year t < 2100 ∧ 1 <= month t <= 12 ∧ 1 <= day t <= month_length (year t) (month t) ∧
  0 <= hour t < 24 ∧ 0 <= minute t < 60 ∧ 0 <= second t < 60 ∧ 0 <= weekday t < 8.

(** The dates of the century, by month. *)
Definition months_of_century : list (Z * Z) :=
  y ← seqZ 2000 100; m ← seqZ 1 12; [(y, m)].

Lemma elem_of_months y m : 2000 <= y < 2100 → 1 <= m <= 12 → (y, m) ∈ months_of_century.
Proof.
  intros. unfold months_of_century. apply list_elem_of_bind. exists y. split; [|apply elem_of_seqZ; lia].
  apply list_elem_of_bind. exists m. split; [set_solver|apply elem_of_seqZ; lia].
Qed.

(** A computation that holds for all months of the century. *)
Lemma months_forall (P : Z * Z → bool) y m :
  forallb P months_of_century = true → 2000 <= y < 2100 → 1 <= m <= 12 → P (y, m) = true.
Proof. intros HP ??. rewrite forallb_forall in HP. apply HP, list_elem_of_In. by apply elem_of_months. Qed.

Lemma unix_days_bound y m d :
  2000 <= y < 2100 → 1 <= m <= 12 → unix_days y m d = unix_days y m 1 + (d - 1) ∧ 0 <= unix_days y m 1 < 47500 ∧
  month_length y m <= 31.
Proof.
  intros Hy Hm. split; [unfold unix_days; lia|].
  pose proof (months_forall (λ '(y, m), (0 <=? unix_days y m 1) && (unix_days y m 1 <? 47500) &&
    (month_length y m <=? 31)) y m ltac:(vm_compute; reflexivity) Hy Hm) as Hb. cbn beta iota in Hb.
  zbool. zbool. lia.
Qed.

(** The closed formula of the driver counts the days of the calendar. *)
Lemma days_since_1970_correct t :
  valid_time t → days_since_1970 t = Some (unix_days (year t) (month t) (day t)).
Proof.
  intros (Hy & Hm & Hd & _).
  pose proof (months_forall (λ '(y, m),
     match days_since_1970 (mk_time 0 0 0 1 m y 0) with
     | Some days => days =? unix_days y m 1 | None => false end)
     (year t) (month t) ltac:(vm_compute; reflexivity) Hy Hm) as Hb.
  destruct (unix_days_bound (year t) (month t) (day t) Hy Hm) as (-> & Hr & Hl).
  cbn beta iota in Hb. unfold days_since_1970 in *. cbn [year month day] in Hb.
  destruct (index days_before_month (month t - 1)) as [before|]; [|done].
  cbn [mbind option_bind mret option_ret] in *. zbool. f_equal. rewrite <- Hb in *. clear Hb.
  destruct (_ && _)%bool; revert Hr; generalize (u32 (Z.quot (year t - 1969) 4 - Z.quot (year t - 1901) 100 +
    Z.quot (year t - 1601) 400)); intros; ulia.
Qed.

(** ** The programs on a chip *)

Section chip.
Context {W : Type} `{HP : !Ports W, !RtcChip W}.
Implicit Types w : W.

Definition same_clock w w' : Prop := rtc_ok w' ∧ ∀ r, r ≠ RTC_STATUS_C → rtc_reg w' r = rtc_reg w r.

Lemma same_clock_refl w : rtc_ok w → same_clock w w.
Proof. done. Qed.

Lemma wp_read_reg w0 w r (Q : Z → W → Prop) :
  same_clock w0 w → 0 <= r < 128 → r ≠ RTC_STATUS_C →
  (∀ w', same_clock w0 w' → Q (rtc_reg w0 r) w') → wp (read_rtc_reg r) Q w.
Proof.
  intros [Hok Hs] Hr Hc HQ. unfold read_rtc_reg. wp_steps.
  pose proof (rtc_in w r Hok Hr) as Hin. destruct (inb _ _) as [v w']. simpl. destruct Hin as (-> & Hok' & Hs').
  rewrite Hs by done. apply HQ. split; [done|]. intros r' Hr'. by rewrite Hs', Hs.
Qed.

Lemma wp_write_reg w r v (Q : () → W → Prop) :
  rtc_ok w → 0 <= r < 128 → r ∉ [RTC_STATUS_A; RTC_STATUS_C; 13] →
  (∀ w', rtc_ok w' → (∀ r', rtc_reg w' r' = if r' =? r then u8 v else rtc_reg w r') → Q () w') →
  wp (write_rtc_reg r v) Q w.
Proof.
  intros Hok Hr Hn HQ. unfold write_rtc_reg. wp_steps.
  destruct (rtc_out w r (u8 v) Hok Hr Hn) as [??]; [apply u8_range|]. by apply HQ.
Qed.

Lemma wp_wait_update w0 w fuel (Q : () → W → Prop) :
  same_clock w0 w → (0 < fuel)%nat → (∀ w', same_clock w0 w' → Q () w') → wp (wait_update fuel) Q w.
Proof.
  intros Hs Hf HQ. destruct fuel as [|fuel]; [lia|]. cbn [wait_update]. apply wp_bind. unfold rtc_is_updating.
  pose proof Hs as [Hok Hreg]. wp_steps. pose proof (rtc_in w RTC_STATUS_A Hok ltac:(done)) as Hin.
  change (outb RTC_INDEX_PORT 10 w) with (outb RTC_INDEX_PORT RTC_STATUS_A w).
  destruct (inb _ _) as [v w']. simpl. destruct Hin as (-> & Hok' & Hs').
  rewrite rtc_not_updating by done. simpl. apply wp_ret, HQ. split; [done|].
  intros r' Hr'. by rewrite Hs', Hreg.
Qed.

(** The time registers hold [t] in the chip's mode, which is a 24-hour one. *)
Definition encode (status x : Z) : Z := if Z.land status RTC_DM_BINARY =? 0 then binary_to_bcd x else x.
Definition shows w (t : rtc_time_t) : Prop :=
  let b := rtc_reg w RTC_STATUS_B in
  Z.land b RTC_24HR ≠ 0 ∧
  rtc_reg w RTC_SECONDS = encode b (second t) ∧ rtc_reg w RTC_MINUTES = encode b (minute t) ∧
  rtc_reg w RTC_HOURS = encode b (hour t) ∧ rtc_reg w RTC_DAY = encode b (day t) ∧
  rtc_reg w RTC_MONTH = encode b (month t) ∧ rtc_reg w RTC_YEAR = encode b (year t mod 100) ∧
  rtc_reg w RTC_WEEKDAY = weekday t.

(** All reads of [rtc_read_time] at once. *)
Lemma wp_read_time w0 w fuel (Q : rtc_time_t → W → Prop) :
  same_clock w0 w → (0 < fuel)%nat →
  (∀ w', same_clock w0 w' →
     let reg := rtc_reg w0 in
     let bcd := Z.land (reg RTC_STATUS_B) RTC_DM_BINARY =? 0 in
     let conv x := if bcd then bcd_to_binary x else x in
     let hour := if bcd then bcd_to_binary (Z.land (reg RTC_HOURS) 127) else reg RTC_HOURS in
     let hour := if (Z.land (reg RTC_STATUS_B) RTC_24HR =? 0) && negb (Z.land hour 128 =? 0)
                 then (Z.land hour 127 + 12) mod 24 else hour in
     Q (mk_time (conv (reg RTC_SECONDS)) (conv (reg RTC_MINUTES)) hour (conv (reg RTC_DAY)) (conv (reg RTC_MONTH))
          (u16 (conv (reg RTC_YEAR) + 2000)) (reg RTC_WEEKDAY)) w') →
  wp (rtc_read_time fuel) Q w.
Proof.
  intros Hs Hf HQ. unfold rtc_read_time. apply wp_bind. eapply wp_wait_update; [exact Hs|done|]. clear Hs w. intros w Hs.
  do 8 (apply wp_bind; eapply wp_read_reg; [eassumption|done|done|]; clear Hs; clear w; intros w Hs).
  apply wp_ret. by apply HQ.
Qed.

Lemma valid_time_small t :
  valid_time t →
  2000 <= year t < 2100 ∧ 1 <= month t < 13 ∧ 1 <= day t < 32 ∧ 0 <= hour t < 24 ∧ 0 <= minute t < 60 ∧
  0 <= second t < 60 ∧ 0 <= weekday t < 8.
Proof.
  intros (Hy & Hm & Hd & ?). destruct (unix_days_bound (year t) (month t) 1 Hy Hm) as (_ & _ & ?). lia.
Qed.

Lemma decode_encode b x : 0 <= x < 100 → (if Z.land b RTC_DM_BINARY =? 0 then bcd_to_binary (encode b x) else encode b x) = x.
Proof. intros. unfold encode. destruct (_ =? 0); [|done]. by apply bcd_roundtrip. Qed.

Lemma read_time_shows w0 w t fuel :
  same_clock w0 w → (0 < fuel)%nat → shows w0 t → valid_time t →
  wp (rtc_read_time fuel) (λ t' w', t' = t ∧ same_clock w0 w') w.
Proof.
  intros Hs Hf (H24 & H0 & H2 & H4 & H7 & H8 & H9 & H6) Hv%valid_time_small.
  eapply wp_read_time; [exact Hs|done|]. intros w' Hs'. cbn zeta. rewrite H0, H2, H4, H7, H8, H9, H6.
  rewrite (proj2 (Z.eqb_neq _ 0) H24). cbn [andb].
  rewrite !decode_encode by ulia. split; [|done].
  assert ((if Z.land (rtc_reg w0 RTC_STATUS_B) RTC_DM_BINARY =? 0
    then bcd_to_binary (Z.land (encode (rtc_reg w0 RTC_STATUS_B) (hour t)) 127)
    else encode (rtc_reg w0 RTC_STATUS_B) (hour t)) = hour t) as ->.
  { unfold encode. destruct (_ =? 0); [|done]. rewrite bcd_hour by lia. apply bcd_roundtrip. lia. }
  assert (u16 (year t mod 100 + 2000) = year t) as -> by ulia. by destruct t.
Qed.

Lemma get_timestamp_shows w t fuel :
  rtc_ok w → shows w t → valid_time t → (0 < fuel)%nat →
  wp (rtc_get_timestamp fuel) (λ s w', s = unix_time t ∧ same_clock w w') w.
Proof.
  intros Hok Hs Hv Hf. unfold rtc_get_timestamp. apply wp_bind.
  eapply wp_mono; [by eapply read_time_shows; [apply same_clock_refl|..]|]. intros t' w' [-> Hw'].
  apply wp_bind. eapply wp_lift; [by apply days_since_1970_correct|]. apply wp_ret. split; [|done].
  pose proof (valid_time_small t Hv) as Hsm. destruct Hv as (Hy & Hm & _).
  destruct (unix_days_bound (year t) (month t) (day t) Hy Hm) as (Hd & Hr & _).
  unfold unix_time. rewrite Hd. apply u32_small. unfold is_u32. clear - Hsm Hr. lia.
Qed.
End chip.

(** ** A chip at rest: 128 registers *)

Record cmos := mk_cmos { cmos_index : Z; cmos_regs : list Z }.

#[export] Instance cmos_ports : Ports cmos := {
  outb p v w :=
    if p =? RTC_INDEX_PORT then mk_cmos (v mod 128) (cmos_regs w)
    else if p =? RTC_DATA_PORT then mk_cmos (cmos_index w) (aset (cmos_regs w) (cmos_index w) v) else w;
  inb p w := (if p =? RTC_DATA_PORT then aget (cmos_regs w) (cmos_index w) else 255, w);
}.

#[export] Program Instance cmos_chip : RtcChip cmos := {
  rtc_ok w := length (cmos_regs w) = 128%nat ∧ Forall is_u8 (cmos_regs w) ∧
    Z.land (aget (cmos_regs w) RTC_STATUS_A) 128 = 0;
  rtc_reg w r := if (0 <=? r) && (r <? 128) then aget (cmos_regs w) r else 0;
}.
Next Obligation.
  intros w r (Hl & Hu & _). destruct (_ && _)%bool eqn:Hc; [|ulia]. zbool.
  apply (Forall_lookup_1 _ _ (Z.to_nat r) _ Hu). unfold aget. apply list_lookup_lookup_total_lt. lia.
Qed.
Next Obligation. intros w (_ & _ & HA). exact HA. Qed.
Next Obligation.
  intros w r Hok Hr. simpl. rewrite Z.mod_small by lia.
  rewrite (proj2 (Z.leb_le 0 r)), (proj2 (Z.ltb_lt r 128)) by lia. done.
Qed.
Next Obligation.
  intros w r v (Hl & Hu & HA) Hr Hn Hv. simpl. rewrite Z.mod_small by lia. split_and!.
  - by rewrite length_aset.
  - by apply Forall_insert.
  - rewrite aget_aset_ne; [done|lia|done|]. intros ->. apply Hn. left.
  - intros r'. destruct (r' =? r) eqn:He; zbool.
    + subst. rewrite (proj2 (Z.leb_le 0 r)), (proj2 (Z.ltb_lt r 128)) by lia. simpl.
      rewrite aget_aset_eq; [done|]. rewrite Hl. lia.
    + destruct (_ && _)%bool eqn:Hc; [|done]. zbool. by rewrite aget_aset_ne by lia.
Qed.

(** ** Properties *)

(** C20: on a clock that shows a date and time of the years 2000 to 2099, in BCD
    or in binary, [rtc_get_timestamp] is the number of seconds since 1970 that
    the calendar gives. *)
Theorem rtc_get_timestamp_correct {W} `{!Ports W, !RtcChip W} (w : W) t fuel :
  rtc_ok w → shows w t → valid_time t → (0 < fuel)%nat →
  wp (rtc_get_timestamp fuel) (λ s w', s = unix_time t ∧ same_clock w w') w.
Proof. intros. by apply get_timestamp_shows. Qed.

(** Setting the clock and reading it back gives the time that was set, the
    weekday being the chip's own. *)
Theorem rtc_write_read_roundtrip {W} `{!Ports W, !RtcChip W} (w : W) t fuel :
  rtc_ok w → Z.land (rtc_reg w RTC_STATUS_B) RTC_24HR ≠ 0 → valid_time t → (0 < fuel)%nat →
  rtc_reg w RTC_WEEKDAY = weekday t →
  wp (rtc_write_time fuel t;; rtc_read_time fuel) (λ t' w', t' = t ∧ rtc_ok w') w.
Proof.
  intros Hok H24 Hv Hf Hwd. pose proof (valid_time_small t Hv). pose proof (rtc_reg_u8 w RTC_STATUS_B Hok) as HB.
  apply wp_bind. unfold rtc_write_time.
  apply wp_bind. eapply wp_read_reg; [by apply same_clock_refl|done|done|]. intros w1 Hs1.
  apply wp_bind. eapply wp_wait_update; [exact Hs1|done|]. clear w1 Hs1. intros w1 [Hok1 Hs1].
  remember (rtc_reg w RTC_STATUS_B) as b eqn:Eb.
  do 7 (apply wp_bind; eapply wp_write_reg; [eassumption|done|by apply (bool_decide_unpack _); vm_compute|];
        intros ? ? ?).
  eapply wp_write_reg; [eassumption|done|by apply (bool_decide_unpack _); vm_compute|].
  intros w9 Hok9 Hr. eapply wp_mono; [eapply (read_time_shows w9 w9 t)|]; [done|done| |done|by intros ?? [? [??]]].
  assert (∀ x, 0 <= x < 100 → u8 (if Z.land b RTC_DM_BINARY =? 0 then binary_to_bcd x else x) = encode b x) as Henc.
  { intros x Hx. unfold encode. destruct (_ =? 0); [|ulia]. apply u8_small, bcd_roundtrip. done. }
  unfold shows. repeat match goal with Hq : ∀ r', rtc_reg _ r' = _ |- _ => rewrite !Hq; clear Hq end.
  cbn [Z.eqb RTC_STATUS_B RTC_SECONDS RTC_MINUTES RTC_HOURS RTC_DAY RTC_MONTH RTC_YEAR RTC_WEEKDAY Pos.eqb].
  rewrite !Henc by ulia. rewrite Hs1 by done. rewrite u8_small by done. done.
Qed.

(** In the 12-hour modes the afternoon is misread: a BCD chip loses the PM
    flag, which is masked off before it is tested, and a binary one reads noon as
    midnight. *)
Theorem rtc_12_hour_wrong {W} `{!Ports W, !RtcChip W} (w : W) h fuel :
  rtc_ok w → Z.land (rtc_reg w RTC_STATUS_B) RTC_24HR = 0 → 1 <= h <= 12 → (0 < fuel)%nat →
  rtc_reg w RTC_HOURS = Z.lor 128 (encode (rtc_reg w RTC_STATUS_B) h) →
  wp (rtc_read_time fuel) (λ t _,
    hour t = if Z.land (rtc_reg w RTC_STATUS_B) RTC_DM_BINARY =? 0 then h else (h + 12) mod 24) w.
Proof.
  intros Hok H24 Hh Hf Hr. eapply wp_read_time; [by apply same_clock_refl|done|]. intros w' _. cbn zeta.
  cbn [hour]. rewrite Hr, H24. unfold encode. cbn [Z.eqb andb].
  destruct (Z.land (rtc_reg w RTC_STATUS_B) RTC_DM_BINARY =? 0).
  - pose proof (below_forall (λ h, (bcd_to_binary (Z.land (Z.lor 128 (binary_to_bcd h)) 127) =? h) &&
      (Z.land (bcd_to_binary (Z.land (Z.lor 128 (binary_to_bcd h)) 127)) 128 =? 0)) 13 h
      ltac:(vm_compute; reflexivity) ltac:(lia)) as Hb.
    cbn beta in Hb. zbool. rewrite H0. cbn. done.
  - pose proof (below_forall (λ h, (Z.land (Z.lor 128 h) 127 =? h) && negb (Z.land (Z.lor 128 h) 128 =? 0)) 13 h
      ltac:(vm_compute; reflexivity) ltac:(lia)) as Hb.
    cbn beta in Hb. apply andb_true_iff in Hb as [He ->]. zbool. by rewrite He.
Qed.

(** ** Witnesses *)

(** A chip in the given mode that shows 2024-02-29 23:58:31, a Thursday. *)
Definition demo_time : rtc_time_t := mk_time 31 58 23 29 2 2024 5.
Definition demo_chip (b : Z) : cmos :=
  mk_cmos 0 ([encode b 31; 0; encode b 58; 0; encode b 23; 0; 5; encode b 29; encode b 2; encode b 24; 38; b] ++
             replicate 116 0).

Lemma demo_chip_ok b : is_u8 b → rtc_ok (demo_chip b).
Proof.
  intros Hb. split; [done|]. split; [|done].
  assert (∀ x, 0 <= x < 100 → is_u8 (encode b x)) as He.
  { intros x Hx. unfold encode. destruct (_ =? 0); [by apply bcd_roundtrip|ulia]. }
  apply Forall_app. split; [|apply Forall_replicate; ulia].
  repeat (apply Forall_cons; split; [first [exact Hb | apply He; lia | ulia]|]). constructor.
Qed.

Lemma demo_time_valid : valid_time demo_time.
Proof. repeat split; cbn; try lia; vm_compute; congruence. Qed.

Lemma demo_chip_shows : shows (demo_chip 2) demo_time.
Proof. split; [done|]. repeat split; reflexivity. Qed.

Lemma rtc_get_timestamp_correct_witness :
  unix_time demo_time = 1709251111 ∧
  wp (rtc_get_timestamp 1) (λ s w', s = unix_time demo_time ∧ same_clock (demo_chip 2) w') (demo_chip 2).
Proof.
  split; [vm_compute; reflexivity|].
  apply (rtc_get_timestamp_correct (demo_chip 2) demo_time 1);
    [apply demo_chip_ok; split; done|apply demo_chip_shows|apply demo_time_valid|constructor].
Defined.

Lemma rtc_write_read_roundtrip_witness :
  wp (rtc_write_time 1 demo_time;; rtc_read_time 1) (λ t' w', t' = demo_time ∧ rtc_ok w') (demo_chip 6).
Proof.
  apply (rtc_write_read_roundtrip (demo_chip 6) demo_time 1);
    [apply demo_chip_ok; split; done|vm_compute; congruence|apply demo_time_valid|constructor|reflexivity].
Defined.

Definition demo_chip_pm : cmos := mk_cmos 0 ([0; 0; 0; 0; 131; 0; 5; 1; 1; 36; 38; 0] ++ replicate 116 0).

Lemma demo_chip_pm_ok : rtc_ok demo_chip_pm.
Proof.
  split; [reflexivity|]. split; [|reflexivity].
  apply Forall_app. split; [|apply Forall_replicate; split; done].
  repeat (apply Forall_cons; split; [split; done|]). constructor.
Qed.

Lemma rtc_12_hour_wrong_witness :
  wp (rtc_read_time 1) (λ t _,
    hour t = if Z.land (rtc_reg demo_chip_pm RTC_STATUS_B) RTC_DM_BINARY =? 0 then 3 else (3 + 12) mod 24) demo_chip_pm.
Proof. apply (rtc_12_hour_wrong demo_chip_pm 3 1); [exact demo_chip_pm_ok|reflexivity|split; done|constructor|reflexivity]. Defined.
