(* ===== verification/Ext2Clock.v ===== *)
(** * The clock of the file system ([kernel/src/fs/ext2.c], lines 9 to 142)

    ext2.c reads the real-time clock with code of its own and counts time from
    there with the timer interrupt. *)
From S2P Require Import Prelude Interfaces Monad Rtc.

Record ext2_clock := mk_clock { base_time : Z; current_time : Z; timer_ticks : Z }.

Definition DEFAULT_TIMESTAMP : Z := 1704067200.

Definition bcd_to_binary (bcd : Z) : Z :=
  u8 (Z.shiftr (Z.land bcd 240) 4 * 10 + Z.land bcd 15).

Definition days_in_month : list Z := [31; 28; 31; 30; 31; 30; 31; 31; 30; 31; 30; 31].

Definition is_leap_year (year : Z) : bool :=
  ((year mod 4 =? 0) && negb (year mod 100 =? 0)) || (year mod 400 =? 0).

(** The two loops that count the days before the month. *)
Definition add_years (year : Z) : Z :=
  foldl (λ days y, u32 (days + (if is_leap_year y then 366 else 365))) 0 (seqZ 1970 (year - 1970)).

Fixpoint add_months (year days : Z) (months : list Z) : option Z :=
  match months with
  | [] => Some days
  | m :: months =>
      n ← index days_in_month (m - 1);
      let days := u32 (days + n) in
      add_months year (if (m =? 2) && is_leap_year year then u32 (days + 1) else days) months
  end.

Section clock.
Context {W : Type} `{!Ports W}.

Definition get_rtc_timestamp : M W Z :=
  second ← read_rtc_reg RTC_SECONDS;
  minute ← read_rtc_reg RTC_MINUTES;
  hour ← read_rtc_reg RTC_HOURS;
  day ← read_rtc_reg RTC_DAY;
  month ← read_rtc_reg RTC_MONTH;
  year ← read_rtc_reg RTC_YEAR;
  let year := bcd_to_binary year + 2000 in
  days ← lift (add_months year (add_years year) (seqZ 1 (bcd_to_binary month - 1)));
  let days := u32 (days + (bcd_to_binary day - 1)) in
  mret (u32 (days * 86400 + bcd_to_binary hour * 3600 + bcd_to_binary minute * 60 + bcd_to_binary second)).

Definition ext2_time_init : M W ext2_clock :=
  rtc_time ← get_rtc_timestamp;
  let base := if DEFAULT_TIMESTAMP <? rtc_time then rtc_time else DEFAULT_TIMESTAMP in
  mret (mk_clock base base 0).
End clock.

Definition ext2_timer_tick (c : ext2_clock) : ext2_clock :=
  let ticks := u64 (timer_ticks c + 1) in
  mk_clock (base_time c) (if ticks mod 100 =? 0 then u32 (base_time c + ticks / 100) else current_time c) ticks.

Definition ext2_get_current_time (c : ext2_clock) : Z := current_time c.

(** ** The clock counts seconds *)

Definition clock_ok (c : ext2_clock) : Prop :=
  0 <= timer_ticks c ∧ current_time c = u32 (base_time c + timer_ticks c / 100).

Lemma ext2_timer_tick_ok c :
  clock_ok c → timer_ticks c + 1 < 18446744073709551616 →
  clock_ok (ext2_timer_tick c) ∧ timer_ticks (ext2_timer_tick c) = timer_ticks c + 1.
Proof.
  intros [H0 Hc] Hlt. unfold ext2_timer_tick, clock_ok. cbn [timer_ticks current_time base_time].
  rewrite u64_small by ulia. split; [|done]. split; [lia|].
  destruct (_ =? 0) eqn:He; zbool; [done|]. rewrite Hc. f_equal. f_equal.
  Z.to_euclidean_division_equations. lia.
Qed.

(** ** The days that the loops count *)

Lemma add_months_date y m :
  2000 <= y < 2100 → 1 <= m <= 12 → add_months y (add_years y) (seqZ 1 (m - 1)) = Some (unix_days y m 1).
Proof.
  intros Hy Hm.
  pose proof (months_forall (λ '(y, m), match add_months y (add_years y) (seqZ 1 (m - 1)) with
      Some days => days =? unix_days y m 1 | None => false end)
    y m ltac:(vm_compute; reflexivity) Hy Hm) as Hb. cbn beta iota in Hb.
  destruct (add_months _ _ _) as [days|]; [|done]. zbool. by subst.
Qed.

Lemma get_rtc_timestamp_shows {W} `{!Ports W, !RtcChip W} (w : W) t :
  rtc_ok w → shows w t → valid_time t → Z.land (rtc_reg w RTC_STATUS_B) RTC_DM_BINARY = 0 →
  wp get_rtc_timestamp (λ s w', s = unix_time t ∧ same_clock w w') w.
Proof.
  intros Hok Hs Hv Hb. unfold get_rtc_timestamp. pose proof (same_clock_refl w Hok) as Hsame.
  revert Hsame. generalize w at 2 4. intros w' Hsame.
  do 6 (apply wp_bind; eapply wp_read_reg; [eassumption|done|done|]; clear Hsame; clear w'; intros w' Hsame).
  pose proof Hs as (_ & H0 & H2 & H4 & H7 & H8 & H9 & _). unfold encode in *. rewrite Hb in *. cbn [Z.eqb] in *.
  pose proof (valid_time_small t Hv) as Hsm. pose proof Hv as (Hy & Hm & _).
  change bcd_to_binary with Rtc.bcd_to_binary. rewrite H0, H2, H4, H7, H8, H9.
  rewrite !(λ x Hx, proj1 (bcd_roundtrip x Hx)) by ulia.
  replace (year t mod 100 + 2000) with (year t) by ulia.
  apply wp_bind. eapply wp_lift; [by apply add_months_date|]. apply wp_ret. split; [|done].
  destruct (unix_days_bound (year t) (month t) (day t) Hy Hm) as (Hd & Hr & _).
  rewrite (u32_small (_ + (day t - 1))) by (unfold is_u32; clear - Hr Hsm; lia).
  unfold unix_time. rewrite Hd. apply u32_small. unfold is_u32. clear - Hr Hsm. lia.
Qed.

(** C21: on a BCD clock that shows a date and time of the years 2000 to 2099, in
    24-hour mode and not updating, the file system's own reading of the clock and
    [rtc_get_timestamp] give the same number, the Unix time. *)
Theorem get_rtc_timestamp_agrees {W} `{!Ports W, !RtcChip W} (w : W) t fuel :
  rtc_ok w → shows w t → valid_time t → Z.land (rtc_reg w RTC_STATUS_B) RTC_DM_BINARY = 0 → (0 < fuel)%nat →
  fst <$> get_rtc_timestamp w = Some (unix_time t) ∧ fst <$> rtc_get_timestamp fuel w = fst <$> get_rtc_timestamp w.
Proof.
  intros Hok Hs Hv Hb Hf.
  destruct (wp_run _ _ _ (get_rtc_timestamp_shows w t Hok Hs Hv Hb)) as (? & ? & -> & -> & _).
  by destruct (wp_run _ _ _ (get_timestamp_shows w t fuel Hok Hs Hv Hf)) as (? & ? & -> & -> & _).
Qed.

Lemma get_rtc_timestamp_agrees_witness :
  fst <$> get_rtc_timestamp (demo_chip 2) = Some (unix_time demo_time) ∧
  fst <$> rtc_get_timestamp 1 (demo_chip 2) = fst <$> get_rtc_timestamp (demo_chip 2).
Proof.
  apply (get_rtc_timestamp_agrees (demo_chip 2) demo_time 1);
    [apply demo_chip_ok; split; done|apply demo_chip_shows|apply demo_time_valid|reflexivity|constructor].
Defined.

(** A binary clock, as [rtc_init] leaves it, is decoded as BCD all the same. *)
Lemma get_rtc_timestamp_binary_clock :
  fst <$> get_rtc_timestamp (demo_chip 6) ≠ Some (unix_time demo_time).
Proof. vm_compute. congruence. Qed.
