(* ===== verification/Ext2Types.v ===== *)
(** * On-disk structures of the ext2 driver ([kernel/src/fs/ext2.h])

    The packed structs of the header as records, with the layout (field sizes in
    order), the list of field values and the reading of such a list.  A struct
    in a buffer is [pack layout (vals r)]; [of (unpack layout bytes)] reads it. *)
From S2P Require Import Prelude Bytes.

Definition EXT2_SUPER_MAGIC : Z := 61267.
Definition EXT2_ROOT_INO : Z := 2.
Definition EXT2_FT_REG_FILE : Z := 1.
Definition EXT2_FT_DIR : Z := 2.
Definition EXT2_S_IFDIR : Z := 16384.

Definition SIZEOF_SUPERBLOCK : Z := 84.
Definition SIZEOF_GROUP_DESC : Z := 32.
Definition SIZEOF_INODE : Z := 128.
Definition SIZEOF_FS : Z := 32.
Definition SIZEOF_DIR_ENTRY : Z := 8.

Record ext2_superblock := mk_sb {
  s_inodes_count : Z; s_blocks_count : Z; s_r_blocks_count : Z; s_free_blocks_count : Z; s_free_inodes_count : Z;
  s_first_data_block : Z; s_log_block_size : Z; s_log_frag_size : Z; s_blocks_per_group : Z;
  s_frags_per_group : Z; s_inodes_per_group : Z; s_mtime : Z; s_wtime : Z; s_mnt_count : Z; s_max_mnt_count : Z;
  s_magic : Z; s_state : Z; s_errors : Z; s_minor_rev_level : Z; s_lastcheck : Z; s_checkinterval : Z;
  s_creator_os : Z; s_rev_level : Z; s_def_resuid : Z; s_def_resgid : Z;
}.

Definition ext2_superblock_layout : list nat := [4; 4; 4; 4; 4; 4; 4; 4; 4; 4; 4; 4; 4; 2; 2; 2; 2; 2; 2; 4; 4; 4;
    4; 2; 2]%nat.
Definition ext2_superblock_vals (r : ext2_superblock) : list Z :=
  [s_inodes_count r; s_blocks_count r; s_r_blocks_count r; s_free_blocks_count r; s_free_inodes_count r;
  s_first_data_block r; s_log_block_size r; s_log_frag_size r; s_blocks_per_group r; s_frags_per_group r;
  s_inodes_per_group r; s_mtime r; s_wtime r; s_mnt_count r; s_max_mnt_count r; s_magic r; s_state r; s_errors r;
  s_minor_rev_level r; s_lastcheck r; s_checkinterval r; s_creator_os r; s_rev_level r; s_def_resuid r;
  s_def_resgid r].
Definition ext2_superblock_of (v : list Z) : ext2_superblock :=
  mk_sb (v !!! 0%nat) (v !!! 1%nat) (v !!! 2%nat) (v !!! 3%nat) (v !!! 4%nat) (v !!! 5%nat) (v !!! 6%nat)
  (v !!! 7%nat) (v !!! 8%nat) (v !!! 9%nat) (v !!! 10%nat) (v !!! 11%nat) (v !!! 12%nat) (v !!! 13%nat)
  (v !!! 14%nat) (v !!! 15%nat) (v !!! 16%nat) (v !!! 17%nat) (v !!! 18%nat) (v !!! 19%nat) (v !!! 20%nat)
  (v !!! 21%nat) (v !!! 22%nat) (v !!! 23%nat) (v !!! 24%nat).
Definition set_s_free_blocks_count (r : ext2_superblock) (x : Z) : ext2_superblock :=
  mk_sb (s_inodes_count r) (s_blocks_count r) (s_r_blocks_count r) x (s_free_inodes_count r) (s_first_data_block
  r) (s_log_block_size r) (s_log_frag_size r) (s_blocks_per_group r) (s_frags_per_group r) (s_inodes_per_group r)
  (s_mtime r) (s_wtime r) (s_mnt_count r) (s_max_mnt_count r) (s_magic r) (s_state r) (s_errors r)
  (s_minor_rev_level r) (s_lastcheck r) (s_checkinterval r) (s_creator_os r) (s_rev_level r) (s_def_resuid r)
  (s_def_resgid r).
Definition set_s_free_inodes_count (r : ext2_superblock) (x : Z) : ext2_superblock :=
  mk_sb (s_inodes_count r) (s_blocks_count r) (s_r_blocks_count r) (s_free_blocks_count r) x (s_first_data_block
  r) (s_log_block_size r) (s_log_frag_size r) (s_blocks_per_group r) (s_frags_per_group r) (s_inodes_per_group r)
  (s_mtime r) (s_wtime r) (s_mnt_count r) (s_max_mnt_count r) (s_magic r) (s_state r) (s_errors r)
  (s_minor_rev_level r) (s_lastcheck r) (s_checkinterval r) (s_creator_os r) (s_rev_level r) (s_def_resuid r)
  (s_def_resgid r).
Definition set_s_mtime (r : ext2_superblock) (x : Z) : ext2_superblock :=
  mk_sb (s_inodes_count r) (s_blocks_count r) (s_r_blocks_count r) (s_free_blocks_count r) (s_free_inodes_count r)
  (s_first_data_block r) (s_log_block_size r) (s_log_frag_size r) (s_blocks_per_group r) (s_frags_per_group r)
  (s_inodes_per_group r) x (s_wtime r) (s_mnt_count r) (s_max_mnt_count r) (s_magic r) (s_state r) (s_errors r)
  (s_minor_rev_level r) (s_lastcheck r) (s_checkinterval r) (s_creator_os r) (s_rev_level r) (s_def_resuid r)
  (s_def_resgid r).
Definition set_s_mnt_count (r : ext2_superblock) (x : Z) : ext2_superblock :=
  mk_sb (s_inodes_count r) (s_blocks_count r) (s_r_blocks_count r) (s_free_blocks_count r) (s_free_inodes_count r)
  (s_first_data_block r) (s_log_block_size r) (s_log_frag_size r) (s_blocks_per_group r) (s_frags_per_group r)
  (s_inodes_per_group r) (s_mtime r) (s_wtime r) x (s_max_mnt_count r) (s_magic r) (s_state r) (s_errors r)
  (s_minor_rev_level r) (s_lastcheck r) (s_checkinterval r) (s_creator_os r) (s_rev_level r) (s_def_resuid r)
  (s_def_resgid r).

Record ext2_group_desc := mk_gd {
  bg_block_bitmap : Z; bg_inode_bitmap : Z; bg_inode_table : Z; bg_free_blocks_count : Z;
  bg_free_inodes_count : Z; bg_used_dirs_count : Z; bg_pad : Z; bg_reserved : list Z;
}.

Definition ext2_group_desc_layout : list nat := [4; 4; 4; 2; 2; 2; 2]%nat ++ replicate 3 4%nat.
Definition ext2_group_desc_vals (r : ext2_group_desc) : list Z :=
  [bg_block_bitmap r; bg_inode_bitmap r; bg_inode_table r; bg_free_blocks_count r; bg_free_inodes_count r;
  bg_used_dirs_count r; bg_pad r] ++ bg_reserved r.
Definition ext2_group_desc_of (v : list Z) : ext2_group_desc :=
  mk_gd (v !!! 0%nat) (v !!! 1%nat) (v !!! 2%nat) (v !!! 3%nat) (v !!! 4%nat) (v !!! 5%nat) (v !!! 6%nat) (take 3
  (drop 7 v)).
Definition set_bg_free_blocks_count (r : ext2_group_desc) (x : Z) : ext2_group_desc :=
  mk_gd (bg_block_bitmap r) (bg_inode_bitmap r) (bg_inode_table r) x (bg_free_inodes_count r) (bg_used_dirs_count
  r) (bg_pad r) (bg_reserved r).
Definition set_bg_free_inodes_count (r : ext2_group_desc) (x : Z) : ext2_group_desc :=
  mk_gd (bg_block_bitmap r) (bg_inode_bitmap r) (bg_inode_table r) (bg_free_blocks_count r) x (bg_used_dirs_count
  r) (bg_pad r) (bg_reserved r).

Record ext2_inode := mk_inode {
  i_mode : Z; i_uid : Z; i_size : Z; i_atime : Z; i_ctime : Z; i_mtime : Z; i_dtime : Z; i_gid : Z;
  i_links_count : Z; i_blocks : Z; i_flags : Z; i_osd1 : Z; i_block : list Z; i_generation : Z; i_file_acl : Z;
  i_dir_acl : Z; i_faddr : Z; i_osd2 : list Z;
}.

Definition ext2_inode_layout : list nat := [2; 2; 4; 4; 4; 4; 4; 2; 2; 4; 4; 4]%nat ++ replicate 15 4%nat ++ [4;
    4; 4; 4]%nat ++ replicate 12 1%nat.
Definition ext2_inode_vals (r : ext2_inode) : list Z :=
  [i_mode r; i_uid r; i_size r; i_atime r; i_ctime r; i_mtime r; i_dtime r; i_gid r; i_links_count r; i_blocks r;
  i_flags r; i_osd1 r] ++ i_block r ++ [i_generation r; i_file_acl r; i_dir_acl r; i_faddr r] ++ i_osd2 r.
Definition ext2_inode_of (v : list Z) : ext2_inode :=
  mk_inode (v !!! 0%nat) (v !!! 1%nat) (v !!! 2%nat) (v !!! 3%nat) (v !!! 4%nat) (v !!! 5%nat) (v !!! 6%nat)
  (v !!! 7%nat) (v !!! 8%nat) (v !!! 9%nat) (v !!! 10%nat) (v !!! 11%nat) (take 15 (drop 12 v)) (v !!! 27%nat)
  (v !!! 28%nat) (v !!! 29%nat) (v !!! 30%nat) (take 12 (drop 31 v)).
Definition set_i_size (r : ext2_inode) (x : Z) : ext2_inode :=
  mk_inode (i_mode r) (i_uid r) x (i_atime r) (i_ctime r) (i_mtime r) (i_dtime r) (i_gid r) (i_links_count r)
  (i_blocks r) (i_flags r) (i_osd1 r) (i_block r) (i_generation r) (i_file_acl r) (i_dir_acl r) (i_faddr r)
  (i_osd2 r).
Definition set_i_atime (r : ext2_inode) (x : Z) : ext2_inode :=
  mk_inode (i_mode r) (i_uid r) (i_size r) x (i_ctime r) (i_mtime r) (i_dtime r) (i_gid r) (i_links_count r)
  (i_blocks r) (i_flags r) (i_osd1 r) (i_block r) (i_generation r) (i_file_acl r) (i_dir_acl r) (i_faddr r)
  (i_osd2 r).
Definition set_i_ctime (r : ext2_inode) (x : Z) : ext2_inode :=
  mk_inode (i_mode r) (i_uid r) (i_size r) (i_atime r) x (i_mtime r) (i_dtime r) (i_gid r) (i_links_count r)
  (i_blocks r) (i_flags r) (i_osd1 r) (i_block r) (i_generation r) (i_file_acl r) (i_dir_acl r) (i_faddr r)
  (i_osd2 r).
Definition set_i_mtime (r : ext2_inode) (x : Z) : ext2_inode :=
  mk_inode (i_mode r) (i_uid r) (i_size r) (i_atime r) (i_ctime r) x (i_dtime r) (i_gid r) (i_links_count r)
  (i_blocks r) (i_flags r) (i_osd1 r) (i_block r) (i_generation r) (i_file_acl r) (i_dir_acl r) (i_faddr r)
  (i_osd2 r).
Definition set_i_blocks (r : ext2_inode) (x : Z) : ext2_inode :=
  mk_inode (i_mode r) (i_uid r) (i_size r) (i_atime r) (i_ctime r) (i_mtime r) (i_dtime r) (i_gid r)
  (i_links_count r) x (i_flags r) (i_osd1 r) (i_block r) (i_generation r) (i_file_acl r) (i_dir_acl r) (i_faddr r)
  (i_osd2 r).
Definition set_i_block (r : ext2_inode) (x : list Z) : ext2_inode :=
  mk_inode (i_mode r) (i_uid r) (i_size r) (i_atime r) (i_ctime r) (i_mtime r) (i_dtime r) (i_gid r)
  (i_links_count r) (i_blocks r) (i_flags r) (i_osd1 r) x (i_generation r) (i_file_acl r) (i_dir_acl r) (i_faddr
  r) (i_osd2 r).


Definition read_superblock (l : list Z) : ext2_superblock := ext2_superblock_of (unpack ext2_superblock_layout l).
Definition write_superblock (r : ext2_superblock) : list Z := pack ext2_superblock_layout (ext2_superblock_vals r).
Definition read_group_desc (l : list Z) : ext2_group_desc := ext2_group_desc_of (unpack ext2_group_desc_layout l).
Definition read_inode (l : list Z) : ext2_inode := ext2_inode_of (unpack ext2_inode_layout l).
Definition write_inode (r : ext2_inode) : list Z := pack ext2_inode_layout (ext2_inode_vals r).

(** The fields of an inode are in range of their C types. *)
Definition inode_ok (r : ext2_inode) : Prop :=
  fits ext2_inode_layout (ext2_inode_vals r) ∧ length (i_block r) = 15%nat ∧ length (i_osd2 r) = 12%nat.

Lemma write_inode_length r : inode_ok r → length (write_inode r) = 128%nat.
Proof. intros (Hf & _). apply Forall2_length in Hf. by apply pack_length. Qed.

Lemma inode_of_vals r : length (i_block r) = 15%nat → length (i_osd2 r) = 12%nat → ext2_inode_of (ext2_inode_vals r) = r.
Proof.
  destruct r as [? ? ? ? ? ? ? ? ? ? ? ? bl ? ? ? ? os]. cbn [i_block i_osd2]. intros Hb Ho.
  do 15 (destruct bl as [|? bl]; [done|]). destruct bl; [|done].
  do 12 (destruct os as [|? os]; [done|]). destruct os; [|done]. reflexivity.
Qed.

(** Reading back a written inode. *)
Lemma read_write_inode r : inode_ok r → read_inode (write_inode r) = r.
Proof.
  intros (Hf & Hb & Ho). unfold read_inode, write_inode. rewrite <- (app_nil_r (pack _ _)).
  rewrite unpack_pack by done. by apply inode_of_vals.
Qed.
