(* ===== verification/Ext2.v ===== *)
(** * The ext2 file system driver ([kernel/src/fs/ext2.c])

    Every function of the file (but the clock, which is in Ext2Clock.v) is the
    definition of the same name, a program of the monad [M]: the state holds the
    mounted instance, the block device, the heap and the clock; the result
    [None] is a memory fault (NULL or out-of-bounds access, division by zero)
    or a loop that does not end.  A heap buffer is its pointer, needed to free
    it, and the list of its bytes; a failed allocation has the pointer 0 and
    takes the code's error path. *)
From S2P Require Import Prelude Interfaces Monad Bytes Str Ext2Clock Ext2Types.

Record ext2_fs := mk_fs {
  superblock : ext2_superblock;
  group_desc : list ext2_group_desc;
  block_size : Z;
  groups_count : Z;
  inodes_per_block : Z;
  device_id : Z;
  ptrs : Z * Z * Z;     (* the heap addresses of the instance, superblock and descriptors *)
}.

Record state (D H : Type) := mk_state {
  ext2_instance : option ext2_fs;
  nvme_dev : bool;      (* false for NULL *)
  device : D;
  heap : H;
  clock : ext2_clock;
}.
Arguments mk_state {_ _}.
Arguments ext2_instance {_ _}.
Arguments nvme_dev {_ _}.
Arguments device {_ _}.
Arguments heap {_ _}.
Arguments clock {_ _}.

Section ext2.
Context {D H : Type} `{!BlockDev D, !Malloc H}.
#[local] Abbreviation M := (Monad.M (state D H)).

Definition put_instance (i : option ext2_fs) : M () := modify (λ s,
  mk_state i (nvme_dev s) (device s) (heap s) (clock s)).
Definition put_nvme_dev (b : bool) : M () := modify (λ s,
  mk_state (ext2_instance s) b (device s) (heap s) (clock s)).
Definition put_clock (c : ext2_clock) : M () := modify (λ s,
  mk_state (ext2_instance s) (nvme_dev s) (device s) (heap s) c).

(** [ext2_instance->...]: a NULL instance faults. *)
Definition instance : M ext2_fs := i ← gets ext2_instance; lift i.

Definition alloc (n : Z) : M Z := λ s,
  let '(p, h) := Interfaces.malloc n (heap s) in
  Some (p, mk_state (ext2_instance s) (nvme_dev s) (device s) h (clock s)).
Definition free (p : Z) : M () := λ s,
  Some ((), mk_state (ext2_instance s) (nvme_dev s) (device s) (mfree p (heap s)) (clock s)).
Definition dev_read (lba n : Z) : M (option (list Z)) := λ s,
  let '(r, d) := nvme_read lba n (device s) in
  Some (r, mk_state (ext2_instance s) (nvme_dev s) d (heap s) (clock s)).
Definition dev_write (lba n : Z) (data : list Z) : M bool := λ s,
  let '(r, d) := nvme_write lba n data (device s) in
  Some (r, mk_state (ext2_instance s) (nvme_dev s) d (heap s) (clock s)).

(** ** Block access *)

Definition block_to_lba (block_num : Z) : M Z :=
  i ← gets ext2_instance;
  match i with
  | None => mret 0
  | Some fs => mret (u32 (block_num * (block_size fs / 512)))
  end.

Definition read_blocks (start_block block_count : Z) : M (option (list Z)) :=
  dev ← gets nvme_dev;
  if negb dev then mret None else
  lba ← block_to_lba start_block;
  fs ← instance;
  dev_read lba (u32 (block_count * block_size fs) / 512).

Definition write_blocks (start_block block_count : Z) (buffer : list Z) : M bool :=
  dev ← gets nvme_dev;
  if negb dev then mret false else
  lba ← block_to_lba start_block;
  fs ← instance;
  dev_write lba (u32 (block_count * block_size fs) / 512) buffer.

Definition ext2_read_block (block_num : Z) : M (option (list Z)) :=
  i ← gets ext2_instance;
  match i with None => mret None | Some _ => read_blocks block_num 1 end.

Definition ext2_write_block (block_num : Z) (buffer : list Z) : M bool :=
  i ← gets ext2_instance;
  match i with None => mret false | Some _ => write_blocks block_num 1 buffer end.

(** ** Inodes *)

(** Group and index of an inode, and the block and offset that hold it. *)
Definition locate_inode (fs : ext2_fs) (inode_num : Z) : M (Z * Z * Z * Z) :=
  group ← div (inode_num - 1) (s_inodes_per_group (superblock fs));
  idx ← modulo (inode_num - 1) (s_inodes_per_group (superblock fs));
  gd ← lift (index (group_desc fs) group);
  blk ← div (idx * SIZEOF_INODE) (block_size fs);
  offset ← modulo (idx * SIZEOF_INODE) (block_size fs);
  mret (group, idx, u32 (bg_inode_table gd + blk), offset).

(** The result is the address of the heap copy and its contents. *)
Definition ext2_get_inode (inode_num : Z) : M (option (Z * ext2_inode)) :=
  i ← gets ext2_instance;
  match i with
  | None => mret None
  | Some fs =>
      if inode_num =? 0 then mret None else
      '(_, _, block, offset) ← locate_inode fs inode_num;
      buffer ← alloc (block_size fs);
      if buffer =? 0 then mret None else
      data ← read_blocks block 1;
      match data with
      | None => free buffer;; mret None
      | Some data =>
          p ← alloc SIZEOF_INODE;
          if p =? 0 then free buffer;; mret None else
          bytes ← lift (slice data offset SIZEOF_INODE);
          free buffer;;
          mret (Some (p, read_inode bytes))
      end
  end.

Definition ext2_write_inode (inode_num : Z) (inode : ext2_inode) : M bool :=
  i ← gets ext2_instance;
  match i with
  | None => mret false
  | Some fs =>
      if inode_num =? 0 then mret false else
      '(_, _, block, offset) ← locate_inode fs inode_num;
      buffer ← alloc (block_size fs);
      if buffer =? 0 then mret false else
      data ← ext2_read_block block;
      match data with
      | None => free buffer;; mret false
      | Some data =>
          data ← lift (splice data offset (write_inode inode));
          success ← ext2_write_block block data;
          free buffer;;
          mret success
      end
  end.

(** ** Bitmaps *)

(** The bit search of the two allocators: claim the first clear bit whose bitmap
    block can be written back. *)
Fixpoint claim_bit (bitmap_block : Z) (bits : list Z) (bitmap : list Z) : M (option Z) :=
  match bits with
  | [] => mret None
  | bit :: rest =>
      byte ← lift (get_le 1 bitmap (bit / 8));
      if Z.land byte (Z.shiftl 1 (bit mod 8)) =? 0 then
        bitmap ← lift (put_le 1 bitmap (bit / 8) (Z.lor byte (Z.shiftl 1 (bit mod 8))));
        ok ← ext2_write_block bitmap_block bitmap;
        if (ok : bool) then mret (Some bit) else claim_bit bitmap_block rest bitmap
      else claim_bit bitmap_block rest bitmap
  end.

(** Clearing one bit of a bitmap block. *)
Definition clear_bit (bitmap : list Z) (idx : Z) : M (list Z) :=
  byte ← lift (get_le 1 bitmap (idx / 8));
  lift (put_le 1 bitmap (idx / 8) (Z.land byte (Z.lnot (Z.shiftl 1 (idx mod 8))))).

Definition set_group (fs : ext2_fs) (group : Z) (gd : ext2_group_desc) (sb : ext2_superblock) : ext2_fs :=
  mk_fs sb (<[Z.to_nat group := gd]> (group_desc fs)) (block_size fs) (groups_count fs)
        (inodes_per_block fs) (device_id fs) (ptrs fs).

(** One more or one fewer free inode or block in the counters in memory. *)
Definition count_inode (group delta : Z) : M () :=
  fs ← instance;
  gd ← lift (index (group_desc fs) group);
  put_instance (Some (set_group fs group
    (set_bg_free_inodes_count gd (u16 (bg_free_inodes_count gd + delta)))
    (set_s_free_inodes_count (superblock fs) (u32 (s_free_inodes_count (superblock fs) + delta))))).

Definition count_block (group delta : Z) : M () :=
  fs ← instance;
  gd ← lift (index (group_desc fs) group);
  put_instance (Some (set_group fs group
    (set_bg_free_blocks_count gd (u16 (bg_free_blocks_count gd + delta)))
    (set_s_free_blocks_count (superblock fs) (u32 (s_free_blocks_count (superblock fs) + delta))))).

Fixpoint allocate_inode_in (groups : list Z) : M Z :=
  match groups with
  | [] => mret 0
  | group :: rest =>
      fs ← instance;
      desc ← lift (index (group_desc fs) group);
      if bg_free_inodes_count desc =? 0 then allocate_inode_in rest else
      bitmap_ptr ← alloc (block_size fs);
      if bitmap_ptr =? 0 then mret 0 else
      bitmap ← ext2_read_block (bg_inode_bitmap desc);
      match bitmap with
      | None => free bitmap_ptr;; allocate_inode_in rest
      | Some bitmap =>
          found ← claim_bit (bg_inode_bitmap desc) (seqZ 0 (s_inodes_per_group (superblock fs))) bitmap;
          match found with
          | Some bit =>
              count_inode group (-1);;
              free bitmap_ptr;;
              mret (u32 (group * s_inodes_per_group (superblock fs) + bit + 1))
          | None => free bitmap_ptr;; allocate_inode_in rest
          end
      end
  end.

Definition ext2_allocate_inode : M Z :=
  i ← gets ext2_instance;
  match i with None => mret 0 | Some fs => allocate_inode_in (seqZ 0 (groups_count fs)) end.

Fixpoint allocate_block_in (groups : list Z) : M Z :=
  match groups with
  | [] => mret 0
  | group :: rest =>
      fs ← instance;
      desc ← lift (index (group_desc fs) group);
      if bg_free_blocks_count desc =? 0 then allocate_block_in rest else
      bitmap_ptr ← alloc (block_size fs);
      if bitmap_ptr =? 0 then mret 0 else
      bitmap ← ext2_read_block (bg_block_bitmap desc);
      match bitmap with
      | None => free bitmap_ptr;; allocate_block_in rest
      | Some bitmap =>
          found ← claim_bit (bg_block_bitmap desc) (seqZ 0 (s_blocks_per_group (superblock fs))) bitmap;
          match found with
          | Some bit =>
              count_block group (-1);;
              free bitmap_ptr;;
              mret (u32 (group * s_blocks_per_group (superblock fs) + bit))
          | None => free bitmap_ptr;; allocate_block_in rest
          end
      end
  end.

Definition ext2_allocate_block : M Z :=
  i ← gets ext2_instance;
  match i with None => mret 0 | Some fs => allocate_block_in (seqZ 0 (groups_count fs)) end.

Definition free_inode_bitmap (inode_num : Z) : M bool :=
  i ← gets ext2_instance;
  match i with
  | None => mret false
  | Some fs =>
      if inode_num =? 0 then mret false else
      group ← div (inode_num - 1) (s_inodes_per_group (superblock fs));
      idx ← modulo (inode_num - 1) (s_inodes_per_group (superblock fs));
      bitmap_ptr ← alloc (block_size fs);
      if bitmap_ptr =? 0 then mret false else
      gd ← lift (index (group_desc fs) group);
      bitmap ← ext2_read_block (bg_inode_bitmap gd);
      match bitmap with
      | None => free bitmap_ptr;; mret false
      | Some bitmap =>
          bitmap ← clear_bit bitmap idx;
          success ← ext2_write_block (bg_inode_bitmap gd) bitmap;
          (if (success : bool) then count_inode group 1 else mret ());;
          free bitmap_ptr;;
          mret success
      end
  end.

Definition ext2_free_block (block_num : Z) : M () :=
  i ← gets ext2_instance;
  match i with
  | None => mret ()
  | Some fs =>
      let sb := superblock fs in
      if (block_num <? s_first_data_block sb) || (s_blocks_count sb <=? block_num) then mret () else
      group ← div (block_num - s_first_data_block sb) (s_blocks_per_group sb);
      idx ← modulo (block_num - s_first_data_block sb) (s_blocks_per_group sb);
      bitmap_ptr ← alloc (block_size fs);
      if bitmap_ptr =? 0 then mret () else
      gd ← lift (index (group_desc fs) group);
      bitmap ← ext2_read_block (bg_block_bitmap gd);
      match bitmap with
      | None => free bitmap_ptr
      | Some bitmap =>
          bitmap ← clear_bit bitmap idx;
          success ← ext2_write_block (bg_block_bitmap gd) bitmap;
          (if (success : bool) then
             count_block group 1;;
             zero ← alloc (block_size fs);
             if zero =? 0 then mret () else
             ext2_write_block block_num (replicate (Z.to_nat (block_size fs)) 0);;
             free zero
           else mret ());;
          free bitmap_ptr
      end
  end.

(** ** The block map of a file *)

(** The entry at index [n] of an indirect block. *)
Definition entry (data : list Z) (n : Z) : option Z := get_le 4 data (4 * n).

(** The common body of [ext2_read_inode_block] and [ext2_write_inode_block]: find
    the disk block of block [block_num] of the file and apply [final] to it. *)
Definition with_inode_block {A} (failed : A) (final : Z → M A) (inode : ext2_inode) (block_num : Z) : M A :=
  i ← gets ext2_instance;
  match i with
  | None => mret failed
  | Some fs =>
      let ptr n := lift (index (i_block inode) n) in
      if block_num <? 12 then b ← ptr block_num; final b else
      block_buffer ← alloc (block_size fs);
      if block_buffer =? 0 then mret failed else
      let n := block_num - 12 in
      let p := block_size fs / 4 in
      r ← (if n <? p then
             (b ← ptr 12;
              d ← ext2_read_block b;
              match d with
              | None => mret failed
              | Some d => b ← lift (entry d n); final b
              end)
           else if n <? u32 (p * p) then
             (let n := n - p in
              i1 ← div n p; i2 ← modulo n p;
              b ← ptr 13;
              d ← ext2_read_block b;
              match d with
              | None => mret failed
              | Some d =>
                  b ← lift (entry d i1);
                  d ← ext2_read_block b;
                  match d with
                  | None => mret failed
                  | Some d => b ← lift (entry d i2); final b
                  end
              end)
           else
             (let n := n - u32 (p * p) in
              i1 ← div n (u32 (p * p)); n ← modulo n (u32 (p * p));
              i2 ← div n p; i3 ← modulo n p;
              b ← ptr 14;
              d ← ext2_read_block b;
              match d with
              | None => mret failed
              | Some d =>
                  b ← lift (entry d i1);
                  d ← ext2_read_block b;
                  match d with
                  | None => mret failed
                  | Some d =>
                      b ← lift (entry d i2);
                      d ← ext2_read_block b;
                      match d with
                      | None => mret failed
                      | Some d => b ← lift (entry d i3); final b
                      end
                  end
              end));
      free block_buffer;;
      mret r
  end.

Definition ext2_read_inode_block (inode : ext2_inode) (block_num : Z) : M (option (list Z)) :=
  with_inode_block None ext2_read_block inode block_num.

Definition ext2_write_inode_block (inode : ext2_inode) (block_num : Z) (buffer : list Z) : M bool :=
  with_inode_block false (λ b, ext2_write_block b buffer) inode block_num.

(** ** Files *)

(** The write loop: the block buffer and the number of bytes written are carried
    along; the result is [success]. *)
Fixpoint write_file_loop (bs offset size : Z) (inode : ext2_inode) (data buf : list Z) (bytes_written : Z)
    (blocks : list Z) : M bool :=
  match blocks with
  | [] => mret true
  | block :: blocks =>
      let first := block =? offset / bs in
      let last := (block =? u32 (offset + size - 1) / bs) && negb (u32 (offset + size) mod bs =? 0) in
      r ← (if first || last then ext2_read_inode_block inode block else mret (Some buf));
      match r with
      | None => mret false
      | Some buf =>
          let block_offset := if first then offset mod bs else 0 in
          let n := Z.min (bs - block_offset) (u32 (size - bytes_written)) in
          chunk ← lift (slice data bytes_written n);
          buf ← lift (splice buf block_offset chunk);
          ok ← ext2_write_inode_block inode block buf;
          if (ok : bool) then write_file_loop bs offset size inode data buf (bytes_written + n) blocks
          else mret false
      end
  end.

Definition ext2_write_file (inode_num : Z) (buffer : list Z) (offset size : Z) : M bool :=
  r ← ext2_get_inode inode_num;
  match r with
  | None => mret false
  | Some (ptr, inode) =>
      fs ← instance;
      start_block ← div offset (block_size fs);
      end_block ← div (u32 (offset + size - 1)) (block_size fs);
      block_buffer ← alloc (block_size fs);
      if block_buffer =? 0 then free ptr;; mret false else
      success ← write_file_loop (block_size fs) offset size inode buffer [] 0
                  (seqZ start_block (end_block - start_block + 1));
      success ← (if (success && (i_size inode <? u32 (offset + size)))%bool
                 then ext2_write_inode inode_num (set_i_size inode (u32 (offset + size)))
                 else mret success);
      free block_buffer;;
      free ptr;;
      mret success
  end.

(** The read loop returns the bytes stored at [write_ptr]. *)
Fixpoint read_file_loop (bs offset size : Z) (inode : ext2_inode) (bytes_read : Z) (blocks : list Z)
    : M (bool * list Z) :=
  match blocks with
  | [] => mret (true, [])
  | block :: blocks =>
      r ← ext2_read_inode_block inode block;
      match r with
      | None => mret (false, [])
      | Some buf =>
          let block_offset := if block =? offset / bs then offset mod bs else 0 in
          let n := Z.min (bs - block_offset) (u32 (size - bytes_read)) in
          chunk ← lift (slice buf block_offset n);
          '(ok, rest) ← read_file_loop bs offset size inode (bytes_read + n) blocks;
          mret (ok, chunk ++ rest)
      end
  end.

(** The result: success, and the bytes written to the caller's buffer. *)
Definition ext2_read_file (inode_num offset size : Z) : M (bool * list Z) :=
  r ← ext2_get_inode inode_num;
  match r with
  | None => mret (false, [])
  | Some (ptr, inode) =>
      if (i_size inode <=? offset) || (size =? 0) then free ptr;; mret (false, []) else
      let size := if i_size inode <? u32 (offset + size) then i_size inode - offset else size in
      fs ← instance;
      start_block ← div offset (block_size fs);
      end_block ← div (u32 (offset + size - 1)) (block_size fs);
      block_buffer ← alloc (block_size fs);
      if block_buffer =? 0 then free ptr;; mret (false, []) else
      r ← read_file_loop (block_size fs) offset size inode 0 (seqZ start_block (end_block - start_block + 1));
      free block_buffer;;
      free ptr;;
      mret r
  end.

(** ** Directories *)

Record ext2_dir_entry := mk_entry { de_inode : Z; de_rec_len : Z; de_name_len : Z; de_file_type : Z }.

(** The header of the directory entry at offset [pos] of a block. *)
Definition entry_at (data : list Z) (pos : Z) : option ext2_dir_entry :=
  h ← slice data pos SIZEOF_DIR_ENTRY;
  match unpack [4; 2; 1; 1]%nat h with
  | [i; r; n; t] => Some (mk_entry i r n t)
  | _ => None
  end.

Definition put_entry (data : list Z) (pos : Z) (e : ext2_dir_entry) : option (list Z) :=
  splice data pos (pack [4; 2; 1; 1]%nat [de_inode e; de_rec_len e; de_name_len e; de_file_type e]).

(** [pos += entry->rec_len; if (pos >= block_size || entry->rec_len == 0) break;] *)
Definition next_entry (bs pos : Z) (e : ext2_dir_entry) : option Z :=
  let pos := u32 (pos + de_rec_len e) in
  if (bs <=? pos) || (de_rec_len e =? 0) then None else Some pos.

(** The entries of a block for which the callback of [ext2_read_directory] runs:
    offset and header.  [fuel] bounds the walk, which advances at each step. *)
Fixpoint block_entries (fuel : nat) (bs : Z) (data : list Z) (pos : Z) : option (list (Z * ext2_dir_entry)) :=
  match fuel with
  | O => None
  | S fuel =>
      if negb (pos <? bs) then Some [] else
      e ← entry_at data pos;
      let here := if de_inode e =? 0 then [] else [(pos, e)] in
      match next_entry bs pos e with
      | None => Some here
      | Some pos => rest ← block_entries fuel bs data pos; Some (here ++ rest)
      end
  end.

(** The while loop over the blocks.  The callback gets the block and an entry. *)
Fixpoint read_directory_loop (fuel : nat) (bs : Z) (inode : ext2_inode) (block_index : Z)
    : M (bool * list (list Z * (Z * ext2_dir_entry))) :=
  if negb (u32 (block_index * bs) <? i_size inode) then mret (true, []) else
  match fuel with
  | O => fault
  | S fuel =>
      r ← ext2_read_inode_block inode block_index;
      match r with
      | None => mret (false, [])
      | Some data =>
          es ← lift (block_entries (S (Z.to_nat bs)) bs data 0);
          '(ok, rest) ← read_directory_loop fuel bs inode (u32 (block_index + 1));
          mret (ok, ((λ e, (data, e)) <$> es) ++ rest)
      end
  end.

(** Enough for the blocks of any directory whose size rounds up to less than
    4 GiB; a larger one makes [block_index * block_size] wrap and the loop of the
    code does not end. *)
Definition directory_fuel (bs : Z) (inode : ext2_inode) : nat := S (Z.to_nat (i_size inode / bs)).

Definition is_directory (inode : ext2_inode) : bool := negb (Z.land (i_mode inode) EXT2_S_IFDIR =? 0).

(** The result: success, and the arguments of the calls of the callback. *)
Definition ext2_read_directory (inode_num : Z) : M (bool * list (list Z * (Z * ext2_dir_entry))) :=
  r ← ext2_get_inode inode_num;
  match r with
  | None => mret (false, [])
  | Some (ptr, inode) =>
      if negb (is_directory inode) then free ptr;; mret (false, []) else
      fs ← instance;
      block_buffer ← alloc (block_size fs);
      if block_buffer =? 0 then free ptr;; mret (false, []) else
      r ← read_directory_loop (directory_fuel (block_size fs) inode) (block_size fs) inode 0;
      free block_buffer;;
      free ptr;;
      mret r
  end.

(** Does the entry at [pos] have the name?  A name of that length that crosses the
    end of the block is a fault, also where [memcmp] would stop before the end. *)
Definition name_matches (data name : list Z) (pos : Z) (e : ext2_dir_entry) : option bool :=
  if strlen name =? de_name_len e then
    n ← slice data (pos + SIZEOF_DIR_ENTRY) (de_name_len e);
    Some (memcmp name n (Z.to_nat (de_name_len e)) =? 0)
  else Some false.

(** The walk of [ext2_find_file] over one block: the inode of the first entry of
    that name. *)
Fixpoint find_in_block (fuel : nat) (bs : Z) (data name : list Z) (pos : Z) : option (option Z) :=
  match fuel with
  | O => None
  | S fuel =>
      if negb (pos <? bs) then Some None else
      e ← entry_at data pos;
      hit ← (if de_inode e =? 0 then Some false else name_matches data name pos e);
      if (hit : bool) then Some (Some (de_inode e)) else
      match next_entry bs pos e with
      | None => Some None
      | Some pos => find_in_block fuel bs data name pos
      end
  end.

Fixpoint find_file_loop (fuel : nat) (bs : Z) (inode : ext2_inode) (name : list Z) (block_index : Z) : M Z :=
  if negb (u32 (block_index * bs) <? i_size inode) then mret 0 else
  match fuel with
  | O => fault
  | S fuel =>
      r ← ext2_read_inode_block inode block_index;
      found ← match r with
              | None => mret None
              | Some data => lift (find_in_block (S (Z.to_nat bs)) bs data name 0)
              end;
      match found with
      | Some i => mret i
      | None => find_file_loop fuel bs inode name (u32 (block_index + 1))
      end
  end.

Definition ext2_find_file (dir_inode : Z) (name : list Z) : M Z :=
  r ← ext2_get_inode dir_inode;
  match r with
  | None => mret 0
  | Some (ptr, inode) =>
      if negb (is_directory inode) then free ptr;; mret 0 else
      fs ← instance;
      block_buffer ← alloc (block_size fs);
      if block_buffer =? 0 then free ptr;; mret 0 else
      found ← find_file_loop (directory_fuel (block_size fs) inode) (block_size fs) inode name 0;
      free block_buffer;;
      free ptr;;
      mret found
  end.

(** [(x + 3) & ~3] *)
Definition round4 (x : Z) : Z := Z.land (x + 3) (Z.lnot 3).

(** The walk of [ext2_create_directory_entry] over one block: the block with the
    new entry, when one of its entries has room. *)
Fixpoint insert_in_block (fuel : nat) (bs : Z) (data name : list Z) (inode_num type : Z) (entry_size : Z) (pos : Z)
    : option (option (list Z)) :=
  match fuel with
  | O => None
  | S fuel =>
      if negb (pos <? bs) then Some None else
      e ← entry_at data pos;
      if u32 (entry_size + round4 (de_name_len e)) <=? de_rec_len e then
        let new_rec_len := u32 (de_rec_len e - entry_size) in
        let rec_len := round4 (de_name_len e + 8) in
        data ← put_entry data pos (mk_entry (de_inode e) rec_len (de_name_len e) (de_file_type e));
        data ← put_entry data (pos + rec_len) (mk_entry inode_num (u16 new_rec_len) (u8 (strlen name)) type);
        data ← splice data (pos + rec_len + SIZEOF_DIR_ENTRY) name;
        Some (Some data)
      else
      match next_entry bs pos e with
      | None => Some None
      | Some pos => insert_in_block fuel bs data name inode_num type entry_size pos
      end
  end.

Fixpoint create_entry_loop (bs : Z) (dir : ext2_inode) (name : list Z) (inode_num type entry_size : Z)
    (blocks : list Z) : M bool :=
  match blocks with
  | [] => mret false
  | i :: blocks =>
      r ← ext2_read_inode_block dir i;
      success ← match r with
                | None => mret false
                | Some data =>
                    r ← lift (insert_in_block (S (Z.to_nat bs)) bs data name inode_num type entry_size 0);
                    match r with
                    | None => mret false
                    | Some data => ext2_write_inode_block dir i data
                    end
                end;
      if (success : bool) then mret true else create_entry_loop bs dir name inode_num type entry_size blocks
  end.

Definition ext2_create_directory_entry (dir_inode : Z) (name : list Z) (inode_num type : Z) : M bool :=
  r ← ext2_get_inode dir_inode;
  match r with
  | None => mret false
  | Some (ptr, dir) =>
      fs ← instance;
      block_buffer ← alloc (block_size fs);
      if block_buffer =? 0 then free ptr;; mret false else
      let entry_size := u32 (round4 (SIZEOF_DIR_ENTRY + strlen name)) in
      success ← create_entry_loop (block_size fs) dir name inode_num type entry_size (seqZ 0 (i_blocks dir));
      free block_buffer;;
      free ptr;;
      mret success
  end.

(** ** Creating and deleting files *)

Definition new_inode (now mode : Z) : ext2_inode :=
  mk_inode mode 0 0 now now now 0 0 1 0 0 0 (replicate 15 0) 0 0 0 0 (replicate 12 0).

(** The first block of a new directory. *)
Definition dot_block (bs inode_num parent_inode : Z) : option (list Z) :=
  d ← put_entry (replicate (Z.to_nat bs) 0) 0 (mk_entry inode_num 12 1 EXT2_FT_DIR);
  d ← splice d 8 [46];
  d ← put_entry d 12 (mk_entry parent_inode (u16 (bs - 12)) 2 EXT2_FT_DIR);
  splice d 20 [46; 46].

(** The part of [ext2_create_file] for directories. *)
Definition init_directory (parent_inode inode_num : Z) : M Z :=
  block ← ext2_allocate_block;
  if block =? 0 then free_inode_bitmap inode_num;; mret 0 else
  fs ← instance;
  block_buffer ← alloc (block_size fs);
  if block_buffer =? 0 then ext2_free_block block;; free_inode_bitmap inode_num;; mret 0 else
  data ← lift (dot_block (block_size fs) inode_num parent_inode);
  ok ← ext2_write_block block data;
  if negb ok then free block_buffer;; ext2_free_block block;; free_inode_bitmap inode_num;; mret 0 else
  free block_buffer;;
  r ← ext2_get_inode inode_num;
  match r with
  | None => mret inode_num
  | Some (ptr, dir) =>
      ext2_write_inode inode_num
        (set_i_blocks (set_i_size (set_i_block dir (<[0%nat := block]> (i_block dir))) (block_size fs)) (block_size fs / 512));;
      free ptr;;
      mret inode_num
  end.

Definition ext2_create_file (parent_inode : Z) (name : list Z) (mode : Z) : M Z :=
  existing ← ext2_find_file parent_inode name;
  if negb (existing =? 0) then mret 0 else
  inode_num ← ext2_allocate_inode;
  if inode_num =? 0 then mret 0 else
  now ← gets (λ s, current_time (clock s));
  ok ← ext2_write_inode inode_num (new_inode now mode);
  if negb ok then free_inode_bitmap inode_num;; mret 0 else
  let type := if Z.land mode EXT2_S_IFDIR =? 0 then EXT2_FT_REG_FILE else EXT2_FT_DIR in
  ok ← ext2_create_directory_entry parent_inode name inode_num type;
  if negb ok then free_inode_bitmap inode_num;; mret 0 else
  if Z.land mode EXT2_S_IFDIR =? 0 then mret inode_num else init_directory parent_inode inode_num.

(** [for (i = 0; i < n && blocks[i]; i++) f(blocks[i]);] *)
Fixpoint free_pointers (f : Z → M ()) (blocks : Z → option Z) (indices : list Z) : M () :=
  match indices with
  | [] => mret ()
  | i :: indices =>
      b ← lift (blocks i);
      if b =? 0 then mret () else f b;; free_pointers f blocks indices
  end.

Definition pointers (fs : ext2_fs) : list Z := seqZ 0 (block_size fs / 4).

(** [if (ext2_read_block(b, buffer)) loop] over the pointers in block [b]. *)
Definition free_pointers_of (f : Z → M ()) (b : Z) : M () :=
  fs ← instance;
  d ← ext2_read_block b;
  match d with None => mret () | Some d => free_pointers f (entry d) (pointers fs) end.

(** [buffer = malloc(block_size); if (buffer) { body; free(buffer); }] *)
Definition with_buffer (body : M ()) : M () :=
  fs ← instance;
  buffer ← alloc (block_size fs);
  if buffer =? 0 then mret () else body;; free buffer.

(** The blocks behind a single, double and triple indirect block.  The buffer of
    the inner loop is allocated once the outer block has been read. *)
Definition free_indirect (b : Z) : M () := free_pointers_of ext2_free_block b;; ext2_free_block b.

Definition free_double_pointers (b : Z) : M () :=
  fs ← instance;
  d ← ext2_read_block b;
  match d with
  | None => mret ()
  | Some d => with_buffer (free_pointers free_indirect (entry d) (pointers fs))
  end.

Definition free_double (b : Z) : M () := free_double_pointers b;; ext2_free_block b.

Definition free_triple_pointers (b : Z) : M () :=
  fs ← instance;
  d ← ext2_read_block b;
  match d with
  | None => mret ()
  | Some d => with_buffer (free_pointers free_double (entry d) (pointers fs))
  end.

(** Freeing all blocks of a file. *)
Definition free_file_blocks (inode : ext2_inode) : M () :=
  let ptr n := lift (index (i_block inode) n) in
  free_pointers ext2_free_block (index (i_block inode)) (seqZ 0 12);;
  b ← ptr 12;
  (if b =? 0 then mret () else with_buffer (free_pointers_of ext2_free_block b);; ext2_free_block b);;
  b ← ptr 13;
  (if b =? 0 then mret () else with_buffer (free_double_pointers b);; ext2_free_block b);;
  b ← ptr 14;
  if b =? 0 then mret () else with_buffer (free_triple_pointers b);; ext2_free_block b.

(** The walk over one block that removes the entry of [inode_num]; [prev] is the
    offset of the previous entry. *)
Fixpoint remove_in_block (fuel : nat) (bs : Z) (data : list Z) (inode_num : Z) (prev : option Z) (offset : Z)
    : option (option (list Z)) :=
  match fuel with
  | O => None
  | S fuel =>
      if negb (offset <? bs) then Some None else
      e ← entry_at data offset;
      if de_inode e =? inode_num then
        match prev with
        | Some p =>
            pe ← entry_at data p;
            Some <$> put_entry data p (mk_entry (de_inode pe) (u16 (de_rec_len pe + de_rec_len e)) (de_name_len pe) (de_file_type pe))
        | None => Some <$> put_entry data offset (mk_entry 0 (de_rec_len e) (de_name_len e) (de_file_type e))
        end
      else
      match next_entry bs offset e with
      | None => Some None
      | Some next => remove_in_block fuel bs data inode_num (Some offset) next
      end
  end.

Fixpoint remove_entry_loop (bs : Z) (parent : ext2_inode) (inode_num : Z) (blocks : list Z) : M bool :=
  match blocks with
  | [] => mret false
  | i :: blocks =>
      r ← ext2_read_inode_block parent i;
      found ← match r with
              | None => mret false
              | Some data =>
                  r ← lift (remove_in_block (S (Z.to_nat bs)) bs data inode_num None 0);
                  match r with
                  | None => mret false
                  | Some data => ext2_write_inode_block parent i data
                  end
              end;
      if (found : bool) then mret true else remove_entry_loop bs parent inode_num blocks
  end.

Definition ext2_delete_file (parent_inode : Z) (name : list Z) : M bool :=
  inode_num ← ext2_find_file parent_inode name;
  if inode_num =? 0 then mret false else
  r ← ext2_get_inode inode_num;
  match r with
  | None => mret false
  | Some (ptr, inode) =>
      fs ← instance;
      if is_directory inode && (block_size fs <? i_size inode) then free ptr;; mret false else
      free_file_blocks inode;;
      free_inode_bitmap inode_num;;
      free ptr;;
      r ← ext2_get_inode parent_inode;
      match r with
      | None => mret false
      | Some (ptr, parent) =>
          fs ← instance;
          block_buffer ← alloc (block_size fs);
          if block_buffer =? 0 then free ptr;; mret false else
          n ← div (i_size parent) (block_size fs);
          found ← remove_entry_loop (block_size fs) parent inode_num (seqZ 0 n);
          free block_buffer;;
          free ptr;;
          mret found
      end
  end.

(** ** Mounting *)

(** The fields of a zeroed instance. *)
Definition zero_fs (device_id : Z) (p sb : Z) : ext2_fs :=
  mk_fs (ext2_superblock_of []) [] 0 0 0 device_id (p, sb, 0).

(** Data read into a buffer with the contents [buf]: past its end is a fault. *)
Definition fill (buf data : list Z) : option (list Z) := splice buf 0 data.

Definition sane (sb : ext2_superblock) (gd : ext2_group_desc) : bool :=
  (bg_block_bitmap gd <? s_blocks_count sb) && (bg_inode_bitmap gd <? s_blocks_count sb) &&
  (bg_inode_table gd <? s_blocks_count sb).

(** The error exits: free what was allocated and forget the instance. *)
Definition unmount : M bool :=
  fs ← instance;
  let '(p, sb, gd) := ptrs fs in
  (if gd =? 0 then mret () else free gd);;
  free sb;;
  free p;;
  put_instance None;;
  mret false.

(** From the group descriptors on; [garbage] are the contents of fresh heap memory. *)
Definition mount_groups (garbage : Z → list Z) : M bool :=
  fs ← instance;
  let sb := superblock fs in
  let bs := u32 (Z.shiftl 1024 (s_log_block_size sb mod 32)) in
  groups ← div (u32 (s_blocks_count sb + s_blocks_per_group sb - 1)) (s_blocks_per_group sb);
  let size := u32 (SIZEOF_GROUP_DESC * groups) in
  blocks ← div (u32 (size + bs - 1)) bs;
  let '(p, sbp, _) := ptrs fs in
  gdp ← alloc (u32 (blocks * bs));
  put_instance (Some (mk_fs sb [] bs groups (bs / SIZEOF_INODE) (device_id fs) (p, sbp, gdp)));;
  if gdp =? 0 then unmount else
  d ← read_blocks 2 blocks;
  match d with
  | None => unmount
  | Some d =>
      d ← lift (fill (garbage (u32 (blocks * bs))) d);
      gds ← lift (mapM (λ i, read_group_desc <$> slice d (SIZEOF_GROUP_DESC * i) SIZEOF_GROUP_DESC) (seqZ 0 groups));
      put_instance (Some (mk_fs sb gds bs groups (bs / SIZEOF_INODE) (device_id fs) (p, sbp, gdp)));;
      if negb (forallb (sane sb) gds) then unmount else
      now ← gets (λ s, current_time (clock s));
      let sb := set_s_mtime (set_s_mnt_count sb (u16 (s_mnt_count sb + 1))) now in
      put_instance (Some (mk_fs sb gds bs groups (bs / SIZEOF_INODE) (device_id fs) (p, sbp, gdp)));;
      out ← lift (slice (write_superblock sb) 0 (512 * (bs / 512)));
      ok ← write_blocks 1 1 out;
      if negb ok then unmount else
      r ← ext2_get_inode EXT2_ROOT_INO;
      match r with
      | None => unmount
      | Some (ptr, root) =>
          if negb (is_directory root) then free ptr;; unmount else free ptr;; mret true
      end
  end.

(** [found] is the answer of [nvme_get_device], [time] that of [ext2_time_init].
    When the superblock is read, the block size of the instance is still 0. *)
Definition ext2_init (device_id : Z) (found : bool) (time : ext2_clock) (garbage : Z → list Z) : M bool :=
  put_clock time;;
  put_nvme_dev found;;
  if negb found then mret false else
  p ← alloc SIZEOF_FS;
  if p =? 0 then put_instance None;; mret false else
  sbp ← alloc SIZEOF_SUPERBLOCK;
  put_instance (Some (zero_fs device_id p sbp));;
  if sbp =? 0 then free p;; put_instance None;; mret false else
  d ← read_blocks 1 1;
  match d with
  | None => unmount
  | Some d =>
      d ← lift (fill (garbage SIZEOF_SUPERBLOCK) d);
      let sb := read_superblock d in
      put_instance (Some (mk_fs sb [] 0 0 0 device_id (p, sbp, 0)));;
      if negb (s_magic sb =? EXT2_SUPER_MAGIC) then unmount else mount_groups garbage
  end.

Definition ext2_cleanup : M () :=
  i ← gets ext2_instance;
  match i with
  | None => mret ()
  | Some fs =>
      let '(p, sb, gd) := ptrs fs in
      (if sb =? 0 then mret () else free sb);;
      (if gd =? 0 then mret () else free gd);;
      free p;;
      put_instance None
  end.

(** ** Times of an inode *)

Definition ext2_update_atime (inode : ext2_inode) : M ext2_inode := gets (λ s, set_i_atime inode (current_time (clock s))).
Definition ext2_update_mtime (inode : ext2_inode) : M ext2_inode := gets (λ s, set_i_mtime inode (current_time (clock s))).
Definition ext2_update_ctime (inode : ext2_inode) : M ext2_inode := gets (λ s, set_i_ctime inode (current_time (clock s))).
Definition ext2_update_times (inode : ext2_inode) : M ext2_inode := gets (λ s,
  let now := current_time (clock s) in set_i_ctime (set_i_mtime (set_i_atime inode now) now) now).
End ext2.
