(* ===== verification/Ext2Demo.v ===== *)
(** * A RAM disk with a small ext2 file system

    Instances of the interfaces of the file system and a concrete disk, on which
    the theorems about ext2.c are applied. *)
From S2P Require Import Prelude Interfaces Monad Bytes Ext2Clock Ext2Types Ext2.

(** ** A device in memory *)

Abbreviation ram := (gmap Z (list Z)).
Definition ram_sector (d : ram) (k : Z) : list Z := default (replicate 512 0) (d !! k).

Fixpoint ram_write (n : nat) (lba : Z) (data : list Z) (d : ram) : ram :=
  match n with O => d | S n => ram_write n (lba + 1) (drop 512 data) (<[lba := take 512 data]> d) end.

Definition ram_ok (d : ram) : Prop :=
  ∀ k, length (ram_sector d k) = 512%nat ∧ Forall is_byte (ram_sector d k).

Lemma ram_write_ok n : ∀ lba data d,
  ram_ok d → length data = (512 * n)%nat → Forall is_byte data → ram_ok (ram_write n lba data d).
Proof.
  induction n as [|n IH]; intros lba data d Hd Hl Hb; [done|]. apply IH.
  - intros k. unfold ram_sector. destruct (decide (k = lba)) as [->|].
    + rewrite lookup_insert_eq. simpl. split; [rewrite length_take; lia|by apply Forall_take].
    + rewrite lookup_insert_ne by done. apply Hd.
  - rewrite length_drop. lia.
  - by apply Forall_drop.
Qed.

Lemma ram_write_other n : ∀ lba data d k,
  k < lba ∨ lba + Z.of_nat n <= k → ram_sector (ram_write n lba data d) k = ram_sector d k.
Proof.
  induction n as [|n IH]; intros lba data d k Hk; [done|]. cbn [ram_write]. rewrite IH by lia.
  unfold ram_sector. by rewrite lookup_insert_ne by lia.
Qed.

Lemma ram_write_same n : ∀ lba data d,
  length data = (512 * n)%nat → concat (ram_sector (ram_write n lba data d) <$> seqZ lba (Z.of_nat n)) = data.
Proof.
  induction n as [|n IH]; intros lba data d Hl; [by destruct data|]. rewrite seqZ_cons by lia.
  replace (Z.pred (Z.of_nat (S n))) with (Z.of_nat n) by lia. change (Z.succ lba) with (lba + 1).
  rewrite fmap_cons. cbn [ram_write concat]. rewrite IH by (rewrite length_drop; lia). rewrite ram_write_other by lia.
  unfold ram_sector at 1. rewrite lookup_insert_eq. simpl. apply take_drop.
Qed.

#[export] Program Instance ram_dev : BlockDev ram := {
  nvme_read lba n d := (Some (concat (ram_sector d <$> seqZ lba n)), d);
  nvme_write lba n data d := (true, ram_write (Z.to_nat n) lba data d);
  bd_ok := ram_ok;
  bd_sector := ram_sector;
}.
Next Obligation. done. Qed.
Next Obligation. done. Qed.
Next Obligation.
  intros d lba n data Hd Hn Hl Hb. split; [apply ram_write_ok; [done|lia|done]|]. split.
  - intros k Hk. apply ram_write_other. lia.
  - intros _. rewrite <- (Z2Nat.id n) at 2 by lia. apply ram_write_same. lia.
Qed.

(** ** The disk

    Blocks of 1024 bytes; block 4 is the inode bitmap (inodes 1 to 11 are used),
    blocks 5 and 6 the inode table, block 7 the root directory, blocks 8 and 9 the
    file [hello], inode 3, of 1500 bytes. *)
Definition demo_sb : ext2_superblock :=
  mk_sb 16 64 0 50 5 1 0 0 64 64 16 0 0 0 0 EXT2_SUPER_MAGIC 0 0 0 0 0 0 0 0 0.
Definition demo_fs : ext2_fs :=
  mk_fs demo_sb [mk_gd 3 4 5 50 5 1 0 [0; 0; 0]] 1024 1 8 0 (0, 0, 0).

Definition demo_root : ext2_inode :=
  mk_inode 16877 0 1024 0 0 0 0 0 2 2 0 0 (7 :: replicate 14 0) 0 0 0 0 (replicate 12 0).
Definition demo_file : ext2_inode :=
  mk_inode 33188 0 1500 0 0 0 0 0 1 4 0 0 (8 :: 9 :: replicate 13 0) 0 0 0 0 (replicate 12 0).

Definition hello : list Z := [104; 101; 108; 108; 111].
Definition demo_entry (i r n t : Z) (name : list Z) : list Z := pack [4; 2; 1; 1]%nat [i; r; n; t] ++ name.
Definition pad (l : list Z) : list Z := l ++ replicate (1024 - length l) 0.

Definition demo_dir : list Z :=
  pad (demo_entry 2 12 1 2 [46; 0; 0; 0] ++ demo_entry 2 12 2 2 [46; 46; 0; 0] ++ demo_entry 3 1000 5 1 hello).

Definition put_block (b : Z) (data : list Z) (d : ram) : ram := ram_write 2 (2 * b) (pad data) d.
Definition demo_disk : ram :=
  put_block 4 [255; 7] (put_block 5 (replicate 128 0 ++ write_inode demo_root ++ write_inode demo_file)
    (put_block 7 demo_dir (put_block 8 (replicate 1024 65) (put_block 9 (replicate 1024 66) ∅)))).

Definition demo_state : state ram nat := mk_state (Some demo_fs) true demo_disk 0%nat (mk_clock 0 1 0).

Lemma put_block_ok b data d :
  (length data <= 1024)%nat → forallb (λ x, (0 <=? x) && (x <? 256)) data = true → ram_ok d → ram_ok (put_block b data d).
Proof.
  intros Hl Hb Hd. apply ram_write_ok; [done|unfold pad; rewrite length_app, length_replicate; lia|].
  apply Forall_app. split; [|by apply Forall_replicate].
  apply Forall_forall. intros x Hx. rewrite forallb_forall in Hb. specialize (Hb x ltac:(by apply list_elem_of_In)).
  zbool. done.
Qed.

Lemma ram_empty_ok : ram_ok ∅.
Proof. intros k. unfold ram_sector. rewrite lookup_empty. split; [apply length_replicate|by apply Forall_replicate]. Qed.

Lemma demo_disk_ok : ram_ok demo_disk.
Proof.
  unfold demo_disk. repeat (apply put_block_ok; [apply Nat.leb_le; vm_compute; reflexivity|vm_compute; reflexivity|]).
  apply ram_empty_ok.
Qed.
