(* ===== verification/Ext2Spec.v ===== *)
(** * The ext2 driver: specifications and properties

    The theorems look at the device as an array of blocks ([blk]) and at the heap
    not at all: they hold for every outcome of the allocations. *)
From S2P Require Import Prelude Interfaces Monad Bytes Str Ext2Clock Ext2Types Ext2 Ext2Demo.

Section spec.
Context {D H : Type} `{!BlockDev D, !Malloc H}.
#[local] Abbreviation M := (Monad.M (state D H)).
Implicit Types (fs : ext2_fs) (s : state D H).

(** ** Blocks *)

Definition geometry fs : Prop := 0 < block_size fs <= 65536 ∧ block_size fs mod 512 = 0.

(** A block number whose sectors do not wrap around. *)
Definition block_ok fs (b : Z) : Prop := 0 <= b ∧ (b + 1) * (block_size fs / 512) <= 4294967296.

Definition mounted fs s : Prop :=
  ext2_instance s = Some fs ∧ nvme_dev s = true ∧ bd_ok (device s) ∧ geometry fs.

Definition blk fs s (b : Z) : list Z :=
  concat (bd_sector (device s) <$> seqZ (b * (block_size fs / 512)) (block_size fs / 512)).

(** [s] has the instance [fs] and the disk and clock of [s0]. *)
Definition like fs s0 s : Prop :=
  mounted fs s ∧ clock s = clock s0 ∧ ∀ k, bd_sector (device s) k = bd_sector (device s0) k.

(** [s'] is [s0] after the attempt to write [data] to block [b]. *)
Definition wrote fs s0 (b : Z) (data : list Z) (ok : bool) s' : Prop :=
  mounted fs s' ∧ clock s' = clock s0 ∧ (∀ b', b' ≠ b → blk fs s' b' = blk fs s0 b') ∧
  (ok = true → blk fs s' b = data).

Lemma like_refl fs s : mounted fs s → like fs s s.
Proof. done. Qed.

Lemma like_mounted fs s0 s : like fs s0 s → mounted fs s.
Proof. by intros []. Qed.

Lemma like_blk fs s0 s b : like fs s0 s → blk fs s b = blk fs s0 b.
Proof.
  intros (_ & _ & Hd). unfold blk. f_equal. apply list_eq. intros i. rewrite !list_lookup_fmap.
  destruct (_ !! i); simpl; [by rewrite Hd|done].
Qed.

Lemma like_trans fs s0 s1 s2 : like fs s0 s1 → like fs s1 s2 → like fs s0 s2.
Proof.
  intros (_ & Hc & Hd) (Hm & Hc' & Hd'). split; [done|]. split; [congruence|]. intros k. by rewrite Hd'.
Qed.

Lemma concat_sectors (f : Z → list Z) a n :
  (∀ k, length (f k) = 512%nat) → 0 <= n → Z.of_nat (length (concat (f <$> seqZ a n))) = 512 * n.
Proof.
  intros Hf Hn. rewrite <- (Z2Nat.id n) by done. generalize (Z.to_nat n). clear n Hn. intros n. revert a.
  induction n as [|n IH]; intros a; [done|]. rewrite Nat2Z.inj_succ, seqZ_cons by lia.
  rewrite Z.pred_succ. rewrite fmap_cons. simpl. rewrite length_app, Hf. specialize (IH (Z.succ a)). lia.
Qed.

Lemma blk_ok fs s b :
  mounted fs s → Z.of_nat (length (blk fs s b)) = block_size fs ∧ Forall is_byte (blk fs s b).
Proof.
  intros (_ & _ & Hd & Hg & Hm). split.
  - unfold blk. rewrite concat_sectors; [|by intros; apply bd_sector_ok|]; Z.to_euclidean_division_equations; lia.
  - apply Forall_concat, Forall_fmap, Forall_forall. intros k _. by apply bd_sector_ok.
Qed.

(** ** Rules for the primitive operations *)

Lemma wp_get_instance fs s0 s (Q : option ext2_fs → state D H → Prop) :
  like fs s0 s → Q (Some fs) s → wp (gets ext2_instance) Q s.
Proof. intros ((Hi & _) & _) HQ. apply wp_gets. by rewrite Hi. Qed.

Lemma wp_instance fs s0 s (Q : ext2_fs → state D H → Prop) : like fs s0 s → Q fs s → wp instance Q s.
Proof. intros Hl HQ. unfold instance. apply wp_bind. eapply wp_get_instance; [done|]. by apply wp_lift with fs. Qed.

(** Some allocation or some read can fail. *)
Definition unreliable : Prop :=
  (∃ n (h : H), (malloc n h).1 = 0) ∨ (∃ lba n (d : D), (nvme_read lba n d).1 = None).

Lemma wp_alloc fs s0 s n (Q : Z → state D H → Prop) :
  like fs s0 s → (∀ p s', like fs s0 s' → (p = 0 → unreliable) → Q p s') → wp (alloc n) Q s.
Proof.
  intros Hl HQ. unfold alloc, wp. destruct (malloc n (heap s)) as [p h] eqn:Hm. apply HQ; [exact Hl|].
  intros ->. left. exists n, (heap s). by rewrite Hm.
Qed.

Lemma wp_free fs s0 s p (Q : () → state D H → Prop) :
  like fs s0 s → (∀ s', like fs s0 s' → Q () s') → wp (free p) Q s.
Proof. intros Hl HQ. unfold free, wp. apply HQ. exact Hl. Qed.

Lemma wp_read_blocks fs s0 s b (Q : option (list Z) → state D H → Prop) :
  like fs s0 s → block_ok fs b →
  (∀ r s', like fs s0 s' → (r = None ∧ unreliable) ∨ r = Some (blk fs s0 b) → Q r s') →
  wp (read_blocks b 1) Q s.
Proof.
  intros Hl Hb HQ. pose proof Hl as ((Hi & Hn & Hd & Hg & Hm) & Hc & Hs). unfold read_blocks.
  apply wp_bind, wp_gets. rewrite Hn. simpl. apply wp_bind. unfold block_to_lba.
  apply wp_bind. eapply wp_get_instance; [done|]. apply wp_ret.
  apply wp_bind. eapply wp_instance; [done|].
  assert (u32 (1 * block_size fs) / 512 = block_size fs / 512) as -> by (f_equal; ulia).
  unfold block_ok in Hb. assert (0 < block_size fs / 512) as Hpos by (Z.to_euclidean_division_equations; lia).
  assert (u32 (b * (block_size fs / 512)) = b * (block_size fs / 512)) as -> by (apply u32_small; unfold is_u32; nia).
  pose proof (nvme_read_spec (device s) (b * (block_size fs / 512)) (block_size fs / 512) Hd Hpos) as Hr.
  unfold dev_read, wp. destruct (nvme_read _ _ _) as [r d] eqn:Er. destruct Hr as (Hd' & Hs' & Hr).
  assert (like fs s0 (mk_state (ext2_instance s) (nvme_dev s) d (heap s) (clock s))) as Hl'.
  { split; [done|]. split; [done|]. intros k. cbn [device]. by rewrite Hs'. }
  apply HQ; [done|]. destruct r as [l|].
  - right. subst l. by rewrite <- (like_blk _ _ _ b Hl).
  - left. split; [done|]. right. do 3 eexists. by rewrite Er.
Qed.

Lemma wp_read_block fs s0 s b (Q : option (list Z) → state D H → Prop) :
  like fs s0 s → block_ok fs b →
  (∀ r s', like fs s0 s' → (r = None ∧ unreliable) ∨ r = Some (blk fs s0 b) → Q r s') →
  wp (ext2_read_block b) Q s.
Proof.
  intros Hl Hb HQ. unfold ext2_read_block. apply wp_bind. eapply wp_get_instance; [done|]. by eapply wp_read_blocks.
Qed.

Definition write_fails : Prop := ∃ lba n data (d : D), (nvme_write lba n data d).1 = false.

(** Some allocation, read or write can fail. *)
Definition failing : Prop := unreliable ∨ write_fails.

Lemma wp_write_block fs s0 s b data (Q : bool → state D H → Prop) :
  like fs s0 s → block_ok fs b → Z.of_nat (length data) = block_size fs → Forall is_byte data →
  (∀ ok s', wrote fs s0 b data ok s' → (ok = false → write_fails) → Q ok s') →
  wp (ext2_write_block b data) Q s.
Proof.
  intros Hl Hb Hlen Hby HQ. pose proof Hl as ((Hi & Hn & Hd & Hg & Hm) & Hc & Hs).
  unfold ext2_write_block. apply wp_bind. eapply wp_get_instance; [done|]. unfold write_blocks.
  apply wp_bind, wp_gets. rewrite Hn. simpl. apply wp_bind. unfold block_to_lba.
  apply wp_bind. eapply wp_get_instance; [done|]. apply wp_ret.
  apply wp_bind. eapply wp_instance; [done|].
  assert (u32 (1 * block_size fs) / 512 = block_size fs / 512) as -> by (f_equal; ulia).
  unfold block_ok in Hb. assert (0 < block_size fs / 512) as Hpos by (Z.to_euclidean_division_equations; lia).
  assert (u32 (b * (block_size fs / 512)) = b * (block_size fs / 512)) as -> by (apply u32_small; unfold is_u32; nia).
  pose proof (nvme_write_spec (device s) (b * (block_size fs / 512)) (block_size fs / 512) data Hd Hpos
    ltac:(Z.to_euclidean_division_equations; lia) Hby) as Hw.
  unfold dev_write, wp. destruct (nvme_write _ _ _ _) as [ok d] eqn:Ew. destruct Hw as (Hd' & Hs' & Hw).
  apply HQ; [|intros ->; do 4 eexists; by rewrite Ew]. split; [done|]. split; [done|]. split; [|exact Hw].
  intros b' Hne. unfold blk. f_equal. apply list_eq. intros i. rewrite !list_lookup_fmap.
  destruct (_ !! i) as [k|] eqn:Hk; [|done]. simpl. f_equal. apply lookup_seqZ in Hk as [-> Hk].
  rewrite Hs' by nia. by rewrite Hs.
Qed.

(** ** The block map of a file *)

(** The blocks of pointers that lead to block [n] of the file, and that block. *)
Definition inode_path fs s (ino : ext2_inode) (n : Z) : option (list Z * Z) :=
  let p := block_size fs / 4 in
  if n <? 12 then b ← index (i_block ino) n; Some ([], b)
  else if n - 12 <? p then
    b ← index (i_block ino) 12; e ← entry (blk fs s b) (n - 12); Some ([b], e)
  else if n - 12 <? u32 (p * p) then
    b ← index (i_block ino) 13;
    b1 ← entry (blk fs s b) ((n - 12 - p) / p);
    e ← entry (blk fs s b1) ((n - 12 - p) mod p);
    Some ([b; b1], e)
  else
    let n := n - 12 - u32 (p * p) in
    b ← index (i_block ino) 14;
    b1 ← entry (blk fs s b) (n / u32 (p * p));
    b2 ← entry (blk fs s b1) (n mod u32 (p * p) / p);
    e ← entry (blk fs s b2) (n mod u32 (p * p) mod p);
    Some ([b; b1; b2], e).

(** The path depends on the blocks of pointers only. *)
Lemma inode_path_ext fs s s' ino n tables b :
  inode_path fs s ino n = Some (tables, b) → (∀ t, t ∈ tables → blk fs s' t = blk fs s t) →
  inode_path fs s' ino n = Some (tables, b).
Proof.
  unfold inode_path. intros Hp Ht.
  repeat (case_match; [|]); simplify_option_eq; try done;
    repeat match goal with
    | |- context [blk fs s' ?t] => rewrite (Ht t) by set_solver; simplify_option_eq
    end; done.
Qed.

Definition set_heap (h : H) s : state D H := mk_state (ext2_instance s) (nvme_dev s) (device s) h (clock s).

Lemma wp_free_set_heap s p (Q : () → state D H → Prop) : (∀ h, Q () (set_heap h s)) → wp (free p) Q s.
Proof. intros HQ. apply (HQ (mfree p (heap s))). Qed.

(** Following one pointer. *)
Lemma wp_pointer {A} (failed : A) (k : Z → M A) fs s0 s b i e (Q : A → state D H → Prop) :
  like fs s0 s → block_ok fs b → entry (blk fs s0 b) i = Some e →
  (∀ s', like fs s0 s' → unreliable → Q failed s') → (∀ s', like fs s0 s' → wp (k e) Q s') →
  wp (d ← ext2_read_block b;
      match d with None => mret failed | Some d => b ← lift (entry d i); k b end) Q s.
Proof.
  intros Hl Hb He Hfail Hk. apply wp_bind. eapply wp_read_block; [done|done|].
  intros r s' Hl' [[-> Hu]| ->]; [by apply wp_ret, Hfail|]. apply wp_bind. eapply wp_lift; [done|]. by apply Hk.
Qed.

Lemma wp_with_inode_block {A} (failed : A) final fs s0 s ino n tables b (Q : A → state D H → Prop) :
  like fs s0 s → inode_path fs s0 ino n = Some (tables, b) → Forall (block_ok fs) tables →
  (∀ s', like fs s0 s' → unreliable → Q failed s') →
  (∀ s', like fs s0 s' → wp (final b) (λ r s1, ∀ h, Q r (set_heap h s1)) s') →
  wp (with_inode_block failed final ino n) Q s.
Proof.
  intros Hl Hp Ht Hfail Hfin. pose proof Hl as ((_ & _ & _ & Hg & Hm) & _).
  unfold with_inode_block. apply wp_bind. eapply wp_get_instance; [exact Hl|]. cbn zeta.
  unfold inode_path in Hp. destruct (n <? 12) eqn:Hn.
  { simplify_option_eq. apply wp_bind. eapply wp_lift; [done|]. eapply wp_mono; [by apply Hfin|].
    intros r s1 Hh. specialize (Hh (heap s1)). by destruct s1. }
  apply wp_bind. eapply wp_alloc; [exact Hl|]. clear Hl s. intros q s Hl Hq.
  destruct (q =? 0) eqn:Hqz; [zbool; apply wp_ret; auto|]. clear Hq. apply wp_bind.
  assert (∀ s', like fs s0 s' → unreliable → wp (free q;; mret failed) Q s') as Hfail'.
  { intros s' Hl' Hu. apply wp_bind. eapply wp_free; [done|]. intros. apply wp_ret. by apply Hfail. }
  assert (∀ s', like fs s0 s' → wp (final b) (λ r, wp (free q;; mret r) Q) s') as Hfin'.
  { intros s' Hl'. eapply wp_mono; [by apply Hfin|]. intros r s1 Hh. apply wp_bind, wp_free_set_heap. intros h.
    apply wp_ret. apply Hh. }
  clear Hfail Hfin Hn. set (p := block_size fs / 4) in *.
  assert (1 <= p <= 16384) as Hpr by (subst p; Z.to_euclidean_division_equations; lia).
  assert (u32 (p * p) = p * p) as Hpp by (apply u32_small; unfold is_u32; nia).
  destruct (n - 12 <? p).
  { simplify_option_eq. apply Forall_cons in Ht as [Ht1 _].
    apply wp_bind. eapply wp_lift; [done|]. by eapply wp_pointer. }
  destruct (n - 12 <? u32 (p * p)).
  - simplify_option_eq. apply Forall_cons in Ht as [Ht1 [Ht2 _]%Forall_cons].
    apply wp_bind, wp_div; [lia|]. apply wp_bind, wp_modulo; [lia|]. apply wp_bind. eapply wp_lift; [done|].
    eapply wp_pointer; [done..|]. intros. by eapply wp_pointer.
  - simplify_option_eq. apply Forall_cons in Ht as [Ht1 [Ht2 [Ht3 _]%Forall_cons]%Forall_cons].
    apply wp_bind, wp_div; [nia|]. apply wp_bind, wp_modulo; [nia|]. apply wp_bind, wp_div; [lia|].
    apply wp_bind, wp_modulo; [lia|]. apply wp_bind. eapply wp_lift; [done|].
    eapply wp_pointer; [done..|]. intros. eapply wp_pointer; [done..|]. intros. by eapply wp_pointer.
Qed.

Lemma like_set_heap fs s0 s h : like fs s0 s → like fs s0 (set_heap h s).
Proof. done. Qed.
Lemma wrote_set_heap fs s0 b d ok s h : wrote fs s0 b d ok s → wrote fs s0 b d ok (set_heap h s).
Proof. done. Qed.

Lemma wp_read_inode_block fs s0 s ino n tables b (Q : option (list Z) → state D H → Prop) :
  like fs s0 s → inode_path fs s0 ino n = Some (tables, b) → Forall (block_ok fs) (b :: tables) →
  (∀ r s', like fs s0 s' → (r = None ∧ unreliable) ∨ r = Some (blk fs s0 b) → Q r s') →
  wp (ext2_read_inode_block ino n) Q s.
Proof.
  intros Hl Hp [Hb Ht]%Forall_cons HQ. eapply wp_with_inode_block; [done..| |]; [intros; apply HQ; auto|].
  intros s' Hl'. eapply wp_read_block; [done|done|]. intros r s1 Hl1 Hr h. by apply HQ.
Qed.

Lemma wp_write_inode_block fs s0 s ino n tables b data (Q : bool → state D H → Prop) :
  like fs s0 s → inode_path fs s0 ino n = Some (tables, b) → Forall (block_ok fs) (b :: tables) →
  Z.of_nat (length data) = block_size fs → Forall is_byte data →
  (∀ ok s', wrote fs s0 b data ok s' → (ok = false → failing) → Q ok s') →
  wp (ext2_write_inode_block ino n data) Q s.
Proof.
  intros Hl Hp [Hb Ht]%Forall_cons Hlen Hby HQ. eapply wp_with_inode_block; [done..| |].
  - intros s' Hl' Hu. apply HQ; [|by left]. split; [by eapply like_mounted|]. split; [apply Hl'|]. split; [|done].
    intros. by apply like_blk.
  - intros s' Hl'. eapply wp_write_block; [done..|]. intros ok s1 Hw Hf h. apply HQ; [done|]. right. auto.
Qed.

(** ** Inodes on disk *)

(** The block and the offset that hold an inode. *)
Definition inode_loc fs (m : Z) : option (Z * Z) :=
  let ipg := s_inodes_per_group (superblock fs) in
  if ipg =? 0 then None else
  gd ← index (group_desc fs) ((m - 1) / ipg);
  let pos := (m - 1) mod ipg * SIZEOF_INODE in
  Some (u32 (bg_inode_table gd + pos / block_size fs), pos mod block_size fs).

Definition inode_at fs s (m : Z) : option ext2_inode :=
  '(b, off) ← inode_loc fs m;
  read_inode <$> slice (blk fs s b) off SIZEOF_INODE.

Lemma wp_locate_inode fs m b off s (Q : Z * Z * Z * Z → state D H → Prop) :
  geometry fs → inode_loc fs m = Some (b, off) →
  (∀ group idx, Q (group, idx, b, off) s) → wp (locate_inode fs m) Q s.
Proof.
  intros [Hg _] Hloc HQ. unfold inode_loc in Hloc. destruct (_ =? 0) eqn:Hz; [done|]. zbool.
  simplify_option_eq. unfold locate_inode.
  apply wp_bind, wp_div; [done|]. apply wp_bind, wp_modulo; [done|]. apply wp_bind. eapply wp_lift; [done|].
  apply wp_bind, wp_div; [lia|]. apply wp_bind, wp_modulo; [lia|]. apply wp_ret. apply HQ.
Qed.

Lemma wp_get_inode fs s0 s m b off ino (Q : option (Z * ext2_inode) → state D H → Prop) :
  like fs s0 s → m ≠ 0 → inode_loc fs m = Some (b, off) → block_ok fs b → inode_at fs s0 m = Some ino →
  (∀ s', like fs s0 s' → unreliable → Q None s') → (∀ p s', like fs s0 s' → Q (Some (p, ino)) s') →
  wp (ext2_get_inode m) Q s.
Proof.
  intros Hl Hm Hloc Hb Hat Hnone Hsome. pose proof Hl as ((_ & _ & _ & Hg) & _).
  unfold inode_at in Hat. rewrite Hloc in Hat. simplify_option_eq.
  unfold ext2_get_inode. apply wp_bind. eapply wp_get_instance; [exact Hl|]. rewrite (proj2 (Z.eqb_neq m 0)) by done.
  apply wp_bind. eapply wp_locate_inode; [done|done|]. intros _ _. cbn beta iota.
  apply wp_bind. eapply wp_alloc; [exact Hl|]. clear Hl s. intros q s Hl Hq.
  destruct (q =? 0) eqn:Hq0; zbool; [by apply wp_ret, Hnone; auto|].
  apply wp_bind. eapply wp_read_blocks; [done|done|]. clear Hl s. intros r s Hl [[-> Hu]| ->].
  { apply wp_bind. eapply wp_free; [done|]. intros. by apply wp_ret, Hnone. }
  apply wp_bind. eapply wp_alloc; [exact Hl|]. clear Hl s. intros p s Hl Hp. destruct (p =? 0) eqn:Hp0; zbool.
  { apply wp_bind. eapply wp_free; [done|]. intros. apply wp_ret, Hnone; auto. }
  apply wp_bind. eapply wp_lift; [done|]. apply wp_bind. eapply wp_free; [done|]. intros. by apply wp_ret, Hsome.
Qed.

(** The inode lies inside its block. *)
Definition loc_fits fs (off : Z) : Prop := 0 <= off ∧ off + SIZEOF_INODE <= block_size fs.

Lemma inode_loc_fits fs m b off : geometry fs → inode_loc fs m = Some (b, off) → loc_fits fs off.
Proof.
  intros [Hg Hm] Hloc. unfold inode_loc in Hloc. destruct (_ =? 0); [done|]. simplify_option_eq.
  unfold loc_fits, SIZEOF_INODE. generalize ((m - 1) mod s_inodes_per_group (superblock fs)). intros x.
  assert (block_size fs = 128 * (block_size fs / 128)) as Hbs by (Z.to_euclidean_division_equations; lia).
  assert (0 < block_size fs / 128) by lia. rewrite Hbs, (Z.mul_comm x), Z.mul_mod_distr_l by lia.
  pose proof (Z.mod_pos_bound x (block_size fs / 128)). lia.
Qed.

(** The contents of the inode block after the write. *)
Definition inode_block fs s (b off : Z) (ino : ext2_inode) : option (list Z) :=
  splice (blk fs s b) off (write_inode ino).

Lemma wp_write_inode fs s0 s m b off ino (Q : bool → state D H → Prop) :
  like fs s0 s → m ≠ 0 → inode_loc fs m = Some (b, off) → block_ok fs b → inode_ok ino →
  (∀ s', like fs s0 s' → unreliable → Q false s') →
  (∀ data ok s', inode_block fs s0 b off ino = Some data → wrote fs s0 b data ok s' → (ok = false → write_fails) → Q ok s') →
  wp (ext2_write_inode m ino) Q s.
Proof.
  intros Hl Hm Hloc Hb Hino Hfail HQ. pose proof Hl as ((_ & _ & _ & Hg) & _).
  pose proof (inode_loc_fits _ _ _ _ Hg Hloc) as Hoff.
  unfold ext2_write_inode. apply wp_bind. eapply wp_get_instance; [exact Hl|]. rewrite (proj2 (Z.eqb_neq m 0)) by done.
  apply wp_bind. eapply wp_locate_inode; [done|done|]. intros _ _. cbn beta iota.
  apply wp_bind. eapply wp_alloc; [exact Hl|]. clear Hl s. intros q s Hl Hq.
  destruct (q =? 0) eqn:Hq0; zbool; [by apply wp_ret, Hfail; auto|].
  apply wp_bind. eapply wp_read_block; [done|done|]. clear Hl s. intros r s Hl [[-> Hu]| ->].
  { apply wp_bind. eapply wp_free; [done|]. intros. by apply wp_ret, Hfail. }
  assert (Z.of_nat (length (blk fs s0 b)) = block_size fs ∧ Forall is_byte (blk fs s0 b)) as [Hlen Hby].
  { rewrite <- (like_blk _ _ _ b Hl). apply blk_ok. by eapply like_mounted. }
  pose proof (write_inode_length ino Hino) as Hwl. unfold loc_fits, SIZEOF_INODE in Hoff.
  destruct (splice_some (blk fs s0 b) off (write_inode ino)) as [data Hd]; [lia|lia|].
  apply wp_bind. eapply wp_lift; [exact Hd|]. apply wp_bind. eapply wp_write_block; [done|done| | |].
  - by rewrite (splice_length _ _ _ _ Hd).
  - eapply splice_bytes; [done|done|]. apply pack_bytes.
  - intros ok s' Hw Hf. apply wp_bind, wp_free_set_heap. intros h. apply wp_ret. by eapply HQ.
Qed.

(** What a write of an inode does to the inodes of the disk. *)
Lemma wrote_inode fs s s' m b off ino data :
  mounted fs s → inode_loc fs m = Some (b, off) → inode_ok ino → inode_block fs s b off ino = Some data →
  wrote fs s b data true s' →
  inode_at fs s' m = Some ino ∧
  ∀ m', inode_loc fs m' ≠ Some (b, off) → inode_at fs s' m' = inode_at fs s m'.
Proof.
  intros (_ & _ & _ & Hg) Hloc Hino Hd (_ & _ & Hother & Hsame). specialize (Hsame eq_refl).
  pose proof (write_inode_length ino Hino) as Hwl. unfold inode_at. split.
  - rewrite Hloc. simpl. rewrite Hsame. pose proof (slice_splice_same _ _ _ _ Hd) as Hsl. rewrite Hwl in Hsl.
    change SIZEOF_INODE with (Z.of_nat 128). rewrite Hsl. simpl. by rewrite read_write_inode.
  - intros m' Hm'. destruct (inode_loc fs m') as [[b' off']|] eqn:Hloc'; [|done]. simpl. f_equal.
    destruct (decide (b' = b)) as [->|Hne]; [|by rewrite Hother]. rewrite Hsame.
    pose proof (inode_loc_fits _ _ _ _ Hg Hloc) as Ho. pose proof (inode_loc_fits _ _ _ _ Hg Hloc') as Ho'.
    assert (off ≠ off') as Hoff by congruence.
    assert (∀ k o, inode_loc fs k = Some (b, o) → o mod 128 = 0) as Hal.
    { intros k o Hk. unfold inode_loc in Hk. destruct (_ =? 0); [done|]. simplify_option_eq.
      destruct Hg as [Hg Hg']. unfold SIZEOF_INODE. rewrite Z.mod_mod_divide; [by apply Z.mod_mul|].
      apply Z.mod_divide; [lia|]. Z.to_euclidean_division_equations. lia. }
    apply Hal in Hloc, Hloc'. clear Hal. unfold loc_fits, SIZEOF_INODE in *.
    eapply slice_splice_other; [exact Hd|rewrite Hwl|lia]. Z.to_euclidean_division_equations. lia.
Qed.

(** ** Bytes of a file *)

(** The byte at position [pos] of the file, whatever its size says. *)
Definition file_byte fs s (ino : ext2_inode) (pos : Z) : option Z :=
  '(_, b) ← inode_path fs s ino (pos / block_size fs);
  blk fs s b !! Z.to_nat (pos mod block_size fs).

Definition file_range fs s (ino : ext2_inode) (pos n : Z) : option (list Z) :=
  mapM (file_byte fs s ino) (seqZ pos n).

(** The blocks from [lo] to below [hi] of the file are mapped, to blocks of the
    device that are distinct and different from the blocks of pointers. *)
Definition file_ok fs s (ino : ext2_inode) (lo hi : Z) : Prop :=
  (∀ n, lo <= n < hi → ∃ ts b, inode_path fs s ino n = Some (ts, b) ∧ Forall (block_ok fs) (b :: ts)) ∧
  (∀ n m ts b ts' b', lo <= n < hi → lo <= m < hi →
     inode_path fs s ino n = Some (ts, b) → inode_path fs s ino m = Some (ts', b') →
     (b = b' → n = m) ∧ b ∉ ts').

Lemma mapM_app_some {A B} (f : A → option B) l1 l2 k1 k2 :
  mapM f l1 = Some k1 → mapM f l2 = Some k2 → mapM f (l1 ++ l2) = Some (k1 ++ k2).
Proof. rewrite !mapM_Some. apply Forall2_app. Qed.

Lemma file_range_app fs s ino pos n m l l' :
  0 <= n → 0 <= m → file_range fs s ino pos n = Some l → file_range fs s ino (pos + n) m = Some l' →
  file_range fs s ino pos (n + m) = Some (l ++ l').
Proof.
  intros Hn Hm Hl Hl'. unfold file_range in *. rewrite seqZ_app by done. by apply mapM_app_some.
Qed.

(** Part of one block. *)
Lemma file_range_block fs s ino n ts b o len chunk :
  0 < block_size fs → inode_path fs s ino n = Some (ts, b) → 0 <= o → o + len <= block_size fs →
  slice (blk fs s b) o len = Some chunk → file_range fs s ino (n * block_size fs + o) len = Some chunk.
Proof.
  intros Hbs Hp Ho Hlen Hs. unfold file_range. apply mapM_Some_2.
  apply Forall2_same_length_lookup_2. { rewrite length_seqZ. apply slice_length in Hs as Hl. lia. }
  intros i k c Hk Hc. apply lookup_seqZ in Hk as [-> Hi]. unfold file_byte.
  assert ((n * block_size fs + o + Z.of_nat i) / block_size fs = n) as ->.
  { rewrite <- Z.add_assoc, Z.add_comm, Z.div_add, Z.div_small by lia. lia. }
  assert ((n * block_size fs + o + Z.of_nat i) mod block_size fs = o + Z.of_nat i) as ->.
  { rewrite <- Z.add_assoc, Z.add_comm, Z.mod_add, Z.mod_small by lia. lia. }
  rewrite Hp. simpl. rewrite <- (slice_lookup _ _ _ _ (Z.of_nat i) Hs) by lia. by rewrite Nat2Z.id.
Qed.

(** ** The loops over the blocks of a transfer *)

(** Bytes transferred before block [n], and the offset in block [n]. *)
Definition progress (bs offset size n : Z) : Z := Z.min size (if n =? offset / bs then 0 else n * bs - offset).
Definition chunk_offset (bs offset n : Z) : Z := if n =? offset / bs then offset mod bs else 0.

Lemma chunk_arith bs offset size n :
  0 < bs → 0 <= offset → 0 < size → offset / bs <= n <= (offset + size - 1) / bs →
  let br := progress bs offset size n in
  let bo := chunk_offset bs offset n in
  let len := Z.min (bs - bo) (size - br) in
  offset + br = n * bs + bo ∧ 0 <= bo ∧ 0 <= br < size ∧ 0 < len ∧ bo + len <= bs ∧
  br + len = progress bs offset size (n + 1) ∧
  (n < (offset + size - 1) / bs ∨ (offset + size) mod bs = 0 → bo = 0 → len = bs).
Proof.
  intros Hbs Ho Hs Hn. unfold progress, chunk_offset.
  pose proof (Z.div_mod offset bs ltac:(lia)) as H1. pose proof (Z.mod_pos_bound offset bs ltac:(lia)) as H2.
  pose proof (Z.div_mod (offset + size - 1) bs ltac:(lia)) as H3.
  pose proof (Z.mod_pos_bound (offset + size - 1) bs ltac:(lia)) as H4.
  pose proof (Z.div_mod (offset + size) bs ltac:(lia)) as H5.
  pose proof (Z.mod_pos_bound (offset + size) bs ltac:(lia)) as H6.
  set (st := offset / bs) in *. set (en := (offset + size - 1) / bs) in *. set (q := (offset + size) / bs) in *.
  assert (n * bs <= en * bs) as H7 by nia. assert (st * bs <= n * bs) as H8 by nia.
  assert (n < en → n * bs + bs <= en * bs) as H9 by (intros; nia).
  assert ((offset + size) mod bs = 0 → n = en → n * bs + bs = offset + size) as H10.
  { intros Hz He. rewrite Hz in *. assert (q = en + 1) by nia. nia. }
  rewrite (proj2 (Z.eqb_neq (n + 1) st)) by lia.
  destruct (n =? st) eqn:He; zbool; split_and!; try nia.
Qed.

Lemma progress_end bs offset size :
  0 < bs → 0 <= offset → 0 < size → progress bs offset size ((offset + size - 1) / bs + 1) = size.
Proof.
  intros Hbs Ho Hs. unfold progress.
  pose proof (Z.div_mod (offset + size - 1) bs ltac:(lia)) as H3.
  pose proof (Z.mod_pos_bound (offset + size - 1) bs ltac:(lia)) as H4.
  pose proof (Z.div_le_mono offset (offset + size - 1) bs ltac:(lia) ltac:(lia)).
  rewrite (proj2 (Z.eqb_neq _ (offset / bs))) by lia. nia.
Qed.

Lemma read_file_loop_ok fs s0 ino offset size k : ∀ n s,
  0 <= offset → 0 < size → offset + size < 4294967296 →
  (∀ m, offset / block_size fs <= m <= (offset + size - 1) / block_size fs →
     ∃ ts b, inode_path fs s0 ino m = Some (ts, b) ∧ Forall (block_ok fs) (b :: ts)) →
  like fs s0 s → offset / block_size fs <= n → n + Z.of_nat k = (offset + size - 1) / block_size fs + 1 →
  let br := progress (block_size fs) offset size n in
  wp (read_file_loop (block_size fs) offset size ino br (seqZ n (Z.of_nat k)))
    (λ r s', like fs s0 s' ∧ if r.1 : bool then file_range fs s0 ino (offset + br) (size - br) = Some r.2 else unreliable) s.
Proof.
  induction k as [|k IH]; intros n s Ho Hs Hlt Hpath Hl Hn Hk br.
  - apply wp_ret. split; [done|]. subst br. cbn [fst snd]. destruct Hl as ((_ & _ & _ & [? _]) & _).
    replace n with ((offset + size - 1) / block_size fs + 1) by lia. rewrite progress_end by lia.
    by rewrite Z.sub_diag.
  - pose proof Hl as ((_ & _ & _ & [Hbs _]) & _).
    destruct (chunk_arith (block_size fs) offset size n) as (Hpos & Hbo & Hbr & Hlen & Hin & Hnext & _); [lia..|].
    fold br in Hpos, Hbr, Hlen, Hin, Hnext. set (bo := chunk_offset _ _ _) in *.
    rewrite seqZ_cons by lia. cbn [read_file_loop]. fold (chunk_offset (block_size fs) offset n). fold bo.
    destruct (Hpath n ltac:(lia)) as (ts & b & Hp & Hok).
    apply wp_bind. eapply wp_read_inode_block; [done..|]. clear Hl s. intros r s Hl [[-> Hu]| ->]; [by apply wp_ret|].
    rewrite (u32_small (size - br)) by (unfold is_u32; lia). set (len := Z.min _ _) in *.
    destruct (blk_ok fs s b ltac:(by eapply like_mounted)) as [Hbl _]. rewrite (like_blk fs s0 s b Hl) in Hbl.
    destruct (slice_some (blk fs s0 b) bo len) as [chunk Hc]; [lia..|].
    apply wp_bind. eapply wp_lift; [exact Hc|]. rewrite Hnext. apply wp_bind.
    replace (Z.pred (Z.of_nat (S k))) with (Z.of_nat k) by lia. change (Z.succ n) with (n + 1).
    eapply wp_mono; [apply IH; try done; lia|]. intros [ok rest] s' [Hl' Hr]. apply wp_ret. split; [done|].
    destruct ok; [|done]. simpl in *.
    replace (size - br) with (len + (size - progress (block_size fs) offset size (n + 1))) by lia.
    apply file_range_app; [lia|rewrite <- Hnext; lia| |].
    + rewrite Hpos. eapply file_range_block; [lia|done|lia|lia|done].
    + by replace (offset + br + len) with (offset + progress (block_size fs) offset size (n + 1)) by lia.
Qed.

(** Writing one block of a file. *)
Lemma wrote_paths fs s s' ino lo hi n ts b data :
  file_ok fs s ino lo hi → lo <= n < hi → inode_path fs s ino n = Some (ts, b) → wrote fs s b data true s' →
  (∀ m, lo <= m < hi → inode_path fs s' ino m = inode_path fs s ino m) ∧ file_ok fs s' ino lo hi.
Proof.
  intros [Hex Hdis] Hn Hp (_ & _ & Hother & _).
  assert (∀ m, lo <= m < hi → inode_path fs s' ino m = inode_path fs s ino m) as Hpath.
  { intros m Hm. destruct (Hex m Hm) as (ts' & b' & Hp' & _). rewrite Hp'.
    eapply inode_path_ext; [done|]. intros t Ht. apply Hother. intros ->.
    by apply (proj2 (Hdis n m ts b ts' b' Hn Hm Hp Hp')). }
  split; [done|]. split.
  - intros m Hm. rewrite Hpath by done. by apply Hex.
  - intros m m' ts1 b1 ts2 b2 Hm Hm'. rewrite !Hpath by done. by apply Hdis.
Qed.

Lemma wrote_file_byte fs s s' ino lo hi n ts b data q :
  0 < block_size fs → file_ok fs s ino lo hi → lo <= n < hi → inode_path fs s ino n = Some (ts, b) →
  wrote fs s b data true s' → lo * block_size fs <= q < hi * block_size fs →
  file_byte fs s' ino q =
    if q / block_size fs =? n then data !! Z.to_nat (q mod block_size fs) else file_byte fs s ino q.
Proof.
  intros Hbs Hf Hn Hp Hw Hq. destruct (wrote_paths _ _ _ _ _ _ _ _ _ _ Hf Hn Hp Hw) as [Hpath _].
  destruct Hf as [Hex Hdis]. destruct Hw as (_ & _ & Hother & Hsame). unfold file_byte.
  assert (lo <= q / block_size fs < hi) as Hr
    by (split; [apply Z.div_le_lower_bound; lia|apply Z.div_lt_upper_bound; lia]).
  rewrite Hpath by done. destruct (_ =? n) eqn:He; zbool.
  - subst n. rewrite Hp. simpl. by rewrite (Hsame eq_refl).
  - destruct (Hex _ Hr) as (ts' & b' & Hp' & _). rewrite Hp'. simpl. rewrite Hother; [done|].
    intros ->. apply He. by eapply Hdis.
Qed.

(** The block that the loop writes back. *)
Lemma written_block_bytes bs offset size n (data old buf buf1 chunk : list Z) q :
  0 < bs → 0 <= offset → 0 < size → offset / bs <= n <= (offset + size - 1) / bs →
  let br := progress bs offset size n in
  let bo := chunk_offset bs offset n in
  let len := Z.min (bs - bo) (size - br) in
  slice data br len = Some chunk → splice buf bo chunk = Some buf1 → buf = old ∨ (bo = 0 ∧ len = bs) →
  q / bs = n →
  buf1 !! Z.to_nat (q mod bs) =
    if (offset + br <=? q) && (q <? offset + (br + len)) then data !! Z.to_nat (q - offset) else old !! Z.to_nat (q mod bs).
Proof.
  intros Hbs Ho Hs Hn br bo len Hc Hb Hbuf Hq.
  destruct (chunk_arith bs offset size n) as (Hpos & Hbo & Hbr & Hlen & Hin & _); [lia..|].
  fold br bo len in Hpos, Hbr, Hlen, Hin.
  pose proof (Z.div_mod q bs ltac:(lia)) as Hdm. pose proof (Z.mod_pos_bound q bs ltac:(lia)) as Hm.
  rewrite (splice_lookup _ _ _ _ _ Hb) by lia. pose proof (slice_length _ _ _ _ Hc) as Hcl. rewrite Hcl.
  assert (((bo <=? q mod bs) && (q mod bs <? bo + len))%bool = ((offset + br <=? q) && (q <? offset + (br + len)))%bool) as ->.
  { apply eq_true_iff_eq. rewrite !andb_true_iff, !Z.leb_le, !Z.ltb_lt. nia. }
  destruct (_ && _)%bool eqn:Hc'; zbool.
  - rewrite (slice_lookup _ _ _ _ _ Hc) by nia. f_equal. nia.
  - destruct Hbuf as [->|[H0 H1]]; [done|]. exfalso. apply andb_false_iff in Hc' as [?|?]; zbool; nia.
Qed.

(** The result of writing [data] from position [from] up to [offset + size]. *)
Definition written fs s (ino : ext2_inode) (lo hi from offset size : Z) (data : list Z) (ok : bool) s' : Prop :=
  mounted fs s' ∧ clock s' = clock s ∧
  (∀ b, (∀ m ts, lo <= m < hi → inode_path fs s ino m ≠ Some (ts, b)) → blk fs s' b = blk fs s b) ∧
  (ok = true →
     (∀ m, lo <= m < hi → inode_path fs s' ino m = inode_path fs s ino m) ∧
     ∀ q, lo * block_size fs <= q < hi * block_size fs →
       file_byte fs s' ino q =
         if (from <=? q) && (q <? offset + size) then data !! Z.to_nat (q - offset) else file_byte fs s ino q).

(** One block, then the rest. *)
Lemma written_step fs s s1 s' ino lo hi n ts b offset size data buf buf1 chunk ok :
  let br := progress (block_size fs) offset size n in
  let bo := chunk_offset (block_size fs) offset n in
  let len := Z.min (block_size fs - bo) (size - br) in
  0 < block_size fs → 0 <= offset → 0 < size →
  offset / block_size fs <= n <= (offset + size - 1) / block_size fs → lo <= n < hi →
  file_ok fs s ino lo hi → inode_path fs s ino n = Some (ts, b) →
  slice data br len = Some chunk → splice buf bo chunk = Some buf1 →
  buf = blk fs s b ∨ (bo = 0 ∧ len = block_size fs) →
  wrote fs s b buf1 true s1 →
  written fs s1 ino lo hi (offset + (br + len)) offset size data ok s' →
  written fs s ino lo hi (offset + br) offset size data ok s'.
Proof.
  intros br bo len Hbs Ho Hs Hn Hlo Hf Hp Hc Hb Hbuf Hw (Hm & Hcl & Hother & Hok).
  destruct (wrote_paths _ _ _ _ _ _ _ _ _ _ Hf Hlo Hp Hw) as [Hpath _].
  pose proof Hw as (_ & Hcl1 & Hother1 & _).
  split; [done|]. split; [congruence|]. split.
  - intros b' Hb'. rewrite Hother; [|by intros m ts' Hm'; rewrite Hpath; auto].
    apply Hother1. intros ->. by eapply Hb'.
  - intros Ht. destruct (Hok Ht) as [Hp' Hq]. split; [by intros m Hm'; rewrite Hp', Hpath|].
    intros q Hr. rewrite Hq, (wrote_file_byte _ _ _ _ _ _ _ _ _ _ q Hbs Hf Hlo Hp Hw) by done.
    destruct (chunk_arith (block_size fs) offset size n) as (Hpos & Hbo & Hbr & Hlen & Hin & _); [lia..|].
    fold br bo len in Hpos, Hbr, Hlen, Hin.
    pose proof (Z.div_mod q (block_size fs) ltac:(lia)) as Hdm.
    pose proof (Z.mod_pos_bound q (block_size fs) ltac:(lia)) as Hmod.
    destruct (q / block_size fs =? n) eqn:He; zbool.
    + rewrite (written_block_bytes (block_size fs) offset size n data (blk fs s b) buf buf1 chunk q) by done.
      fold br bo len. assert (file_byte fs s ino q = blk fs s b !! Z.to_nat (q mod block_size fs)) as ->.
      { unfold file_byte. by rewrite He, Hp. }
      destruct (offset + br <=? q) eqn:H1, (q <? offset + (br + len)) eqn:H2, (offset + (br + len) <=? q) eqn:H3,
        (q <? offset + size) eqn:H4; zbool; try done; exfalso; nia.
    + assert ((offset + br <=? q) = (offset + (br + len) <=? q)) as ->; [|done].
      apply eq_true_iff_eq. rewrite !Z.leb_le. split; [|lia]. intros Hle.
      destruct (decide (offset + (br + len) <= q)); [done|]. exfalso. apply He.
      symmetry. apply (Z.div_unique _ _ _ (q - n * block_size fs)); nia.
Qed.

Lemma written_none fs s ino lo hi from offset size data ok s' :
  like fs s s' → offset + size <= from → written fs s ino lo hi from offset size data ok s'.
Proof.
  intros Hl Hle. split; [by eapply like_mounted|]. split; [apply Hl|]. split; [intros; by apply like_blk|].
  intros _. assert (∀ m, inode_path fs s' ino m = inode_path fs s ino m) as Hp.
  { intros m. unfold inode_path. repeat case_match; try done;
      repeat (apply option_bind_ext_fun; intros ?); rewrite ?(like_blk _ _ _ _ Hl); try done;
      repeat (apply option_bind_ext_fun; intros ?); rewrite ?(like_blk _ _ _ _ Hl); try done;
      repeat (apply option_bind_ext_fun; intros ?); by rewrite ?(like_blk _ _ _ _ Hl). }
  split; [by intros|]. intros q _. destruct (_ && _)%bool eqn:Hc; zbool; [lia|].
  unfold file_byte. rewrite Hp. apply option_bind_ext_fun. intros [ts b]. by rewrite (like_blk _ _ _ _ Hl).
Qed.

Lemma written_failed fs s ino lo hi n ts b from offset size data d ok s' :
  lo <= n < hi → inode_path fs s ino n = Some (ts, b) → wrote fs s b d ok s' →
  written fs s ino lo hi from offset size data false s'.
Proof.
  intros Hn Hp (Hm & Hc & Ho & _). split; [done|]. split; [done|]. split; [|done].
  intros b' Hb'. apply Ho. intros ->. by eapply Hb'.
Qed.

(** The buffer of the loop before it is filled: the old block, or a full block to
    be overwritten. *)
Lemma read_for_write fs s0 s ino n ts b (reads : bool) bo len buf :
  like fs s0 s → inode_path fs s0 ino n = Some (ts, b) → Forall (block_ok fs) (b :: ts) →
  (reads = false → (bo = 0 ∧ len = block_size fs) ∧ Z.of_nat (length buf) = block_size fs ∧ Forall is_byte buf) →
  wp (if reads then ext2_read_inode_block ino n else mret (Some buf)) (λ r s', like fs s0 s' ∧
    ((r = None ∧ unreliable) ∨ ∃ buf', r = Some buf' ∧ Z.of_nat (length buf') = block_size fs ∧ Forall is_byte buf' ∧
      (buf' = blk fs s0 b ∨ (bo = 0 ∧ len = block_size fs)))) s.
Proof.
  intros Hl Hp Hok Hbuf. destruct reads.
  - eapply wp_read_inode_block; [done..|]. intros r s' Hl' [Hu| ->]; (split; [done|]); [by left|right].
    eexists. split; [done|]. rewrite <- (like_blk fs s0 s' b Hl').
    destruct (blk_ok fs s' b ltac:(by eapply like_mounted)). by split_and!; [..|left].
  - apply wp_ret. split; [done|]. right. exists buf. split; [done|].
    destruct Hbuf as (? & ? & ?); [done|]. by split_and!; [..|right].
Qed.

Lemma write_file_loop_ok fs ino lo hi offset size data k : ∀ n buf s0 s,
  0 <= offset → 0 < size → offset + size < 4294967296 → Z.of_nat (length data) = size → Forall is_byte data →
  lo <= offset / block_size fs → (offset + size - 1) / block_size fs < hi →
  like fs s0 s → file_ok fs s0 ino lo hi → offset / block_size fs <= n →
  n + Z.of_nat k = (offset + size - 1) / block_size fs + 1 →
  (n ≠ offset / block_size fs → Z.of_nat (length buf) = block_size fs ∧ Forall is_byte buf) →
  let br := progress (block_size fs) offset size n in
  wp (write_file_loop (block_size fs) offset size ino data buf br (seqZ n (Z.of_nat k)))
    (λ ok s', written fs s0 ino lo hi (offset + br) offset size data ok s' ∧ (ok = false → failing)) s.
Proof.
  induction k as [|k IH]; intros n buf s0 s Ho Hs Hlt Hdl Hdb Hlo Hhi Hl Hf Hn Hk Hbuf br.
  { apply wp_ret. split; [|done]. apply written_none; [done|]. subst br. pose proof Hl as ((_ & _ & _ & [? _]) & _).
    replace n with ((offset + size - 1) / block_size fs + 1) by lia. rewrite progress_end by lia. lia. }
  pose proof Hl as ((_ & _ & _ & [Hbs _]) & _).
  destruct (chunk_arith (block_size fs) offset size n) as (Hpos & Hbo & Hbr & Hlen & Hin & Hnext & Hfull); [lia..|].
  fold br in Hpos, Hbr, Hlen, Hin, Hnext, Hfull. rewrite seqZ_cons by lia. cbn [write_file_loop].
  fold (chunk_offset (block_size fs) offset n). set (bo := chunk_offset _ _ _) in *.
  destruct Hf as [Hex Hdis]. destruct (Hex n ltac:(lia)) as (ts & b & Hp & Hok). pose proof (conj Hex Hdis) as Hf.
  rewrite !u32_small by (unfold is_u32; lia). set (len := Z.min _ _) in *.
  set (reads := ((n =? offset / block_size fs) || _)%bool).
  assert (reads = false → bo = 0 ∧ len = block_size fs) as Hnoread.
  { subst reads. intros [Hst Hen]%orb_false_iff. zbool. unfold bo, chunk_offset in *.
    rewrite (proj2 (Z.eqb_neq _ _) Hst) in *. split; [done|]. apply Hfull; [|done].
    apply andb_false_iff in Hen as [?|?]; zbool; [left; lia|by right]. }
  apply wp_bind. eapply wp_mono; [apply (read_for_write fs s0 s ino n ts b reads bo len buf); try done|].
  { intros Hr. split; [by apply Hnoread|]. apply Hbuf. subst reads. apply orb_false_iff in Hr as [? _]. by zbool. }
  clear Hl s buf Hbuf Hnoread reads. intros r s (Hl & [[-> Hu]|(buf & -> & Hbl & Hbb & Hold)]).
  { apply wp_ret. split; [|by left]. split; [by eapply like_mounted|]. split; [apply Hl|]. split; [intros; by apply like_blk|done]. }
  destruct (slice_some data br len) as [chunk Hc]; [lia..|].
  destruct (splice_some buf bo chunk) as [buf1 Hb1]; [lia|rewrite (slice_length _ _ _ _ Hc); lia|].
  apply wp_bind. eapply wp_lift; [exact Hc|]. apply wp_bind. eapply wp_lift; [exact Hb1|].
  assert (Forall is_byte buf1) as Hbb1 by (eapply splice_bytes; [done..|by eapply slice_bytes]).
  pose proof (splice_length _ _ _ _ Hb1) as Hb1l.
  apply wp_bind. eapply wp_write_inode_block; [done..|lia|done|]. intros ok s1 Hw Hwf.
  destruct ok; [|apply wp_ret; split; [eapply written_failed; [|done..]; lia|auto]].
  assert (lo <= n < hi) as Hnr by lia.
  destruct (wrote_paths _ _ _ _ _ _ _ _ _ _ Hf Hnr Hp Hw) as [_ Hf1].
  replace (Z.pred (Z.of_nat (S k))) with (Z.of_nat k) by lia. change (Z.succ n) with (n + 1). rewrite Hnext.
  eapply wp_mono; [apply (IH (n + 1) buf1 s1 s1); try done; try lia; [by apply like_refl, Hw|by split; [lia|]]|].
  intros ok' s' [Hwr Hr]. split; [|done]. rewrite <- Hnext in Hwr. eapply written_step; try done; lia.
Qed.

(** ** Properties of whole operations *)

Lemma read_inode_ok l : Forall is_byte l → length l = 128%nat → inode_ok (read_inode l).
Proof.
  intros Hb Hl. pose proof (unpack_fits ext2_inode_layout l Hb ltac:(by rewrite Hl)) as Hf.
  unfold read_inode. pose proof (unpack_length ext2_inode_layout l) as Hn.
  set (v := unpack ext2_inode_layout l) in *. clearbody v. change (length ext2_inode_layout) with 43%nat in Hn.
  do 43 (destruct v as [|? v]; [done|]). destruct v; [|done].
  split; [exact Hf|]. done.
Qed.

Lemma set_i_size_ok ino x : inode_ok ino → is_u32 x → inode_ok (set_i_size ino x).
Proof.
  intros (Hf & Hb & Ho) Hx. split; [|done]. unfold fits in *. destruct ino; cbn in *.
  repeat match goal with
  | Hq : Forall2 _ (_ :: _) (_ :: _) |- _ => apply Forall2_cons in Hq as [? Hq]
  | |- Forall2 _ (_ :: _) (_ :: _) => apply Forall2_cons; split; [first [assumption|exact Hx]|]
  end. done.
Qed.

Lemma inode_at_ok fs s m ino : mounted fs s → inode_at fs s m = Some ino → inode_ok ino.
Proof.
  intros Hm Hat. unfold inode_at in Hat. destruct (inode_loc fs m) as [[b off]|]; [|done]. simplify_option_eq.
  apply read_inode_ok; [eapply slice_bytes; [done|]; by apply blk_ok|].
  match goal with Hs : slice _ _ _ = Some _ |- _ => apply slice_length in Hs end. unfold SIZEOF_INODE in *. lia.
Qed.

(** The file of inode [m]: where its inode is, and its blocks below [hi], none of
    which is the inode's. *)
Definition file_at fs s (m : Z) (b off : Z) (ino : ext2_inode) (hi : Z) : Prop :=
  m ≠ 0 ∧ inode_loc fs m = Some (b, off) ∧ block_ok fs b ∧ inode_at fs s m = Some ino ∧
  file_ok fs s ino 0 hi ∧
  ∀ n ts c, 0 <= n < hi → inode_path fs s ino n = Some (ts, c) → b ≠ c ∧ b ∉ ts.

Definition grown (ino : ext2_inode) (size : Z) : ext2_inode :=
  if i_size ino <? size then set_i_size ino size else ino.

Lemma inode_path_grown fs s ino size n : inode_path fs s (grown ino size) n = inode_path fs s ino n.
Proof. unfold grown. by destruct (_ <? _). Qed.

(** Writing the inode of a file leaves its block map and its bytes alone. *)
Lemma wrote_inode_path fs s1 s2 b data ok ino hi n :
  wrote fs s1 b data ok s2 → file_ok fs s1 ino 0 hi →
  (∀ n ts c, 0 <= n < hi → inode_path fs s1 ino n = Some (ts, c) → b ≠ c ∧ b ∉ ts) →
  0 <= n < hi → inode_path fs s2 ino n = inode_path fs s1 ino n.
Proof.
  intros (_ & _ & Ho & _) [Hex _] Hb Hn. destruct (Hex _ Hn) as (ts & c & Hp & _). destruct (Hb _ _ _ Hn Hp) as [_ Hbt].
  rewrite Hp. apply (inode_path_ext _ _ s2 _ _ _ _ Hp). intros t Ht. apply Ho. by intros ->.
Qed.

Lemma wrote_inode_file fs s1 s2 b data ok ino hi q :
  wrote fs s1 b data ok s2 → 0 < block_size fs → file_ok fs s1 ino 0 hi →
  (∀ n ts c, 0 <= n < hi → inode_path fs s1 ino n = Some (ts, c) → b ≠ c ∧ b ∉ ts) →
  0 <= q < hi * block_size fs → file_byte fs s2 ino q = file_byte fs s1 ino q.
Proof.
  intros Hw Hbs Hf Hb Hq. unfold file_byte.
  assert (0 <= q / block_size fs < hi) as Hr
    by (split; [apply Z.div_le_lower_bound; lia|apply Z.div_lt_upper_bound; lia]).
  rewrite (wrote_inode_path _ _ _ _ _ _ _ _ _ Hw Hf Hb Hr).
  destruct Hw as (_ & _ & Ho & _), Hf as [Hex _]. destruct (Hex _ Hr) as (ts & c & Hp & _).
  destruct (Hb _ _ _ Hr Hp) as [Hbc _]. rewrite Hp. simpl. by rewrite Ho by done.
Qed.

(** What holds when [ext2_write_file] answers [ok]; it fails only when the heap or
    the device can. *)
Definition file_written fs s (m b : Z) (ino : ext2_inode) (hi offset : Z) (data : list Z) (ok : bool) s' : Prop :=
  let size := Z.of_nat (length data) in
  mounted fs s' ∧
  (∀ c, c ≠ b → (∀ n ts, 0 <= n < hi → inode_path fs s ino n ≠ Some (ts, c)) → blk fs s' c = blk fs s c) ∧
  if ok then
    inode_at fs s' m = Some (grown ino (offset + size)) ∧
    (∀ n, 0 <= n < hi → inode_path fs s' (grown ino (offset + size)) n = inode_path fs s ino n) ∧
    ∀ q, 0 <= q < hi * block_size fs →
      file_byte fs s' (grown ino (offset + size)) q =
        if (offset <=? q) && (q <? offset + size) then data !! Z.to_nat (q - offset) else file_byte fs s ino q
  else failing.

(** The size of the file is updated after the data. *)
Lemma update_size fs s s1 m b off ino hi offset data ok ptr buf :
  let size := Z.of_nat (length data) in
  mounted fs s → file_at fs s m b off ino hi → 0 <= offset → offset + size < 4294967296 →
  written fs s ino 0 hi offset offset size data ok s1 → (ok = false → failing) →
  wp (success ← (if (ok && (i_size ino <? u32 (offset + size)))%bool
                 then ext2_write_inode m (set_i_size ino (u32 (offset + size))) else mret ok);
      free buf;; free ptr;; mret success)
    (file_written fs s m b ino hi offset data) s1.
Proof.
  intros size Hm (Hm0 & Hloc & Hb & Hat & Hf & Hdis) Ho Hlt (Hm1 & Hc1 & Hother & Hok) Hfl. pose proof Hm as (_ & _ & _ & [Hbs _]).
  rewrite u32_small by (unfold is_u32; lia).
  assert (∀ c, (∀ n ts, 0 <= n < hi → inode_path fs s ino n ≠ Some (ts, c)) → blk fs s1 c = blk fs s c) as Hblk by done.
  assert (blk fs s1 b = blk fs s b) as Hbb.
  { apply Hblk. intros n ts Hn Hp. by destruct (Hdis _ _ _ Hn Hp). }
  assert (inode_at fs s1 m = Some ino) as Hat1 by (unfold inode_at in *; rewrite Hloc in *; simpl in *; by rewrite Hbb).
  assert (∀ s2, like fs s1 s2 → ∀ r : bool, (if r then ok = true ∧ (i_size ino <? offset + size) = false else failing) →
    wp (free buf;; free ptr;; mret r) (file_written fs s m b ino hi offset data) s2) as Hend.
  { intros s2 Hl r Hr. apply wp_bind. eapply wp_free; [done|]. clear Hl s2. intros s2 Hl.
    apply wp_bind. eapply wp_free; [done|]. clear Hl s2. intros s2 Hl. apply wp_ret.
    split; [by eapply like_mounted|]. split; [intros c ? ?; by rewrite (like_blk _ _ _ _ Hl), Hblk|].
    destruct r; [|done]. destruct Hr as [-> Hsz]. fold size. unfold grown. rewrite Hsz.
    destruct (written_none fs s1 ino 0 hi (offset + size) offset size data true s2 Hl ltac:(lia)) as (_ & _ & _ & Hq2).
    destruct (Hok eq_refl) as [Hpath Hq]. destruct (Hq2 eq_refl) as [Hpath2 Hq3]. split_and!.
    - unfold inode_at in *. rewrite Hloc in *. simpl in *. by rewrite (like_blk _ _ _ _ Hl).
    - intros n Hn. by rewrite Hpath2, Hpath.
    - intros q Hr'. rewrite Hq3 by lia. destruct (_ && _)%bool eqn:Hz; [zbool; lia|]. apply Hq. lia. }
  destruct ok; simpl; [|apply wp_bind, wp_ret, Hend; [done|by apply Hfl]].
  destruct (i_size ino <? offset + size) eqn:Hsz; [|apply wp_bind, wp_ret; by apply Hend].
  destruct (Hok eq_refl) as [Hpath Hq]. pose proof (inode_at_ok fs s m ino Hm Hat) as Hio.
  assert (inode_ok (set_i_size ino (offset + size))) as Hio' by (apply set_i_size_ok; [done|unfold is_u32; lia]).
  apply wp_bind. eapply wp_write_inode; [by apply like_refl|done..| |].
  { intros s2 Hl Hu. apply Hend; [done|by left]. }
  intros d r s2 Hd Hw Hwf. apply wp_bind, wp_free_set_heap. intros h. apply wp_bind, wp_free_set_heap. intros h'.
  apply wp_ret. pose proof Hw as (Hm2 & _ & Hw' & _). split; [done|]. split.
  { intros c Hcb Hc. change (blk fs s2 c = blk fs s c). by rewrite Hw', Hblk. }
  destruct r; [|by right; apply Hwf]. fold size. unfold grown. rewrite Hsz. split; [by eapply (wrote_inode fs s1 s2)|].
  assert (file_ok fs s1 ino 0 hi) as Hf1.
  { destruct Hf as [Hex Hd']. split; [intros n Hn; rewrite Hpath by done; by apply Hex|].
    intros n n' ts c ts' c' Hn Hn'. rewrite !Hpath by done. by apply Hd'. }
  assert (∀ n ts c, 0 <= n < hi → inode_path fs s1 ino n = Some (ts, c) → b ≠ c ∧ b ∉ ts) as Hdis1.
  { intros n ts c Hn. rewrite Hpath by done. by apply Hdis. }
  split.
  { intros n Hn. rewrite <- Hpath by done. exact (wrote_inode_path _ _ _ _ _ _ _ _ _ Hw Hf1 Hdis1 Hn). }
  intros q Hr. change (file_byte fs s2 ino q = if (offset <=? q) && (q <? offset + size) then data !! Z.to_nat (q - offset)
    else file_byte fs s ino q). rewrite <- Hq by lia.
  eapply wrote_inode_file; [exact Hw|lia|exact Hf1|exact Hdis1|done].
Qed.

(** ** Whole transfers *)

Lemma write_file_ok fs s m b off ino hi offset data :
  let size := Z.of_nat (length data) in
  mounted fs s → file_at fs s m b off ino hi → Forall is_byte data → 0 < size → 0 <= offset →
  offset + size < 4294967296 → (offset + size - 1) / block_size fs < hi →
  wp (ext2_write_file m data offset size) (file_written fs s m b ino hi offset data) s.
Proof.
  intros size Hm Hat Hby Hsz Ho Hlt Hhi. pose proof Hat as (Hm0 & Hloc & Hb & Hi & Hf & Hdis).
  pose proof Hm as (_ & _ & _ & [Hbs _]). pose proof (like_refl fs s Hm) as Hl.
  assert (∀ s', like fs s s' → unreliable → file_written fs s m b ino hi offset data false s') as Hfail.
  { intros s' Hl' Hu. split; [by eapply like_mounted|]. split; [intros; by apply like_blk|by left]. }
  unfold ext2_write_file. apply wp_bind. eapply wp_get_inode; [done..| |].
  { intros s' Hl' Hu. by apply wp_ret, Hfail. }
  intros ptr s1 Hl1. apply wp_bind. eapply wp_instance; [done|].
  apply wp_bind, wp_div; [lia|]. rewrite (u32_small (offset + size - 1)) by (unfold is_u32; lia). apply wp_bind, wp_div; [lia|].
  apply wp_bind. eapply wp_alloc; [done|]. clear s1 Hl1. intros buf s1 Hl1 Hbuf. destruct (buf =? 0) eqn:Hb0; zbool.
  { apply wp_bind. eapply wp_free; [done|]. intros. apply wp_ret, Hfail; auto. }
  apply wp_bind. pose proof (Z.div_le_mono offset (offset + size - 1) (block_size fs) ltac:(lia) ltac:(lia)) as Hle.
  assert (0 <= offset / block_size fs) as H0 by (apply Z.div_pos; lia).
  assert (progress (block_size fs) offset size (offset / block_size fs) = 0) as Hp0
    by (unfold progress; rewrite Z.eqb_refl; lia).
  pose proof (write_file_loop_ok fs ino 0 hi offset size data
    (Z.to_nat ((offset + size - 1) / block_size fs - offset / block_size fs + 1)) (offset / block_size fs) [] s s1) as Hloop.
  cbv zeta in Hloop. rewrite Hp0, Z.add_0_r, Z2Nat.id in Hloop by lia.
  eapply wp_mono; [apply Hloop; try done; lia|]. intros ok s2 [Hw Hr]. by eapply update_size.
Qed.

Lemma read_file_ok fs s m b off ino offset size :
  let n := Z.min size (i_size ino - offset) in
  mounted fs s → m ≠ 0 → inode_loc fs m = Some (b, off) → block_ok fs b → inode_at fs s m = Some ino →
  0 <= offset < i_size ino → i_size ino < 4294967296 → 0 < size → offset + size < 4294967296 →
  (∀ k, 0 <= k <= (i_size ino - 1) / block_size fs →
     ∃ ts c, inode_path fs s ino k = Some (ts, c) ∧ Forall (block_ok fs) (c :: ts)) →
  wp (ext2_read_file m offset size)
    (λ r s', like fs s s' ∧ if r.1 : bool then file_range fs s ino offset n = Some r.2 else unreliable) s.
Proof.
  intros n Hm Hm0 Hloc Hb Hi Ho Hi32 Hsz Hlt Hpath. pose proof Hm as (_ & _ & _ & [Hbs _]).
  unfold ext2_read_file. apply wp_bind. eapply wp_get_inode; [by apply like_refl|done..| |].
  { intros s' Hl' Hu. by apply wp_ret. }
  intros ptr s1 Hl1. rewrite (proj2 (Z.leb_gt (i_size ino) offset)), (proj2 (Z.eqb_neq size 0)) by lia. cbn [orb].
  rewrite (u32_small (offset + size)) by (unfold is_u32; lia).
  assert ((if i_size ino <? offset + size then i_size ino - offset else size) = n) as ->
    by (subst n; destruct (_ <? _) eqn:Hc; zbool; lia).
  apply wp_bind. eapply wp_instance; [done|].
  apply wp_bind, wp_div; [lia|]. rewrite (u32_small (offset + n - 1)) by (unfold is_u32; lia). apply wp_bind, wp_div; [lia|].
  apply wp_bind. eapply wp_alloc; [done|]. clear s1 Hl1. intros buf s1 Hl1 Hbuf. destruct (buf =? 0) eqn:Hb0; zbool.
  { apply wp_bind. eapply wp_free; [done|]. intros. apply wp_ret. split; [done|]. cbn. auto. }
  apply wp_bind. pose proof (Z.div_le_mono offset (offset + n - 1) (block_size fs) ltac:(lia) ltac:(lia)) as Hle.
  pose proof (Z.div_le_mono (offset + n - 1) (i_size ino - 1) (block_size fs) ltac:(lia) ltac:(lia)) as Hle'.
  assert (0 <= offset / block_size fs) as H0 by (apply Z.div_pos; lia).
  assert (progress (block_size fs) offset n (offset / block_size fs) = 0) as Hp0
    by (unfold progress; rewrite Z.eqb_refl; lia).
  pose proof (read_file_loop_ok fs s ino offset n
    (Z.to_nat ((offset + n - 1) / block_size fs - offset / block_size fs + 1)) (offset / block_size fs) s1) as Hloop.
  cbv zeta in Hloop. rewrite Hp0, Z.add_0_r, Z.sub_0_r, Z2Nat.id in Hloop by lia.
  eapply wp_mono; [apply Hloop; try done; try lia; intros k Hk; apply Hpath; lia|].
  intros r s2 [Hl2 Hr]. apply wp_bind. eapply wp_free; [done|]. intros s3 Hl3.
  apply wp_bind. eapply wp_free; [done|]. intros. by apply wp_ret.
Qed.

Lemma inode_ok_size ino : inode_ok ino → is_u32 (i_size ino).
Proof.
  intros (Hf & _). unfold fits in Hf. destruct ino; cbn in *.
  do 3 apply Forall2_cons in Hf as [? Hf]. by unfold is_u32.
Qed.

Lemma grown_size fs s m ino size :
  mounted fs s → inode_at fs s m = Some ino → size < 4294967296 →
  i_size (grown ino size) = Z.max (i_size ino) size ∧ Z.max (i_size ino) size < 4294967296.
Proof.
  intros Hm Hat Hs. pose proof (inode_at_ok fs s m ino Hm Hat) as Hi. pose proof (inode_ok_size ino Hi) as Hsz. unfold is_u32 in Hsz.
  unfold grown. destruct (_ <? _) eqn:Hc; zbool; cbn; lia.
Qed.

(** Bytes that are those of a list make up the list. *)
Lemma file_range_eq fs s ino pos (data l : list Z) :
  (∀ q, pos <= q < pos + Z.of_nat (length data) → file_byte fs s ino q = data !! Z.to_nat (q - pos)) →
  file_range fs s ino pos (Z.of_nat (length data)) = Some l → l = data.
Proof.
  intros Hq Hr. unfold file_range in Hr. apply mapM_Some in Hr. apply list_eq. intros i.
  pose proof (Forall2_length _ _ _ Hr) as Hl. rewrite length_seqZ, Nat2Z.id in Hl.
  destruct (decide (i < length data)%nat) as [Hi|Hi].
  - destruct (lookup_lt_is_Some_2 l i ltac:(lia)) as [x Hx].
    pose proof (Forall2_lookup_r _ _ _ _ _ Hr Hx) as (q & Hiq & Hx'). apply lookup_seqZ in Hiq as [-> _].
    rewrite Hq in Hx' by lia. rewrite Hx, <- Hx'. f_equal. lia.
  - rewrite !lookup_ge_None_2 by lia. done.
Qed.

(** A file that was written can be read where it was written. *)
Lemma read_after_write fs s m b off ino hi offset (data : list Z) s1 :
  let size := Z.of_nat (length data) in
  mounted fs s → file_at fs s m b off ino hi → 0 < size → 0 <= offset → offset + size < 4294967296 →
  (offset + size - 1) / block_size fs < hi → i_size ino <= hi * block_size fs →
  file_written fs s m b ino hi offset data true s1 →
  wp (ext2_read_file m offset size)
    (λ r s', like fs s1 s' ∧ if r.1 : bool then r.2 = data else unreliable) s1.
Proof.
  intros size Hm (Hm0 & Hloc & Hb & Hat & [Hex _] & _) Hsz Ho Hlt Hhi Hfit (Hm1 & _ & Hat1 & Hpath & Hq).
  pose proof Hm as (_ & _ & _ & [Hbs _]). destruct (grown_size fs s m ino (offset + size) Hm Hat Hlt) as [Hgs Hgl].
  fold size in Hat1, Hpath, Hq. set (ino1 := grown ino (offset + size)) in *.
  assert (offset + size <= hi * block_size fs) as Hend.
  { pose proof (Z.div_mod (offset + size - 1) (block_size fs) ltac:(lia)).
    pose proof (Z.mod_pos_bound (offset + size - 1) (block_size fs) ltac:(lia)). nia. }
  eapply wp_mono; [apply (read_file_ok fs s1 m b off ino1 offset size Hm1 Hm0 Hloc Hb Hat1); [lia..|]|].
  - intros k Hk. assert (0 <= k < hi) as Hkr.
    { split; [lia|]. eapply Z.le_lt_trans; [apply Hk|]. apply Z.div_lt_upper_bound; lia. }
    destruct (Hex k Hkr) as (ts & c & Hp & Hok). exists ts, c. by rewrite Hpath.
  - intros [ok l] s' [Hl Hr]. split; [done|]. cbn [fst snd] in *. destruct ok; [|done].
    rewrite Z.min_l in Hr by lia. eapply file_range_eq; [|exact Hr]. fold size. intros q Hqr.
    rewrite Hq by lia. by rewrite (proj2 (Z.leb_le offset q)), (proj2 (Z.ltb_lt q (offset + size))) by lia.
Qed.

(** Reading an inode after some other call, whose answer is kept. *)
Lemma wp_read_back {A} fs s m b off (x : A) (Q : A * option (Z * ext2_inode) → state D H → Prop) :
  mounted fs s → m ≠ 0 → inode_loc fs m = Some (b, off) → block_ok fs b →
  (∀ r s', like fs s s' → (r = None ∧ unreliable) ∨ (∃ p ino, r = Some (p, ino) ∧ inode_at fs s m = Some ino) → Q (x, r) s') →
  wp (r ← ext2_get_inode m; mret (x, r)) Q s.
Proof.
  intros Hm Hm0 Hloc Hb HQ. pose proof Hm as (_ & _ & _ & Hg). pose proof (inode_loc_fits _ _ _ _ Hg Hloc) as [Ho1 Ho2].
  assert (∃ ino, inode_at fs s m = Some ino) as [ino Hat].
  { unfold inode_at. rewrite Hloc. simpl. destruct (blk_ok fs s b Hm) as [Hl _].
    destruct (slice_some (blk fs s b) off SIZEOF_INODE) as [l ->]; [done|done|lia|]. by eexists. }
  apply wp_bind. eapply wp_get_inode; [by apply like_refl|done..| |].
  - intros s' Hl' Hu. apply wp_ret, HQ; auto.
  - intros p s' Hl'. apply wp_ret, HQ; [done|]. right. by exists p, ino.
Qed.
End spec.

Section properties.
Context {D H : Type} `{!BlockDev D, !Malloc H}.
Implicit Types (fs : ext2_fs) (s : state D H).


(** C16: [ext2_read_file] gives the bytes of the file from [offset] on, up to the
    requested size or the end of the file, and changes nothing; it fails only when
    an allocation or a read can. *)
Theorem ext2_read_file_correct fs s m b off ino offset size :
  let n := Z.min size (i_size ino - offset) in
  mounted fs s → m ≠ 0 → inode_loc fs m = Some (b, off) → block_ok fs b → inode_at fs s m = Some ino →
  0 <= offset < i_size ino → i_size ino < 4294967296 → 0 < size → offset + size < 4294967296 →
  (∀ k, 0 <= k <= (i_size ino - 1) / block_size fs →
     ∃ ts c, inode_path fs s ino k = Some (ts, c) ∧ Forall (block_ok fs) (c :: ts)) →
  wp (ext2_read_file m offset size)
    (λ r s', like fs s s' ∧ if r.1 : bool then file_range fs s ino offset n = Some r.2 else unreliable (D := D) (H := H)) s.
Proof. apply read_file_ok. Qed.

(** C17: bytes that were written to a file are read back: reading where
    [ext2_write_file] has written gives what was written, and the two calls fail
    only when an allocation or a transfer can. *)
Theorem ext2_write_read_roundtrip fs s m b off ino hi offset data :
  let size := Z.of_nat (length data) in
  mounted fs s → file_at fs s m b off ino hi → Forall is_byte data → 0 < size → 0 <= offset →
  offset + size < 4294967296 → (offset + size - 1) / block_size fs < hi → i_size ino <= hi * block_size fs →
  wp (ok ← ext2_write_file m data offset size;
      if (ok : bool) then ext2_read_file m offset size else mret (false, []))
    (λ r s', mounted fs s' ∧ if r.1 : bool then r.2 = data else failing (D := D) (H := H)) s.
Proof.
  intros size Hm Hat Hby Hsz Ho Hlt Hhi Hfit. apply wp_bind.
  eapply wp_mono; [by apply (write_file_ok fs s m b off ino hi offset data)|]. intros ok s1 Hw. destruct ok.
  - eapply wp_mono; [by eapply (read_after_write fs s m b off ino hi offset data)|].
    intros r s' [Hl Hr]. split; [by eapply like_mounted|]. destruct r.1; [done|by left].
  - apply wp_ret. split; [apply Hw|]. apply Hw.
Qed.

(** An inode that was written is read back as it was, and the other inodes of
    the disk keep their contents; writing and reading succeed on a heap and a
    device that do not fail. *)
Theorem ext2_inode_roundtrip fs s m b off ino :
  mounted fs s → m ≠ 0 → inode_loc fs m = Some (b, off) → block_ok fs b → inode_ok ino →
  wp (ok ← ext2_write_inode m ino; r ← ext2_get_inode m; mret (ok, r))
    (λ x s', mounted fs s' ∧
       if x.1 : bool then
         ((∃ p, x.2 = Some (p, ino)) ∨ (x.2 = None ∧ unreliable (D := D) (H := H))) ∧
         ∀ m', inode_loc fs m' ≠ Some (b, off) → inode_at fs s' m' = inode_at fs s m'
       else failing (D := D) (H := H)) s.
Proof.
  intros Hm Hm0 Hloc Hb Hino. pose proof Hm as (_ & _ & _ & Hg).
  assert (∀ s1 s2 m', like fs s1 s2 → inode_at fs s2 m' = inode_at fs s1 m') as Hsame.
  { intros s1 s2 m' Hl. unfold inode_at. destruct (inode_loc fs m') as [[b' off']|]; [|done]. simpl.
    by rewrite (like_blk _ _ _ _ Hl). }
  apply wp_bind. eapply wp_write_inode; [by apply like_refl|done..| |].
  - intros s1 Hl1 Hu. eapply wp_read_back; [by eapply like_mounted|done..|]. intros r s2 Hl2 _.
    split; [by eapply like_mounted|by left].
  - intros data ok s1 Hd Hw Hwf. eapply wp_read_back; [apply Hw|done..|]. intros r s2 Hl2 Hr.
    split; [by eapply like_mounted|]. destruct ok; [|by right; apply Hwf].
    destruct (wrote_inode fs s s1 m b off ino data) as [Hat Ho]; [done..|]. split.
    + destruct Hr as [[-> Hu]|(p & ino1 & -> & Hi)]; [by right|left]. exists p. cbn [snd]. congruence.
    + intros m' Hm'. rewrite (Hsame s1) by done. by apply Ho.
Qed.

Lemma unmount_false s r : unmount s = Some r → r.1 = false.
Proof.
  unfold unmount. intros (fs & s1 & _ & Hr)%run_bind. destruct (ptrs fs) as [[p sb] gd].
  apply run_bind in Hr as (? & ? & _ & Hr). apply run_bind in Hr as (? & ? & _ & Hr).
  apply run_bind in Hr as (? & ? & _ & Hr). apply run_bind in Hr as (? & ? & _ & Hr). by injection Hr as <-.
Qed.

(** A superblock buffer has 84 bytes, a block at least 1024. *)
Lemma superblock_overread sb bs :
  1024 <= bs → slice (write_superblock sb) 0 (512 * (bs / 512)) = None.
Proof.
  intros Hbs. unfold slice. unfold write_superblock. rewrite (pack_length _ (ext2_superblock_vals sb)) by done.
  assert (2 <= bs / 512) by (apply Z.div_le_lower_bound; lia).
  rewrite (proj2 (Z.leb_gt (0 + _) _)); [by rewrite !andb_false_r|]. cbn. lia.
Qed.

Lemma mount_groups_false garbage s r : mount_groups garbage s = Some r → r.1 = false.
Proof.
  unfold mount_groups. intros (fs & s1 & _ & Hr)%run_bind. cbn zeta in Hr.
  set (bs := u32 (Z.shiftl 1024 _)) in *.
  apply run_bind in Hr as (groups & ? & _ & Hr). apply run_bind in Hr as (blocks & ? & Hdiv & Hr).
  assert (1024 <= bs) as Hbs.
  { assert (bs ≠ 0) as Hne. { intros H0. unfold div in Hdiv. by rewrite H0 in Hdiv. }
    clear Hr Hdiv. revert bs Hne. rewrite Z.shiftl_mul_pow2 by (apply Z.mod_pos_bound; lia).
    pose proof (Z.mod_pos_bound (s_log_block_size (superblock fs)) 32 ltac:(lia)) as Hk.
    generalize dependent (s_log_block_size (superblock fs) mod 32). intros k Hk bs Hne. subst bs.
    destruct (decide (k < 22)).
    - rewrite u32_small; [|unfold is_u32; change 4294967296 with (1024 * 2 ^ 22)];
        pose proof (Z.pow_pos_nonneg 2 k); pose proof (Z.pow_lt_mono_r 2 k 22); lia.
    - exfalso. apply Hne. replace k with (22 + (k - 22)) by lia. rewrite Z.pow_add_r by lia.
      change (2 ^ 22) with 4194304. unfold u32. rewrite Z.mul_assoc. change (1024 * 4194304) with 4294967296.
      rewrite Z.mul_comm. apply Z.mod_mul. lia. }
  destruct (ptrs fs) as [[p sbp] _]. apply run_bind in Hr as (gdp & ? & _ & Hr).
  apply run_bind in Hr as (? & ? & _ & Hr). destruct (gdp =? 0); [by eapply unmount_false|].
  apply run_bind in Hr as ([d|] & ? & _ & Hr); [|by eapply unmount_false].
  apply run_bind in Hr as (? & ? & _ & Hr). apply run_bind in Hr as (gds & ? & _ & Hr).
  apply run_bind in Hr as (? & ? & _ & Hr). destruct (negb _); [by eapply unmount_false|].
  apply run_bind in Hr as (? & ? & _ & Hr). apply run_bind in Hr as (? & ? & _ & Hr).
  apply run_bind in Hr as (? & ? & Hl & _). rewrite superblock_overread in Hl by done. done.
Qed.

(** No file system is ever mounted without an access outside a buffer: the
    superblock is written back as a whole block from a buffer of 84 bytes, so
    [ext2_init] has failed or faulted. *)
Theorem ext2_init_never_mounts (device_id : Z) found time garbage (s s' : state D H) r :
  ext2_init device_id found time garbage s = Some (r, s') → r = false.
Proof.
  unfold ext2_init. intros (? & ? & _ & Hr)%run_bind. apply run_bind in Hr as (? & ? & _ & Hr).
  destruct found; cbn [negb] in Hr; [|by injection Hr as <- _].
  apply run_bind in Hr as (p & ? & _ & Hr). destruct (p =? 0).
  { apply run_bind in Hr as (? & ? & _ & Hr). by injection Hr as <- _. }
  apply run_bind in Hr as (sbp & ? & _ & Hr). apply run_bind in Hr as (? & ? & _ & Hr). destruct (sbp =? 0).
  { apply run_bind in Hr as (? & ? & _ & Hr). apply run_bind in Hr as (? & ? & _ & Hr). by injection Hr as <- _. }
  apply run_bind in Hr as ([d|] & ? & _ & Hr); [|by apply unmount_false in Hr].
  apply run_bind in Hr as (? & ? & _ & Hr). apply run_bind in Hr as (? & ? & _ & Hr).
  destruct (negb _); [by apply unmount_false in Hr|by apply mount_groups_false in Hr].
Qed.
End properties.

(** ** Witnesses *)

Lemma demo_mounted : mounted demo_fs demo_state.
Proof. split; [reflexivity|]. split; [reflexivity|]. split; [exact demo_disk_ok|]. split; [split; reflexivity || (vm_compute; congruence)|reflexivity]. Qed.

Lemma demo_block_ok b : 0 <= b < 64 → block_ok demo_fs b.
Proof. intros Hb. unfold block_ok. change (block_size demo_fs / 512) with 2. lia. Qed.

Lemma demo_path n : 0 <= n < 2 → inode_path demo_fs demo_state demo_file n = Some ([], 8 + n).
Proof. intros Hn. assert (n = 0 ∨ n = 1) as [-> | ->] by lia; reflexivity. Qed.

Lemma demo_file_at : file_at demo_fs demo_state 3 5 256 demo_file 2.
Proof.
  split; [done|]. split; [reflexivity|]. split; [by apply demo_block_ok|]. split; [vm_compute; reflexivity|].
  split; [split|].
  - intros n Hn. exists [], (8 + n). split; [by apply demo_path|]. apply Forall_cons. split; [|done].
    apply demo_block_ok. lia.
  - intros n m ts b ts' b' Hn Hm. rewrite !demo_path by done. intros [= <- <-] [= <- <-].
    split; [lia|apply not_elem_of_nil].
  - intros n ts c Hn. rewrite demo_path by done. intros [= <- <-]. split; [lia|apply not_elem_of_nil].
Qed.

(** The RAM disk and its heap do not fail. *)
Lemma demo_reliable : ¬ failing (D := gmap Z (list Z)) (H := nat).
Proof. intros [[(n & h & Hf)|(lba & n & d & Hf)]|(lba & n & data & d & Hf)]; discriminate Hf. Qed.


Lemma ext2_read_file_correct_witness :
  wp (ext2_read_file 3 1000 100)
    (λ r s', like demo_fs demo_state s' ∧ r.1 = true ∧ file_range demo_fs demo_state demo_file 1000 100 = Some r.2) demo_state.
Proof.
  eapply wp_mono; [apply (ext2_read_file_correct demo_fs demo_state 3 5 256 demo_file 1000 100);
    [exact demo_mounted|done|reflexivity|by apply demo_block_ok|apply demo_file_at|done|done|done|done|]|].
  - intros k Hk. change ((i_size demo_file - 1) / block_size demo_fs) with 1 in Hk.
    exists [], (8 + k). split; [apply demo_path; clear -Hk; lia|]. apply Forall_cons. split; [|done].
    apply demo_block_ok. clear -Hk. lia.
  - intros [[] l] s' [Hl Hr]; [exact (conj Hl (conj eq_refl Hr))|]. destruct (demo_reliable (or_introl Hr)).
Defined.

Lemma ext2_write_read_roundtrip_witness :
  wp (ok ← ext2_write_file 3 (replicate 600 7) 1000 600;
      if (ok : bool) then ext2_read_file 3 1000 600 else mret (false, []))
    (λ r s', mounted demo_fs s' ∧ r = (true, replicate 600 7)) demo_state.
Proof.
  eapply wp_mono; [apply (ext2_write_read_roundtrip demo_fs demo_state 3 5 256 demo_file 2 1000 (replicate 600 7));
    [exact demo_mounted|exact demo_file_at|apply Forall_replicate; split; done|done|done|done|done|done]|].
  intros [[] l] s' [Hm Hr]; [|destruct (demo_reliable Hr)]. split; [exact Hm|]. f_equal. exact Hr.
Defined.

Lemma ext2_inode_roundtrip_witness :
  wp (ok ← ext2_write_inode 3 demo_root; r ← ext2_get_inode 3; mret (ok, r))
    (λ x s', mounted demo_fs s' ∧ x.1 = true ∧ (∃ p, x.2 = Some (p, demo_root)) ∧
       ∀ m', inode_loc demo_fs m' ≠ Some (5, 256) → inode_at demo_fs s' m' = inode_at demo_fs demo_state m') demo_state.
Proof.
  eapply wp_mono; [apply (ext2_inode_roundtrip demo_fs demo_state 3 5 256 demo_root);
    [exact demo_mounted|done|reflexivity|by apply demo_block_ok|]|].
  - apply (inode_at_ok demo_fs demo_state 2); [exact demo_mounted|vm_compute; reflexivity].
  - intros [[] r] s' [Hm Hr]; [|destruct (demo_reliable Hr)].
    destruct Hr as [[Hr|[_ Hu]] Ho]; [exact (conj Hm (conj eq_refl (conj Hr Ho)))|]. destruct (demo_reliable (or_introl Hu)).
Defined.

Lemma ext2_init_never_mounts_witness :
  fst <$> ext2_init 0 false (mk_clock 0 0 0) (λ _, []) demo_state = Some false ∧ false = false.
Proof.
  split; [reflexivity|].
  apply (ext2_init_never_mounts 0 false (mk_clock 0 0 0) (λ _, []) demo_state
    (mk_state (Some demo_fs) false demo_disk 0%nat (mk_clock 0 0 0)) false). reflexivity.
Defined.
