(* ===== verification/Ext2Alloc.v ===== *)
(** * The ext2 driver: the inode bitmap

    Allocation takes a free inode and marks it, and nothing else, on a device
    whose writes succeed; releasing clears the mark again. *)
From S2P Require Import Prelude Interfaces Monad Bytes Ext2Types Ext2 Ext2Demo Ext2Spec.

(** ** Bits of a block *)

Definition bit (d : list Z) (i : Z) : bool :=
  match d !! Z.to_nat (i / 8) with Some b => Z.testbit b (i mod 8) | None => false end.

Lemma get_byte d i b : 0 <= i → d !! Z.to_nat i = Some b → get_le 1 d i = Some b.
Proof.
  intros Hi Hb. pose proof (lookup_lt_Some _ _ _ Hb) as Hlt. unfold get_le.
  destruct (slice_some d i (Z.of_nat 1)) as [l Hl]; [lia..|]. rewrite Hl. simpl.
  pose proof (slice_length _ _ _ _ Hl) as Hll. destruct l as [|c [|? ?]]; try (simpl in *; lia).
  pose proof (slice_lookup _ _ _ _ 0 Hl ltac:(lia)) as Hc. rewrite Z.add_0_r, Hb in Hc. simpl in Hc.
  injection Hc as ->. simpl. f_equal. lia.
Qed.

Lemma put_byte d i x d' j :
  is_byte x → put_le 1 d i x = Some d' → 0 <= j → 0 <= i →
  d' !! Z.to_nat j = if j =? i then Some x else d !! Z.to_nat j.
Proof.
  intros Hx Hp Hj Hi. rewrite (splice_lookup _ _ _ _ _ Hp) by done. rewrite le_enc_length.
  destruct (j =? i) eqn:He; zbool.
  - subst. rewrite (proj2 (Z.leb_le i i)), (proj2 (Z.ltb_lt i (i + Z.of_nat 1))) by lia. simpl.
    rewrite Z.sub_diag. simpl. by rewrite Z.mod_small.
  - destruct (_ && _)%bool eqn:Hc; [zbool; lia|done].
Qed.

(** Replacing the byte of bit [i] by [f] of it. *)
Lemma change_bit d i (f : Z → Z) v :
  Forall is_byte d → 0 <= i < 8 * Z.of_nat (length d) →
  (∀ x, is_byte x → is_byte (f x) ∧ ∀ k, 0 <= k → Z.testbit (f x) k = if k =? i mod 8 then v else Z.testbit x k) →
  ∃ b d', get_le 1 d (i / 8) = Some b ∧ is_byte b ∧ Z.testbit b (i mod 8) = bit d i ∧
    put_le 1 d (i / 8) (f b) = Some d' ∧ length d' = length d ∧ Forall is_byte d' ∧
    ∀ j, 0 <= j → bit d' j = if j =? i then v else bit d j.
Proof.
  intros Hd Hi Hf. assert (0 <= i / 8 < Z.of_nat (length d)) as Hr by (Z.to_euclidean_division_equations; lia).
  destruct (lookup_lt_is_Some_2 d (Z.to_nat (i / 8))) as [b Hb]; [lia|].
  assert (is_byte b) as Hbb by (by eapply Forall_lookup_1). destruct (Hf b Hbb) as [Hfb Hfk].
  destruct (splice_some d (i / 8) (le_enc 1 (f b))) as [d' Hp]; [lia|rewrite le_enc_length; lia|].
  exists b, d'. split; [apply get_byte; [lia|done]|]. split; [done|]. split; [unfold bit; by rewrite Hb|]. split; [done|].
  split; [by eapply splice_length|]. split; [eapply splice_bytes; [done|done|apply le_enc_bytes]|].
  intros j Hj. unfold bit. rewrite (put_byte d (i / 8) (f b) d') by (done || (Z.to_euclidean_division_equations; lia)).
  assert (0 <= j mod 8) by (apply Z.mod_pos_bound; lia).
  destruct (j / 8 =? i / 8) eqn:He; zbool.
  - rewrite Hfk by done. destruct (j =? i) eqn:He2, (j mod 8 =? i mod 8) eqn:He3; zbool; try done.
    + subst. done.
    + exfalso. apply He2. Z.to_euclidean_division_equations. lia.
    + by rewrite He, Hb.
  - destruct (j =? i) eqn:He2; zbool; [by subst|done].
Qed.

Lemma set_bit_spec i x : is_byte x →
  is_byte (Z.lor x (Z.shiftl 1 (i mod 8))) ∧
  ∀ k, 0 <= k → Z.testbit (Z.lor x (Z.shiftl 1 (i mod 8))) k = if k =? i mod 8 then true else Z.testbit x k.
Proof.
  intros Hx. pose proof (Z.mod_pos_bound i 8 ltac:(lia)) as Hm. split.
  - apply (set_bit_fits x (i mod 8) 8); [lia|exact Hx].
  - intros k Hk. rewrite testbit_set, (Z.eqb_sym k) by lia. destruct (_ =? k); [apply orb_true_r|apply orb_false_r].
Qed.

Lemma clear_bit_spec i x : is_byte x →
  is_byte (Z.land x (Z.lnot (Z.shiftl 1 (i mod 8)))) ∧
  ∀ k, 0 <= k → Z.testbit (Z.land x (Z.lnot (Z.shiftl 1 (i mod 8)))) k = if k =? i mod 8 then false else Z.testbit x k.
Proof.
  intros Hx. pose proof (Z.mod_pos_bound i 8 ltac:(lia)) as Hm. split.
  - apply (clear_bit_fits x (i mod 8) 8); [lia|lia|exact Hx].
  - intros k Hk. rewrite testbit_clear, (Z.eqb_sym k) by lia. destruct (_ =? k); [apply andb_false_r|apply andb_true_r].
Qed.

Section alloc.
Context {D H : Type} `{!BlockDev D, !Malloc H}.
Implicit Types (fs : ext2_fs) (s : state D H).

(** The bitmap search: nothing found among bits that are all set, or the first
    clear bit [i] set on disk and nothing else changed. *)
Lemma claim_bit_ok fs s0 b bits : ∀ bitmap s,
  ¬ write_fails (D := D) → like fs s0 s → block_ok fs b → Z.of_nat (length bitmap) = block_size fs →
  Forall is_byte bitmap → Forall (λ i, 0 <= i < 8 * block_size fs) bits →
  wp (claim_bit b bits bitmap)
    (λ r s', (r = None ∧ like fs s0 s' ∧ ∀ i, i ∈ bits → bit bitmap i = true) ∨
             (∃ i d, r = Some i ∧ i ∈ bits ∧ bit bitmap i = false ∧ wrote fs s0 b d true s' ∧
                ∀ j, 0 <= j → bit d j = if j =? i then true else bit bitmap j)) s.
Proof.
  induction bits as [|i bits IH]; intros bitmap s Hw Hl Hb Hlen Hby Hbits.
  { apply wp_ret. left. split_and!; [done|done|]. intros i Hi. by apply not_elem_of_nil in Hi. }
  apply Forall_cons in Hbits as [Hi Hbits]. cbn [claim_bit].
  destruct (change_bit bitmap i (λ x, Z.lor x (Z.shiftl 1 (i mod 8))) true) as
    (x & d & Hg & Hx & Ht & Hp & Hdl & Hdb & Hd); [done|lia|by apply set_bit_spec|].
  apply wp_bind. eapply wp_lift; [exact Hg|].
  rewrite land_bit_zero by (apply Z.mod_pos_bound; lia). rewrite Ht. destruct (bit bitmap i) eqn:Hbit; cbn [negb].
  - eapply wp_mono; [by apply IH|]. intros r s' [(-> & Hl' & Hall)|(j & d' & -> & Hj & Hrest)]; [left|right].
    + split_and!; [done|done|]. intros k [->|Hk]%elem_of_cons; auto.
    + exists j, d'. split; [done|]. split; [by right|done].
  - apply wp_bind. eapply wp_lift; [exact Hp|]. apply wp_bind. eapply wp_write_block; [done|done|lia|done|].
    intros ok s' Hwr Hok. destruct ok; [|by destruct Hw; auto]. apply wp_ret. right. exists i, d.
    split; [done|]. split; [by left|]. done.
Qed.

(** The inode [m] is marked as used in the bitmap of its group. *)
Definition inode_used fs s (m : Z) : bool :=
  let ipg := s_inodes_per_group (superblock fs) in
  match index (group_desc fs) ((m - 1) / ipg) with
  | Some gd => bit (blk fs s (bg_inode_bitmap gd)) ((m - 1) mod ipg)
  | None => false
  end.

(** The bitmaps: one block for each group, all different, that covers the group. *)
Definition bitmaps_ok fs : Prop :=
  let ipg := s_inodes_per_group (superblock fs) in
  0 < ipg <= 8 * block_size fs ∧ Z.of_nat (length (group_desc fs)) = groups_count fs ∧
  groups_count fs * ipg < 4294967296 ∧
  (∀ g gd, group_desc fs !! g = Some gd → block_ok fs (bg_inode_bitmap gd)) ∧
  (∀ g g' gd gd', group_desc fs !! g = Some gd → group_desc fs !! g' = Some gd' →
     bg_inode_bitmap gd = bg_inode_bitmap gd' → g = g').

Definition valid_inode fs (m : Z) : Prop :=
  1 <= m <= groups_count fs * s_inodes_per_group (superblock fs).

(** The bitmap of group [g] with its bit [i] set or cleared. *)
Lemma wrote_inode_used fs s s' g gd i d v m :
  let ipg := s_inodes_per_group (superblock fs) in
  bitmaps_ok fs → group_desc fs !! g = Some gd → 0 <= i < ipg →
  wrote fs s (bg_inode_bitmap gd) d true s' →
  (∀ j, 0 <= j → bit d j = if j =? i then v else bit (blk fs s (bg_inode_bitmap gd)) j) →
  valid_inode fs m →
  inode_used fs s' m = if m =? Z.of_nat g * ipg + i + 1 then v else inode_used fs s m.
Proof.
  intros ipg (Hipg & Hlen & Hgc & _ & Hdis) Hg Hi (_ & _ & Ho & Hs) Hd Hm. fold ipg in Hipg, Hgc.
  unfold inode_used. fold ipg. unfold valid_inode in Hm. fold ipg in Hm.
  pose proof (Z.div_mod (m - 1) ipg ltac:(lia)) as Hdm. pose proof (Z.mod_pos_bound (m - 1) ipg ltac:(lia)) as Hmod.
  assert (0 <= (m - 1) / ipg) as H0 by (apply Z.div_pos; lia).
  unfold index. rewrite (proj2 (Z.ltb_ge ((m - 1) / ipg) 0)) by lia.
  destruct (group_desc fs !! Z.to_nat ((m - 1) / ipg)) as [gd'|] eqn:Hg'.
  - destruct (decide (Z.to_nat ((m - 1) / ipg) = g)) as [Heq|Hne].
    + rewrite Heq, Hg in Hg'. injection Hg' as <-. rewrite (Hs eq_refl), Hd by lia.
      assert (((m - 1) mod ipg =? i) = (m =? Z.of_nat g * ipg + i + 1)) as ->; [|done].
      apply eq_true_iff_eq. rewrite !Z.eqb_eq. nia.
    + rewrite Ho by (intros He; apply Hne; by eapply Hdis). destruct (m =? _) eqn:He; [|done]. zbool. exfalso.
      apply Hne. assert ((m - 1) / ipg = Z.of_nat g); [|lia]. symmetry. apply (Z.div_unique _ _ _ i); lia.
  - destruct (m =? _) eqn:He; [|done]. zbool. exfalso. apply lookup_ge_None in Hg'. apply lookup_lt_Some in Hg.
    assert ((m - 1) / ipg = Z.of_nat g) as Heq; [symmetry; apply (Z.div_unique _ _ _ i); lia|]. lia.
Qed.

(** [fs'] is [fs] with the free-inode counters of group [g] changed by [delta]. *)
Definition counted fs (g : nat) (delta : Z) fs' : Prop :=
  ∃ gd, group_desc fs !! g = Some gd ∧
    fs' = set_group fs (Z.of_nat g)
      (set_bg_free_inodes_count gd (u16 (bg_free_inodes_count gd + delta)))
      (set_s_free_inodes_count (superblock fs) (u32 (s_free_inodes_count (superblock fs) + delta))).

Definition with_instance fs h s : state D H := mk_state (Some fs) (nvme_dev s) (device s) h (clock s).

Lemma counted_used fs g delta fs' s h m : counted fs g delta fs' → inode_used fs' (with_instance fs' h s) m = inode_used fs s m.
Proof.
  intros (gd & Hg & ->). unfold inode_used, index. cbn [superblock group_desc set_group s_inodes_per_group set_s_free_inodes_count].
  rewrite Nat2Z.id. destruct (_ <? 0); [done|].
  destruct (decide (Z.to_nat ((m - 1) / s_inodes_per_group (superblock fs)) = g)) as [->|Hne].
  - rewrite Hg, list_lookup_insert_eq by (by eapply lookup_lt_Some). done.
  - by rewrite list_lookup_insert_ne.
Qed.

Lemma counted_mounted fs g delta fs' s h : counted fs g delta fs' → mounted fs s → mounted fs' (with_instance fs' h s).
Proof. intros (gd & Hg & ->) (Hi & Hn & Hd & Hge). done. Qed.

Lemma wp_count_inode fs s0 b d s g gd delta (Q : () → state D H → Prop) :
  wrote fs s0 b d true s → group_desc fs !! g = Some gd →
  (∀ fs', counted fs g delta fs' → Q () (with_instance fs' (heap s) s)) →
  wp (count_inode (Z.of_nat g) delta) Q s.
Proof.
  intros (Hm & _) Hg HQ. unfold count_inode. apply wp_bind. eapply wp_instance; [by apply like_refl|].
  apply wp_bind. eapply wp_lift; [unfold index; rewrite (proj2 (Z.ltb_ge (Z.of_nat g) 0)) by lia; by rewrite Nat2Z.id|].
  apply wp_modify. apply HQ. by exists gd.
Qed.

(** What a successful search has done. *)
Definition inode_claimed fs s0 (r : Z) s' : Prop :=
  ∃ g gd i d fs' s1 h,
    group_desc fs !! g = Some gd ∧ 0 <= i < s_inodes_per_group (superblock fs) ∧
    bit (blk fs s0 (bg_inode_bitmap gd)) i = false ∧ wrote fs s0 (bg_inode_bitmap gd) d true s1 ∧
    (∀ j, 0 <= j → bit d j = if j =? i then true else bit (blk fs s0 (bg_inode_bitmap gd)) j) ∧
    counted fs g (-1) fs' ∧ s' = with_instance fs' h s1 ∧
    r = Z.of_nat g * s_inodes_per_group (superblock fs) + i + 1.

(** The groups of the list that count a free inode are full. *)
Definition groups_full fs s (groups : list Z) : Prop :=
  ∀ g gd i, Z.of_nat g ∈ groups → group_desc fs !! g = Some gd → bg_free_inodes_count gd ≠ 0 →
    0 <= i < s_inodes_per_group (superblock fs) → bit (blk fs s (bg_inode_bitmap gd)) i = true.

(** The search in one group whose counter is not 0. *)
Lemma search_group_ok fs s0 s g gd rest :
  ¬ write_fails (D := D) → bitmaps_ok fs → like fs s0 s → group_desc fs !! g = Some gd →
  (∀ s', like fs s0 s' → wp (allocate_inode_in rest) (λ r s', (r = 0 ∧ like fs s0 s' ∧
     (groups_full fs s0 rest ∨ unreliable (D := D) (H := H))) ∨ inode_claimed fs s0 r s') s') →
  wp (allocate_inode_in (Z.of_nat g :: rest)) (λ r s', (r = 0 ∧ like fs s0 s' ∧
     (groups_full fs s0 (Z.of_nat g :: rest) ∨ unreliable (D := D) (H := H))) ∨ inode_claimed fs s0 r s') s.
Proof.
  intros Hw Hok Hl Hg IH. pose proof Hok as (Hipg & Hlen & Hgc & Hbm & Hdis).
  set (ipg := s_inodes_per_group (superblock fs)) in *.
  assert (∀ s', like fs s0 s' → (bg_free_inodes_count gd = 0 ∨ ∀ i, 0 <= i < ipg →
      bit (blk fs s0 (bg_inode_bitmap gd)) i = true) ∨ unreliable (D := D) (H := H) →
    wp (allocate_inode_in rest) (λ r s', (r = 0 ∧ like fs s0 s' ∧
     (groups_full fs s0 (Z.of_nat g :: rest) ∨ unreliable (D := D) (H := H))) ∨ inode_claimed fs s0 r s') s') as Hnext.
  { intros s' Hl' Hfull. eapply wp_mono; [by apply IH|]. intros r s2 [(-> & Hl2 & [Hr|Hr])|Hr]; [left|left; auto|by right].
    split_and!; [done|done|]. destruct Hfull as [Hfull|]; [left|by right].
    intros g' gd' i [Heq|Hin]%elem_of_cons Hg' Hc Hi; [|by eapply Hr].
    apply Nat2Z.inj in Heq as ->. rewrite Hg in Hg'. injection Hg' as <-. destruct Hfull as [|Hfull]; [done|by apply Hfull]. }
  cbn [allocate_inode_in]. apply wp_bind. eapply wp_instance; [exact Hl|]. apply wp_bind.
  eapply wp_lift; [unfold index; rewrite (proj2 (Z.ltb_ge (Z.of_nat g) 0)) by lia; rewrite Nat2Z.id; exact Hg|].
  destruct (bg_free_inodes_count gd =? 0) eqn:Hc; zbool; [by apply Hnext; auto|].
  apply wp_bind. eapply wp_alloc; [exact Hl|]. clear s Hl. intros p s Hl Hp. destruct (p =? 0) eqn:Hp0; zbool.
  { apply wp_ret. left. auto. }
  apply wp_bind. eapply wp_read_block; [done|by eapply Hbm|]. clear s Hl. intros r s Hl [[-> Hu]| ->].
  { apply wp_bind. eapply wp_free; [done|]. intros. by apply Hnext; auto. }
  apply wp_bind. pose proof (blk_ok fs s (bg_inode_bitmap gd) ltac:(by eapply like_mounted)) as [Hbl Hbb].
  rewrite (like_blk _ _ _ _ Hl) in Hbl, Hbb. fold ipg.
  eapply wp_mono; [apply (claim_bit_ok fs s0); try done; [by eapply Hbm|]|].
  { apply Forall_forall. intros i Hi%elem_of_seqZ. lia. }
  intros r s1 [(-> & Hl1 & Hall)|(i & d & -> & Hi & Hbit & Hwr & Hd)].
  - apply wp_bind. eapply wp_free; [done|]. intros s2 Hl2. apply Hnext; [done|]. left. right.
    intros i Hi. apply Hall, elem_of_seqZ. lia.
  - apply elem_of_seqZ in Hi. apply wp_bind. eapply wp_count_inode; [done|done|]. intros fs' Hcnt.
    apply wp_bind, wp_free_set_heap. intros h. apply wp_ret. right. exists g, gd, i, d, fs', s1, h.
    split_and!; try done; try lia. fold ipg. apply u32_small. apply lookup_lt_Some in Hg. unfold is_u32. nia.
Qed.

Lemma allocate_inode_in_ok fs s0 : ∀ k g s,
  ¬ write_fails (D := D) → bitmaps_ok fs → like fs s0 s → (g + k = length (group_desc fs))%nat →
  wp (allocate_inode_in (seqZ (Z.of_nat g) (Z.of_nat k))) (λ r s', (r = 0 ∧ like fs s0 s' ∧
     (groups_full fs s0 (seqZ (Z.of_nat g) (Z.of_nat k)) ∨ unreliable (D := D) (H := H))) ∨ inode_claimed fs s0 r s') s.
Proof.
  induction k as [|k IH]; intros g s Hw Hok Hl Hk.
  - apply wp_ret. left. split_and!; [done|done|left]. intros ??? Hin. by apply not_elem_of_nil in Hin.
  - destruct (lookup_lt_is_Some_2 (group_desc fs) g) as [gd Hg]; [lia|].
    rewrite seqZ_cons by lia. replace (Z.pred (Z.of_nat (S k))) with (Z.of_nat k) by lia.
    replace (Z.succ (Z.of_nat g)) with (Z.of_nat (S g)) by lia.
    eapply search_group_ok; [done..|]. intros s' Hl'. apply IH; [done..|lia].
Qed.


(** [free_inode_bitmap] clears the mark of its inode and no other. *)
Theorem free_inode_bitmap_correct fs s n :
  ¬ write_fails (D := D) → mounted fs s → bitmaps_ok fs → valid_inode fs n →
  wp (free_inode_bitmap n)
    (λ ok s', (ok = false ∧ like fs s s' ∧ unreliable (D := D) (H := H)) ∨
              (ok = true ∧ ∃ fs', mounted fs' s' ∧
                 ∀ m, valid_inode fs m → inode_used fs' s' m = inode_used fs s m && negb (m =? n))) s.
Proof.
  intros Hw Hm Hok Hv. pose proof Hok as (Hipg & Hlen & Hgc & Hbm & _). pose proof (like_refl fs s Hm) as Hl.
  unfold free_inode_bitmap. apply wp_bind. eapply wp_get_instance; [done|]. unfold valid_inode in Hv.
  rewrite (proj2 (Z.eqb_neq n 0)) by lia. set (ipg := s_inodes_per_group (superblock fs)) in *.
  apply wp_bind, wp_div; [lia|]. apply wp_bind, wp_modulo; [lia|].
  pose proof (Z.div_mod (n - 1) ipg ltac:(lia)) as Hdm. pose proof (Z.mod_pos_bound (n - 1) ipg ltac:(lia)) as Hmod.
  assert (0 <= (n - 1) / ipg) as H0 by (apply Z.div_pos; lia).
  destruct (lookup_lt_is_Some_2 (group_desc fs) (Z.to_nat ((n - 1) / ipg))) as [gd Hg]; [nia|].
  apply wp_bind. eapply wp_alloc; [done|]. intros p s1 Hl1 Hp. destruct (p =? 0) eqn:Hp0; zbool.
  { apply wp_ret. left. auto. }
  apply wp_bind. eapply wp_lift; [unfold index; rewrite (proj2 (Z.ltb_ge ((n - 1) / ipg) 0)) by lia; exact Hg|].
  apply wp_bind. eapply wp_read_block; [done|by eapply Hbm|]. clear s1 Hl1. intros r s1 Hl1 [[-> Hu]| ->].
  { apply wp_bind. eapply wp_free; [done|]. intros. apply wp_ret. left. auto. }
  pose proof (blk_ok fs s (bg_inode_bitmap gd) Hm) as [Hbl Hbb].
  destruct (change_bit (blk fs s (bg_inode_bitmap gd)) ((n - 1) mod ipg)
    (λ x, Z.land x (Z.lnot (Z.shiftl 1 ((n - 1) mod ipg mod 8)))) false) as
    (x & d & Hgx & Hx & _ & Hpx & Hdl & Hdb & Hd); [done|lia|by apply clear_bit_spec|].
  apply wp_bind. unfold clear_bit. apply wp_bind. eapply wp_lift; [exact Hgx|]. eapply wp_lift; [exact Hpx|].
  apply wp_bind. eapply wp_write_block; [done|by eapply Hbm|lia|done|]. intros ok s2 Hwr Hwf.
  destruct ok; [|by destruct Hw; auto]. apply wp_bind.
  rewrite <- (Z2Nat.id ((n - 1) / ipg)) by lia. eapply wp_count_inode; [done|done|]. intros fs' Hc.
  apply wp_bind, wp_free_set_heap. intros h. apply wp_ret. right. split; [done|]. exists fs'.
  split; [by eapply (counted_mounted _ _ _ _ s2); [|apply Hwr]|]. intros m Hmv.
  change (set_heap h (with_instance fs' (heap s2) s2)) with (with_instance fs' h s2).
  rewrite (counted_used _ _ _ _ _ _ _ Hc), (wrote_inode_used fs s s2 _ gd _ d false m Hok Hg Hmod Hwr Hd Hmv).
  fold ipg. assert (Z.of_nat (Z.to_nat ((n - 1) / ipg)) * ipg + (n - 1) mod ipg + 1 = n) as -> by nia.
  destruct (m =? n); [by rewrite andb_false_r|by rewrite andb_true_r].
Qed.
End alloc.

(** ** Witnesses *)

Lemma demo_writes : ¬ write_fails (D := gmap Z (list Z)).
Proof. intros (lba & n & data & d & Hf). discriminate Hf. Qed.

Lemma demo_bitmaps_ok : bitmaps_ok demo_fs.
Proof.
  split; [done|]. split; [done|]. split; [done|]. split.
  - intros [|g] gd; [|done]. intros [= <-]. by apply demo_block_ok.
  - intros [|g] [|g'] gd gd'; done.
Qed.

Lemma demo_not_full : ¬ groups_full demo_fs demo_state (seqZ 0 1).
Proof.
  intros Hf. specialize (Hf 0%nat (mk_gd 3 4 5 50 5 1 0 [0; 0; 0]) 11 (list_elem_of_here _ _) eq_refl ltac:(done) ltac:(split; done)).
  vm_compute in Hf. discriminate Hf.
Qed.


Lemma free_inode_bitmap_correct_witness :
  inode_used demo_fs demo_state 3 = true ∧
  wp (free_inode_bitmap 3)
    (λ ok s', ok = true ∧ ∃ fs', mounted fs' s' ∧
       ∀ m, valid_inode demo_fs m → inode_used fs' s' m = inode_used demo_fs demo_state m && negb (m =? 3)) demo_state.
Proof.
  split; [vm_compute; reflexivity|].
  eapply wp_mono; [apply (free_inode_bitmap_correct demo_fs demo_state 3 demo_writes demo_mounted demo_bitmaps_ok); split; done|].
  intros ok s' [(_ & _ & Hu)|Hr]; [destruct (demo_reliable (or_introl Hu))|exact Hr].
Defined.
