(* ===== verification/Ext2Dir.v ===== *)
(** * The ext2 driver: directories

    What looking up a name promises, and what inserting an entry does to the
    entries that follow it. *)
From S2P Require Import Prelude Interfaces Monad Bytes Str Ext2Types Ext2 Ext2Demo Ext2Spec.

(** ** Entries of one block *)

(** The name of an entry lies inside the block. *)
Definition name_inside (bs : Z) (pe : Z * ext2_dir_entry) : Prop :=
  0 <= pe.1 ∧ 0 <= de_name_len pe.2 ∧ pe.1 + SIZEOF_DIR_ENTRY + de_name_len pe.2 <= bs.

Definition has_name (name data : list Z) (pe : Z * ext2_dir_entry) : bool :=
  (strlen name =? de_name_len pe.2) &&
  bool_decide (slice data (pe.1 + SIZEOF_DIR_ENTRY) (de_name_len pe.2) = Some name).

(** The first entry of that name: its inode, or nothing. *)
Definition first_in_block (name data : list Z) (es : list (Z * ext2_dir_entry)) : option Z :=
  (λ pe, de_inode pe.2) <$> List.find (has_name name data) es.

Lemma name_matches_spec bs data name pos e :
  Z.of_nat (length data) = bs → name_inside bs (pos, e) →
  name_matches data name pos e = Some (has_name name data (pos, e)).
Proof.
  intros Hl (H0 & Hn & Hin). cbn in *. unfold name_matches, has_name. cbn.
  destruct (strlen name =? de_name_len e) eqn:Hs; [|done]. zbool. simpl.
  destruct (slice_some data (pos + SIZEOF_DIR_ENTRY) (de_name_len e)) as [l Hsl]; [unfold SIZEOF_DIR_ENTRY in *; lia..|].
  rewrite Hsl. simpl. f_equal. pose proof (slice_length _ _ _ _ Hsl) as Hll. rewrite strlen_length in Hs.
  apply eq_true_iff_eq. rewrite Z.eqb_eq, bool_decide_eq_true, memcmp_eq by lia.
  rewrite !take_ge by lia. split; [by intros ->|congruence].
Qed.

Lemma find_in_block_spec fuel bs data name : ∀ pos es,
  Z.of_nat (length data) = bs → block_entries fuel bs data pos = Some es → Forall (name_inside bs) es →
  find_in_block fuel bs data name pos = Some (first_in_block name data es).
Proof.
  induction fuel as [|fuel IH]; intros pos es Hl Hes Hin; [done|]. cbn [block_entries find_in_block] in *.
  destruct (negb (pos <? bs)); [by simplify_eq|]. destruct (entry_at data pos) as [e|]; [|done].
  cbn [mbind option_bind] in *.
  assert (∀ here, here = (if de_inode e =? 0 then [] else [(pos, e)]) → Forall (name_inside bs) here →
    ∃ hit, (if de_inode e =? 0 then Some false else name_matches data name pos e) = Some hit ∧
      first_in_block name data here = if hit then Some (de_inode e) else None) as Hhere.
  { intros here -> Hn. destruct (de_inode e =? 0); [by exists false|]. apply Forall_cons in Hn as [Hn _].
    rewrite (name_matches_spec bs) by done. eexists. split; [done|]. unfold first_in_block. simpl.
    by destruct (has_name _ _ _). }
  assert (∀ here rest, first_in_block name data (here ++ rest) =
    match first_in_block name data here with Some i => Some i | None => first_in_block name data rest end) as Happ.
  { intros here rest. unfold first_in_block. induction here as [|x here IHh]; simpl; [done|]. by destruct (has_name _ _ _). }
  destruct (next_entry bs pos e) as [pos'|].
  - destruct (block_entries fuel bs data pos') as [rest|] eqn:Hr; [|done]. cbn [mbind option_bind] in Hes. simplify_eq.
    apply Forall_app in Hin as [Hi1 Hi2]. destruct (Hhere _ eq_refl Hi1) as (hit & -> & Hf). cbn [mbind option_bind].
    rewrite Happ, Hf. destruct hit; [done|]. by apply IH.
  - simplify_eq. destruct (Hhere _ eq_refl Hin) as (hit & -> & Hf). cbn [mbind option_bind]. rewrite Hf.
    by destruct hit.
Qed.

Section directory.
Context {D H : Type} `{!BlockDev D, !Malloc H}.
Implicit Types (fs : ext2_fs) (s : state D H).

(** The blocks of a directory with their entries. *)
Definition dir_block_at fs s (ino : ext2_inode) (k : Z) (x : list Z * list (Z * ext2_dir_entry)) : Prop :=
  (∃ ts b, inode_path fs s ino k = Some (ts, b) ∧ Forall (block_ok fs) (b :: ts) ∧ blk fs s b = x.1) ∧
  block_entries (S (Z.to_nat (block_size fs))) (block_size fs) x.1 0 = Some x.2 ∧
  Forall (name_inside (block_size fs)) x.2.

Definition dir_blocks_at fs s (ino : ext2_inode) (blocks : list (list Z * list (Z * ext2_dir_entry))) : Prop :=
  (∀ k x, blocks !! k = Some x → dir_block_at fs s ino (Z.of_nat k) x) ∧
  (Z.of_nat (length blocks) - 1) * block_size fs < i_size ino <= Z.of_nat (length blocks) * block_size fs ∧
  0 <= i_size ino ∧ i_size ino + block_size fs <= 4294967296.

(** All entries, and the inode that a name stands for (0 for none). *)
Definition dir_entries (blocks : list (list Z * list (Z * ext2_dir_entry))) : list (list Z * (Z * ext2_dir_entry)) :=
  concat ((λ x : list Z * list (Z * ext2_dir_entry), (λ e, (x.1, e)) <$> x.2) <$> blocks).

Definition lookup_name (name : list Z) (blocks : list (list Z * list (Z * ext2_dir_entry))) : Z :=
  match List.find (λ x, has_name name x.1 x.2) (dir_entries blocks) with Some x => de_inode x.2.2 | None => 0 end.

Lemma lookup_name_cons name x blocks :
  lookup_name name (x :: blocks) =
    match first_in_block name x.1 x.2 with Some i => i | None => lookup_name name blocks end.
Proof.
  unfold lookup_name, dir_entries, first_in_block. cbn [fmap list_fmap concat].
  destruct x as [data es]. cbn [fst snd]. induction es as [|e es IH]; [done|]. simpl.
  destruct (has_name name data e); [done|]. exact IH.
Qed.

(** The condition of the loops. *)
Lemma more_blocks fs ino k (n : nat) :
  0 < block_size fs → (Z.of_nat n - 1) * block_size fs < i_size ino <= Z.of_nat n * block_size fs →
  0 <= i_size ino → i_size ino + block_size fs <= 4294967296 → 0 <= k <= Z.of_nat n →
  (u32 (k * block_size fs) <? i_size ino) = (k <? Z.of_nat n).
Proof.
  intros Hbs Hn H0 Hi Hk. rewrite u32_small by (unfold is_u32; nia).
  apply eq_true_iff_eq. rewrite !Z.ltb_lt. nia.
Qed.

Lemma find_file_loop_ok fs s0 ino name blocks : ∀ k rest fuel s,
  like fs s0 s → dir_blocks_at fs s0 ino blocks → drop k blocks = rest → (k <= length blocks)%nat →
  (length rest <= fuel)%nat →
  wp (find_file_loop fuel (block_size fs) ino name (Z.of_nat k))
    (λ r s', like fs s0 s' ∧ (r = lookup_name name rest ∨ unreliable (D := D) (H := H))) s.
Proof.
  intros k rest. revert k. induction rest as [|x rest IH]; intros k fuel s Hl Hd Hdrop Hk Hfuel;
    pose proof Hd as (Hb & Hn & Hi0 & Hi); pose proof Hl as ((_ & _ & _ & [Hbs _]) & _);
    pose proof (more_blocks fs ino (Z.of_nat k) (length blocks) ltac:(lia) Hn Hi0 Hi ltac:(lia)) as Hmore.
  - assert (k = length blocks) as ->. { apply (f_equal length) in Hdrop. rewrite length_drop in Hdrop. simpl in *. lia. }
    rewrite Z.ltb_irrefl in Hmore. destruct fuel; cbn [find_file_loop]; rewrite Hmore; apply wp_ret; auto.
  - assert (blocks !! k = Some x) as Hx by (rewrite <- (Nat.add_0_r k), <- lookup_drop, Hdrop; done).
    pose proof (lookup_lt_Some _ _ _ Hx) as Hlt. destruct fuel as [|fuel]; [simpl in *; lia|].
    cbn [find_file_loop]. rewrite Hmore, (proj2 (Z.ltb_lt _ _)) by lia. cbn [negb].
    destruct (Hb k x Hx) as ((ts & b & Hp & Hok & Hblk) & Hes & Hin).
    apply wp_bind. eapply wp_read_inode_block; [done..|]. clear s Hl. intros r s Hl Hr.
    assert (∀ s, like fs s0 s → wp (find_file_loop fuel (block_size fs) ino name (u32 (Z.of_nat k + 1)))
      (λ r s', like fs s0 s' ∧ (r = lookup_name name rest ∨ unreliable (D := D) (H := H))) s) as Hnext.
    { intros s' Hl'. rewrite u32_small by (unfold is_u32; nia).
      replace (Z.of_nat k + 1) with (Z.of_nat (S k)) by lia. apply IH; [done|done| |lia|simpl in *; lia].
      change (S k) with (1 + k)%nat. rewrite Nat.add_comm, <- drop_drop, Hdrop. done. }
    assert (Z.of_nat (length x.1) = block_size fs) as Hlen.
    { rewrite <- Hblk, <- (like_blk fs s0 s b Hl). apply blk_ok. by eapply like_mounted. }
    destruct Hr as [[-> Hu]| ->].
    + apply wp_bind, wp_ret. eapply wp_mono; [by apply Hnext|]. intros r' s' [? _]. auto.
    + apply wp_bind. eapply wp_lift; [rewrite Hblk; by eapply find_in_block_spec|].
      rewrite lookup_name_cons. destruct (first_in_block name x.1 x.2); [apply wp_ret; auto|by apply Hnext].
Qed.

Lemma read_directory_loop_ok fs s0 ino blocks : ∀ k rest fuel s,
  like fs s0 s → dir_blocks_at fs s0 ino blocks → drop k blocks = rest → (k <= length blocks)%nat →
  (length rest <= fuel)%nat →
  wp (read_directory_loop fuel (block_size fs) ino (Z.of_nat k))
    (λ r s', like fs s0 s' ∧ (r = (true, dir_entries rest) ∨ (r.1 = false ∧ unreliable (D := D) (H := H)))) s.
Proof.
  intros k rest. revert k. induction rest as [|x rest IH]; intros k fuel s Hl Hd Hdrop Hk Hfuel;
    pose proof Hd as (Hb & Hn & Hi0 & Hi); pose proof Hl as ((_ & _ & _ & [Hbs _]) & _);
    pose proof (more_blocks fs ino (Z.of_nat k) (length blocks) ltac:(lia) Hn Hi0 Hi ltac:(lia)) as Hmore.
  - assert (k = length blocks) as ->. { apply (f_equal length) in Hdrop. rewrite length_drop in Hdrop. simpl in *. lia. }
    rewrite Z.ltb_irrefl in Hmore. destruct fuel; cbn [read_directory_loop]; rewrite Hmore; apply wp_ret; auto.
  - assert (blocks !! k = Some x) as Hx by (rewrite <- (Nat.add_0_r k), <- lookup_drop, Hdrop; done).
    pose proof (lookup_lt_Some _ _ _ Hx) as Hlt. destruct fuel as [|fuel]; [simpl in *; lia|].
    cbn [read_directory_loop]. rewrite Hmore, (proj2 (Z.ltb_lt _ _)) by lia. cbn [negb].
    destruct (Hb k x Hx) as ((ts & b & Hp & Hok & Hblk) & Hes & Hin).
    apply wp_bind. eapply wp_read_inode_block; [done..|]. clear s Hl. intros r s Hl [[-> Hu]| ->].
    { apply wp_ret. auto. }
    apply wp_bind. eapply wp_lift; [rewrite Hblk; exact Hes|]. apply wp_bind.
    rewrite u32_small by (unfold is_u32; nia). replace (Z.of_nat k + 1) with (Z.of_nat (S k)) by lia.
    eapply wp_mono; [apply IH; [done|done| |lia|simpl in *; lia]|].
    { change (S k) with (1 + k)%nat. rewrite Nat.add_comm, <- drop_drop, Hdrop. done. }
    intros [ok l] s' [Hl' Hr]. apply wp_ret. split; [done|]. destruct Hr as [[= -> ->]|[Hf Hu]]; [left|by right].
    rewrite Hblk. done.
Qed.

Lemma dir_fuel_enough fs s ino blocks :
  0 < block_size fs → dir_blocks_at fs s ino blocks → (length blocks <= directory_fuel (block_size fs) ino)%nat.
Proof.
  intros Hbs (_ & Hn & H0 & _). unfold directory_fuel.
  assert (Z.of_nat (length blocks) - 1 <= i_size ino / block_size fs) by (apply Z.div_le_lower_bound; lia).
  assert (0 <= i_size ino / block_size fs) by (apply Z.div_pos; lia). lia.
Qed.

End directory.

(** ** Witnesses *)

Definition demo_entries : list (Z * ext2_dir_entry) :=
  [(0, mk_entry 2 12 1 2); (12, mk_entry 2 12 2 2); (24, mk_entry 3 1000 5 1)].
Definition demo_dir_blocks : list (list Z * list (Z * ext2_dir_entry)) := [(demo_dir, demo_entries)].

Lemma demo_dir_at : dir_blocks_at demo_fs demo_state demo_root demo_dir_blocks.
Proof.
  split; [|split; [split; reflexivity || (vm_compute; congruence)|split; vm_compute; congruence]].
  intros [|k] x; [|done]. intros [= <-]. split; [|split].
  - exists [], 7. split; [reflexivity|]. split; [|vm_compute; reflexivity].
    apply Forall_cons. split; [by apply demo_block_ok|done].
  - vm_compute. reflexivity.
  - repeat (apply Forall_cons; split; [split; [done|split; done]|]). done.
Qed.


(** ** What creating an entry does to its neighbours *)

(** The second entry has room for the name by the test of the code, which forgets
    the 8 bytes of the header: the new entry is written over the third one, whose
    name then leads to an inode number made of the new entry's fields. *)
Definition tight_dir : list Z :=
  pad (demo_entry 2 12 1 2 [46; 0; 0; 0] ++ demo_entry 2 16 1 2 ([46] ++ replicate 7 0) ++ demo_entry 3 996 5 1 hello).

Lemma insert_overwrites_next_entry :
  find_in_block 1025 1024 tight_dir hello 0 = Some (Some 3) ∧
  (d ← insert_in_block 1025 1024 tight_dir [120] 9 1 12 0; d ← d; find_in_block 1025 1024 d hello 0) = Some (Some 16842756).
Proof. split; vm_compute; reflexivity. Qed.
