(* ===== verification/Gdt.v ===== *)
(** * The segment descriptors ([core/gdt.c])

    The descriptor table and the task state segment are the bytes of their
    packed structs, because a descriptor of a task state segment is written over
    two entries of the table.  Their addresses and the effect of the assembly
    routine [gdt_flush], which only loads processor registers, are parameters. *)
From S2P Require Import Prelude Monad Bytes.

Definition GDT_PRESENT : Z := 128.
Definition GDT_DESCRIPTOR : Z := 16.
Definition GDT_EXECUTABLE : Z := 8.
Definition GDT_READWRITE : Z := 2.
Definition GDT_GRANULARITY : Z := 128.
Definition GDT_SIZE_64 : Z := 32.

(** The sizes of the members of the packed structs of [gdt.h]. *)
Definition gdt_entry_layout : list nat := [2; 2; 1; 1; 1; 1]%nat.
Definition gdt_tss_entry_layout : list nat := [2; 2; 1; 1; 1; 1; 4; 4]%nat.
Definition tss_layout : list nat := ([4] ++ replicate 12 8 ++ [2; 2])%nat.

Definition SIZEOF_ENTRY : Z := Eval cbv in size_of gdt_entry_layout.
Definition NUM_ENTRIES : Z := 7.
Definition SIZEOF_TSS : Z := Eval cbv in size_of tss_layout.

Record gdt_ptr := mk_ptr { ptr_limit : Z; ptr_base : Z }.
Record gdt := mk_gdt { gdt_entries : list Z; gdt_pointer : gdt_ptr; tss : list Z }.

(** Storing a field of [n] bytes at an offset of the table or of the segment. *)
Definition put_entry (n : nat) (off v : Z) : M gdt () := λ s,
  l ← put_le n (gdt_entries s) off v; Some ((), mk_gdt l (gdt_pointer s) (tss s)).
Definition put_tss (n : nat) (off v : Z) : M gdt () := λ s,
  l ← put_le n (tss s) off v; Some ((), mk_gdt (gdt_entries s) (gdt_pointer s) l).

(** Storing member [k] of the entry at offset [e], and of the task state segment. *)
Definition set_member (layout : list nat) (k : nat) (e v : Z) : M gdt () :=
  put_entry (nth k layout 0%nat) (e + offset_of layout k) v.
Definition set_tss_member (k : nat) (v : Z) : M gdt () := put_tss (nth k tss_layout 0%nat) (offset_of tss_layout k) v.

Definition gdt_set_gate (num base limit access gran : Z) : M gdt () :=
  let e := SIZEOF_ENTRY * num in
  set_member gdt_entry_layout 1 e (Z.land base 65535);;
  set_member gdt_entry_layout 2 e (Z.land (Z.shiftr base 16) 255);;
  set_member gdt_entry_layout 5 e (Z.land (Z.shiftr base 24) 255);;
  set_member gdt_entry_layout 0 e (Z.land limit 65535);;
  set_member gdt_entry_layout 4 e (Z.lor (Z.land (Z.shiftr limit 16) 15) (Z.land gran 240));;
  set_member gdt_entry_layout 3 e access.

Definition gdt_set_tss (num base limit : Z) : M gdt () :=
  let e := SIZEOF_ENTRY * num in
  set_member gdt_tss_entry_layout 1 e (Z.land base 65535);;
  set_member gdt_tss_entry_layout 2 e (Z.land (Z.shiftr base 16) 255);;
  set_member gdt_tss_entry_layout 5 e (Z.land (Z.shiftr base 24) 255);;
  set_member gdt_tss_entry_layout 6 e (Z.land (Z.shiftr base 32) 4294967295);;
  set_member gdt_tss_entry_layout 0 e limit;;
  set_member gdt_tss_entry_layout 3 e 137;;
  set_member gdt_tss_entry_layout 4 e 0;;
  set_member gdt_tss_entry_layout 7 e 0.

(** Lines 50 to 54 of [gdt_init]. *)
Definition set_stacks : M gdt () :=
  set_tss_member 5 327680;;
  set_tss_member 6 331776;;
  set_tss_member 7 335872;;
  set_tss_member 8 339968;;
  set_tss_member 14 SIZEOF_TSS.

Definition gdt_init (entries_address tss_address : Z) : M gdt () :=
  modify (λ s, mk_gdt (gdt_entries s) (mk_ptr (SIZEOF_ENTRY * NUM_ENTRIES - 1) entries_address) (tss s));;
  for_list (seqZ 0 SIZEOF_TSS) (λ i, put_tss 1 i 0);;
  set_stacks;;
  gdt_set_gate 0 0 0 0 0;;
  gdt_set_gate 1 0 4294967295
    (Z.lor (Z.lor (Z.lor GDT_PRESENT GDT_DESCRIPTOR) GDT_EXECUTABLE) GDT_READWRITE) (Z.lor GDT_GRANULARITY GDT_SIZE_64);;
  gdt_set_gate 2 0 4294967295
    (Z.lor (Z.lor GDT_PRESENT GDT_DESCRIPTOR) GDT_READWRITE) (Z.lor GDT_GRANULARITY GDT_SIZE_64);;
  gdt_set_tss 5 tss_address SIZEOF_TSS.

Definition gdt_load_tss (rsp0 : Z) : M gdt () := set_tss_member 1 rsp0.

(** ** How the processor reads a descriptor *)

Definition field (n : nat) (l : list Z) (off : Z) : Z := default 0 (get_le n l off).
Definition desc_base (l : list Z) (num : Z) : Z :=
  let e := SIZEOF_ENTRY * num in field 2 l (e + 2) + 65536 * field 1 l (e + 4) + 16777216 * field 1 l (e + 7).
Definition desc_base64 (l : list Z) (num : Z) : Z := desc_base l num + 4294967296 * field 4 l (SIZEOF_ENTRY * num + 8).
Definition desc_limit (l : list Z) (num : Z) : Z :=
  let e := SIZEOF_ENTRY * num in field 2 l e + 65536 * (field 1 l (e + 6) mod 16).
Definition desc_access (l : list Z) (num : Z) : Z := field 1 l (SIZEOF_ENTRY * num + 5).
Definition desc_flags (l : list Z) (num : Z) : Z := field 1 l (SIZEOF_ENTRY * num + 6) / 16 * 16.

(** ** The fields come back *)

Lemma wp_put_entry n off v (Q : () → gdt → Prop) s :
  0 <= off → off + Z.of_nat n <= Z.of_nat (length (gdt_entries s)) →
  (∀ l, put_le n (gdt_entries s) off v = Some l → length l = length (gdt_entries s) → Q () (mk_gdt l (gdt_pointer s) (tss s))) →
  wp (put_entry n off v) Q s.
Proof.
  intros H0 Hl HQ. unfold put_entry, wp.
  destruct (splice_some (gdt_entries s) off (le_enc n v)) as [l Hs]; [done|by rewrite le_enc_length|].
  unfold put_le. rewrite Hs. cbn. apply HQ; [done|]. by eapply splice_length.
Qed.

Lemma wp_put_tss n off v (Q : () → gdt → Prop) s :
  0 <= off → off + Z.of_nat n <= Z.of_nat (length (tss s)) →
  (∀ l, put_le n (tss s) off v = Some l → length l = length (tss s) → Q () (mk_gdt (gdt_entries s) (gdt_pointer s) l)) →
  wp (put_tss n off v) Q s.
Proof.
  intros H0 Hl HQ. unfold put_tss, wp.
  destruct (splice_some (tss s) off (le_enc n v)) as [l Hs]; [done|by rewrite le_enc_length|].
  unfold put_le. rewrite Hs. cbn. apply HQ; [done|]. by eapply splice_length.
Qed.

(** What the table holds between two offsets is the same in both. *)
Definition same_outside (l l' : list Z) (a b : Z) : Prop :=
  ∀ n off, 0 <= off → off + Z.of_nat n <= a ∨ b <= off → get_le n l' off = get_le n l off.

Lemma byte_parts x : is_u32 x → Z.land x 65535 + 65536 * Z.land (Z.shiftr x 16) 255 + 16777216 * Z.land (Z.shiftr x 24) 255 = x.
Proof.
  intros. change 65535 with (2 ^ 16 - 1). change 255 with (2 ^ 8 - 1). rewrite !land_mask by lia. rewrite !Z.shiftr_div_pow2 by lia. cbn. ulia.
Qed.

Lemma part_range x w : 0 <= w → 0 <= Z.land x (2 ^ w - 1) < 2 ^ w.
Proof. intros. rewrite land_mask by done. apply Z.mod_pos_bound. by apply Z.pow_pos_nonneg. Qed.

Lemma nibbles a b : is_u8 b → Z.lor (Z.land a 15) (Z.land b 240) = a mod 16 + b / 16 * 16.
Proof.
  intros Hb. pose proof (Z.add_lor_land (Z.land a 15) (Z.land b 240)) as E.
  assert (Z.land (Z.land a 15) (Z.land b 240) = 0) as E0.
  { rewrite (Z.land_comm b), <- Z.land_assoc, (Z.land_assoc 15). apply Z.land_0_r. }
  rewrite E0, Z.add_0_r in E. rewrite E. change 15 with (2 ^ 4 - 1). rewrite land_mask by lia.
  change 240 with (2 ^ 8 - 2 ^ 4). by rewrite land_high_mask by (cbn; ulia).
Qed.

(** A value fits its field; read a field through the stores above it; one store. *)
Ltac in_field :=
  first [ exact (part_range _ 8 ltac:(lia)) | exact (part_range _ 16 ltac:(lia)) | exact (part_range _ 32 ltac:(lia))
        | cbn; ulia | rewrite nibbles by done; cbn; ulia ].
Ltac through :=
  repeat first
    [ erewrite get_put_same by first [eassumption | in_field]
    | erewrite get_put_other by (eassumption || lia) ].
Ltac gdt_step :=
  apply wp_put_entry; cbn [gdt_entries gdt_pointer tss]; [lia|lia|intros ?l ?H ?E; cbn [gdt_entries gdt_pointer tss] in * ].

Lemma gdt_set_gate_spec num base limit access gran s :
  0 <= num → SIZEOF_ENTRY * num + 8 <= Z.of_nat (length (gdt_entries s)) → is_u32 base → is_u32 limit → is_u8 access → is_u8 gran →
  wp (gdt_set_gate num base limit access gran) (λ _ s',
    length (gdt_entries s') = length (gdt_entries s) ∧ tss s' = tss s ∧ gdt_pointer s' = gdt_pointer s ∧
    desc_base (gdt_entries s') num = base ∧ desc_limit (gdt_entries s') num = limit mod 1048576 ∧
    desc_access (gdt_entries s') num = access ∧ desc_flags (gdt_entries s') num = gran / 16 * 16 ∧
    same_outside (gdt_entries s) (gdt_entries s') (SIZEOF_ENTRY * num) (SIZEOF_ENTRY * num + 8)) s.
Proof.
  intros Hn Hl Hb Hlim Ha Hg. unfold gdt_set_gate, set_member, desc_base, desc_limit, desc_access, desc_flags, field, SIZEOF_ENTRY in *. cbv zeta. cbn [nth gdt_entry_layout gdt_tss_entry_layout]. offsets.
  assert (0 <= 8 * num) as He by lia. generalize dependent (8 * num). clear num Hn. intros e Hl He.
  do 5 (apply wp_bind; gdt_step). gdt_step. split_and!; [congruence|done|done|..].
  - through. cbn [default]. by apply byte_parts.
  - through. cbn [default]. rewrite nibbles by done.
    change 65535 with (2 ^ 16 - 1). rewrite land_mask, Z.shiftr_div_pow2 by lia. cbn. ulia.
  - by through.
  - through. cbn [default]. rewrite nibbles by done. rewrite Z.shiftr_div_pow2 by lia. cbn. ulia.
  - intros n off H0' Hoff. by through.
Qed.

Lemma gdt_set_tss_spec num base limit s :
  0 <= num → SIZEOF_ENTRY * num + 16 <= Z.of_nat (length (gdt_entries s)) → is_u64 base → is_u16 limit →
  wp (gdt_set_tss num base limit) (λ _ s',
    length (gdt_entries s') = length (gdt_entries s) ∧ tss s' = tss s ∧ gdt_pointer s' = gdt_pointer s ∧
    desc_base64 (gdt_entries s') num = base ∧ desc_limit (gdt_entries s') num = limit ∧
    desc_access (gdt_entries s') num = 137 ∧ desc_flags (gdt_entries s') num = 0 ∧
    same_outside (gdt_entries s) (gdt_entries s') (SIZEOF_ENTRY * num) (SIZEOF_ENTRY * num + 16)) s.
Proof.
  intros Hn Hl Hb Hlim. unfold gdt_set_tss, set_member, desc_base64, desc_base, desc_limit, desc_access, desc_flags, field, SIZEOF_ENTRY in *. cbv zeta. cbn [nth gdt_entry_layout gdt_tss_entry_layout]. offsets.
  assert (0 <= 8 * num) as He by lia. generalize dependent (8 * num). clear num Hn. intros e Hl He.
  do 7 (apply wp_bind; gdt_step). gdt_step. split_and!; [congruence|done|done|..].
  - through. cbn [default]. change 65535 with (2 ^ 16 - 1). change 255 with (2 ^ 8 - 1). change 4294967295 with (2 ^ 32 - 1).
    rewrite !land_mask, !Z.shiftr_div_pow2 by lia. cbn. ulia.
  - through. cbn [default id]. change (0 mod 16) with 0. lia.
  - by through.
  - by through.
  - intros n off H0' Hoff. by through.
Qed.

(** What a descriptor says does not depend on the other entries. *)
Record same_desc (l l' : list Z) (num : Z) : Prop := {
  sd_base : desc_base l' num = desc_base l num;
  sd_limit : desc_limit l' num = desc_limit l num;
  sd_access : desc_access l' num = desc_access l num;
  sd_flags : desc_flags l' num = desc_flags l num }.

Lemma same_outside_desc l l' a b num :
  same_outside l l' a b → 0 <= num → SIZEOF_ENTRY * num + 8 <= a ∨ b <= SIZEOF_ENTRY * num → same_desc l l' num.
Proof.
  unfold same_outside. intros Hs Hn Hd. constructor; unfold desc_base, desc_limit, desc_access, desc_flags, field, SIZEOF_ENTRY in *;
    cbv zeta; rewrite !Hs by lia; done.
Qed.

Lemma same_desc_trans l l' l'' num : same_desc l l' num → same_desc l' l'' num → same_desc l l'' num.
Proof. intros [] []. constructor; congruence. Qed.

(** The stacks of the interrupt stack table, 1 to 7, and the stack of ring 0. *)
Definition tss_ist (l : list Z) (i : Z) : option Z := get_le 8 l (28 + 8 * i).
Definition tss_rsp0 (l : list Z) : option Z := get_le 8 l 4.

Record segment (l : list Z) (num base limit access flags : Z) : Prop := {
  sg_base : desc_base l num = base;
  sg_limit : desc_limit l num = limit;
  sg_access : desc_access l num = access;
  sg_flags : desc_flags l num = flags }.

Lemma segment_same l l' num base limit access flags :
  segment l num base limit access flags → same_desc l l' num → segment l' num base limit access flags.
Proof. intros [] []. constructor; congruence. Qed.

Lemma wp_clear_tss s :
  length (tss s) = Z.to_nat SIZEOF_TSS →
  wp (for_list (seqZ 0 SIZEOF_TSS) (λ i, put_tss 1 i 0))
    (λ _ s', s' = mk_gdt (gdt_entries s) (gdt_pointer s) (replicate (Z.to_nat SIZEOF_TSS) 0)) s.
Proof.
  intros Hl. eapply wp_mono.
  - apply (wp_for_list _ _ (λ done s', gdt_entries s' = gdt_entries s ∧ gdt_pointer s' = gdt_pointer s ∧ length (tss s') = length (tss s) ∧
      ∀ i, i ∈ done → tss s' !! Z.to_nat i = Some 0)).
    { split_and!; try done. set_solver. }
    intros pre i s1 [post Hp] (He & Hq & Hlen & Hz).
    assert (∀ j, j ∈ pre ++ [i] → 0 <= j < SIZEOF_TSS) as Hr by 
      (intros j Hj; enough (j ∈ seqZ 0 SIZEOF_TSS) as ?%elem_of_seqZ by lia; rewrite Hp; apply elem_of_app; by left).
    assert (0 <= i < SIZEOF_TSS) as Hi by (apply Hr; set_solver).
    apply wp_put_tss; [lia|rewrite Hlen, Hl; lia|]. intros l H E. cbn [gdt_entries gdt_pointer tss].
    split_and!; [done|done|congruence|]. intros j Hj. specialize (Hr j Hj).
    rewrite (splice_lookup _ _ _ _ _ H) by lia. cbn [le_enc length]. destruct (decide (j = i)) as [->|Hne].
    { rewrite (proj2 (Z.leb_le _ _)), (proj2 (Z.ltb_lt _ _)) by lia. by rewrite Z.sub_diag. }
    rewrite (proj2 (andb_false_iff _ _)).
    + apply Hz. apply elem_of_app in Hj as [Hj|Hj]; [done|set_solver].
    + rewrite Z.leb_gt, Z.ltb_ge. lia.
  - cbn beta. intros _ [l1 q1 t1] (He & Hq & Hlen & Hz). cbn [gdt_entries gdt_pointer tss] in *. subst. f_equal.
    rewrite Hl in Hlen. apply list_eq. intros k. destruct (decide (k < Z.to_nat SIZEOF_TSS)%nat).
    + rewrite lookup_replicate_2 by done. rewrite <- (Nat2Z.id k). apply Hz. apply elem_of_seqZ. lia.
    + rewrite !lookup_ge_None_2; [done|rewrite length_replicate; lia|lia].
Qed.

(** The stacks that [gdt_init] sets. *)
Lemma tss_stacks s :
  tss s = replicate (Z.to_nat SIZEOF_TSS) 0 →
  wp set_stacks
    (λ _ s', gdt_entries s' = gdt_entries s ∧ gdt_pointer s' = gdt_pointer s ∧
       ∀ i, 1 <= i <= 7 → tss_ist (tss s') i = Some (if i <=? 4 then 327680 + 4096 * (i - 1) else 0)) s.
Proof.
  destruct s as [e q t]. cbn [tss gdt_entries gdt_pointer]. intros ->.
  eassert (set_stacks (mk_gdt e q (replicate (Z.to_nat SIZEOF_TSS) 0)) = Some ((), mk_gdt e q _)) as E by (vm_compute; reflexivity).
  unfold wp. rewrite E. clear E. cbn [gdt_entries gdt_pointer tss]. refine (conj eq_refl (conj eq_refl _)). intros i Hi.
  assert (i = 1 ∨ i = 2 ∨ i = 3 ∨ i = 4 ∨ i = 5 ∨ i = 6 ∨ i = 7) as Hc by lia.
  destruct_or! Hc; subst; vm_compute; reflexivity.
Qed.

(** After [gdt_init] the processor reads a null descriptor, flat 64-bit code
    and data segments for ring 0, and a task state segment of 64-bit base; the
    interrupt stacks 1 to 4 are set, 5 to 7 are not, and entries 3 and 4, the user
    segments, are whatever they were. *)
Theorem gdt_init_correct entries_address tss_address s :
  length (gdt_entries s) = Z.to_nat (SIZEOF_ENTRY * NUM_ENTRIES) → length (tss s) = Z.to_nat SIZEOF_TSS → is_u64 tss_address →
  wp (gdt_init entries_address tss_address) (λ _ s',
    gdt_pointer s' = mk_ptr 55 entries_address ∧
    segment (gdt_entries s') 0 0 0 0 0 ∧
    segment (gdt_entries s') 1 0 1048575 154 160 ∧
    segment (gdt_entries s') 2 0 1048575 146 160 ∧
    (∀ num, num = 3 ∨ num = 4 → same_desc (gdt_entries s) (gdt_entries s') num) ∧
    desc_base64 (gdt_entries s') 5 = tss_address ∧ desc_access (gdt_entries s') 5 = 137 ∧ desc_limit (gdt_entries s') 5 = SIZEOF_TSS ∧
    (∀ i, 1 <= i <= 7 → tss_ist (tss s') i = Some (if i <=? 4 then 327680 + 4096 * (i - 1) else 0))) s.
Proof.
  intros Hl Ht Hb. unfold gdt_init. apply wp_bind, wp_modify, wp_bind.
  eapply wp_mono; [by apply wp_clear_tss|]. cbn beta. intros _ s1 ->. cbn [gdt_entries gdt_pointer].
  apply wp_bind. eapply wp_mono; [by apply tss_stacks|]. cbn [gdt_entries gdt_pointer]. cbn beta. intros _ s2 (E2 & P2 & Hist).
  assert (Z.of_nat (length (gdt_entries s)) = 56) as Hl56 by (rewrite Hl; done).
  do 3 (apply wp_bind; eapply wp_mono;
        [apply gdt_set_gate_spec; [lia|unfold SIZEOF_ENTRY; rewrite ?L0, ?L, ?E2; lia|split; vm_compute; congruence..]|];
        cbn beta; intros _ ?s (?L & ?T & ?P & ?D & ?D & ?D & ?D & ?O)).
  eapply wp_mono; [apply gdt_set_tss_spec; [lia|unfold SIZEOF_ENTRY; rewrite L1, L0, L, E2; lia|done|by vm_compute]|].
  cbn beta. intros _ s4 (L4 & T4 & P4 & B4 & M4 & A4 & F4 & O4).
  pose proof (λ num, same_outside_desc _ _ _ _ num O0) as Q1. pose proof (λ num, same_outside_desc _ _ _ _ num O1) as Q2.
  pose proof (λ num, same_outside_desc _ _ _ _ num O) as Q0. pose proof (λ num, same_outside_desc _ _ _ _ num O4) as Q4. unfold SIZEOF_ENTRY in *.
  split_and!; [by rewrite P4, P1, P0, P, P2| | | | |done|done|done|by rewrite T4, T1, T0, T].
  - eapply segment_same; [by constructor|]. do 2 (eapply same_desc_trans; [by first [apply Q1; lia|apply Q2; lia]|]). apply Q4; lia.
  - eapply segment_same; [by constructor|]. eapply same_desc_trans; [by apply Q2; lia|]. apply Q4; lia.
  - eapply segment_same; [by constructor|]. apply Q4; lia.
  - intros num Hn. rewrite <- E2. do 3 (eapply same_desc_trans; [first [apply Q0; lia|apply Q1; lia|apply Q2; lia]|]). apply Q4; lia.
Qed.

(** ** Witness *)

Definition demo_gdt : gdt := mk_gdt (replicate 56 255) (mk_ptr 0 0) (replicate 104 255).

Lemma gdt_init_correct_witness :
  ∃ s, gdt_init 4096 1311768467463790320 demo_gdt = Some ((), s) ∧ desc_base64 (gdt_entries s) 5 = 1311768467463790320 ∧
    desc_access (gdt_entries s) 3 = 255 ∧ tss_ist (tss s) 5 = Some 0.
Proof.
  assert (Hb : is_u64 1311768467463790320) by (unfold is_u64; lia).
  destruct (wp_run _ _ _ (gdt_init_correct 4096 1311768467463790320 demo_gdt eq_refl eq_refl Hb))
    as ([] & s & Hr & _ & _ & _ & _ & H34 & H5 & _ & _ & Hi).
  exists s. split; [exact Hr|]. split; [exact H5|]. split.
  - rewrite (sd_access _ _ _ (H34 3 (or_introl eq_refl))). reflexivity.
  - exact (Hi 5 ltac:(lia)).
Defined.
