(* ===== verification/Idt.v ===== *)
(** * The interrupt descriptors and their dispatch ([core/idt.c])

    Function pointers are addresses, 0 is NULL; calling one is the parameter
    [invoke].  The entry stubs are assembly: the table of their addresses is a
    parameter, as are the processor's instructions (class [Cpu]). *)
From S2P Require Import Prelude Monad.

Definition IDT_ENTRIES : Z := 256.
Definition IST_NONE : Z := 0.
Definition IST_DEBUG : Z := 1.
Definition IST_NMI : Z := 2.
Definition IST_DOUBLE_FAULT : Z := 3.
Definition IST_MCE : Z := 4.
Definition IST_STACK_FAULT : Z := 5.
Definition IST_GPF : Z := 6.
Definition INT_DEBUG : Z := 1.
Definition INT_NMI : Z := 2.
Definition INT_DOUBLE_FAULT : Z := 8.
Definition INT_STACK_FAULT : Z := 12.
Definition INT_GENERAL_PROTECTION : Z := 13.
Definition INT_PAGE_FAULT : Z := 14.
Definition INT_MACHINE_CHECK : Z := 18.
Definition IRQ1 : Z := 33.
Definition IRQ12 : Z := 44.
Definition IDT_GATE_INTERRUPT : Z := 142.

Record interrupt_frame_error := mk_frame { f_error_code : Z; f_rip : Z; f_cs : Z; f_rflags : Z; f_rsp : Z; f_ss : Z }.

Record idt_entry := mk_entry {
  base_low : Z; selector : Z; ist : Z; flags : Z; base_middle : Z; base_high : Z; reserved : Z }.
#[export] Instance idt_entry_inhabited : Inhabited idt_entry := populate (mk_entry 0 0 0 0 0 0 0).

Record idt_state := mk_idt {
  idt : list idt_entry; idtr_limit : Z; idtr_base : Z; interrupt_handlers : list Z; exception_handlers : list Z }.

(** [write_cr2] is [mov cr2, reg]. *)
Class Cpu (W : Type) := { cli : W → W; hlt : W → W; write_cr2 : Z → W → W }.

(** Storing at index [i] of an array; behind its end it faults. *)
Definition store_at {A} (l : list A) (i : Z) (x : A) : option (list A) :=
  if (0 <=? i) && (i <? Z.of_nat (length l)) then Some (<[Z.to_nat i := x]> l) else None.

Definition set_idt (f : list idt_entry → option (list idt_entry)) : M idt_state () := λ s,
  l ← f (idt s); Some ((), mk_idt l (idtr_limit s) (idtr_base s) (interrupt_handlers s) (exception_handlers s)).
Definition set_interrupt (i h : Z) : M idt_state () := λ s,
  l ← store_at (interrupt_handlers s) i h; Some ((), mk_idt (idt s) (idtr_limit s) (idtr_base s) l (exception_handlers s)).
Definition set_exception (i h : Z) : M idt_state () := λ s,
  l ← store_at (exception_handlers s) i h; Some ((), mk_idt (idt s) (idtr_limit s) (idtr_base s) (interrupt_handlers s) l).

(** The entry that [idt_set_descriptor] writes. *)
Definition descriptor (isr flags ist : Z) : idt_entry :=
  mk_entry (Z.land isr 65535) 8 (Z.land ist 7) flags (Z.land (Z.shiftr isr 16) 65535) (Z.land (Z.shiftr isr 32) 4294967295) 0.

Definition idt_set_descriptor (vector isr flags ist : Z) : M idt_state () :=
  set_idt (λ l, store_at l (u8 vector) (descriptor isr flags ist)).

Section idt.
Context (isr_stub_table : list Z).

(** The gate of a vector to its stub. *)
Definition set_stub (vector ist : Z) : M idt_state () :=
  isr ← lift (index isr_stub_table vector);
  idt_set_descriptor vector isr IDT_GATE_INTERRUPT ist.

(** [lidt] loads the two values that are stored first. *)
Definition idt_init (idt_address : Z) : M idt_state () :=
  modify (λ s, mk_idt (idt s) (u16 (16 * IDT_ENTRIES - 1)) idt_address (interrupt_handlers s) (exception_handlers s));;
  for_list (seqZ 0 IDT_ENTRIES) (λ i,
    set_stub i IST_NONE;;
    set_interrupt i 0;;
    if i <? 32 then set_exception i 0 else mret ());;
  set_stub INT_DEBUG IST_DEBUG;;
  set_stub INT_NMI IST_NMI;;
  set_stub INT_DOUBLE_FAULT IST_DOUBLE_FAULT;;
  set_stub INT_MACHINE_CHECK IST_MCE;;
  set_stub INT_STACK_FAULT IST_STACK_FAULT;;
  set_stub INT_GENERAL_PROTECTION IST_GPF.
End idt.

Definition register_interrupt_handler (vector handler : Z) : M idt_state () :=
  if 32 <=? vector then set_interrupt vector handler else mret ().
Definition register_exception_handler (vector handler : Z) : M idt_state () :=
  if vector <? 32 then set_exception vector handler else mret ().

Section dispatch.
Context {W : Type} `{!Cpu W} (invoke : Z → interrupt_frame_error → M (idt_state * W) ()).

(** [reg] is what the register holds that the assembler instruction names: under
    [-masm=intel] it writes CR2 from the register.  The answer tells the default
    of an exception, which executes [hlt]. *)
Definition exception_handler_common (reg : Z) (frame : interrupt_frame_error) : M (idt_state * W) bool :=
  let vector := Z.shiftr (f_error_code frame) 3 in
  if vector <? 32 then
    h ← gets (λ s, index (exception_handlers s.1) vector);
    h ← lift h;
    if negb (h =? 0) then invoke h frame;; mret false
    else
      on_snd (modify cli);;
      (if vector =? INT_PAGE_FAULT then on_snd (modify (write_cr2 reg)) else mret ());;
      on_snd (modify hlt);;
      mret true
  else
    h ← gets (λ s, index (interrupt_handlers s.1) vector);
    h ← lift h;
    (if negb (h =? 0) then invoke h frame else mret ());;
    mret false.
End dispatch.

(** ** The names of the exceptions *)

(** "Reserved" and "Unknown Exception" *)
Definition reserved_name : list Z := [82; 101; 115; 101; 114; 118; 101; 100].
Definition unknown_exception : list Z := [85; 110; 107; 110; 111; 119; 110; 32; 69; 120; 99; 101; 112; 116; 105; 111; 110].

Definition exception_names : list (list Z) := [
  (* Division Error *) [68; 105; 118; 105; 115; 105; 111; 110; 32; 69; 114; 114; 111; 114];
  (* Debug *) [68; 101; 98; 117; 103];
  (* Non-Maskable Interrupt *) [78; 111; 110; 45; 77; 97; 115; 107; 97; 98; 108; 101; 32; 73; 110; 116; 101; 114; 114; 117; 112; 116];
  (* Breakpoint *) [66; 114; 101; 97; 107; 112; 111; 105; 110; 116];
  (* Overflow *) [79; 118; 101; 114; 102; 108; 111; 119];
  (* Bound Range Exceeded *) [66; 111; 117; 110; 100; 32; 82; 97; 110; 103; 101; 32; 69; 120; 99; 101; 101; 100; 101; 100];
  (* Invalid Opcode *) [73; 110; 118; 97; 108; 105; 100; 32; 79; 112; 99; 111; 100; 101];
  (* Device Not Available *) [68; 101; 118; 105; 99; 101; 32; 78; 111; 116; 32; 65; 118; 97; 105; 108; 97; 98; 108; 101];
  (* Double Fault *) [68; 111; 117; 98; 108; 101; 32; 70; 97; 117; 108; 116];
  (* Coprocessor Segment Overrun *) [67; 111; 112; 114; 111; 99; 101; 115; 115; 111; 114; 32; 83; 101; 103; 109; 101; 110; 116; 32; 79; 118; 101; 114; 114; 117; 110];
  (* Invalid TSS *) [73; 110; 118; 97; 108; 105; 100; 32; 84; 83; 83];
  (* Segment Not Present *) [83; 101; 103; 109; 101; 110; 116; 32; 78; 111; 116; 32; 80; 114; 101; 115; 101; 110; 116];
  (* Stack Fault *) [83; 116; 97; 99; 107; 32; 70; 97; 117; 108; 116];
  (* General Protection Fault *) [71; 101; 110; 101; 114; 97; 108; 32; 80; 114; 111; 116; 101; 99; 116; 105; 111; 110; 32; 70; 97; 117; 108; 116];
  (* Page Fault *) [80; 97; 103; 101; 32; 70; 97; 117; 108; 116];
  (* Reserved *) reserved_name;
  (* x87 FPU Error *) [120; 56; 55; 32; 70; 80; 85; 32; 69; 114; 114; 111; 114];
  (* Alignment Check *) [65; 108; 105; 103; 110; 109; 101; 110; 116; 32; 67; 104; 101; 99; 107];
  (* Machine Check *) [77; 97; 99; 104; 105; 110; 101; 32; 67; 104; 101; 99; 107];
  (* SIMD Exception *) [83; 73; 77; 68; 32; 69; 120; 99; 101; 112; 116; 105; 111; 110];
  (* Virtualization Exception *) [86; 105; 114; 116; 117; 97; 108; 105; 122; 97; 116; 105; 111; 110; 32; 69; 120; 99; 101; 112; 116; 105; 111; 110];
  (* Control Protection Exception *) [67; 111; 110; 116; 114; 111; 108; 32; 80; 114; 111; 116; 101; 99; 116; 105; 111; 110; 32; 69; 120; 99; 101; 112; 116; 105; 111; 110];
  (* Reserved *) reserved_name;
  (* Reserved *) reserved_name;
  (* Reserved *) reserved_name;
  (* Reserved *) reserved_name;
  (* Reserved *) reserved_name;
  (* Reserved *) reserved_name;
  (* Hypervisor Injection Exception *) [72; 121; 112; 101; 114; 118; 105; 115; 111; 114; 32; 73; 110; 106; 101; 99; 116; 105; 111; 110; 32; 69; 120; 99; 101; 112; 116; 105; 111; 110];
  (* VMM Communication Exception *) [86; 77; 77; 32; 67; 111; 109; 109; 117; 110; 105; 99; 97; 116; 105; 111; 110; 32; 69; 120; 99; 101; 112; 116; 105; 111; 110];
  (* Security Exception *) [83; 101; 99; 117; 114; 105; 116; 121; 32; 69; 120; 99; 101; 112; 116; 105; 111; 110];
  (* Reserved *) reserved_name].

Definition get_exception_name (vector : Z) : option (list Z) :=
  if vector <? 32 then index exception_names vector else Some unknown_exception.

(** ** What the table holds after [idt_init] *)

(** The address a gate leads to. *)
Definition gate_offset (e : idt_entry) : Z := base_low e + 65536 * base_middle e + 4294967296 * base_high e.

Lemma descriptor_offset isr flags ist : is_u64 isr → gate_offset (descriptor isr flags ist) = isr.
Proof.
  intros Hi. unfold gate_offset, descriptor. cbn [base_low base_middle base_high].
  change 65535 with (2 ^ 16 - 1). change 4294967295 with (2 ^ 32 - 1). rewrite !land_mask, !Z.shiftr_div_pow2 by lia. cbn. ulia.
Qed.

Lemma store_at_some {A} (l : list A) i x : 0 <= i < Z.of_nat (length l) → store_at l i x = Some (<[Z.to_nat i := x]> l).
Proof. intros. unfold store_at. by rewrite (proj2 (Z.leb_le _ _)), (proj2 (Z.ltb_lt _ _)) by lia. Qed.

Lemma index_lookup {A} (l : list A) i : 0 <= i → index l i = l !! Z.to_nat i.
Proof. intros. unfold index. by rewrite (proj2 (Z.ltb_ge _ _)) by lia. Qed.

Lemma index_insert {A} (l : list A) i j x :
  0 <= i < Z.of_nat (length l) → 0 <= j → index (<[Z.to_nat i := x]> l) j = if j =? i then Some x else index l j.
Proof.
  intros Hi Hj. rewrite !index_lookup by lia. destruct (j =? i) eqn:E; zbool.
  - subst. apply list_lookup_insert_eq. lia.
  - apply list_lookup_insert_ne. lia.
Qed.

Record tables_ok (s : idt_state) : Prop := {
  tok_idt : length (idt s) = Z.to_nat IDT_ENTRIES;
  tok_interrupt : length (interrupt_handlers s) = Z.to_nat IDT_ENTRIES;
  tok_exception : length (exception_handlers s) = 32%nat }.

Section init.
Context (stubs : list Z) (Hstubs : length stubs = Z.to_nat IDT_ENTRIES).

Definition stub (v : Z) : Z := default 0 (index stubs v).

(** The gate of [v] leads to its stub over the stack of its [ist]. *)
Definition gate (v ist : Z) : idt_entry := descriptor (stub v) IDT_GATE_INTERRUPT ist.

Lemma wp_set_stub v ist (Q : () → idt_state → Prop) s :
  0 <= v < IDT_ENTRIES → tables_ok s →
  Q () (mk_idt (<[Z.to_nat v := gate v ist]> (idt s)) (idtr_limit s) (idtr_base s) (interrupt_handlers s) (exception_handlers s)) →
  wp (set_stub stubs v ist) Q s.
Proof.
  intros Hv Hs HQ. unfold set_stub. apply wp_bind.
  destruct (index_some stubs v) as [isr Hi]; [rewrite Hstubs; unfold IDT_ENTRIES in *; lia|].
  eapply wp_lift; [exact Hi|]. unfold idt_set_descriptor, set_idt, wp. rewrite u8_small by (unfold IDT_ENTRIES in *; ulia).
  rewrite store_at_some by (rewrite (tok_idt _ Hs); unfold IDT_ENTRIES in *; lia). cbn.
  unfold gate, stub in HQ. by rewrite Hi in HQ.
Qed.

Lemma tables_ok_idt s l a b : tables_ok s → length l = length (idt s) →
  tables_ok (mk_idt l a b (interrupt_handlers s) (exception_handlers s)).
Proof. intros [] E. split; cbn; congruence. Qed.

(** The loop: the vectors done have plain gates and no handlers. *)
Record cleared (done : list Z) (base : Z) (s : idt_state) : Prop := {
  cl_ok : tables_ok s;
  cl_base : idtr_base s = base ∧ idtr_limit s = 4095;
  cl_gate v : v ∈ done → index (idt s) v = Some (gate v 0);
  cl_interrupt v : v ∈ done → index (interrupt_handlers s) v = Some 0;
  cl_exception v : v ∈ done → v < 32 → index (exception_handlers s) v = Some 0 }.

Lemma wp_clear_vector done v base s :
  0 <= v < IDT_ENTRIES → (∀ w, w ∈ done → 0 <= w) → cleared done base s →
  wp (set_stub stubs v IST_NONE;; set_interrupt v 0;; if v <? 32 then set_exception v 0 else mret ()) (λ _, cleared (done ++ [v]) base) s.
Proof.
  intros Hv Hpos [[L1 L2 L3] Hb Hg Hi He]. apply wp_bind, wp_set_stub; [done|done|].
  apply wp_bind. unfold set_interrupt at 1, wp at 1. cbn [interrupt_handlers].
  rewrite store_at_some by (rewrite L2; unfold IDT_ENTRIES in *; lia). cbn [idt idtr_limit idtr_base exception_handlers mbind option_bind].
  assert (∀ w, w ∈ done ++ [v] → 0 <= w ∧ (w = v ∨ (w ≠ v ∧ w ∈ done))) as Hc.
  { intros w [Hw|Hw%list_elem_of_singleton]%elem_of_app; [|subst; split; [lia|by left]]. split; [by apply Hpos|].
    destruct (decide (w = v)); [by left|right; done]. }
  destruct (v <? 32) eqn:E32; zbool.
  - unfold set_exception, wp. cbn [exception_handlers]. rewrite store_at_some by lia. cbn.
    split; cbn; [split; cbn; by rewrite length_insert|done|..]; intros w Hw; destruct (Hc w Hw) as [H0 [->|[Hne Hw']]]; intros;
      rewrite index_insert by (rewrite ?L1, ?L2, ?L3; unfold IDT_ENTRIES in *; lia);
      first [by rewrite Z.eqb_refl | rewrite (proj2 (Z.eqb_neq _ _)) by done; auto].
  - apply wp_ret. split; cbn; [split; cbn; by rewrite ?length_insert|done|..]; intros w Hw; destruct (Hc w Hw) as [H0 [->|[Hne Hw']]]; intros; try lia; try (by auto);
      rewrite index_insert by (rewrite ?L1, ?L2, ?L3; unfold IDT_ENTRIES in *; lia);
      first [by rewrite Z.eqb_refl | rewrite (proj2 (Z.eqb_neq _ _)) by done; auto].
Qed.
End init.

(** The stack the gate of a vector switches to; 0 is none. *)
Definition stack_of (v : Z) : Z :=
  if v =? INT_DEBUG then IST_DEBUG else if v =? INT_NMI then IST_NMI else if v =? INT_DOUBLE_FAULT then IST_DOUBLE_FAULT
  else if v =? INT_MACHINE_CHECK then IST_MCE else if v =? INT_STACK_FAULT then IST_STACK_FAULT
  else if v =? INT_GENERAL_PROTECTION then IST_GPF else IST_NONE.

(** After [idt_init] each of the 256 gates leads to its stub through the kernel
    code segment, the six special exceptions switch to their own stacks, and no
    handler is registered. *)
Theorem idt_init_correct stubs idt_address s :
  length stubs = Z.to_nat IDT_ENTRIES → tables_ok s → Forall is_u64 stubs →
  wp (idt_init stubs idt_address) (λ _ s',
    tables_ok s' ∧ idtr_base s' = idt_address ∧ idtr_limit s' = 4095 ∧
    ∀ v, 0 <= v < IDT_ENTRIES →
      (∃ e, index (idt s') v = Some e ∧ Some (gate_offset e) = index stubs v ∧ selector e = 8 ∧ flags e = 142 ∧ ist e = stack_of v) ∧
      index (interrupt_handlers s') v = Some 0 ∧ (v < 32 → index (exception_handlers s') v = Some 0)) s.
Proof.
  intros Hl Hs Hu. unfold idt_init. apply wp_bind, wp_modify, wp_bind.
  eapply wp_mono.
  - apply (wp_for_list _ _ (λ done s', cleared stubs done idt_address s')).
    { split; [by apply tables_ok_idt|done|set_solver..]. }
    intros done v s1 [post Hp] Hc.
    assert (∀ w, w ∈ done ++ [v] → 0 <= w < IDT_ENTRIES) as Hr.
    { intros w Hw. enough (w ∈ seqZ 0 IDT_ENTRIES) as ?%elem_of_seqZ by lia. rewrite Hp. apply elem_of_app. by left. }
    apply wp_clear_vector; [done|apply Hr; set_solver| |done]. intros w Hw. apply Hr. set_solver.
  - cbn beta. intros _ s1 [Hok1 Hb1 Hg1 Hi1 He1].
    do 5 (apply wp_bind; apply wp_set_stub; [done|unfold IDT_ENTRIES, INT_DEBUG, INT_NMI, INT_DOUBLE_FAULT, INT_MACHINE_CHECK, INT_STACK_FAULT; lia
         |repeat (apply tables_ok_idt; cbn [idt]; rewrite ?length_insert); done|]; cbn [idt idtr_limit idtr_base interrupt_handlers exception_handlers]).
    apply wp_set_stub; [done|done|repeat (apply tables_ok_idt; cbn [idt]; rewrite ?length_insert); done|].
    cbn [idt idtr_limit idtr_base interrupt_handlers exception_handlers].
    split; [repeat (apply tables_ok_idt; cbn [idt]; rewrite ?length_insert); done|]. split; [apply Hb1|]. split; [apply Hb1|].
    intros v Hv. assert (v ∈ seqZ 0 IDT_ENTRIES) as Hin by (apply elem_of_seqZ; lia).
    split; [|split; [by apply Hi1|intros; by apply He1]]. exists (gate stubs v (stack_of v)). split.
    + rewrite !index_insert by (rewrite ?length_insert, ?(tok_idt _ Hok1); unfold IDT_ENTRIES, INT_DEBUG, INT_NMI, INT_DOUBLE_FAULT,
        INT_MACHINE_CHECK, INT_STACK_FAULT, INT_GENERAL_PROTECTION in *; lia).
      rewrite Hg1 by done. unfold stack_of. repeat (destruct (_ =? _) eqn:?; zbool; subst; try done).
    + destruct (index_some stubs v) as [isr Hi]; [rewrite Hl; unfold IDT_ENTRIES in *; lia|].
      unfold gate, stub. rewrite Hi. cbn [default id]. split; [|split_and!; try done].
      * f_equal. apply descriptor_offset. apply (Forall_lookup_1 _ stubs (Z.to_nat v)); [exact Hu|]. by rewrite <- index_lookup by lia.
      * unfold stack_of. repeat (destruct (_ =? _); [done|]). done.
Qed.

(** ** Dispatch *)

Lemma dispatch_registered {W} `{!Cpu W} invoke reg frame h v s (w : W) :
  tables_ok s → 32 <= v < IDT_ENTRIES → h ≠ 0 → Z.shiftr (f_error_code frame) 3 = v →
  ∃ s', register_interrupt_handler v h s = Some ((), s') ∧
    (∀ u, 0 <= u → u ≠ v → index (interrupt_handlers s') u = index (interrupt_handlers s) u) ∧
    exception_handler_common invoke reg frame (s', w) = (invoke h frame;; mret false) (s', w).
Proof.
  intros Hs Hv Hh Hf. unfold register_interrupt_handler, set_interrupt. rewrite (proj2 (Z.leb_le 32 v)) by lia.
  rewrite store_at_some by (rewrite (tok_interrupt _ Hs); unfold IDT_ENTRIES in *; lia). cbn.
  eexists. split; [reflexivity|]. cbn. split.
  - intros u Hu Hne. rewrite index_insert by (rewrite ?(tok_interrupt _ Hs); unfold IDT_ENTRIES in *; lia).
    by rewrite (proj2 (Z.eqb_neq u v)) by done.
  - unfold exception_handler_common. rewrite Hf, (proj2 (Z.ltb_ge v 32)) by lia. unfold mbind, M_bind, gets, lift. cbn.
    rewrite index_insert, Z.eqb_refl by (rewrite ?(tok_interrupt _ Hs); unfold IDT_ENTRIES in *; lia). 
    by rewrite (proj2 (Z.eqb_neq h 0)) by done.
Qed.

(** An error code from 2048 on reads behind the handlers. *)
Lemma dispatch_out_of_bounds {W} `{!Cpu W} invoke reg frame s (w : W) :
  tables_ok s → 2048 <= f_error_code frame → exception_handler_common invoke reg frame (s, w) = None.
Proof.
  intros Hs Hc. unfold exception_handler_common. rewrite Z.shiftr_div_pow2 by lia. change (2 ^ 3) with 8.
  assert (256 <= f_error_code frame / 8) by (Z.to_euclidean_division_equations; lia).
  rewrite (proj2 (Z.ltb_ge _ 32)) by lia. unfold mbind, M_bind, gets, lift. cbn.
  rewrite index_lookup by lia. rewrite lookup_ge_None_2; [done|]. rewrite (tok_interrupt _ Hs). unfold IDT_ENTRIES. lia.
Qed.

(** ** Witness *)

Definition demo_idt : idt_state :=
  mk_idt (replicate 256 inhabitant) 0 0 (replicate 256 7) (replicate 32 7).

Lemma idt_init_correct_witness :
  ∃ s, idt_init (replicate 256 18446744071562067968) 4096 demo_idt = Some ((), s) ∧
    ∃ e, index (idt s) 13 = Some e ∧ gate_offset e = 18446744071562067968 ∧ ist e = 6.
Proof.
  assert (Hu : Forall is_u64 (replicate 256 18446744071562067968)).
  { apply Forall_replicate. unfold is_u64. lia. }
  destruct (wp_run _ _ _ (idt_init_correct (replicate 256 18446744071562067968) 4096 demo_idt eq_refl
    (Build_tables_ok demo_idt eq_refl eq_refl eq_refl) Hu)) as ([] & s & Hr & _ & _ & _ & Hv).
  exists s. split; [exact Hr|]. destruct (Hv 13 ltac:(unfold IDT_ENTRIES; lia)) as [(e & He & Ho & _ & _ & Hi) _].
  exists e. split; [exact He|]. split; [|exact Hi]. vm_compute in Ho. injection Ho as Ho. exact Ho.
Defined.
