(* ===== verification/Ps2.v ===== *)
(** * PS/2 mouse and keyboard ([core/drivers/ps2/mouse.c], [keyboard.c])

    The drivers act on the ports of a world [W], on the interrupt handlers of
    [Idt.v] and on the memory of the frame buffer.  Function pointers are
    addresses; calling an event handler is the parameter [invoke]. *)
From S2P Require Import Prelude Interfaces Monad Serial Display.
From S2P Require Idt.

(** ** mouse.c *)

Definition MOUSE_DATA_PORT : Z := 96.
Definition MOUSE_STATUS_PORT : Z := 100.
Definition MOUSE_COMMAND_PORT : Z := 100.
Definition MOUSE_CMD_RESET : Z := 255.
Definition MOUSE_CMD_SET_DEFAULTS : Z := 246.
Definition MOUSE_CMD_DISABLE_STREAM : Z := 245.
Definition MOUSE_CMD_ENABLE_STREAM : Z := 244.
Definition MOUSE_CMD_SET_SAMPLE_RATE : Z := 243.
Definition MOUSE_CMD_SET_RESOLUTION : Z := 232.
Definition CONTROLLER_CMD_WRITE_MOUSE : Z := 212.
Definition CONTROLLER_CMD_ENABLE_AUX : Z := 168.

Record mouse_packet_t := mk_packet {
  x_movement : Z; y_movement : Z; button_state : Z; left_button : bool; right_button : bool; middle_button : bool;
  x_sign : bool; y_sign : bool; overflow_x : bool; overflow_y : bool }.

Record mouse_state_t := mk_mouse { cycle : Z; packet_bytes : list Z; m_initialized : bool; event_handler : Z }.

Record ps2 (W : Type) := mk_ps2 {
  mouse_state : mouse_state_t; kbd_x : Z; kbd_y : Z; p_idt : Idt.idt_state; p_mem : gmap Z Z; p_world : W }.
Arguments mk_ps2 {_}.
Arguments mouse_state {_}.
Arguments kbd_x {_}.
Arguments kbd_y {_}.
Arguments p_idt {_}.
Arguments p_mem {_}.
Arguments p_world {_}.

(** [x & bit] as a truth value. *)
Definition has (x bit : Z) : bool := negb (Z.land x bit =? 0).

(** The packet of three bytes. *)
Definition decode_packet (b0 b1 b2 : Z) : mouse_packet_t :=
  let xs := has b0 16 in
  let ys := has b0 32 in
  mk_packet
    (s8 (if xs then Z.lor b1 4294967040 else b1))
    (s8 (if ys then u32 (- Z.lor b2 4294967040) else - b2))
    b0 (has b0 1) (has b0 2) (has b0 4) xs ys (has b0 64) (has b0 128).

Section ps2.
Context {W : Type} `{!Ports W}.
Context (invoke : Z → mouse_packet_t → W → W).
Abbreviation M := (Monad.M (ps2 W)).

Definition on_world {A} (m : Monad.M W A) : M A := λ s,
  match m (p_world s) with
  | Some (x, w) => Some (x, mk_ps2 (mouse_state s) (kbd_x s) (kbd_y s) (p_idt s) (p_mem s) w)
  | None => None
  end.
Definition on_idt {A} (m : Monad.M Idt.idt_state A) : M A := λ s,
  match m (p_idt s) with
  | Some (x, i) => Some (x, mk_ps2 (mouse_state s) (kbd_x s) (kbd_y s) i (p_mem s) (p_world s))
  | None => None
  end.
Definition on_mem {A} (m : Monad.M (gmap Z Z) A) : M A := λ s,
  match m (p_mem s) with
  | Some (x, mem) => Some (x, mk_ps2 (mouse_state s) (kbd_x s) (kbd_y s) (p_idt s) mem (p_world s))
  | None => None
  end.
Definition set_mouse (m : mouse_state_t) : M () := modify (λ s,
  mk_ps2 m (kbd_x s) (kbd_y s) (p_idt s) (p_mem s) (p_world s)).
Definition set_kbd (x y : Z) : M () := modify (λ s,
  mk_ps2 (mouse_state s) x y (p_idt s) (p_mem s) (p_world s)).

(** At most [timeout] polls; the caller goes on in any case. *)
Fixpoint wait_loop (timeout : nat) (is_write : bool) : Monad.M W () :=
  match timeout with
  | O => mret ()
  | S timeout =>
      status ← in_ MOUSE_STATUS_PORT;
      if (if is_write then has status 2 else negb (has status 1)) then wait_loop timeout is_write else mret ()
  end.
Definition mouse_wait (is_write : bool) : M () := on_world (wait_loop (Z.to_nat 100000) is_write).

Definition mouse_send_command (cmd : Z) : M () :=
  mouse_wait true;;
  on_world (out MOUSE_COMMAND_PORT CONTROLLER_CMD_WRITE_MOUSE);;
  mouse_wait true;;
  on_world (out MOUSE_DATA_PORT cmd).

Definition mouse_send_data (data : Z) : M () :=
  mouse_wait true;;
  on_world (out MOUSE_COMMAND_PORT CONTROLLER_CMD_WRITE_MOUSE);;
  mouse_wait true;;
  on_world (out MOUSE_DATA_PORT data).

Definition mouse_read_data : M Z :=
  mouse_wait false;;
  on_world (in_ MOUSE_DATA_PORT).

Definition process_mouse_packet : M () :=
  m ← gets mouse_state;
  b0 ← lift (index (packet_bytes m) 0);
  if (cycle m =? 0) && negb (has b0 8) then mret () else
  b1 ← lift (index (packet_bytes m) 1);
  b2 ← lift (index (packet_bytes m) 2);
  if negb (event_handler m =? 0) then on_world (modify (invoke (event_handler m) (decode_packet b0 b1 b2))) else mret ().

Definition mouse_interrupt_handler : M () :=
  status ← on_world (in_ MOUSE_STATUS_PORT);
  if negb (has status 32) then mret () else
  data ← on_world (in_ MOUSE_DATA_PORT);
  m ← gets mouse_state;
  l ← lift (Idt.store_at (packet_bytes m) (cycle m) data);
  set_mouse (mk_mouse (u8 (cycle m + 1)) l (m_initialized m) (event_handler m));;
  (if u8 (cycle m + 1) =? 3 then
     process_mouse_packet;;
     m ← gets mouse_state;
     set_mouse (mk_mouse 0 (packet_bytes m) (m_initialized m) (event_handler m))
   else mret ());;
  on_world (pic_send_eoi Idt.IRQ12).

Definition mouse_set_sample_rate (rate : Z) : M () :=
  m ← gets mouse_state;
  if negb (m_initialized m) then mret () else
  mouse_send_command MOUSE_CMD_SET_SAMPLE_RATE;;
  mouse_send_data rate.

Definition mouse_set_resolution (resolution : Z) : M () :=
  m ← gets mouse_state;
  if negb (m_initialized m) then mret () else
  mouse_send_command MOUSE_CMD_SET_RESOLUTION;;
  mouse_send_data resolution.

(** [handler] is the address of [mouse_interrupt_handler]. *)
Definition mouse_init (handler : Z) : M () :=
  set_mouse (mk_mouse 0 [0; 0; 0; 0] false 0);;
  mouse_wait true;;
  on_world (out MOUSE_COMMAND_PORT CONTROLLER_CMD_ENABLE_AUX);;
  mouse_send_command MOUSE_CMD_RESET;;
  mouse_read_data;;
  status ← mouse_read_data;
  if negb (status =? 170) then mret () else
  mouse_send_command MOUSE_CMD_SET_DEFAULTS;;
  mouse_read_data;;
  mouse_set_sample_rate 100;;
  mouse_set_resolution 3;;
  mouse_send_command MOUSE_CMD_ENABLE_STREAM;;
  mouse_read_data;;
  on_idt (Idt.register_interrupt_handler Idt.IRQ12 handler);;
  on_world (pic_clear_mask 12);;
  m ← gets mouse_state;
  set_mouse (mk_mouse (cycle m) (packet_bytes m) true (event_handler m)).

Definition mouse_enable : M () :=
  m ← gets mouse_state;
  if negb (m_initialized m) then mret () else mouse_send_command MOUSE_CMD_ENABLE_STREAM.

Definition mouse_disable : M () :=
  m ← gets mouse_state;
  if negb (m_initialized m) then mret () else mouse_send_command MOUSE_CMD_DISABLE_STREAM.

(** It never reads one. *)
Definition mouse_read_packet : M bool := mret false.

Definition mouse_register_event_handler (handler : Z) : M () :=
  m ← gets mouse_state;
  set_mouse (mk_mouse (cycle m) (packet_bytes m) (m_initialized m) handler).

(** ** keyboard.c *)

Definition PS2_DATA_PORT : Z := 96.

Definition scancode_to_ascii : list Z :=
  [0; 0; 49; 50; 51; 52; 53; 54; 55; 56; 57; 48; 45; 61; 8;
   9; 113; 119; 101; 114; 116; 121; 117; 105; 111; 112; 91; 93; 10;
   0; 97; 115; 100; 102; 103; 104; 106; 107; 108; 59; 39; 96;
   0; 92; 122; 120; 99; 118; 98; 110; 109; 44; 46; 47; 0;
   42; 0; 32].

(** The frame buffer is [None] for NULL. *)
Definition keyboard_handler (global_framebuffer : option framebuffer) : M () :=
  scancode ← on_world (in_ PS2_DATA_PORT);
  (if scancode <? Z.of_nat (length scancode_to_ascii) then
     c ← lift (index scancode_to_ascii scancode);
     if c =? 0 then mret () else
     fb ← lift global_framebuffer;
     x ← gets kbd_x;
     y ← gets kbd_y;
     on_mem (draw_char fb c x y WHITE);;
     let x := u32 (x + 12) in
     if u64 (fb_width fb - 12) <=? x then set_kbd 0 (u32 (y + 16)) else set_kbd x y
   else mret ());;
  on_world (pic_send_eoi Idt.IRQ1).

(** [handler] is the address of [keyboard_handler]. *)
Definition keyboard_init (handler : Z) : M () :=
  on_idt (Idt.register_interrupt_handler Idt.IRQ1 handler);;
  on_world (pic_clear_mask 1).
End ps2.

(** ** What a packet says *)

(** The movement that the three bytes report: a sign bit and eight more. *)
Definition movement (sign : bool) (b : Z) : Z := if sign then b - 256 else b.

Lemma lor_high b : is_u8 b → Z.lor b 4294967040 = b + 4294967040.
Proof.
  intros Hb. rewrite <- Z.add_lor_land. assert (Z.land b 4294967040 = 0) as ->; [|lia].
  apply Z.bits_inj'. intros n Hn. rewrite Z.land_spec, Z.bits_0. destruct (decide (n < 8)).
  - replace 4294967040 with (Z.shiftl 16777215 8) by done. rewrite Z.shiftl_spec_low by lia. apply andb_false_r.
  - by rewrite (bits_above b 8) by (unfold is_u8 in Hb; cbn; lia).
Qed.

(** The movement is reported in 8 bits, so only one that fits comes through. *)
Lemma decode_movement b0 b1 b2 :
  is_u8 b1 → is_u8 b2 →
  let p := decode_packet b0 b1 b2 in
  x_movement p = s8 (movement (has b0 16) b1) ∧ y_movement p = s8 (- movement (has b0 32) b2).
Proof.
  intros H1 H2. unfold decode_packet, movement. cbn [x_movement y_movement].
  split; destruct (has b0 _); rewrite ?lor_high by done; ulia.
Qed.

(** 200 to the right is reported as 56 to the left. *)
Lemma decode_fast_movement : x_movement (decode_packet 8 200 0) = -56 ∧ movement (has 8 16) 200 = 200.
Proof. done. Qed.

(** ** A mouse that sends packets *)

Class Ps2Mouse (W : Type) `{!Ports W} := {
  mp_ok : W → Prop;
  mp_data : W → list Z;                    (* bytes to be read, oldest first *)
  mp_events : W → list mouse_packet_t;     (* what the event handler was called with *)
  mp_invoke : Z → mouse_packet_t → W → W;
  mp_status w : mp_ok w → mp_data w ≠ [] → ∃ st, inb MOUSE_STATUS_PORT w = (st, w) ∧ has st 32 = true;
  mp_read w b l : mp_ok w → mp_data w = b :: l →
    ∃ w', inb MOUSE_DATA_PORT w = (b, w') ∧ mp_ok w' ∧ mp_data w' = l ∧ mp_events w' = mp_events w;
  mp_eoi w port v : mp_ok w → port = PIC1_COMMAND ∨ port = PIC2_COMMAND →
    mp_ok (outb port v w) ∧ mp_data (outb port v w) = mp_data w ∧ mp_events (outb port v w) = mp_events w;
  mp_event w h p : mp_ok w →
    mp_ok (mp_invoke h p w) ∧ mp_data (mp_invoke h p w) = mp_data w ∧ mp_events (mp_invoke h p w) = mp_events w ++ [p] }.

Definition three (p : Z * Z * Z) : list Z := [p.1.1; p.1.2; p.2].
Definition decode (p : Z * Z * Z) : mouse_packet_t := decode_packet p.1.1 p.1.2 p.2.

Section stream.
Context {W : Type} `{HP : !Ports W, !Ps2Mouse W}.

Lemma wp_world {A} (m : Monad.M W A) (Q : A → ps2 W → Prop) s :
  wp m (λ x w, Q x (mk_ps2 (mouse_state s) (kbd_x s) (kbd_y s) (p_idt s) (p_mem s) w)) (p_world s) → wp (on_world m) Q s.
Proof. unfold wp, on_world. by destruct (m (p_world s)) as [[x w]|]. Qed.

(** A state in which [n] bytes of the packet [got] are stored. *)
Record receiving (got : list Z) (events : list mouse_packet_t) (data : list Z) (s : ps2 W) : Prop := {
  rc_ok : mp_ok (p_world s);
  rc_data : mp_data (p_world s) = data;
  rc_events : mp_events (p_world s) = events;
  rc_cycle : cycle (mouse_state s) = Z.of_nat (length got);
  rc_bytes : take (length got) (packet_bytes (mouse_state s)) = got;
  rc_length : length (packet_bytes (mouse_state s)) = 4%nat;
  rc_handler : event_handler (mouse_state s) ≠ 0 }.

Lemma wp_eoi (Q : () → W → Prop) w :
  mp_ok w → (∀ w', mp_ok w' → mp_data w' = mp_data w → mp_events w' = mp_events w → Q () w') → wp (pic_send_eoi Idt.IRQ12) Q w.
Proof.
  intros Hok HQ. unfold pic_send_eoi. change (8 <=? Idt.IRQ12) with true. cbn beta iota. apply wp_bind, wp_modify.
  destruct (mp_eoi w PIC2_COMMAND (u8 PIC_EOI) Hok) as (H1 & H2 & H3); [by right|].
  destruct (mp_eoi _ PIC1_COMMAND (u8 PIC_EOI) H1) as (H4 & H5 & H6); [by left|].
  apply wp_modify. apply HQ; [done|congruence..].
Qed.

(** One interrupt up to the test for a whole packet. *)
Lemma wp_interrupt got b data events s :
  (length got < 3)%nat → receiving got events (b :: data) s →
  wp (mouse_interrupt_handler mp_invoke) (λ _ s',
    if (length got =? 2)%nat then ∃ b0 b1, got = [b0; b1] ∧ receiving [] (events ++ [decode (b0, b1, b)]) data s'
    else receiving (got ++ [b]) events data s') s.
Proof.
  intros Hg [Hok Hd He Hc Hb Hl Hh]. unfold mouse_interrupt_handler. apply wp_bind, wp_world.
  destruct (mp_status _ Hok) as (st & Hst & H32); [by rewrite Hd|].
  unfold in_. apply wp_call. rewrite Hst. cbn [fst snd]. rewrite H32. cbn [negb].
  apply wp_bind, wp_world, wp_call. cbn [p_world mouse_state kbd_x kbd_y p_idt p_mem].
  destruct (mp_read _ _ _ Hok Hd) as (w1 & Hr & Hok1 & Hd1 & He1). rewrite Hr. cbn [fst snd].
  apply wp_bind, wp_gets. cbn [mouse_state]. apply wp_bind. rewrite Hc.
  eapply wp_lift; [apply Idt.store_at_some; rewrite Hl; lia|]. rewrite Nat2Z.id.
  apply wp_bind, wp_modify. cbn [mouse_state kbd_x kbd_y p_idt p_mem p_world]. rewrite u8_small by ulia.
  assert (Z.of_nat (length got) + 1 =? 3 = (length got =? 2)%nat) as -> by (destruct (Nat.eqb_spec (length got) 2); lia).
  destruct (length got =? 2)%nat eqn:E2.
  - apply Nat.eqb_eq in E2. destruct got as [|b0 [|b1 [|]]]; try done. cbn [length] in *.
    destruct (packet_bytes (mouse_state s)) as [|c0 [|c1 [|c2 [|c3 [|]]]]] eqn:El; try done. cbn in Hb. injection Hb as -> ->.
    apply wp_bind, wp_bind. unfold process_mouse_packet. do 2 (apply wp_bind; first [apply wp_gets|eapply wp_lift; [reflexivity|]]). cbn.
    apply wp_bind. eapply wp_lift; [reflexivity|]. apply wp_bind. eapply wp_lift; [reflexivity|].
    rewrite (proj2 (Z.eqb_neq _ _)) by done. cbn [negb]. apply wp_world, wp_modify. cbn.
    destruct (mp_event w1 (event_handler (mouse_state s)) (decode_packet b0 b1 b) Hok1) as (Hok2 & Hd2 & He2).
    apply wp_bind, wp_gets. apply wp_modify. cbn. apply wp_world, wp_eoi; [done|]. cbn. intros w' Hok3 Hd3 He3.
    exists b0, b1. split; [done|]. split; cbn; try done; [congruence|]. by rewrite He3, He2, He1, He.
  - apply wp_bind, wp_ret, wp_world, wp_eoi; [done|]. cbn. intros w' Hok2 Hd2 He2. split; cbn; try done; try congruence.
    + rewrite length_app. cbn. lia.
    + rewrite length_app, Nat.add_1_r. rewrite (take_S_r _ _ b).
      * rewrite take_insert_ge by lia. by rewrite Hb.
      * apply list_lookup_insert_eq. lia.
    + by rewrite length_insert.
Qed.

Lemma wp_packets ps : ∀ events s,
  receiving [] events (concat (three <$> ps)) s →
  wp (for_list ps (λ _, for_list (seqZ 0 3) (λ _, mouse_interrupt_handler mp_invoke)))
    (λ _ s', receiving [] (events ++ (decode <$> ps)) [] s') s.
Proof.
  induction ps as [|[[b0 b1] b2] ps IH]; intros events s Hs.
  - apply wp_ret. by rewrite app_nil_r.
  - cbn [for_list fmap list_fmap three concat app] in *. change (seqZ 0 3) with [0; 1; 2]. cbn [for_list].
    apply wp_bind, wp_bind. eapply wp_mono; [apply (wp_interrupt [] b0 ([b1; b2] ++ concat (three <$> ps)) events); [cbn; lia|done]|].
    cbn. intros _ s1 H1. apply wp_bind.
    eapply wp_mono; [apply (wp_interrupt [b0] b1 ([b2] ++ concat (three <$> ps)) events); [cbn; lia|done]|].
    cbn. intros _ s2 H2. apply wp_bind.
    eapply wp_mono; [apply (wp_interrupt [b0; b1] b2 (concat (three <$> ps)) events); [cbn; lia|done]|].
    cbn. intros _ s3 (c0 & c1 & [= <- <-] & H3). apply wp_ret.
    eapply wp_mono; [by apply IH|]. cbn beta. intros _ s4 H4. by rewrite <- app_assoc in H4.
Qed.
End stream.


(** ** Witness *)

Record demo_mouse := mk_demo_mouse { dm_data : list Z; dm_events : list mouse_packet_t }.
#[export] Instance demo_mouse_ports : Ports demo_mouse := {
  outb port v w := w;
  inb port w := if port =? 96 then (hd 0 (dm_data w), mk_demo_mouse (tl (dm_data w)) (dm_events w)) else (33, w) }.
#[export] Program Instance demo_mouse_ps2 : Ps2Mouse demo_mouse := {
  mp_ok w := True; mp_data := dm_data; mp_events := dm_events;
  mp_invoke h p w := mk_demo_mouse (dm_data w) (dm_events w ++ [p]) }.
Next Obligation. intros w _ _. by exists 33. Qed.
Next Obligation. intros [d e] b l _ H. cbn in *. subst. cbn. by eexists. Qed.
Next Obligation. done. Qed.
Next Obligation. done. Qed.

Definition demo_ps2 : ps2 demo_mouse :=
  mk_ps2 (mk_mouse 0 [0; 0; 0; 0] true 4096) 0 200 (Idt.mk_idt [] 0 0 [] []) ∅ (mk_demo_mouse [8; 5; 3; 57; 250; 0] []).

