(* ===== verification/Apic.v ===== *)
(** * The interrupt controllers of the processors and of the devices
    ([core/drivers/lapic.c], [core/drivers/ioapic.c])

    The registers are device memory; the ACPI tables are the memory [mem] of
    [Acpi.v].  [offset] is the base of the direct map of physical memory.  Busy
    waiting and the walk over the table take fuel. *)
From S2P Require Import Prelude Monad Acpi Mmio.

(** ** lapic.c *)

Definition LAPIC_ID : Z := 32.
Definition LAPIC_TPR : Z := 128.
Definition LAPIC_EOI : Z := 176.
Definition LAPIC_SVR : Z := 240.
Definition LAPIC_ESR : Z := 640.
Definition LAPIC_ICRLO : Z := 768.
Definition LAPIC_ICRHI : Z := 784.
Definition LAPIC_TIMER : Z := 800.
Definition LAPIC_LINT0 : Z := 848.
Definition LAPIC_LINT1 : Z := 864.
Definition LAPIC_ERROR : Z := 880.
Definition LAPIC_TICR : Z := 896.
Definition LAPIC_TDCR : Z := 992.
Definition LAPIC_SVR_ENABLE : Z := 256.
Definition LAPIC_TIMER_PERIODIC : Z := 131072.
Definition LAPIC_ICR_SEND_PENDING : Z := 4096.
Definition LAPIC_ICR_MASKED : Z := 65536.

(** ** ioapic.c *)

Definition MAX_IOAPICS : Z := 8.
Definition IOAPIC_REG_VER : Z := 1.
Definition IOAPIC_REG_REDTBL_BASE : Z := 16.
Definition IOAPIC_MASKED : Z := 65536.

Record ioapic := mk_ioapic { io_id : Z; io_base : Z; gsi_base : Z; max_redirections : Z }.

Record apic (W : Type) := mk_apic { lapic_base : Z; ioapics : list ioapic; num_ioapics : Z; a_world : W }.
Arguments mk_apic {_}.
Arguments lapic_base {_}.
Arguments ioapics {_}.
Arguments num_ioapics {_}.
Arguments a_world {_}.

Section apic.
Context {W : Type} `{!Bus W, !Apicpu W}.
Context (mem : gmap Z Z) (offset : Z).
Abbreviation M := (Monad.M (apic W)).

Definition on_world {A} (m : Monad.M W A) : M A := λ s,
  match m (a_world s) with
  | Some (x, w) => Some (x, mk_apic (lapic_base s) (ioapics s) (num_ioapics s) w)
  | None => None
  end.

(** *** Local *)

Definition lapic_read (reg : Z) : M Z :=
  base ← gets lapic_base;
  if base =? 0 then mret 0 else on_world (rd32 (base + 4 * (reg / 4))).

(** The store is followed by a load whose value is dropped. *)
Definition lapic_write (reg value : Z) : M () :=
  base ← gets lapic_base;
  if base =? 0 then mret () else
  on_world (wr32 (base + 4 * (reg / 4)) value);;
  on_world (rd32 (base + 4 * (LAPIC_ID / 4)));;
  mret ().

Definition lapic_check_present : M bool := on_world (gets (λ w, negb (Z.land (cpuid_edx 1 w) (Z.shiftl 1 9) =? 0))).

Definition enable_apic_msr : M () :=
  v ← on_world (gets (read_msr 27));
  on_world (modify (write_msr 27 (Z.lor v (Z.shiftl 1 11)))).

Definition lapic_enable : M () := v ← lapic_read LAPIC_SVR; lapic_write LAPIC_SVR (Z.lor v LAPIC_SVR_ENABLE).
Definition lapic_disable : M () := v ← lapic_read LAPIC_SVR; lapic_write LAPIC_SVR (Z.land v (Z.lnot LAPIC_SVR_ENABLE)).
Definition lapic_eoi : M () := lapic_write LAPIC_EOI 0.
Definition lapic_get_id : M Z := v ← lapic_read LAPIC_ID; mret (Z.shiftr v 24).

Definition lapic_init (tables : acpi) : M () :=
  present ← lapic_check_present;
  if negb present then mret () else
  apic_base ← lift (acpi_get_local_apic_address mem tables);
  if apic_base =? 0 then mret () else
  modify (λ s, mk_apic (u64 (apic_base + offset)) (ioapics s) (num_ioapics s) (a_world s));;
  enable_apic_msr;;
  lapic_enable;;
  lapic_write LAPIC_SVR (Z.lor LAPIC_SVR_ENABLE 255);;
  lapic_write LAPIC_LINT0 LAPIC_ICR_MASKED;;
  lapic_write LAPIC_LINT1 LAPIC_ICR_MASKED;;
  lapic_write LAPIC_ERROR 254;;
  lapic_write LAPIC_ESR 0;;
  lapic_write LAPIC_ESR 0;;
  lapic_eoi;;
  lapic_write LAPIC_TPR 0.

Fixpoint wait_delivery (fuel : nat) : M () :=
  match fuel with
  | O => fault
  | S fuel => v ← lapic_read LAPIC_ICRLO; if negb (Z.land v LAPIC_ICR_SEND_PENDING =? 0) then wait_delivery fuel else mret ()
  end.

Definition lapic_send_ipi (fuel : nat) (cpu_id vector : Z) : M () :=
  lapic_write LAPIC_ICRHI (u32 (Z.shiftl cpu_id 24));;
  lapic_write LAPIC_ICRLO vector;;
  wait_delivery fuel.

Definition lapic_timer_init (frequency : Z) : M () :=
  lapic_write LAPIC_TDCR 3;;
  lapic_write LAPIC_TIMER (Z.lor LAPIC_TIMER_PERIODIC 32);;
  lapic_write LAPIC_TICR frequency.

Definition lapic_timer_stop : M () :=
  lapic_write LAPIC_TIMER LAPIC_ICR_MASKED;;
  lapic_write LAPIC_TICR 0.

(** *** I/O: a controller is an index of the array *)

Definition the_ioapic (i : nat) : M ioapic := l ← gets ioapics; lift (l !! i).
Definition put_ioapic (i : nat) (io : ioapic) : M () := modify (λ s,
  mk_apic (lapic_base s) (<[i := io]> (ioapics s)) (num_ioapics s) (a_world s)).

Definition ioapic_read (io : ioapic) (reg : Z) : M Z :=
  on_world (wr32 (io_base io) reg);;
  on_world (rd32 (io_base io + 4 * Z.shiftr 4 2)).

Definition ioapic_write (io : ioapic) (reg value : Z) : M () :=
  on_world (wr32 (io_base io) reg);;
  on_world (wr32 (io_base io + 4 * Z.shiftr 4 2) value).

Definition ioapic_read_redirection (io : ioapic) (index : Z) : M Z :=
  high ← ioapic_read io (u32 (IOAPIC_REG_REDTBL_BASE + index * 2 + 1));
  low ← ioapic_read io (u32 (IOAPIC_REG_REDTBL_BASE + index * 2));
  mret (Z.lor (Z.shiftl high 32) low).

Definition ioapic_write_redirection (io : ioapic) (index data : Z) : M () :=
  ioapic_write io (u32 (IOAPIC_REG_REDTBL_BASE + index * 2)) (u32 data);;
  ioapic_write io (u32 (IOAPIC_REG_REDTBL_BASE + index * 2 + 1)) (u32 (Z.shiftr data 32)).

Definition ioapic_get_version (io : ioapic) : M Z := ioapic_read io IOAPIC_REG_VER.

(** The entry of the table at [entry]. *)
Definition add_ioapic (entry : Z) : M () :=
  n ← gets num_ioapics;
  phys_addr ← lift (member mem io_apic_layout 4 entry);
  old ← the_ioapic (Z.to_nat n);
  let base := u64 (phys_addr + offset) in
  if base =? 0 then put_ioapic (Z.to_nat n) (mk_ioapic (io_id old) 0 (gsi_base old) (max_redirections old)) else
  id ← lift (member mem io_apic_layout 2 entry);
  gsi ← lift (member mem io_apic_layout 5 entry);
  ver ← ioapic_get_version (mk_ioapic id base gsi (max_redirections old));
  let io := mk_ioapic id base gsi (Z.land (Z.shiftr ver 16) 255 + 1) in
  put_ioapic (Z.to_nat n) io;;
  for_list (seqZ 0 (max_redirections io)) (λ i, ioapic_write_redirection io i IOAPIC_MASKED);;
  modify (λ s, mk_apic (lapic_base s) (ioapics s) (n + 1) (a_world s)).

Fixpoint scan_madt (fuel : nat) (entry end_ : Z) : M () :=
  match fuel with
  | O => fault
  | S fuel =>
      n ← gets num_ioapics;
      if (entry <? end_) && (n <? MAX_IOAPICS) then
        type ← lift (member mem entry_layout 0 entry);
        (if type =? MADT_TYPE_IO_APIC then add_ioapic entry else mret ());;
        len ← lift (member mem entry_layout 1 entry);
        scan_madt fuel (entry + len) end_
      else mret ()
  end.

Definition ioapic_init (fuel : nat) (tables : acpi) : M () :=
  let madt := acpi_get_madt tables in
  if madt =? 0 then mret () else
  len ← lift (table_length mem madt);
  scan_madt fuel (madt + SIZEOF_MADT) (madt + len).

(** The index of the controller, NULL is [None]. *)
Definition ioapic_get_for_gsi (gsi : Z) (s : apic W) : option nat :=
  fst <$> list_find (λ io, gsi_base io <= gsi ∧ gsi < u32 (gsi_base io + max_redirections io)) (take (Z.to_nat (num_ioapics s)) (ioapics s)).

Definition redirection (vector delivery_mode : Z) (mask : bool) (dest : Z) : Z :=
  Z.lor (Z.lor (Z.lor vector (Z.shiftl delivery_mode 8)) (if mask then IOAPIC_MASKED else 0)) (Z.shiftl dest 56).

Definition ioapic_set_irq (io : option nat) (irq vector delivery_mode : Z) (mask : bool) (dest : Z) : M () :=
  match io with
  | None => mret ()
  | Some i =>
      io ← the_ioapic i;
      if max_redirections io <=? irq then mret () else
      ioapic_write_redirection io irq (redirection vector delivery_mode mask dest)
  end.

Definition ioapic_mask_irq (io : option nat) (irq : Z) : M () :=
  match io with
  | None => mret ()
  | Some i =>
      io ← the_ioapic i;
      if max_redirections io <=? irq then mret () else
      r ← ioapic_read_redirection io irq;
      ioapic_write_redirection io irq (Z.lor r IOAPIC_MASKED)
  end.

Definition ioapic_unmask_irq (io : option nat) (irq : Z) : M () :=
  match io with
  | None => mret ()
  | Some i =>
      io ← the_ioapic i;
      if max_redirections io <=? irq then mret () else
      r ← ioapic_read_redirection io irq;
      ioapic_write_redirection io irq (Z.land r (Z.lnot IOAPIC_MASKED))
  end.
End apic.

(** ** The documented I/O APIC

    The register number is written to the base address, the register is read and
    written through the window at base + 16; other addresses reach no register. *)
Class IoApicChip (W : Type) `{!Bus W} (base : Z) := {
  io_reg : W → Z → Z;
  io_store n a v w r : a ≠ base + 16 → io_reg (store n a v w) r = io_reg w r;
  io_load n a w r : a ≠ base + 16 → io_reg (snd (load n a w)) r = io_reg w r }.

Section chip.
Context {W : Type} `{!Bus W, !Apicpu W} {base : Z} `{!IoApicChip W base}.

(** The registers are [regs]. *)
Definition has_regs (regs : Z → Z) (s : apic W) : Prop := ∀ r, io_reg (a_world s) r = regs r.

Lemma keeps_ioapic_read regs io reg : io_base io = base → keeps (has_regs regs) (ioapic_read io reg).
Proof.
  intros Hb s v s' Hr Hs. unfold ioapic_read in Hr. apply run_bind in Hr as (x & s1 & H1 & H2).
  unfold on_world, wr32, modify in H1. injection H1 as <- <-. unfold on_world, rd32, call in H2. cbn in H2.
  destruct (load 4 _ _) as [y w] eqn:El. injection H2 as <- <-. intros r. cbn [a_world].
  change w with (snd (y, w)). rewrite <- El, io_load, io_store by (rewrite Hb; change (Z.shiftr 4 2) with 1; lia). apply Hs.
Qed.

Lemma keeps_ioapic_write regs io reg value : io_base io = base → keeps (has_regs regs) (ioapic_write io reg value).
Proof.
  intros Hb s v s' Hr Hs. unfold ioapic_write in Hr. apply run_bind in Hr as (x & s1 & H1 & H2).
  unfold on_world, wr32, modify in H1, H2. injection H1 as <- <-. cbn in H2. injection H2 as <- <-. intros r. cbn [a_world].
  rewrite !io_store by (rewrite Hb; change (Z.shiftr 4 2) with 1; lia). apply Hs.
Qed.

Lemma keeps_read_redirection regs io i : io_base io = base → keeps (has_regs regs) (ioapic_read_redirection io i).
Proof. intros. unfold ioapic_read_redirection. do 2 (apply keeps_bind; [by apply keeps_ioapic_read|intros ?]). apply keeps_ret. Qed.

Lemma keeps_write_redirection regs io i v : io_base io = base → keeps (has_regs regs) (ioapic_write_redirection io i v).
Proof. intros. unfold ioapic_write_redirection. apply keeps_bind; [by apply keeps_ioapic_write|intros _]. by apply keeps_ioapic_write. Qed.

Lemma the_ioapic_some {A} i io (f : ioapic → M (apic W) A) s : ioapics s !! i = Some io → (the_ioapic i ≫= f) s = f io s.
Proof. intros Hl. unfold the_ioapic, mbind, M_bind, gets, lift. cbn. by rewrite Hl. Qed.
End chip.

(** No routing of an interrupt reaches the I/O APIC: its window is at offset 16,
    the code accesses offset 4, so that setting, masking and unmasking a line
    leave every register as it was. *)
Theorem ioapic_never_programmed {W} `{!Bus W, !Apicpu W} base `{!IoApicChip W base} i io irq vector mode mask dest (s s' : apic W) :
  ioapics s !! i = Some io → io_base io = base →
  ioapic_set_irq (Some i) irq vector mode mask dest s = Some ((), s') ∨
  ioapic_mask_irq (Some i) irq s = Some ((), s') ∨ ioapic_unmask_irq (Some i) irq s = Some ((), s') →
  ∀ r, io_reg (a_world s') r = io_reg (a_world s) r.
Proof.
  intros Hi Hb Hrun. enough (has_regs (io_reg (a_world s)) s') by done.
  assert (has_regs (io_reg (a_world s)) s) as Hs by done.
  destruct Hrun as [Hr|[Hr|Hr]]; unfold ioapic_set_irq, ioapic_mask_irq, ioapic_unmask_irq in Hr;
    rewrite (the_ioapic_some i io) in Hr by done; destruct (_ <=? _); try (by injection Hr as <-).
  - by eapply keeps_write_redirection.
  - apply run_bind in Hr as (x & s1 & H1 & H2). eapply keeps_write_redirection; [done|exact H2|]. by eapply keeps_read_redirection.
  - apply run_bind in Hr as (x & s1 & H1 & H2). eapply keeps_write_redirection; [done|exact H2|]. by eapply keeps_read_redirection.
Qed.

(** Without the table of the firmware, which [acpi_init] never keeps, nothing is
    set up. *)
Lemma ioapic_init_without_madt {W} `{!Bus W} mem offset fuel tables (s : apic W) :
  madt tables = 0 → ioapic_init mem offset fuel tables s = Some ((), s).
Proof. intros Hm. unfold ioapic_init, acpi_get_madt. by rewrite Hm. Qed.

(** ** Witness *)

Record demo_chip := mk_chip { chip_select : Z; chip_regs : list Z }.
#[export] Instance demo_chip_bus : Bus demo_chip := {
  load n a w := (if a =? 4096 + 16 then default 0 (index (chip_regs w) (chip_select w)) else 0, w);
  store n a v w :=
    if a =? 4096 then mk_chip v (chip_regs w)
    else if a =? 4096 + 16 then mk_chip (chip_select w) (<[Z.to_nat (chip_select w) := v]> (chip_regs w)) else w }.
#[export] Instance demo_chip_cpu : Apicpu demo_chip := { cpuid_edx _ _ := 0; read_msr _ _ := 0; write_msr _ _ w := w }.
#[export] Program Instance demo_chip_ioapic : IoApicChip demo_chip 4096 := { io_reg w r := default 0 (index (chip_regs w) r) }.
Next Obligation. intros n a v w r Ha. cbn. destruct (a =? 4096); [done|]. by rewrite (proj2 (Z.eqb_neq _ _)). Qed.
Next Obligation. done. Qed.

Definition demo_apic : apic demo_chip :=
  mk_apic 0 (replicate 8 (mk_ioapic 0 4096 0 24)) 1 (mk_chip 0 (replicate 64 65536)).

Lemma ioapic_never_programmed_witness :
  ∃ s, ioapic_set_irq (Some 0%nat) 1 33 0 false 0 demo_apic = Some ((), s) ∧ io_reg (a_world s) 18 = 65536.
Proof.
  destruct (ioapic_set_irq (Some 0%nat) 1 33 0 false 0 demo_apic) as [[[] s]|] eqn:E; [|vm_compute in E; discriminate].
  exists s. split; [reflexivity|].
  rewrite (ioapic_never_programmed 4096 0 (mk_ioapic 0 4096 0 24) 1 33 0 false 0 demo_apic s eq_refl eq_refl (or_introl E) 18).
  vm_compute. reflexivity.
Defined.
