(* ===== verification/Smp.v ===== *)
(** * The processors ([core/smp.c])

    [struct cpu_data] is a record, the array a list; the startup data, the
    trampoline and the lock lie in device memory, where another processor may
    change them between two steps.  An attempt to take a lock is one step. *)
From S2P Require Import Prelude Interfaces Monad Acpi Mmio Apic.
From S2P Require Gdt Pit.

Definition KERNEL_STACK_SIZE : Z := 16384.
Definition MAX_CPUS : Z := 256.
Definition AP_TRAMPOLINE_ADDR : Z := 32768.
Definition AP_DATA_PAGE : Z := 24576.
Definition STARTUP_LOCK : Z := AP_DATA_PAGE + 32.
Definition CPU_STATE_PRESENT : Z := 1.
Definition CPU_STATE_ONLINE : Z := 2.
Definition CPU_STATE_BSP : Z := 4.
Definition CPU_STATE_AP : Z := 8.

Record cpu := mk_cpu {
  apic_id : Z; cpu_number : Z; cpu_state : Z; kernel_stack : Z; ist_stacks : list Z; cpu_tss : Z }.

Record smp (A W : Type) := mk_smp {
  cpu_data : list cpu; cpu_count : Z; bsp_apic_id : Z; m_gdt : Gdt.gdt; m_pages : A; m_apic : apic W }.
Arguments mk_smp {_ _}.
Arguments cpu_data {_ _}.
Arguments cpu_count {_ _}.
Arguments bsp_apic_id {_ _}.
Arguments m_gdt {_ _}.
Arguments m_pages {_ _}.
Arguments m_apic {_ _}.

Section smp.
Context {A W : Type} `{!PageAlloc A, !Bus W, !Apicpu W, !Ports W}.
Context (mem : gmap Z Z) (offset : Z) (tables : acpi).
Abbreviation M := (Monad.M (smp A W)).

Definition on_apic {X} (m : Monad.M (apic W) X) : M X := λ s,
  match m (m_apic s) with
  | Some (x, a) => Some (x, mk_smp (cpu_data s) (cpu_count s) (bsp_apic_id s) (m_gdt s) (m_pages s) a)
  | None => None
  end.
Definition on_bus {X} (m : Monad.M W X) : M X := on_apic (on_world m).
Definition on_gdt {X} (m : Monad.M Gdt.gdt X) : M X := λ s,
  match m (m_gdt s) with
  | Some (x, g) => Some (x, mk_smp (cpu_data s) (cpu_count s) (bsp_apic_id s) g (m_pages s) (m_apic s))
  | None => None
  end.
Definition new_page : M Z := λ s,
  let '(p, a) := alloc_page (m_pages s) in
  Some (p, mk_smp (cpu_data s) (cpu_count s) (bsp_apic_id s) (m_gdt s) a (m_apic s)).
Definition set_count (n : Z) : M () := modify (λ s,
  mk_smp (cpu_data s) n (bsp_apic_id s) (m_gdt s) (m_pages s) (m_apic s)).
Definition set_bsp (id : Z) : M () := modify (λ s,
  mk_smp (cpu_data s) (cpu_count s) id (m_gdt s) (m_pages s) (m_apic s)).

(** [cpu_data[i]]; behind the array it faults. *)
Definition the_cpu (i : Z) : M cpu := o ← gets (λ s, index (cpu_data s) i); lift o.
Definition put_cpu (i : Z) (c : cpu) : M () := λ s,
  if (0 <=? i) && (i <? Z.of_nat (length (cpu_data s)))
  then Some ((), mk_smp (<[Z.to_nat i := c]> (cpu_data s)) (cpu_count s) (bsp_apic_id s) (m_gdt s) (m_pages s) (m_apic s))
  else None.

(** *** Spin locks *)

Definition spinlock_init (lock : Z) : M () := on_bus (wr32 lock 0).
Definition spinlock_release (lock : Z) : M () := on_bus (wr32 lock 0).
Definition spinlock_try_acquire (lock : Z) : M bool :=
  v ← on_bus (rd32 lock);
  if v =? 0 then on_bus (wr32 lock 1);; mret true else mret false.
Fixpoint spinlock_acquire (fuel : nat) (lock : Z) : M () :=
  match fuel with
  | O => fault
  | S fuel => b ← spinlock_try_acquire lock; if (b : bool) then mret () else spinlock_acquire fuel lock
  end.

(** *** The processors that there are *)

(** The index of the entry, NULL is [None]. *)
Definition get_current_cpu : M (option Z) :=
  id ← on_apic lapic_get_id;
  gets (λ s, (λ p, Z.of_nat p.1) <$> list_find (λ c, apic_id c = id) (take (Z.to_nat (cpu_count s)) (cpu_data s))).

(** What a processor that has started does, up to the loop in which it waits;
    [false] when it is not in the array.  [sti] is the instruction. *)
Definition ap_main (sti : W → W) (entries_address tss_address : Z) : M bool :=
  i ← get_current_cpu;
  match i with
  | None => mret false
  | Some i =>
      on_apic (lapic_init mem offset tables);;
      on_apic lapic_enable;;
      on_gdt (Gdt.gdt_init entries_address tss_address);;
      c ← the_cpu i;
      on_gdt (Gdt.gdt_load_tss (u64 (kernel_stack c + KERNEL_STACK_SIZE)));;
      (if cpu_tss c =? 0 then mret () else
         for_list (seqZ 0 7) (λ j,
           stack ← lift (index (ist_stacks c) j);
           on_bus (wr64 (cpu_tss c + 36 + 8 * j) (u64 (stack + KERNEL_STACK_SIZE)))));;
      on_bus (modify sti);;
      c ← the_cpu i;
      put_cpu i (mk_cpu (apic_id c) (cpu_number c) (Z.lor (cpu_state c) CPU_STATE_ONLINE) (kernel_stack c) (ist_stacks c) (cpu_tss c));;
      mret true
  end.

Fixpoint new_pages (n : nat) : M (list Z) :=
  match n with O => mret [] | S n => p ← new_page; l ← new_pages n; mret (p :: l) end.

(** The entry of a processor; its [tss] is left as it is. *)
Definition add_cpu (i id state : Z) : M () :=
  old ← the_cpu i;
  stack ← new_page;
  stacks ← new_pages 7;
  put_cpu i (mk_cpu id i state stack stacks (cpu_tss old)).

Fixpoint scan_cpus (fuel : nat) (entry end_ : Z) : M () :=
  match fuel with
  | O => fault
  | S fuel =>
      if entry <? end_ then
        type ← lift (member mem entry_layout 0 entry);
        full ← (if type =? MADT_TYPE_LOCAL_APIC then
                  id ← lift (member mem local_apic_layout 3 entry);
                  bsp ← gets bsp_apic_id;
                  if id =? bsp then mret false else
                  flags ← lift (member mem local_apic_layout 4 entry);
                  if Z.land flags 1 =? 0 then mret false else
                  n ← gets cpu_count;
                  add_cpu n id (Z.lor CPU_STATE_PRESENT CPU_STATE_AP);;
                  set_count (u32 (n + 1));;
                  mret (MAX_CPUS <=? u32 (n + 1))
                else mret false);
        if (full : bool) then mret () else
        len ← lift (member mem entry_layout 1 entry);
        scan_cpus fuel (entry + len) end_
      else mret ()
  end.

Definition smp_init (fuel : nat) : M () :=
  id ← on_apic lapic_get_id;
  set_bsp id;;
  add_cpu 0 id (Z.lor (Z.lor CPU_STATE_PRESENT CPU_STATE_ONLINE) CPU_STATE_BSP);;
  set_count 1;;
  let madt := acpi_get_madt tables in
  if madt =? 0 then mret () else
  len ← lift (table_length mem madt);
  scan_cpus fuel (madt + SIZEOF_MADT) (madt + len).

(** *** Starting the others *)

Definition wait_ms (fuel : nat) (milliseconds : Z) : M () := on_bus (Pit.pit_wait fuel milliseconds).

Definition boot_ap (fuel : nat) (i : Z) : M () :=
  c ← the_cpu i;
  if Z.land (cpu_state c) CPU_STATE_PRESENT =? 0 then mret () else
  on_bus (wr32 AP_DATA_PAGE (apic_id c));;
  on_bus (wr64 (AP_DATA_PAGE + 8) (u64 (kernel_stack c + KERNEL_STACK_SIZE)));;
  spinlock_init STARTUP_LOCK;;
  spinlock_acquire fuel STARTUP_LOCK;;
  on_apic (lapic_send_ipi fuel (apic_id c) 1280);;
  wait_ms fuel 10;;
  on_apic (lapic_send_ipi fuel (apic_id c) 1536);;
  wait_ms fuel 10;;
  for_list [0; 1] (λ _,
    on_apic (lapic_send_ipi fuel (apic_id c) (Z.lor 1536 (Z.shiftr AP_TRAMPOLINE_ADDR 12)));;
    wait_ms fuel 1);;
  spinlock_acquire fuel STARTUP_LOCK;;
  spinlock_release STARTUP_LOCK;;
  wait_ms fuel 100;;
  c ← the_cpu i;
  if Z.land (cpu_state c) CPU_STATE_ONLINE =? 0 then
    put_cpu i (mk_cpu (apic_id c) (cpu_number c) (Z.land (cpu_state c) (Z.lnot CPU_STATE_PRESENT)) (kernel_stack c) (ist_stacks c) (cpu_tss c));;
    n ← gets cpu_count;
    set_count (u32 (n - 1))
  else mret ().

(** [for (i = 1; i < cpu_count; i++)]: the count may fall during the loop. *)
Fixpoint boot_loop (n : nat) (fuel : nat) (i : Z) : M () :=
  count ← gets cpu_count;
  if i <? count then
    match n with
    | O => fault
    | S n => boot_ap fuel i;; boot_loop n fuel (i + 1)
    end
  else mret ().

(** [trampoline] is the code of ap_trampoline.asm, [entry] the address of [ap_main]. *)
Definition smp_boot_aps (fuel : nat) (trampoline : list Z) (cr3 entry : Z) : M () :=
  on_bus (wr_bytes AP_TRAMPOLINE_ADDR trampoline);;
  on_bus (wr64 (AP_DATA_PAGE + 16) cr3);;
  on_bus (wr64 (AP_DATA_PAGE + 24) entry);;
  boot_loop (Z.to_nat MAX_CPUS) fuel 1.

Definition smp_get_cpu_count : M Z := gets cpu_count.
Definition smp_get_cpu_data (cpu_num : Z) (s : smp A W) : option Z := if cpu_count s <=? cpu_num then None else Some cpu_num.
Definition smp_get_current_cpu : M Z :=
  i ← get_current_cpu;
  match i with None => mret 0 | Some i => c ← the_cpu i; mret (cpu_number c) end.
Definition smp_send_ipi (fuel : nat) (cpu_num vector : Z) : M () :=
  n ← gets cpu_count;
  if n <=? cpu_num then mret () else
  c ← the_cpu cpu_num;
  on_apic (lapic_send_ipi fuel (apic_id c) vector).
End smp.

(** ** The processors that [smp_init] finds *)

(** What the entries of the table look like: type, identifier, flags, length. *)
Inductive cpus_at (mem : gmap Z Z) (end_ : Z) : Z → list (Z * Z * Z * Z) → Prop :=
| cpus_end a : end_ <= a → cpus_at mem end_ a []
| cpus_cons a type id flags len es :
    a < end_ → member mem entry_layout 0 a = Some type → member mem local_apic_layout 3 a = Some id → member mem local_apic_layout 4 a = Some flags →
    member mem entry_layout 1 a = Some len → cpus_at mem end_ (a + len) es →
    cpus_at mem end_ a ((type, id, flags, len) :: es).

Definition usable (bsp : Z) (e : Z * Z * Z * Z) : bool :=
  let '(type, id, flags, _) := e in (type =? MADT_TYPE_LOCAL_APIC) && negb (id =? bsp) && negb (Z.land flags 1 =? 0).
Definition entry_id (e : Z * Z * Z * Z) : Z := let '(_, id, _, _) := e in id.
(** The identifiers of the processors other than [bsp] that can be used. *)
Definition others (bsp : Z) (es : list (Z * Z * Z * Z)) : list Z := entry_id <$> List.filter (usable bsp) es.

Section found.
Context {A W : Type} `{!PageAlloc A, !Bus W, !Apicpu W, !Ports W}.

(** The array starts with the processors [ids]. *)
Record holds (bsp : Z) (ids : list Z) (s : smp A W) : Prop := {
  ho_length : length (cpu_data s) = Z.to_nat MAX_CPUS;
  ho_bsp : bsp_apic_id s = bsp;
  ho_count : cpu_count s = Z.of_nat (length ids);
  ho_cpu i id : ids !! i = Some id → ∃ c, cpu_data s !! i = Some c ∧ apic_id c = id ∧ cpu_number c = Z.of_nat i ∧
    length (ist_stacks c) = 7%nat ∧
    cpu_state c = if (i =? 0)%nat then Z.lor (Z.lor CPU_STATE_PRESENT CPU_STATE_ONLINE) CPU_STATE_BSP
                  else Z.lor CPU_STATE_PRESENT CPU_STATE_AP }.

Definition same_cpus (s s' : smp A W) : Prop :=
  cpu_data s' = cpu_data s ∧ cpu_count s' = cpu_count s ∧ bsp_apic_id s' = bsp_apic_id s.

Lemma wp_new_pages n : ∀ (s : smp A W), wp (new_pages n) (λ l s', length l = n ∧ same_cpus s s') s.
Proof.
  induction n as [|n IH]; intros s; [by apply wp_ret|]. cbn [new_pages]. apply wp_bind. unfold new_page, wp.
  destruct (alloc_page (m_pages s)) as [p a]. apply wp_bind. eapply wp_mono; [apply IH|]. cbn beta. intros l s' (Hl & Hs).
  apply wp_ret. split; [by cbn; rewrite Hl|done].
Qed.

Lemma wp_add_cpu (s : smp A W) i id state :
  length (cpu_data s) = Z.to_nat MAX_CPUS → 0 <= i < MAX_CPUS →
  wp (add_cpu i id state) (λ _ s', cpu_count s' = cpu_count s ∧ bsp_apic_id s' = bsp_apic_id s ∧
    ∃ c, cpu_data s' = <[Z.to_nat i := c]> (cpu_data s) ∧ apic_id c = id ∧ cpu_number c = i ∧ cpu_state c = state ∧
      length (ist_stacks c) = 7%nat) s.
Proof.
  intros Hl Hi. unfold add_cpu. apply wp_bind. unfold the_cpu. apply wp_bind, wp_gets.
  destruct (index_some (cpu_data s) i) as [old Ho]; [rewrite Hl; unfold MAX_CPUS in *; lia|]. eapply wp_lift; [exact Ho|].
  apply wp_bind. unfold new_page, wp. destruct (alloc_page (m_pages s)) as [p a]. apply wp_bind.
  eapply wp_mono; [apply wp_new_pages|]. cbn beta. intros l s' (Hs & Hd & Hc & Hb). cbn in Hd, Hc, Hb.
  unfold put_cpu, wp. rewrite (proj2 (Z.leb_le _ _)), (proj2 (Z.ltb_lt _ _)) by (rewrite ?Hd, ?Hl; unfold MAX_CPUS in *; lia).
  cbn. split_and!; [done|done|]. rewrite Hd. by eexists.
Qed.

Lemma holds_snoc bsp ids id c (s s' : smp A W) :
  holds bsp ids s → (0 < length ids)%nat → cpu_data s' = <[length ids := c]> (cpu_data s) → bsp_apic_id s' = bsp → cpu_count s' = Z.of_nat (length ids) + 1 →
  Z.of_nat (length ids) < MAX_CPUS → apic_id c = id → cpu_number c = Z.of_nat (length ids) → cpu_state c = Z.lor CPU_STATE_PRESENT CPU_STATE_AP →
  length (ist_stacks c) = 7%nat → holds bsp (ids ++ [id]) s'.
Proof.
  intros [Hl Hb Hn Hc] Hpos Hd Hb' Hn' Hlt Ha Hnum Hst Hi. split.
  - by rewrite Hd, length_insert.
  - done.
  - rewrite length_app. cbn. lia.
  - intros i x Hx. rewrite Hd. apply lookup_app_Some in Hx as [Hx|[Hge Hx]].
    + pose proof (lookup_lt_Some _ _ _ Hx). rewrite list_lookup_insert_ne by lia. by apply Hc.
    + destruct (i - length ids)%nat eqn:E; [|done]. injection Hx as <-. assert (i = length ids) as -> by lia.
      exists c. rewrite list_lookup_insert_eq by (rewrite Hl; unfold MAX_CPUS in *; lia).
      destruct (Nat.eqb_spec (length ids) 0); [lia|]. by split_and!.
Qed.

Lemma wp_scan_cpus mem fuel end_ bsp : ∀ a es ids (s : smp A W),
  cpus_at mem end_ a es → (length es < fuel)%nat → holds bsp ids s → (0 < length ids)%nat → Z.of_nat (length ids) < MAX_CPUS →
  wp (scan_cpus mem fuel a end_) (λ _, holds bsp (ids ++ take (Z.to_nat MAX_CPUS - length ids) (others bsp es))) s.
Proof.
  induction fuel as [|fuel IH]; intros a es ids s He Hf Hs Hpos Hn; [lia|]. cbn [scan_cpus].
  inversion He as [? Hend|? type id flags len es' Hlt Ht Hi Hfl Hl He']; subst.
  { rewrite (proj2 (Z.ltb_ge _ _)) by done. apply wp_ret. cbn. rewrite take_nil, app_nil_r. done. }
  rewrite (proj2 (Z.ltb_lt _ _)) by done. cbn [length] in Hf.
  assert (usable bsp (type, id, flags, len) = false →
    wp (len0 ← lift (member mem entry_layout 1 a); scan_cpus mem fuel (a + len0) end_)
      (λ _, holds bsp (ids ++ take (Z.to_nat MAX_CPUS - length ids) (others bsp ((type, id, flags, len) :: es')))) s) as Hskip.
  { intros Hu. apply wp_bind. eapply wp_lift; [exact Hl|]. unfold others. cbn [List.filter]. rewrite Hu. apply IH; [done|lia|done..]. }
  apply wp_bind. eapply wp_lift; [exact Ht|]. unfold usable in Hskip. apply wp_bind.
  destruct (type =? MADT_TYPE_LOCAL_APIC) eqn:Et; cbn [andb] in Hskip; [|by apply wp_ret, Hskip].
  apply wp_bind. eapply wp_lift; [exact Hi|]. apply wp_bind, wp_gets. rewrite (ho_bsp _ _ _ Hs).
  destruct (id =? bsp) eqn:Eb; cbn [andb negb] in Hskip; [by apply wp_ret, Hskip|].
  apply wp_bind. eapply wp_lift; [exact Hfl|]. destruct (Z.land flags 1 =? 0) eqn:Efl; cbn [negb] in Hskip; [by apply wp_ret, Hskip|].
  apply wp_bind, wp_gets. rewrite (ho_count _ _ _ Hs). apply wp_bind.
  eapply wp_mono; [apply wp_add_cpu; [apply Hs|lia]|]. cbn beta. intros _ s1 (Hc1 & Hb1 & c & Hd1 & Ha & Hnum & Hst & Hlen).
  rewrite Nat2Z.id in Hd1. apply wp_bind. unfold set_count. apply wp_modify.
  rewrite u32_small by (unfold MAX_CPUS in *; ulia).
  assert (holds bsp (ids ++ [id]) (mk_smp (cpu_data s1) (Z.of_nat (length ids) + 1) (bsp_apic_id s1) (m_gdt s1) (m_pages s1) (m_apic s1))) as Hs2.
  { eapply holds_snoc; try done. rewrite Hb1. by apply Hs. }
  assert (others bsp ((type, id, flags, len) :: es') = id :: others bsp es') as ->.
  { unfold others, usable. cbn [List.filter]. by rewrite Et, Eb, Efl. }
  apply wp_ret. destruct (MAX_CPUS <=? _) eqn:Em; zbool.
  - apply wp_ret. replace (Z.to_nat MAX_CPUS - length ids)%nat with 1%nat by (unfold MAX_CPUS in *; lia). done.
  - apply wp_bind. eapply wp_lift; [exact Hl|]. eapply wp_mono; [apply IH; [done|lia|exact Hs2|rewrite length_app; lia|rewrite length_app; cbn; lia]|].
    cbn beta. intros _ s3. rewrite <- app_assoc, length_app. cbn [length app].
    replace (Z.to_nat MAX_CPUS - length ids)%nat with (S (Z.to_nat MAX_CPUS - (length ids + 1)))%nat by (unfold MAX_CPUS in *; lia). done.
Qed.
End found.


(** ** Starting a processor that does not release the lock *)

(** The lock is memory that nobody else writes: accesses elsewhere and ports
    leave it alone. *)
Class LockCell (W : Type) `{!Bus W, !Ports W} := {
  cell : W → Z;
  cell_load w : (load 4 STARTUP_LOCK w).1 = cell w;
  cell_loads n a w : cell (load n a w).2 = cell w;
  cell_store v w : cell (store 4 STARTUP_LOCK v w) = v;
  cell_stores n a v w : a + Z.of_nat n <= STARTUP_LOCK ∨ STARTUP_LOCK + 4 <= a → cell (store n a v w) = cell w;
  cell_out port v w : cell (outb port v w) = cell w;
  cell_in port w : cell (inb port w).2 = cell w }.

Section hang.
Context {A W : Type} `{!PageAlloc A, !Bus W, !Apicpu W, HP : !Ports W, !LockCell W}.

Definition taken (w : W) : Prop := cell w = 1.
(** The lock is taken, and the registers of the local APIC lie elsewhere. *)
Definition a_taken (a : apic W) : Prop := taken (a_world a) ∧ (lapic_base a = 0 ∨ STARTUP_LOCK + 4 <= lapic_base a).
Definition m_taken (s : smp A W) : Prop := a_taken (m_apic s).

Lemma keeps_on_world {X} (m : Monad.M W X) : keeps taken m → keeps a_taken (on_world m).
Proof.
  intros Hm s x s' Hr [Hs Hb]. unfold on_world in Hr. destruct (m (a_world s)) as [[y w]|] eqn:E; [|done]. injection Hr as <- <-.
  split; [|done]. cbn. by eapply Hm.
Qed.
Lemma keeps_on_apic {X} (m : Monad.M (apic W) X) : keeps a_taken m → keeps m_taken (on_apic m).
Proof.
  intros Hm s x s' Hr Hs. unfold on_apic in Hr. destruct (m (m_apic s)) as [[y a]|] eqn:E; [|done]. injection Hr as <- <-.
  unfold m_taken in *. cbn. by eapply Hm.
Qed.
Lemma keeps_rd32 a : keeps taken (rd32 a).
Proof. intros w x w' Hr Hw. unfold rd32, call in Hr. injection Hr as Hr. unfold taken. change w' with (x, w').2. rewrite <- Hr. by rewrite cell_loads. Qed.
Lemma keeps_wr32 a v : STARTUP_LOCK + 4 <= a → keeps taken (wr32 a v).
Proof. intros Ha. apply keeps_modify. intros w Hw. unfold taken. rewrite cell_stores; [done|by right]. Qed.

Lemma keeps_lapic_read reg : keeps a_taken (lapic_read reg).
Proof. unfold lapic_read. keeps; [apply keeps_on_world, keeps_rd32]. Qed.
Lemma keeps_lapic_write reg v : 0 <= reg → keeps a_taken (lapic_write reg v).
Proof.
  intros Hreg s x s' Hr [Hs Hb]. unfold lapic_write in Hr. apply run_bind in Hr as (base & s1 & H1 & Hr). injection H1 as <- <-.
  destruct (lapic_base s =? 0) eqn:E; [by injection Hr as <- <-|]. zbool. destruct Hb as [|Hb]; [done|].
  eapply (keeps_bind a_taken); [| |exact Hr|by split; auto].
  - apply keeps_on_world, keeps_wr32. assert (0 <= reg / 4) by (apply Z.div_pos; lia). lia.
  - intros ?. cbn beta. apply keeps_bind; [apply keeps_on_world, keeps_rd32|intros ?; apply keeps_ret].
Qed.
Lemma keeps_wait_delivery fuel : keeps a_taken (wait_delivery (W := W) fuel).
Proof. induction fuel; cbn [wait_delivery]; keeps. apply keeps_lapic_read. Qed.
Lemma keeps_send_ipi fuel id v : keeps a_taken (lapic_send_ipi (W := W) fuel id v).
Proof.
  unfold lapic_send_ipi. apply keeps_bind; [by apply keeps_lapic_write|intros ?].
  apply keeps_bind; [by apply keeps_lapic_write|intros ?]. apply keeps_wait_delivery.
Qed.

Lemma keeps_out port v : keeps taken (Serial.out port v).
Proof. apply keeps_modify. intros w Hw. unfold taken. by rewrite cell_out. Qed.
Lemma keeps_in port : keeps taken (Serial.in_ port).
Proof. intros w x w' Hr Hw. unfold Serial.in_, call in Hr. injection Hr as Hr. unfold taken. change w' with (x, w').2. rewrite <- Hr. by rewrite cell_in. Qed.
Lemma keeps_pit_poll fuel : keeps taken (Pit.pit_poll fuel).
Proof. induction fuel; cbn [Pit.pit_poll]; keeps. apply keeps_in. Qed.
Lemma keeps_pit_wait fuel ms : keeps taken (Pit.pit_wait fuel ms).
Proof. unfold Pit.pit_wait. do 3 (apply keeps_bind; [apply keeps_out|intros ?]). apply keeps_pit_poll. Qed.

(** A taken lock is never got. *)
Lemma acquire_taken fuel : ∀ s : smp A W, m_taken s → spinlock_acquire fuel STARTUP_LOCK s = None.
Proof.
  induction fuel as [|fuel IH]; intros s Hs; [done|]. cbn [spinlock_acquire].
  destruct ((spinlock_try_acquire STARTUP_LOCK : Monad.M (smp A W) bool) s) as [[b s1]|] eqn:E; unfold mbind, M_bind; rewrite E; [|done].
  unfold spinlock_try_acquire in E. apply run_bind in E as (v & s2 & H1 & H2).
  assert (v = 1) as ->.
  { destruct Hs as [Hs _]. unfold on_bus, on_apic, on_world, rd32, call in H1. destruct (load 4 STARTUP_LOCK _) as [y w] eqn:El.
    injection H1 as <- _. unfold taken in Hs. rewrite <- cell_load, El in Hs. done. }
  assert (m_taken s2) as Hs2 by (eapply keeps_on_apic; [apply keeps_on_world, keeps_rd32|exact H1|exact Hs]).
  cbn in H2. injection H2 as <- <-. by apply IH.
Qed.

Definition away (s : smp A W) : Prop := lapic_base (m_apic s) = 0 ∨ STARTUP_LOCK + 4 <= lapic_base (m_apic s).

Lemma keeps_away {X} (m : Monad.M W X) : keeps away (on_bus m).
Proof.
  intros s x s' Hr Hs. unfold on_bus, on_apic, on_world in Hr. destruct (m (a_world (m_apic s))) as [[y w]|]; [|done].
  by injection Hr as <- <-.
Qed.

(** Who got the lock holds it. *)
Lemma acquire_takes fuel : ∀ s s' : smp A W, away s → spinlock_acquire fuel STARTUP_LOCK s = Some ((), s') → m_taken s'.
Proof.
  induction fuel as [|fuel IH]; intros s s' Hs Hr; [done|]. cbn [spinlock_acquire] in Hr.
  apply run_bind in Hr as (b & s1 & H1 & Hr). unfold spinlock_try_acquire in H1. apply run_bind in H1 as (v & s2 & Hv & H2).
  assert (away s2) as Hs2 by (eapply keeps_away; [exact Hv|done]). destruct (v =? 0).
  - cbn in H2. injection H2 as <- <-. injection Hr as <-. split; [|done]. cbn. apply cell_store.
  - injection H2 as <- <-. by eapply IH.
Qed.
End hang.

(** When no other processor clears the lock, starting one never ends. *)
Theorem boot_ap_hangs {A W} `{!PageAlloc A, !Bus W, !Apicpu W, HP : !Ports W, !LockCell W} fuel i c (s : smp A W) :
  (lapic_base (m_apic s) = 0 ∨ STARTUP_LOCK + 4 <= lapic_base (m_apic s)) →
  index (cpu_data s) i = Some c → Z.land (cpu_state c) CPU_STATE_PRESENT ≠ 0 → boot_ap fuel i s = None.
Proof.
  intros Hb Hc Hp. destruct (boot_ap fuel i s) as [[[] s']|] eqn:Hr; [exfalso|done]. unfold boot_ap in Hr.
  apply run_bind in Hr as (c' & s1 & H1 & Hr). unfold the_cpu in H1. apply run_bind in H1 as (o & s2 & Ho & Hl).
  injection Ho as <- <-. rewrite Hc in Hl. injection Hl as <- <-. rewrite (proj2 (Z.eqb_neq _ _)) in Hr by done.
  apply run_bind in Hr as (u1 & s1 & H1 & Hr). apply run_bind in Hr as (u2 & s2 & H2 & Hr). apply run_bind in Hr as (u3 & s3 & H3 & Hr).
  apply run_bind in Hr as ([] & s4 & H4 & Hr).
  assert (m_taken s4) as Ht by (eapply acquire_takes; [|exact H4]; repeat (eapply keeps_away; [eassumption|]); exact Hb).
  apply run_bind in Hr as (u5 & s5 & H5 & Hr). apply run_bind in Hr as (u6 & s6 & H6 & Hr). apply run_bind in Hr as (u7 & s7 & H7 & Hr).
  apply run_bind in Hr as (u8 & s8 & H8 & Hr). apply run_bind in Hr as (u9 & s9 & H9 & Hr). apply run_bind in Hr as ([] & s10 & H10 & _).
  pose proof (keeps_on_apic _ (keeps_send_ipi _ _ _) _ _ _ H5 Ht) as T5.
  pose proof (keeps_on_apic _ (keeps_on_world _ (keeps_pit_wait _ _)) _ _ _ H6 T5) as T6.
  pose proof (keeps_on_apic _ (keeps_send_ipi _ _ _) _ _ _ H7 T6) as T7.
  pose proof (keeps_on_apic _ (keeps_on_world _ (keeps_pit_wait _ _)) _ _ _ H8 T7) as T8.
  assert (m_taken s9) as T9; [|by rewrite acquire_taken in H10].
  eapply (keeps_for_list m_taken); [|exact H9|exact T8]. intros j. cbn beta.
  apply keeps_bind; [apply keeps_on_apic, keeps_send_ipi|intros ?]. apply keeps_on_apic, keeps_on_world, keeps_pit_wait.
Qed.

(** ** Witnesses *)

(** No pages, and cells of memory at their addresses. *)
#[export] Program Instance no_pages : PageAlloc () := {
  alloc_page a := (0, a); free_page p a := a; pa_ok a := True; pa_free a p := False }.
Next Obligation. intros. split; [done|by left]. Qed.
Next Obligation. done. Qed.

Definition demo_memory : Type := gmap Z Z.
#[export] Instance demo_memory_bus : Bus demo_memory := {
  load n a w := (default 0 (w !! a), w); store n a v w := if (n =? 0)%nat then w else <[a := v]> w }.
#[export] Instance demo_memory_cpu : Apicpu demo_memory := { cpuid_edx _ _ := 0; read_msr _ _ := 0; write_msr _ _ w := w }.
#[export] Instance demo_memory_ports : Ports demo_memory := { outb port v w := w; inb port w := (255, w) }.
#[export] Program Instance demo_memory_lock : LockCell demo_memory := { cell w := default 0 (w !! STARTUP_LOCK) }.
Next Obligation. done. Qed.
Next Obligation. done. Qed.
Next Obligation.
  intros v w. change (default 0 ((<[STARTUP_LOCK := v]> (w : gmap Z Z)) !! STARTUP_LOCK) = v). by rewrite lookup_insert_eq.
Qed.
Next Obligation.
  intros n a v w Ha. cbn [store demo_memory_bus]. destruct (n =? 0)%nat eqn:E; [done|]. apply Nat.eqb_neq in E.
  change (default 0 ((<[a := v]> (w : gmap Z Z)) !! STARTUP_LOCK) = default 0 ((w : gmap Z Z) !! STARTUP_LOCK)).
  rewrite lookup_insert_ne; [done|lia].
Qed.
Next Obligation. done. Qed.
Next Obligation. done. Qed.

Definition demo_smp (n : Z) : smp () demo_memory :=
  mk_smp (replicate (Z.to_nat MAX_CPUS) (mk_cpu 0 0 9 0 [] 0)) n 0 Gdt.demo_gdt () (mk_apic 0 [] 0 (∅ : gmap Z Z)).


Lemma boot_ap_hangs_witness : boot_ap 100 1 (demo_smp 2) = None.
Proof.
  assert (Hp : Z.land (cpu_state (mk_cpu 0 0 9 0 [] 0)) CPU_STATE_PRESENT ≠ 0) by (vm_compute; discriminate).
  exact (boot_ap_hangs 100 1 (mk_cpu 0 0 9 0 [] 0) (demo_smp 2) (or_introl eq_refl) eq_refl Hp).
Defined.
