(* ===== verification/Nvme.v ===== *)
(** * NVMe storage ([core/drivers/storage/nvme.c])

    The devices are an array; the registers, the queues and the identify data lie
    in device memory ([Mmio.v]), which the controller changes between two
    accesses.  The reading of a completion entry is written as the single load
    of its status that the loop makes twice. *)
From S2P Require Import Prelude Interfaces Monad Mmio Bytes.
From S2P Require Pci.

Definition NVME_MAX_DEVICES : Z := 16.
Definition NVME_QUEUE_DEPTH : Z := 256.
Definition NVME_CMD_WRITE : Z := 1.
Definition NVME_CMD_READ : Z := 2.
Definition NVME_ADMIN_IDENTIFY : Z := 6.
Definition NVME_IDENTIFY_CONTROLLER : Z := 1.
Definition NVME_REG_CC : Z := 20.
Definition NVME_REG_CSTS : Z := 28.
Definition NVME_REG_AQA : Z := 36.
Definition NVME_REG_ASQ : Z := 40.
Definition NVME_REG_ACQ : Z := 48.
Definition NVME_REG_SQ0TDT : Z := 4096.
Definition NVME_REG_CQ0HDT : Z := 4100.
Definition SIZEOF_CONTROLLER_INFO : nat := 84.

Inductive nvme_result_t :=
| NVME_SUCCESS | NVME_ERR_NOT_FOUND | NVME_ERR_INITIALIZATION | NVME_ERR_QUEUE_FULL
| NVME_ERR_INVALID_PARAM | NVME_ERR_TIMEOUT | NVME_ERR_IO.

(** A command: the double words that are ever set; the others are 0. *)
Record nvme_sq_entry_t := mk_sq { cdw0 : Z; nsid : Z; dptr : Z; cdw10 : Z; cdw11 : Z; cdw12 : Z }.
(** The members of a command and of a completion, and the bytes of a command. *)
Definition sq_layout : list nat := [4; 4; 8; 8; 8; 4; 4; 4; 4; 4; 4]%nat.
Definition cq_layout : list nat := [4; 4; 2; 2; 2; 2]%nat.
Definition sq_bytes (c : nvme_sq_entry_t) : list Z :=
  pack sq_layout
    [cdw0 c; nsid c; 0; 0; dptr c; cdw10 c; cdw11 c; cdw12 c; 0; 0; 0].

Record nvme_queue_t := mk_queue { q_base : Z; q_index : Z; q_size : Z }.

(** The fields that the code sets: [sq_base] and [sq_tail] of the submission
    queue, [cq_base] and [cq_head] of the completion queue. *)
Record nvme_device_t := mk_device {
  pci_dev : option nat; mmio_base : Z; controller_info : list Z; admin_sq : nvme_queue_t; admin_cq : nvme_queue_t;
  d_initialized : bool }.
Definition no_info : list Z := replicate SIZEOF_CONTROLLER_INFO 0.

Record nvme := mk_nvme { nvme_devices : list nvme_device_t; num_nvme_devices : Z }.

Section nvme.
Context {A H W : Type} `{!PageAlloc A, !Malloc H, !Pci.PciBus W, !Bus W}.
Context (vmm_get_phys_addr : Z → Z).
Abbreviation M := (Monad.M (nvme * plat A H W)).

Definition the_nvme (i : Z) : M nvme_device_t := o ← on_fst (gets (λ s, index (nvme_devices s) i)); lift o.
Definition put_nvme (i : Z) (d : nvme_device_t) : M () :=
  on_fst (modify (λ s, mk_nvme (<[Z.to_nat i := d]> (nvme_devices s)) (num_nvme_devices s))).
Definition dev {X} (m : Monad.M W X) : M X := on_snd (on_dev m).
Definition read_reg32 (d : nvme_device_t) (reg : Z) : M Z := dev (rd32 (mmio_base d + reg)).
Definition write_reg32 (d : nvme_device_t) (reg v : Z) : M () := dev (wr32 (mmio_base d + reg) v).
Definition write_reg64 (d : nvme_device_t) (reg v : Z) : M () := dev (wr64 (mmio_base d + reg) v).

Definition nvme_alloc_queue : M Z :=
  queue ← on_snd page_alloc;
  if queue =? 0 then mret 0 else
  on_snd (zero_bytes queue 4096);;
  mret queue.

(** At most [n] looks at the completion queue. *)
Fixpoint wait_completion (n : nat) (i : Z) : M nvme_result_t :=
  match n with
  | O => mret NVME_ERR_TIMEOUT
  | S n =>
      d ← the_nvme i;
      let cq := admin_cq d in
      status ← dev (rd16 (q_base cq + size_of cq_layout * q_index cq + offset_of cq_layout 5));
      if negb (status =? 0) then
        if Z.land status 32512 =? 0 then
          h ← modulo (q_index cq + 1) (q_size cq);
          put_nvme i (mk_device (pci_dev d) (mmio_base d) (controller_info d) (admin_sq d) (mk_queue (q_base cq) h (q_size cq)) (d_initialized d));;
          write_reg32 d NVME_REG_CQ0HDT h;;
          mret NVME_SUCCESS
        else mret NVME_ERR_IO
      else wait_completion n i
  end.

Definition nvme_submit_command (i : Z) (cmd : nvme_sq_entry_t) : M nvme_result_t :=
  d ← the_nvme i;
  let sq := admin_sq d in
  dev (wr_bytes (q_base sq + size_of sq_layout * q_index sq) (sq_bytes cmd));;
  t ← modulo (q_index sq + 1) (q_size sq);
  put_nvme i (mk_device (pci_dev d) (mmio_base d) (controller_info d) (mk_queue (q_base sq) t (q_size sq)) (admin_cq d) (d_initialized d));;
  write_reg32 d NVME_REG_SQ0TDT t;;
  wait_completion (Z.to_nat 100000) i.

(** [while (cond && timeout--)]: whether the loop left [timeout] at 0, which is
    when the condition fails after 100000 rounds. *)
Fixpoint wait_status (n : nat) (d : nvme_device_t) (ready : bool) : M bool :=
  v ← read_reg32 d NVME_REG_CSTS;
  if Bool.eqb (Z.land v 1 =? 0) ready then
    match n with O => mret false | S n => wait_status n d ready end
  else mret (match n with O => true | _ => false end).

Definition nvme_probe_device (k : nat) : M nvme_result_t :=
  i ← on_fst (gets num_nvme_devices);
  if NVME_MAX_DEVICES <=? i then mret NVME_ERR_QUEUE_FULL else
  put_nvme i (mk_device (Some k) 0 no_info (mk_queue 0 0 0) (mk_queue 0 0 0) false);;
  p ← on_snd (the_device k);
  on_snd (pci_command p 6);;
  base ← lift (Pci.pci_get_bar (Some p) 0);
  if base =? 0 then mret NVME_ERR_INITIALIZATION else
  let d := mk_device (Some k) (vmm_get_phys_addr base) no_info (mk_queue 0 0 0) (mk_queue 0 0 0) false in
  put_nvme i d;;
  write_reg32 d NVME_REG_CC 0;;
  wait_status (Z.to_nat 100000) d false;;
  sq ← nvme_alloc_queue;
  let d := mk_device (Some k) (mmio_base d) no_info (mk_queue sq 0 0) (mk_queue 0 0 0) false in
  put_nvme i d;;
  if sq =? 0 then mret NVME_ERR_INITIALIZATION else
  cq ← nvme_alloc_queue;
  let d := mk_device (Some k) (mmio_base d) no_info (mk_queue sq 0 0) (mk_queue cq 0 0) false in
  put_nvme i d;;
  if cq =? 0 then mret NVME_ERR_INITIALIZATION else
  identify_buffer ← on_snd page_alloc;
  if identify_buffer =? 0 then mret NVME_ERR_INITIALIZATION else
  let d := mk_device (Some k) (mmio_base d) no_info (mk_queue sq 0 NVME_QUEUE_DEPTH) (mk_queue cq 0 NVME_QUEUE_DEPTH) false in
  put_nvme i d;;
  write_reg64 d NVME_REG_ASQ sq;;
  write_reg64 d NVME_REG_ACQ cq;;
  write_reg32 d NVME_REG_AQA (Z.lor (Z.shiftl (NVME_QUEUE_DEPTH - 1) 16) (NVME_QUEUE_DEPTH - 1));;
  write_reg32 d NVME_REG_CC (Z.lor (Z.lor (Z.shiftl 3 14) (Z.shiftl 6 7)) 1);;
  expired ← wait_status (Z.to_nat 100000) d true;
  if (expired : bool) then on_snd (page_free identify_buffer);; mret NVME_ERR_TIMEOUT else
  result ← nvme_submit_command i (mk_sq (Z.shiftl NVME_ADMIN_IDENTIFY 16) 0 identify_buffer NVME_IDENTIFY_CONTROLLER 0 0);
  match result with
  | NVME_SUCCESS =>
      info ← dev (rd_bytes SIZEOF_CONTROLLER_INFO identify_buffer);
      on_snd (page_free identify_buffer);;
      d ← the_nvme i;
      put_nvme i (mk_device (pci_dev d) (mmio_base d) info (admin_sq d) (admin_cq d) true);;
      on_fst (modify (λ s, mk_nvme (nvme_devices s) (num_nvme_devices s + 1)));;
      mret NVME_SUCCESS
  | _ => on_snd (page_free identify_buffer);; mret NVME_ERR_INITIALIZATION
  end.

Fixpoint nvme_init_loop (fuel : nat) : M nvme_result_t :=
  match fuel with
  | O => fault
  | S fuel =>
      k ← on_snd (find_device Pci.PCI_CLASS_STORAGE 8);
      match k with
      | Some k => nvme_probe_device k;; nvme_init_loop fuel
      | None => n ← on_fst (gets num_nvme_devices); mret (if 0 <? n then NVME_SUCCESS else NVME_ERR_NOT_FOUND)
      end
  end.
Definition nvme_init (fuel : nat) : M nvme_result_t := nvme_init_loop fuel.

(** A command of the I/O set, sent through the admin queue. *)
Definition io_command (opcode i ns lba blocks buffer : Z) : M nvme_result_t :=
  d ← the_nvme i;
  if negb (d_initialized d) || (buffer =? 0) then mret NVME_ERR_INVALID_PARAM else
  nvme_submit_command i (mk_sq (Z.shiftl opcode 16) ns buffer (u32 lba) (u32 (Z.shiftr lba 32)) (u32 (blocks - 1))).

(** The device is [None] for NULL. *)
Definition nvme_read (device : option Z) (ns lba blocks buffer : Z) : M nvme_result_t :=
  match device with None => mret NVME_ERR_INVALID_PARAM | Some i => io_command NVME_CMD_READ i ns lba blocks buffer end.
Definition nvme_write (device : option Z) (ns lba blocks buffer : Z) : M nvme_result_t :=
  match device with None => mret NVME_ERR_INVALID_PARAM | Some i => io_command NVME_CMD_WRITE i ns lba blocks buffer end.

Definition nvme_get_device (i : Z) (s : nvme) : option Z := if i <? num_nvme_devices s then Some i else None.
End nvme.

(** ** Scanning for devices never ends where there is one *)

Section scan.
Context {A H W : Type} `{!PageAlloc A, !Malloc H, !Pci.PciBus W, !Bus W}.
Context (l : list Pci.pci_device) (phys : Z → Z).
Abbreviation kept := (keeps (with_devices (A := A) (H := H) (W := W) l (S := nvme))).

Lemma keeps_wait_status n d ready : kept (wait_status n d ready).
Proof. induction n; cbn [wait_status]; unfold read_reg32, dev; keeps_devices. Qed.
Lemma keeps_wait_completion n i : kept (wait_completion n i).
Proof.
  induction n; cbn [wait_completion]; unfold the_nvme, put_nvme, write_reg32, dev; keeps_devices.
  unfold modulo. by destruct (_ =? 0); [apply keeps_fault|apply keeps_ret].
Qed.
Lemma keeps_submit i cmd : kept (nvme_submit_command i cmd).
Proof.
  unfold nvme_submit_command, the_nvme, put_nvme, write_reg32, dev. keeps_devices; try apply keeps_wait_completion.
  unfold modulo. by destruct (_ =? 0); [apply keeps_fault|apply keeps_ret].
Qed.
Lemma keeps_alloc_queue : kept nvme_alloc_queue.
Proof. unfold nvme_alloc_queue. keeps_devices. Qed.
Lemma keeps_probe k : kept (nvme_probe_device phys k).
Proof.
  unfold nvme_probe_device, the_nvme, put_nvme, write_reg32, write_reg64, dev. cbv zeta.
  repeat first [apply keeps_wait_status | apply keeps_submit | apply keeps_alloc_queue | progress keeps_devices].
Qed.
End scan.

Lemma nvme_init_loops {A H W} `{!PageAlloc A, !Malloc H, !Pci.PciBus W, !Bus W} phys fuel k d (s : nvme * plat A H W) :
  Pci.pci_scan_for_class Pci.PCI_CLASS_STORAGE 8 (pl_pci s.2) = Some (k, d) → nvme_init phys fuel s = None.
Proof.
  intros Hd. unfold Pci.pci_scan_for_class in Hd. pose proof (eq_refl (Pci.pci_devices (pl_pci s.2))) as Hs.
  revert Hs Hd. generalize (Pci.pci_devices (pl_pci s.2)) at 1 3. intros l Hs Hd. symmetry in Hs.
  enough (∀ s, with_devices l s → nvme_init_loop phys fuel s = None) as HH by (by apply HH).
  clear s Hs. induction fuel as [|fuel IH]; intros s Hs; [done|].
  destruct (nvme_init_loop phys (S fuel) s) as [r|] eqn:Hr; [exfalso|done]. cbn [nvme_init_loop] in Hr.
  apply run_bind in Hr as (found & s1 & Hf & Hr). unfold on_snd in Hf. rewrite (find_device_run l) in Hf by done.
  rewrite Hd in Hf. injection Hf as <- <-. cbn in Hr. apply run_bind in Hr as (res & s2 & Hp & Hr).
  rewrite IH in Hr; [done|]. eapply keeps_probe; [exact Hp|]. destruct s. exact Hs.
Qed.

(** Where the bus has an NVMe controller, [nvme_init] never returns: the search
    gives the same first device again, whether it could be set up or not. *)
Theorem nvme_init_never_returns {A H W} `{!PageAlloc A, !Malloc H, !Pci.PciBus W, !Bus W} phys fuel k d (s : nvme * plat A H W) :
  Pci.pci_scan_for_class Pci.PCI_CLASS_STORAGE 8 (pl_pci s.2) = Some (k, d) → nvme_init phys fuel s = None.
Proof. apply nvme_init_loops. Qed.

(** The opcode of a command is its first byte; the code puts it into the command
    identifier, so that the controller is sent opcode 0 for reads and writes. *)
Lemma io_command_opcode opcode ns lba blocks buffer :
  is_u8 opcode → 
  let bytes := sq_bytes (mk_sq (Z.shiftl opcode 16) ns buffer (u32 lba) (u32 (Z.shiftr lba 32)) (u32 (blocks - 1))) in
  bytes !! 0%nat = Some 0 ∧ bytes !! 2%nat = Some opcode.
Proof.
  intros Ho bytes. unfold bytes, sq_bytes. cbn [pack sq_layout le_enc cdw0 app lookup list_lookup].
  rewrite Z.shiftl_mul_pow2 by lia. split; f_equal; unfold is_u8 in Ho; Z.to_euclidean_division_equations; lia.
Qed.

(** An error of the generic type with a code below 128 is taken for success: the
    test looks at bits 8 to 14 of the status only. *)
Lemma status_test_misses_errors code : 0 <= code < 128 → Z.land (2 * code + 1) 32512 = 0.
Proof.
  intros Hc. apply Z.bits_inj'. intros n Hn. rewrite Z.land_spec, Z.bits_0. destruct (decide (n < 8)).
  - replace 32512 with (Z.shiftl 127 8) by done. rewrite Z.shiftl_spec_low by lia. apply andb_false_r.
  - by rewrite (bits_above (2 * code + 1) 8) by lia.
Qed.

(** ** Witness *)

#[export] Instance demo_nvme_bus : Bus (gmap Z Z) := {
  load n a w := (default 0 (w !! a), w); store n a v w := <[a := v]> w }.
#[export] Instance demo_nvme_pci : Pci.PciBus (gmap Z Z) := {
  Pci.outl p v w := w; Pci.inl p w := (0, w); Pci.read32 a w := (0, w); Pci.write32 a v w := w }.

#[export] Program Instance no_page : PageAlloc () := {
  alloc_page a := (0, a); free_page p a := a; pa_ok a := True; pa_free a p := False }.
Next Obligation. intros. split; [done|by left]. Qed.
Next Obligation. done. Qed.

Definition demo_controller : Pci.pci_device := Pci.mk_pci 6966 16 1 8 2 0 0 4 0 [4273995776; 0; 0; 0; 0; 0].
Definition demo_nvme : nvme * plat () nat (gmap Z Z) :=
  (mk_nvme (replicate 16 (mk_device None 0 no_info (mk_queue 0 0 0) (mk_queue 0 0 0) false)) 0,
   mk_plat () 0%nat (Pci.mk_pci_state [demo_controller] 0 ∅)).

Lemma nvme_init_never_returns_witness : nvme_init (λ a, a) 100 demo_nvme = None.
Proof. exact (nvme_init_never_returns (λ a, a) 100 0 demo_controller demo_nvme eq_refl). Defined.
