(* ===== verification/Netdev.v ===== *)
(** * Network devices ([core/drivers/net/e1000.c], [core/drivers/net/netdev.c])

    The array of devices and the driver's private records, which are indexed by
    heap address, are the driver's state; registers, descriptors and buffers lie
    in device memory ([Mmio.v]).  Busy waiting takes fuel. *)
From S2P Require Import Prelude Interfaces Monad Mmio.
From S2P Require Pci Str.

Definition E1000_VENDOR_ID : Z := 32902.
Definition E1000_CTRL : Z := 0.
Definition E1000_EERD : Z := 20.
Definition E1000_RCTL : Z := 256.
Definition E1000_TCTL : Z := 1024.
Definition E1000_RDBAL : Z := 10240.
Definition E1000_RDBAH : Z := 10244.
Definition E1000_RDLEN : Z := 10248.
Definition E1000_RDH : Z := 10256.
Definition E1000_RDT : Z := 10264.
Definition E1000_TDBAL : Z := 14336.
Definition E1000_TDBAH : Z := 14340.
Definition E1000_TDLEN : Z := 14344.
Definition E1000_TDH : Z := 14352.
Definition E1000_TDT : Z := 14360.
Definition E1000_RAL : Z := 21504.
Definition E1000_RAH : Z := 21508.
Definition E1000_CTRL_FD : Z := 1.
Definition E1000_CTRL_ASDE : Z := 32.
Definition E1000_CTRL_SLU : Z := 64.
Definition E1000_CTRL_RST : Z := 67108864.
Definition E1000_RCTL_EN : Z := 2.
Definition E1000_RCTL_SBP : Z := 4.
Definition E1000_RCTL_UPE : Z := 8.
Definition E1000_RCTL_MPE : Z := 16.
Definition E1000_RCTL_BSIZE : Z := 196608.
Definition E1000_RCTL_SECRC : Z := 67108864.
Definition E1000_TCTL_EN : Z := 2.
Definition E1000_TCTL_PSP : Z := 8.
Definition E1000_TCTL_CT : Z := 256.
Definition E1000_TCTL_COLD : Z := 262144.
Definition E1000_TXD_STAT_DD : Z := 1.
Definition E1000_TXD_CMD_EOP : Z := 1.
Definition E1000_TXD_CMD_RS : Z := 8.
Definition E1000_BUFFER_SIZE : Z := 2048.
Definition E1000_NUM_RX_DESC : Z := 32.
Definition E1000_NUM_TX_DESC : Z := 32.
Definition MAX_NET_DEVICES : Z := 4.
Definition SIZEOF_E1000_DATA : Z := 552.

Record e1000_data := mk_e1000 {
  e_base : Z; rx_descriptors : Z; tx_descriptors : Z; rx_buffers : list Z; tx_buffers : list Z;
  rx_cur : Z; tx_cur : Z; e_pci : option nat }.
Record netdev_stats := mk_stats { rx_packets : Z; rx_bytes : Z }.
(** [ops] is [true] for [&e1000_ops], [priv] a heap address; the counters that
    nothing changes are left out. *)
Record netdev := mk_netdev { n_name : list Z; n_mac : list Z; active : bool; priv : Z; ops : bool; stats : netdev_stats }.
Definition zero_netdev : netdev := mk_netdev (replicate 16 0) (replicate 6 0) false 0 false (mk_stats 0 0).

Record netdevs := mk_netdevs { net_devices : list netdev; num_net_devices : Z; privs : gmap Z e1000_data }.

Section netdev.
Context {A H W : Type} `{!PageAlloc A, !Malloc H, !Pci.PciBus W, !Bus W}.
Context (vmm_get_phys_addr : Z → Z) (fuel : nat).
Abbreviation M := (Monad.M (netdevs * plat A H W)).

Definition the_dev (i : Z) : M netdev := o ← on_fst (gets (λ s, index (net_devices s) i)); lift o.
Definition put_dev (i : Z) (d : netdev) : M () := on_fst (λ s,
  if (0 <=? i) && (i <? Z.of_nat (length (net_devices s)))
  then Some ((), mk_netdevs (<[Z.to_nat i := d]> (net_devices s)) (num_net_devices s) (privs s)) else None).
Definition set_num (n : Z) : M () := on_fst (modify (λ s, mk_netdevs (net_devices s) n (privs s))).
Definition the_data (p : Z) : M e1000_data := o ← on_fst (gets (λ s, privs s !! p)); lift o.
Definition put_data (p : Z) (d : e1000_data) : M () :=
  on_fst (modify (λ s, mk_netdevs (net_devices s) (num_net_devices s) (<[p := d]> (privs s)))).
Definition drop_data (p : Z) : M () :=
  on_fst (modify (λ s, mk_netdevs (net_devices s) (num_net_devices s) (delete p (privs s))));; on_snd (kfree p).
Definition dev {X} (m : Monad.M W X) : M X := on_snd (on_dev m).

(** ** e1000.c *)

Definition e1000_read_reg (d : e1000_data) (reg : Z) : M Z := dev (rd32 (e_base d + 4 * (reg / 4))).
Definition e1000_write_reg (d : e1000_data) (reg v : Z) : M () := dev (wr32 (e_base d + 4 * (reg / 4)) v).

Fixpoint eeprom_poll (fuel : nat) (d : e1000_data) : M Z :=
  match fuel with
  | O => fault
  | S fuel => v ← e1000_read_reg d E1000_EERD; if Z.land v 16 =? 0 then eeprom_poll fuel d else mret v
  end.
Definition e1000_eeprom_read (d : e1000_data) (addr : Z) : M Z :=
  e1000_write_reg d E1000_EERD (Z.lor (Z.shiftl addr 8) 1);;
  v ← eeprom_poll fuel d;
  mret (Z.land (Z.shiftr v 16) 65535).

(** Buffers for the descriptors from [i] on; [None] when there is no page, the
    pages so far being kept in the record.  [put_status] is where the descriptor
    has its status and what is written there. *)
Fixpoint fill_ring (n : nat) (ring i status : Z) : M (list Z * bool) :=
  match n with
  | O => mret ([], true)
  | S n =>
      b ← on_snd page_alloc;
      if b =? 0 then mret ([0], false) else
      dev (wr64 (ring + 16 * i) b);;
      dev (wr8 (ring + 16 * i + 12) status);;
      '(l, ok) ← fill_ring n ring (i + 1) status;
      mret (b :: l, ok)
  end.

Definition init_rx_descriptors (p : Z) : M bool :=
  ring ← on_snd page_alloc;
  d ← the_data p;
  put_data p (mk_e1000 (e_base d) ring (tx_descriptors d) (rx_buffers d) (tx_buffers d) (rx_cur d) (tx_cur d) (e_pci d));;
  if ring =? 0 then mret false else
  on_snd (zero_bytes ring 4096);;
  '(l, ok) ← fill_ring (Z.to_nat E1000_NUM_RX_DESC) ring 0 0;
  d ← the_data p;
  let d := mk_e1000 (e_base d) ring (tx_descriptors d) (l ++ drop (length l) (rx_buffers d)) (tx_buffers d) (rx_cur d) (tx_cur d) (e_pci d) in
  put_data p d;;
  if negb ok then mret false else
  e1000_write_reg d E1000_RDBAL (u32 ring);;
  e1000_write_reg d E1000_RDBAH (u32 (Z.shiftr ring 32));;
  e1000_write_reg d E1000_RDLEN (E1000_NUM_RX_DESC * 16);;
  e1000_write_reg d E1000_RDH 0;;
  e1000_write_reg d E1000_RDT (E1000_NUM_RX_DESC - 1);;
  mret true.

Definition init_tx_descriptors (p : Z) : M bool :=
  ring ← on_snd page_alloc;
  d ← the_data p;
  put_data p (mk_e1000 (e_base d) (rx_descriptors d) ring (rx_buffers d) (tx_buffers d) (rx_cur d) (tx_cur d) (e_pci d));;
  if ring =? 0 then mret false else
  on_snd (zero_bytes ring 4096);;
  '(l, ok) ← fill_ring (Z.to_nat E1000_NUM_TX_DESC) ring 0 E1000_TXD_STAT_DD;
  d ← the_data p;
  let d := mk_e1000 (e_base d) (rx_descriptors d) ring (rx_buffers d) (l ++ drop (length l) (tx_buffers d)) (rx_cur d) (tx_cur d) (e_pci d) in
  put_data p d;;
  if negb ok then mret false else
  e1000_write_reg d E1000_TDBAL (u32 ring);;
  e1000_write_reg d E1000_TDBAH (u32 (Z.shiftr ring 32));;
  e1000_write_reg d E1000_TDLEN (E1000_NUM_TX_DESC * 16);;
  e1000_write_reg d E1000_TDH 0;;
  e1000_write_reg d E1000_TDT 0;;
  mret true.

(** At most 1000 looks; the caller goes on in any case. *)
Fixpoint wait_reset (n : nat) (d : e1000_data) : M () :=
  match n with
  | O => mret ()
  | S n => v ← e1000_read_reg d E1000_CTRL; if Z.land v E1000_CTRL_RST =? 0 then mret () else wait_reset n d
  end.

Definition e1000_init (i : Z) : M bool :=
  p ← on_snd (kmalloc SIZEOF_E1000_DATA);
  if p =? 0 then mret false else
  k ← on_snd (find_device 2 0);
  put_data p (mk_e1000 0 0 0 (replicate 32 0) (replicate 32 0) 0 0 k);;
  match k with
  | None => drop_data p;; mret false
  | Some k =>
      c ← on_snd (the_device k);
      if negb (Pci.vendor_id c =? E1000_VENDOR_ID) then drop_data p;; mret false else
      base ← lift (Pci.pci_get_bar (Some c) 0);
      if base =? 0 then drop_data p;; mret false else
      let d := mk_e1000 (vmm_get_phys_addr base) 0 0 (replicate 32 0) (replicate 32 0) 0 0 (Some k) in
      put_data p d;;
      v ← e1000_read_reg d E1000_CTRL;
      e1000_write_reg d E1000_CTRL (Z.lor v E1000_CTRL_RST);;
      wait_reset (Z.to_nat 1000) d;;
      ctrl ← e1000_read_reg d E1000_CTRL;
      e1000_write_reg d E1000_CTRL (Z.lor (Z.lor (Z.lor ctrl E1000_CTRL_SLU) E1000_CTRL_ASDE) E1000_CTRL_FD);;
      ok ← init_rx_descriptors p;
      ok ← (if (ok : bool) then init_tx_descriptors p else mret false);
      if negb ok then drop_data p;; mret false else
      e1000_write_reg d E1000_RCTL
        (Z.lor (Z.lor (Z.lor (Z.lor (Z.lor E1000_RCTL_EN E1000_RCTL_SBP) E1000_RCTL_UPE) E1000_RCTL_MPE) E1000_RCTL_BSIZE) E1000_RCTL_SECRC);;
      e1000_write_reg d E1000_TCTL (Z.lor (Z.lor (Z.lor E1000_TCTL_EN E1000_TCTL_PSP) E1000_TCTL_CT) E1000_TCTL_COLD);;
      n ← the_dev i;
      put_dev i (mk_netdev (n_name n) (n_mac n) (active n) p (ops n) (stats n));;
      mret true
  end.

Fixpoint wait_done (fuel : nat) (a : Z) : M () :=
  match fuel with
  | O => fault
  | S fuel => v ← dev (rd8 a); if Z.land v E1000_TXD_STAT_DD =? 0 then wait_done fuel a else mret ()
  end.

(** The packet is the [length] bytes of [data]. *)
Definition e1000_send_packet (i : Z) (data : list Z) : M bool :=
  n ← the_dev i;
  if priv n =? 0 then mret false else
  d ← the_data (priv n);
  let len := Z.of_nat (length data) in
  if (tx_descriptors d =? 0) || (E1000_BUFFER_SIZE <? len) then mret false else
  let desc := tx_descriptors d + 16 * tx_cur d in
  wait_done fuel (desc + 12);;
  buf ← lift (index (tx_buffers d) (tx_cur d));
  dev (wr_bytes buf data);;
  dev (modify (store 2 (desc + 8) len));;
  dev (wr8 (desc + 11) (Z.lor E1000_TXD_CMD_EOP E1000_TXD_CMD_RS));;
  dev (wr8 (desc + 12) 0);;
  let cur := (tx_cur d + 1) mod E1000_NUM_TX_DESC in
  put_data (priv n) (mk_e1000 (e_base d) (rx_descriptors d) (tx_descriptors d) (rx_buffers d) (tx_buffers d) (rx_cur d) cur (e_pci d));;
  e1000_write_reg d E1000_TDT cur;;
  wait_done fuel (desc + 12);;
  mret true.

(** The packet, [None] when there is none. *)
Definition e1000_receive_packet (i : Z) : M (option (list Z)) :=
  n ← the_dev i;
  if priv n =? 0 then mret None else
  d ← the_data (priv n);
  if rx_descriptors d =? 0 then mret None else
  let desc := rx_descriptors d + 16 * rx_cur d in
  st ← dev (rd8 (desc + 12));
  if Z.land st 1 =? 0 then mret None else
  len ← dev (rd16 (desc + 8));
  let len := if E1000_BUFFER_SIZE <? len then E1000_BUFFER_SIZE else len in
  buf ← lift (index (rx_buffers d) (rx_cur d));
  data ← dev (rd_bytes (Z.to_nat len) buf);
  dev (wr8 (desc + 12) 0);;
  put_data (priv n) (mk_e1000 (e_base d) (rx_descriptors d) (tx_descriptors d) (rx_buffers d) (tx_buffers d)
                       ((rx_cur d + 1) mod E1000_NUM_RX_DESC) (tx_cur d) (e_pci d));;
  e1000_write_reg d E1000_RDT (rx_cur d);;
  n ← the_dev i;
  put_dev i (mk_netdev (n_name n) (n_mac n) (active n) (priv n) (ops n)
               (mk_stats (u64 (rx_packets (stats n) + 1)) (u64 (rx_bytes (stats n) + len))));;
  mret (Some data).

Definition e1000_read_mac_address (d : e1000_data) : M (list Z) :=
  word1 ← e1000_eeprom_read d 0;
  word2 ← e1000_eeprom_read d 1;
  word3 ← e1000_eeprom_read d 2;
  mret [Z.land word1 255; Z.shiftr word1 8; Z.land word2 255; Z.shiftr word2 8; Z.land word3 255; Z.shiftr word3 8].

Definition e1000_set_mac_address (d : e1000_data) (mac : list Z) : M () :=
  let at_ i := default 0 (index mac i) in
  e1000_write_reg d E1000_RAL
    (u32 (Z.lor (Z.lor (Z.lor (at_ 0) (Z.shiftl (at_ 1) 8)) (Z.shiftl (at_ 2) 16)) (Z.shiftl (at_ 3) 24)));;
  e1000_write_reg d E1000_RAH (Z.lor (Z.lor (at_ 4) (Z.shiftl (at_ 5) 8)) (Z.shiftl 1 31)).

(** ** netdev.c *)

Definition netdev_init : M () :=
  on_fst (modify (λ s, mk_netdevs (replicate (Z.to_nat MAX_NET_DEVICES) zero_netdev) (num_net_devices s) (privs s)));;
  i ← on_fst (gets num_net_devices);
  put_dev i (mk_netdev ([101; 116; 104; 48; 0] ++ replicate 11 0) (replicate 6 0) false 0 true (mk_stats 0 0));;
  ok ← e1000_init i;
  if (ok : bool) then
    n ← the_dev i;
    put_dev i (mk_netdev (n_name n) (n_mac n) true (priv n) (ops n) (stats n));;
    set_num (i + 1)
  else mret ().

Definition netdev_register (d : netdev) : M bool :=
  n ← on_fst (gets num_net_devices);
  if MAX_NET_DEVICES <=? n then mret false else
  put_dev n d;; set_num (n + 1);; mret true.

(** The device at an index; what lies behind the ones moved down stays. *)
Definition netdev_unregister (i : Z) : M () :=
  n ← on_fst (gets num_net_devices);
  if (0 <=? i) && (i <? n) then
    d ← the_dev i;
    (if priv d =? 0 then mret () else drop_data (priv d));;
    on_fst (modify (λ s,
      let l := net_devices s in
      mk_netdevs (take (Z.to_nat i) l ++ take (Z.to_nat (n - i - 1)) (drop (Z.to_nat (i + 1)) l) ++ drop (Z.to_nat (n - 1)) l)
        (num_net_devices s) (privs s)));;
    set_num (n - 1)
  else mret ().

(** The string in a field that holds a NUL. *)
Definition c_name (l : list Z) : list Z := match list_find (λ c, c = 0) l with Some (i, _) => take i l | None => l end.

(** The index of the device, NULL is [None]. *)
Definition netdev_get_by_name (name : list Z) (s : netdevs) : option nat :=
  fst <$> list_find (λ d, Str.strcmp (c_name (n_name d)) name = 0) (take (Z.to_nat (num_net_devices s)) (net_devices s)).
Definition netdev_get_default (s : netdevs) : option Z := if 0 <? num_net_devices s then Some 0 else None.
End netdev.

(** The receive buffers are 256 bytes: 0x30000 in the size field without the
    extension bit 25. *)
Lemma rctl_buffer_size : Z.land (Z.shiftr E1000_RCTL_BSIZE 16) 3 = 3 ∧ Z.testbit E1000_RCTL_BSIZE 25 = false.
Proof. done. Qed.

(** ** The list of PCI devices stays *)

Section scan.
Context {A H W : Type} `{!PageAlloc A, !Malloc H, !Pci.PciBus W, !Bus W}.
Context (l : list Pci.pci_device) (phys : Z → Z).
Abbreviation kept := (keeps (with_devices (A := A) (H := H) (W := W) l (S := netdevs))).

Lemma keeps_put_dev i d : kept (put_dev i d).
Proof. apply keeps_on_fst. Qed.
Lemma keeps_fill_ring n ring i status : kept (fill_ring n ring i status).
Proof.
  revert i. induction n as [|n IH]; intros i; cbn [fill_ring]; unfold dev; keeps_devices.
Qed.
Lemma keeps_init_rx p : kept (init_rx_descriptors p).
Proof. unfold init_rx_descriptors, the_data, put_data, e1000_write_reg, dev. cbv zeta. repeat first [apply keeps_fill_ring | progress keeps_devices]. Qed.
Lemma keeps_init_tx p : kept (init_tx_descriptors p).
Proof. unfold init_tx_descriptors, the_data, put_data, e1000_write_reg, dev. cbv zeta. repeat first [apply keeps_fill_ring | progress keeps_devices]. Qed.
Lemma keeps_wait_reset n d : kept (wait_reset n d).
Proof. induction n; cbn [wait_reset]; unfold e1000_read_reg, dev; keeps_devices. Qed.

(** The calls of these first, before the search for a lemma looks inside them. *)
Ltac keeps_netdev :=
  repeat lazymatch goal with
  | |- keeps _ (put_dev _ _) => apply keeps_put_dev
  | |- keeps _ (wait_reset _ _) => apply keeps_wait_reset
  | |- keeps _ (init_rx_descriptors _) => apply keeps_init_rx
  | |- keeps _ (init_tx_descriptors _) => apply keeps_init_tx
  | |- keeps _ (on_snd (find_device _ _)) => apply keeps_on_snd, keeps_gets
  | |- keeps _ (e1000_init _ _) => idtac
  | |- keeps _ (_ ≫= _) => apply keeps_bind; [|intros ?; cbn beta]
  | |- keeps _ (match ?x with _ => _ end) => destruct x
  | |- _ => solve [auto with keeps]
  end.

Lemma keeps_e1000_init i : kept (e1000_init phys i).
Proof.
  unfold e1000_init, the_dev, put_data, drop_data, e1000_read_reg, e1000_write_reg, dev. cbv zeta. keeps_netdev.
Qed.
Lemma keeps_netdev_init : kept (netdev_init phys).
Proof.
  unfold netdev_init, the_dev, set_num. keeps_netdev. apply keeps_e1000_init.
Qed.
End scan.
