(* ===== verification/Xhci.v ===== *)
(** * The USB host controller ([core/drivers/usb/xhci.c])

    Controllers, rings and device contexts are stores indexed by heap address;
    the transfer request blocks, the registers and the buffers lie in device
    memory ([Mmio.v]).  The loops that wait without a limit take fuel, as does
    the serial port of the log. *)
From S2P Require Import Prelude Interfaces Monad Mmio Bytes.
From S2P Require Pci Log.

Definition TRB_SIZE : Z := 16.
Definition EVENT_RING_SIZE : Z := 256.
Definition TRANSFER_RING_SIZE : Z := 256.
Definition TRB_NORMAL : Z := 1.
Definition TRB_SETUP : Z := 2.
Definition TRB_DATA : Z := 3.
Definition TRB_STATUS : Z := 4.
Definition TRB_LINK : Z := 6.
Definition TRB_SUCCESS : Z := 1.
Definition XHCI_CAP_HCIVERSION : Z := 0.
Definition XHCI_CAP_HCSPARAMS1 : Z := 4.
Definition XHCI_CAP_HCSPARAMS2 : Z := 8.
Definition XHCI_CAP_HCSPARAMS3 : Z := 12.
Definition XHCI_CAP_HCCPARAMS1 : Z := 16.
Definition XHCI_OP_USBCMD : Z := 0.
Definition XHCI_OP_USBSTS : Z := 4.
Definition XHCI_OP_CRCR : Z := 24.
Definition XHCI_CMD_RUN : Z := 1.
Definition XHCI_CMD_HCRST : Z := 2.
Definition XHCI_STS_HCH : Z := 1.
Definition XHCI_PORT_CHANGE_BITS : Z := 8380416.
Definition SIZEOF_CONTROLLER : Z := 64.
Definition SIZEOF_TRANSFER_RING : Z := 32.
Definition SIZEOF_EVENT_RING : Z := 32.
Definition SIZEOF_CONTEXT : Z := 256.

Record xhci_controller := mk_ctrl {
  cap_regs : Z; op_regs : Z; db_regs : Z; port_count : Z; cap_length : Z;
  hcs_params1 : Z; hcs_params2 : Z; hcs_params3 : Z; hcc_params1 : Z; c_initialized : bool }.
Record transfer_ring := mk_ring { trbs : Z; enqueue_idx : Z; cycle_bit : Z; dma_buffer : Z }.
Record event_ring_t := mk_events { ev_trbs : Z; erst : Z; dequeue_idx : Z }.
Record xhci_setup_packet := mk_setup { bmRequestType : Z; bRequest : Z; wValue : Z; wIndex : Z; wLength : Z }.

(** The static pointers are addresses, [ep_rings] the array of the contexts. *)
Record xhci := mk_xhci {
  xhci_ptr : Z; event_ring : Z; device_contexts : Z;
  ctrls : gmap Z xhci_controller; rings : gmap Z transfer_ring; events : gmap Z event_ring_t; ep_rings : gmap Z (list Z) }.

Section xhci.
Context {A H W : Type} `{!PageAlloc A, !Malloc H, !Pci.PciBus W, !Bus W, !Ports W}.
Context (fuel : nat).
Abbreviation M := (Monad.M (xhci * plat A H W)).

Definition dev {X} (m : Monad.M W X) : M X := on_snd (on_dev m).
Definition log_error (msg : list Z) : M () := dev (Log.log_printf fuel Log.LOG_LEVEL_ERROR msg []).

Definition set_ptrs (x e d : Z) : M () := on_fst (modify (λ s, mk_xhci x e d (ctrls s) (rings s) (events s) (ep_rings s))).
Definition upd_ctrls (f : gmap Z xhci_controller → gmap Z xhci_controller) : M () :=
  on_fst (modify (λ s, mk_xhci (xhci_ptr s) (event_ring s) (device_contexts s) (f (ctrls s)) (rings s) (events s) (ep_rings s))).
Definition upd_rings (f : gmap Z transfer_ring → gmap Z transfer_ring) : M () :=
  on_fst (modify (λ s, mk_xhci (xhci_ptr s) (event_ring s) (device_contexts s) (ctrls s) (f (rings s)) (events s) (ep_rings s))).
Definition upd_events (f : gmap Z event_ring_t → gmap Z event_ring_t) : M () :=
  on_fst (modify (λ s, mk_xhci (xhci_ptr s) (event_ring s) (device_contexts s) (ctrls s) (rings s) (f (events s)) (ep_rings s))).
Definition upd_contexts (f : gmap Z (list Z) → gmap Z (list Z)) : M () :=
  on_fst (modify (λ s, mk_xhci (xhci_ptr s) (event_ring s) (device_contexts s) (ctrls s) (rings s) (events s) (f (ep_rings s)))).

Definition the_ctrl (p : Z) : M xhci_controller := o ← on_fst (gets (λ s, ctrls s !! p)); lift o.
Definition the_ring (p : Z) : M transfer_ring := o ← on_fst (gets (λ s, rings s !! p)); lift o.
Definition the_events (p : Z) : M event_ring_t := o ← on_fst (gets (λ s, events s !! p)); lift o.
Definition the_contexts (p : Z) : M (list Z) := o ← on_fst (gets (λ s, ep_rings s !! p)); lift o.
Definition put_ring (p : Z) (r : transfer_ring) : M () := upd_rings <[p := r]>.

(** A transfer request block. *)
Definition write_trb (a params status control : Z) : M () :=
  dev (wr64 a params);; dev (wr32 (a + 8) status);; dev (wr32 (a + 12) control).

Definition create_transfer_ring : M Z :=
  ring ← on_snd (kmalloc SIZEOF_TRANSFER_RING);
  if ring =? 0 then mret 0 else
  page ← on_snd page_alloc;
  if page =? 0 then on_snd (kfree ring);; mret 0 else
  put_ring ring (mk_ring page 0 1 0);;
  write_trb (page + TRB_SIZE * (TRANSFER_RING_SIZE - 1)) page 0 (Z.lor (Z.shiftl TRB_LINK 10) (Z.shiftl 1 1));;
  mret ring.

Definition create_event_ring : M Z :=
  ring ← on_snd (kmalloc SIZEOF_EVENT_RING);
  if ring =? 0 then mret 0 else
  page ← on_snd page_alloc;
  if page =? 0 then on_snd (kfree ring);; mret 0 else
  table ← on_snd page_alloc;
  if table =? 0 then on_snd (page_free page);; on_snd (kfree ring);; mret 0 else
  dev (wr32 table (u32 page));;
  dev (wr32 (table + 4) (u32 (Z.shiftr page 32)));;
  dev (wr32 (table + 8) EVENT_RING_SIZE);;
  dev (wr32 (table + 12) 0);;
  upd_events <[ring := mk_events page table 0]>;;
  mret ring.

Definition xhci_cap_read32 (c : xhci_controller) (reg : Z) : M Z := dev (rd32 (cap_regs c + 4 * (reg / 4))).
Definition xhci_op_write32 (c : xhci_controller) (reg v : Z) : M () := dev (wr32 (op_regs c + 4 * (reg / 4)) v).
Definition xhci_op_read32 (c : xhci_controller) (reg : Z) : M Z := dev (rd32 (op_regs c + 4 * (reg / 4))).

Definition xhci_init : M Z :=
  p ← on_fst (gets xhci_ptr);
  if negb (p =? 0) then mret p else
  e ← on_fst (gets event_ring);
  d ← on_fst (gets device_contexts);
  p ← on_snd (kmalloc SIZEOF_CONTROLLER);
  set_ptrs p e d;;
  if p =? 0 then mret 0 else
  upd_ctrls <[p := mk_ctrl 0 0 0 0 0 0 0 0 0 false]>;;
  mret p.

Definition xhci_probe : M bool :=
  x ← on_fst (gets xhci_ptr);
  if x =? 0 then mret false else
  k ← on_snd (find_device 12 3);
  pci_dev ← (match k with Some k => d ← on_snd (the_device k); mret (if Pci.prog_if d =? 48 then Some d else None) | None => mret None end);
  match pci_dev with
  | None => log_error (text "No xHCI controller found");; mret false
  | Some pci_dev =>
      base ← lift (Pci.pci_get_bar (Some pci_dev) 0);
      if base =? 0 then log_error (text "Failed to get xHCI MMIO base");; mret false else
      old ← the_ctrl x;
      let c := mk_ctrl base (op_regs old) (db_regs old) (port_count old) (cap_length old) 0 0 0 0 (c_initialized old) in
      v ← xhci_cap_read32 c XHCI_CAP_HCIVERSION;
      let cap_len := Z.shiftr v 16 in
      p1 ← xhci_cap_read32 c XHCI_CAP_HCSPARAMS1;
      p2 ← xhci_cap_read32 c XHCI_CAP_HCSPARAMS2;
      p3 ← xhci_cap_read32 c XHCI_CAP_HCSPARAMS3;
      pc ← xhci_cap_read32 c XHCI_CAP_HCCPARAMS1;
      let c := mk_ctrl base (u64 (base + cap_len)) (db_regs old) (Z.land (Z.shiftr p1 24) 255) cap_len p1 p2 p3 pc (c_initialized old) in
      upd_ctrls <[x := c]>;;
      on_snd (pci_command pci_dev 4);;
      e ← create_event_ring;
      dc ← on_fst (gets device_contexts);
      set_ptrs x e dc;;
      if e =? 0 then log_error (text "Failed to create event ring");; mret false else
      dc ← on_snd (kmalloc SIZEOF_CONTEXT);
      set_ptrs x e dc;;
      if dc =? 0 then log_error (text "Failed to allocate device contexts");; mret false else
      upd_contexts <[dc := replicate 31 0]>;;
      upd_ctrls <[x := mk_ctrl (cap_regs c) (op_regs c) (db_regs c) (port_count c) (cap_length c) p1 p2 p3 pc true]>;;
      mret true
  end.

(** [while (!(status & HCH));] *)
Fixpoint wait_halted (fuel : nat) (c : xhci_controller) : M () :=
  match fuel with
  | O => fault
  | S fuel => v ← xhci_op_read32 c XHCI_OP_USBSTS; if Z.land v XHCI_STS_HCH =? 0 then wait_halted fuel c else mret ()
  end.

(** [while (--timeout)]: whether the reset ended in time. *)
Fixpoint wait_reset (n : nat) (c : xhci_controller) : M bool :=
  match n with
  | O => mret false
  | S n => v ← xhci_op_read32 c XHCI_OP_USBCMD; if Z.land v XHCI_CMD_HCRST =? 0 then mret true else wait_reset n c
  end.

Definition xhci_start (p : Z) : M bool :=
  if p =? 0 then mret false else
  c ← the_ctrl p;
  if negb (c_initialized c) then mret false else
  cmd ← xhci_op_read32 c XHCI_OP_USBCMD;
  (if Z.land cmd XHCI_CMD_RUN =? 0 then mret () else
     xhci_op_write32 c XHCI_OP_USBCMD (Z.land cmd (Z.lnot XHCI_CMD_RUN));;
     wait_halted fuel c);;
  cmd ← xhci_op_read32 c XHCI_OP_USBCMD;
  xhci_op_write32 c XHCI_OP_USBCMD (Z.lor cmd XHCI_CMD_HCRST);;
  ok ← wait_reset (Z.to_nat 999999) c;
  if negb ok then log_error (text "xHCI reset timeout");; mret false else
  e ← on_fst (gets event_ring);
  (if e =? 0 then mret () else
     ev ← the_events e;
     xhci_op_write32 c XHCI_OP_CRCR (u32 (erst ev));;
     xhci_op_write32 c (XHCI_OP_CRCR + 4) (u32 (Z.shiftr (erst ev) 32)));;
  cmd ← xhci_op_read32 c XHCI_OP_USBCMD;
  xhci_op_write32 c XHCI_OP_USBCMD (Z.lor cmd XHCI_CMD_RUN);;
  mret true.

Definition xhci_stop (p : Z) : M () :=
  if p =? 0 then mret () else
  c ← the_ctrl p;
  if negb (c_initialized c) then mret () else
  cmd ← xhci_op_read32 c XHCI_OP_USBCMD;
  xhci_op_write32 c XHCI_OP_USBCMD (Z.land cmd (Z.lnot XHCI_CMD_RUN));;
  wait_halted fuel c.

Definition free_page_if (p : Z) : M () := if p =? 0 then mret () else on_snd (page_free p).

Definition xhci_cleanup (p : Z) : M () :=
  if p =? 0 then mret () else
  c ← the_ctrl p;
  (if negb (c_initialized c) then mret () else
     xhci_stop p;;
     x ← on_fst (gets xhci_ptr);
     e ← on_fst (gets event_ring);
     dc ← on_fst (gets device_contexts);
     (if e =? 0 then mret () else
        ev ← the_events e;
        free_page_if (ev_trbs ev);;
        free_page_if (erst ev);;
        upd_events (delete e);;
        on_snd (kfree e);;
        set_ptrs x 0 dc);;
     (if dc =? 0 then mret () else
        l ← the_contexts dc;
        for_list l (λ r,
          if r =? 0 then mret () else
          ring ← the_ring r;
          free_page_if (trbs ring);;
          free_page_if (dma_buffer ring);;
          upd_rings (delete r);;
          on_snd (kfree r));;
        upd_contexts (delete dc);;
        on_snd (kfree dc);;
        e ← on_fst (gets event_ring);
        set_ptrs x e 0));;
  upd_ctrls (delete p);;
  on_snd (kfree p);;
  x ← on_fst (gets xhci_ptr);
  e ← on_fst (gets event_ring);
  dc ← on_fst (gets device_contexts);
  if p =? x then set_ptrs 0 e dc else mret ().

Definition submit_transfer_trb (r params status control : Z) : M () :=
  ring ← the_ring r;
  write_trb (trbs ring + TRB_SIZE * enqueue_idx ring) params status (Z.lor (Z.land control (Z.lnot 1)) (cycle_bit ring));;
  let idx := (enqueue_idx ring + 1) mod (TRANSFER_RING_SIZE - 1) in
  put_ring r (mk_ring (trbs ring) idx (if idx =? 0 then Z.lxor (cycle_bit ring) 1 else cycle_bit ring) (dma_buffer ring)).

(** The ring of an endpoint, created when there is none; NULL is 0. *)
Definition endpoint_ring (idx : Z) : M Z :=
  dc ← on_fst (gets device_contexts);
  l ← the_contexts dc;
  r ← lift (index l idx);
  if negb (r =? 0) then mret r else
  r ← create_transfer_ring;
  if r =? 0 then mret 0 else
  upd_contexts <[dc := <[Z.to_nat idx := r]> l]>;;
  mret r.

Definition set_dma (r b : Z) : M () :=
  ring ← the_ring r; put_ring r (mk_ring (trbs ring) (enqueue_idx ring) (cycle_bit ring) b).

(** Looking for a completion at most [n] times; the data of a transfer towards
    the host is the answer. *)
Fixpoint wait_completion (n : nat) (r length : Z) (inward : bool) : M (Z * list Z) :=
  match n with
  | O =>
      ring ← the_ring r;
      (if dma_buffer ring =? 0 then mret () else on_snd (page_free (dma_buffer ring));; set_dma r 0);;
      mret (-1, [])
  | S n =>
      e ← on_fst (gets event_ring);
      ev ← the_events e;
      control ← dev (rd32 (ev_trbs ev + TRB_SIZE * dequeue_idx ev + 12));
      if Z.land control 1 =? 0 then wait_completion n r length inward else
      status ← dev (rd32 (ev_trbs ev + TRB_SIZE * dequeue_idx ev + 8));
      let completion := Z.shiftr status 24 in
      upd_events <[e := mk_events (ev_trbs ev) (erst ev) ((dequeue_idx ev + 1) mod EVENT_RING_SIZE)]>;;
      ring ← the_ring r;
      data ← (if dma_buffer ring =? 0 then mret [] else
                data ← (if (completion =? TRB_SUCCESS) && inward then dev (rd_bytes (Z.to_nat length) (dma_buffer ring)) else mret []);
                on_snd (page_free (dma_buffer ring));;
                set_dma r 0;;
                mret data);
      mret (if completion =? TRB_SUCCESS then 0 else -1, data)
  end.

Definition ring_doorbell (c : xhci_controller) (dev_addr v : Z) : M () :=
  if db_regs c =? 0 then mret () else dev (wr32 (db_regs c + 4 * dev_addr) v).

(** The 64 bits of a setup packet. *)
Definition setup_word (s : xhci_setup_packet) : Z :=
  le_dec (pack [1; 1; 2; 2; 2]%nat [bmRequestType s; bRequest s; wValue s; wIndex s; wLength s]).

(** The data is [None] for NULL, otherwise the bytes that are there. *)
Definition xhci_control_transfer (p dev_addr : Z) (setup : option xhci_setup_packet) (data : option (list Z)) (length : Z) : M (Z * list Z) :=
  match setup with
  | None => mret (-1, [])
  | Some setup =>
      if p =? 0 then mret (-1, []) else
      c ← the_ctrl p;
      if negb (c_initialized c) then mret (-1, []) else
      r ← endpoint_ring 0;
      if r =? 0 then mret (-1, []) else
      let inward := negb (Z.land (bmRequestType setup) 128 =? 0) in
      submit_transfer_trb r (setup_word setup) (Z.lor (Z.shiftl 8 16) (Z.shiftl TRB_SETUP 10)) (Z.lor (Z.shiftl 3 16) (Z.shiftl 1 6));;
      ok ← (match data with
            | Some bytes =>
                if 0 <? length then
                  b ← on_snd page_alloc;
                  set_dma r b;;
                  if b =? 0 then mret false else
                  dev (wr_bytes b (take (Z.to_nat length) bytes));;
                  submit_transfer_trb r b (u32 (Z.lor (Z.shiftl length 16) (Z.shiftl TRB_DATA 10)))
                    (Z.lor (Z.lor (Z.shiftl 1 16) (Z.shiftl 1 6)) (if (inward : bool) then 3 else 2));;
                  mret true
                else mret true
            | None => mret true
            end);
      if negb ok then mret (-1, []) else
      submit_transfer_trb r 0 (Z.shiftl TRB_STATUS 10) (Z.lor (Z.shiftl 1 5) (if inward then 2 else 3));;
      ring_doorbell c dev_addr 1;;
      wait_completion (Z.to_nat 1000000) r length inward
  end.

Definition xhci_bulk_transfer (p dev_addr endpoint : Z) (data : option (list Z)) (length timeout : Z) : M (Z * list Z) :=
  match data with
  | None => mret (-1, [])
  | Some bytes =>
      if (p =? 0) || (length =? 0) then mret (-1, []) else
      c ← the_ctrl p;
      if negb (c_initialized c) then mret (-1, []) else
      let inward := negb (Z.land endpoint 128 =? 0) in
      let ep_idx := (if (inward : bool) then 1 else 2) + Z.land endpoint 15 in
      r ← endpoint_ring ep_idx;
      if r =? 0 then mret (-1, []) else
      b ← on_snd page_alloc;
      set_dma r b;;
      if b =? 0 then mret (-1, []) else
      (if inward then mret () else dev (wr_bytes b (take (Z.to_nat length) bytes)));;
      submit_transfer_trb r b (u32 (Z.lor (Z.shiftl length 16) (Z.shiftl TRB_NORMAL 10))) (Z.lor (Z.shiftl 1 16) (if inward then 3 else 2));;
      ring_doorbell c dev_addr ep_idx;;
      wait_completion (Z.to_nat timeout) r length inward
  end.

Definition xhci_interrupt_transfer (p dev_addr endpoint : Z) (data : option (list Z)) (length timeout : Z) : M (Z * list Z) :=
  match data with
  | None => mret (-1, [])
  | Some _ =>
      if (p =? 0) || (length =? 0) then mret (-1, []) else
      c ← the_ctrl p;
      if negb (c_initialized c) then mret (-1, []) else
      xhci_bulk_transfer p dev_addr endpoint data length timeout
  end.

Definition xhci_get_port_count (p : Z) : M Z :=
  if p =? 0 then mret 0 else
  c ← the_ctrl p;
  mret (if c_initialized c then port_count c else 0).

Fixpoint port_changes (c : xhci_controller) (l : list Z) : M (list Z) :=
  match l with
  | [] => mret []
  | i :: l =>
      let reg := u64 (op_regs c + 1024) + 16 * i in
      v ← dev (rd32 reg);
      let st := Z.land v XHCI_PORT_CHANGE_BITS in
      (if st =? 0 then mret () else
         v ← dev (rd32 reg);
         dev (wr32 reg (Z.lor (Z.land v (Z.lnot XHCI_PORT_CHANGE_BITS)) st)));;
      rest ← port_changes c l;
      mret (st :: rest)
  end.

Definition xhci_get_port_status_change (p num_ports : Z) : M (option (list Z)) :=
  if p =? 0 then mret None else
  c ← the_ctrl p;
  if negb (c_initialized c) || (port_count c <? num_ports) then mret None else
  l ← port_changes c (seqZ 0 num_ports);
  mret (Some l).
End xhci.
