(* ===== verification/Usb.v ===== *)
(** * USB devices and hubs ([core/drivers/usb/usb.c])

    Devices and hubs are linked lists in stores indexed by heap address, the
    blocks they point to are stores of bytes.  [usb_control_transfer] moves no
    data, so the two descriptors the code asks for on its stack and the heap are
    what those held before: the parameters [junk_length], [junk_hub] and [junk]. *)
From S2P Require Import Prelude Interfaces Monad Bytes Mmio Xhci.
From S2P Require Pci Log.

Definition USB_CLASS_HID : Z := 3.
Definition USB_CLASS_HUB : Z := 9.
Definition USB_DT_DEVICE : Z := 1.
Definition USB_DT_CONFIG : Z := 2.
Definition USB_DT_HUB : Z := 41.
Definition USB_REQ_GET_STATUS : Z := 0.
Definition USB_REQ_CLEAR_FEATURE : Z := 1.
Definition USB_REQ_SET_FEATURE : Z := 3.
Definition USB_REQ_SET_ADDRESS : Z := 5.
Definition USB_REQ_GET_DESCRIPTOR : Z := 6.
Definition USB_REQ_SET_CONFIG : Z := 9.
Definition USB_DT_INTERFACE : Z := 4.
Definition USB_DT_ENDPOINT : Z := 5.
Definition USB_SPEED_LOW : Z := 0.
Definition USB_SPEED_FULL : Z := 1.
Definition USB_SPEED_HIGH : Z := 2.
Definition SIZEOF_DEVICE : Z := 56.
Definition SIZEOF_HUB : Z := 32.

(** The sizes of the members of the packed descriptors. *)
Definition config_descriptor_layout : list nat := [1; 1; 2; 1; 1; 1; 1; 1]%nat.
Definition interface_descriptor_layout : list nat := replicate 9 1%nat.
Definition endpoint_descriptor_layout : list nat := [1; 1; 1; 1; 2; 1]%nat.

(** The fields of the device descriptor that are used. *)
Record usb_device_descriptor := mk_desc { device_class : Z; vendor_id : Z; product_id : Z }.
Record usb_device := mk_usb_device {
  address : Z; port : Z; hub_addr : Z; speed : Z; max_packet_size : Z; descriptor : usb_device_descriptor;
  config : Z; driver_data : Z; configured : bool; d_next : Z }.
Record usb_hub := mk_hub { h_dev : Z; h_port_count : Z; characteristics : Z; port_status : Z; h_next : Z }.

Record usb := mk_usb {
  u_initialized : bool; u_devices : Z; u_hubs : Z; next_address : Z; xhci_ctrl : Z;
  dev_store : gmap Z usb_device; hub_store : gmap Z usb_hub; configs : gmap Z (list Z); statuses : gmap Z (list Z) }.

Section usb.
Context {A H W : Type} `{!PageAlloc A, !Malloc H, !Pci.PciBus W, !Bus W, !Ports W}.
Context (fuel : nat) (junk_length : Z) (junk_hub : Z * Z) (junk : Z → list Z).
Abbreviation M := (Monad.M (usb * (xhci * plat A H W))).

Definition upd (f : usb → usb) : M () := on_fst (modify f).
Definition heap {X} (m : Monad.M (plat A H W) X) : M X := on_snd (on_snd m).
Definition log (level : Log.log_level_t) (msg : list Z) (args : list Log.va_arg) : M () :=
  on_snd (dev (Log.log_printf fuel level msg args)).
Definition the_dev (p : Z) : M usb_device := o ← on_fst (gets (λ s, dev_store s !! p)); lift o.
Definition the_hub (p : Z) : M usb_hub := o ← on_fst (gets (λ s, hub_store s !! p)); lift o.

Definition set_state (b : bool) (d h n x : Z) : M () := upd (λ s,
  mk_usb b d h n x (dev_store s) (hub_store s) (configs s) (statuses s)).
Definition set_lists (d h : Z) : M () := upd (λ s,
  mk_usb (u_initialized s) d h (next_address s) (xhci_ctrl s) (dev_store s) (hub_store s) (configs s) (statuses s)).
Definition upd_devs (f : gmap Z usb_device → gmap Z usb_device) : M () := upd (λ s,
  mk_usb (u_initialized s) (u_devices s) (u_hubs s) (next_address s) (xhci_ctrl s) (f (dev_store s)) (hub_store s) (configs s) (statuses s)).
Definition upd_hubs (f : gmap Z usb_hub → gmap Z usb_hub) : M () := upd (λ s,
  mk_usb (u_initialized s) (u_devices s) (u_hubs s) (next_address s) (xhci_ctrl s) (dev_store s) (f (hub_store s)) (configs s) (statuses s)).
Definition upd_configs (f : gmap Z (list Z) → gmap Z (list Z)) : M () := upd (λ s,
  mk_usb (u_initialized s) (u_devices s) (u_hubs s) (next_address s) (xhci_ctrl s) (dev_store s) (hub_store s) (f (configs s)) (statuses s)).
Definition upd_statuses (f : gmap Z (list Z) → gmap Z (list Z)) : M () := upd (λ s,
  mk_usb (u_initialized s) (u_devices s) (u_hubs s) (next_address s) (xhci_ctrl s) (dev_store s) (hub_store s) (configs s) (f (statuses s))).

(** *** Transfers: each answers 0 and does nothing *)

Definition usb_control_transfer (dev request_type request value index length : Z) : M Z := mret 0.
Definition usb_bulk_transfer (dev endpoint length timeout : Z) : M Z := mret 0.
Definition usb_interrupt_transfer (dev endpoint length timeout : Z) : M Z := mret 0.

Definition usb_init : M () :=
  b ← on_fst (gets u_initialized);
  if (b : bool) then mret () else
  x ← on_snd xhci_init;
  set_state false 0 0 1 x;;
  on_snd xhci_init;;
  ok ← on_snd (xhci_probe fuel);
  if negb ok then log Log.LOG_LEVEL_ERROR (text "Failed to initialize xHCI controller") [] else
  on_snd (xhci_start fuel x);;
  b ← on_fst (gets u_initialized);
  if negb b then log Log.LOG_LEVEL_ERROR (text "Failed to start xHCI controller") [] else
  s ← on_fst (gets id);
  set_state true (u_devices s) (u_hubs s) (next_address s) (xhci_ctrl s);;
  log Log.LOG_LEVEL_INFO (text "USB subsystem initialized") [].

Definition zero_dev (addr : Z) : usb_device := mk_usb_device addr 0 0 0 0 (mk_desc 0 0 0) 0 0 false 0.

Definition usb_alloc_device : M Z :=
  p ← heap (kmalloc SIZEOF_DEVICE);
  if p =? 0 then mret 0 else
  s ← on_fst (gets id);
  set_state (u_initialized s) (u_devices s) (u_hubs s) (u8 (next_address s + 1)) (xhci_ctrl s);;
  upd_devs <[p := zero_dev (next_address s)]>;;
  mret p.

Definition usb_get_device_descriptor (p : Z) : M bool :=
  ret ← usb_control_transfer p 128 USB_REQ_GET_DESCRIPTOR (Z.shiftl USB_DT_DEVICE 8) 0 18; mret (0 <=? ret).

Definition set_config (p c : Z) (configured : bool) : M () :=
  d ← the_dev p;
  upd_devs <[p := mk_usb_device (address d) (port d) (hub_addr d) (speed d) (max_packet_size d) (descriptor d) c (driver_data d)
                    configured (d_next d)]>.

Definition usb_get_config_descriptor (p : Z) : M bool :=
  ret ← usb_control_transfer p 128 USB_REQ_GET_DESCRIPTOR (Z.shiftl USB_DT_CONFIG 8) 0 (size_of config_descriptor_layout);
  if ret <? 0 then mret false else
  d ← the_dev p;
  c ← heap (kmalloc junk_length);
  set_config p c (configured d);;
  if c =? 0 then mret false else
  upd_configs <[c := junk junk_length]>;;
  ret ← usb_control_transfer p 128 USB_REQ_GET_DESCRIPTOR (Z.shiftl USB_DT_CONFIG 8) 0 junk_length;
  mret (0 <=? ret).

Definition usb_set_address (p : Z) : M bool :=
  d ← the_dev p;
  ret ← usb_control_transfer p 0 USB_REQ_SET_ADDRESS (address d) 0 0;
  mret (0 <=? ret).

Definition usb_set_configuration (p c : Z) : M bool :=
  ret ← usb_control_transfer p 0 USB_REQ_SET_CONFIG c 0 0;
  (if 0 <=? ret then d ← the_dev p; set_config p (config d) true else mret ());;
  mret (0 <=? ret).

(** [for (uint8_t port = 1; port <= port_count; port++)]: with 255 ports or
    more it does not end. *)
Definition for_ports (port_count : Z) (f : Z → M ()) : M () :=
  if 255 <=? port_count then fault else for_list (seqZ 1 port_count) f.

Definition usb_init_hub (h : Z) : M bool :=
  hub ← the_hub h;
  ret ← usb_control_transfer (h_dev hub) 160 USB_REQ_GET_DESCRIPTOR (Z.shiftl USB_DT_HUB 8) 0 7;
  if ret <? 0 then mret false else
  let '(count, chars) := junk_hub in
  p ← heap (kmalloc (4 * count));
  upd_hubs <[h := mk_hub (h_dev hub) count chars p (h_next hub)]>;;
  if p =? 0 then mret false else
  upd_statuses <[p := junk count]>;;
  for_ports count (λ port, usb_control_transfer (h_dev hub) 35 USB_REQ_SET_FEATURE 1 port 0;; mret ());;
  mret true.

Definition usb_enumerate_device (p : Z) : M bool :=
  ok ← usb_get_device_descriptor p;
  if negb ok then log Log.LOG_LEVEL_ERROR (text "Failed to get device descriptor") [];; mret false else
  ok ← usb_set_address p;
  if negb ok then log Log.LOG_LEVEL_ERROR (text "Failed to set device address") [];; mret false else
  ok ← usb_get_config_descriptor p;
  if negb ok then log Log.LOG_LEVEL_ERROR (text "Failed to get configuration descriptor") [];; mret false else
  ok ← usb_set_configuration p 1;
  if negb ok then log Log.LOG_LEVEL_ERROR (text "Failed to configure device") [];; mret false else
  d ← the_dev p;
  s ← on_fst (gets id);
  upd_devs <[p := mk_usb_device (address d) (port d) (hub_addr d) (speed d) (max_packet_size d) (descriptor d) (config d) (driver_data d)
                    (configured d) (u_devices s)]>;;
  set_lists p (u_hubs s);;
  log Log.LOG_LEVEL_INFO (text "USB device enumerated: VID=%04x PID=%04x")
    [Log.AInt (vendor_id (descriptor d)); Log.AInt (product_id (descriptor d))];;
  (if device_class (descriptor d) =? USB_CLASS_HUB then
     h ← heap (kmalloc SIZEOF_HUB);
     if h =? 0 then mret () else
     upd_hubs <[h := mk_hub p 0 0 0 0]>;;
     ok ← usb_init_hub h;
     if (ok : bool) then
       hub ← the_hub h;
       s ← on_fst (gets id);
       upd_hubs <[h := mk_hub (h_dev hub) (h_port_count hub) (characteristics hub) (port_status hub) (u_hubs s)]>;;
       set_lists (u_devices s) h
     else upd_hubs (delete h);; heap (kfree h)
   else mret ());;
  mret true.

(** Unlinking from a list: [prev] is the element before, 0 the head. *)
Definition link_hub (prev next : Z) : M () :=
  s ← on_fst (gets id);
  if prev =? 0 then set_lists (u_devices s) next else
  h ← the_hub prev;
  upd_hubs <[prev := mk_hub (h_dev h) (h_port_count h) (characteristics h) (port_status h) next]>.
Definition link_dev (prev next : Z) : M () :=
  s ← on_fst (gets id);
  if prev =? 0 then set_lists next (u_hubs s) else
  d ← the_dev prev;
  upd_devs <[prev := mk_usb_device (address d) (port d) (hub_addr d) (speed d) (max_packet_size d) (descriptor d) (config d) (driver_data d)
                       (configured d) next]>.
Definition free_status (p : Z) : M () := if p =? 0 then mret () else upd_statuses (delete p);; heap (kfree p).
Definition free_config (p : Z) : M () := if p =? 0 then mret () else upd_configs (delete p);; heap (kfree p).

Fixpoint remove_hub (fuel : nat) (dev prev h : Z) : M () :=
  match fuel with
  | O => fault
  | S fuel =>
      if h =? 0 then mret () else
      hub ← the_hub h;
      if h_dev hub =? dev then
        link_hub prev (h_next hub);;
        free_status (port_status hub);;
        upd_hubs (delete h);;
        heap (kfree h)
      else remove_hub fuel dev h (h_next hub)
  end.

Fixpoint remove_device (n : nat) (hub_address port_num prev p : Z) : M () :=
  match n with
  | O => fault
  | S n =>
      if p =? 0 then mret () else
      d ← the_dev p;
      if (hub_addr d =? hub_address) && (port d =? port_num) then
        link_dev prev (d_next d);;
        (if device_class (descriptor d) =? USB_CLASS_HUB then
           h ← on_fst (gets u_hubs); remove_hub fuel p 0 h
         else mret ());;
        free_config (config d);;
        upd_devs (delete p);;
        heap (kfree p)
      else remove_device n hub_address port_num p (d_next d)
  end.

(** [for (i = 0; i < 10; i++)] until the reset bit is clear: [status] never changes. *)
Fixpoint wait_port_reset (n : nat) (hub_dev port status : Z) : M () :=
  match n with
  | O => mret ()
  | S n =>
      ret ← usb_control_transfer hub_dev 163 USB_REQ_GET_STATUS 0 port 4;
      if (0 <=? ret) && (Z.land status 16 =? 0) then mret () else wait_port_reset n hub_dev port status
  end.

Definition port_speed (status : Z) : Z :=
  if negb (Z.land status 512 =? 0) then USB_SPEED_HIGH
  else if negb (Z.land status 1024 =? 0) then USB_SPEED_LOW else USB_SPEED_FULL.
Definition packet_size (speed : Z) : Z := if speed =? USB_SPEED_HIGH then 64 else 8.

Definition usb_handle_port_change (h port : Z) : M () :=
  hub ← the_hub h;
  l ← on_fst (gets (λ s, statuses s !! port_status hub));
  l ← lift l;
  status ← lift (index l (port - 1));
  if negb (Z.land status 1 =? 0) then
    usb_control_transfer (h_dev hub) 35 USB_REQ_SET_FEATURE 4 port 0;;
    wait_port_reset 10 (h_dev hub) port status;;
    p ← usb_alloc_device;
    if p =? 0 then mret () else
    hd ← the_dev (h_dev hub);
    d ← the_dev p;
    upd_devs <[p := mk_usb_device (address d) port (address hd) (port_speed status) (packet_size (port_speed status)) (descriptor d)
                      (config d) (driver_data d) (configured d) (d_next d)]>;;
    usb_control_transfer (h_dev hub) 35 USB_REQ_SET_FEATURE 8 port 0;;
    ok ← usb_enumerate_device p;
    if (ok : bool) then mret () else upd_devs (delete p);; heap (kfree p)
  else
    hd ← the_dev (h_dev hub);
    first ← on_fst (gets u_devices);
    remove_device fuel (address hd) port 0 first.

(** The ports of a hub.  The request to clear a change has the value
    [bit << 16], which is 0 in 16 bits. *)
Definition check_port (h port : Z) : M () :=
  hub ← the_hub h;
  ret ← usb_control_transfer (h_dev hub) 163 USB_REQ_GET_STATUS 0 port 4;
  l ← on_fst (gets (λ s, statuses s !! port_status hub));
  l ← lift l;
  status ← lift (index l (port - 1));
  if (0 <=? ret) && negb (Z.land status 4294901760 =? 0) then
    usb_handle_port_change h port;;
    hub ← the_hub h;
    l ← on_fst (gets (λ s, statuses s !! port_status hub));
    l ← lift l;
    status ← lift (index l (port - 1));
    for_list (seqZ 0 16) (λ bit,
      if Z.testbit (Z.shiftr status 16) bit then usb_control_transfer (h_dev hub) 35 USB_REQ_CLEAR_FEATURE (u16 (Z.shiftl bit 16)) port 0;; mret () else mret ())
  else mret ().

Fixpoint check_hubs (n : nat) (h : Z) : M () :=
  match n with
  | O => fault
  | S n =>
      if h =? 0 then mret () else
      hub ← the_hub h;
      for_ports (h_port_count hub) (check_port h);;
      hub ← the_hub h;
      check_hubs n (h_next hub)
  end.

(** The array of root ports is zeroed and then searched for changes: none is. *)
Definition usb_process_events : M () :=
  b ← on_fst (gets u_initialized);
  if negb b then mret () else
  port_change ← heap (kmalloc 16);
  heap (kfree port_change);;
  h ← on_fst (gets u_hubs);
  check_hubs fuel h.

(** The address of the device, NULL is 0. *)
Fixpoint find_usb_device (n : nat) (addr p : Z) : M Z :=
  match n with
  | O => fault
  | S n =>
      if p =? 0 then mret 0 else
      d ← the_dev p;
      if address d =? addr then mret p else find_usb_device n addr (d_next d)
  end.
Definition usb_get_device (addr : Z) : M Z := first ← on_fst (gets u_devices); find_usb_device fuel addr first.

Fixpoint free_devices (n : nat) (p : Z) : M () :=
  match n with
  | O => fault
  | S n =>
      if p =? 0 then mret () else
      d ← the_dev p;
      free_config (config d);;
      (if driver_data d =? 0 then mret () else heap (kfree (driver_data d)));;
      upd_devs (delete p);;
      heap (kfree p);;
      free_devices n (d_next d)
  end.
Fixpoint free_hubs (n : nat) (h : Z) : M () :=
  match n with
  | O => fault
  | S n =>
      if h =? 0 then mret () else
      hub ← the_hub h;
      free_status (port_status hub);;
      upd_hubs (delete h);;
      heap (kfree h);;
      free_hubs n (h_next hub)
  end.

Definition usb_cleanup : M () :=
  b ← on_fst (gets u_initialized);
  if negb b then mret () else
  d ← on_fst (gets u_devices);
  free_devices fuel d;;
  h ← on_fst (gets u_hubs);
  free_hubs fuel h;;
  x ← on_fst (gets xhci_ctrl);
  on_snd (xhci_stop fuel x);;
  set_state false 0 0 0 x.
End usb.

(** ** USB never starts

    [usb_init] tests a flag that it has just cleared before it would set it. *)
Section never.
Context {A H W : Type} `{!PageAlloc A, !Malloc H, !Pci.PciBus W, !Bus W, !Ports W}.

Definition stopped (s : usb * (xhci * plat A H W)) : Prop := u_initialized s.1 = false.

Lemma stopped_on_snd {X} (m : Monad.M (xhci * plat A H W) X) : keeps stopped (on_snd m).
Proof. intros s x s' Hr Hs. unfold on_snd in Hr. destruct (m s.2) as [[y p]|]; [|done]. by injection Hr as <- <-. Qed.
Lemma stopped_gets {X} (f : usb → X) : keeps stopped (on_fst (gets f)).
Proof. intros s x s' Hr Hs. unfold on_fst, gets in Hr. injection Hr as <- <-. by destruct s. Qed.

Lemma usb_init_stopped fuel : keeps stopped (usb_init fuel).
Proof.
  intros s x s' Hr Hs. unfold usb_init in Hr. apply run_bind in Hr as (b & s1 & H1 & Hr).
  assert (b = false ∧ s1 = s) as [-> ->] by (unfold on_fst, gets in H1; injection H1 as <- <-; rewrite Hs; by destruct s).
  apply run_bind in Hr as (x1 & s2 & H2 & Hr). apply run_bind in Hr as (u & s3 & H3 & Hr).
  assert (stopped s3) as Hs3 by (unfold set_state, upd, on_fst, modify in H3; by injection H3 as <- <-).
  apply run_bind in Hr as (x2 & s4 & H4 & Hr). pose proof (stopped_on_snd _ _ _ _ H4 Hs3) as Hs4.
  apply run_bind in Hr as (ok & s5 & H5 & Hr). pose proof (stopped_on_snd _ _ _ _ H5 Hs4) as Hs5.
  destruct ok; cbn [negb] in Hr; [|by eapply stopped_on_snd].
  apply run_bind in Hr as (ok & s6 & H6 & Hr). pose proof (stopped_on_snd _ _ _ _ H6 Hs5) as Hs6.
  apply run_bind in Hr as (b & s7 & H7 & Hr).
  assert (b = false ∧ s7 = s6) as [-> ->] by (unfold on_fst, gets in H7; injection H7 as <- <-; rewrite Hs6; by destruct s6).
  cbn [negb] in Hr. by eapply stopped_on_snd.
Qed.
End never.

(** Whatever controller there is, [usb_init] leaves the subsystem not
    initialised, so that processing events and cleaning up do nothing. *)
Theorem usb_init_never_starts {A H W} `{!PageAlloc A, !Malloc H, !Pci.PciBus W, !Bus W, !Ports W} fuel (s s' : usb * (xhci * plat A H W)) :
  u_initialized s.1 = false → usb_init fuel s = Some ((), s') →
  u_initialized s'.1 = false ∧
  ∀ junk_length junk_hub junk, usb_process_events fuel junk_length junk_hub junk s' = Some ((), s') ∧ usb_cleanup fuel s' = Some ((), s').
Proof.
  intros Hs Hr. assert (u_initialized s'.1 = false) as Hs' by (by eapply (usb_init_stopped fuel s)). split; [done|].
  intros jl jh j. unfold usb_process_events, usb_cleanup, mbind, M_bind, on_fst, gets. rewrite Hs'. by destruct s'.
Qed.

(** ** Witness: a machine without a controller *)

#[export] Instance void_bus : Bus () := { load n a w := (0, w); store n a v w := w }.
#[export] Instance void_ports : Ports () := { outb port v w := w; inb port w := (255, w) }.
#[export] Instance void_pci : Pci.PciBus () := {
  Pci.outl p v w := w; Pci.inl p w := (4294967295, w); Pci.read32 a w := (0, w); Pci.write32 a v w := w }.
#[export] Program Instance void_pages : PageAlloc () := {
  alloc_page a := (0, a); free_page p a := a; pa_ok a := True; pa_free a p := False }.
Next Obligation. intros. split; [done|by left]. Qed.
Next Obligation. done. Qed.

Definition demo_usb : usb * (xhci * plat () nat ()) :=
  (mk_usb false 0 0 0 0 ∅ ∅ ∅ ∅, (mk_xhci 0 0 0 ∅ ∅ ∅ ∅, mk_plat () 0%nat (Pci.mk_pci_state [] 0 ()))).

Lemma usb_init_never_starts_witness :
  ∃ s, usb_init 10 demo_usb = Some ((), s) ∧ u_initialized s.1 = false.
Proof.
  destruct (usb_init 10 demo_usb) as [[[] s]|] eqn:E; [|vm_compute in E; discriminate].
  exists s. split; [reflexivity|]. exact (proj1 (usb_init_never_starts 10 demo_usb s eq_refl E)).
Defined.
