(* ===== verification/UsbHid.v ===== *)
(** * USB keyboards and mice ([core/drivers/usb/keyboard.c], [mouse.c])

    The drivers keep arrays of devices, the bytes in report buffers are a store
    indexed by heap address.  Event handlers are addresses; calling one is a
    parameter that acts on the device memory's world.  A walk over the
    descriptors takes fuel: one of length 0 is looked at for ever. *)
From S2P Require Import Prelude Interfaces Monad Ring Bytes Mmio Xhci Usb.
From S2P Require Pci Log Ps2.

Definition MAX_USB_KEYBOARDS : Z := 4.
Definition KEYBOARD_BUFFER_SIZE : Z := 128.
Definition USB_HID_MOD_LEFT_SHIFT : Z := 2.
Definition USB_HID_MOD_RIGHT_SHIFT : Z := 32.
Definition MAX_MICE : Z := 4.
Definition USB_HID_MOUSE_BUTTON_LEFT : Z := 1.
Definition USB_HID_MOUSE_BUTTON_RIGHT : Z := 2.
Definition USB_HID_MOUSE_BUTTON_MIDDLE : Z := 4.
Definition USB_HID_MOUSE_PROTOCOL_BOOT : Z := 0.
Definition HID_SET_PROTOCOL : Z := 11.
Definition HID_DESCRIPTOR : Z := 33.
Definition HID_REPORT_DESCRIPTOR : Z := 34.

Definition keymap_us : list Z :=
  [0; 0; 0; 0; 97; 98; 99; 100; 101; 102; 103; 104; 105; 106; 107; 108; 109; 110; 111; 112; 113; 114; 115; 116; 117; 118; 119;
   120; 121; 122; 49; 50; 51; 52; 53; 54; 55; 56; 57; 48; 10; 0; 8; 9; 32; 45; 61; 91; 93; 92; 0; 59; 39; 96; 44; 46; 47]
  ++ replicate 71 0.
Definition keymap_us_shift : list Z :=
  [0; 0; 0; 0; 65; 66; 67; 68; 69; 70; 71; 72; 73; 74; 75; 76; 77; 78; 79; 80; 81; 82; 83; 84; 85; 86; 87; 88; 89; 90; 33; 64;
   35; 36; 37; 94; 38; 42; 40; 41; 10; 0; 8; 9; 32; 95; 43; 123; 125; 124; 0; 58; 34; 126; 60; 62; 63]
  ++ replicate 71 0.

(** ** The queue of characters and the keys held down *)

Record usb_keyboard_report_t := mk_report { modifiers : Z; keys : list Z }.

Record key_state := mk_keys { key_buffer : list Z; buffer_head : Z; buffer_tail : Z; prev_keys : list Z }.

Definition convert_keycode (keycode : Z) (shift : bool) : Z :=
  if 128 <=? keycode then 0 else default 0 (index (if shift then keymap_us_shift else keymap_us) keycode).

(** The character is dropped when the queue is full. *)
Definition put_key (c : Z) (k : key_state) : key_state :=
  let next_tail := (buffer_tail k + 1) mod KEYBOARD_BUFFER_SIZE in
  if next_tail =? buffer_head k then k
  else mk_keys (aset (key_buffer k) (buffer_tail k) c) (buffer_head k) next_tail (prev_keys k).

(** One key of a report, with the call of the event handler. *)
Definition press_key (shift : bool) (key : Z) (k : key_state) : key_state * list (Z * bool) :=
  if (key =? 0) || bool_decide (key ∈ prev_keys k) then (k, []) else
  let c := convert_keycode key shift in
  (if c =? 0 then k else put_key c k, [(key, true)]).

Fixpoint press_keys (shift : bool) (l : list Z) (k : key_state) : key_state * list (Z * bool) :=
  match l with
  | [] => (k, [])
  | key :: l =>
      let '(k, e) := press_key shift key k in
      let '(k, es) := press_keys shift l k in (k, e ++ es)
  end.

Definition released_keys (prev now : list Z) : list (Z * bool) :=
  (λ key, (key, false)) <$> List.filter (λ key, negb (key =? 0) && negb (bool_decide (key ∈ now))) prev.

(** The state after a report, and the calls of the event handler in order. *)
Definition process_keyboard_report (report : usb_keyboard_report_t) (k : key_state) : key_state * list (Z * bool) :=
  let shift := negb (Z.land (modifiers report) (Z.lor USB_HID_MOD_LEFT_SHIFT USB_HID_MOD_RIGHT_SHIFT) =? 0) in
  let '(k, pressed) := press_keys shift (keys report) k in
  (mk_keys (key_buffer k) (buffer_head k) (buffer_tail k) (keys report), pressed ++ released_keys (prev_keys k) (keys report)).

Definition usb_keyboard_get_char (k : key_state) : Z * key_state :=
  if buffer_head k =? buffer_tail k then (0, k)
  else (aget (key_buffer k) (buffer_head k),
        mk_keys (key_buffer k) ((buffer_head k + 1) mod KEYBOARD_BUFFER_SIZE) (buffer_tail k) (prev_keys k)).

(** ** The devices *)

Record usb_keyboard_device_t := mk_kbd {
  k_dev : Z; k_interface : Z; k_in : Z; k_max : Z; k_report : Z; k_initialized : bool; k_handler : Z }.
Definition zero_kbd : usb_keyboard_device_t := mk_kbd 0 0 0 0 0 false 0.

Record usb_mouse_device_t := mk_mouse {
  m_dev : Z; m_interface : Z; m_in : Z; m_max : Z; has_wheel : bool; has_pan : bool; m_report : Z }.
Definition zero_mouse : usb_mouse_device_t := mk_mouse 0 0 0 0 false false 0.

Record usb_mouse_event_t := mk_event {
  ev_left : bool; ev_right : bool; ev_middle : bool; rel_x : Z; rel_y : Z; wheel_delta : Z; pan_delta : Z }.

Record hid := mk_hid {
  kbds : list usb_keyboard_device_t; num_kbds : Z; kbd_initialized : bool; key_st : key_state;
  mice : list usb_mouse_device_t; num_mice : Z; mouse_handler : Z; mouse_initialized : bool;
  reports : gmap Z (list Z) }.

Definition no_keys : key_state := mk_keys (replicate (Z.to_nat KEYBOARD_BUFFER_SIZE) 0) 0 0 (replicate 6 0).

Section devices.
Context {A H W : Type} `{!PageAlloc A, !Malloc H, !Pci.PciBus W, !Bus W, !Ports W}.
Context (fuel : nat) (junk : Z → list Z).
Context (call_key : Z → Z → bool → W → W) (call_mouse : Z → usb_mouse_event_t → W → W).
Abbreviation M := (Monad.M (hid * (usb * (xhci * plat A H W)))).

Definition upd (f : hid → hid) : M () := on_fst (modify f).
Definition kheap {X} (m : Monad.M (plat A H W) X) : M X := on_snd (Usb.heap m).
Definition log_info (msg : list Z) : M () := on_snd (Usb.log fuel Log.LOG_LEVEL_INFO msg []).

Definition set_kbds (l : list usb_keyboard_device_t) (n : Z) (b : bool) (k : key_state) : M () := upd (λ s,
  mk_hid l n b k (mice s) (num_mice s) (mouse_handler s) (mouse_initialized s) (reports s)).
Definition set_mice (l : list usb_mouse_device_t) (n h : Z) (b : bool) : M () := upd (λ s,
  mk_hid (kbds s) (num_kbds s) (kbd_initialized s) (key_st s) l n h b (reports s)).
Definition upd_reports (f : gmap Z (list Z) → gmap Z (list Z)) : M () := upd (λ s,
  mk_hid (kbds s) (num_kbds s) (kbd_initialized s) (key_st s) (mice s) (num_mice s) (mouse_handler s) (mouse_initialized s) (f (reports s))).

Definition free_report (p : Z) : M () := if p =? 0 then mret () else upd_reports (delete p);; kheap (kfree p).
(** [malloc] of a report buffer holds what was there before. *)
Definition new_report (n : Z) : M Z :=
  p ← kheap (kmalloc n);
  (if p =? 0 then mret () else upd_reports <[p := junk n]>);;
  mret p.

(** *** Descriptors *)

(** Member [k], of one or two bytes, of the descriptor at offset [i]. *)
Definition member8 (layout : list nat) (k : nat) (bytes : list Z) (i : Z) : option Z := index bytes (i + offset_of layout k).
Definition member16 (layout : list nat) (k : nat) (bytes : list Z) (i : Z) : option Z :=
  lo ← index bytes (i + offset_of layout k); hi ← index bytes (i + offset_of layout k + 1); Some (lo + 256 * hi).

Fixpoint find_interface (fuel : nat) (bytes : list Z) (protocol len i : Z) : option bool :=
  match fuel with
  | O => None
  | S fuel =>
      if i <? len then
        type ← member8 interface_descriptor_layout 1 bytes i;
        found ← (if type =? USB_DT_INTERFACE then
                   class ← member8 interface_descriptor_layout 5 bytes i;
                   if class =? USB_CLASS_HID then p ← member8 interface_descriptor_layout 7 bytes i; Some (p =? protocol) else Some false
                 else Some false);
        if (found : bool) then Some true else
        n ← member8 interface_descriptor_layout 0 bytes i;
        find_interface fuel bytes protocol len (u16 (i + n))
      else Some false
  end.

(** The bytes of the configuration descriptor and its length field. *)
Definition config_bytes (d : usb_device) : M (list Z * Z) :=
  o ← on_snd (on_fst (gets (λ s, configs s !! config d)));
  bytes ← lift o;
  total_length ← lift (member16 config_descriptor_layout 2 bytes 0);
  mret (bytes, total_length).

Definition usb_probe (protocol p : Z) : M bool :=
  if p =? 0 then mret false else
  d ← on_snd (Usb.the_dev p);
  if negb (device_class (descriptor d) =? USB_CLASS_HID) || (config d =? 0) then mret false else
  '(bytes, len) ← config_bytes d;
  lift (find_interface fuel bytes protocol len 0).

(** Interface number, endpoint and packet size that a device of the protocol
    has: the last ones win, [acc] when there are none. *)
Fixpoint find_endpoints (fuel : nat) (bytes : list Z) (protocol len i : Z) (acc : Z * Z * Z) : option (Z * Z * Z) :=
  match fuel with
  | O => None
  | S fuel =>
      if i <? len then
        type ← index bytes (i + 1);
        n ← index bytes i;
        acc ← (let '(interface, endpoint, size) := acc in
               if type =? USB_DT_INTERFACE then
                 class ← member8 interface_descriptor_layout 5 bytes i;
                 if class =? USB_CLASS_HID then
                   p ← member8 interface_descriptor_layout 7 bytes i;
                   if p =? protocol then num ← member8 interface_descriptor_layout 2 bytes i; Some (num, endpoint, size) else Some acc
                 else Some acc
               else if type =? USB_DT_ENDPOINT then
                 a ← member8 endpoint_descriptor_layout 2 bytes i;
                 if Z.land a 128 =? 0 then Some acc else
                 at_ ← member8 endpoint_descriptor_layout 3 bytes i;
                 if Z.land at_ 3 =? 3 then
                   packet ← member16 endpoint_descriptor_layout 4 bytes i; Some (interface, a, packet)
                 else Some acc
               else Some acc);
        find_endpoints fuel bytes protocol len (u16 (i + n)) acc
      else Some acc
  end.

(** *** keyboard.c *)

Definition usb_keyboard_init : M () :=
  s ← on_fst (gets id);
  if kbd_initialized s then mret () else
  set_kbds (replicate (Z.to_nat MAX_USB_KEYBOARDS) zero_kbd) 0 true
    (mk_keys (replicate (Z.to_nat KEYBOARD_BUFFER_SIZE) 0) 0 0 (prev_keys (key_st s))).

Definition usb_keyboard_cleanup : M () :=
  s ← on_fst (gets id);
  for_list (take (Z.to_nat (num_kbds s)) (kbds s)) (λ k, free_report (k_report k));;
  set_kbds (kbds s) 0 false (key_st s).

Definition usb_keyboard_probe (p : Z) : M bool := usb_probe 1 p.

Definition put_kbd (i : Z) (k : usb_keyboard_device_t) (n : Z) : M () :=
  s ← on_fst (gets id); set_kbds (<[Z.to_nat i := k]> (kbds s)) n (kbd_initialized s) (key_st s).

Definition usb_keyboard_attach (p : Z) : M bool :=
  s ← on_fst (gets id);
  if negb (kbd_initialized s) || (MAX_USB_KEYBOARDS <=? num_kbds s) then mret false else
  ok ← usb_keyboard_probe p;
  if negb ok then mret false else
  d ← on_snd (Usb.the_dev p);
  '(bytes, len) ← config_bytes d;
  '(interface, endpoint, size) ← lift (find_endpoints fuel bytes 1 len 0 (0, 0, 0));
  r ← new_report size;
  let i := num_kbds s in
  if r =? 0 then put_kbd i (mk_kbd p interface endpoint size 0 false 0) i;; mret false else
  put_kbd i (mk_kbd p interface endpoint size r true 0) (i + 1);;
  mret true.

(** The devices behind the [i]-th move down by one. *)
Definition shift_down {X} (l : list X) (i n : nat) : list X := take i l ++ take (n - i - 1) (drop (S i) l) ++ drop (n - 1) l.

Definition usb_keyboard_detach (p : Z) : M () :=
  s ← on_fst (gets id);
  let n := Z.to_nat (num_kbds s) in
  match list_find (λ k, k_dev k = p) (take n (kbds s)) with
  | None => mret ()
  | Some (i, k) =>
      free_report (k_report k);;
      set_kbds (shift_down (kbds s) i n) (num_kbds s - 1) (kbd_initialized s) (key_st s)
  end.

(** A report of the [i]-th keyboard. *)
Definition keyboard_report (i : nat) (report : usb_keyboard_report_t) : M () :=
  s ← on_fst (gets id);
  k ← lift (kbds s !! i);
  let '(ks, events) := process_keyboard_report report (key_st s) in
  set_kbds (kbds s) (num_kbds s) (kbd_initialized s) ks;;
  if k_handler k =? 0 then mret () else
  kheap (on_dev (for_list events (λ e, modify (call_key (k_handler k) e.1 e.2)))).

Definition usb_keyboard_read : M Z :=
  s ← on_fst (gets id);
  let '(c, ks) := usb_keyboard_get_char (key_st s) in
  set_kbds (kbds s) (num_kbds s) (kbd_initialized s) ks;;
  mret c.

Definition usb_keyboard_register_handler (h : Z) : M () :=
  s ← on_fst (gets id);
  let n := Z.to_nat (num_kbds s) in
  set_kbds (((λ k, mk_kbd (k_dev k) (k_interface k) (k_in k) (k_max k) (k_report k) (k_initialized k) h) <$> take n (kbds s)) ++ drop n (kbds s))
    (num_kbds s) (kbd_initialized s) (key_st s).

(** *** mouse.c *)

(** Usages among the bytes of a report descriptor, the last of which is only
    looked at as the byte behind the one before. *)
Fixpoint scan_usages (l : list Z) (wheel pan : bool) : bool * bool :=
  match l with
  | a :: l =>
      match head l with
      | Some b => if a =? 9 then scan_usages l (wheel || (b =? 56)) (pan || (b =? 55)) else scan_usages l wheel pan
      | None => (wheel, pan)
      end
  | [] => (wheel, pan)
  end.

(** [desc] is the buffer on the stack, into which no transfer stores; the
    answer 0 of the second is the number of bytes that are parsed. *)
Definition parse_mouse_descriptor (desc : list Z) (m : usb_mouse_device_t) : M (bool * usb_mouse_device_t) :=
  ret ← on_snd (usb_control_transfer (m_dev m) 129 USB_REQ_GET_DESCRIPTOR (Z.shiftl HID_DESCRIPTOR 8) (m_interface m) 256);
  if ret <? 0 then mret (false, m) else
  let report_desc_len := default 0 (index desc 7) + 256 * default 0 (index desc 8) in
  ret ← on_snd (usb_control_transfer (m_dev m) 129 USB_REQ_GET_DESCRIPTOR (Z.shiftl HID_REPORT_DESCRIPTOR 8) (m_interface m) report_desc_len);
  if ret <? 0 then mret (false, m) else
  let '(wheel, pan) := if ret =? 0 then (false, false) else scan_usages (take (Z.to_nat ret + 1) desc) false false in
  mret (true, mk_mouse (m_dev m) (m_interface m) (m_in m) (m_max m) wheel pan (m_report m)).

Definition usb_mouse_init : M bool :=
  s ← on_fst (gets id);
  if mouse_initialized s then mret true else
  set_mice (replicate (Z.to_nat MAX_MICE) zero_mouse) 0 0 true;;
  log_info (text "USB Mouse driver initialized");;
  mret true.

Definition usb_mouse_cleanup : M () :=
  s ← on_fst (gets id);
  if negb (mouse_initialized s) then mret () else
  for_list (take (Z.to_nat (num_mice s)) (mice s)) (λ m, free_report (m_report m));;
  set_mice (replicate (Z.to_nat MAX_MICE) zero_mouse) 0 0 false.

Definition usb_mouse_probe (p : Z) : M bool := usb_probe 2 p.

Definition put_mouse (i : Z) (m : usb_mouse_device_t) (n : Z) : M () :=
  s ← on_fst (gets id); set_mice (<[Z.to_nat i := m]> (mice s)) n (mouse_handler s) (mouse_initialized s).

Definition usb_mouse_connect (desc : list Z) (p : Z) : M bool :=
  s ← on_fst (gets id);
  if negb (mouse_initialized s) || (MAX_MICE <=? num_mice s) then mret false else
  ok ← usb_mouse_probe p;
  if negb ok then mret false else
  d ← on_snd (Usb.the_dev p);
  '(bytes, len) ← config_bytes d;
  '(interface, endpoint, size) ← lift (find_endpoints fuel bytes 2 len 0 (0, 0, 0));
  let i := num_mice s in
  let m := mk_mouse p interface endpoint size false false 0 in
  put_mouse i m i;;
  '(ok, m) ← parse_mouse_descriptor desc m;
  put_mouse i m i;;
  if negb ok then mret false else
  r ← new_report size;
  let m := mk_mouse p interface endpoint size (has_wheel m) (has_pan m) r in
  put_mouse i m i;;
  if r =? 0 then mret false else
  ret ← on_snd (usb_control_transfer p 33 HID_SET_PROTOCOL USB_HID_MOUSE_PROTOCOL_BOOT interface 0);
  if ret <? 0 then free_report r;; mret false else
  put_mouse i m (i + 1);;
  log_info (text "USB Mouse connected");;
  mret true.

Definition usb_mouse_disconnect (p : Z) : M () :=
  s ← on_fst (gets id);
  let n := Z.to_nat (num_mice s) in
  match list_find (λ m, m_dev m = p) (take n (mice s)) with
  | None => mret ()
  | Some (i, m) =>
      free_report (m_report m);;
      set_mice (shift_down (mice s) i n) (num_mice s - 1) (mouse_handler s) (mouse_initialized s);;
      log_info (text "USB Mouse disconnected")
  end.

Definition usb_mouse_register_handler (h : Z) : M () :=
  s ← on_fst (gets id); set_mice (mice s) (num_mice s) h (mouse_initialized s).

(** The event of a report: wheel and pan are read where the mouse has them. *)
Definition mouse_event (m : usb_mouse_device_t) (report : list Z) : option usb_mouse_event_t :=
  buttons ← index report 0;
  x ← index report 1;
  y ← index report 2;
  wheel ← (if has_wheel m then s8 <$> index report 3 else Some 0);
  pan ← (if has_pan m then s8 <$> index report 4 else Some 0);
  Some (mk_event (Ps2.has buttons USB_HID_MOUSE_BUTTON_LEFT) (Ps2.has buttons USB_HID_MOUSE_BUTTON_RIGHT) (Ps2.has buttons USB_HID_MOUSE_BUTTON_MIDDLE) (s8 x) (s8 y) wheel pan).

Definition usb_mouse_process_events : M () :=
  s ← on_fst (gets id);
  if negb (mouse_initialized s) || (mouse_handler s =? 0) then mret () else
  for_list (take (Z.to_nat (num_mice s)) (mice s)) (λ m,
    ret ← on_snd (usb_interrupt_transfer (m_dev m) (m_in m) (m_max m) 0);
    if ret =? 0 then
      o ← on_fst (gets (λ s, reports s !! m_report m));
      report ← lift o;
      e ← lift (mouse_event m report);
      kheap (on_dev (modify (call_mouse (mouse_handler s) e)))
    else mret ()).
End devices.

(** ** The keyboard queue refines a bounded queue

    An abstract keyboard is the list of waiting characters and the keys held
    down.  The circular array holds at most 127 characters. *)

Inductive key_op := Report (r : usb_keyboard_report_t) | GetChar.
Inductive key_out := Events (l : list (Z * bool)) | Char (c : Z).

Definition queue_limit : nat := 127.
Definition enqueue (q : list Z) (c : Z) : list Z := if (length q <? queue_limit)%nat then q ++ [c] else q.

(** Keys of the report that were not down before. *)
Definition new_keys (prev now : list Z) : list Z := List.filter (λ key, negb ((key =? 0) || bool_decide (key ∈ prev))) now.
(** The characters that a report types. *)
Definition typed (r : usb_keyboard_report_t) (prev : list Z) : list Z :=
  let shift := negb (Z.land (modifiers r) 34 =? 0) in
  List.filter (λ c, negb (c =? 0)) ((λ key, convert_keycode key shift) <$> new_keys prev (keys r)).

Definition spec_key_step (op : key_op) (s : list Z * list Z) : (list Z * list Z) * key_out :=
  match op with
  | Report r =>
      (foldl enqueue s.1 (typed r s.2), keys r,
       Events (((λ key, (key, true)) <$> new_keys s.2 (keys r)) ++
               ((λ key, (key, false)) <$> List.filter (λ key, negb ((key =? 0) || bool_decide (key ∈ keys r))) s.2)))
  | GetChar => match s.1 with [] => (s, Char 0) | c :: q => (q, s.2, Char c) end
  end.

Definition key_step (op : key_op) (k : key_state) : key_state * key_out :=
  match op with
  | Report r => let '(k, e) := process_keyboard_report r k in (k, Events e)
  | GetChar => let '(c, k) := usb_keyboard_get_char k in (k, Char c)
  end.

Fixpoint run_ops {S} (step : key_op → S → S * key_out) (l : list key_op) (s : S) : S * list key_out :=
  match l with
  | [] => (s, [])
  | op :: l => let '(s, o) := step op s in let '(s, os) := run_ops step l s in (s, o :: os)
  end.

Record key_inv (k : key_state) : Prop := {
  ki_size : Z.of_nat (length (key_buffer k)) = KEYBOARD_BUFFER_SIZE;
  ki_head : 0 <= buffer_head k < KEYBOARD_BUFFER_SIZE;
  ki_tail : 0 <= buffer_tail k < KEYBOARD_BUFFER_SIZE }.

Definition waiting (k : key_state) : Z := (buffer_tail k - buffer_head k) mod KEYBOARD_BUFFER_SIZE.
Definition key_queue (k : key_state) : list Z := ring_contents (key_buffer k) KEYBOARD_BUFFER_SIZE (buffer_head k) (waiting k).

Lemma waiting_range k : 0 <= waiting k < KEYBOARD_BUFFER_SIZE.
Proof. apply Z.mod_pos_bound. done. Qed.

Lemma tail_pos k : key_inv k → buffer_tail k = (buffer_head k + waiting k) mod KEYBOARD_BUFFER_SIZE.
Proof. intros [_ ? ?]. unfold waiting, KEYBOARD_BUFFER_SIZE in *. rewrite Zplus_mod_idemp_r. rewrite Z.mod_small; lia. Qed.

Lemma put_key_correct c k : key_inv k →
  key_inv (put_key c k) ∧ key_queue (put_key c k) = enqueue (key_queue k) c ∧ prev_keys (put_key c k) = prev_keys k.
Proof.
  intros Hk. pose proof (waiting_range k) as Hw. pose proof (tail_pos k Hk) as Ht. destruct Hk as [Hs Hh Hl].
  assert (Hlen : length (key_queue k) = Z.to_nat (waiting k)).
  { unfold key_queue, ring_contents. by rewrite length_fmap, length_seqZ. }
  unfold enqueue, queue_limit. rewrite Hlen. unfold put_key.
  assert (Hfull : ((buffer_tail k + 1) mod KEYBOARD_BUFFER_SIZE =? buffer_head k) = negb (Z.to_nat (waiting k) <? 127)%nat).
  { unfold waiting, KEYBOARD_BUFFER_SIZE in *. clear Ht.
    destruct (Nat.ltb_spec (Z.to_nat ((buffer_tail k - buffer_head k) mod 128)) 127); simpl;
      [apply Z.eqb_neq|apply Z.eqb_eq]; Z.to_euclidean_division_equations; lia. }
  rewrite Hfull. destruct (Nat.ltb_spec (Z.to_nat (waiting k)) 127); simpl; [|done].
  split; [split; simpl; [by rewrite length_aset|done|by apply Z.mod_pos_bound]|]. split; [|done].
  unfold key_queue at 1, waiting at 1. simpl.
  replace (((buffer_tail k + 1) mod KEYBOARD_BUFFER_SIZE - buffer_head k) mod KEYBOARD_BUFFER_SIZE) with (waiting k + 1).
  - rewrite Ht at 1. by apply ring_put.
  - unfold waiting, KEYBOARD_BUFFER_SIZE in *. clear Ht Hfull Hlen. Z.to_euclidean_division_equations; lia.
Qed.

Lemma press_keys_correct shift l k : key_inv k →
  let '(k', es) := press_keys shift l k in
  key_inv k' ∧ prev_keys k' = prev_keys k ∧ es = (λ key, (key, true)) <$> new_keys (prev_keys k) l ∧
  key_queue k' = foldl enqueue (key_queue k)
    (List.filter (λ c, negb (c =? 0)) ((λ key, convert_keycode key shift) <$> new_keys (prev_keys k) l)).
Proof.
  revert k. induction l as [|key l IH]; intros k Hk; [done|]. cbn [press_keys new_keys List.filter]. unfold press_key.
  destruct ((key =? 0) || bool_decide (key ∈ prev_keys k)); cbn [negb].
  - specialize (IH k Hk). destruct (press_keys shift l k). done.
  - rewrite !fmap_cons. cbn [List.filter]. destruct (convert_keycode key shift =? 0); cbn [negb].
    + specialize (IH k Hk). destruct (press_keys shift l k). destruct IH as (? & ? & -> & ?). done.
    + destruct (put_key_correct (convert_keycode key shift) k Hk) as (Hk' & Hq & Hp).
      specialize (IH _ Hk'). rewrite Hp in IH. destruct (press_keys shift l _). destruct IH as (? & ? & -> & Hq').
      rewrite Hq' , Hq. done.
Qed.

Lemma key_step_refines op k : key_inv k →
  let '(k', o) := key_step op k in
  key_inv k' ∧ spec_key_step op (key_queue k, prev_keys k) = (key_queue k', prev_keys k', o).
Proof.
  intros Hk. destruct op as [r|]; cbn [key_step spec_key_step].
  - unfold process_keyboard_report.
    pose proof (press_keys_correct (negb (Z.land (modifiers r) 34 =? 0)) (keys r) k Hk) as Hp.
    change (Z.lor USB_HID_MOD_LEFT_SHIFT USB_HID_MOD_RIGHT_SHIFT) with 34.
    destruct (press_keys _ (keys r) k) as [k' es]. destruct Hp as ([] & Hpk & -> & Hq). split; [done|]. cbn.
    unfold typed. rewrite <- Hq. do 3 f_equal. unfold released_keys. rewrite Hpk. f_equal.
    apply List.filter_ext. intros key. by rewrite negb_orb.
  - unfold usb_keyboard_get_char, key_queue. destruct Hk as [Hs Hh Hl].
    pose proof (waiting_range k). destruct (buffer_head k =? buffer_tail k) eqn:He; zbool.
    + split; [done|]. replace (waiting k) with 0; [done|]. unfold waiting. by rewrite He, Z.sub_diag.
    + assert (0 < waiting k) by (unfold waiting, KEYBOARD_BUFFER_SIZE in *; Z.to_euclidean_division_equations; lia).
      split; [split; simpl; [done|by apply Z.mod_pos_bound|done]|].
      rewrite ring_get by done. cbn. do 3 f_equal. unfold waiting. cbn.
      unfold waiting, KEYBOARD_BUFFER_SIZE in *. Z.to_euclidean_division_equations; lia.
Qed.

(** C28: however reports of the keyboards and reads interleave, every answer is
    that of a queue of at most 127 characters: a report types the character of
    each key that was not down in the report before, at the level of the shift
    keys, characters that find the queue full are dropped, reads take the oldest
    one or 0, and the event handler is called once for each key that goes down
    and each that goes up. *)
Theorem keyboard_queue_refines ops k : key_inv k →
  let '(k', outs) := run_ops key_step ops k in
  key_inv k' ∧ run_ops spec_key_step ops (key_queue k, prev_keys k) = (key_queue k', prev_keys k', outs).
Proof.
  revert k. induction ops as [|op ops IH]; intros k Hk; [done|]. cbn [run_ops].
  pose proof (key_step_refines op k Hk) as Hs. destruct (key_step op k) as [k1 o]. destruct Hs as [Hk1 ->].
  specialize (IH k1 Hk1). destruct (run_ops key_step ops k1) as [k' os]. destruct IH as [? ->]. done.
Qed.

(** The shifted h, then i, read back. *)
Lemma keyboard_queue_refines_witness :
  key_inv no_keys ∧
  (run_ops key_step [Report (mk_report 2 [11;0;0;0;0;0]); Report (mk_report 0 [11;12;0;0;0;0]); GetChar; GetChar; GetChar] no_keys).2 =
    [Events [(11, true)]; Events [(12, true)]; Char 72; Char 105; Char 0] ∧
  (let '(k', outs) := run_ops key_step [Report (mk_report 2 [11;0;0;0;0;0]); GetChar] no_keys in
   key_inv k' ∧ run_ops spec_key_step [Report (mk_report 2 [11;0;0;0;0;0]); GetChar] (key_queue no_keys, prev_keys no_keys) =
     (key_queue k', prev_keys k', outs)).
Proof.
  assert (H : key_inv no_keys) by (split; vm_compute; intuition congruence).
  split; [exact H|]. split; [vm_compute; reflexivity|].
  apply (keyboard_queue_refines [Report (mk_report 2 [11;0;0;0;0;0]); GetChar] no_keys). exact H.
Defined.

(** A descriptor of length 0 is looked at for ever. *)
Lemma find_interface_hangs fuel bytes protocol len i type :
  is_u16 i → i < len → member8 interface_descriptor_layout 0 bytes i = Some 0 → member8 interface_descriptor_layout 1 bytes i = Some type → type ≠ USB_DT_INTERFACE →
  find_interface fuel bytes protocol len i = None.
Proof.
  intros Hi Hl H0 H1 Ht. induction fuel as [|fuel IH]; [done|]. cbn [find_interface].
  destruct (i <? len) eqn:?; zbool; [|lia]. rewrite H1. simpl. destruct (type =? USB_DT_INTERFACE) eqn:?; zbool; [done|].
  simpl. rewrite H0. simpl. by rewrite Z.add_0_r, u16_small.
Qed.
