(* ===== verification/Wifi.v ===== *)
(** * The wireless adapter ([net/wifi.c])

    The structures of the devices are a store indexed by heap address; the
    registers, the rings of descriptors and the packet buffers are the memory of
    the device.  [netdev_receive] and [broadcast_addr] are declared by [wifi.h]
    and defined nowhere, so they are parameters.  The loops that poll have the
    bounds of the code; the loop over received packets, which runs as long as the
    device hands over descriptors, has fuel. *)
From S2P Require Import Prelude Interfaces Monad Mmio.
From S2P Require Pci Serial.

Definition WIFI_REG_CSR : Z := 0.
Definition WIFI_REG_INT_ENABLE : Z := 8.
Definition WIFI_REG_INT_STATUS : Z := 12.
Definition WIFI_REG_RESET : Z := 32.
Definition WIFI_REG_EEPROM_CTRL : Z := 36.
Definition WIFI_REG_EEPROM_DATA : Z := 40.
Definition WIFI_REG_POWER_CTRL : Z := 52.
Definition WIFI_REG_MAC_ADDR_0 : Z := 64.
Definition WIFI_REG_MAC_ADDR_1 : Z := 68.
Definition WIFI_REG_TX_BASE : Z := 256.
Definition WIFI_REG_TX_SIZE : Z := 260.
Definition WIFI_REG_RX_BASE : Z := 264.
Definition WIFI_REG_RX_SIZE : Z := 268.
Definition WIFI_REG_TX_TAIL : Z := 276.
Definition WIFI_REG_RX_HEAD : Z := 280.
Definition WIFI_REG_FW_BASE : Z := 4096.
Definition WIFI_REG_RF_FSK_CAL : Z := 512.
Definition WIFI_REG_RF_VCO : Z := 516.
Definition WIFI_REG_RF_FILTER : Z := 520.
Definition WIFI_REG_RF_GAIN_BASE : Z := 528.
Definition WIFI_REG_RF_PA_CTRL : Z := 544.
Definition WIFI_REG_BB_RESET : Z := 768.
Definition WIFI_REG_BB_ADC_CTRL : Z := 772.
Definition WIFI_REG_BB_DAC_CTRL : Z := 776.
Definition WIFI_REG_BB_AGC : Z := 780.
Definition WIFI_REG_BB_FILTER : Z := 784.
Definition WIFI_REG_MAC_CONFIG : Z := 1024.
Definition WIFI_REG_RATE_CTRL : Z := 1028.
Definition WIFI_REG_INT_COAL : Z := 1032.
Definition WIFI_REG_REGULATORY : Z := 1036.
Definition WIFI_REG_ANT_DIV : Z := 1280.
Definition WIFI_REG_ANT_GAIN : Z := 1284.
Definition WIFI_REG_MIMO_CTRL : Z := 1288.
Definition WIFI_INT_TX_DONE : Z := 1.
Definition WIFI_INT_RX_DONE : Z := 2.
Definition WIFI_INT_TX_ERR : Z := 4.
Definition WIFI_INT_RX_ERR : Z := 8.
Definition WIFI_INT_FW_READY : Z := 16.
Definition WIFI_INT_TEMP_WARNING : Z := 32.
Definition WIFI_INT_RF_KILL : Z := 64.
Definition WIFI_INT_BEACON : Z := 128.
Definition DESC_FLAG_OWN : Z := 2147483648.
Definition DESC_FLAG_INT : Z := 1073741824.
Definition DESC_FLAG_FIRST : Z := 536870912.
Definition DESC_FLAG_LAST : Z := 268435456.
Definition DESC_FLAG_EOP : Z := 134217728.
Definition TX_RING_SIZE : Z := 256.
Definition RX_RING_SIZE : Z := 256.
Definition TX_BUFFER_SIZE : Z := 2048.
Definition RX_BUFFER_SIZE : Z := 2048.
Definition FW_CHUNK_SIZE : Z := 4096.
Definition FW_MAX_UCODE_SIZE : Z := 131072.
Definition FW_READY_TIMEOUT : Z := 1000.
(** Offsets in [struct wifi_dma_desc] (address 0, length 8, flags 12, status 16,
    next 24) and sizes. *)
Definition SIZEOF_DESC : Z := 32.
Definition SIZEOF_80211_HEADER : Z := 24.
Definition SIZEOF_WIFI_DEVICE : Z := 4184.

(** [w_pci] is an index of the array of devices. *)
Record wifi_device := mk_wifi {
  w_pci : option nat; mmio_base : Z; tx_ring : Z; rx_ring : Z; tx_buffers : list Z; rx_buffers : list Z;
  tx_head : Z; tx_tail : Z; rx_head : Z; rx_tail : Z; mac_addr : list Z; hw_ready : bool; fw_loaded : bool; w_netdev : Z;
  tx_packets : Z; rx_packets : Z; tx_errors : Z; rx_errors : Z; rx_dropped : Z }.
Abbreviation wifis := (gmap Z wifi_device).

Definition zero_wifi : wifi_device :=
  mk_wifi None 0 0 0 (replicate (Z.to_nat TX_RING_SIZE) 0) (replicate (Z.to_nat RX_RING_SIZE) 0) 0 0 0 0 (replicate 6 0) false false 0 0 0 0 0 0.

(** ** The fields that the operations set *)
Definition set_pci (k : option nat) (base : Z) (d : wifi_device) : wifi_device :=
  mk_wifi k base (tx_ring d) (rx_ring d) (tx_buffers d) (rx_buffers d) (tx_head d) (tx_tail d) (rx_head d) (rx_tail d) (mac_addr d)
    (hw_ready d) (fw_loaded d) (w_netdev d) (tx_packets d) (rx_packets d) (tx_errors d) (rx_errors d) (rx_dropped d).
Definition set_rings (tx rx : Z) (d : wifi_device) : wifi_device :=
  mk_wifi (w_pci d) (mmio_base d) tx rx (tx_buffers d) (rx_buffers d) (tx_head d) (tx_tail d) (rx_head d) (rx_tail d) (mac_addr d)
    (hw_ready d) (fw_loaded d) (w_netdev d) (tx_packets d) (rx_packets d) (tx_errors d) (rx_errors d) (rx_dropped d).
Definition set_buffers (tx rx : list Z) (d : wifi_device) : wifi_device :=
  mk_wifi (w_pci d) (mmio_base d) (tx_ring d) (rx_ring d) tx rx (tx_head d) (tx_tail d) (rx_head d) (rx_tail d) (mac_addr d)
    (hw_ready d) (fw_loaded d) (w_netdev d) (tx_packets d) (rx_packets d) (tx_errors d) (rx_errors d) (rx_dropped d).
Definition set_tx (head tail : Z) (d : wifi_device) : wifi_device :=
  mk_wifi (w_pci d) (mmio_base d) (tx_ring d) (rx_ring d) (tx_buffers d) (rx_buffers d) head tail (rx_head d) (rx_tail d) (mac_addr d)
    (hw_ready d) (fw_loaded d) (w_netdev d) (tx_packets d) (rx_packets d) (tx_errors d) (rx_errors d) (rx_dropped d).
Definition set_rx (head tail : Z) (d : wifi_device) : wifi_device :=
  mk_wifi (w_pci d) (mmio_base d) (tx_ring d) (rx_ring d) (tx_buffers d) (rx_buffers d) (tx_head d) (tx_tail d) head tail (mac_addr d)
    (hw_ready d) (fw_loaded d) (w_netdev d) (tx_packets d) (rx_packets d) (tx_errors d) (rx_errors d) (rx_dropped d).
Definition set_mac (l : list Z) (d : wifi_device) : wifi_device :=
  mk_wifi (w_pci d) (mmio_base d) (tx_ring d) (rx_ring d) (tx_buffers d) (rx_buffers d) (tx_head d) (tx_tail d) (rx_head d) (rx_tail d) l
    (hw_ready d) (fw_loaded d) (w_netdev d) (tx_packets d) (rx_packets d) (tx_errors d) (rx_errors d) (rx_dropped d).
Definition set_ready (hw fw : bool) (d : wifi_device) : wifi_device :=
  mk_wifi (w_pci d) (mmio_base d) (tx_ring d) (rx_ring d) (tx_buffers d) (rx_buffers d) (tx_head d) (tx_tail d) (rx_head d) (rx_tail d) (mac_addr d)
    hw fw (w_netdev d) (tx_packets d) (rx_packets d) (tx_errors d) (rx_errors d) (rx_dropped d).
(** Counters go up by the numbers given. *)
Definition count_tx (ok err : Z) (d : wifi_device) : wifi_device :=
  mk_wifi (w_pci d) (mmio_base d) (tx_ring d) (rx_ring d) (tx_buffers d) (rx_buffers d) (tx_head d) (tx_tail d) (rx_head d) (rx_tail d) (mac_addr d)
    (hw_ready d) (fw_loaded d) (w_netdev d) (u32 (tx_packets d + ok)) (rx_packets d) (u32 (tx_errors d + err)) (rx_errors d) (rx_dropped d).
Definition count_rx (ok err dropped : Z) (d : wifi_device) : wifi_device :=
  mk_wifi (w_pci d) (mmio_base d) (tx_ring d) (rx_ring d) (tx_buffers d) (rx_buffers d) (tx_head d) (tx_tail d) (rx_head d) (rx_tail d) (mac_addr d)
    (hw_ready d) (fw_loaded d) (w_netdev d) (tx_packets d) (u32 (rx_packets d + ok)) (tx_errors d) (u32 (rx_errors d + err)) (u32 (rx_dropped d + dropped)).

Section wifi.
Context {A H W : Type} `{!PageAlloc A, !Malloc H, !Pci.PciBus W, !Bus W, !Ports W}.
Context (netdev_receive : Z → Z → list Z → Monad.M (plat A H W) bool) (broadcast_addr : list Z).
Abbreviation M := (Monad.M (wifis * plat A H W)).

Definition the_wifi (p : Z) : M wifi_device := o ← on_fst (gets (λ s, s !! p)); lift o.
Definition upd (p : Z) (f : wifi_device → wifi_device) : M () := d ← the_wifi p; on_fst (modify <[p := f d]>).
Definition dev {X} (m : Monad.M W X) : M X := on_snd (on_dev m).
Definition free_wifi (p : Z) : M () := on_fst (modify (delete p));; on_snd (kfree p).

Definition wifi_read32 (p reg : Z) : M Z := d ← the_wifi p; dev (rd32 (mmio_base d + reg)).
Definition wifi_write32 (p reg v : Z) : M () := d ← the_wifi p; dev (wr32 (mmio_base d + reg) v).
Definition io_wait : M () := dev (Serial.out 128 0).

(** *** The rings *)

Definition ring (rx : bool) (d : wifi_device) : Z := if rx then rx_ring d else tx_ring d.
Definition buffers (rx : bool) (d : wifi_device) : list Z := if rx then rx_buffers d else tx_buffers d.
Definition put_buffer (rx : bool) (i b : Z) (d : wifi_device) : wifi_device :=
  if rx then set_buffers (tx_buffers d) (<[Z.to_nat i := b]> (rx_buffers d)) d
  else set_buffers (<[Z.to_nat i := b]> (tx_buffers d)) (rx_buffers d) d.
Definition free_pages (l : list Z) : M () := for_list l (λ b, on_snd (page_free b)).

(** Descriptor [i] and those behind it; without a page all that was allocated is
    released. *)
Fixpoint fill_ring (n : nat) (rx : bool) (p i : Z) : M bool :=
  match n with
  | O => mret true
  | S n =>
      b ← on_snd page_alloc;
      upd p (put_buffer rx i b);;
      d ← the_wifi p;
      if b =? 0 then
        free_pages (take (Z.to_nat i) (buffers rx d));;
        (if rx then free_pages (tx_buffers d) else mret ());;
        free_pages [tx_ring d; rx_ring d];;
        mret false
      else
        let desc := ring rx d + SIZEOF_DESC * i in
        dev (wr64 desc b);;
        dev (wr32 (desc + 8) (if rx then RX_BUFFER_SIZE else TX_BUFFER_SIZE));;
        dev (wr32 (desc + 12) (if rx then Z.lor DESC_FLAG_OWN DESC_FLAG_INT else DESC_FLAG_INT));;
        dev (wr64 (desc + 24) (ring rx d + SIZEOF_DESC * ((i + 1) mod TX_RING_SIZE)));;
        fill_ring n rx p (i + 1)
  end.

Definition setup_dma_rings (p : Z) : M bool :=
  t ← on_snd page_alloc;
  upd p (λ d, set_rings t (rx_ring d) d);;
  if t =? 0 then mret false else
  on_snd (zero_bytes t (Z.to_nat 4096));;
  r ← on_snd page_alloc;
  upd p (set_rings t r);;
  if r =? 0 then on_snd (page_free t);; mret false else
  on_snd (zero_bytes r (Z.to_nat 4096));;
  ok ← fill_ring (Z.to_nat TX_RING_SIZE) false p 0;
  if negb ok then mret false else
  ok ← fill_ring (Z.to_nat RX_RING_SIZE) true p 0;
  if negb ok then mret false else
  wifi_write32 p WIFI_REG_TX_BASE (u32 t);;
  wifi_write32 p WIFI_REG_TX_SIZE TX_RING_SIZE;;
  wifi_write32 p WIFI_REG_RX_BASE (u32 r);;
  wifi_write32 p WIFI_REG_RX_SIZE RX_RING_SIZE;;
  upd p (set_tx 0 0);;
  upd p (set_rx 0 0);;
  mret true.

(** *** Reset and firmware *)

(** [while (timeout--) { if (ready) return true; io_wait(); } return false;] *)
Fixpoint wait_for (timeout : nat) (ready : M bool) : M bool :=
  match timeout with
  | O => mret false
  | S timeout => ok ← ready; if (ok : bool) then mret true else io_wait;; wait_for timeout ready
  end.

Definition reset_device (p : Z) : M bool :=
  wifi_write32 p WIFI_REG_RESET 1;;
  wait_for (Z.to_nat 1000) (v ← wifi_read32 p WIFI_REG_RESET; mret (Z.land v 1 =? 0)).

(** The offsets of a loop that counts up to a limit in steps. *)
Definition steps (limit step : Z) : list Z := (λ k, step * k) <$> seqZ 0 ((limit + step - 1) / step).

(** The last four bytes read may lie behind the firmware. *)
Definition load_chunks (p : Z) (fw_data : list Z) : M () :=
  let fw_size := Z.of_nat (length fw_data) in
  for_list (steps fw_size FW_CHUNK_SIZE) (λ offset,
    let chunk_size := if fw_size - offset <? FW_CHUNK_SIZE then fw_size - offset else FW_CHUNK_SIZE in
    for_list (steps chunk_size 4) (λ i,
      b0 ← lift (index fw_data (offset + i));
      b1 ← lift (index fw_data (offset + i + 1));
      b2 ← lift (index fw_data (offset + i + 2));
      b3 ← lift (index fw_data (offset + i + 3));
      wifi_write32 p (u32 (WIFI_REG_FW_BASE + offset + i)) (b0 + 256 * b1 + 65536 * b2 + 16777216 * b3))).

(** [fw_data] is [None] for NULL. *)
Definition wifi_load_firmware (p : Z) (fw_data : option (list Z)) : M bool :=
  match fw_data with
  | None => mret false
  | Some fw_data =>
      if (p =? 0) || (FW_MAX_UCODE_SIZE <? Z.of_nat (length fw_data)) then mret false else
      ok ← reset_device p;
      if negb ok then mret false else
      load_chunks p fw_data;;
      v ← wifi_read32 p WIFI_REG_CSR;
      wifi_write32 p WIFI_REG_CSR (Z.lor v (Z.shiftl 1 15));;
      ok ← wait_for (Z.to_nat FW_READY_TIMEOUT) (v ← wifi_read32 p WIFI_REG_INT_STATUS; mret (negb (Z.land v WIFI_INT_FW_READY =? 0)));
      if (ok : bool) then upd p (λ d, set_ready (hw_ready d) true d);; mret true else mret false
  end.

(** *** EEPROM *)

(** The value read, if any, and whether the read counts: one that is ready at the
    last look does not. *)
Fixpoint eeprom_wait (timeout : nat) (p : Z) : M (option Z * bool) :=
  match timeout with
  | O => mret (None, false)
  | S timeout =>
      v ← wifi_read32 p WIFI_REG_EEPROM_CTRL;
      if negb (Z.land v (Z.shiftl 1 9) =? 0) then
        x ← wifi_read32 p WIFI_REG_EEPROM_DATA;
        mret (Some (Z.land x 65535), negb (timeout =? 0)%nat)
      else io_wait;; eeprom_wait timeout p
  end.

Fixpoint read_words (l : list Z) (p : Z) : M (option (list Z)) :=
  match l with
  | [] => mret (Some [])
  | i :: l =>
      wifi_write32 p WIFI_REG_EEPROM_CTRL (Z.lor (256 + i) (Z.shiftl 1 8));;
      '(v, ok) ← eeprom_wait 100 p;
      match v, ok with
      | Some v, true => rest ← read_words l p; mret (cons v <$> rest)
      | _, _ => mret None
      end
  end.

Definition read_eeprom_calibration (p count : Z) : M (option (list Z)) :=
  wifi_write32 p WIFI_REG_EEPROM_CTRL 1;;
  read_words (seqZ 0 count) p.

Fixpoint read_mac_words (l : list Z) (p : Z) : M bool :=
  match l with
  | [] => mret true
  | i :: l =>
      wifi_write32 p WIFI_REG_EEPROM_CTRL (Z.lor (14 + i) (Z.shiftl 1 8));;
      '(v, ok) ← eeprom_wait 100 p;
      (match v with
       | Some v =>
           upd p (λ d, set_mac (<[Z.to_nat (i * 2 + 1) := Z.land (Z.shiftr v 8) 255]> (<[Z.to_nat (i * 2) := Z.land v 255]> (mac_addr d))) d)
       | None => mret ()
       end);;
      if (ok : bool) then read_mac_words l p else mret false
  end.

Definition read_mac_address (p : Z) : M bool :=
  wifi_write32 p WIFI_REG_EEPROM_CTRL 1;;
  ok ← read_mac_words (seqZ 0 3) p;
  if negb ok then mret false else
  d ← the_wifi p;
  let mac i := aget (mac_addr d) i in
  wifi_write32 p WIFI_REG_MAC_ADDR_0 (Z.lor (Z.lor (Z.lor (Z.shiftl (mac 3) 24) (Z.shiftl (mac 2) 16)) (Z.shiftl (mac 1) 8)) (mac 0));;
  wifi_write32 p WIFI_REG_MAC_ADDR_1 (Z.lor (Z.shiftl (mac 5) 8) (mac 4));;
  mret true.

(** *** Radio, baseband and antennas *)

Definition configure_rf (p : Z) (cal_data : list Z) : M bool :=
  let cal i := aget cal_data i in
  wifi_write32 p WIFI_REG_RF_FSK_CAL (cal 0);;
  wifi_write32 p WIFI_REG_RF_VCO (cal 1);;
  wifi_write32 p WIFI_REG_RF_FILTER (Z.lor (cal 2) (Z.shiftl (cal 3) 16));;
  for_list (seqZ 0 4) (λ i,
    wifi_write32 p (WIFI_REG_RF_GAIN_BASE + i * 4) (Z.lor (cal (4 + i * 2)) (Z.shiftl (cal (4 + i * 2 + 1)) 16)));;
  wifi_write32 p WIFI_REG_RF_PA_CTRL (Z.lor (Z.lor (cal 12) (Z.shiftl (cal 13) 8)) (Z.shiftl 1 16));;
  mret true.

Definition init_baseband (p : Z) : M bool :=
  wifi_write32 p WIFI_REG_BB_RESET 1;;
  io_wait;;
  wifi_write32 p WIFI_REG_BB_RESET 0;;
  wifi_write32 p WIFI_REG_BB_ADC_CTRL 13;;
  wifi_write32 p WIFI_REG_BB_DAC_CTRL 1;;
  wifi_write32 p WIFI_REG_BB_AGC (Z.lor (Z.lor (Z.lor 1 (Z.shiftl 2 1)) (Z.shiftl 4 4)) (Z.shiftl 70 8));;
  wifi_write32 p WIFI_REG_BB_FILTER 1;;
  mret true.

Definition configure_antenna (p : Z) (cal_data : list Z) : M bool :=
  wifi_write32 p WIFI_REG_ANT_DIV (Z.lor (Z.lor 1 (Z.shiftl 2 1)) (Z.shiftl 4 4));;
  wifi_write32 p WIFI_REG_ANT_GAIN (Z.lor (aget cal_data 14) (Z.shiftl (aget cal_data 15) 8));;
  wifi_write32 p WIFI_REG_MIMO_CTRL 7;;
  mret true.

(** *** Interrupts *)

(** Descriptors the device is done with; the ring size bounds the loop. *)
Fixpoint tx_done (fuel : nat) (p : Z) : M () :=
  match fuel with
  | O => fault
  | S fuel =>
      d ← the_wifi p;
      if tx_head d =? tx_tail d then mret () else
      let desc := tx_ring d + SIZEOF_DESC * tx_head d in
      flags ← dev (rd32 (desc + 12));
      if negb (Z.land flags DESC_FLAG_OWN =? 0) then mret () else
      status ← dev (rd32 (desc + 16));
      upd p (if Z.land status 1 =? 0 then count_tx 0 1 else count_tx 1 0);;
      dev (wr32 (desc + 16) 0);;
      dev (wr32 (desc + 12) DESC_FLAG_INT);;
      upd p (λ d, set_tx ((tx_head d + 1) mod TX_RING_SIZE) (tx_tail d) d);;
      tx_done fuel p
  end.

(** A packet in the buffer of a descriptor. *)
Definition rx_packet (p buf packet_len : Z) : M () :=
  d ← the_wifi p;
  addr1 ← dev (rd_bytes 6 (buf + 4));
  if negb (bool_decide (addr1 = mac_addr d) || bool_decide (addr1 = broadcast_addr)) then mret () else
  let payload_len := u16 (packet_len - SIZEOF_80211_HEADER) in
  if 0 <? payload_len then
    data ← on_snd (kmalloc payload_len);
    if data =? 0 then mret () else
    payload ← dev (rd_bytes (Z.to_nat payload_len) (buf + SIZEOF_80211_HEADER));
    ok ← on_snd (netdev_receive (w_netdev d) data payload);
    if (ok : bool) then upd p (count_rx 1 0 0)
    else on_snd (kfree data);; upd p (count_rx 0 0 1)
  else mret ().

(** The descriptor at the head goes back to the device. *)
Definition give_back (p : Z) : M () :=
  d ← the_wifi p;
  let desc := rx_ring d + SIZEOF_DESC * rx_head d in
  dev (wr32 (desc + 16) 0);;
  dev (wr32 (desc + 12) (Z.lor DESC_FLAG_OWN DESC_FLAG_INT));;
  upd p (λ d, set_rx ((rx_head d + 1) mod RX_RING_SIZE) (rx_tail d) d).

Fixpoint rx_done (fuel : nat) (p : Z) : M () :=
  match fuel with
  | O => fault
  | S fuel =>
      d ← the_wifi p;
      let desc := rx_ring d + SIZEOF_DESC * rx_head d in
      flags ← dev (rd32 (desc + 12));
      if negb (Z.land flags DESC_FLAG_OWN =? 0) then mret () else
      status ← dev (rd32 (desc + 16));
      (if Z.land status 1 =? 0 then upd p (count_rx 0 1 0) else
       buf ← lift (index (rx_buffers d) (rx_head d));
       len ← dev (rd32 (desc + 8));
       rx_packet p buf (u16 len));;
      give_back p;;
      rx_done fuel p
  end.

Definition wifi_handle_interrupt (fuel : nat) (p : Z) : M () :=
  status ← wifi_read32 p WIFI_REG_INT_STATUS;
  (if Z.land status WIFI_INT_TX_DONE =? 0 then mret () else tx_done (Z.to_nat TX_RING_SIZE) p);;
  (if Z.land status WIFI_INT_RX_DONE =? 0 then mret () else rx_done fuel p);;
  (if Z.land status WIFI_INT_FW_READY =? 0 then mret () else upd p (λ d, set_ready true (fw_loaded d) d));;
  (if Z.land status (Z.lor WIFI_INT_TX_ERR WIFI_INT_RX_ERR) =? 0 then mret () else
   reset_device p;; setup_dma_rings p;; mret ());;
  wifi_write32 p WIFI_REG_INT_STATUS status.

(** *** Starting *)

(** [if (page) pmm_free_page(page);] *)
Definition free_page_if (b : Z) : M () := if b =? 0 then mret () else on_snd (page_free b).

(** The registers that are set to constants between radio and antennas. *)
Definition configure_defaults (p : Z) : M () :=
  wifi_write32 p WIFI_REG_MAC_CONFIG 31;;
  wifi_write32 p WIFI_REG_RATE_CTRL (Z.lor (Z.lor 1 (Z.shiftl 4 1)) (Z.shiftl 255 8));;
  wifi_write32 p WIFI_REG_POWER_CTRL (Z.lor (Z.lor 1 2) (Z.shiftl 3 2));;
  wifi_write32 p WIFI_REG_INT_COAL (Z.lor (Z.lor 16 (Z.shiftl 16 8)) (Z.shiftl 50 16));;
  wifi_write32 p WIFI_REG_REGULATORY (Z.lor 106 (Z.shiftl 1 8)).

(** The PCI device is an index, the answer the address of the structure. *)
Definition wifi_probe (pci_dev : option nat) : M Z :=
  match pci_dev with
  | None => mret 0
  | Some k =>
      p ← on_snd (kmalloc SIZEOF_WIFI_DEVICE);
      if p =? 0 then mret 0 else
      c ← on_snd (the_device k);
      base ← lift (Pci.pci_get_bar (Some c) 0);
      on_fst (modify <[p := set_pci (Some k) base zero_wifi]>);;
      if base =? 0 then free_wifi p;; mret 0 else
      ok ← reset_device p;
      if negb ok then free_wifi p;; mret 0 else
      cal ← read_eeprom_calibration p 128;
      match cal with
      | None => free_wifi p;; mret 0
      | Some cal_data =>
          ok ← configure_rf p cal_data;
          if negb ok then free_wifi p;; mret 0 else
          ok ← init_baseband p;
          if negb ok then free_wifi p;; mret 0 else
          configure_defaults p;;
          ok ← configure_antenna p cal_data;
          if negb ok then free_wifi p;; mret 0 else
          ok ← setup_dma_rings p;
          if negb ok then free_wifi p;; mret 0 else
          ok ← read_mac_address p;
          if negb ok then
            d ← the_wifi p;
            for_list (tx_buffers d ++ rx_buffers d ++ [tx_ring d; rx_ring d]) free_page_if;;
            free_wifi p;; mret 0
          else
            on_snd (pci_command c (Z.shiftl 1 2));;
            mret p
      end
  end.

Definition supported (vendor device : Z) : bool :=
  if vendor =? 32902 then bool_decide (device ∈ [130; 10019; 133])
  else if vendor =? 5772 then bool_decide (device ∈ [62; 66; 70])
  else if vendor =? 5348 then bool_decide (device ∈ [17329; 17372; 17253])
  else false.

(** The search starts anew every time. *)
Fixpoint wifi_init (fuel : nat) : M bool :=
  match fuel with
  | O => fault
  | S fuel =>
      k ← on_snd (find_device Pci.PCI_CLASS_NETWORK 128);
      match k with
      | None => mret false
      | Some i =>
          c ← on_snd (the_device i);
          if supported (Pci.vendor_id c) (Pci.device_id c) then
            p ← wifi_probe k;
            if p =? 0 then wifi_init fuel else mret true
          else wifi_init fuel
      end
  end.

Definition wifi_start (p : Z) : M bool :=
  if p =? 0 then mret false else
  wifi_write32 p WIFI_REG_INT_ENABLE
    (fold_left Z.lor [WIFI_INT_RX_DONE; WIFI_INT_FW_READY; WIFI_INT_TX_ERR; WIFI_INT_RX_ERR; WIFI_INT_TEMP_WARNING; WIFI_INT_RF_KILL; WIFI_INT_BEACON]
       WIFI_INT_TX_DONE);;
  v ← wifi_read32 p WIFI_REG_CSR;
  wifi_write32 p WIFI_REG_CSR (Z.lor v 3);;
  wifi_write32 p WIFI_REG_POWER_CTRL 0;;
  mret true.

Definition wifi_stop (p : Z) : M () :=
  if p =? 0 then mret () else
  wifi_write32 p WIFI_REG_INT_ENABLE 0;;
  v ← wifi_read32 p WIFI_REG_CSR;
  wifi_write32 p WIFI_REG_CSR (Z.land v (Z.lnot 3));;
  wifi_write32 p WIFI_REG_POWER_CTRL 1.

(** *** Packets *)

(** The packet is the [length] bytes of [data], [None] for NULL. *)
Definition wifi_transmit_packet (p : Z) (data : option (list Z)) : M bool :=
  match data with
  | None => mret false
  | Some data =>
      if (p =? 0) || (TX_BUFFER_SIZE <? Z.of_nat (length data)) then mret false else
      d ← the_wifi p;
      let tail := (tx_tail d + 1) mod TX_RING_SIZE in
      if tail =? tx_head d then mret false else
      let desc := tx_ring d + SIZEOF_DESC * tx_tail d in
      buf ← lift (index (tx_buffers d) (tx_tail d));
      dev (wr_bytes buf data);;
      dev (wr32 (desc + 8) (Z.of_nat (length data)));;
      dev (wr32 (desc + 16) 0);;
      dev (wr32 (desc + 12) (fold_left Z.lor [DESC_FLAG_INT; DESC_FLAG_FIRST; DESC_FLAG_LAST; DESC_FLAG_EOP] DESC_FLAG_OWN));;
      upd p (set_tx (tx_head d) tail);;
      wifi_write32 p WIFI_REG_TX_TAIL tail;;
      mret true
  end.

(** The packet, [None] when there is none or it is longer than [length]. *)
Definition wifi_receive_packet (p : Z) (buffer : bool) (length : Z) : M (option (list Z)) :=
  if (p =? 0) || negb buffer then mret None else
  d ← the_wifi p;
  let desc := rx_ring d + SIZEOF_DESC * rx_head d in
  flags ← dev (rd32 (desc + 12));
  if negb (Z.land flags DESC_FLAG_OWN =? 0) then mret None else
  packet_len ← dev (rd32 (desc + 8));
  if length <? packet_len then mret None else
  buf ← lift (index (rx_buffers d) (rx_head d));
  data ← dev (rd_bytes (Z.to_nat packet_len) buf);
  give_back p;;
  d ← the_wifi p;
  wifi_write32 p WIFI_REG_RX_HEAD (rx_head d);;
  mret (Some data).
End wifi.

(** ** The ring of packets to send *)

Record tx_ok (d : wifi_device) : Prop := {
  to_head : 0 <= tx_head d < TX_RING_SIZE;
  to_tail : 0 <= tx_tail d < TX_RING_SIZE;
  to_buffers : Z.of_nat (length (tx_buffers d)) = TX_RING_SIZE }.

(** Packets handed to the device and not yet reported back. *)
Definition in_flight (d : wifi_device) : Z := (tx_tail d - tx_head d) mod TX_RING_SIZE.
(** Packets accepted so far, as the counters and the ring show it. *)
Definition accounted (d : wifi_device) : Z := u32 (tx_packets d + tx_errors d + in_flight d).

Lemma in_flight_range d : 0 <= in_flight d < TX_RING_SIZE.
Proof. by apply Z.mod_pos_bound. Qed.

Section sending.
Context {A H W : Type} `{!PageAlloc A, !Malloc H, !Pci.PciBus W, !Bus W, !Ports W}.
Abbreviation M := (Monad.M (wifis * plat A H W)).
Implicit Types (s : wifis * plat A H W) (d : wifi_device).

Lemma wp_the_wifi p d (Q : wifi_device → wifis * plat A H W → Prop) s : s.1 !! p = Some d → Q d s → wp (the_wifi p) Q s.
Proof. intros Hd HQ. destruct s. unfold wp, the_wifi, mbind, M_bind, on_fst, gets, lift. cbn in *. by rewrite Hd. Qed.

Lemma wp_upd_wifi p d f (Q : () → wifis * plat A H W → Prop) s :
  s.1 !! p = Some d → Q () (<[p := f d]> s.1, s.2) → wp (upd p f) Q s.
Proof. intros Hd HQ. unfold upd. apply wp_bind. by eapply wp_the_wifi. Qed.

(** The device may do anything to its memory, but the structure stays. *)
Lemma wp_dev {X} (m : Monad.M W X) (Q : X → wifis * plat A H W → Prop) s :
  (∀ w, is_Some (m w)) → (∀ x t, Q x (s.1, t)) → wp (dev m) Q s.
Proof.
  intros Hm HQ. unfold wp, dev, on_snd, on_dev, on_pci. destruct (Hm (Pci.p_world (pl_pci s.2))) as [[x w] ->]. apply HQ.
Qed.

Lemma wr_bytes_run l : ∀ a (w : W), is_Some (wr_bytes a l w).
Proof. induction l as [|b l IH]; intros a w; [by eexists|]. apply IH. Qed.

Lemma wp_write p reg v d (Q : () → wifis * plat A H W → Prop) s :
  s.1 !! p = Some d → (∀ t, Q () (s.1, t)) → wp (wifi_write32 p reg v) Q s.
Proof. intros Hd HQ. unfold wifi_write32. apply wp_bind. eapply wp_the_wifi; [done|]. apply wp_dev; [by eexists|]. by intros []. Qed.

Lemma wp_transmit p data d s :
  p ≠ 0 → s.1 !! p = Some d → tx_ok d →
  wp (wifi_transmit_packet p (Some data))
    (λ ok s', ok = (Z.of_nat (length data) <=? TX_BUFFER_SIZE) && (in_flight d <? 255) ∧
       ∃ d', s'.1 !! p = Some d' ∧ tx_ok d' ∧ accounted d' = u32 (accounted d + Z.b2z ok)) s.
Proof.
  intros Hp Hd [Hh Ht Hb]. unfold wifi_transmit_packet. rewrite (proj2 (Z.eqb_neq _ _) Hp). cbn [orb].
  assert (accounted d = u32 (accounted d + 0)) as Hsame by (unfold accounted; ulia).
  rewrite Z.ltb_antisym. destruct (_ <=? TX_BUFFER_SIZE) eqn:Hl; cbn [negb andb].
  2:{ apply wp_ret. split; [done|]. eauto 6 using Build_tx_ok. }
  apply wp_bind. eapply wp_the_wifi; [done|]. cbv zeta.
  assert (((tx_tail d + 1) mod TX_RING_SIZE =? tx_head d) = negb (in_flight d <? 255)) as ->.
  { unfold in_flight, TX_RING_SIZE in *. apply eq_true_iff_eq. rewrite negb_true_iff, Z.eqb_eq, Z.ltb_ge.
    Z.to_euclidean_division_equations; lia. }
  destruct (in_flight d <? 255) eqn:Hf; cbn [negb]; zbool.
  2:{ apply wp_ret. split; [done|]. eauto 6 using Build_tx_ok. }
  apply wp_bind. destruct (index_some (tx_buffers d) (tx_tail d)) as [buf Hbuf]; [lia|]. eapply wp_lift; [done|].
  apply wp_bind, wp_dev; [apply wr_bytes_run|]. intros [] t. do 3 (apply wp_bind, wp_dev; [by eexists|]; intros [] ?).
  apply wp_bind. eapply wp_upd_wifi; [done|]. apply wp_bind. eapply wp_write; [apply lookup_insert_eq|]. intros ?. apply wp_ret.
  split; [done|]. eexists. split; [apply lookup_insert_eq|]. split; [by constructor; cbn; [|apply Z.mod_pos_bound|]|].
  unfold accounted, in_flight, TX_RING_SIZE in *. cbn [set_tx tx_packets tx_errors tx_tail tx_head Z.b2z]. clear Hsame Hl. ulia.
Qed.

Lemma wp_tx_done fuel p d s :
  in_flight d < Z.of_nat fuel → s.1 !! p = Some d → tx_ok d →
  wp (tx_done fuel p) (λ _ s', ∃ d', s'.1 !! p = Some d' ∧ tx_ok d' ∧ accounted d' = accounted d) s.
Proof.
  revert d s. induction fuel as [|fuel IH]; intros d s Hf Hd [Hh Ht Hb]; [pose proof (in_flight_range d); lia|]. cbn [tx_done].
  apply wp_bind. eapply wp_the_wifi; [done|]. destruct (tx_head d =? tx_tail d) eqn:He; zbool.
  { apply wp_ret. eauto using Build_tx_ok. }
  apply wp_bind, wp_dev; [by eexists|]. intros flags t1. destruct (negb _); [apply wp_ret; eauto using Build_tx_ok|].
  apply wp_bind, wp_dev; [by eexists|]. intros status t2. apply wp_bind. eapply wp_upd_wifi; [done|].
  do 2 (apply wp_bind, wp_dev; [by eexists|]; intros [] ?).
  set (d1 := (if Z.land status 1 =? 0 then count_tx 0 1 else count_tx 1 0) d).
  apply wp_bind. eapply wp_upd_wifi; [apply lookup_insert_eq|].
  assert (tx_head d1 = tx_head d ∧ tx_tail d1 = tx_tail d ∧ tx_buffers d1 = tx_buffers d ∧
          u32 (tx_packets d1 + tx_errors d1) = u32 (tx_packets d + tx_errors d + 1)) as (E1 & E2 & E3 & E4).
  { unfold d1. destruct (_ =? 0); cbn; split_and!; try done; ulia. }
  set (d2 := set_tx _ _ d1). assert (in_flight d2 = in_flight d - 1) as Hd2.
  { unfold in_flight, d2, TX_RING_SIZE in *. cbn. rewrite E1, E2. Z.to_euclidean_division_equations; lia. }
  eapply wp_mono; [apply (IH d2)|].
  - lia.
  - apply lookup_insert_eq.
  - unfold d2. constructor; cbn; rewrite ?E1, ?E2, ?E3; [by apply Z.mod_pos_bound|done..].
  - cbn beta. intros _ s' (d' & ? & ? & Ha). exists d'. split_and!; [done|done|]. rewrite Ha. unfold accounted. rewrite Hd2.
    unfold d2. cbn [set_tx tx_packets tx_errors]. revert E4. generalize (in_flight d), (tx_packets d1 + tx_errors d1), (tx_packets d + tx_errors d).
    intros a b c. ulia.
Qed.
End sending.

(** Packets to send ([Some]) and interrupts that report packets sent ([None]);
    the answer is the number of packets accepted. *)
Fixpoint tx_session {A H W} `{!PageAlloc A, !Malloc H, !Pci.PciBus W, !Bus W, !Ports W} (p : Z) (l : list (option (list Z)))
  : Monad.M (wifis * plat A H W) Z :=
  match l with
  | [] => mret 0
  | Some data :: l => ok ← wifi_transmit_packet p (Some data); n ← tx_session p l; mret (Z.b2z ok + n)
  | None :: l => tx_done (Z.to_nat TX_RING_SIZE) p;; tx_session p l
  end.


(** ** Where the driver goes wrong *)

(** With an adapter that is not supported the search never ends. *)
Lemma wifi_init_never_ends {A H W} `{!PageAlloc A, !Malloc H, !Pci.PciBus W, !Bus W, !Ports W} fuel k c (s : wifis * plat A H W) :
  Pci.pci_scan_for_class Pci.PCI_CLASS_NETWORK 128 (pl_pci s.2) = Some (k, c) → Pci.pci_devices (pl_pci s.2) !! k = Some c →
  supported (Pci.vendor_id c) (Pci.device_id c) = false → wifi_init fuel s = None.
Proof.
  intros Hk Hc Hs. induction fuel as [|fuel IH]; [done|]. cbn [wifi_init]. destruct s as [s1 s2]. cbn [snd] in *.
  unfold mbind, M_bind, on_snd, find_device, the_device, gets, mbind, M_bind, lift. cbn [fst snd]. rewrite Hk. cbn. rewrite Hc. by rewrite Hs.
Qed.

(** The rings take twice the page that is allocated for them. *)
Lemma ring_exceeds_page : SIZEOF_DESC * TX_RING_SIZE = 2 * 4096.
Proof. done. Qed.

(** A frame shorter than its header counts as one of almost 64 KiB. *)
Lemma short_frame_wraps packet_len : 0 <= packet_len < SIZEOF_80211_HEADER → 65512 <= u16 (packet_len - SIZEOF_80211_HEADER) < 65536.
Proof. unfold SIZEOF_80211_HEADER. intros. ulia. Qed.

(** ** Witness *)

#[local] Instance still_bus : Bus () := { load n a w := (0, w); store n a v w := w }.
#[local] Instance still_ports : Ports () := { outb port v w := w; inb port w := (255, w) }.
#[local] Instance still_pci : Pci.PciBus () := {
  Pci.outl p v w := w; Pci.inl p w := (4294967295, w); Pci.read32 a w := (0, w); Pci.write32 a v w := w }.
#[local] Program Instance still_pages : PageAlloc () := {
  alloc_page a := (0, a); free_page p a := a; pa_ok a := True; pa_free a p := False }.
Next Obligation. intros. split; [done|by left]. Qed.
Next Obligation. done. Qed.

Definition demo_wifi : wifis * plat () nat () := (<[7 := zero_wifi]> ∅, mk_plat () 0%nat (Pci.mk_pci_state [] 0 ())).

