(* ===== verification/Syscalls.v ===== *)
(** * The system calls ([core/syscalls.c], [core/syscalls.h])

    The state joins the components the calls use.  There is one heap and one
    physical page allocator: they are handed to a component before it runs and
    taken back afterwards ([on_fs], [on_net], [on_kernel]).  The table of file
    descriptors holds pointers; the objects behind them (descriptors, pipes,
    sockets) are stores indexed by address, so that descriptors can share an
    object; an object that is freed is removed from its store, so that using it
    again faults.  User memory is
    the [machine] of Elf.v: page tables and physical memory.  A call that does
    not come back has the result [None] of [syscall_handler]. *)
From S2P Require Import Prelude Interfaces Monad Str Bytes Ext2Types Serial Display.
From S2P Require Pmm Vmm Elf Process Log Tty Ip Net Ext2.

#[local] Existing Instance Vmm.vmm_paging.
#[local] Existing Instance Elf.elf_error_eq_dec.

Definition MAX_FDS : Z := 256.
Definition FD_TYPE_FILE : Z := 0.
Definition FD_TYPE_SOCKET : Z := 1.
Definition FD_TYPE_PIPE : Z := 2.
Definition FD_TYPE_DIR : Z := 3.
(** The numbers of the calls. *)
Definition __NR_read : Z := 0.
Definition __NR_write : Z := 1.
Definition __NR_open : Z := 2.
Definition __NR_close : Z := 3.
Definition __NR_lseek : Z := 8.
Definition __NR_mmap : Z := 9.
Definition __NR_munmap : Z := 11.
Definition __NR_brk : Z := 12.
Definition __NR_pipe : Z := 22.
Definition __NR_dup : Z := 32.
Definition __NR_dup2 : Z := 33.
Definition __NR_getpid : Z := 39.
Definition __NR_socket : Z := 41.
Definition __NR_connect : Z := 42.
Definition __NR_send : Z := 46.
Definition __NR_recv : Z := 47.
Definition __NR_fork : Z := 57.
Definition __NR_execve : Z := 59.
Definition __NR_exit : Z := 60.
Definition __NR_getdents : Z := 78.
Definition __NR_getppid : Z := 110.
Definition __NR_pipe2 : Z := 293.

Definition STDIN_FILENO : Z := 0.
Definition STDOUT_FILENO : Z := 1.
Definition STDERR_FILENO : Z := 2.

Definition ENOENT : Z := 2.
Definition ESRCH : Z := 3.
Definition EIO : Z := 5.
Definition ENOEXEC : Z := 8.
Definition EBADF : Z := 9.
Definition EAGAIN : Z := 11.
Definition ENOMEM : Z := 12.
Definition EACCES : Z := 13.
Definition ENOTDIR : Z := 20.
Definition EINVAL : Z := 22.
Definition EMFILE : Z := 24.
Definition ESPIPE : Z := 29.
Definition ENOSYS : Z := 38.

Definition O_RDONLY : Z := 0.
Definition O_WRONLY : Z := 1.
Definition O_RDWR : Z := 2.
Definition O_CREAT : Z := 64.
Definition O_NONBLOCK : Z := 2048.
Definition O_CLOEXEC : Z := 524288.
Definition S_IFREG : Z := 32768.
Definition SEEK_SET : Z := 0.
Definition SEEK_CUR : Z := 1.
Definition SEEK_END : Z := 2.
Definition PROT_WRITE : Z := 2.
Definition PROT_EXEC : Z := 4.
Definition MAP_ANONYMOUS : Z := 32.

(** [long] and [off_t] values of a 64-bit pattern. *)
Definition s64 (x : Z) : Z := (x + 9223372036854775808) mod 18446744073709551616 - 9223372036854775808.

Record file_descriptor_t := mk_fd {
  fd_inode : Z; fd_offset : Z; fd_flags : Z; fd_refcount : Z; fd_private : Z; fd_type : Z }.
Definition SIZEOF_FD : Z := 32.

(** The bytes of a new buffer are unknown: [None]. *)
Record pipe_t := mk_pipe {
  p_buffer : Z; p_bytes : list (option Z); buffer_size : Z; read_pos : Z; write_pos : Z; data_size : Z }.
Definition SIZEOF_PIPE : Z := 40.
Definition SIZEOF_SOCKET : Z := 40.

Definition zero_fd : file_descriptor_t := mk_fd 0 0 0 0 0 0.
Definition set_refcount (n : Z) (d : file_descriptor_t) : file_descriptor_t :=
  mk_fd (fd_inode d) (fd_offset d) (fd_flags d) n (fd_private d) (fd_type d).
Definition set_offset (n : Z) (d : file_descriptor_t) : file_descriptor_t :=
  mk_fd (fd_inode d) n (fd_flags d) (fd_refcount d) (fd_private d) (fd_type d).
Definition or_flags (n : Z) (d : file_descriptor_t) : file_descriptor_t :=
  mk_fd (fd_inode d) (fd_offset d) (Z.lor (fd_flags d) n) (fd_refcount d) (fd_private d) (fd_type d).
Definition inc_refcount (d : file_descriptor_t) : file_descriptor_t := set_refcount (u16 (fd_refcount d + 1)) d.

(** The table and what its pointers lead to; a socket is its number in the
    socket pool. *)
Record files := mk_files {
  fd_table : list Z; fds : gmap Z file_descriptor_t; pipes : gmap Z pipe_t; socks : gmap Z Z }.

Record sys (A H D W : Type) := mk_sys {
  sy_files : files;
  program_break : Z;
  next_mmap_addr : Z;
  sy_cursor : Z * Z;                          (* x and y of sys_write *)
  sy_heap : H;
  sy_fs : Ext2.state D H;
  sy_net : Net.net H;
  sy_kernel : Process.kernel A H;
  sy_machine : Elf.machine (Vmm.vmm A);
  sy_video : gmap Z Z;                        (* the memory of the frame buffer *)
  sy_world : W;
}.
Arguments mk_sys {_ _ _ _}.
Arguments sy_files {_ _ _ _}.
Arguments program_break {_ _ _ _}.
Arguments next_mmap_addr {_ _ _ _}.
Arguments sy_cursor {_ _ _ _}.
Arguments sy_heap {_ _ _ _}.
Arguments sy_fs {_ _ _ _}.
Arguments sy_net {_ _ _ _}.
Arguments sy_kernel {_ _ _ _}.
Arguments sy_machine {_ _ _ _}.
Arguments sy_video {_ _ _ _}.
Arguments sy_world {_ _ _ _}.

(** The model-specific registers of the processor. *)
Class Msr (W : Type) := {
  rdmsr : Z → W → Z;
  wrmsr : Z → Z → W → W;
}.

Section state.
Context {A H D W : Type} `{!PageAlloc A, !Malloc H, !BlockDev D, !Ports W, !Msr W}.
Abbreviation sys := (sys A H D W).
Abbreviation M := (Monad.M sys).

Definition set_files (f : files) (s : sys) : sys :=
  mk_sys f (program_break s) (next_mmap_addr s) (sy_cursor s) (sy_heap s) (sy_fs s) (sy_net s) (sy_kernel s)
    (sy_machine s) (sy_video s) (sy_world s).
Definition set_break (b : Z) (s : sys) : sys :=
  mk_sys (sy_files s) b (next_mmap_addr s) (sy_cursor s) (sy_heap s) (sy_fs s) (sy_net s) (sy_kernel s)
    (sy_machine s) (sy_video s) (sy_world s).
Definition set_mmap (a : Z) (s : sys) : sys :=
  mk_sys (sy_files s) (program_break s) a (sy_cursor s) (sy_heap s) (sy_fs s) (sy_net s) (sy_kernel s)
    (sy_machine s) (sy_video s) (sy_world s).
Definition set_heap (h : H) (s : sys) : sys :=
  mk_sys (sy_files s) (program_break s) (next_mmap_addr s) (sy_cursor s) h (sy_fs s) (sy_net s) (sy_kernel s)
    (sy_machine s) (sy_video s) (sy_world s).
Definition set_machine (m : Elf.machine (Vmm.vmm A)) (s : sys) : sys :=
  mk_sys (sy_files s) (program_break s) (next_mmap_addr s) (sy_cursor s) (sy_heap s) (sy_fs s) (sy_net s) (sy_kernel s)
    m (sy_video s) (sy_world s).
Definition set_world (w : W) (s : sys) : sys :=
  mk_sys (sy_files s) (program_break s) (next_mmap_addr s) (sy_cursor s) (sy_heap s) (sy_fs s) (sy_net s) (sy_kernel s)
    (sy_machine s) (sy_video s) w.
Definition set_video (c : Z * Z) (m : gmap Z Z) (s : sys) : sys :=
  mk_sys (sy_files s) (program_break s) (next_mmap_addr s) c (sy_heap s) (sy_fs s) (sy_net s) (sy_kernel s)
    (sy_machine s) m (sy_world s).

(** ** The components, on the shared heap and page allocator *)

Definition fs_state (s : sys) : Ext2.state D H :=
  Ext2.mk_state (Ext2.ext2_instance (sy_fs s)) (Ext2.nvme_dev (sy_fs s)) (Ext2.device (sy_fs s)) (sy_heap s)
    (Ext2.clock (sy_fs s)).
Definition on_fs {X} (m : Monad.M (Ext2.state D H) X) : M X := λ s,
  match m (fs_state s) with
  | Some (x, f) =>
      Some (x, mk_sys (sy_files s) (program_break s) (next_mmap_addr s) (sy_cursor s) (Ext2.heap f) f (sy_net s)
                 (sy_kernel s) (sy_machine s) (sy_video s) (sy_world s))
  | None => None
  end.

Definition net_state (s : sys) : Net.net H :=
  let n := sy_net s in
  Net.mk_net (Net.socket_pool n) (Net.interfaces n) (Net.packet_queue n) (Ip.set_heap (sy_heap s) (Net.ip_layer n)).
Definition on_net {X} (m : Monad.M (Net.net H) X) : M X := λ s,
  match m (net_state s) with
  | Some (x, n) =>
      Some (x, mk_sys (sy_files s) (program_break s) (next_mmap_addr s) (sy_cursor s) (Ip.ip_heap (Net.ip_layer n))
                 (sy_fs s) n (sy_kernel s) (sy_machine s) (sy_video s) (sy_world s))
  | None => None
  end.

Definition kernel_state (s : sys) : Process.kernel A H :=
  Process.set_alloc (sy_kernel s) (Vmm.vm_pages (Elf.m_vm (sy_machine s))) (sy_heap s).
Definition on_kernel {X} (f : Process.kernel A H → option (X * Process.kernel A H)) : M X := λ s,
  match f (kernel_state s) with
  | Some (x, k) =>
      let m := sy_machine s in
      Some (x, mk_sys (sy_files s) (program_break s) (next_mmap_addr s) (sy_cursor s) (Process.k_heap k) (sy_fs s)
                 (sy_net s) k (Elf.mk_machine (Vmm.set_pages (Elf.m_vm m) (Process.k_pages k)) (Elf.m_mem m))
                 (sy_video s) (sy_world s))
  | None => None
  end.
Definition kernel_do (f : Process.kernel A H → option (Process.kernel A H)) : M () :=
  on_kernel (λ k, k ← f k; Some ((), k)).

Definition on_machine {X} (m : Monad.M (Elf.machine (Vmm.vmm A)) X) : M X := λ s,
  match m (sy_machine s) with Some (x, k) => Some (x, set_machine k s) | None => None end.
Definition on_world {X} (m : Monad.M W X) : M X := λ s,
  match m (sy_world s) with Some (x, w) => Some (x, set_world w s) | None => None end.

Definition hmalloc (n : Z) : M Z := λ s, let '(p, h) := malloc n (sy_heap s) in Some (p, set_heap h s).
Definition hfree (p : Z) : M () := modify (λ s, set_heap (mfree p (sy_heap s)) s).

Definition vmm_unmap_page (virt : Z) : M bool :=
  on_machine (λ k, let '(ok, v) := Vmm.vmm_unmap_page virt (Elf.m_vm k) in Some (ok, Elf.mk_machine v (Elf.m_mem k))).
Definition vmm_get_phys_addr (virt : Z) : M Z := gets (λ s, Vmm.vmm_get_phys_addr (Elf.m_vm (sy_machine s)) virt).
Definition pmm_free_page (p : Z) : M () :=
  on_machine (modify (λ k, Elf.mk_machine (pg_free p (Elf.m_vm k)) (Elf.m_mem k))).

(** ** User memory *)

(** The byte at a virtual address, [None] where nothing is mapped.  Memory that
    was never written reads 0. *)
Definition byte_at (va : Z) (s : sys) : option Z :=
  let pa := Vmm.vmm_get_phys_addr (Elf.m_vm (sy_machine s)) va in
  if pa =? 0 then None else Some (rd (Elf.m_mem (sy_machine s)) pa).
Fixpoint load_bytes (va : Z) (n : nat) : M (list Z) :=
  match n with
  | O => mret []
  | S n => o ← gets (byte_at va); b ← lift o; l ← load_bytes (u64 (va + 1)) n; mret (b :: l)
  end.
(** The C string at [va]: of at most [fuel] characters. *)
Fixpoint load_string (fuel : nat) (va : Z) : M (list Z) :=
  match fuel with
  | O => fault
  | S fuel => o ← gets (byte_at va); b ← lift o;
      if b =? 0 then mret [] else l ← load_string fuel (u64 (va + 1)); mret (b :: l)
  end.
(** The bytes of a buffer that is handed on unread: what is not mapped is 0. *)
Definition peek_bytes (va : Z) (n : Z) (s : sys) : list Z := (λ i, default 0 (byte_at (u64 (va + i)) s)) <$> seqZ 0 n.
Definition store_bytes (va : Z) (l : list Z) : M () := on_machine (Elf.store_bytes va l).

(** ** The descriptor table *)

Definition upd_files (f : files → files) : M () := modify (λ s, set_files (f (sy_files s)) s).
Definition set_table (fd p : Z) : M () :=
  upd_files (λ f, mk_files (aset (fd_table f) fd p) (fds f) (pipes f) (socks f)).
Definition put_fd (p : Z) (d : file_descriptor_t) : M () :=
  upd_files (λ f, mk_files (fd_table f) (<[p := d]> (fds f)) (pipes f) (socks f)).
Definition drop_fd (p : Z) : M () := upd_files (λ f, mk_files (fd_table f) (delete p (fds f)) (pipes f) (socks f)).
Definition put_pipe (p : Z) (x : pipe_t) : M () :=
  upd_files (λ f, mk_files (fd_table f) (fds f) (<[p := x]> (pipes f)) (socks f)).
Definition drop_pipe (p : Z) : M () := upd_files (λ f, mk_files (fd_table f) (fds f) (delete p (pipes f)) (socks f)).
Definition put_sock (p k : Z) : M () :=
  upd_files (λ f, mk_files (fd_table f) (fds f) (pipes f) (<[p := k]> (socks f))).
Definition drop_sock (p : Z) : M () := upd_files (λ f, mk_files (fd_table f) (fds f) (pipes f) (delete p (socks f))).

(** [fd_table[fd]] of a descriptor in range that is open. *)
Definition open_fd (fd : Z) (s : sys) : option Z :=
  if (fd <? 0) || (MAX_FDS <=? fd) then None else
  match fd_table (sy_files s) !! Z.to_nat fd with
  | Some p => if p =? 0 then None else Some p
  | None => None
  end.
Definition the_fd (p : Z) : M file_descriptor_t := o ← gets (λ s, fds (sy_files s) !! p); lift o.
Definition the_pipe (p : Z) : M pipe_t := o ← gets (λ s, pipes (sy_files s) !! p); lift o.
Definition the_sock (p : Z) : M Z := o ← gets (λ s, socks (sy_files s) !! p); lift o.
Definition upd_fd (p : Z) (f : file_descriptor_t → file_descriptor_t) : M () := d ← the_fd p; put_fd p (f d).

Definition alloc_fd : M Z :=
  found ← gets (λ s, list_find (λ p, p = 0) (fd_table (sy_files s)));
  match found with
  | Some (i, _) =>
      p ← hmalloc SIZEOF_FD;
      set_table (Z.of_nat i) p;;
      if p =? 0 then mret (- ENOMEM) else
      put_fd p (set_refcount 1 zero_fd);;
      mret (Z.of_nat i)
  | None => mret (- EMFILE)
  end.

(** The object behind a descriptor that nobody refers to any more. *)
Definition free_private (d : file_descriptor_t) : M () :=
  if fd_type d =? FD_TYPE_SOCKET then
    (if negb (fd_private d =? 0) then
       k ← the_sock (fd_private d);
       on_net (Net.net_socket_close k);;
       drop_sock (fd_private d);; hfree (fd_private d)
     else mret ())
  else if fd_type d =? FD_TYPE_PIPE then
    (if negb (fd_private d =? 0) then
       x ← the_pipe (fd_private d);
       drop_pipe (fd_private d);;
       hfree (p_buffer x);;
       hfree (fd_private d)
     else mret ())
  else mret ().

Definition free_fd (fd : Z) : M () :=
  o ← gets (open_fd fd);
  match o with
  | None => mret ()
  | Some p =>
      d ← the_fd p;
      let n := u16 (fd_refcount d - 1) in
      put_fd p (set_refcount n d);;
      if n =? 0 then
        free_private d;;
        drop_fd p;; hfree p;;
        set_table fd 0
      else mret ()
  end.
End state.

Section syscalls.
Context {A H D W : Type} `{!PageAlloc A, !Malloc H, !BlockDev D, !Ports W, !Msr W}.
Abbreviation M := (Monad.M (sys A H D W)).
(** Polls of the serial port, and the length of a path at most. *)
Context (fuel : nat).
(** [framebuffers[0]] of the boot loader, [None] for NULL. *)
Context (fb : option framebuffer).
(** What [malloc] leaves in the field [page_directory] of a process. *)
Context (page_directory : Z → Z).
(** The address of the entry point in assembly. *)
Context (syscall_entry : Z).

Definition MSR_EFER : Z := 3221225600.
Definition MSR_STAR : Z := 3221225601.
Definition MSR_LSTAR : Z := 3221225602.
Definition MSR_SYSCALL_MASK : Z := 3221225604.
Definition EFER_SCE : Z := 1.

Definition write_msr (r v : Z) : Monad.M W () := modify (wrmsr r v).

(** "Failed to enable system calls" *)
Definition sce_message : list Z :=
  [70; 97; 105; 108; 101; 100; 32; 116; 111; 32; 101; 110; 97; 98; 108; 101; 32; 115; 121; 115; 116; 101; 109; 32; 99; 97; 108; 108; 115].

Definition syscalls_init : M () :=
  efer ← on_world (gets (rdmsr MSR_EFER));
  on_world (write_msr MSR_EFER (Z.lor efer EFER_SCE));;
  on_world (write_msr MSR_STAR (Z.lor (Z.shiftl 8 32) (Z.shiftl 27 48)));;
  on_world (write_msr MSR_LSTAR syscall_entry);;
  on_world (write_msr MSR_SYSCALL_MASK (Z.lor (Z.lor (Z.shiftl 1 9) (Z.shiftl 1 8)) (Z.shiftl 1 10)));;
  verify_efer ← on_world (gets (rdmsr MSR_EFER));
  if Z.land verify_efer EFER_SCE =? 0
  then on_world (Log.log_printf fuel Log.LOG_LEVEL_ERROR sce_message [])
  else upd_files (λ f, mk_files (replicate (Z.to_nat MAX_FDS) 0) (fds f) (pipes f) (socks f)).

(** ** Files *)

Definition sys_open (pathname : list Z) (flags mode : Z) : M Z :=
  inode ← on_fs (Ext2.ext2_find_file EXT2_ROOT_INO pathname);
  let create := (inode =? 0) && negb (Z.land flags O_CREAT =? 0) in
  inode ← (if create then on_fs (Ext2.ext2_create_file EXT2_ROOT_INO pathname (Z.lor (Z.land mode 511) S_IFREG))
           else mret inode);
  if inode =? 0 then mret (if create then - EACCES else - ENOENT) else
  fd ← alloc_fd;
  if fd <? 0 then mret fd else
  p ← gets (λ s, aget (fd_table (sy_files s)) fd);
  upd_fd p (λ d, mk_fd inode 0 (u32 flags) (fd_refcount d) (fd_private d) FD_TYPE_FILE);;
  mret fd.

Definition sys_close (fd : Z) : M Z :=
  o ← gets (open_fd fd);
  match o with
  | None => mret (- EBADF)
  | Some _ => free_fd fd;; mret 0
  end.

(** [n] bytes from the read position on. *)
Fixpoint pipe_take (n : nat) (x : pipe_t) : option (list Z * pipe_t) :=
  match n with
  | O => Some ([], x)
  | S n =>
      o ← index (p_bytes x) (read_pos x);
      b ← o;
      '(l, y) ← pipe_take n (mk_pipe (p_buffer x) (p_bytes x) (buffer_size x) ((read_pos x + 1) mod buffer_size x) (write_pos x) (data_size x));
      Some (b :: l, y)
  end.

Fixpoint pipe_append (l : list Z) (x : pipe_t) : option pipe_t :=
  match l with
  | [] => Some x
  | b :: l =>
      _ ← index (p_bytes x) (write_pos x);
      pipe_append l (mk_pipe (p_buffer x) (aset (p_bytes x) (write_pos x) (Some b)) (buffer_size x) (read_pos x)
                       ((write_pos x + 1) mod buffer_size x) (data_size x))
  end.

Definition set_data_size (n : Z) (x : pipe_t) : pipe_t :=
  mk_pipe (p_buffer x) (p_bytes x) (buffer_size x) (read_pos x) (write_pos x) n.

Definition read_pipe (p buf count : Z) : M Z :=
  x ← the_pipe p;
  let to_read := if count <? data_size x then count else data_size x in
  '(l, y) ← lift (pipe_take (Z.to_nat to_read) x);
  store_bytes buf l;;
  put_pipe p (set_data_size (u64 (data_size y - to_read)) y);;
  mret to_read.

Definition write_pipe (p buf count : Z) : M Z :=
  x ← the_pipe p;
  let available := u64 (buffer_size x - data_size x) in
  let to_write := if count <? available then count else available in
  l ← load_bytes buf (Z.to_nat to_write);
  y ← lift (pipe_append l x);
  put_pipe p (set_data_size (u64 (data_size y + to_write)) y);;
  mret to_write.

Definition receive_from (k buf count : Z) : M Z :=
  '(result, data) ← on_net (Net.net_socket_receive k true (u16 count));
  store_bytes buf data;;
  mret (if result =? 0 then Z.of_nat (length data) else - EIO).

Definition send_to (k buf count : Z) : M Z :=
  data ← gets (peek_bytes buf (u16 count));
  on_net (Net.net_socket_send k data).

Definition sys_read (fd buf count : Z) : M Z :=
  if buf =? 0 then mret (- EINVAL) else
  o ← gets (open_fd fd);
  match o with
  | None => mret (- EBADF)
  | Some p =>
      if fd =? STDIN_FILENO then
        c ← on_world (serial_read_char fuel COM1);
        if 0 <? count then store_bytes buf [u8 c];; mret 1 else mret 0
      else
        d ← the_fd p;
        if fd_type d =? FD_TYPE_PIPE then read_pipe (fd_private d) buf count
        else if fd_type d =? FD_TYPE_SOCKET then
          k ← the_sock (fd_private d);
          receive_from k buf count
        else
          '(ok, data) ← on_fs (Ext2.ext2_read_file (fd_inode d) (fd_offset d) (u32 count));
          store_bytes buf data;;
          if (ok : bool) then
            upd_fd p (λ d, set_offset (u32 (fd_offset d + count)) d);;
            mret (s64 count)
          else mret (- EIO)
  end.

(** The next line, the text moved up at the end of the screen. *)
Definition next_line (f : framebuffer) (y : Z) : Monad.M (gmap Z Z) Z :=
  let y := u32 (y + 16) in
  if u64 (fb_height f - 16) <=? y then
    modify (memmove (fb_address f) (fb_address f + fb_pitch f * 16) (u64 (fb_pitch f * (fb_height f - 16))));;
    mret (u32 (fb_height f - 16))
  else mret y.

Fixpoint write_screen (f : framebuffer) (text : list Z) (x y : Z) : Monad.M (gmap Z Z) (Z * Z) :=
  match text with
  | [] => mret (x, y)
  | c :: text =>
      let newline := c =? 10 in
      '(x, y) ← (if newline || (u64 (fb_width f - 8) <=? x) then y ← next_line f y; mret (0, y) else mret (x, y));
      if newline then write_screen f text x y else
      draw_char f (s8 c) x y WHITE;;
      write_screen f text (u32 (x + 8)) y
  end.

Definition write_console (buf count : Z) : M Z :=
  match fb with
  | None => mret (- EIO)
  | Some f =>
      text ← load_bytes buf (Z.to_nat count);
      '(x, y) ← gets sy_cursor;
      r ← gets (λ s, write_screen f text x y (sy_video s));
      '(c, m) ← lift r;
      modify (set_video c m);;
      mret (s64 count)
  end.

Definition sys_write (fd buf count : Z) : M Z :=
  if buf =? 0 then mret (- EINVAL) else
  o ← gets (open_fd fd);
  match o with
  | None => mret (- EBADF)
  | Some p =>
      if (fd =? STDOUT_FILENO) || (fd =? STDERR_FILENO) then write_console buf count else
      d ← the_fd p;
      if fd_type d =? FD_TYPE_PIPE then write_pipe (fd_private d) buf count
      else if fd_type d =? FD_TYPE_SOCKET then
        k ← the_sock (fd_private d);
        send_to k buf count
      else
        data ← gets (peek_bytes buf (u32 count));
        ok ← on_fs (Ext2.ext2_write_file (fd_inode d) data (fd_offset d) (u32 count));
        if (ok : bool) then
          upd_fd p (λ d, set_offset (u32 (fd_offset d + count)) d);;
          mret (s64 count)
        else mret (- EIO)
  end.

Definition sys_lseek (fd offset whence : Z) : M Z :=
  o ← gets (open_fd fd);
  match o with
  | None => mret (- EBADF)
  | Some p =>
      d ← the_fd p;
      if negb (fd_type d =? FD_TYPE_FILE) then mret (- ESPIPE) else
      r ← on_fs (Ext2.ext2_get_inode (fd_inode d));
      match r with
      | None => mret (- EBADF)
      | Some (ptr, inode) =>
          let new_offset :=
            if whence =? SEEK_SET then Some offset
            else if whence =? SEEK_CUR then Some (s64 (fd_offset d + offset))
            else if whence =? SEEK_END then Some (s64 (i_size inode + offset))
            else None in
          match new_offset with
          | None => hfree ptr;; mret (- EINVAL)
          | Some n =>
              if (n <? 0) || (i_size inode <? n) then hfree ptr;; mret (- EINVAL) else
              put_fd p (set_offset (u32 n) d);;
              hfree ptr;;
              mret n
          end
      end
  end.

(** The two descriptors on success. *)
Definition sys_pipe : M (Z * option (Z * Z)) :=
  p ← hmalloc SIZEOF_PIPE;
  if p =? 0 then mret (- ENOMEM, None) else
  b ← hmalloc 4096;
  if b =? 0 then hfree p;; mret (- ENOMEM, None) else
  put_pipe p (mk_pipe b (replicate (Z.to_nat 4096) None) 4096 0 0 0);;
  read_fd ← alloc_fd;
  if read_fd <? 0 then drop_pipe p;; hfree b;; hfree p;; mret (read_fd, None) else
  write_fd ← alloc_fd;
  if write_fd <? 0 then free_fd read_fd;; drop_pipe p;; hfree b;; hfree p;; mret (write_fd, None) else
  r ← gets (λ s, aget (fd_table (sy_files s)) read_fd);
  upd_fd r (λ d, mk_fd (fd_inode d) (fd_offset d) O_RDONLY (fd_refcount d) p FD_TYPE_PIPE);;
  w ← gets (λ s, aget (fd_table (sy_files s)) write_fd);
  upd_fd w (λ d, mk_fd (fd_inode d) (fd_offset d) O_WRONLY (fd_refcount d) p FD_TYPE_PIPE);;
  mret (0, Some (read_fd, write_fd)).

Definition or_fd_flags (fd n : Z) : M () :=
  p ← gets (λ s, aget (fd_table (sy_files s)) fd);
  upd_fd p (or_flags n).

Definition sys_pipe2 (flags : Z) : M (Z * option (Z * Z)) :=
  '(ret, ends) ← sys_pipe;
  match ends with
  | None => mret (ret, None)
  | Some (r, w) =>
      (if negb (Z.land flags O_NONBLOCK =? 0) then or_fd_flags r O_NONBLOCK;; or_fd_flags w O_NONBLOCK else mret ());;
      (if negb (Z.land flags O_CLOEXEC =? 0) then or_fd_flags r O_CLOEXEC;; or_fd_flags w O_CLOEXEC else mret ());;
      mret (0, Some (r, w))
  end.

Definition sys_dup (oldfd : Z) : M Z :=
  o ← gets (open_fd oldfd);
  match o with
  | None => mret (- EBADF)
  | Some p =>
      newfd ← alloc_fd;
      if newfd <? 0 then mret newfd else
      q ← gets (λ s, aget (fd_table (sy_files s)) newfd);
      d ← the_fd p;
      put_fd q d;;
      upd_fd p inc_refcount;;
      mret newfd
  end.

Definition sys_dup2 (oldfd newfd : Z) : M Z :=
  n ← gets (open_fd newfd);
  (match n with Some _ => sys_close newfd;; mret () | None => mret () end);;
  o ← gets (open_fd oldfd);
  match o with
  | None => mret (- EBADF)
  | Some p =>
      if (newfd <? 0) || (MAX_FDS <=? newfd) then mret (- EBADF) else
      q ← hmalloc SIZEOF_FD;
      set_table newfd q;;
      if q =? 0 then mret (- ENOMEM) else
      p ← gets (λ s, aget (fd_table (sy_files s)) oldfd);
      d ← the_fd p;
      put_fd q d;;
      upd_fd p inc_refcount;;
      mret newfd
  end.

Definition sys_getdents (fd : Z) : M Z :=
  o ← gets (open_fd fd);
  match o with
  | None => mret (- EBADF)
  | Some p => d ← the_fd p; mret (if negb (fd_type d =? FD_TYPE_DIR) then - ENOTDIR else - ENOSYS)
  end.

(** ** Memory *)

Definition unmap_pages (addr : Z) (pages : list Z) : M () :=
  for_list pages (λ i, vmm_unmap_page (u64 (addr + i * Pmm.PAGE_SIZE));; mret ()).

(** A new page at [addr + i * PAGE_SIZE]; the page allocated for a mapping that
    fails is not released. *)
Definition map_new_page (addr flags i : Z) : M bool :=
  phys ← on_machine Elf.pmm_alloc_page;
  if phys =? 0 then mret false else
  on_machine (Elf.vmm_map_page (u64 (addr + i * Pmm.PAGE_SIZE)) phys flags).

Fixpoint map_new_pages (addr flags : Z) (pages : list Z) : M bool :=
  match pages with
  | [] => mret true
  | i :: pages =>
      ok ← map_new_page addr flags i;
      if (ok : bool) then map_new_pages addr flags pages
      else unmap_pages addr (seqZ 0 i);; mret false
  end.

(** A page that is unmapped goes back to the page allocator. *)
Definition release_page (addr : Z) : M () :=
  phys_addr ← vmm_get_phys_addr addr;
  if negb (phys_addr =? 0) then vmm_unmap_page addr;; pmm_free_page phys_addr else mret ().

Definition sys_brk (addr : Z) : M Z :=
  b ← gets program_break;
  (if b =? 0 then modify (set_break (Elf.PAGE_ALIGN_UP addr)) else mret ());;
  b ← gets program_break;
  if addr =? 0 then mret b else
  let new_break := Elf.PAGE_ALIGN_UP addr in
  if b <? new_break then
    ok ← map_new_pages b (Z.lor (Z.lor Vmm.PTE_PRESENT Vmm.PTE_WRITABLE) Vmm.PTE_USER) (seqZ 0 ((new_break - b) / Pmm.PAGE_SIZE));
    if (ok : bool) then modify (set_break new_break);; mret new_break else mret (u64 (-1))
  else if new_break <? b then
    for_list (seqZ 0 ((b - new_break) / Pmm.PAGE_SIZE)) (λ i, release_page (u64 (b - (i + 1) * Pmm.PAGE_SIZE)));;
    modify (set_break new_break);;
    mret new_break
  else mret b.

Definition mmap_flags (prot : Z) : Z :=
  let f := Z.lor Vmm.PTE_PRESENT Vmm.PTE_USER in
  let f := if Z.land prot PROT_WRITE =? 0 then f else Z.lor f Vmm.PTE_WRITABLE in
  if Z.land prot PROT_EXEC =? 0 then Z.lor f Vmm.PTE_NX else f.

Fixpoint mmap_anonymous (addr flags : Z) (pages : list Z) : M Z :=
  match pages with
  | [] => mret addr
  | i :: pages =>
      ok ← map_new_page addr flags i;
      if negb ok then unmap_pages addr (seqZ 0 i);; mret (u64 (- ENOMEM)) else
      store_bytes (u64 (addr + i * Pmm.PAGE_SIZE)) (replicate (Z.to_nat Pmm.PAGE_SIZE) 0);;
      mmap_anonymous addr flags pages
  end.

(** [inode] is the heap copy of the inode, which every path frees. *)
Fixpoint mmap_file (addr flags fd offset inode : Z) (pages : list Z) : M Z :=
  match pages with
  | [] => hfree inode;; mret addr
  | i :: pages =>
      ok ← map_new_page addr flags i;
      if negb ok then unmap_pages addr (seqZ 0 i);; hfree inode;; mret (u64 (- ENOMEM)) else
      p ← gets (λ s, aget (fd_table (sy_files s)) fd);
      d ← the_fd p;
      '(ok, data) ← on_fs (Ext2.ext2_read_file (fd_inode d) (u32 (offset + i * Pmm.PAGE_SIZE)) Pmm.PAGE_SIZE);
      store_bytes (u64 (addr + i * Pmm.PAGE_SIZE)) data;;
      if negb ok then unmap_pages addr (seqZ 0 i);; hfree inode;; mret (u64 (- EIO)) else
      mmap_file addr flags fd offset inode pages
  end.

Definition sys_mmap (addr length prot flags fd offset : Z) : M Z :=
  if length =? 0 then mret (u64 (- EINVAL)) else
  let length := Elf.PAGE_ALIGN_UP length in
  addr ← (if addr =? 0 then
            a ← gets next_mmap_addr;
            modify (set_mmap (u64 (a + length)));;
            mret a
          else mret addr);
  let addr := Elf.PAGE_ALIGN_UP addr in
  let page_flags := mmap_flags prot in
  let pages := seqZ 0 (length / Pmm.PAGE_SIZE) in
  if negb (Z.land flags MAP_ANONYMOUS =? 0) then mmap_anonymous addr page_flags pages else
  o ← gets (open_fd fd);
  match o with
  | Some p =>
      d ← the_fd p;
      inode ← on_fs (Ext2.ext2_get_inode (fd_inode d));
      match inode with
      | None => mret (u64 (- EBADF))
      | Some (ptr, _) => mmap_file addr page_flags fd offset ptr pages
      end
  | None => mret addr
  end.

Definition sys_munmap (addr length : Z) : M Z :=
  if (addr =? 0) || (length =? 0) then mret (- EINVAL) else
  let length := Elf.PAGE_ALIGN_UP length in
  for_list (seqZ 0 (length / Pmm.PAGE_SIZE)) (λ i, release_page (u64 (addr + i * Pmm.PAGE_SIZE)));;
  mret 0.

(** ** Sockets *)

Definition SOCK_STREAM : Z := 1.
Definition SOCK_DGRAM : Z := 2.
Definition SOCK_RAW : Z := 3.

Definition socket_type (type : Z) : option Net.net_socket_type :=
  if type =? SOCK_STREAM then Some Net.SOCKET_TCP
  else if type =? SOCK_DGRAM then Some Net.SOCKET_UDP
  else if type =? SOCK_RAW then Some Net.SOCKET_RAW
  else None.

Definition sys_socket (domain type protocol : Z) : M Z :=
  fd ← alloc_fd;
  if fd <? 0 then mret fd else
  match socket_type type with
  | None => free_fd fd;; mret (- EINVAL)
  | Some ty =>
      sock_fd ← on_net (Net.net_socket_create ty);
      if sock_fd <? 0 then free_fd fd;; mret sock_fd else
      sock ← hmalloc SIZEOF_SOCKET;
      if sock =? 0 then on_net (Net.net_socket_close sock_fd);; free_fd fd;; mret (- ENOMEM) else
      put_sock sock sock_fd;;
      p ← gets (λ s, aget (fd_table (sy_files s)) fd);
      upd_fd p (λ d, mk_fd (fd_inode d) (fd_offset d) O_RDWR (fd_refcount d) sock FD_TYPE_SOCKET);;
      mret fd
  end.

(** The socket behind a descriptor: its pointer is tested before its type. *)
Definition socket_of (fd : Z) : M (option Z) :=
  o ← gets (open_fd fd);
  match o with
  | None => mret None
  | Some p =>
      d ← the_fd p;
      if (fd_private d =? 0) || negb (fd_type d =? FD_TYPE_SOCKET) then mret None
      else k ← the_sock (fd_private d); mret (Some k)
  end.

Definition SIZEOF_SOCKADDR_IN : Z := 16.

Definition sys_connect (junk sockfd addr addrlen : Z) : M Z :=
  if (addr =? 0) || (addrlen <? SIZEOF_SOCKADDR_IN) then mret (- EINVAL) else
  k ← socket_of sockfd;
  match k with
  | None => mret (- EBADF)
  | Some k =>
      ip ← load_bytes (u64 (addr + 4)) 4;
      port ← load_bytes (u64 (addr + 2)) 2;
      on_net (Net.net_socket_connect junk k (le_dec ip) (le_dec port))
  end.

Definition sys_send (sockfd buf len flags : Z) : M Z :=
  if buf =? 0 then mret (- EINVAL) else
  k ← socket_of sockfd;
  match k with None => mret (- EBADF) | Some k => send_to k buf len end.

Definition sys_recv (sockfd buf len flags : Z) : M Z :=
  if buf =? 0 then mret (- EINVAL) else
  k ← socket_of sockfd;
  match k with None => mret (- EBADF) | Some k => receive_from k buf len end.

(** ** Processes *)

Definition get_current_process : M Z := gets (λ s, Process.get_current_process (sy_kernel s)).
Definition the_process (p : Z) : M Process.process_t := o ← gets (λ s, Process.procs (sy_kernel s) !! p); lift o.
Definition the_cpu (p : Z) : M Process.cpu_state_t := o ← gets (λ s, Process.cpus (sy_kernel s) !! p); lift o.
Definition put_cpu (p : Z) (c : Process.cpu_state_t) : M () :=
  kernel_do (λ k, Some (Process.set_cpus k (<[p := c]> (Process.cpus k)))).
(** [rax] is the first general register, [rdi] the fifth and [rsi] the sixth. *)
Definition set_gpr (i : nat) (v : Z) (c : Process.cpu_state_t) : Process.cpu_state_t :=
  Process.mk_cpu (<[i := v]> (Process.gprs c)) (Process.rip c) (Process.cs c) (Process.rflags c) (Process.rsp c) (Process.ss c).
Definition set_rip (v : Z) (c : Process.cpu_state_t) : Process.cpu_state_t :=
  Process.mk_cpu (Process.gprs c) v (Process.cs c) (Process.rflags c) (Process.rsp c) (Process.ss c).

Definition sys_fork : M Z :=
  current ← get_current_process;
  if current =? 0 then mret (- EAGAIN) else
  cur ← the_process current;
  cpu ← the_cpu (Process.cpu_state cur);
  child ← on_kernel (λ k, Some (Process.process_create (Process.rip cpu) (Process.priority cur) (Tty.c_string (Process.p_name cur)) k));
  if child =? 0 then mret (- EAGAIN) else
  directory ← load_bytes (page_directory current) (Z.to_nat Pmm.PAGE_SIZE);
  store_bytes (page_directory child) directory;;
  ch ← the_process child;
  cpu ← the_cpu (Process.cpu_state cur);
  put_cpu (Process.cpu_state ch) cpu;;
  for_list (seqZ 0 MAX_FDS) (λ fd,
    o ← gets (open_fd fd);
    match o with Some p => upd_fd p inc_refcount | None => mret () end);;
  cpu ← the_cpu (Process.cpu_state ch);
  put_cpu (Process.cpu_state ch) (set_gpr 0 0 cpu);;
  kernel_do (Process.scheduler_add child);;
  mret (s32 (Process.pid ch)).

Definition sys_execve (pathname : option (list Z)) (argv envp : Z) : M Z :=
  match pathname with
  | None => mret (- EINVAL)
  | Some pathname =>
      inode ← on_fs (Ext2.ext2_find_file EXT2_ROOT_INO pathname);
      if inode =? 0 then mret (- ENOENT) else
      file ← on_fs (Ext2.ext2_get_inode inode);
      match file with
      | None => mret (- EIO)
      | Some (file_inode, f) =>
          program_data ← hmalloc (i_size f);
          if program_data =? 0 then hfree file_inode;; mret (- ENOMEM) else
          '(ok, data) ← on_fs (Ext2.ext2_read_file inode 0 (i_size f));
          if negb ok then hfree program_data;; hfree file_inode;; mret (- EIO) else
          '(result, entry_point) ← on_machine (Elf.elf_load_executable data (i_size f));
          hfree program_data;;
          hfree file_inode;;
          if negb (bool_decide (result = Elf.ELF_LOAD_SUCCESS)) then mret (- ENOEXEC) else
          current ← get_current_process;
          if current =? 0 then mret (- ESRCH) else
          cur ← the_process current;
          cpu ← the_cpu (Process.cpu_state cur);
          put_cpu (Process.cpu_state cur) (set_gpr 5 envp (set_gpr 4 argv (set_rip entry_point cpu)));;
          mret 0
      end
  end.

(** [true] when the call comes back: there is no current process. *)
Definition sys_exit (status : Z) : M bool :=
  current ← get_current_process;
  if current =? 0 then mret true else
  for_list (seqZ 0 MAX_FDS) free_fd;;
  kernel_do (Process.modify current (λ x, Process.set_state x Process.PROCESS_STATE_TERMINATED));;
  kernel_do (Process.scheduler_remove current);;
  next ← on_kernel Process.scheduler_next;
  (if negb (next =? 0) then kernel_do (Process.process_switch next) else mret ());;
  mret false.

Definition sys_getpid : M Z :=
  current ← get_current_process;
  if current =? 0 then mret (- ESRCH) else
  cur ← the_process current; mret (s32 (Process.pid cur)).

Definition sys_getppid : M Z :=
  current ← get_current_process;
  mret (if current =? 0 then - ESRCH else 0).

(** ** The handler *)

Definition store_ends (r : Z * option (Z * Z)) (pipefd : Z) : M Z :=
  match r.2 with
  | Some (a, b) => store_bytes pipefd (le_enc 4 a);; store_bytes (u64 (pipefd + 4)) (le_enc 4 b);; mret r.1
  | None => mret r.1
  end.

(** [None] for a call that does not come back; [junk] as in Net.v. *)
Definition syscall_handler (junk num arg1 arg2 arg3 arg4 arg5 arg6 : Z) : M (option Z) :=
  let returns (m : M Z) : M (option Z) := r ← m; mret (Some r) in
  if num =? __NR_read then returns (sys_read (s32 arg1) arg2 arg3)
  else if num =? __NR_write then returns (sys_write (s32 arg1) arg2 arg3)
  else if num =? __NR_open then returns (path ← load_string fuel arg1; sys_open path (s32 arg2) (u32 arg3))
  else if num =? __NR_close then returns (sys_close (s32 arg1))
  else if num =? __NR_lseek then returns (sys_lseek (s32 arg1) (s64 arg2) (s32 arg3))
  else if num =? __NR_pipe then returns (r ← sys_pipe; store_ends r arg1)
  else if num =? __NR_dup then returns (sys_dup (s32 arg1))
  else if num =? __NR_dup2 then returns (sys_dup2 (s32 arg1) (s32 arg2))
  else if num =? __NR_getdents then returns (sys_getdents (u32 arg1))
  else if num =? __NR_brk then returns (r ← sys_brk arg1; mret (s64 r))
  else if num =? __NR_mmap then returns (r ← sys_mmap arg1 arg2 (s32 arg3) (s32 arg4) (s32 arg5) (s64 arg6); mret (s64 r))
  else if num =? __NR_munmap then returns (sys_munmap arg1 arg2)
  else if num =? __NR_socket then returns (sys_socket (s32 arg1) (s32 arg2) (s32 arg3))
  else if num =? __NR_connect then returns (sys_connect junk (s32 arg1) arg2 (u32 arg3))
  else if num =? __NR_send then returns (sys_send (s32 arg1) arg2 arg3 (s32 arg4))
  else if num =? __NR_recv then returns (sys_recv (s32 arg1) arg2 arg3 (s32 arg4))
  else if num =? __NR_fork then returns sys_fork
  else if num =? __NR_execve then
    returns (path ← ((if arg1 =? 0 then mret None else p ← load_string fuel arg1; mret (Some p)) : M (option (list Z))); sys_execve path arg2 arg3)
  else if num =? __NR_exit then back ← sys_exit (s32 arg1); mret (if (back : bool) then Some 0 else None)
  else if num =? __NR_getpid then returns sys_getpid
  else if num =? __NR_getppid then returns sys_getppid
  else if num =? __NR_pipe2 then returns (r ← sys_pipe2 (s32 arg2); store_ends r arg1)
  else mret (Some (- ENOSYS)).
End syscalls.
