(* ===== verification/SyscallSpec.v ===== *)
(** * The descriptors, pipes and memory of the system calls

    What the calls of Syscalls.v keep and compute. *)
From S2P Require Import Prelude Interfaces Monad Ring Str Bytes Syscalls.
From S2P Require Vmm Elf Pmm Process Net Ext2Clock Ext2 Ext2Demo Serial.

#[local] Existing Instance Vmm.vmm_paging.

(** ** The heap blocks behind the table *)

(** Who holds a block: a descriptor, a pipe, the buffer of a pipe, or a call
    that has not stored it yet. *)
Inductive owner := OFd (p : Z) | OPipe (p : Z) | OBuf (p : Z) | ONew (i : nat).

Definition slot (f : files) (new : list (Z * Z)) (o : owner) : option (Z * Z) :=
  match o with
  | OFd p => (λ _, (p, SIZEOF_FD)) <$> fds f !! p
  | OPipe p => (λ _, (p, SIZEOF_PIPE)) <$> pipes f !! p
  | OBuf p => (λ x, (p_buffer x, 4096)) <$> pipes f !! p
  | ONew i => new !! i
  end.

Section heap.
Context {H : Type} `{HH : !Malloc H}.
Implicit Types (f : files) (h : H) (new : list (Z * Z)).

Record heap_ok f h new : Prop := {
  ho_ok : ml_ok h;
  ho_live o b : slot f new o = Some b → ml_live h b.1 b.2 ∧ 0 < b.1 ∧ 0 < b.2;
  ho_inj o o' b b' : slot f new o = Some b → slot f new o' = Some b' → b.1 = b'.1 → o = o';
}.

(** The same blocks under other owners. *)
Lemma heap_ok_map f h new f' new' (r : owner → owner) :
  heap_ok f h new → (∀ o b, slot f' new' o = Some b → slot f new (r o) = Some b) →
  (∀ o o' b b', slot f' new' o = Some b → slot f' new' o' = Some b' → r o = r o' → o = o') → heap_ok f' h new'.
Proof.
  intros [Hok Hlive Hinj] Hr Hri. split; [done|eauto|]. intros o o' b b' Ho Ho' Heq. eapply Hri; [done..|]. eauto.
Qed.

(** A block from [malloc]. *)
Lemma heap_ok_malloc f h new n p h' :
  heap_ok f h new → 0 < n < 1073741824 → malloc n h = (p, h') →
  if p =? 0 then heap_ok f h' new
  else heap_ok f h' ((p, n) :: new) ∧ 0 < p ∧ ∀ o b, slot f new o = Some b → b.1 ≠ p.
Proof.
  intros [Hok Hlive Hinj] Hn Hm. pose proof (malloc_spec h n Hok Hn) as Hs. rewrite Hm in Hs.
  destruct Hs as (Hok' & Hkeep & Hp). destruct (p =? 0) eqn:Hp0; zbool.
  { split; [done| |done]. intros o b Hb. destruct (Hlive o b Hb) as (? & ? & ?). auto. }
  destruct Hp as [?|(Hpos & Hpl & Hdis)]; [done|].
  assert (∀ o b, slot f new o = Some b → b.1 ≠ p) as Hfresh.
  { intros o b Hb Heq. destruct (Hlive o b Hb) as (Hl & ? & ?). destruct (Hdis _ _ Hl); lia. }
  assert (∀ o b, slot f ((p, n) :: new) o = Some b →
    (o = ONew 0 ∧ b = (p, n)) ∨ ∃ o', slot f new o' = Some b ∧ o = match o' with ONew i => ONew (S i) | _ => o' end) as Hcase.
  { intros [a|a|a|[|i]] b Hb; [right; by exists (OFd a)|right; by exists (OPipe a)|right; by exists (OBuf a)| |right; by exists (ONew i)].
    injection Hb as <-. by left. }
  split; [|done]. split; [done| |].
  - intros o b [[_ ->]|(o' & Hb & _)]%Hcase; [cbn; split; [done|lia]|]. destruct (Hlive o' b Hb) as (? & ? & ?). auto.
  - intros o1 o2 b1 b2 [[-> ->]|(o1' & Hb1 & ->)]%Hcase [[-> ->]|(o2' & Hb2 & ->)]%Hcase Heq; cbn in *; [done| | |].
    + by destruct (Hfresh _ _ Hb2).
    + by destruct (Hfresh _ _ Hb1).
    + by rewrite (Hinj _ _ _ _ Hb1 Hb2 Heq).
Qed.

Lemma heap_ok_free f h p n new : heap_ok f h ((p, n) :: new) → heap_ok f (mfree p h) new.
Proof.
  intros [Hok Hlive Hinj]. destruct (Hlive (ONew 0) (p, n) eq_refl) as (Hl & Hp & Hn).
  destruct (mfree_spec h p n Hok Hl) as [Hok' Hkeep].
  pose (r o := match o with ONew i => ONew (S i) | _ => o end).
  assert (∀ o b, slot f new o = Some b → slot f ((p, n) :: new) (r o) = Some b) as Hr by (intros [] b; done).
  split; [done| |].
  - intros o b Hb. destruct (Hlive (r o) b (Hr o b Hb)) as (Hlb & ? & ?). split; [|done].
    apply Hkeep; [done|]. intros Heq. pose proof (Hinj _ _ _ _ (Hr o b Hb) (eq_refl : slot f ((p, n) :: new) (ONew 0) = Some (p, n)) Heq) as Ho.
    by destruct o.
  - intros o o' b b' Hb Hb' Heq. pose proof (Hinj _ _ _ _ (Hr _ _ Hb) (Hr _ _ Hb') Heq) as Ho. destruct o, o'; cbn in Ho; congruence.
Qed.

(** Storing and removing the objects. *)

Lemma heap_ok_put_fd f h new p d :
  heap_ok f h ((p, SIZEOF_FD) :: new) → heap_ok (mk_files (fd_table f) (<[p := d]> (fds f)) (pipes f) (socks f)) h new.
Proof.
  intros Hok. eapply (heap_ok_map _ _ _ _ _ (λ o, match o with OFd a => if decide (a = p) then ONew 0 else OFd a | ONew i => ONew (S i) | _ => o end)); [exact Hok| |].
  - intros [a|a|a|i] b; cbn; [|done..]. destruct (decide (a = p)) as [->|]; [by rewrite lookup_insert_eq|by rewrite lookup_insert_ne].
  - intros [a|a|a|i] [a'|a'|a'|i'] b b' _ _; cbn; repeat case_decide; intros; congruence.
Qed.

Lemma heap_ok_put_pipe f h new p b y :
  heap_ok f h ((b, 4096) :: (p, SIZEOF_PIPE) :: new) → p_buffer y = b →
  heap_ok (mk_files (fd_table f) (fds f) (<[p := y]> (pipes f)) (socks f)) h new.
Proof.
  intros Hok Hy. eapply (heap_ok_map _ _ _ _ _ (λ o, match o with
    | OPipe a => if decide (a = p) then ONew 1 else o | OBuf a => if decide (a = p) then ONew 0 else o
    | ONew i => ONew (S (S i)) | _ => o end)); [exact Hok| |].
  - intros [a|a|a|i] c; cbn; [done| | |done]; (destruct (decide (a = p)) as [->|]; [rewrite lookup_insert_eq; cbn; by rewrite ?Hy|by rewrite lookup_insert_ne]).
  - intros [a|a|a|i] [a'|a'|a'|i'] c c' _ _; cbn; repeat case_decide; intros; congruence.
Qed.

Lemma heap_ok_drop_fd f h new p d :
  heap_ok f h new → fds f !! p = Some d →
  heap_ok (mk_files (fd_table f) (delete p (fds f)) (pipes f) (socks f)) h ((p, SIZEOF_FD) :: new).
Proof.
  intros Hok Hd. eapply (heap_ok_map _ _ _ _ _ (λ o, match o with ONew 0 => OFd p | ONew (S i) => ONew i | _ => o end)); [exact Hok| |].
  - intros [a|a|a|[|i]] b; cbn; [|done..| |done].
    + destruct (decide (a = p)) as [->|]; [by rewrite lookup_delete_eq|by rewrite lookup_delete_ne].
    + intros [= <-]. by rewrite Hd.
  - intros [a|a|a|[|i]] [a'|a'|a'|[|i']] b b'; cbn; intros Ho Ho' Heq; simplify_eq; try done; by rewrite lookup_delete_eq in *.
Qed.

Lemma heap_ok_drop_pipe f h new p y :
  heap_ok f h new → pipes f !! p = Some y →
  heap_ok (mk_files (fd_table f) (fds f) (delete p (pipes f)) (socks f)) h ((p_buffer y, 4096) :: (p, SIZEOF_PIPE) :: new).
Proof.
  intros Hok Hd. eapply (heap_ok_map _ _ _ _ _ (λ o, match o with ONew 0 => OBuf p | ONew 1 => OPipe p | ONew (S (S i)) => ONew i | _ => o end)); [exact Hok| |].
  - intros [a|a|a|[|[|i]]] b; cbn; [done| | | | |done].
    + destruct (decide (a = p)) as [->|]; [by rewrite lookup_delete_eq|by rewrite lookup_delete_ne].
    + destruct (decide (a = p)) as [->|]; [by rewrite lookup_delete_eq|by rewrite lookup_delete_ne].
    + intros [= <-]. by rewrite Hd.
    + intros [= <-]. by rewrite Hd.
  - intros [a|a|a|[|[|i]]] [a'|a'|a'|[|[|i']]] b b'; cbn; intros Ho Ho' Heq; simplify_eq; try done; by rewrite lookup_delete_eq in *.
Qed.

(** A change that leaves the blocks where they are. *)
Lemma heap_ok_same f f' h new : heap_ok f h new → (∀ o b, slot f' new o = Some b → slot f new o = Some b) → heap_ok f' h new.
Proof. intros Hok Hs. by apply (heap_ok_map f h new f' new (λ o, o)). Qed.

Lemma heap_ok_upd_fd f h new p d d' :
  heap_ok f h new → fds f !! p = Some d → heap_ok (mk_files (fd_table f) (<[p := d']> (fds f)) (pipes f) (socks f)) h new.
Proof.
  intros Hok Hd. apply (heap_ok_same f); [done|]. intros [a|a|a|i] b; cbn; try done.
  destruct (decide (a = p)) as [->|]; [by rewrite lookup_insert_eq, Hd|by rewrite lookup_insert_ne].
Qed.

Lemma heap_ok_table f h new t : heap_ok f h new → heap_ok (mk_files t (fds f) (pipes f) (socks f)) h new.
Proof. intros Hok. by apply (heap_ok_same f). Qed.
End heap.

(** ** The table *)

(** Each open descriptor has an object of its own, and none is a socket. *)
Record table_ok (f : files) : Prop := {
  to_len : length (fd_table f) = 256%nat;
  to_open i p : fd_table f !! i = Some p → p ≠ 0 → is_Some (fds f !! p);
  to_inj i j p : fd_table f !! i = Some p → fd_table f !! j = Some p → p ≠ 0 → i = j;
  to_type p d : fds f !! p = Some d → fd_type d ≠ FD_TYPE_SOCKET;
}.

Lemma table_ok_upd f p d d' :
  table_ok f → fds f !! p = Some d → fd_type d' ≠ FD_TYPE_SOCKET →
  table_ok (mk_files (fd_table f) (<[p := d']> (fds f)) (pipes f) (socks f)).
Proof.
  intros [Hl Ho Hi Ht] Hd Hty. split; cbn; [done| |done|].
  - intros i q Hq Hq0. destruct (decide (q = p)) as [->|]; [by rewrite lookup_insert_eq|rewrite lookup_insert_ne; eauto].
  - intros q x. destruct (decide (q = p)) as [->|]; [rewrite lookup_insert_eq; by intros [= <-]|rewrite lookup_insert_ne; eauto].
Qed.

Lemma table_ok_new f i p d :
  table_ok f → fds f !! p = None → fd_type d ≠ FD_TYPE_SOCKET →
  table_ok (mk_files (<[i := p]> (fd_table f)) (<[p := d]> (fds f)) (pipes f) (socks f)).
Proof.
  intros [Hl Ho Hi Ht] Hd Hty.
  assert (∀ j q, (<[i := p]> (fd_table f)) !! j = Some q → (j = i ∧ q = p) ∨ (j ≠ i ∧ fd_table f !! j = Some q)) as Hcase.
  { intros j q. rewrite list_lookup_insert. case_decide; intros Hq; [left; naive_solver|].
    destruct (decide (j = i)) as [->|]; [|by right]. exfalso. apply lookup_lt_Some in Hq as Hlt. tauto. }
  split; cbn; [by rewrite length_insert| | |].
  - intros j q [[-> ->]|[_ Hq]]%Hcase Hq0; [by rewrite lookup_insert_eq|].
    destruct (decide (q = p)) as [->|]; [by rewrite lookup_insert_eq|rewrite lookup_insert_ne; eauto].
  - intros j k q [[-> ->]|[Hji Hq]]%Hcase [[-> Heq]|[Hki Hq']]%Hcase Hq0; subst; [done| | |by eapply Hi].
    + destruct (Ho _ _ Hq' Hq0) as [x Hx]. congruence.
    + destruct (Ho _ _ Hq Hq0) as [x Hx]. congruence.
  - intros q x. destruct (decide (q = p)) as [->|]; [rewrite lookup_insert_eq; by intros [= <-]|rewrite lookup_insert_ne; eauto].
Qed.

Lemma table_ok_close f i p :
  table_ok f → fd_table f !! i = Some p → p ≠ 0 →
  table_ok (mk_files (<[i := 0]> (fd_table f)) (delete p (fds f)) (pipes f) (socks f)).
Proof.
  intros [Hl Ho Hi Ht] Hp Hp0.
  assert (∀ j q, (<[i := 0]> (fd_table f)) !! j = Some q → q ≠ 0 → j ≠ i ∧ fd_table f !! j = Some q) as Hcase.
  { intros j q. rewrite list_lookup_insert. case_decide as Hd; intros Hq Hq0; [naive_solver|].
    split; [|done]. intros ->. apply lookup_lt_Some in Hq as Hlt. tauto. }
  split; cbn; [by rewrite length_insert| | |].
  - intros j q Hq Hq0. apply Hcase in Hq as [Hj Hq]; [|done].
    assert (q ≠ p) as Hne by (intros ->; by apply Hj, (Hi j i p)). rewrite lookup_delete_ne; eauto.
  - intros j k q Hq Hq' Hq0. apply Hcase in Hq as [Hj Hq]; [|done]. apply Hcase in Hq' as [Hk Hq']; [|done]. by eapply Hi.
  - intros q x Hx. apply lookup_delete_Some in Hx as [_ Hx]. eauto.
Qed.

Section descriptors.
Context {A H D W : Type} `{HA : !PageAlloc A, HH : !Malloc H, HD : !BlockDev D, HP : !Ports W, HM : !Msr W}.
Abbreviation sys := (sys A H D W).
Implicit Types (s : sys) (f : files).

(** All but the descriptors and the heap. *)
Definition rest s := (program_break s, next_mmap_addr s, sy_cursor s, sy_fs s, sy_net s, sy_kernel s, sy_machine s, sy_video s, sy_world s).

Definition good s (new : list (Z * Z)) : Prop := heap_ok (sy_files s) (sy_heap s) new ∧ table_ok (sy_files s).

Lemma wp_hmalloc n (Q : Z → sys → Prop) s :
  (∀ p h, malloc n (sy_heap s) = (p, h) → Q p (set_heap h s)) → wp (hmalloc n) Q s.
Proof. intros HQ. unfold wp, hmalloc. destruct (malloc n (sy_heap s)) as [p h] eqn:Hm. by apply HQ. Qed.

Lemma wp_upd_files g (Q : () → sys → Prop) s : Q () (set_files (g (sy_files s)) s) → wp (upd_files g) Q s.
Proof. done. Qed.

Lemma wp_the_fd p d (Q : file_descriptor_t → sys → Prop) s : fds (sy_files s) !! p = Some d → Q d s → wp (the_fd p) Q s.
Proof. intros Hd HQ. unfold the_fd. apply wp_bind, wp_gets. by eapply wp_lift. Qed.

Lemma wp_upd_fd p d g (Q : () → sys → Prop) s :
  fds (sy_files s) !! p = Some d →
  Q () (set_files (mk_files (fd_table (sy_files s)) (<[p := g d]> (fds (sy_files s))) (pipes (sy_files s)) (socks (sy_files s))) s) →
  wp (upd_fd p g) Q s.
Proof. intros Hd HQ. unfold upd_fd. apply wp_bind. by eapply wp_the_fd. Qed.

Lemma open_fd_some fd s p :
  open_fd fd s = Some p ↔ 0 <= fd < MAX_FDS ∧ fd_table (sy_files s) !! Z.to_nat fd = Some p ∧ p ≠ 0.
Proof.
  unfold open_fd. destruct (_ || _)%bool eqn:Hc.
  - split; [done|]. intros (? & _). apply orb_true_iff in Hc as [?%Z.ltb_lt|?%Z.leb_le]; lia.
  - apply orb_false_iff in Hc as [? ?]. zbool. destruct (fd_table (sy_files s) !! Z.to_nat fd) as [q|]; [|naive_solver].
    destruct (q =? 0) eqn:Hq; zbool; naive_solver.
Qed.

(** What [alloc_fd] answers. *)
Inductive fd_allocated s s' (new : list (Z * Z)) : Z → Prop :=
| fd_refused r : r < 0 → sy_files s' = sy_files s → fd_allocated s s' new r
| fd_given i p :
    fd_table (sy_files s) !! i = Some 0 → (i < 256)%nat → 0 < p → fds (sy_files s) !! p = None →
    (∀ o b, slot (sy_files s) new o = Some b → b.1 ≠ p) →
    sy_files s' = mk_files (<[i := p]> (fd_table (sy_files s))) (<[p := set_refcount 1 zero_fd]> (fds (sy_files s)))
                    (pipes (sy_files s)) (socks (sy_files s)) →
    fd_allocated s s' new (Z.of_nat i).

Lemma alloc_fd_spec s new :
  good s new → wp alloc_fd (λ r s', good s' new ∧ rest s' = rest s ∧ fd_allocated s s' new r) s.
Proof.
  intros [Hh Ht]. unfold alloc_fd. apply wp_bind, wp_gets.
  destruct (list_find _ (fd_table (sy_files s))) as [[i q]|] eqn:Hf.
  2:{ apply wp_ret. split; [by split|]. split; [done|]. apply fd_refused; [unfold EMFILE; lia|done]. }
  apply list_find_Some in Hf as (Hi & -> & _).
  apply wp_bind, wp_hmalloc. intros p h Hm. unfold set_table. apply wp_bind, wp_upd_files.
  pose proof (heap_ok_malloc _ _ _ SIZEOF_FD _ _ Hh ltac:(unfold SIZEOF_FD; lia) Hm) as Hp.
  assert (i < 256)%nat as Hi256 by (rewrite <- (to_len _ Ht); by eapply lookup_lt_Some).
  unfold aset. rewrite Nat2Z.id. destruct (p =? 0) eqn:Hp0; zbool.
  - apply wp_ret. cbn. subst p. rewrite list_insert_id by done.
    replace (mk_files _ _ _ _) with (sy_files s) by by destruct (sy_files s).
    split; [by split|]. split; [done|]. apply fd_refused; [unfold ENOMEM; lia|done].
  - destruct Hp as (Hp & Hpos & Hfresh). unfold put_fd. apply wp_bind, wp_upd_files, wp_ret. cbn.
    assert (fds (sy_files s) !! p = None) as Hnone.
    { destruct (fds (sy_files s) !! p) as [d|] eqn:Hd; [|done]. exfalso.
      apply (Hfresh (OFd p) (p, SIZEOF_FD)); [cbn; by rewrite Hd|done]. }
    split; [split|split; [done|]]; cbn.
    + apply (heap_ok_table (mk_files (fd_table (sy_files s)) _ _ _)). by apply heap_ok_put_fd.
    + by apply table_ok_new.
    + by eapply fd_given.
Qed.

Lemma run_gets {B} (g : sys → B) s x s' : gets g s = Some (x, s') → x = g s ∧ s' = s.
Proof. by intros [= <- <-]. Qed.

Lemma run_the_fd p s d s' : the_fd p s = Some (d, s') → s' = s ∧ fds (sy_files s) !! p = Some d.
Proof.
  unfold the_fd. intros (o & s1 & [-> ->]%run_gets & Hl)%run_bind. unfold lift in Hl.
  destruct (fds (sy_files s) !! p); [by injection Hl as <- <-|done].
Qed.

Lemma run_the_pipe p s d s' : the_pipe p s = Some (d, s') → s' = s ∧ pipes (sy_files s) !! p = Some d.
Proof.
  unfold the_pipe. intros (o & s1 & [-> ->]%run_gets & Hl)%run_bind. unfold lift in Hl.
  destruct (pipes (sy_files s) !! p); [by injection Hl as <- <-|done].
Qed.

Lemma run_upd_fd p g s x s' :
  upd_fd p g s = Some (x, s') → ∃ d, fds (sy_files s) !! p = Some d ∧
  s' = set_files (mk_files (fd_table (sy_files s)) (<[p := g d]> (fds (sy_files s))) (pipes (sy_files s)) (socks (sy_files s))) s.
Proof. unfold upd_fd. intros (d & s1 & [-> Hd]%run_the_fd & Hp)%run_bind. exists d. split; [done|]. by injection Hp as _ <-. Qed.

(** The object of a pipe goes with its buffer; nothing else is touched. *)
Lemma free_private_ok d s s' :
  free_private d s = Some ((), s') → fd_type d ≠ FD_TYPE_SOCKET → heap_ok (sy_files s) (sy_heap s) [] →
  heap_ok (sy_files s') (sy_heap s') [] ∧ fd_table (sy_files s') = fd_table (sy_files s) ∧
  fds (sy_files s') = fds (sy_files s) ∧ rest s' = rest s.
Proof.
  intros Hr Ht Hh. unfold free_private in Hr. rewrite (proj2 (Z.eqb_neq _ _) Ht) in Hr.
  destruct (fd_type d =? FD_TYPE_PIPE); [|by injection Hr as <-]. destruct (negb _); [|by injection Hr as <-].
  apply run_bind in Hr as (x & s1 & [-> Hx]%run_the_pipe & Hr).
  apply run_bind in Hr as ([] & s1 & Hs1 & Hr). injection Hs1 as <-.
  apply run_bind in Hr as ([] & s2 & Hs2 & Hr). injection Hs2 as <-. injection Hr as <-. cbn.
  split; [|done]. eapply heap_ok_free, heap_ok_free. by apply heap_ok_drop_pipe.
Qed.

Lemma good_upd_fd s p d d' :
  good s [] → fds (sy_files s) !! p = Some d → fd_type d' ≠ FD_TYPE_SOCKET →
  good (set_files (mk_files (fd_table (sy_files s)) (<[p := d']> (fds (sy_files s))) (pipes (sy_files s)) (socks (sy_files s))) s) [].
Proof. intros [Hh Ht] Hd Hty. split; cbn; [by eapply heap_ok_upd_fd|by eapply table_ok_upd]. Qed.

Lemma table_ok_stores f t : table_ok f → fd_table t = fd_table f → fds t = fds f → table_ok t.
Proof. intros [Hl Ho Hi Hty] Htab Hfd. split; rewrite ?Htab, ?Hfd; done. Qed.

Lemma free_fd_keeps fd : keeps (λ s, good s []) (free_fd fd : M sys ()).
Proof.
  intros s [] s' Hr Hg. unfold free_fd in Hr. apply run_bind in Hr as (o & s1 & [-> ->]%run_gets & Hr).
  destruct (open_fd fd s) as [p|] eqn:Ho; [|by injection Hr as <-]. apply open_fd_some in Ho as (Hfd & Hp & Hp0).
  apply run_bind in Hr as (d & s1 & [-> Hd]%run_the_fd & Hr).
  apply run_bind in Hr as ([] & s1 & Hs1 & Hr). injection Hs1 as Hs1.
  assert (fd_type d ≠ FD_TYPE_SOCKET) as Hty by (destruct Hg as [_ Ht]; by eapply to_type).
  pose proof (good_upd_fd s p d (set_refcount (u16 (fd_refcount d - 1)) d) Hg Hd Hty) as Hg1. rewrite Hs1 in Hg1.
  destruct (_ =? 0); [|by injection Hr as <-].
  apply run_bind in Hr as ([] & s2 & Hpr & Hr). destruct Hg1 as [Hh1 Ht1].
  apply free_private_ok in Hpr as (Hh2 & Htab2 & Hfd2 & _); [|done|done].
  apply run_bind in Hr as ([] & s3 & Hs3 & Hr). injection Hs3 as <-.
  apply run_bind in Hr as ([] & s4 & Hs4 & Hr). injection Hs4 as <-. injection Hr as <-.
  assert (fd_table (sy_files s2) !! Z.to_nat fd = Some p) as Hp2 by (rewrite Htab2; by subst s1).
  pose proof (table_ok_stores _ (sy_files s2) Ht1 Htab2 Hfd2) as Ht2.
  destruct (to_open _ Ht2 _ _ Hp2 Hp0) as [d2 Hd2]. split; cbn.
  - apply (heap_ok_table (mk_files (fd_table (sy_files s2)) _ _ _)). eapply heap_ok_free. by eapply heap_ok_drop_fd.
  - by apply (table_ok_close (sy_files s2)).
Qed.

Lemma alloc_fd_keeps : keeps (λ s, good s []) (alloc_fd : M sys Z).
Proof. intros s x s' Hr Hg. by destruct (wp_elim _ _ _ _ _ (alloc_fd_spec s [] Hg) Hr). Qed.

Lemma upd_fd_keeps p g :
  (∀ d, fd_type d ≠ FD_TYPE_SOCKET → fd_type (g d) ≠ FD_TYPE_SOCKET) → keeps (λ s, good s []) (upd_fd p g : M sys ()).
Proof.
  intros Hgt s [] s' (d & Hd & ->)%run_upd_fd Hg. eapply good_upd_fd; [done..|]. apply Hgt.
  destruct Hg as [_ Ht]. by eapply to_type.
Qed.

(** A descriptor that [alloc_fd] has just given. *)
Lemma given_open s s' i p :
  (i < 256)%nat → 0 < p → fd_table (sy_files s) !! i = Some 0 → fd_table (sy_files s') = <[i := p]> (fd_table (sy_files s)) →
  open_fd (Z.of_nat i) s' = Some p ∧ aget (fd_table (sy_files s')) (Z.of_nat i) = p.
Proof.
  intros Hi Hp Hl Ht. apply lookup_lt_Some in Hl. split.
  - apply open_fd_some. split; [unfold MAX_FDS; lia|]. rewrite Nat2Z.id, Ht. split; [by apply list_lookup_insert_eq|lia].
  - unfold aget. rewrite Nat2Z.id, Ht. by apply list_lookup_total_insert_eq.
Qed.

Lemma free_new_fd fd p s :
  good s [] → open_fd fd s = Some p → fds (sy_files s) !! p = Some (set_refcount 1 zero_fd) →
  wp (free_fd fd) (λ _ s', good s' [] ∧ rest s' = rest s ∧ pipes (sy_files s') = pipes (sy_files s)) s.
Proof.
  intros Hg Ho Hd. destruct (free_fd fd s) as [[[] s']|] eqn:Hr.
  - unfold wp. rewrite Hr. split; [by eapply free_fd_keeps|]. unfold free_fd in Hr.
    apply run_bind in Hr as (o & s1 & [-> ->]%run_gets & Hr). rewrite Ho in Hr.
    apply run_bind in Hr as (d & s1 & [-> Hd']%run_the_fd & Hr). assert (d = set_refcount 1 zero_fd) as -> by congruence.
    by injection Hr as <-.
  - exfalso. revert Hr. unfold free_fd, the_fd, mbind, M_bind, gets, lift. rewrite Ho. cbn beta iota. rewrite Hd. done.
Qed.

(** What [sys_pipe] answers: two descriptors that were not open, each with an
    object of its own, for the two ends of one new pipe. *)
Record piped s s' (r w : Z) : Prop := mk_piped {
  pd_ends : ∃ pr pw p b, open_fd r s' = Some pr ∧ open_fd w s' = Some pw ∧ pr ≠ pw ∧ p ≠ 0 ∧
    fds (sy_files s') !! pr = Some (mk_fd 0 0 O_RDONLY 1 p FD_TYPE_PIPE) ∧
    fds (sy_files s') !! pw = Some (mk_fd 0 0 O_WRONLY 1 p FD_TYPE_PIPE) ∧
    pipes (sy_files s') !! p = Some (mk_pipe b (replicate (Z.to_nat 4096) None) 4096 0 0 0);
  pd_new : open_fd r s = None ∧ open_fd w s = None ∧ r ≠ w;
  pd_others fd : fd ≠ r → fd ≠ w → open_fd fd s' = open_fd fd s;
}.

Lemma open_fd_table s s' fd :
  fd_table (sy_files s') !! Z.to_nat fd = fd_table (sy_files s) !! Z.to_nat fd → open_fd fd s' = open_fd fd s.
Proof. unfold open_fd. by intros ->. Qed.

(** A call of [sys_pipe] that gives up releases the pipe it has made. *)
Lemma undo_pipe s p b y r :
  good s [] → pipes (sy_files s) !! p = Some y → p_buffer y = b → r < 0 →
  wp (drop_pipe p;; hfree b;; hfree p;; mret (r, None : option (Z * Z)))
    (λ x s', good s' [] ∧ rest s' = rest s ∧ x = (r, None)) s.
Proof.
  intros [Hh Ht] Hy <- Hr. unfold drop_pipe, hfree. apply wp_bind, wp_upd_files, wp_bind, wp_modify, wp_bind, wp_modify, wp_ret. cbn.
  split; [|done]. split; cbn; [|by apply (table_ok_stores (sy_files s))].
  eapply heap_ok_free, heap_ok_free. by apply (heap_ok_drop_pipe _ _ _ p y).
Qed.

Lemma closed_entry s k : fd_table (sy_files s) !! k = Some 0 → open_fd (Z.of_nat k) s = None.
Proof. intros Hk. unfold open_fd. rewrite Nat2Z.id, Hk. by destruct (_ || _)%bool. Qed.

(** An entry of the table that names a descriptor. *)
Lemma entry_open s i p :
  (i < 256)%nat → 0 < p → fd_table (sy_files s) !! i = Some p →
  open_fd (Z.of_nat i) s = Some p ∧ aget (fd_table (sy_files s)) (Z.of_nat i) = p.
Proof.
  intros Hi Hp Hl. split; [apply open_fd_some; rewrite Nat2Z.id; unfold MAX_FDS; split_and!; [lia|lia|done|lia]|].
  unfold aget. rewrite Nat2Z.id. by apply list_lookup_total_correct.
Qed.

(** Two new descriptors become the ends of the pipe. *)
Lemma connect_ends s s3 i j pr pw p b :
  good s3 [] → (i < 256)%nat → (j < 256)%nat → i ≠ j → 0 < pr → 0 < pw → pr ≠ pw → p ≠ 0 →
  fd_table (sy_files s) !! i = Some 0 → fd_table (sy_files s) !! j = Some 0 →
  fd_table (sy_files s3) = <[j := pw]> (<[i := pr]> (fd_table (sy_files s))) →
  fds (sy_files s3) !! pr = Some (set_refcount 1 zero_fd) → fds (sy_files s3) !! pw = Some (set_refcount 1 zero_fd) →
  pipes (sy_files s3) !! p = Some (mk_pipe b (replicate (Z.to_nat 4096) None) 4096 0 0 0) →
  wp (r ← gets (λ s, aget (fd_table (sy_files s)) (Z.of_nat i));
      upd_fd r (λ d, mk_fd (fd_inode d) (fd_offset d) O_RDONLY (fd_refcount d) p FD_TYPE_PIPE);;
      w ← gets (λ s, aget (fd_table (sy_files s)) (Z.of_nat j));
      upd_fd w (λ d, mk_fd (fd_inode d) (fd_offset d) O_WRONLY (fd_refcount d) p FD_TYPE_PIPE);;
      mret (0, Some (Z.of_nat i, Z.of_nat j)))
    (λ r s', good s' [] ∧ rest s' = rest s3 ∧ r = (0, Some (Z.of_nat i, Z.of_nat j)) ∧ piped s s' (Z.of_nat i) (Z.of_nat j)) s3.
Proof.
  intros Hg3 Hi256 Hj256 Hij Hpr Hpw Hprw Hp0 Hi Hj Htab Hdr Hdw Hy.
  pose proof (lookup_lt_Some _ _ _ Hi) as Hil. pose proof (lookup_lt_Some _ _ _ Hj) as Hjl.
  destruct (entry_open s3 i pr) as [Hor Har]; [done..|rewrite Htab, list_lookup_insert_ne by done; by apply list_lookup_insert_eq|].
  destruct (entry_open s3 j pw) as [How Haw]; [done..|rewrite Htab; apply list_lookup_insert_eq; by rewrite length_insert|].
  apply wp_bind, wp_gets. rewrite Har. apply wp_bind. eapply wp_upd_fd; [exact Hdr|].
  pose proof (good_upd_fd s3 pr _ (mk_fd 0 0 O_RDONLY 1 p FD_TYPE_PIPE) Hg3 Hdr ltac:(done)) as Hg4.
  set (s4 := set_files _ s3) in Hg4 |- *. apply wp_bind, wp_gets. change (fd_table (sy_files s4)) with (fd_table (sy_files s3)).
  rewrite Haw. apply wp_bind.
  assert (fds (sy_files s4) !! pw = Some (set_refcount 1 zero_fd)) as Hdw4 by (cbn; by rewrite lookup_insert_ne).
  eapply wp_upd_fd; [exact Hdw4|].
  pose proof (good_upd_fd s4 pw _ (mk_fd 0 0 O_WRONLY 1 p FD_TYPE_PIPE) Hg4 Hdw4 ltac:(done)) as Hg5.
  set (s5 := set_files _ s4) in Hg5 |- *. apply wp_ret. split; [done|]. split; [done|]. split; [done|]. split.
  - exists pr, pw, p, b. split_and!; [done|done|done|done| | |done].
    + cbn. by rewrite lookup_insert_ne, lookup_insert_eq.
    + cbn. by rewrite lookup_insert_eq.
  - split_and!; [by apply closed_entry|by apply closed_entry|lia].
  - intros fd Hfr Hfw. destruct (decide (0 <= fd)) as [H0|H0].
    + apply open_fd_table. cbn. rewrite Htab, !list_lookup_insert_ne by lia. done.
    + unfold open_fd. by rewrite (proj2 (Z.ltb_lt fd 0)) by lia.
Qed.

Lemma sys_pipe_spec s :
  good s [] → wp sys_pipe (λ r s', good s' [] ∧ rest s' = rest s ∧
    match r.2 with None => r.1 < 0 | Some (rd, wr) => r.1 = 0 ∧ piped s s' rd wr end) s.
Proof.
  intros [Hh Ht]. unfold sys_pipe.
  apply wp_bind, wp_hmalloc. intros p h1 Hm1.
  pose proof (heap_ok_malloc _ _ _ SIZEOF_PIPE _ _ Hh ltac:(unfold SIZEOF_PIPE; lia) Hm1) as Hp.
  destruct (p =? 0) eqn:Hp0; zbool; [apply wp_ret; cbn; split; [by split|done]|]. destruct Hp as (Hh1 & Hppos & Hpf).
  apply wp_bind, wp_hmalloc. intros b h2 Hm2. cbn in Hm2.
  pose proof (heap_ok_malloc _ _ _ 4096 _ _ Hh1 ltac:(lia) Hm2) as Hb.
  destruct (b =? 0) eqn:Hb0; zbool.
  { apply wp_bind, wp_modify, wp_ret. cbn. split; [|done]. split; cbn; [by eapply heap_ok_free|done]. }
  destruct Hb as (Hh2 & _ & _). apply wp_bind, wp_upd_files.
  set (y := mk_pipe b _ _ _ _ _). set (s1 := set_files _ _).
  assert (good s1 []) as Hg1 by (split; cbn; [by eapply heap_ok_put_pipe|by apply (table_ok_stores (sy_files s))]).
  assert (pipes (sy_files s1) !! p = Some y) as Hy1 by (cbn; by rewrite lookup_insert_eq).
  assert (∀ t, good t [] → pipes (sy_files t) !! p = Some y → rest t = rest s → ∀ r, r < 0 →
    wp (drop_pipe p;; hfree b;; hfree p;; mret (r, None)) (λ r s', good s' [] ∧ rest s' = rest s ∧
      match r.2 with None => r.1 < 0 | Some (rd, wr) => r.1 = 0 ∧ piped s s' rd wr end) t) as Hundo.
  { intros t Hgt Hyt Hrt r Hr. eapply wp_mono; [by apply (undo_pipe t p b y)|]. intros x s' (Hg' & Hr' & ->). by rewrite Hr'. }
  apply wp_bind. eapply wp_mono; [by apply (alloc_fd_spec s1 [])|]. cbn beta. intros rfd s2 (Hg2 & Hr2 & Hfd2).
  destruct Hfd2 as [r Hneg Hsame|i pr Hi Hi256 Hpr Hnone Hfr Hfiles2].
  { rewrite (proj2 (Z.ltb_lt _ _) Hneg). apply Hundo; [done|by rewrite Hsame|done..]. }
  rewrite (proj2 (Z.ltb_ge _ _)) by lia.
  assert (pipes (sy_files s2) !! p = Some y) as Hy2 by by rewrite Hfiles2.
  apply wp_bind. eapply wp_mono; [by apply (alloc_fd_spec s2 [])|]. cbn beta. intros wfd s3 (Hg3 & Hr3 & Hfd3).
  destruct Hfd3 as [r Hneg Hsame|j pw Hj Hj256 Hpw Hnone3 Hfr3 Hfiles3].
  { rewrite (proj2 (Z.ltb_lt _ _) Hneg). apply wp_bind.
    destruct (given_open s1 s3 i pr) as [Ho _]; [done..|by rewrite Hsame, Hfiles2|].
    eapply wp_mono; [eapply (free_new_fd _ pr); [done..|rewrite Hsame, Hfiles2; cbn; by rewrite lookup_insert_eq]|].
    cbn beta. intros _ s4 (Hg4 & Hr4 & Hp4). apply Hundo; [done|by rewrite Hp4, Hsame|by rewrite Hr4, Hr3|done]. }
  rewrite (proj2 (Z.ltb_ge _ _)) by lia. rewrite Hfiles2 in Hj. cbn in Hj.
  assert (i ≠ j) as Hij.
  { intros ->. rewrite list_lookup_insert_eq in Hj by (by eapply lookup_lt_Some). simplify_eq. }
  assert (pr ≠ pw) as Hprw by (intros ->; rewrite Hfiles2 in Hnone3; cbn in Hnone3; by rewrite lookup_insert_eq in Hnone3).
  rewrite list_lookup_insert_ne in Hj by done.
  eapply wp_mono; [apply (connect_ends s s3 i j pr pw p b); try done|].
  - by rewrite Hfiles3, Hfiles2.
  - rewrite Hfiles3, Hfiles2. cbn. by rewrite lookup_insert_ne, lookup_insert_eq.
  - rewrite Hfiles3. cbn. by rewrite lookup_insert_eq.
  - by rewrite Hfiles3.
  - intros r s' (Hg' & Hr' & -> & Hpd). split; [done|]. split; [by rewrite Hr', Hr3, Hr2|done].
Qed.

(** ** Invariant: no two descriptors share an object *)

#[local] Hint Resolve free_fd_keeps alloc_fd_keeps : keeps.

Lemma sys_close_keeps fd : keeps (λ s, good s []) (sys_close fd : M sys Z).
Proof. unfold sys_close. keeps. Qed.
#[local] Hint Resolve sys_close_keeps : keeps.

Lemma sys_pipe_keeps : keeps (λ s, good s []) (sys_pipe : M sys _).
Proof. intros s x s' Hr Hg. by destruct (wp_elim _ _ _ _ _ (sys_pipe_spec s Hg) Hr). Qed.
#[local] Hint Resolve sys_pipe_keeps : keeps.

Lemma or_fd_flags_keeps fd n : keeps (λ s, good s []) (or_fd_flags fd n : M sys ()).
Proof. unfold or_fd_flags. apply keeps_bind; [apply keeps_gets|]. intros p. by apply upd_fd_keeps. Qed.
#[local] Hint Resolve or_fd_flags_keeps : keeps.

Lemma sys_pipe2_keeps flags : keeps (λ s, good s []) (sys_pipe2 flags : M sys _).
Proof. unfold sys_pipe2. keeps. Qed.

Lemma sys_dup_keeps oldfd : keeps (λ s, good s []) (sys_dup oldfd : M sys Z).
Proof.
  intros s x s' Hr Hg. unfold sys_dup in Hr. apply run_bind in Hr as (o & s1 & [-> ->]%run_gets & Hr).
  destruct (open_fd oldfd s) as [p|]; [|by injection Hr as _ <-].
  apply run_bind in Hr as (newfd & s1 & Ha & Hr). destruct (wp_elim _ _ _ _ _ (alloc_fd_spec s [] Hg) Ha) as (Hg1 & _ & Hfd).
  destruct Hfd as [r Hneg Hsame|i q Hi Hi256 Hq _ _ Hf].
  { rewrite (proj2 (Z.ltb_lt _ _) Hneg) in Hr. by injection Hr as _ <-. }
  rewrite (proj2 (Z.ltb_ge _ _)) in Hr by lia. destruct (given_open s s1 i q) as [_ Haget]; [done..|by rewrite Hf|].
  apply run_bind in Hr as (q' & s2 & [-> ->]%run_gets & Hr). rewrite Haget in Hr.
  apply run_bind in Hr as (d & s2 & [-> Hd]%run_the_fd & Hr). apply run_bind in Hr as ([] & s2 & Hs2 & Hr). injection Hs2 as Hs2.
  assert (good s2 []) as Hg2.
  { rewrite <- Hs2. eapply good_upd_fd; [done|rewrite Hf; by apply lookup_insert_eq|]. destruct Hg1 as [_ Ht]. by eapply to_type. }
  apply run_bind in Hr as ([] & s3 & Hu & Hr). injection Hr as _ <-. by eapply (upd_fd_keeps p inc_refcount).
Qed.

Lemma sys_dup2_keeps oldfd newfd : keeps (λ s, good s []) (sys_dup2 oldfd newfd : M sys Z).
Proof.
  unfold sys_dup2. apply keeps_bind; [apply keeps_gets|]. intros n. apply keeps_bind; [destruct n; keeps|]. intros _.
  intros s x s' Hr Hg. apply run_bind in Hr as (o & s1 & [-> ->]%run_gets & Hr).
  destruct (open_fd oldfd s) as [p|]; [|by injection Hr as _ <-]. destruct (_ || _)%bool eqn:Hrange; [by injection Hr as _ <-|].
  apply orb_false_iff in Hrange as [? ?]. zbool. unfold MAX_FDS in *.
  apply run_bind in Hr as (q & s1 & Hm & Hr). unfold hmalloc in Hm. destruct (malloc SIZEOF_FD (sy_heap s)) as [q' h] eqn:Hq. injection Hm as -> <-.
  destruct Hg as [Hh Ht]. pose proof (heap_ok_malloc _ _ _ SIZEOF_FD _ _ Hh ltac:(unfold SIZEOF_FD; lia) Hq) as Hp.
  apply run_bind in Hr as ([] & s1 & Hs1 & Hr). injection Hs1 as Hs1. destruct (q =? 0) eqn:Hq0; zbool.
  { injection Hr as _ <-. subst q s1. split; cbn; [by apply heap_ok_table|]. destruct Ht as [Hl Ho Hi Hty].
    assert (∀ j r, (<[Z.to_nat newfd := 0]> (fd_table (sy_files s))) !! j = Some r → r ≠ 0 → fd_table (sy_files s) !! j = Some r) as Hcase.
    { intros j r. rewrite list_lookup_insert. case_decide; naive_solver. }
    split; cbn; [by rewrite length_aset|intros; unfold aset in *; eauto..|done]. }
  destruct Hp as (Hh1 & Hpos & Hfresh).
  apply run_bind in Hr as (p' & s2 & [-> ->]%run_gets & Hr). apply run_bind in Hr as (d & s2 & [-> Hd]%run_the_fd & Hr).
  apply run_bind in Hr as ([] & s2 & Hs2 & Hr). injection Hs2 as Hs2.
  assert (good s2 []) as Hg2.
  { rewrite <- Hs2, <- Hs1. split; cbn.
    - apply (heap_ok_table (mk_files (fd_table (sy_files s)) _ _ _)). by apply heap_ok_put_fd.
    - apply table_ok_new; [done| |].
      + destruct (fds (sy_files s) !! q) as [x'|] eqn:Hx; [|done]. exfalso.
        apply (Hfresh (OFd q) (q, SIZEOF_FD)); [cbn; by rewrite Hx|done].
      + subst s1. cbn in Hd. by eapply to_type. }
  apply run_bind in Hr as ([] & s3 & Hu & Hr). injection Hr as _ <-. by eapply (upd_fd_keeps _ inc_refcount).
Qed.

(** The calls that only work on descriptors and pipes. *)
Inductive descriptor_call : M sys () → Prop :=
| call_close fd : descriptor_call (sys_close fd;; mret ())
| call_pipe : descriptor_call (sys_pipe;; mret ())
| call_pipe2 flags : descriptor_call (sys_pipe2 flags;; mret ())
| call_dup oldfd : descriptor_call (sys_dup oldfd;; mret ())
| call_dup2 oldfd newfd : descriptor_call (sys_dup2 oldfd newfd;; mret ()).

Definition descriptor_step s s' : Prop := ∃ m, descriptor_call m ∧ m s = Some ((), s').

Lemma descriptor_steps_good s s' : rtc descriptor_step s s' → good s [] → good s' [].
Proof.
  induction 1 as [|s1 s2 s3 (m & Hm & Hr) _ IH]; [done|]. intros Hg. apply IH.
  assert (keeps (λ s, good s []) m) as Hk; [|by eapply Hk].
  destruct Hm; apply keeps_bind; [auto using sys_close_keeps, keeps_ret|auto using keeps_ret|auto using sys_pipe_keeps, keeps_ret|auto using keeps_ret|
    auto using sys_pipe2_keeps, keeps_ret|auto using keeps_ret|auto using sys_dup_keeps, keeps_ret|auto using keeps_ret|auto using sys_dup2_keeps, keeps_ret|auto using keeps_ret].
Qed.
End descriptors.


(** ** The two ends of a pipe *)

Section ends.
Context {A H D W : Type} `{HA : !PageAlloc A, HH : !Malloc H, HD : !BlockDev D, HP : !Ports W}.
Implicit Types (s : sys A H D W).

(** Closing a descriptor of a pipe with a reference count of 1. *)
Lemma close_pipe_end s fd p d x :
  open_fd fd s = Some p → fds (sy_files s) !! p = Some d → fd_refcount d = 1 → fd_type d = FD_TYPE_PIPE →
  fd_private d ≠ 0 → pipes (sy_files s) !! fd_private d = Some x →
  ∃ s', sys_close fd s = Some (0, s') ∧ pipes (sy_files s') = delete (fd_private d) (pipes (sy_files s)) ∧
    fds (sy_files s') = delete p (<[p := set_refcount 0 d]> (fds (sy_files s))) ∧
    fd_table (sy_files s') = aset (fd_table (sy_files s)) fd 0.
Proof.
  intros Ho Hd Hr Ht Hp0 Hx. unfold sys_close, free_fd, the_fd, mbind, M_bind, gets, lift. rewrite Ho. cbn beta iota. rewrite Ho.
  cbn beta iota. rewrite Hd. cbn beta iota. rewrite Hr. change (u16 (1 - 1)) with 0. cbn [Z.eqb].
  unfold put_fd, upd_files, modify, free_private. cbn beta iota. rewrite Ht. cbn [FD_TYPE_PIPE FD_TYPE_SOCKET Z.eqb Pos.eqb].
  rewrite (proj2 (Z.eqb_neq _ _) Hp0). unfold the_pipe, gets, lift, mbind, M_bind. cbn [sy_files set_files pipes negb]. rewrite Hx.
  cbn. eexists. split; [done|]. done.
Qed.

Lemma lookup_pipe_end s fd p d :
  open_fd fd s = Some p → fds (sy_files s) !! p = Some d → fd_type d = FD_TYPE_PIPE → pipes (sy_files s) !! fd_private d = None →
  fd_private d ≠ 0 → fd_refcount d = 1 →
  (∀ polls buf count, buf ≠ 0 → fd ≠ STDIN_FILENO → sys_read polls fd buf count s = None) ∧
  (∀ fb buf count, buf ≠ 0 → fd ≠ STDOUT_FILENO → fd ≠ STDERR_FILENO → sys_write fb fd buf count s = None) ∧
  sys_close fd s = None.
Proof.
  intros Ho Hd Ht Hx Hp0 Hr. split_and!.
  - intros polls buf count Hb Hfd. unfold sys_read. rewrite (proj2 (Z.eqb_neq _ _) Hb). unfold mbind at 1, M_bind at 1, gets. rewrite Ho.
    rewrite (proj2 (Z.eqb_neq _ _) Hfd). unfold the_fd, mbind, M_bind, gets, lift. rewrite Hd. cbn beta iota. rewrite Ht. cbn [FD_TYPE_PIPE FD_TYPE_SOCKET Z.eqb Pos.eqb].
    unfold read_pipe, the_pipe, mbind, M_bind, gets, lift. by rewrite Hx.
  - intros fb buf count Hb Hf1 Hf2. unfold sys_write. rewrite (proj2 (Z.eqb_neq _ _) Hb). unfold mbind at 1, M_bind at 1, gets. rewrite Ho.
    rewrite (proj2 (Z.eqb_neq _ _) Hf1), (proj2 (Z.eqb_neq _ _) Hf2). cbn [orb]. unfold the_fd, mbind, M_bind, gets, lift. rewrite Hd. cbn beta iota. rewrite Ht. cbn [FD_TYPE_PIPE FD_TYPE_SOCKET Z.eqb Pos.eqb].
    unfold write_pipe, the_pipe, mbind, M_bind, gets, lift. by rewrite Hx.
  - unfold sys_close, free_fd, the_fd, mbind, M_bind, gets, lift. rewrite Ho. cbn beta iota. rewrite Ho. cbn beta iota. rewrite Hd. cbn beta iota.
    rewrite Hr. change (u16 (1 - 1)) with 0. cbn [Z.eqb]. unfold put_fd, upd_files, modify, free_private. cbn beta iota. rewrite Ht.
    cbn [FD_TYPE_PIPE FD_TYPE_SOCKET Z.eqb Pos.eqb]. rewrite (proj2 (Z.eqb_neq _ _) Hp0). unfold the_pipe, gets, lift, mbind, M_bind.
    cbn [sy_files set_files pipes negb]. by rewrite Hx.
Qed.
End ends.


(** ** The bytes in a pipe *)

(** The ring holds the bytes [l], oldest first. *)
Definition ring_ok (x : pipe_t) (l : list Z) : Prop :=
  0 < buffer_size x < 18446744073709551616 ∧ Z.of_nat (length (p_bytes x)) = buffer_size x ∧ 0 <= read_pos x < buffer_size x ∧
  Z.of_nat (length l) <= buffer_size x ∧ write_pos x = (read_pos x + Z.of_nat (length l)) mod buffer_size x ∧
  ring_contents (p_bytes x) (buffer_size x) (read_pos x) (Z.of_nat (length l)) = Some <$> l.
Definition pipe_holds (x : pipe_t) (l : list Z) : Prop := ring_ok x l ∧ data_size x = Z.of_nat (length l).

Lemma index_aget (l : list (option Z)) i : 0 <= i < Z.of_nat (length l) → index l i = Some (aget l i).
Proof.
  intros Hi. unfold index, aget. rewrite (proj2 (Z.ltb_ge _ _)) by lia. apply list_lookup_lookup_total_lt. lia.
Qed.

Lemma pipe_take_ok n : ∀ x l, ring_ok x l → (n <= length l)%nat →
  ∃ y, pipe_take n x = Some (take n l, y) ∧ ring_ok y (drop n l) ∧ data_size y = data_size x ∧ p_buffer y = p_buffer x ∧ buffer_size y = buffer_size x.
Proof.
  induction n as [|n IH]; intros x l Hx Hn; [exists x; done|]. destruct l as [|b l]; [simpl in Hn; lia|].
  destruct Hx as (Hsz & Hlen & Hrp & Hfit & Hwp & Hc). cbn [length] in *.
  rewrite (ring_get (p_bytes x) (buffer_size x) (read_pos x)) in Hc by lia. cbn [fmap list_fmap] in Hc.
  injection Hc as Hb Hc. cbn [pipe_take]. rewrite index_aget by lia. rewrite Hb. cbn [mbind option_bind].
  set (x' := mk_pipe _ _ _ _ _ _).
  destruct (IH x' l) as (y & Hy & Hok & Hd & Hbuf & Hs); [|lia|].
  - unfold ring_ok. cbn. split; [lia|]. split; [done|]. split; [apply Z.mod_pos_bound; lia|]. split; [lia|]. split.
    + rewrite Hwp. replace (Z.of_nat (S (length l))) with (1 + Z.of_nat (length l)) by lia.
      rewrite Zplus_mod_idemp_l. f_equal. lia.
    + replace (Z.of_nat (S (length l)) - 1) with (Z.of_nat (length l)) in Hc by lia. done.
  - rewrite Hy. cbn. exists y. auto.
Qed.

Lemma pipe_append_ok d : ∀ x l, ring_ok x l → Z.of_nat (length l + length d) <= buffer_size x →
  ∃ y, pipe_append d x = Some y ∧ ring_ok y (l ++ d) ∧ data_size y = data_size x ∧ p_buffer y = p_buffer x ∧ buffer_size y = buffer_size x.
Proof.
  induction d as [|b d IH]; intros x l Hx Hn; [exists x; rewrite app_nil_r; done|]. cbn [length] in Hn.
  destruct Hx as (Hsz & Hlen & Hrp & Hfit & Hwp & Hc). cbn [pipe_append].
  assert (0 <= write_pos x < buffer_size x) as Hw by (rewrite Hwp; apply Z.mod_pos_bound; lia).
  rewrite index_aget by lia. cbn [mbind option_bind]. set (x' := mk_pipe _ _ _ _ _ _).
  destruct (IH x' (l ++ [b])) as (y & Hy & Hok & Hd & Hbuf & Hs); [|rewrite length_app; cbn; lia|].
  - unfold ring_ok. cbn. rewrite length_app. cbn [length]. rewrite Nat2Z.inj_add. change (Z.of_nat 1) with 1.
    split; [lia|]. split; [by rewrite length_aset|]. split; [done|]. split; [lia|]. split.
    + rewrite Hwp. apply ring_pos_succ. lia.
    + rewrite Hwp, ring_put by lia. rewrite Hc, fmap_app. done.
  - rewrite Hy. exists y. rewrite <- app_assoc in Hok. auto.
Qed.

Section transfers.
Context {A H D W : Type} `{HA : !PageAlloc A, HH : !Malloc H, HD : !BlockDev D, HP : !Ports W}.
Implicit Types (s : sys A H D W).

Definition with_pipe (p : Z) (x : pipe_t) s : sys A H D W :=
  set_files (mk_files (fd_table (sy_files s)) (fds (sy_files s)) (<[p := x]> (pipes (sy_files s))) (socks (sy_files s))) s.

Lemma load_bytes_length n : ∀ va s l s', load_bytes va n s = Some (l, s') → length l = n.
Proof.
  induction n as [|n IH]; intros va s l s' Hr; [by injection Hr as <- _|]. cbn [load_bytes] in Hr.
  apply run_bind in Hr as (o & s1 & _ & Hr). apply run_bind in Hr as (b & s2 & _ & Hr).
  apply run_bind in Hr as (l' & s3 & Hl & Hr). injection Hr as <- _. cbn. f_equal. by eapply IH.
Qed.

Lemma write_pipe_ok p buf count x l data s :
  pipes (sy_files s) !! p = Some x → pipe_holds x l → 0 <= count →
  let k := Z.min count (buffer_size x - Z.of_nat (length l)) in
  load_bytes buf (Z.to_nat k) s = Some (data, s) →
  ∃ y, write_pipe p buf count s = Some (k, with_pipe p y s) ∧ pipe_holds y (l ++ data) ∧ buffer_size y = buffer_size x.
Proof.
  intros Hp [Hok Hds] Hc k Hl. pose proof Hok as (Hsz & _ & _ & Hfit & _).
  assert (u64 (buffer_size x - data_size x) = buffer_size x - Z.of_nat (length l)) as Hav by (rewrite Hds; apply u64_small; unfold is_u64; lia).
  assert ((if count <? buffer_size x - Z.of_nat (length l) then count else buffer_size x - Z.of_nat (length l)) = k) as Hk.
  { unfold k. destruct (count <? _) eqn:Hcmp; zbool; lia. }
  unfold write_pipe, the_pipe, mbind, M_bind, gets, lift. rewrite Hp. cbn beta iota zeta. rewrite Hav, Hk, Hl.
  pose proof (load_bytes_length _ _ _ _ _ Hl) as Hdl.
  destruct (pipe_append_ok data x l Hok) as (y & Hy & Hoky & Hdy & _ & Hsy); [lia|]. rewrite Hy. eexists. split; [done|]. split; [|done].
  split; [exact Hoky|]. cbn. rewrite Hdy, Hds, length_app. rewrite u64_small by (unfold is_u64; lia). lia.
Qed.

Lemma read_pipe_ok p buf count x l s m :
  pipes (sy_files s) !! p = Some x → pipe_holds x l → 0 <= count →
  let k := Z.min count (Z.of_nat (length l)) in
  Elf.store_bytes buf (take (Z.to_nat k) l) (sy_machine s) = Some ((), m) →
  ∃ y, read_pipe p buf count s = Some (k, with_pipe p y (set_machine m s)) ∧ pipe_holds y (drop (Z.to_nat k) l) ∧ buffer_size y = buffer_size x.
Proof.
  intros Hp [Hok Hds] Hc k Hst. pose proof Hok as (Hsz & _ & _ & Hfit & _).
  assert ((if count <? data_size x then count else data_size x) = k) as Hk.
  { rewrite Hds. unfold k. destruct (count <? _) eqn:Hcmp; zbool; lia. }
  unfold read_pipe, the_pipe, mbind, M_bind, gets, lift. rewrite Hp. cbn beta iota zeta. rewrite Hk.
  destruct (pipe_take_ok (Z.to_nat k) x l Hok) as (y & Hy & Hoky & Hdy & _ & Hsy); [lia|]. rewrite Hy. cbn beta iota.
  unfold store_bytes, on_machine. rewrite Hst. eexists. split; [done|]. split; [|done]. split; [exact Hoky|].
  cbn. rewrite Hdy, Hds, length_drop. rewrite u64_small by (unfold is_u64; lia). lia.
Qed.
End transfers.

(** C40: a pipe delivers the bytes that were written in order: writing [count]
    bytes to a pipe that holds [l] stores as many of them as there is room for,
    and reading afterwards gives the oldest bytes, [l] before the new ones,
    and leaves the others in the pipe. *)
Theorem pipe_calls_fifo {A H D W} `{!PageAlloc A, !Malloc H, !BlockDev D, !Ports W} polls fb (s : sys A H D W)
    r w pr pw dr dw p x l buf count data buf' count' m :
  open_fd w s = Some pw → fds (sy_files s) !! pw = Some dw → fd_type dw = FD_TYPE_PIPE → fd_private dw = p →
  open_fd r s = Some pr → fds (sy_files s) !! pr = Some dr → fd_type dr = FD_TYPE_PIPE → fd_private dr = p →
  r ≠ STDIN_FILENO → w ≠ STDOUT_FILENO → w ≠ STDERR_FILENO → buf ≠ 0 → buf' ≠ 0 → 0 <= count → 0 <= count' →
  pipes (sy_files s) !! p = Some x → pipe_holds x l →
  let k := Z.min count (buffer_size x - Z.of_nat (length l)) in
  load_bytes buf (Z.to_nat k) s = Some (data, s) →
  let k' := Z.min count' (Z.of_nat (length l) + k) in
  Elf.store_bytes buf' (take (Z.to_nat k') (l ++ data)) (sy_machine s) = Some ((), m) →
  ∃ s1 s2 y, sys_write fb w buf count s = Some (k, s1) ∧ sys_read polls r buf' count' s1 = Some (k', s2) ∧
    sy_machine s2 = m ∧ pipes (sy_files s2) !! p = Some y ∧ pipe_holds y (drop (Z.to_nat k') (l ++ data)).
Proof.
  intros How Hdw Htw Hpw Hor Hdr Htr Hpr Hr0 Hw1 Hw2 Hb Hb' Hc Hc' Hp Hx k Hl k' Hst.
  destruct (write_pipe_ok p buf count x l data s Hp Hx Hc Hl) as (y & Hwr & Hy & Hsy). fold k in Hwr.
  assert (Z.of_nat (length data) = k) as Hdl.
  { apply load_bytes_length in Hl. destruct Hx as [(? & _ & _ & ? & _) _]. unfold k in *. lia. }
  set (s1 := with_pipe p y s).
  assert (pipes (sy_files s1) !! p = Some y) as Hp1 by (cbn; apply lookup_insert_eq).
  assert (Z.min count' (Z.of_nat (length (l ++ data))) = k') as Hk' by (unfold k'; rewrite length_app; lia).
  destruct (read_pipe_ok p buf' count' y (l ++ data) s1 m Hp1 Hy Hc') as (z & Hrd & Hz & _); [by rewrite Hk'|]. rewrite Hk' in Hrd, Hz.
  exists s1, (with_pipe p z (set_machine m s1)), z. split_and!; [| |done|cbn; apply lookup_insert_eq|done].
  - unfold sys_write. rewrite (proj2 (Z.eqb_neq _ _) Hb). unfold mbind at 1, M_bind at 1, gets. rewrite How.
    rewrite (proj2 (Z.eqb_neq _ _) Hw1), (proj2 (Z.eqb_neq _ _) Hw2). cbn [orb]. unfold the_fd, mbind, M_bind, gets, lift. rewrite Hdw.
    cbn beta iota. rewrite Htw, Hpw. exact Hwr.
  - unfold sys_read. rewrite (proj2 (Z.eqb_neq _ _) Hb'). unfold mbind at 1, M_bind at 1, gets.
    change (open_fd r s1) with (open_fd r s). rewrite Hor, (proj2 (Z.eqb_neq _ _) Hr0). unfold the_fd, mbind, M_bind, gets, lift.
    change (fds (sy_files s1)) with (fds (sy_files s)). rewrite Hdr. cbn beta iota. rewrite Htr, Hpr. exact Hrd.
Qed.

(** ** The program break *)

Section paging.
Context {V : Type} `{!Paging V}.
Implicit Types (v : V) (ps : list (Z * Z)).

Lemma mapped_frame v v' ps :
  Elf.mapped_pages v ps → pg_ok v' → (∀ q, pg_held v q → pg_held v' q) →
  (∀ x o, x ∈ ps → 0 <= o < 4096 → pg_pte v' (x.1 + o) = pg_pte v (x.1 + o)) → Elf.mapped_pages v' ps.
Proof.
  intros [Hok Hnd Hp] Hok' Hh Hpte. split; [done..|]. intros x Hx. destruct (Hp x Hx) as ([Ha Hheld] & Hr & Ho).
  split; [auto|]. split; [done|]. intros o Hor. rewrite <- Ho by done. by rewrite !pg_phys_spec, Hpte.
Qed.

Lemma mapped_prefix v ps ps' : Elf.mapped_pages v (ps ++ ps') → Elf.mapped_pages v ps.
Proof.
  intros [Hok Hnd Hp]. split; [done| |].
  - rewrite fmap_app in Hnd. by apply NoDup_app in Hnd as [? _].
  - intros x Hx. apply Hp, elem_of_app. by left.
Qed.

Lemma mapped_unmap v ps virt ok v' :
  Elf.mapped_pages v ps → pg_unmap virt v = (ok, v') → virt mod 4096 = 0 → 0 <= virt < 140737488355328 → virt ∉ ps.*1 →
  Elf.mapped_pages v' ps.
Proof.
  intros Hm Hu Hal Hr Hn. pose proof (pg_unmap_spec v virt (Elf.mp_ok _ _ Hm)) as Hs. rewrite Hu in Hs.
  destruct Hs as (Hok & Hh & Hpte & _). eapply mapped_frame; [done..|]. intros x o Hx Ho. rewrite Hpte.
  destruct (Elf.mp_pages _ _ Hm x Hx) as (_ & [Hxa Hxr] & _).
  destruct (vpn (x.1 + o) =? vpn virt) eqn:Hv; zbool; [|done]. exfalso.
  apply (Elf.vpn_neq x.1 virt o); try done. intros Heq. apply Hn, list_elem_of_fmap. by exists x.
Qed.

Lemma mapped_alloc v ps p v' : Elf.mapped_pages v ps → pg_alloc v = (p, v') → Elf.mapped_pages v' ps.
Proof.
  intros Hm Ha. pose proof (pg_alloc_spec v (Elf.mp_ok _ _ Hm)) as Hs. rewrite Ha in Hs. destruct Hs as (Hok & Hpte & Hh & _).
  eapply mapped_frame; [done..| |]; [intros q Hq; by apply Hh|intros; apply Hpte].
Qed.

Lemma mapped_map_fails v ps virt phys flags v' :
  Elf.mapped_pages v ps → 0 <= flags < 4096 → pg_map virt phys flags v = (false, v') → Elf.mapped_pages v' ps.
Proof.
  intros Hm Hf Hp. pose proof (pg_map_spec v virt phys flags (Elf.mp_ok _ _ Hm) Hf) as Hs. rewrite Hp in Hs.
  destruct Hs as (Hok & Hh & Hpte). eapply mapped_frame; [done..|]. intros; apply Hpte.
Qed.
End paging.

Section break.
Context {A H D W : Type} `{HA : !PageAlloc A, HH : !Malloc H, HD : !BlockDev D, HP : !Ports W}.
Implicit Types (s : sys A H D W) (ps : list (Z * Z)).

Definition vm s : Vmm.vmm A := Elf.m_vm (sy_machine s).
Definition mem s : gmap Z Z := Elf.m_mem (sy_machine s).

(** The page of index [i] from [addr] on. *)
Definition page_at (addr i : Z) : Z := addr + i * Pmm.PAGE_SIZE.

(** All but the page tables and the physical pages. *)
Definition same_but_vm s s' : Prop := ∃ v, s' = set_machine (Elf.mk_machine v (mem s)) s.

Lemma same_but_vm_refl s : same_but_vm s s.
Proof. exists (vm s). unfold mem, vm. destruct s as [? ? ? ? ? ? ? ? [] ? ?]. done. Qed.
Lemma same_but_vm_trans s1 s2 s3 : same_but_vm s1 s2 → same_but_vm s2 s3 → same_but_vm s1 s3.
Proof. intros [v1 ->] [v2 ->]. by exists v2. Qed.

Context (addr n : Z) (Haddr : addr mod 4096 = 0) (Hrange : 0 <= addr ∧ addr + n * 4096 <= 140737488355328).

Lemma page_at_ok i : 0 <= i < n → u64 (page_at addr i) = page_at addr i ∧ page_at addr i mod 4096 = 0 ∧ 0 <= page_at addr i < 140737488355328.
Proof.
  intros Hi. unfold page_at, Pmm.PAGE_SIZE. split; [apply u64_small; unfold is_u64; nia|]. split; [|nia].
  by rewrite Z.mod_add.
Qed.

Lemma unmap_pages_ok ps is' s :
  Elf.mapped_pages (vm s) ps → (∀ i, i ∈ is' → 0 <= i < n ∧ page_at addr i ∉ ps.*1) →
  wp (unmap_pages addr is') (λ _ s', Elf.mapped_pages (vm s') ps ∧ same_but_vm s s') s.
Proof.
  intros Hm His. unfold unmap_pages.
  eapply wp_mono; [apply (wp_for_list is' _ (λ _ s', Elf.mapped_pages (vm s') ps ∧ same_but_vm s s'))|done].
  - split; [done|apply same_but_vm_refl].
  - intros done i t [l Hl] [Hmt Hst]. destruct (His i) as [Hi Hni].
    { rewrite Hl, !elem_of_app. left. right. by left. }
    destruct (page_at_ok i Hi) as (Hu & Hal & Hr). change (addr + i * Pmm.PAGE_SIZE) with (page_at addr i). rewrite Hu.
    apply wp_bind. unfold vmm_unmap_page, on_machine, wp. destruct (Vmm.vmm_unmap_page (page_at addr i) (Elf.m_vm (sy_machine t))) as [ok v] eqn:Hv.
    unfold mret, M_ret. split; [by eapply mapped_unmap|]. eapply same_but_vm_trans; [exact Hst|]. by exists v.
Qed.

Lemma map_new_page_ok ps flags i s :
  Elf.mapped_pages (vm s) ps → 0 <= i < n → page_at addr i ∉ ps.*1 → 0 <= flags < 4096 →
  wp (map_new_page addr flags i) (λ ok s', same_but_vm s s' ∧
    if (ok : bool) then ∃ p, Elf.mapped_pages (vm s') (ps ++ [(page_at addr i, p)]) else Elf.mapped_pages (vm s') ps) s.
Proof.
  intros Hm Hi Hni Hf. destruct (page_at_ok i Hi) as (Hu & Hal & Hr). unfold map_new_page.
  change (addr + i * Pmm.PAGE_SIZE) with (page_at addr i). rewrite Hu.
  apply wp_bind. unfold on_machine at 1, wp at 1, Elf.pmm_alloc_page. destruct (pg_alloc (Elf.m_vm (sy_machine s))) as [p v1] eqn:Ha.
  destruct (p =? 0) eqn:Hp; zbool.
  { apply wp_ret. split; [by exists v1|]. by eapply mapped_alloc. }
  unfold on_machine, wp, Elf.vmm_map_page. cbn [sy_machine set_machine Elf.m_vm].
  destruct (pg_map (page_at addr i) p flags v1) as [[] v2] eqn:Hmp.
  - split; [by exists v2|]. exists p. by eapply Elf.map_one_page.
  - split; [by exists v2|]. eapply mapped_map_fails; [|done..]. by eapply mapped_alloc.
Qed.

Lemma map_new_pages_ok ps flags k : ∀ i new s,
  0 <= flags < 4096 → 0 <= i → i + Z.of_nat k = n → (∀ j, 0 <= j < n → page_at addr j ∉ ps.*1) →
  Elf.mapped_pages (vm s) (ps ++ new) → new.*1 = page_at addr <$> seqZ 0 i →
  wp (map_new_pages addr flags (seqZ i (Z.of_nat k))) (λ ok s', same_but_vm s s' ∧
    if (ok : bool) then ∃ new', Elf.mapped_pages (vm s') (ps ++ new') ∧ new'.*1 = page_at addr <$> seqZ 0 n
    else Elf.mapped_pages (vm s') ps) s.
Proof.
  induction k as [|k IH]; intros i new s Hf Hi Hk Hps Hm Hnew.
  - rewrite seqZ_nil by lia. apply wp_ret. split; [apply same_but_vm_refl|]. exists new. by replace n with i by lia.
  - rewrite seqZ_cons by lia. cbn [map_new_pages]. apply wp_bind.
    assert (page_at addr i ∉ (ps ++ new).*1) as Hni.
    { rewrite fmap_app, elem_of_app. intros [Hin|Hin]; [by apply (Hps i); [lia|]|]. rewrite Hnew in Hin.
      apply list_elem_of_fmap in Hin as (j & Heq & Hj%elem_of_seqZ). unfold page_at, Pmm.PAGE_SIZE in Heq. lia. }
    eapply wp_mono; [apply (map_new_page_ok (ps ++ new) flags i); (done || lia)|]. cbn beta. intros [] s1 [Hs1 Hm1].
    + destruct Hm1 as [p Hm1]. rewrite <- app_assoc in Hm1. replace (Z.pred (Z.of_nat (S k))) with (Z.of_nat k) by lia.
      eapply wp_mono; [apply (IH (Z.succ i) (new ++ [(page_at addr i, p)])); try done; [lia|lia|]|].
      * rewrite fmap_app, Hnew. replace (Z.succ i) with (i + 1) by lia. rewrite seqZ_app, fmap_app by lia. done.
      * cbn beta. intros ok s2 [Hs2 Hok]. split; [by eapply same_but_vm_trans|done].
    + apply wp_bind. eapply wp_mono; [apply (unmap_pages_ok ps)|].
      * by eapply mapped_prefix.
      * intros j Hj%elem_of_seqZ. split; [lia|]. apply Hps. lia.
      * cbn beta. intros _ s2 [Hm2 Hs2]. apply wp_ret. split; [by eapply same_but_vm_trans|done].
Qed.
End break.

(** Moving the program break up either maps every page between the old and
    the new break to a physical page of its own and answers the new break, or
    fails with -1 and leaves the break where it was; memory and the pages that
    were mapped before stay as they are. *)
Theorem sys_brk_grows {A H D W} `{!PageAlloc A, !Malloc H, !BlockDev D} (s : sys A H D W) b addr ps :
  program_break s = b → b mod 4096 = 0 → 0 < b → b < Elf.PAGE_ALIGN_UP addr → 0 < addr → addr <= 140737488351232 →
  Elf.mapped_pages (vm s) ps →
  let new := Elf.PAGE_ALIGN_UP addr in
  let n := (new - b) / Pmm.PAGE_SIZE in
  (∀ i, 0 <= i < n → page_at b i ∉ ps.*1) →
  wp (sys_brk addr) (λ r s', mem s' = mem s ∧
    (r = new ∧ program_break s' = new ∧ (∃ ps', Elf.mapped_pages (vm s') (ps ++ ps') ∧ ps'.*1 = page_at b <$> seqZ 0 n) ∨
     r = u64 (-1) ∧ program_break s' = b ∧ Elf.mapped_pages (vm s') ps)) s.
Proof.
  intros Hb Hbal Hb0 Hlt Ha0 Ha Hm new n Hps. assert (new = (addr + 4095) / 4096 * 4096) as Hnew by (apply Elf.page_align_up; lia).
  assert (b + n * 4096 = new) as Hn by (unfold n, Pmm.PAGE_SIZE; rewrite Hnew; Z.to_euclidean_division_equations; lia).
  assert (0 <= n) as Hn0 by (unfold n, Pmm.PAGE_SIZE; apply Z.div_pos; unfold new; lia).
  assert (new <= 140737488355328) as Htop by (rewrite Hnew; Z.to_euclidean_division_equations; lia).
  unfold sys_brk. apply wp_bind, wp_gets. rewrite Hb, (proj2 (Z.eqb_neq b 0)) by lia. apply wp_bind, wp_ret, wp_bind, wp_gets.
  rewrite Hb, (proj2 (Z.eqb_neq addr 0)), (proj2 (Z.ltb_lt _ _) Hlt) by lia. fold new. fold n.
  apply wp_bind. replace n with (Z.of_nat (Z.to_nat n)) at 1 by lia.
  eapply wp_mono; [apply (map_new_pages_ok b n Hbal ltac:(lia) ps _ (Z.to_nat n) 0 []); try done; try lia; by rewrite app_nil_r|].
  cbn beta. intros [] s1 [[v ->] Hok].
  - apply wp_bind, wp_modify, wp_ret. split; [done|]. left. done.
  - apply wp_ret. split; [done|]. right. done.
Qed.

(** ** Witnesses *)

#[local] Existing Instance Serial.serial_log_ports.
#[local] Existing Instance Pmm.pmm_page_alloc.
#[local] Existing Instance Ext2Demo.ram_dev.

Definition demo_kernel : Process.kernel Pmm.pmm nat := Process.mk_kernel 0 0 1 0 0 0 ∅ ∅ [] Pmm.demo_pmm 0%nat.
Definition demo_fs : Ext2.state Ext2Demo.ram nat := Ext2.mk_state None false ∅ 0%nat (Ext2Clock.mk_clock 0 0 0).
Definition demo_sys (f : files) (b : Z) (m : Elf.machine (Vmm.vmm Pmm.pmm)) : sys Pmm.pmm nat Ext2Demo.ram Serial.serial_log :=
  mk_sys f b 105553116266496 (0, 0) 0%nat demo_fs Net.demo_net demo_kernel m ∅ (Serial.mk_serial_log []).

Definition no_files : files := mk_files (replicate 256 0) ∅ ∅ ∅.
Definition demo_machine : Elf.machine (Vmm.vmm Pmm.pmm) :=
  Elf.mk_machine (snd (Vmm.vmm_map_page 1073745920 8192 3 Vmm.demo_vmm)) (<[8192 := 7]> (<[8193 := 8]> ∅)).
Definition empty_sys := demo_sys no_files 1073741824 (Elf.mk_machine Vmm.demo_vmm ∅).

Lemma empty_sys_good : good empty_sys [].
Proof.
  split; split; cbn -[replicate].
  - done.
  - by intros [] b.
  - by intros [] o' b.
  - done.
  - intros i p Hp. apply lookup_replicate in Hp as [-> _]. done.
  - intros i j p Hp. apply lookup_replicate in Hp as [-> _]. done.
  - intros p d. by rewrite lookup_empty.
Qed.

Lemma empty_sys_pipe : ∃ s', sys_pipe empty_sys = Some ((0, Some (0, 1)), s').
Proof.
  destruct (sys_pipe empty_sys) as [[r s']|] eqn:Hr; [|vm_compute in Hr; discriminate].
  exists s'. repeat f_equal. apply (f_equal (fmap fst)) in Hr. vm_compute in Hr. by injection Hr as <-.
Qed.



Definition demo_end (flags : Z) : file_descriptor_t := mk_fd 0 0 flags 1 300 FD_TYPE_PIPE.
Definition demo_pipe : pipe_t := mk_pipe 400 (replicate 4096 None) 4096 0 0 0.
Definition pipe_sys := demo_sys
  (mk_files ([0; 0; 0; 100; 200] ++ replicate 251 0) (<[100 := demo_end O_RDONLY]> (<[200 := demo_end O_WRONLY]> ∅)) (<[300 := demo_pipe]> ∅) ∅)
  1073741824 demo_machine.

Lemma pipe_calls_fifo_witness :
  ∃ s1 s2, sys_write None 4 1073745920 2 pipe_sys = Some (2, s1) ∧ sys_read 9 3 1073745930 5 s1 = Some (2, s2).
Proof.
  assert (Hh : pipe_holds demo_pipe []).
  { unfold pipe_holds, ring_ok. cbn -[replicate]. rewrite length_replicate. split; [|reflexivity]. repeat split; lia. }
  assert (Hl : load_bytes 1073745920 2 pipe_sys = Some ([7; 8], pipe_sys)) by reflexivity.
  destruct (Elf.store_bytes 1073745930 [7; 8] (sy_machine pipe_sys)) as [[[] m]|] eqn:Hm; [|vm_compute in Hm; discriminate Hm].
  destruct (pipe_calls_fifo 9 None pipe_sys 3 4 100 200 (demo_end O_RDONLY) (demo_end O_WRONLY) 300 demo_pipe [] 1073745920 2 [7; 8] 1073745930 5 m
    eq_refl eq_refl eq_refl eq_refl eq_refl eq_refl eq_refl eq_refl ltac:(discriminate) ltac:(discriminate) ltac:(discriminate)
    ltac:(discriminate) ltac:(discriminate) ltac:(lia) ltac:(lia) eq_refl Hh Hl Hm) as (s1 & s2 & y & H1 & H2 & _).
  exists s1, s2. split; [exact H1|exact H2].
Defined.

Lemma sys_brk_grows_witness :
  ∃ r s', sys_brk 1073746824 empty_sys = Some (r, s') ∧ mem s' = ∅.
Proof.
  assert (Hm : Elf.mapped_pages (vm empty_sys) []).
  { split; [exact Vmm.demo_vmm_wf|constructor|]. intros x Hx. by apply elem_of_nil in Hx. }
  pose proof (sys_brk_grows empty_sys 1073741824 1073746824 [] eq_refl eq_refl eq_refl eq_refl eq_refl ltac:(vm_compute; discriminate) Hm
    (λ i _ Hi, not_elem_of_nil _ Hi)) as Hw.
  destruct (wp_run _ _ _ Hw) as (r & s' & Hr & Hmem & _). exists r, s'. split; [exact Hr|exact Hmem].
Defined.
