(* ===== verification/ElfLog.v ===== *)
(** * The error messages of the ELF loader ([kernel/src/core/elf.c], [log_elf_error])

    [elf_load_executable] of [Elf.v] together with what it draws on the screen
    when it gives up ([DEBUG_ELF] is 1). *)
From S2P Require Import Prelude Interfaces Monad Mmio Display Elf.

Definition RED : Z := 16711680.

Definition elf_error_message (error : Elf_Load_Error) : list Z :=
  match error with
  | ELF_ERR_INVALID_MAGIC => text "Invalid ELF magic number"
  | ELF_ERR_UNSUPPORTED_CLASS => text "Unsupported ELF class (not 64-bit)"
  | ELF_ERR_UNSUPPORTED_MACHINE => text "Unsupported machine type"
  | ELF_ERR_INVALID_FILE_TYPE => text "Invalid ELF file type"
  | ELF_ERR_SEGMENT_OVERLAP => text "ELF segments overlap"
  | ELF_ERR_MEMORY_ALLOCATION => text "Failed to allocate memory for ELF segments"
  | ELF_ERR_SEGMENT_MAPPING => text "Failed to map ELF segment"
  | ELF_ERR_DATA_TRUNCATED => text "ELF file data is truncated"
  | ELF_LOAD_SUCCESS => text "Unknown ELF loading error"
  end.

Section log.
Context (global_framebuffer : framebuffer).

Definition log_elf_error (error : Elf_Load_Error) : M (gmap Z Z) () :=
  draw_string global_framebuffer (text "ELF Loading Error: ") 0 220 RED;;
  draw_string global_framebuffer (elf_error_message error) 0 240 RED.

(** The loader with its messages: each early return draws the error first. *)
Definition elf_load_and_log {V} `{!Paging V} (data : list Z) (data_size : Z) : M (machine V * gmap Z Z) (Elf_Load_Error * Z) :=
  r ← on_fst (elf_load_executable data data_size);
  (if decide (r.1 = ELF_LOAD_SUCCESS) then mret () else on_snd (log_elf_error r.1));;
  mret r.
End log.

(** Each message consists of characters of the font, so that drawing it never
    reads outside the glyphs. *)
Lemma messages_printable error : Forall (λ c, 32 <= c < 127) (elf_error_message error).
Proof. destruct error; apply (bool_decide_unpack _); vm_compute; exact I. Qed.

(** A program that is loaded leaves the screen alone. *)
Lemma load_success_silent fb {V} `{!Paging V} data size (s s' : machine V * gmap Z Z) r :
  elf_load_and_log fb data size s = Some (r, s') → r.1 = ELF_LOAD_SUCCESS →
  s'.2 = s.2 ∧ elf_load_executable data size s.1 = Some (r, s'.1).
Proof.
  unfold elf_load_and_log. intros (r0 & s1 & H1 & Hr)%run_bind Hs. apply run_bind in Hr as (u & s2 & H2 & Hr).
  injection Hr as -> ->. unfold on_fst in H1. destruct (elf_load_executable data size s.1) as [[x t]|]; [|done].
  injection H1 as -> <-. rewrite decide_True in H2 by done. injection H2 as _ <-. done.
Qed.
