(* ===== verification/RtcIrq.v ===== *)
(** * The interrupt of the real-time clock ([kernel/src/core/drivers/rtc/rtc.c])

    [rtc_handler] and [rtc_register_handler] on the clock's registers of [Rtc.v],
    the interrupt tables of [Idt.v] and the interrupt controller of [Serial.v].
    A callback is an address, 0 is NULL; calling one is the parameter [invoke]. *)
From S2P Require Import Prelude Interfaces Monad Serial Rtc.
From S2P Require Idt.

Definition IRQ8 : Z := 40.

Record rtc_irq (W : Type) := mk_rtc_irq { rtc_callback : Z; r_idt : Idt.idt_state; r_world : W }.
Arguments mk_rtc_irq {_}.
Arguments rtc_callback {_}.
Arguments r_idt {_}.
Arguments r_world {_}.

Section irq.
Context {W : Type} `{!Ports W} (invoke : Z → Monad.M W ()).
Abbreviation M := (Monad.M (rtc_irq W)).

Definition on_world {X} (m : Monad.M W X) : M X := λ s,
  match m (r_world s) with Some (x, w) => Some (x, mk_rtc_irq (rtc_callback s) (r_idt s) w) | None => None end.

(** Status register C is read so that the clock interrupts again. *)
Definition rtc_handler : M () :=
  on_world (read_rtc_reg RTC_STATUS_C);;
  callback ← gets rtc_callback;
  (if callback =? 0 then mret () else on_world (invoke callback));;
  on_world (pic_send_eoi 8).

(** [rtc_handler_address] is the address of [rtc_handler]. *)
Definition rtc_register_handler (handler rtc_handler_address : Z) : M () :=
  modify (λ s, mk_rtc_irq handler (r_idt s) (r_world s));;
  (λ s, '((), i) ← Idt.register_interrupt_handler IRQ8 rtc_handler_address (r_idt s);
        Some ((), mk_rtc_irq (rtc_callback s) i (r_world s)));;
  on_world (pic_clear_mask 8).

Lemma wp_irq_world {X} (m : Monad.M W X) (Q : X → rtc_irq W → Prop) s :
  wp m (λ x w, Q x (mk_rtc_irq (rtc_callback s) (r_idt s) w)) (r_world s) → wp (on_world m) Q s.
Proof. unfold wp, on_world. by destruct (m (r_world s)) as [[x w]|]. Qed.

(** After the registration vector 40 leads to the handler, which calls the
    callback; no other vector changes. *)
Lemma rtc_registered handler address (s : rtc_irq W) :
  Idt.tables_ok (r_idt s) →
  wp (rtc_register_handler handler address) (λ _ s',
    rtc_callback s' = handler ∧
    ∀ v, 0 <= v → index (Idt.interrupt_handlers (r_idt s')) v =
      if v =? IRQ8 then Some address else index (Idt.interrupt_handlers (r_idt s)) v) s.
Proof.
  intros Hok. assert (0 <= IRQ8 < Z.of_nat (length (Idt.interrupt_handlers (r_idt s)))) as Hr by (rewrite (Idt.tok_interrupt _ Hok); done).
  unfold rtc_register_handler. apply wp_bind, wp_modify, wp_bind.
  unfold wp at 1, Idt.register_interrupt_handler, Idt.set_interrupt. change (32 <=? IRQ8) with true. cbn iota beta.
  rewrite Idt.store_at_some by done. cbn [mbind option_bind]. apply wp_irq_world. unfold pic_clear_mask. destruct (pic_line 8) as [port line].
  apply wp_bind, wp_call, wp_modify. split; [done|]. intros v Hv. by apply Idt.index_insert.
Qed.
End irq.
