(* ===== verification/Boot.v ===== *)
(** * The start of the kernel ([kernel/src/main.c])

    What [kmain] does before it turns to the devices, with the components
    composed as the code composes them: [boot_memory] runs the page allocator,
    the page tables and the heap on the boot loader's answers, [init_tables] the
    segment descriptors, the stacks and the interrupt descriptors.
    [general_exception_handler] is the handler that is registered for every
    exception; [fb_init] and [check_fb] are the headers of [graphics/]. *)
From S2P Require Import Prelude Interfaces Str Bytes Pmm Vmm Heap Monad Mmio Serial Display.
From S2P Require Gdt Idt Log.

(** ** Memory *)

(** What the boot loader hands over: the memory map, the offset of its direct
    map, where the kernel is, and the page tables that are in use. *)
Record loader := mk_loader {
  l_memmap : list memmap_entry; l_hhdm : Z; l_virtual_base : Z; l_physical_base : Z; l_cr3 : Z; l_tables : Z → Z → Z }.

Section memory.
(** The type tag of usable memory of the boot protocol. *)
Context (LIMINE_MEMMAP_USABLE : Z).

(** The page tables before [vmm_init]: the static variables are 0. *)
Definition loaded (b : loader) (p : pmm) : vmm pmm := mk_vmm (l_tables b) 0 0 (l_cr3 b) [] p.

(** [pmm_init(memmap_request.response); vmm_init(); heap_init();] *)
Definition boot_memory (b : loader) : option (bool * heap (vmm pmm)) :=
  p ← pmm_init LIMINE_MEMMAP_USABLE (l_hhdm b) (l_memmap b);
  let v := vmm_init (Some (l_hhdm b)) (l_virtual_base b) (l_physical_base b) (loaded b p) in
  Some (heap_init (mk_heap 0 ∅ (mk_stats 0 0 0 0 0) ∅ v)).

(** An address inside a live allocation. *)
Definition client_address (h : heap (vmm pmm)) (a : Z) : Prop :=
  ∃ l p n, represents h l ∧ live_in l p n ∧ p <= a < p + n.

(** The state of the memory manager: the page tables are a tree of pages in
    use, the heap is consistent, and distinct addresses of live allocations
    are distinct bytes of physical pages that the page allocator holds as used
    and that hold no page table. *)
Record memory_ok (h : heap (vmm pmm)) : Prop := {
  mo_tables : vmm_wf (heap_pages h);
  mo_check : heap_check h = Some true;
  mo_backed a : client_address h a → ∃ q,
    vmm_get_phys_addr (heap_pages h) a = q + a mod 4096 ∧ page_addr q ∧
    used (vm_pages (heap_pages h)) (q / PAGE_SIZE) = true ∧ held (heap_pages h) q;
  mo_distinct a a' : client_address h a → client_address h a' → a ≠ a' →
    vmm_get_phys_addr (heap_pages h) a ≠ vmm_get_phys_addr (heap_pages h) a';
}.
End memory.

(** *** Facts *)

Lemma vpn_at start k a :
  start mod 4096 = 0 → start + 4096 * k <= a < start + 4096 * (k + 1) → vpn a = vpn (start + 4096 * k).
Proof.
  intros Hs Ha. unfold vpn. f_equal. Z.to_euclidean_division_equations. lia.
Qed.

Lemma held_used (v : vmm pmm) q : page_addr q → held v q → used (vm_pages v) (q / PAGE_SIZE) = true.
Proof. intros Hq [(_ & _ & Hn) _]. apply not_false_is_true. intros Hu. by apply Hn. Qed.

(** The page of a heap address and its place in the list of pages. *)
Lemma backed_address (h : heap (vmm pmm)) (P : list Z) a :
  heap_start h mod 4096 = 0 → backed (heap_start h) (heap_pages h) P →
  heap_start h <= a < heap_start h + HEAP_PAGE_SIZE * Z.of_nat (length P) →
  let k := Z.to_nat ((a - heap_start h) / 4096) in
  ∃ q, P !! k = Some q ∧ page_addr q ∧ held (heap_pages h) q ∧ vmm_get_phys_addr (heap_pages h) a = q + a mod 4096.
Proof.
  intros Hs [Hok _ Hp Hm] Ha k. unfold HEAP_PAGE_SIZE in *.
  assert (0 <= (a - heap_start h) / 4096 < Z.of_nat (length P)) as Hk by (Z.to_euclidean_division_equations; lia).
  destruct (lookup_lt_is_Some_2 P k) as [q Hq]; [unfold k; lia|]. exists q.
  destruct (proj1 (Forall_lookup _ _) Hp k q Hq) as [Hpq Hheld]. split_and!; [done|done|apply Hheld|].
  change (vmm_get_phys_addr (heap_pages h) a) with (pg_phys (heap_pages h) a). rewrite (pg_phys_spec (heap_pages h) a Hok).
  pose proof (Hm k q Hq) as He. change (pg_pte (heap_pages h)) with (pte (heap_pages h)) in *. unfold HEAP_PAGE_SIZE in He.
  assert (pte (heap_pages h) a = pte (heap_pages h) (heap_start h + 4096 * Z.of_nat k)) as ->.
  { assert (vpn a = vpn (heap_start h + 4096 * Z.of_nat k)) as Hv.
    { unfold k. rewrite Z2Nat.id by lia. apply vpn_at; [done|]. Z.to_euclidean_division_equations. lia. }
    apply vpn_eq in Hv as [Hpath Hidx]. unfold pte. by rewrite Hpath, Hidx. }
  rewrite He. apply (pte_phys_entry q MAP_RW a); [apply Hpq|destruct Hpq; unfold is_u64; lia|by vm_compute].
Qed.

Lemma client_in_heap (h : heap (vmm pmm)) l (P : list Z) a :
  represents h l → total l = HEAP_PAGE_SIZE * Z.of_nat (length P) → client_address h a →
  heap_start h <= a < heap_start h + HEAP_PAGE_SIZE * Z.of_nat (length P).
Proof.
  intros Hr HP (l' & p & n & Hr' & (b & Hb & _ & -> & Hn) & Ha). rewrite (represents_unique h l' l) in Hb by done.
  pose proof (tiles_in _ _ _ (lk_tiles _ _ (rp_linked _ _ Hr)) Hb). hlia.
Qed.

Lemma good_memory (h : heap (vmm pmm)) l : good h l → memory_ok h.
Proof.
  intros Hg. pose proof (proj1 Hg) as Hr. destruct (rp_pages _ _ Hr) as (P & HP & Ht). pose proof (rp_align _ _ Hr) as Hal.
  assert (∀ a, client_address h a → ∃ q, P !! Z.to_nat ((a - heap_start h) / 4096) = Some q ∧
    heap_start h <= a ∧ page_addr q ∧ held (heap_pages h) q ∧ vmm_get_phys_addr (heap_pages h) a = q + a mod 4096) as Haddr.
  { intros a Ha. pose proof (client_in_heap h l P a Hr Ht Ha) as Hin.
    destruct (backed_address h P a Hal HP Hin) as (q & Hq & Hp & Hh & He). exists q. split_and!; try done. lia. }
  split; [apply HP|by eapply good_check| |].
  - intros a Ha. destruct (Haddr a Ha) as (q & _ & _ & Hp & Hh & He). exists q. split_and!; [done|done|by apply held_used|done].
  - intros a a' Ha Ha' Hne. destruct (Haddr a Ha) as (q & Hq & Hlo & Hp & _ & ->), (Haddr a' Ha') as (q' & Hq' & Hlo' & Hp' & _ & ->).
    intros Heq. destruct Hp as [_ Hp], Hp' as [_ Hp'].
    assert (q = q' ∧ a mod 4096 = a' mod 4096) as [<- Hmod] by (Z.to_euclidean_division_equations; lia).
    assert (Z.to_nat ((a - heap_start h) / 4096) = Z.to_nat ((a' - heap_start h) / 4096)) as Hk
      by (eapply NoDup_lookup; [apply HP|done..]).
    apply Hne. Z.to_euclidean_division_equations. lia.
Qed.

Lemma heap_init_wf (h : heap (vmm pmm)) ok h' :
  vmm_wf (heap_pages h) → heap_init h = (ok, h') → vmm_wf (heap_pages h').
Proof.
  intros Hwf Hi. unfold heap_init in Hi. pose proof (pg_alloc_spec (heap_pages h) Hwf) as Ha.
  destruct (pg_alloc (heap_pages h)) as [m v]. destruct Ha as (Hok1 & _ & _ & Hm).
  destruct (m =? 0) eqn:?; zbool; [by injection Hi as <- <-|]. destruct Hm as [?|[_ Hheld]]; [done|].
  cbn [heap_pages set_vm] in Hi. pose proof (pg_map_spec v m m MAP_RW Hok1 ltac:(unfold MAP_RW; lia)) as Hs.
  destruct (pg_map m m MAP_RW v) as [ok2 v2]. destruct Hs as (Hok2 & Hk & _).
  destruct ok2; cbn [negb] in Hi; injection Hi as <- <-; [exact Hok2|].
  exact (proj1 (pg_free_spec v2 m Hok2 (Hk m Hheld))).
Qed.


(** ** Descriptor tables, stacks and exception handlers *)

Definition STACK_SIZE : Z := 16384.
Definition stack_top (stack : Z) : Z := u64 (stack + STACK_SIZE).

(** The tables, and the 64-bit words stored in the stacks by address. *)
Record tables := mk_tables { t_gdt : Gdt.gdt; t_idt : Idt.idt_state; t_words : gmap Z Z }.

Section tables.
Context {W : Type} `{!Ports W}.
Context (fuel : nat).      (* polls of the serial port for each character *)
Abbreviation M := (Monad.M (tables * W)).

Definition on_gdt {X} (m : Monad.M Gdt.gdt X) : M X := on_fst (λ s,
  match m (t_gdt s) with Some (x, g) => Some (x, mk_tables g (t_idt s) (t_words s)) | None => None end).
Definition on_idt {X} (m : Monad.M Idt.idt_state X) : M X := on_fst (λ s,
  match m (t_idt s) with Some (x, i) => Some (x, mk_tables (t_gdt s) i (t_words s)) | None => None end).

(** A message without arguments. *)
Definition say {S} (level : Log.log_level_t) (msg : list Z) : Monad.M (S * W) () := on_snd (Log.log_printf fuel level msg []).
Definition info {S} : list Z → Monad.M (S * W) () := say Log.LOG_LEVEL_INFO.
Definition debug {S} : list Z → Monad.M (S * W) () := say Log.LOG_LEVEL_DEBUG.

(** [ist_ptr = (uint64_t * )stack_top(stack); *(ist_ptr - 1) = stack_top(stack);] *)
Definition store_top (stack : Z) : M () := on_fst (modify (λ s,
  mk_tables (t_gdt s) (t_idt s) (<[u64 (stack_top stack - 8) := stack_top stack]> (t_words s)))).

(** The handlers of the 32 exceptions. *)
Definition register_handlers (handler : Z) : M () :=
  for_list (seqZ 0 32) (λ i, on_idt (Idt.register_exception_handler i handler)).

(** [kmain] from [gdt_init] to the registration of the handlers; the addresses
    are those of the tables, of the stacks and of the handler. *)
Definition init_tables (entries_address tss_address kernel_stack : Z) (ist_stacks stubs : list Z) (idt_address handler : Z) : M () :=
  on_gdt (Gdt.gdt_init entries_address tss_address);;
  info (text "Global Descriptor Table Initialized");;
  debug (text "Setting up TSS Stacks");;
  on_gdt (Gdt.gdt_load_tss (stack_top kernel_stack));;
  debug (text "Setting up Interrupt Stack Table Entries");;
  for_list ist_stacks store_top;;
  on_idt (Idt.idt_init stubs idt_address);;
  info (text "Interrupt Descriptor Table Initialized");;
  register_handlers handler.
End tables.

(** ** The exception handler *)

Definition BLACK : Z := 0.

Section handler.
Context {W : Type} `{!Ports W, !Idt.Cpu W}.
Context (fuel : nat) (global_framebuffer : framebuffer).
Abbreviation M := (Monad.M (gmap Z Z * W)).

(** "EXCEPTION: %s", "RIP: 0x%x" and "CR2: 0x%x" *)
Definition exception_format : list Z := [69; 88; 67; 69; 80; 84; 73; 79; 78; 58; 32; 37; 115].
Definition rip_format : list Z := [82; 73; 80; 58; 32; 48; 120; 37; 120].
Definition cr2_format : list Z := [67; 82; 50; 58; 32; 48; 120; 37; 120].

Definition log_error (format : list Z) (args : list Log.va_arg) : M () :=
  on_snd (Log.log_printf fuel Log.LOG_LEVEL_ERROR format args).

(** What the handler says before it halts for ever.  [mov cr2, rax] writes CR2
    from [rax], whose contents the variable then takes; [log_printf] reads the
    64-bit arguments of %x as [int]. *)
Definition exception_report (rax : Z) (frame : Idt.interrupt_frame_error) : M () :=
  let vector := u8 (Z.shiftr (Idt.f_error_code frame) 3) in
  (if vector =? Idt.INT_PAGE_FAULT then on_snd (modify (Idt.write_cr2 rax)) else mret ());;
  on_fst (draw_rect global_framebuffer 0 140 (fb_width global_framebuffer) 100 BLACK);;
  name ← lift (Idt.get_exception_name vector);
  log_error exception_format [Log.AString name];;
  log_error rip_format [Log.AInt (s32 (Idt.f_rip frame))];;
  if vector =? Idt.INT_PAGE_FAULT then log_error cr2_format [Log.AInt (s32 rax)] else mret ().

(** [while (1) hlt();] *)
Definition general_exception_handler (rax : Z) (frame : Idt.interrupt_frame_error) : M () := exception_report rax frame;; fault.
End handler.

(** ** The frame buffer *)

(** [fb_init] clears the memory of the first frame buffer of the boot loader's
    answer; the pointers to the answer and to the frame buffer are not tested. *)
Definition fb_init (response : option (list framebuffer)) : M (gmap Z Z) () :=
  l ← lift response;
  fb ← lift (head l);
  modify (memset (fb_address fb) 0 (u64 (fb_pitch fb * fb_height fb))).

(** [hcf] executes one [hlt] and returns. *)
Definition hcf {W} `{!Idt.Cpu W} : M W () := modify Idt.hlt.

Definition check_fb {W} `{!Idt.Cpu W} (revision_supported : bool) (response : option (list framebuffer)) : M W () :=
  (if revision_supported then mret () else hcf);;
  match response with Some (_ :: _) => mret () | _ => hcf end.

(** *** What the messages do *)

(** A text that is printed as it is. *)
Definition plain (str : list Z) : bool :=
  forallb (λ c, (0 <? c) && (c <? 256) && negb (c =? 37)) str && (0 <? Z.of_nat (length str)) && (Z.of_nat (length str) <=? 1022).

Lemma expand_plain str : forallb (λ c, (0 <? c) && (c <? 256) && negb (c =? 37)) str = true → Log.expand str [] = Some str.
Proof.
  induction str as [|c str IH]; intros Hs; [done|]. cbn [forallb] in Hs. apply andb_true_iff in Hs as [Hc Hs].
  apply andb_true_iff in Hc as [_ Hc]. cbn [Log.expand]. rewrite Hc. by rewrite (IH Hs).
Qed.

Lemma wp_say {S W} `{!Ports W, !SerialPort W} fuel level msg (Q : () → S * W → Prop) s :
  sp_ok s.2 → (0 < fuel)%nat → plain msg = true → (∀ w, sp_ok w → Q () (s.1, w)) → wp (say fuel level msg) Q s.
Proof.
  intros Hok Hf Hp HQ. unfold plain in Hp. apply andb_true_iff in Hp as [Hp H2]. apply andb_true_iff in Hp as [Hp H1]. zbool.
  apply wp_on_snd. eapply wp_mono; [apply Log.log_printf_correct with (out := msg); [done|done|by apply expand_plain|lia|]|].
  - apply Forall_forall. intros c Hc. rewrite forallb_forall in Hp. apply list_elem_of_In in Hc. apply Hp in Hc.
    apply andb_true_iff in Hc as [Hc _]. apply andb_true_iff in Hc as [??]. zbool. unfold is_u8. lia.
  - cbn beta. intros [] w [Hw _]. by apply HQ.
Qed.

(** *** The tables *)

Section tables_spec.
Context {W : Type} `{HP : !Ports W, !SerialPort W}.
Implicit Types s : tables * W.

Lemma wp_on_gdt {X} (m : Monad.M Gdt.gdt X) (Q : X → tables * W → Prop) s :
  wp m (λ x g, Q x (mk_tables g (t_idt s.1) (t_words s.1), s.2)) (t_gdt s.1) → wp (on_gdt m) Q s.
Proof. unfold on_gdt, wp, on_fst. destruct s as [t w]. cbn. by destruct (m (t_gdt t)) as [[x g]|]. Qed.

Lemma wp_on_idt {X} (m : Monad.M Idt.idt_state X) (Q : X → tables * W → Prop) s :
  wp m (λ x i, Q x (mk_tables (t_gdt s.1) i (t_words s.1), s.2)) (t_idt s.1) → wp (on_idt m) Q s.
Proof. unfold on_idt, wp, on_fst. destruct s as [t w]. cbn. by destruct (m (t_idt t)) as [[x i]|]. Qed.

(** Loading the stack of ring 0 leaves the interrupt stacks alone. *)
Lemma wp_gdt_load_tss rsp0 g (ist : Z → Z) :
  is_u64 rsp0 → (∀ i, 1 <= i <= 7 → Gdt.tss_ist (Gdt.tss g) i = Some (ist i)) →
  wp (Gdt.gdt_load_tss rsp0) (λ _ g', Gdt.tss_rsp0 (Gdt.tss g') = Some rsp0 ∧
    ∀ i, 1 <= i <= 7 → Gdt.tss_ist (Gdt.tss g') i = Some (ist i)) g.
Proof.
  intros Hr Hi. assert (92 <= Z.of_nat (length (Gdt.tss g))) as Hl.
  { pose proof (Hi 7 ltac:(lia)) as H7. unfold Gdt.tss_ist, get_le, slice in H7.
    destruct (_ && _)%bool eqn:E; [|done]. zbool. cbn in *. lia. }
  unfold Gdt.gdt_load_tss, Gdt.set_tss_member. change (nth 1 Gdt.tss_layout 0%nat) with 8%nat. Bytes.offsets.
  apply Gdt.wp_put_tss; [lia|lia|]. intros l Hp _. cbn [Gdt.tss]. split.
  - by apply (get_put_same 8 _ _ _ _ Hp).
  - intros i Hi7. rewrite <- (Hi i Hi7). unfold Gdt.tss_ist. apply (get_put_other _ _ _ _ _ _ _ Hp); lia.
Qed.

(** The loop over the stacks touches neither table. *)
Lemma wp_store_tops stacks s :
  wp (for_list stacks store_top) (λ _ s', t_gdt s'.1 = t_gdt s.1 ∧ t_idt s'.1 = t_idt s.1 ∧ s'.2 = s.2) s.
Proof.
  apply (wp_for_list stacks store_top (λ _ s', t_gdt s'.1 = t_gdt s.1 ∧ t_idt s'.1 = t_idt s.1 ∧ s'.2 = s.2)); [done|].
  intros dn x s' _ Hs. apply wp_on_fst, wp_modify. exact Hs.
Qed.

(** The loop over the exceptions registers the handler for each and leaves the
    gates and the table registers alone. *)
Lemma wp_register_handlers handler s :
  Idt.tables_ok (t_idt s.1) →
  wp (register_handlers handler) (λ _ s', t_gdt s'.1 = t_gdt s.1 ∧ Idt.idt (t_idt s'.1) = Idt.idt (t_idt s.1) ∧
    ∀ v, 0 <= v < 32 → index (Idt.exception_handlers (t_idt s'.1)) v = Some handler) s.
Proof.
  intros Hok. unfold register_handlers. eapply wp_mono.
  - apply (wp_for_list _ _ (λ done s', t_gdt s'.1 = t_gdt s.1 ∧ Idt.idt (t_idt s'.1) = Idt.idt (t_idt s.1) ∧
      length (Idt.exception_handlers (t_idt s'.1)) = 32%nat ∧
      ∀ v, v ∈ done → index (Idt.exception_handlers (t_idt s'.1)) v = Some handler)).
    { split_and!; [done|done|apply Hok|set_solver]. }
    intros dn v s1 [post Hp] (Hg & Hi & Hl & Hh).
    assert (∀ w, w ∈ dn ++ [v] → 0 <= w < 32) as Hr.
    { intros w Hw. enough (w ∈ seqZ 0 32) as ?%elem_of_seqZ by lia. rewrite Hp. apply elem_of_app. by left. }
    pose proof (Hr v ltac:(set_solver)) as Hv. apply wp_on_idt. unfold Idt.register_exception_handler, Idt.set_exception, wp.
    rewrite (proj2 (Z.ltb_lt v 32)) by lia. rewrite Idt.store_at_some by lia. cbn.
    split_and!; [done|done|by rewrite length_insert|]. intros w Hw. rewrite Idt.index_insert by (try apply Hr in Hw; lia).
    destruct (w =? v) eqn:E; zbool; [done|]. apply Hh. apply elem_of_app in Hw as [?|?%list_elem_of_singleton]; [done|congruence].
  - cbn beta. intros _ s1 (Hg & Hi & _ & Hh). split_and!; [done|done|]. intros v Hv. apply Hh. apply elem_of_seqZ. lia.
Qed.
End tables_spec.

(** C31: once [kmain] has set up the tables, each exception has the handler, its
    gate leads to its stub, and the stack the gate asks for is what [gdt_init]
    stored: the stores of [kmain] go to the stacks and not to the task state
    segment, so the gates of stack fault and general protection (vectors 12 and
    13, stacks 5 and 6) switch to the stack pointer 0. *)
Theorem init_tables_correct {W} `{HP : !Ports W, !SerialPort W} fuel entries tss_address kernel_stack ist_stacks stubs idt_address handler (s : tables * W) :
  sp_ok s.2 → (0 < fuel)%nat →
  length (Gdt.gdt_entries (t_gdt s.1)) = Z.to_nat (Gdt.SIZEOF_ENTRY * Gdt.NUM_ENTRIES) →
  length (Gdt.tss (t_gdt s.1)) = Z.to_nat Gdt.SIZEOF_TSS → is_u64 tss_address →
  length stubs = Z.to_nat Idt.IDT_ENTRIES → Idt.tables_ok (t_idt s.1) → Forall is_u64 stubs →
  wp (init_tables fuel entries tss_address kernel_stack ist_stacks stubs idt_address handler) (λ _ s',
    Gdt.tss_rsp0 (Gdt.tss (t_gdt s'.1)) = Some (stack_top kernel_stack) ∧
    ∀ v, 0 <= v < 32 →
      index (Idt.exception_handlers (t_idt s'.1)) v = Some handler ∧
      ∃ e, index (Idt.idt (t_idt s'.1)) v = Some e ∧ Some (Idt.gate_offset e) = index stubs v ∧ Idt.ist e = Idt.stack_of v ∧
        (Idt.ist e ≠ 0 → Gdt.tss_ist (Gdt.tss (t_gdt s'.1)) (Idt.ist e) =
          Some (if (v =? 12) || (v =? 13) then 0 else 327680 + 4096 * (Idt.stack_of v - 1)))) s.
Proof.
  intros Hok Hf Hge Htss Hta Hst Hid Hu. unfold init_tables.
  apply wp_bind, wp_on_gdt. eapply wp_mono; [by apply Gdt.gdt_init_correct|]. cbn beta.
  intros _ g1 (_ & _ & _ & _ & _ & _ & _ & _ & Hist).
  apply wp_bind. apply wp_say; [done|done|reflexivity|]. intros w1 Hw1.
  apply wp_bind. apply wp_say; [done|done|reflexivity|]. intros w2 Hw2. cbn [fst snd t_gdt t_idt t_words].
  apply wp_bind, wp_on_gdt. eapply wp_mono; [apply (wp_gdt_load_tss _ _ _ (u64_range _) Hist)|]. cbn beta. intros _ g2 (Hrsp & Hist2).
  apply wp_bind. apply wp_say; [done|done|reflexivity|]. intros w3 Hw3. cbn [fst snd t_gdt t_idt t_words].
  apply wp_bind. eapply wp_mono; [apply wp_store_tops|]. cbn [fst snd t_gdt t_idt t_words]. cbn beta. intros _ s4 (G4 & I4 & W4).
  apply wp_bind, wp_on_idt. rewrite I4. eapply wp_mono; [by apply Idt.idt_init_correct|].
  cbn beta. intros _ i5 (Hok5 & _ & _ & Hv5).
  apply wp_bind. apply wp_say; [by rewrite W4|done|reflexivity|]. intros w6 Hw6. cbn [fst snd t_gdt t_idt t_words].
  eapply wp_mono; [by apply wp_register_handlers|]. cbn [fst snd t_gdt t_idt t_words]. cbn beta. intros _ s7 (-> & I7 & Hh).
  rewrite G4. split; [done|]. intros v Hv. split; [by apply Hh|].
  destruct (Hv5 v ltac:(unfold Idt.IDT_ENTRIES; lia)) as [(e & He & Ho & _ & _ & Hi) _].
  exists e. rewrite I7. split_and!; [done|done|done|]. intros Hne. rewrite Hi in *.
  unfold Idt.stack_of in *. repeat (destruct (_ =? _) eqn:?; zbool; subst); try done; (rewrite Hist2 by done); done.
Qed.

(** *** The report of an exception *)

(** A line of the log at level ERROR. *)
Definition error_line (str : list Z) : list Z := Log.level_strings Log.LOG_LEVEL_ERROR ++ str ++ [13; 10].

(** Letters and digits, which is what names and numbers consist of: no line break. *)
Definition visible_text (str : list Z) : Prop := Forall (λ c, 32 <= c < 128) str ∧ (0 < length str <= 100)%nat.

Lemma exception_name v : 0 <= v < 32 → ∃ name, Idt.get_exception_name v = Some name ∧ visible_text name.
Proof.
  intros Hv. unfold Idt.get_exception_name. rewrite (proj2 (Z.ltb_lt v 32)) by lia.
  destruct (index_some Idt.exception_names v) as [name Hn]; [by cbn|]. exists name. split; [done|].
  rewrite Idt.index_lookup in Hn by lia. revert Hn. apply (Forall_lookup_1 visible_text).
  apply (bool_decide_unpack _). vm_compute. exact I.
Qed.

Lemma visible_prefix str : forallb (λ c, (32 <=? c) && (c <? 128)) str && (0 <? length str)%nat && (length str <=? 100)%nat = true → visible_text str.
Proof.
  intros Hs. apply andb_true_iff in Hs as [Hs H2]. apply andb_true_iff in Hs as [Hs H1].
  apply Nat.ltb_lt in H1. apply Nat.leb_le in H2. split; [|lia]. rewrite forallb_forall in Hs.
  apply Forall_forall. intros c Hc%list_elem_of_In%Hs. apply andb_true_iff in Hc as [??]. zbool. lia.
Qed.

Lemma s32_low x : 0 <= s32 x → s32 x = x mod 4294967296.
Proof. unfold s32. intros. Z.to_euclidean_division_equations. lia. Qed.

Lemma hex_digits n : 0 <= n < 2147483648 → ∃ ds, Log.num_string n 16 = Some ds ∧ visible_text ds.
Proof.
  intros Hn. destruct (Log.num_loop_spec 16 64 n []) as (ds & Hds & _ & Hall & Hl & _); [lia| |lia|].
  { change (16 ^ Z.of_nat 64) with (2 ^ 256). split; [lia|]. assert (2147483648 < 2 ^ 256) by reflexivity. lia. }
  exists ds. rewrite app_nil_r in Hds. split; [exact Hds|]. split; [|lia].
  eapply Forall_impl; [exact Hall|]. intros c [Hc _]. lia.
Qed.

(** One formatted line: a prefix and a text. *)
Lemma wp_log_error {W} `{HP : !Ports W, !SerialPort W} fuel format args pre str (Q : () → gmap Z Z * W → Prop) s :
  sp_ok s.2 → (0 < fuel)%nat → Log.expand format args = Some (pre ++ str) → visible_text pre → visible_text str →
  (∀ w, sp_ok w → sp_sent w = sp_sent s.2 ++ error_line (pre ++ str) → Q () (s.1, w)) →
  wp (log_error fuel format args) Q s.
Proof.
  intros Hok Hf He [Hp Hpl] [Hs Hsl] HQ. unfold log_error. apply wp_on_snd. eapply wp_mono.
  - apply Log.log_printf_correct with (out := pre ++ str); [done|done|done|rewrite length_app; lia|].
    apply Forall_app; split; (eapply Forall_impl; [eassumption|]); intros c Hc; cbn in Hc; unfold is_u8; lia.
  - cbn beta. intros [] w [Hw Hsent]. apply HQ; [done|]. rewrite Hsent. unfold error_line. do 2 f_equal. f_equal.
    rewrite decide_False; [done|]. destruct str as [|c str' _] using rev_ind; [simpl in Hsl; lia|].
    rewrite app_assoc, last_snoc. intros [= ->]. apply Forall_app in Hs as [_ Hs]. apply Forall_cons in Hs as [Hs _]. lia.
Qed.

Lemma expand_hex n ds : 0 <= n < 2147483648 → Log.num_string n 16 = Some ds →
  Log.expand rip_format [Log.AInt n] = Some (text "RIP: 0x0x" ++ ds).
Proof.
  intros Hn Hds. cbn -[Log.num_string Z.leb]. rewrite (proj2 (Z.ltb_ge n 0)), (proj2 (Z.leb_gt _ n)) by lia.
  cbn -[Log.num_string]. rewrite Hds. cbn. by rewrite app_nil_r.
Qed.

(** The handler of exceptions paints its part of the screen and logs the name
    that belongs to the bits of the error code from bit 3 on, and the low half of
    the instruction pointer; so a page fault, whose error code is below 32,
    appears under one of the names 0 to 3. *)
Theorem exception_report_correct {W} `{HP : !Ports W, !SerialPort W, !Idt.Cpu W} fuel fb rax frame (s : gmap Z Z * W) :
  let v := Idt.f_error_code frame / 8 in
  fb_ok fb → sp_ok s.2 → (0 < fuel)%nat → 0 <= v < 32 → v ≠ Idt.INT_PAGE_FAULT → 0 <= s32 (Idt.f_rip frame) →
  wp (exception_report fuel fb rax frame) (λ _ s', ∃ name ds,
    Idt.get_exception_name v = Some name ∧ Log.num_string (Idt.f_rip frame mod 4294967296) 16 = Some ds ∧
    painted fb s.1 BLACK (λ a b, 0 <= a < fb_width fb ∧ 140 <= b < 240) s'.1 ∧
    sp_sent s'.2 = sp_sent s.2 ++ error_line (text "EXCEPTION: " ++ name) ++ error_line (text "RIP: 0x0x" ++ ds)) s.
Proof.
  intros v Hfb Hok Hf Hv Hnp Hrip. unfold exception_report. rewrite Z.shiftr_div_pow2 by lia. change (2 ^ 3) with 8. fold v.
  rewrite u8_small by (unfold is_u8; lia). rewrite (proj2 (Z.eqb_neq v _) Hnp). apply wp_bind, wp_ret.
  pose proof (fbk_width _ Hfb). apply wp_bind, wp_on_fst. eapply wp_mono; [apply (draw_rect_painted fb Hfb 0 140 (fb_width fb) 100 BLACK); [split; done|lia..]|].
  cbn beta. intros _ m Hm. destruct (exception_name v Hv) as (name & Hname & Hp). rewrite Hname.
  apply wp_bind. eapply wp_lift; [done|].
  apply wp_bind. eapply (wp_log_error fuel _ _ (text "EXCEPTION: ") name); [done|done| |by apply visible_prefix|done|].
  { cbn. by rewrite app_nil_r. }
  intros w1 Hok1 Hs1. assert (0 <= s32 (Idt.f_rip frame) < 2147483648) as Hr31.
  { split; [done|]. unfold s32. Z.to_euclidean_division_equations. lia. }
  destruct (hex_digits _ Hr31) as (ds & Hds & Hdv).
  apply wp_bind. eapply (wp_log_error fuel _ _ (text "RIP: 0x0x") ds); [done|done| |by apply visible_prefix|done|].
  { by apply expand_hex. }
  intros w2 Hok2 Hs2. cbn [fst snd] in *. apply wp_ret. exists name, ds. rewrite <- s32_low by done.
  split_and!; [done|done|exact Hm|]. cbn [snd]. rewrite Hs2, Hs1. by rewrite <- app_assoc.
Qed.

(** For an instruction of the kernel, whose address has bit 31 set, the number
    that is printed is negative: unless it is a multiple of 16, the handler
    indexes before the digits. *)
Lemma negative_hex_faults n : n < 0 → n mod 16 ≠ 0 → Log.format_loop rip_format [Log.AInt n] [] = None.
Proof.
  intros Hn Hm. cbn -[Log.hex_digit Z.rem Z.quot]. unfold Log.put_hex, Log.put. cbn -[Log.hex_digit Z.rem Z.quot].
  assert (Log.hex_digit (Z.rem n 16) = None) as ->; [|done].
  assert (Z.rem n 16 < 0) as Hr by (Z.to_euclidean_division_equations; lia).
  unfold Log.hex_digit. rewrite (proj2 (Z.leb_gt 0 _)), (proj2 (Z.leb_gt 10 _)) by lia. done.
Qed.

Lemma kernel_fault_not_reported {W} `{!Ports W, !Idt.Cpu W} fuel fb rax frame (s : gmap Z Z * W) :
  s32 (Idt.f_rip frame) < 0 → Idt.f_rip frame mod 16 ≠ 0 → exception_report fuel fb rax frame s = None.
Proof.
  intros Hn Hm. destruct (exception_report fuel fb rax frame s) as [r|] eqn:E; [exfalso|done].
  unfold exception_report in E. do 4 (apply run_bind in E as (? & ? & _ & E)). apply run_bind in E as (? & ? & E & _).
  unfold log_error, on_snd, Log.log_printf in E. rewrite negative_hex_faults in E; [done|done|].
  unfold s32. Z.to_euclidean_division_equations. lia.
Qed.

(** *** Witness: the memory map of [Pmm.v] and an empty top-level table in page 1 *)

Definition demo_loader : loader := mk_loader demo_map 17592186044416 18446744071562067968 1048576 4096 (λ _ _, 0).

Lemma demo_pages : concat (region_pages 0 1048576 <$> demo_map') = seqZ 160 64.
Proof. change (seqZ 160 64 ++ [] = seqZ 160 64). apply app_nil_r. Qed.

Lemma demo_tables_wf p :
  pmm_init 0 17592186044416 demo_map = Some p → vmm_wf (loader_tables (loaded demo_loader p) 17592186044416).
Proof.
  intros Hp. destruct (pmm_init_result 0 17592186044416 demo_map 17592186568704 demo_map' p eq_refl Hp) as [Hu Hinv].
  assert (pmm_inv p) as Hi by (apply Hinv; rewrite demo_pages; apply NoDup_seqZ).
  apply root_only_wf with 4096; [exact Hi|done|done| |done|done].
  split_and!; [done..|]. intros [_ Hf]. cbn in Hf. change (4096 / PAGE_SIZE) with 1 in Hf.
  apply Hu in Hf as (e & He & Hin); [|lia]. apply list_elem_of_singleton in He as ->.
  change (region_pages 0 1048576 (mk_entry 655360 917504 0)) with (seqZ 160 64) in Hin. apply elem_of_seqZ in Hin. lia.
Qed.

Lemma boot_memory_some U b p :
  pmm_init U (l_hhdm b) (l_memmap b) = Some p → ∃ ok h, boot_memory U b = Some (ok, h).
Proof.
  intros Hp. unfold boot_memory. rewrite Hp. cbn [mbind option_bind]. destruct (heap_init _) as [ok h]. by exists ok, h.
Qed.

Lemma demo_pmm_some : is_Some (pmm_init 0 17592186044416 demo_map).
Proof. destruct (pmm_init 0 17592186044416 demo_map) as [p|] eqn:Hp; [by exists p|vm_compute in Hp; discriminate]. Qed.


Definition demo_tables : tables := mk_tables Gdt.demo_gdt Idt.demo_idt ∅.

Lemma init_tables_correct_witness :
  ∃ s', init_tables 1 4096 8192 65536 [131072; 147456] (replicate 256 18446744071562067968) 12288 20480 (demo_tables, mk_serial_log []) = Some ((), s') ∧
    Gdt.tss_rsp0 (Gdt.tss (t_gdt s'.1)) = Some 81920 ∧ Gdt.tss_ist (Gdt.tss (t_gdt s'.1)) 6 = Some 0.
Proof.
  assert (Hu : Forall is_u64 (replicate 256 18446744071562067968)) by (apply Forall_replicate; unfold is_u64; lia).
  assert (Hok : sp_ok (mk_serial_log [])) by exact I.
  destruct (wp_run _ _ _ (init_tables_correct (W := serial_log) 1 4096 8192 65536 [131072; 147456] (replicate 256 18446744071562067968) 12288 20480
    (demo_tables, mk_serial_log []) Hok ltac:(lia) eq_refl eq_refl ltac:(unfold is_u64; lia) eq_refl
    (Idt.Build_tables_ok Idt.demo_idt eq_refl eq_refl eq_refl) Hu)) as ([] & s' & Hr & Hrsp & Hv).
  exists s'. split; [exact Hr|]. split; [exact Hrsp|].
  destruct (Hv 13 ltac:(lia)) as (_ & e & _ & _ & Hi & Ht). change (Idt.stack_of 13) with 6 in Hi. rewrite Hi in Ht. exact (Ht ltac:(lia)).
Defined.

#[export] Instance serial_log_cpu : Idt.Cpu serial_log := {
  Idt.cli w := w; Idt.hlt w := w; Idt.write_cr2 v w := w }.

(** A page fault of a write to a page that is not there: error code 2, at 4096. *)
Definition demo_fault : Idt.interrupt_frame_error := Idt.mk_frame 2 4096 0 0 0 0.

Lemma exception_report_correct_witness :
  wp (exception_report 1 demo_fb 0 demo_fault) (λ _ s', ∃ ds,
    sp_sent s'.2 = error_line (text "EXCEPTION: Division Error") ++ error_line (text "RIP: 0x0x" ++ ds)) (∅, mk_serial_log []).
Proof.
  eapply wp_mono.
  - apply (exception_report_correct 1 demo_fb 0 demo_fault (∅, mk_serial_log [])).
    + constructor; vm_compute; intuition congruence.
    + exact I.
    + lia.
    + vm_compute; intuition congruence.
    + vm_compute; congruence.
    + vm_compute; congruence.
  - intros [] s' (name & ds & Hn & _ & _ & Hs). exists ds. vm_compute in Hn. injection Hn as <-. exact Hs.
Defined.
