(* ===== verification/Kmain.v ===== *)
(** * Starting the devices and services ([kernel/src/main.c], [kmain])

    The whole state of the kernel is the state of the system calls ([Syscalls.v]:
    heap, pages, processes, files, sockets, video memory and ports) together with
    the variables of the drivers.  Each call of [kmain] is the initialisation
    function of its component, run on the parts of the state it uses: a
    component that keeps its own copy of a shared part (the ports, the heap, the
    pages, the network) gets the current one and gives it back.

    [start_display] is the beginning of [kmain]; [boot_memory] and [init_tables]
    of [Boot.v] follow; [start_devices] is the rest, up to the loop at the end. *)
From S2P Require Import Prelude Interfaces Monad Mmio Serial Display Boot Syscalls.
From S2P Require SyscallSpec Ext2Demo Pmm Vmm Elf Process Ext2 Ext2Clock Net Ip Dns Http Https Log Acpi Pci Apic Smp Ps2 Xhci Usb UsbHid Netdev Nvme Wifi Pit Rtc Tty Pipe Gdt Idt.

(** ** The beginning *)

Section display.
Context {W : Type} `{!Ports W, !Idt.Cpu W}.
Context (fuel : nat) (revision_supported : bool) (response : option (list framebuffer)).

(** The answer is the pointer [global_framebuffer]. *)
Definition start_display : Monad.M (gmap Z Z * W) framebuffer :=
  on_snd Log.log_init;;
  info fuel (text "Kernel Initialization Started");;
  on_snd (modify Idt.cli);;
  debug fuel (text "Interrupts Disabled");;
  on_fst (fb_init response);;
  debug fuel (text "Framebuffer Initialized");;
  l ← lift response;
  global_framebuffer ← lift (head l);
  on_snd (check_fb revision_supported response);;
  debug fuel (text "Framebuffer Check Complete");;
  mret global_framebuffer.
End display.

(** ** The state *)

Record machine (A H D W : Type) := mk_machine {
  m_sys : sys A H D W;
  m_tables : tables;
  m_acpi : Acpi.acpi;
  m_apic : Apic.apic W;
  m_pci : Pci.pci W;
  m_usb : Usb.usb;
  m_xhci : Xhci.xhci;
  m_hid : UsbHid.hid;
  m_ps2 : Ps2.mouse_state_t * Z * Z;        (* and the position of the keyboard's text *)
  m_netdevs : Netdev.netdevs;
  m_nvme : Nvme.nvme;
  m_https : Https.https H W;
  m_dns : Dns.dns H;
  m_wifi : gmap Z Wifi.wifi_device;
  m_smp : Smp.smp A W;
  m_tty : list Tty.tty_device_t * Z;
}.
Arguments mk_machine {_ _ _ _}.
Arguments m_sys {_ _ _ _}.
Arguments m_tables {_ _ _ _}.
Arguments m_acpi {_ _ _ _}.
Arguments m_apic {_ _ _ _}.
Arguments m_pci {_ _ _ _}.
Arguments m_usb {_ _ _ _}.
Arguments m_xhci {_ _ _ _}.
Arguments m_hid {_ _ _ _}.
Arguments m_ps2 {_ _ _ _}.
Arguments m_netdevs {_ _ _ _}.
Arguments m_nvme {_ _ _ _}.
Arguments m_https {_ _ _ _}.
Arguments m_dns {_ _ _ _}.
Arguments m_wifi {_ _ _ _}.
Arguments m_smp {_ _ _ _}.
Arguments m_tty {_ _ _ _}.

Section kmain.
Context {A H D W : Type} `{!PageAlloc A, !Malloc H, !Http.Realloc H, !BlockDev D}.
Context `{!Ports W, !Msr W, !Pci.PciBus W, !Bus W, !Apicpu W, !Idt.Cpu W}.
Abbreviation machine := (machine A H D W).
Abbreviation M := (Monad.M machine).

(** A change of one field. *)
Definition put_sys (x : sys A H D W) (s : machine) : machine :=
  mk_machine x (m_tables s) (m_acpi s) (m_apic s) (m_pci s) (m_usb s) (m_xhci s) (m_hid s) (m_ps2 s) (m_netdevs s) (m_nvme s) (m_https s) (m_dns s) (m_wifi s) (m_smp s) (m_tty s).
Definition put_tables (x : tables) (s : machine) : machine :=
  mk_machine (m_sys s) x (m_acpi s) (m_apic s) (m_pci s) (m_usb s) (m_xhci s) (m_hid s) (m_ps2 s) (m_netdevs s) (m_nvme s) (m_https s) (m_dns s) (m_wifi s) (m_smp s) (m_tty s).
Definition put_acpi (x : Acpi.acpi) (s : machine) : machine :=
  mk_machine (m_sys s) (m_tables s) x (m_apic s) (m_pci s) (m_usb s) (m_xhci s) (m_hid s) (m_ps2 s) (m_netdevs s) (m_nvme s) (m_https s) (m_dns s) (m_wifi s) (m_smp s) (m_tty s).
Definition put_apic (x : Apic.apic W) (s : machine) : machine :=
  mk_machine (m_sys s) (m_tables s) (m_acpi s) x (m_pci s) (m_usb s) (m_xhci s) (m_hid s) (m_ps2 s) (m_netdevs s) (m_nvme s) (m_https s) (m_dns s) (m_wifi s) (m_smp s) (m_tty s).
Definition put_pci (x : Pci.pci W) (s : machine) : machine :=
  mk_machine (m_sys s) (m_tables s) (m_acpi s) (m_apic s) x (m_usb s) (m_xhci s) (m_hid s) (m_ps2 s) (m_netdevs s) (m_nvme s) (m_https s) (m_dns s) (m_wifi s) (m_smp s) (m_tty s).
Definition put_usb (x : Usb.usb) (y : Xhci.xhci) (z : UsbHid.hid) (s : machine) : machine :=
  mk_machine (m_sys s) (m_tables s) (m_acpi s) (m_apic s) (m_pci s) x y z (m_ps2 s) (m_netdevs s) (m_nvme s) (m_https s) (m_dns s) (m_wifi s) (m_smp s) (m_tty s).
Definition put_ps2 (x : Ps2.mouse_state_t * Z * Z) (s : machine) : machine :=
  mk_machine (m_sys s) (m_tables s) (m_acpi s) (m_apic s) (m_pci s) (m_usb s) (m_xhci s) (m_hid s) x (m_netdevs s) (m_nvme s) (m_https s) (m_dns s) (m_wifi s) (m_smp s) (m_tty s).
Definition put_netdevs (x : Netdev.netdevs) (s : machine) : machine :=
  mk_machine (m_sys s) (m_tables s) (m_acpi s) (m_apic s) (m_pci s) (m_usb s) (m_xhci s) (m_hid s) (m_ps2 s) x (m_nvme s) (m_https s) (m_dns s) (m_wifi s) (m_smp s) (m_tty s).
Definition put_nvme (x : Nvme.nvme) (s : machine) : machine :=
  mk_machine (m_sys s) (m_tables s) (m_acpi s) (m_apic s) (m_pci s) (m_usb s) (m_xhci s) (m_hid s) (m_ps2 s) (m_netdevs s) x (m_https s) (m_dns s) (m_wifi s) (m_smp s) (m_tty s).
Definition put_https (x : Https.https H W) (s : machine) : machine :=
  mk_machine (m_sys s) (m_tables s) (m_acpi s) (m_apic s) (m_pci s) (m_usb s) (m_xhci s) (m_hid s) (m_ps2 s) (m_netdevs s) (m_nvme s) x (m_dns s) (m_wifi s) (m_smp s) (m_tty s).
Definition put_dns (x : Dns.dns H) (s : machine) : machine :=
  mk_machine (m_sys s) (m_tables s) (m_acpi s) (m_apic s) (m_pci s) (m_usb s) (m_xhci s) (m_hid s) (m_ps2 s) (m_netdevs s) (m_nvme s) (m_https s) x (m_wifi s) (m_smp s) (m_tty s).
Definition put_wifi (x : gmap Z Wifi.wifi_device) (s : machine) : machine :=
  mk_machine (m_sys s) (m_tables s) (m_acpi s) (m_apic s) (m_pci s) (m_usb s) (m_xhci s) (m_hid s) (m_ps2 s) (m_netdevs s) (m_nvme s) (m_https s) (m_dns s) x (m_smp s) (m_tty s).
Definition put_smp (x : Smp.smp A W) (s : machine) : machine :=
  mk_machine (m_sys s) (m_tables s) (m_acpi s) (m_apic s) (m_pci s) (m_usb s) (m_xhci s) (m_hid s) (m_ps2 s) (m_netdevs s) (m_nvme s) (m_https s) (m_dns s) (m_wifi s) x (m_tty s).
Definition put_tty (x : list Tty.tty_device_t * Z) (s : machine) : machine :=
  mk_machine (m_sys s) (m_tables s) (m_acpi s) (m_apic s) (m_pci s) (m_usb s) (m_xhci s) (m_hid s) (m_ps2 s) (m_netdevs s) (m_nvme s) (m_https s) (m_dns s) (m_wifi s) (m_smp s) x.

(** ** Components on their parts of the state *)

(** A component whose state [T] is read off the machine and put back. *)
Definition zoom {T X} (get : machine → T) (put : T → machine → machine) (m : Monad.M T X) : M X := λ s,
  match m (get s) with Some (x, t) => Some (x, put t s) | None => None end.

Definition on_sys {X} : Monad.M (sys A H D W) X → M X := zoom m_sys put_sys.
Definition on_ports {X} (m : Monad.M W X) : M X := on_sys (on_world m).
Definition log_line (fuel : nat) (level : Log.log_level_t) (msg : list Z) : M () := on_ports (Log.log_printf fuel level msg []).

Definition world (s : machine) : W := sy_world (m_sys s).
Definition put_world (w : W) (s : machine) : machine := put_sys (set_world w (m_sys s)) s.
Definition pages (s : machine) : A := Vmm.vm_pages (Elf.m_vm (sy_machine (m_sys s))).
Definition put_pages (a : A) (s : machine) : machine :=
  let m := sy_machine (m_sys s) in
  put_sys (Syscalls.set_machine (Elf.mk_machine (Vmm.set_pages (Elf.m_vm m) a) (Elf.m_mem m)) (m_sys s)) s.
Definition put_heap (h : H) (s : machine) : machine := put_sys (set_heap h (m_sys s)) s.

Definition pci_state (s : machine) : Pci.pci W := Pci.mk_pci_state (Pci.pci_devices (m_pci s)) (Pci.pci_mcfg_base (m_pci s)) (world s).
Definition put_pci_state (p : Pci.pci W) (s : machine) : machine := put_pci p (put_world (Pci.p_world p) s).
Definition on_pci {X} : Monad.M (Pci.pci W) X → M X := zoom pci_state put_pci_state.

Definition plat_state (s : machine) : plat A H W := mk_plat (pages s) (sy_heap (m_sys s)) (pci_state s).
Definition put_plat (p : plat A H W) (s : machine) : machine :=
  put_pci_state (pl_pci p) (put_heap (pl_heap p) (put_pages (pl_pages p) s)).

Definition on_usb {X} : Monad.M (UsbHid.hid * (Usb.usb * (Xhci.xhci * plat A H W))) X → M X :=
  zoom (λ s, (m_hid s, (m_usb s, (m_xhci s, plat_state s)))) (λ '(h, (u, (x, p))) s, put_usb u x h (put_plat p s)).
Definition on_netdev {X} : Monad.M (Netdev.netdevs * plat A H W) X → M X :=
  zoom (λ s, (m_netdevs s, plat_state s)) (λ '(n, p) s, put_netdevs n (put_plat p s)).
Definition on_nvme {X} : Monad.M (Nvme.nvme * plat A H W) X → M X :=
  zoom (λ s, (m_nvme s, plat_state s)) (λ '(n, p) s, put_nvme n (put_plat p s)).
Definition on_wifi {X} : Monad.M (gmap Z Wifi.wifi_device * plat A H W) X → M X :=
  zoom (λ s, (m_wifi s, plat_state s)) (λ '(n, p) s, put_wifi n (put_plat p s)).

Definition apic_state (s : machine) : Apic.apic W :=
  Apic.mk_apic (Apic.lapic_base (m_apic s)) (Apic.ioapics (m_apic s)) (Apic.num_ioapics (m_apic s)) (world s).
Definition put_apic_state (a : Apic.apic W) (s : machine) : machine := put_apic a (put_world (Apic.a_world a) s).
Definition on_apic {X} : Monad.M (Apic.apic W) X → M X := zoom apic_state put_apic_state.

Definition on_smp {X} : Monad.M (Smp.smp A W) X → M X :=
  zoom
    (λ s, let m := m_smp s in
       Smp.mk_smp (Smp.cpu_data m) (Smp.cpu_count m) (Smp.bsp_apic_id m) (t_gdt (m_tables s)) (pages s) (apic_state s))
    (λ m s, let t := m_tables s in
       put_smp m (put_tables (mk_tables (Smp.m_gdt m) (t_idt t) (t_words t)) (put_pages (Smp.m_pages m) (put_apic_state (Smp.m_apic m) s)))).

Definition on_ps2 {X} : Monad.M (Ps2.ps2 W) X → M X :=
  zoom
    (λ s, let '(m, x, y) := m_ps2 s in Ps2.mk_ps2 m x y (t_idt (m_tables s)) (sy_video (m_sys s)) (world s))
    (λ p s, let t := m_tables s in
       put_ps2 (Ps2.mouse_state p, Ps2.kbd_x p, Ps2.kbd_y p)
         (put_tables (mk_tables (t_gdt t) (Ps2.p_idt p) (t_words t))
           (put_sys (set_video (sy_cursor (m_sys s)) (Ps2.p_mem p) (set_world (Ps2.p_world p) (m_sys s))) s))).

Definition http_state (s : machine) : Http.http H :=
  let h := Https.x_http_state (m_https s) in
  Http.mk_http (Http.http_initialized h) (Http.active_clients h) (Http.client_count h) (Http.clients h) (Http.requests h)
    (Http.responses h) (Http.strings h) (Http.bodies h) (net_state (m_sys s)).
(** The sockets and the heap below them. *)
Definition put_net (n : Net.net H) (s : machine) : machine :=
  let y := m_sys s in
  put_sys (mk_sys (sy_files y) (program_break y) (next_mmap_addr y) (sy_cursor y) (Ip.ip_heap (Net.ip_layer n))
             (sy_fs y) n (sy_kernel y) (sy_machine y) (sy_video y) (sy_world y)) s.
Definition on_https {X} : Monad.M (Https.https H W) X → M X :=
  zoom
    (λ s, let x := m_https s in
       Https.mk_https (http_state s) (world s) (Https.tls_initialized x) (Https.https_global_initialized x) (Https.crypto_seed x)
         (Https.contexts x) (Https.secrets x) (Https.sockets x))
    (λ x s, put_https x (put_net (Http.h_net (Https.x_http_state x)) (put_world (Https.x_world x) s))).
Definition on_dns {X} : Monad.M (Dns.dns H) X → M X :=
  zoom
    (λ s, let d := m_dns s in Dns.mk_dns (Dns.dns_servers d) (Dns.dns_query_id d) (Dns.dns_statistics d) (net_state (m_sys s)))
    (λ d s, put_dns d (put_net (Dns.d_net d) s)).

Definition on_tty {X} : Monad.M (Tty.tty_sys W) X → M X :=
  zoom
    (λ s, Tty.mk_sys (m_tty s).1 (m_tty s).2 (sy_video (m_sys s)) (world s))
    (λ t s, put_tty (Tty.tty_devices t, Tty.tty_count t)
       (put_sys (set_video (sy_cursor (m_sys s)) (Tty.t_mem t) (set_world (Tty.t_world t) (m_sys s))) s)).

Definition on_video {X} : Monad.M (gmap Z Z) X → M X :=
  zoom (λ s, sy_video (m_sys s)) (λ v s, put_sys (set_video (sy_cursor (m_sys s)) v (m_sys s)) s).

(** [pit_init] works on the ports and on the processes. *)
Definition on_pit (m : Monad.M (W * Process.kernel A H) ()) : M () := λ s,
  match m (world s, kernel_state (m_sys s)) with
  | Some (_, (w, k)) => zoom m_sys put_sys (kernel_do (λ _, Some k)) (put_world w s)
  | None => None
  end.

(** ** The rest of [kmain] *)

Section devices.
Context (fuel : nat).                                (* polls of a device, and retries of a driver *)
Context (mem : gmap Z Z) (hhdm_offset rsdp_address : Z).   (* the firmware's tables; the boot loader's answers *)
Context (global_framebuffer : framebuffer).
Context (sti : W → W).
Context (mouse_interrupt_handler keyboard_handler : Z).
Context (trampoline : list Z) (cr3 ap_entry : Z).    (* ap_trampoline.asm, CR3 and the address of [ap_main] *)
Context (garbage : Z → list Z) (pipe_garbage : list Z) (syscall_entry : Z).

Definition log_info (msg : list Z) : M () := log_line fuel Log.LOG_LEVEL_INFO msg.
Definition log_debug (msg : list Z) : M () := log_line fuel Log.LOG_LEVEL_DEBUG msg.
Definition the_phys : M (Z → Z) := gets (λ s, Vmm.vmm_get_phys_addr (Elf.m_vm (sy_machine (m_sys s)))).

(** [kmain] from [sti] to [pci_init] *)
Definition start_buses : M () :=
  log_debug (text "Enabling Interrupts");;
  on_ports (modify sti);;
  log_debug (text "Enabled Interrupts");;
  on_ports pic_init;;
  log_info (text "PIC Initialized");;
  tables ← gets m_acpi;
  on_apic (Apic.ioapic_init mem hhdm_offset fuel tables);;
  log_info (text "IOAPIC Initialized");;
  on_apic (Apic.lapic_init mem hhdm_offset tables);;
  on_apic Apic.lapic_enable;;
  log_info (text "Local APIC Initialized");;
  on_usb (on_snd (Usb.usb_init fuel));;
  log_info (text "USB Initialized");;
  on_ps2 (Ps2.keyboard_init keyboard_handler);;
  log_info (text "Keyboard Initialized");;
  on_ps2 (Ps2.mouse_init mouse_interrupt_handler);;
  on_ps2 Ps2.mouse_enable;;
  log_info (text "PS/2 Mouse Initialized");;
  on_usb (UsbHid.usb_mouse_init fuel);;
  log_info (text "USB Mouse Initialized");;
  on_usb UsbHid.usb_keyboard_init;;
  log_info (text "USB Keyboard Initialized");;
  (λ s, a ← Acpi.acpi_init mem rsdp_address (m_acpi s); Some ((), put_acpi a s));;
  log_info (text "ACPI Initialized");;
  tables ← gets m_acpi;
  on_pci (Pci.pci_init mem tables);;
  log_info (text "PCI Initialized").

(** [kmain] from [ip_init] to [nvme_init] *)
Definition start_network : M () :=
  p ← gets pci_state;
  on_sys (on_net (Net.on_ip (Ip.ip_init p)));;
  log_info (text "IP Stack Initialized");;
  phys ← the_phys;
  on_netdev (Netdev.netdev_init phys);;
  log_info (text "Network Devices Initialized");;
  p ← gets pci_state;
  on_sys (on_net (Net.net_init p));;
  log_info (text "Network Stack Initialized");;
  phys ← the_phys;
  on_nvme (Nvme.nvme_init phys fuel);;
  log_info (text "NVMe Initialized").

(** [kmain] from [http_init] to [ext2_init] *)
Definition start_services : M () :=
  on_https (Https.on_http Http.http_init);;
  log_info (text "HTTP Initialized");;
  on_https (Https.https_init);;
  log_info (text "HTTPS Initialized");;
  on_https Https.tls_init;;
  log_info (text "TLS Initialized");;
  on_dns Dns.dns_init;;
  log_info (text "DNS Initialized");;
  on_wifi (Wifi.wifi_init fuel);;
  log_info (text "WiFi Initialized");;
  found ← gets (λ s, bool_decide (is_Some (Nvme.nvme_get_device 0 (m_nvme s))));
  time ← on_ports Ext2Clock.ext2_time_init;
  on_sys (on_fs (Ext2.ext2_init 0 found time garbage));;
  log_info (text "Filesystem Initialized").

(** [kmain] from [serial_init] to the loop that does nothing *)
Definition start_processes : M () :=
  on_ports (serial_init COM1);;
  log_info (text "Serial Communication Initialized");;
  on_sys (kernel_do (λ k, Some (Process.process_init k)));;
  log_info (text "Process Management Initialized");;
  on_sys (kernel_do (λ k, Some (Process.scheduler_init k)));;
  log_info (text "Scheduler Initialized");;
  on_pit Pit.pit_init;;
  log_info (text "PIT Initialized");;
  tables ← gets m_acpi;
  on_smp (Smp.smp_init mem tables fuel);;
  on_smp (Smp.smp_boot_aps fuel trampoline cr3 ap_entry);;
  log_info (text "SMP Initialized");;
  on_tty (Tty.tty_init (Some global_framebuffer));;
  log_info (text "TTY Initialized");;
  on_sys (λ y, Some ((), set_heap (Pipe.pipe_create pipe_garbage (sy_heap y)).2 y));;
  log_info (text "Pipe Created");;
  on_ports Rtc.rtc_init;;
  log_info (text "RTC Initialized");;
  on_sys (syscalls_init fuel syscall_entry);;
  log_info (text "System calls initialized successfully");;
  on_video (draw_string global_framebuffer (text "Welcome to AlephOS!") 0 0 WHITE);;
  log_info (text "Welcome message displayed");;
  log_info (text "Kernel Initialization Complete").

(** Everything up to the loop; the loop itself never ends. *)
Definition start_devices : M () := start_buses;; start_network;; start_services;; start_processes.
Definition kmain : M () := start_devices;; fault.
End devices.
End kmain.

(** ** What the calls leave alone *)

Section frames.
Context {A H D W : Type} `{!PageAlloc A, !Malloc H, !Http.Realloc H, !BlockDev D}.
Context `{!Ports W, !Msr W, !Pci.PciBus W, !Bus W, !Apicpu W, !Idt.Cpu W}.
Abbreviation machine := (machine A H D W).

Lemma keeps_zoom {T X} (P : machine → Prop) (Q : T → Prop) get put (m : Monad.M T X) :
  keeps Q m → (∀ s, P s → Q (get s)) → (∀ t s, P s → Q t → P (put t s)) → keeps P (zoom get put m).
Proof.
  intros Hm Hget Hput s x s' Hr Hs. unfold zoom in Hr. destruct (m (get s)) as [[y t]|] eqn:E; [|done]. injection Hr as <- <-.
  apply Hput; [done|]. by eapply Hm; [exact E|apply Hget].
Qed.

Lemma keeps_zoom_any {T X} (P : machine → Prop) get put (m : Monad.M T X) :
  (∀ t s, P s → P (put t s)) → keeps P (zoom get put m).
Proof. intros Hput. apply (keeps_zoom P (λ _, True)); auto. done. Qed.

(** *** From the PCI scan on: the list of devices stays *)

Definition devices_of (l : list Pci.pci_device) (s : machine) : Prop := Pci.pci_devices (m_pci s) = l.

Lemma keeps_devices_sys {X} l (m : Monad.M (sys A H D W) X) : keeps (devices_of l) (on_sys m).
Proof. by apply keeps_zoom_any. Qed.
Lemma keeps_devices_log l fuel level msg : keeps (devices_of l) (log_line fuel level msg : Monad.M machine ()).
Proof. apply keeps_devices_sys. Qed.

Lemma keeps_devices_netdev l (m : Monad.M (Netdev.netdevs * plat A H W) ()) :
  keeps (with_devices l) m → keeps (devices_of l) (on_netdev m : Monad.M machine ()).
Proof. intros Hm. apply (keeps_zoom _ (with_devices l)); [done|done|]. by intros [n p] s _ Hp. Qed.
End frames.

(** C30: when the scan of the PCI bus has found an NVMe controller, [kmain] does not
    get past [nvme_init]: none of the services, the file system, the processes
    and the system calls is ever started. *)
Theorem kmain_stops_at_nvme {A H D W} `{!PageAlloc A, !Malloc H, !Http.Realloc H, !BlockDev D, !Ports W, !Msr W, !Pci.PciBus W, !Bus W, !Apicpu W, !Idt.Cpu W}
    fuel k d (s : machine A H D W) :
  Pci.pci_scan_for_class Pci.PCI_CLASS_STORAGE 8 (m_pci s) = Some (k, d) → start_network fuel s = None.
Proof.
  intros Hd. destruct (start_network fuel s) as [r|] eqn:Hr; [exfalso|done].
  set (l := Pci.pci_devices (m_pci s)). assert (devices_of l s) as Hs by done.
  unfold start_network in Hr. apply run_bind in Hr as (p & s1 & [= <- <-] & Hr).
  apply run_bind in Hr as (r1 & s2 & E1 & Hr). pose proof (keeps_devices_sys l _ _ _ _ E1 Hs) as HE1.
  apply run_bind in Hr as (r2 & s3 & E2 & Hr). pose proof (keeps_devices_log l _ _ _ _ _ _ E2 HE1) as HE2.
  apply run_bind in Hr as (phys & s4 & [= <- <-] & Hr). 
  apply run_bind in Hr as (r3 & s5 & E3 & Hr). pose proof (keeps_devices_netdev l _ (Netdev.keeps_netdev_init l _) _ _ _ E3 HE2) as HE3.
  apply run_bind in Hr as (r4 & s6 & E4 & Hr). pose proof (keeps_devices_log l _ _ _ _ _ _ E4 HE3) as HE4.
  apply run_bind in Hr as (p' & s7 & [= <- <-] & Hr).
  apply run_bind in Hr as (r5 & s8 & E5 & Hr). pose proof (keeps_devices_sys l _ _ _ _ E5 HE4) as HE5.
  apply run_bind in Hr as (r6 & s9 & E6 & Hr). pose proof (keeps_devices_log l _ _ _ _ _ _ E6 HE5) as HE6.
  apply run_bind in Hr as (phys' & s10 & [= <- <-] & Hr). apply run_bind in Hr as (r7 & s11 & E7 & _).
  unfold on_nvme, zoom in E7. rewrite (Nvme.nvme_init_loops _ fuel k d) in E7; [done|].
  unfold Pci.pci_scan_for_class, plat_state, pci_state. cbn. rewrite HE6. exact Hd.
Qed.

(** *** Until the firmware tables are read: the interrupt controllers and USB stay as they are *)

Section order.
Context {A H D W : Type} `{!PageAlloc A, !Malloc H, !Http.Realloc H, !BlockDev D}.
Context `{!Ports W, !Msr W, !Pci.PciBus W, !Bus W, !Apicpu W, !Idt.Cpu W}.
Abbreviation machine := (machine A H D W).
Context (base n : Z) (l : list Apic.ioapic).

Definition own (a : Apic.apic W) : Prop := Apic.lapic_base a = base ∧ Apic.ioapics a = l ∧ Apic.num_ioapics a = n.
Definition idle (s : machine) : Prop := own (m_apic s) ∧ Usb.u_initialized (m_usb s) = false.
Definition unread (s : machine) : Prop := idle s ∧ Acpi.madt (m_acpi s) = 0.

Lemma keeps_own_world {X} (m : Monad.M W X) : keeps own (Apic.on_world m).
Proof. intros s x s' Hr Hs. unfold Apic.on_world in Hr. destruct (m (Apic.a_world s)) as [[y w]|]; [|done]. by injection Hr as <- <-. Qed.
Lemma keeps_own_read reg : keeps own (Apic.lapic_read reg).
Proof.
  unfold Apic.lapic_read. apply keeps_bind; [apply keeps_gets|intros b]. destruct (b =? 0); [apply keeps_ret|apply keeps_own_world].
Qed.
Lemma keeps_own_write reg v : keeps own (Apic.lapic_write reg v).
Proof.
  unfold Apic.lapic_write. apply keeps_bind; [apply keeps_gets|intros b]. destruct (b =? 0); [apply keeps_ret|].
  do 2 (apply keeps_bind; [apply keeps_own_world|intros _]). apply keeps_ret.
Qed.
Lemma keeps_own_enable : keeps own Apic.lapic_enable.
Proof. apply keeps_bind; [apply keeps_own_read|intros v; apply keeps_own_write]. Qed.

(** Without a table of the controllers both initialisations return at once. *)
Lemma keeps_own_lapic mem offset tables : Acpi.madt tables = 0 → keeps own (Apic.lapic_init mem offset tables).
Proof.
  intros Hm. unfold Apic.lapic_init. apply keeps_bind; [apply keeps_own_world|intros present].
  destruct (negb present); [apply keeps_ret|]. unfold Acpi.acpi_get_local_apic_address. rewrite Hm. cbn. apply keeps_ret.
Qed.
Lemma keeps_own_ioapic mem offset fuel tables : Acpi.madt tables = 0 → keeps own (Apic.ioapic_init mem offset fuel tables).
Proof. intros Hm. unfold Apic.ioapic_init, Acpi.acpi_get_madt. rewrite Hm. apply keeps_ret. Qed.

(** A property of the second part of a pair. *)
Lemma keeps_snd_part {S T X} (Q : T → Prop) (m : Monad.M T X) : keeps Q m → keeps (λ s : S * T, Q s.2) (on_snd m).
Proof.
  intros Hm s x s' Hr Hs. unfold on_snd in Hr. destruct (m s.2) as [[y t]|] eqn:E; [|done]. injection Hr as <- <-. by eapply Hm.
Qed.
Lemma keeps_fst_part {S T X} (Q : T → Prop) (m : Monad.M S X) : keeps (λ s : S * T, Q s.2) (on_fst m).
Proof. intros s x s' Hr Hs. unfold on_fst in Hr. destruct (m s.1) as [[y t]|]; [|done]. by injection Hr as <- <-. Qed.

Abbreviation stopped := (Usb.stopped (A := A) (H := H) (W := W)).
Lemma keeps_stopped_mouse fuel : keeps (λ s, stopped s.2) (UsbHid.usb_mouse_init fuel).
Proof.
  unfold UsbHid.usb_mouse_init. apply keeps_bind; [apply keeps_fst_part|intros s]. destruct (UsbHid.mouse_initialized s); [apply keeps_ret|].
  apply keeps_bind; [apply keeps_fst_part|intros _]. apply keeps_bind; [|intros _; apply keeps_ret].
  apply keeps_snd_part, Usb.stopped_on_snd.
Qed.
Lemma keeps_stopped_keyboard : keeps (λ s, stopped s.2) UsbHid.usb_keyboard_init.
Proof.
  unfold UsbHid.usb_keyboard_init. apply keeps_bind; [apply keeps_fst_part|intros s]. destruct (UsbHid.kbd_initialized s); [apply keeps_ret|].
  apply keeps_fst_part.
Qed.

(** *** The calls of [start_buses] *)

Section calls.
Context (P : machine → Prop) (HP : P = idle ∨ P = unread).

Lemma keeps_idle_sys {X} (m : Monad.M (sys A H D W) X) : keeps P (on_sys m).
Proof. apply keeps_zoom_any. by destruct HP as [-> | ->]. Qed.
Lemma keeps_idle_log fuel level msg : keeps P (log_line fuel level msg : Monad.M machine ()).
Proof. apply keeps_idle_sys. Qed.
Lemma keeps_idle_apic {X} (m : Monad.M (Apic.apic W) X) : keeps own m → keeps P (on_apic m).
Proof.
  intros Hm. apply (keeps_zoom _ own); [done|..]; destruct HP as [-> | ->].
  - intros s Hs. exact (proj1 Hs).
  - intros s Hs. exact (proj1 (proj1 Hs)).
  - intros a s Hs Ha. exact (conj Ha (proj2 Hs)).
  - intros a s Hs Ha. exact (conj (conj Ha (proj2 (proj1 Hs))) (proj2 Hs)).
Qed.
Lemma keeps_idle_usb {X} (m : Monad.M (UsbHid.hid * (Usb.usb * (Xhci.xhci * plat A H W))) X) :
  keeps (λ s, stopped s.2) m → keeps P (on_usb m).
Proof.
  intros Hm. apply (keeps_zoom _ (λ s, stopped s.2)); [done|..]; destruct HP as [-> | ->].
  - intros s Hs. exact (proj2 Hs).
  - intros s Hs. exact (proj2 (proj1 Hs)).
  - intros [h [u [x p]]] s Hs Hu. exact (conj (proj1 Hs) Hu).
  - intros [h [u [x p]]] s Hs Hu. exact (conj (conj (proj1 (proj1 Hs)) Hu) (proj2 Hs)).
Qed.
Lemma keeps_idle_ps2 {X} (m : Monad.M (Ps2.ps2 W) X) : keeps P (on_ps2 m).
Proof. apply keeps_zoom_any. destruct HP as [-> | ->]; intros t s Hs; destruct s; exact Hs. Qed.
Lemma keeps_idle_pci {X} (m : Monad.M (Pci.pci W) X) : keeps P (on_pci m).
Proof. apply keeps_zoom_any. destruct HP as [-> | ->]; intros t s Hs; destruct s; exact Hs. Qed.
End calls.

(** Runs from [unread] to [idle]: a step that keeps [unread], the reading of the
    tables, and the call that ends it. *)
Definition leads {X} (m : Monad.M machine X) : Prop := ∀ s x s', m s = Some (x, s') → unread s → idle s'.

Lemma leads_bind {X Y} (m : Monad.M machine X) (f : X → Monad.M machine Y) : keeps unread m → (∀ x, leads (f x)) → leads (m ≫= f).
Proof. intros Hm Hf s y s' (x & s1 & Hx & Hy)%run_bind Hs. eapply Hf; [exact Hy|]. by eapply Hm. Qed.
Lemma leads_tables {Y} (f : Acpi.acpi → Monad.M machine Y) :
  (∀ t, Acpi.madt t = 0 → leads (f t)) → leads (gets m_acpi ≫= f).
Proof. intros Hf s y s' Hr Hs. eapply Hf; [|exact Hr|exact Hs]. apply Hs. Qed.
Lemma leads_acpi mem rsdp {Y} (f : () → Monad.M machine Y) : (∀ x, keeps idle (f x)) →
  leads ((λ s, a ← Acpi.acpi_init mem rsdp (m_acpi s); Some ((), put_acpi a s)) ≫= f).
Proof.
  intros Hf s y s' (x & s1 & Hx & Hy)%run_bind [Hs _]. destruct (Acpi.acpi_init mem rsdp (m_acpi s)) as [a|]; [|done].
  injection Hx as <- <-. eapply Hf; [exact Hy|]. exact Hs.
Qed.

Lemma start_buses_idle fuel mem offset rsdp sti mouse_handler key_handler :
  leads (start_buses fuel mem offset rsdp sti mouse_handler key_handler).
Proof.
  assert (unread = idle ∨ unread = unread) as HU by by right. assert (idle = idle ∨ idle = unread) as HI by by left.
  unfold start_buses, log_info, log_debug, on_ports.
  do 5 (apply leads_bind; [by apply keeps_idle_sys|intros ?]). apply leads_tables. intros t Ht.
  apply leads_bind; [by apply keeps_idle_apic, keeps_own_ioapic|intros ?]. apply leads_bind; [by apply keeps_idle_sys|intros ?].
  apply leads_bind; [by apply keeps_idle_apic, keeps_own_lapic|intros ?].
  apply leads_bind; [by apply keeps_idle_apic, keeps_own_enable|intros ?]. apply leads_bind; [by apply keeps_idle_sys|intros ?].
  apply leads_bind; [by apply keeps_idle_usb, keeps_snd_part, Usb.usb_init_stopped|intros ?]. apply leads_bind; [by apply keeps_idle_sys|intros ?].
  apply leads_bind; [by apply keeps_idle_ps2|intros ?]. apply leads_bind; [by apply keeps_idle_sys|intros ?].
  do 2 (apply leads_bind; [by apply keeps_idle_ps2|intros ?]). apply leads_bind; [by apply keeps_idle_sys|intros ?].
  apply leads_bind; [by apply keeps_idle_usb, keeps_stopped_mouse|intros ?]. apply leads_bind; [by apply keeps_idle_sys|intros ?].
  apply leads_bind; [by apply keeps_idle_usb, keeps_stopped_keyboard|intros ?]. apply leads_bind; [by apply keeps_idle_sys|intros ?].
  apply leads_acpi. intros ?. apply keeps_bind; [by apply keeps_idle_sys|intros ?]. apply keeps_bind; [apply keeps_gets|intros tables].
  apply keeps_bind; [by apply keeps_idle_pci|intros ?]. by apply keeps_idle_sys.
Qed.
End order.

(** C29: [kmain] asks for the interrupt controllers and for USB before it reads the
    firmware's tables and scans the PCI bus: when it comes back from the scan, no
    I/O APIC has been recorded, the local APIC has no address, so that every
    access to it does nothing, and USB is not initialised. *)
Theorem controllers_stay_absent {A H D W} `{!PageAlloc A, !Malloc H, !Http.Realloc H, !BlockDev D, !Ports W, !Msr W, !Pci.PciBus W, !Bus W, !Apicpu W, !Idt.Cpu W}
    fuel mem offset rsdp sti mouse_handler key_handler (s s' : machine A H D W) :
  Acpi.madt (m_acpi s) = 0 → Apic.lapic_base (m_apic s) = 0 → Apic.num_ioapics (m_apic s) = 0 → Usb.u_initialized (m_usb s) = false →
  start_buses fuel mem offset rsdp sti mouse_handler key_handler s = Some ((), s') →
  Apic.num_ioapics (m_apic s') = 0 ∧ Apic.ioapics (m_apic s') = Apic.ioapics (m_apic s) ∧
  Usb.u_initialized (m_usb s') = false ∧ Apic.lapic_base (m_apic s') = 0 ∧
  ∀ reg v w, Apic.lapic_base w = Apic.lapic_base (m_apic s') →
    Apic.lapic_write reg v w = Some ((), w) ∧ Apic.lapic_read reg w = Some (0, w).
Proof.
  intros Hm Hb Hn Hu Hr.
  assert (unread 0 0 (Apic.ioapics (m_apic s)) s) as Hs by (split; [split; [split; [done|split; [done|done]]|done]|done]).
  destruct (start_buses_idle 0 0 (Apic.ioapics (m_apic s)) _ _ _ _ _ _ _ _ _ _ Hr Hs) as [(Hb' & Hl' & Hn') Hu'].
  split_and!; [done|done|done|done|]. intros reg v w Hw. rewrite Hb' in Hw.
  unfold Apic.lapic_write, Apic.lapic_read, mbind, M_bind, gets. rewrite Hw. by split.
Qed.

(** ** Witnesses: a board whose ports and buses answer alike, without devices *)

#[local] Existing Instance Pmm.pmm_page_alloc.
#[local] Existing Instance Ext2Demo.ram_dev.
#[local] Existing Instance Http.bump_realloc.

Inductive board := the_board.
#[export] Instance board_ports : Ports board := { outb port v w := w; inb port w := (33, w) }.
#[export] Instance board_msr : Msr board := { rdmsr r w := 0; wrmsr r v w := w }.
#[export] Instance board_pci : Pci.PciBus board := {
  Pci.outl p v w := w; Pci.inl p w := (4294967295, w); Pci.read32 a w := (4294967295, w); Pci.write32 a v w := w }.
#[export] Instance board_bus : Bus board := { load n a w := (0, w); store n a v w := w }.
#[export] Instance board_cpu : Apicpu board := { cpuid_edx f w := 512; read_msr r w := 0; write_msr r v w := w }.
#[export] Instance board_idt_cpu : Idt.Cpu board := { Idt.cli w := w; Idt.hlt w := w; Idt.write_cr2 v w := w }.

Definition demo_board_sys : sys Pmm.pmm nat Ext2Demo.ram board :=
  mk_sys SyscallSpec.no_files 1073741824 105553116266496 (0, 0) 0%nat SyscallSpec.demo_fs Net.demo_net SyscallSpec.demo_kernel
    (Elf.mk_machine Vmm.demo_vmm ∅) ∅ the_board.
Definition no_apic : Apic.apic board := Apic.mk_apic 0 [] 0 the_board.
Definition no_http : Http.http nat := Http.mk_http false [] 0 ∅ ∅ ∅ ∅ ∅ Net.demo_net.

(** The state before [sti], with the devices given on the PCI bus. *)
Definition demo_board (devices : list Pci.pci_device) : machine Pmm.pmm nat Ext2Demo.ram board :=
  mk_machine demo_board_sys demo_tables (Acpi.mk_acpi 0 0 0 0 false) no_apic (Pci.mk_pci_state devices 0 the_board)
    (Usb.mk_usb false 0 0 0 0 ∅ ∅ ∅ ∅) (Xhci.mk_xhci 0 0 0 ∅ ∅ ∅ ∅) (UsbHid.mk_hid [] 0 false UsbHid.no_keys [] 0 0 false ∅)
    (Ps2.mk_mouse 0 [0; 0; 0; 0] false 0, 0, 0) (Netdev.mk_netdevs [] 0 ∅) (Nvme.mk_nvme [] 0)
    (Https.mk_https no_http the_board false false 0 ∅ ∅ ∅) (Dns.mk_dns [] 0 Dns.zero_stats Net.demo_net) ∅
    (Smp.mk_smp [] 0 0 Gdt.demo_gdt Pmm.demo_pmm no_apic) ([], 0).

Lemma kmain_stops_at_nvme_witness : start_network 10 (demo_board [Nvme.demo_controller]) = None.
Proof. apply (kmain_stops_at_nvme 10 0%nat Nvme.demo_controller). reflexivity. Defined.

Lemma controllers_stay_absent_witness :
  ∃ s', start_buses 2 ∅ 0 0 (λ w, w) 4096 8192 (demo_board []) = Some ((), s') ∧ Usb.u_initialized (m_usb s') = false ∧
    Apic.lapic_base (m_apic s') = 0.
Proof.
  destruct (start_buses 2 ∅ 0 0 (λ w, w) 4096 8192 (demo_board [])) as [[[] s']|] eqn:E; [|vm_compute in E; discriminate].
  destruct (controllers_stay_absent 2 ∅ 0 0 (λ w, w) 4096 8192 (demo_board []) s' eq_refl eq_refl eq_refl eq_refl E) as (_ & _ & Hu & Hb & _).
  exists s'. split; [reflexivity|]. split; [exact Hu|exact Hb].
Defined.
